(* ===== verification/_CoqProject ===== *)
-Q . S2P
Prelude.v
Memory.v
StringLib.v
ListHead.v
SpinLock.v
Slab.v
PgTable.v
FrameAlloc.v
PageAlloc.v
Paging.v
AddrSpace.v
VirtMem.v
PagingInst.v
KState.v
Sched.v
Threads.v
Fork.v
Signal.v
Ipc.v
SchedInst.v
Ports.v
Console.v
Keyboard.v
Ata.v
FileSys.v
Persist.v
FsInst.v
Net.v
Descriptors.v
Pci.v
Elf.v
Syscall.v
Exec.v
PipeCall.v
TypeMem.v
Typing.v
SyscallInst.v
Apic.v
Nic.v
Machine.v
Boot.v
BootRun.v
SchedRun.v
MachineInst.v
