(* ===== verification/Prelude.v ===== *)
(** * RELIS: a verification library for the kernel

    RELIS is a small x86_64 kernel in C.  This library translates its C code into
    executable definitions and proves what makes each part correct.  A program
    fragment is a computation in the monad [M] below: it takes a state and ends
    with a result and a new state ([Done]), stops the machine as the source does
    in its panics ([Halt]), makes an access the C program must not make
    ([Fault]: a null pointer, an index outside an array, a page that is not
    mapped, a division by zero), or does not come back within its fuel
    ([Spin], also the fate of a processor that takes a lock it already holds).
    Integers are [Z], reduced to their width where the C type wraps.  The
    components run on their own part of the state; [zoom] lifts them into the
    kernel and the machine, in the order the source calls them.

    ** The program and the files

    Foundations
    - [Prelude]: the monad, its rules ([safe], [keeps], [ensures]), machine integers,
      bits.
    - [Memory]: byte memory, little endian; readb .. writeq of arch/io.h.
    - [StringLib]: lib/string.c.  [ListHead]: include/relis/list.h, nodes in a heap
      addressed by their links.  [SpinLock]: include/relis/spinlock.h, on one
      processor and as a step relation on many.  [Slab]: mm/slab.c.

    Memory
    - [PgTable]: include/asm/pgtable.h.  [FrameAlloc]: the class of what page tables
      need of alloc_page and free_page; [PageAlloc]: mm/page_alloc.c, its instance.
    - [Paging]: arch/mm/init.c, page tables in memory behind the direct map, with
      the hardware walk ([translate]) they are compared with; [AddrSpace]: the two
      functions of the same file that make address spaces; [VirtMem]: mm/memory.c,
      mm/vmalloc.c, mm/mmap.c, mm/mprotect.c.

    Tasks
    - [KState]: task_struct, files, inodes, pipes and the statics of the kernel;
      the addresses the linker gives are the class [Layout].
    - [Sched]: kernel/sched/*.c; [Threads]: the proofs about kernel_thread and
      task_setup_stdio; [Fork]: kernel/fork.c; [Signal]: kernel/signal.c; [Ipc]:
      kernel/ipc.c.  switch_to is assembly: it is recorded, and a caller that
      loses the processor is [Suspended] with the rest of its code.

    Devices and files
    - [Ports]: in and out instructions, every input port a stream of values.
    - [Console]: kernel/drivers/vga.c, serial.c, kernel/printk/printk.c; [Keyboard]:
      keyboard.c; [Ata]: drivers/block/ata.c; [FileSys]: fs/vfs.c, fs/proc/proc.c,
      fs/relisfs/relisfs.c; [Persist]: a disk across two mounts; [Net]: net/*; [Descriptors]: arch/gdt.c, arch/idt.c;
      [Pci]: drivers/pci/pci.c.
    - [Apic]: include/asm/apic.h, arch/smp/apic.c; [Nic]: nic_hw.c and nic_netdev.c.
      Their registers are reached through the page tables; a bus records them.

    The kernel and the machine
    - [Elf]: fs/binfmt_elf.c; [Syscall]: kernel/entry/syscall.c, fs/exec.c; [Exec]:
      the proofs about exec.c; [PipeCall]: pipes through the dispatcher.
    - [TypeMem], [Typing]: the invariant of the whole kernel, kept by every entry
      into it: locks, books of the allocators, tasks, descriptors, pipes, devices.
    - [Machine]: kernel/irq/manage.c, kernel/drivers/timer.c, kernel/smp/percpu.c,
      arch/smp/ap_boot.c, arch/smp/smp_boot.c, nic_main.c on the whole machine.
    - [Boot]: init/main.c.  [BootRun]: start_kernel as a whole, up to the first
      thread.  [SchedRun]: the scheduler as a state machine under any
      sequence of events.
    - [PagingInst], [SchedInst], [FsInst], [SyscallInst], [MachineInst]: concrete
      states on which the theorems are applied.

    ** What the theorems show

    - Page tables and frames (C1 to C4, C18, C19, C26 to C28, C36): mapping a page
      makes the hardware see it, disturbs no other page of any address space, and
      the walk of the kernel is the walk of the hardware, all outside huge pages;
      inside the 2 MB pages of the boot tables the same code takes the page for a
      table, and C1, C2 and C26 say what happens then.  A cloned address space is a
      deep copy; faults, vmalloc and the ELF loader change exactly the pages they
      should, mprotect those of an aligned range (it can miss the last page of an
      unaligned one); the bitmap refines a set of used frames.
    - Tasks (C5 to C9, C21 to C23, C29): round robin, thread creation, fork, exec,
      signals (also when a zombie gets the processor back), the timer, the boot up
      to the first thread, and the run of the scheduler from the boot under any
      sequence of events against a scheduler on pids.
    - The invariant (C10): in every run, with calls suspended and continued in any
      order, every lock is free between entries, the books of the page allocator
      and the heap agree, and tasks, descriptors, pipes, the cursor and the
      keyboard ring are within their bounds.
    - Queues, containers and files (C11 to C17): pipes, also through the system
      calls, lists, keyboard and receive ring as queues and sequences; a written
      file reads back, also after another boot from the same disk.
    - System calls and devices (C20, C24, C25, C30 to C35, C40):
      packets as they are on the wire, with the fields the code stores in the wrong
      byte order; rejection without effect and the open that leaks a file; the
      terminal, the interrupt tables and controllers, termination of the PCI scan,
      path lookup; printk, with the smallest int and a per cent sign at the end.
    - The library (C37 to C39): heap (with the requests that wrap), locks, memory
      moves.

    ** Fuel and bounds

    Loops over a count run over the list of their indices and need no fuel.
    Scans that stop at a terminator (kstrlen and the like), waits for a device
    (serial_wait, the status of the disk) and walks of a list take fuel; the
    theorems ask for more fuel than the string, the delay or the list is long, so
    they prove that the loop ends.  The wait loops of the disk and the keyboard
    have the bounds of the source.  csum_fold has fuel 4: a 32-bit sum is folded
    after two rounds.  pci_scan_bus has fuel 33: every recursion follows a bridge
    recorded in a table of 32 entries.  A thread that spins as a zombie has fuel
    for its turns.  start_kernel passes its fuel to the PCI scan.  Theorems that mention the number of free frames or the room
    in the heap do so because the source stops, or stores through a null
    pointer, when they run out.

    ** What is not modelled

    - Assembly: entry code, interrupt stubs, switch_to, drop_to_user, the
      trampoline of the other processors.  Their effect on the state is a
      parameter or is recorded.
    - What printk writes when other components call it: it changes the screen and
      the serial line only, and printk itself is in [Console].
    - Interrupts between two steps of start_kernel: the run of the boot takes none.
      The timer, the keyboard and page faults are entries of their own elsewhere.
    - The translation cache: [invlpg] is recorded, translations always follow
      memory.  Delay loops and memory barriers have no effect.
    - User memory is one memory, [k_umem], not one per address space; a program
      that runs in user mode is not modelled.
    - The union of the two scheduling entities of a task is two fields; no code
      reads one after writing the other.
    - mm/vmscan.c and mm/oom_kill.c are stubs nobody calls.  mm/arch/mm/ and
      mm/include/ hold older copies of files that the Makefile does not build;
      arch/gdt.c holds both sides of an unresolved merge, of which the first is
      modelled.  arch/user_prog.c is the user program, an endless loop. *)

From Stdlib Require Export ZArith Lia.
From stdpp Require Export base gmap list_numbers strings numbers list.


Declare Scope relis_scope.
Delimit Scope relis_scope with relis.
#[export] Set Warnings "-clear-no-such-hyp".
#[global] Open Scope Z_scope.
#[global] Coercion Z.of_nat : nat >-> Z.

(** ** Machine integers

    An unsigned integer of [w] bits is a [Z] in [0, 2^w); every arithmetic
    operation of the C code that can leave that range is followed by the
    reduction below.  [signed w z] is the two's complement reading of the low
    [w] bits of [z]. *)
Definition wrap (w z : Z) : Z := z mod 2 ^ w.
Definition signed (w z : Z) : Z := (z + 2 ^ (w - 1)) mod 2 ^ w - 2 ^ (w - 1).

Abbreviation u8 := (wrap 8).
Abbreviation u16 := (wrap 16).
Abbreviation u32 := (wrap 32).
Abbreviation u64 := (wrap 64).
Abbreviation i8 := (signed 8).
Abbreviation i32 := (signed 32).
Abbreviation i64 := (signed 64).

(** [~x] at a given width. *)
Definition cnot (w x : Z) : Z := wrap w (Z.lnot x).
(** [1ULL << i]. *)
Definition bit (i : Z) : Z := Z.shiftl 1 i.
(** C's truth value of an integer. *)
Definition istrue (x : Z) : bool := negb (x =? 0).

(** ** Outcomes

    A kernel routine either returns, stops the machine in a
    [for (;;) cli; hlt] loop, performs an access outside the memory the model
    gives it (undefined behaviour in C), or keeps looping: a loop bound of the
    model ran out, or it spins on a lock that nobody releases. *)
Inductive outcome (A : Type) : Type :=
| Done (a : A)
| Halt (why : string)
| Fault
| Spin.
Arguments Done {A} a.
Arguments Halt {A} why.
Arguments Fault {A}.
Arguments Spin {A}.

(** Stateful computations over a state [S]. *)
Definition M (S A : Type) : Type := S -> outcome (A * S).

Definition kret {S A} (a : A) : M S A := fun s => Done (a, s).
Definition kbind {S A B} (m : M S A) (k : A -> M S B) : M S B :=
  fun s =>
    match m s with
    | Done (a, s') => k a s'
    | Halt w => Halt w
    | Fault => Fault
    | Spin => Spin
    end.
Definition kfault {S A} : M S A := fun _ => Fault.
Definition khalt {S A} (w : string) : M S A := fun _ => Halt w.
Definition kspin {S A} : M S A := fun _ => Spin.
Definition kget {S} : M S S := fun s => Done (s, s).
Definition kgets {S A} (f : S -> A) : M S A := fun s => Done (f s, s).
Definition kmod {S} (f : S -> S) : M S unit := fun s => Done (tt, f s).
(** A partial access: [None] is a fault. *)
Definition kopt {S A} (f : S -> option A) : M S A :=
  fun s => match f s with Some a => Done (a, s) | None => Fault end.
(** A partial update: [None] is a fault. *)
Definition kupd {S} (f : S -> option S) : M S unit :=
  fun s => match f s with Some s' => Done (tt, s') | None => Fault end.
(** Run a computation on a part of a larger state. *)
Definition zoom {S T A} (get : S -> T) (set : T -> S -> S) (m : M T A) : M S A :=
  fun s =>
    match m (get s) with
    | Done (a, t) => Done (a, set t s)
    | Halt w => Halt w
    | Fault => Fault
    | Spin => Spin
    end.
(** The loop [for (x : l) f(x)]. *)
Fixpoint kfor {S A} (l : list A) (f : A -> M S unit) : M S unit :=
  match l with
  | [] => kret tt
  | x :: l' => kbind (f x) (fun _ => kfor l' f)
  end.

Notation "'let*' x := c 'in' k" := (kbind c (fun x => k))
  (at level 10, x pattern, c at level 100, k at level 200,
   format "'[' 'let*'  x  :=  c  'in' ']' '//' k") : relis_scope.
Notation "c1 ';;;' c2" := (kbind c1 (fun _ => c2))
  (at level 199, right associativity, format "c1 ';;;' '//' c2") : relis_scope.
#[global] Open Scope relis_scope.

(** ** Reasoning about computations *)
Section Reasoning.
Context {S : Type}.

Lemma kbind_done {A B} (m : M S A) (k : A -> M S B) s a s' :
  m s = Done (a, s') -> kbind m k s = k a s'.
Proof. unfold kbind. by intros ->. Qed.

Lemma kbind_fault {A B} (m : M S A) (k : A -> M S B) s :
  m s = Fault -> kbind m k s = Fault.
Proof. unfold kbind. by intros ->. Qed.

Lemma kbind_halt {A B} (m : M S A) (k : A -> M S B) s w :
  m s = Halt w -> kbind m k s = Halt w.
Proof. unfold kbind. by intros ->. Qed.

Lemma kbind_spin {A B} (m : M S A) (k : A -> M S B) s :
  m s = Spin -> kbind m k s = Spin.
Proof. unfold kbind. by intros ->. Qed.

Lemma kbind_inv {A B} (m : M S A) (k : A -> M S B) s b s' :
  kbind m k s = Done (b, s') ->
  exists a s1, m s = Done (a, s1) /\ k a s1 = Done (b, s').
Proof.
  unfold kbind. destruct (m s) as [[a s1]| | |] eqn:E; try discriminate.
  intros H. by exists a, s1.
Qed.

Lemma kbind_assoc {A B C} (m : M S A) (k : A -> M S B) (h : B -> M S C) s :
  kbind (kbind m k) h s = kbind m (fun a => kbind (k a) h) s.
Proof. unfold kbind. by destruct (m s) as [[a s1]| | |]. Qed.

Lemma kopt_some {A} (f : S -> option A) s a :
  f s = Some a -> kopt f s = Done (a, s).
Proof. unfold kopt. by intros ->. Qed.
Lemma kopt_inv {A} (f : S -> option A) s a s' : kopt f s = Done (a, s') -> f s = Some a /\ s' = s.
Proof. unfold kopt. destruct (f s); [|done]. intros E. by injection E as -> ->. Qed.

Lemma kupd_some (f : S -> option S) s s' :
  f s = Some s' -> kupd f s = Done (tt, s').
Proof. unfold kupd. by intros ->. Qed.

Lemma zoom_done {T A} (get : S -> T) (set : T -> S -> S) (m : M T A) s a t :
  m (get s) = Done (a, t) -> zoom get set m s = Done (a, set t s).
Proof. unfold zoom. by intros ->. Qed.

Lemma zoom_inv {T A} (get : S -> T) (set : T -> S -> S) (m : M T A) s a s' :
  zoom get set m s = Done (a, s') ->
  exists t, m (get s) = Done (a, t) /\ s' = set t s.
Proof.
  unfold zoom. destruct (m (get s)) as [[a1 t]| | |]; try discriminate.
  intros [= <- <-]. by exists t.
Qed.

(** Loop rule: an invariant indexed by the elements still to be visited. *)
Lemma kfor_inv {A} (I : list A -> S -> Prop) (f : A -> M S unit) l s :
  I l s ->
  (forall x l' s1, I (x :: l') s1 -> exists s2, f x s1 = Done (tt, s2) /\ I l' s2) ->
  exists s', kfor l f s = Done (tt, s') /\ I [] s'.
Proof.
  intros H0 Hstep. revert s H0. induction l as [|x l IH]; intros s H0; simpl.
  - by exists s.
  - destruct (Hstep _ _ _ H0) as (s2 & Hf & H2).
    rewrite (kbind_done _ _ _ _ _ Hf). by apply IH.
Qed.

Lemma kfor_app {A} (f : A -> M S unit) l1 l2 s :
  kfor (l1 ++ l2) f s = kbind (kfor l1 f) (fun _ => kfor l2 f) s.
Proof.
  revert s. induction l1 as [|x l1 IH]; intros s; simpl; [done|].
  rewrite kbind_assoc. unfold kbind at 1 2.
  destruct (f x s) as [[[] s1]| | |]; [apply IH|done..].
Qed.
End Reasoning.

(** ** Total correctness up to a machine stop

    [safe stop m s Q]: from [s] the computation [m] neither faults nor loops; it
    returns with [Q], or it stops the machine, which it may do only when [stop]
    holds.  With [stop := False] this is total correctness. *)
Definition safe {S A} (stop : Prop) (m : M S A) (s : S) (Q : A -> S -> Prop) : Prop :=
  match m s with
  | Done (a, s') => Q a s'
  | Halt _ => stop
  | Fault | Spin => False
  end.

Section Safe.
Context {S : Type}.

Lemma safe_bind {A B} stop (m : M S A) (k : A -> M S B) s Q :
  safe stop m s (fun a s' => safe stop (k a) s' Q) -> safe stop (kbind m k) s Q.
Proof. unfold safe, kbind. by destruct (m s) as [[a s']| | |]. Qed.

(** One step with a known result, and a change of computation. *)
Lemma safe_step {A B} stop (m : M S A) (k : A -> M S B) s a s' Q :
  m s = Done (a, s') -> safe stop (k a) s' Q -> safe stop (kbind m k) s Q.
Proof. intros E. unfold safe, kbind. by rewrite E. Qed.

Lemma safe_eq {A} stop (m m' : M S A) s s' Q :
  m s = m' s' -> safe stop m' s' Q -> safe stop m s Q.
Proof. unfold safe. by intros ->. Qed.

Lemma safe_mono {A} (stop stop' : Prop) (m : M S A) s (Q Q' : A -> S -> Prop) :
  safe stop m s Q -> (stop -> stop') -> (forall a s', Q a s' -> Q' a s') -> safe stop' m s Q'.
Proof. unfold safe. destruct (m s) as [[a s']| | |]; naive_solver. Qed.

Lemma safe_done {A} stop (m : M S A) s a s' (Q : A -> S -> Prop) :
  m s = Done (a, s') -> Q a s' -> safe stop m s Q.
Proof. unfold safe. by intros ->. Qed.

Lemma safe_inv {A} (m : M S A) s Q :
  safe False m s Q -> exists a s', m s = Done (a, s') /\ Q a s'.
Proof. unfold safe. destruct (m s) as [[a s']| | |]; [by exists a, s'|done..]. Qed.

Lemma safe_outcome {A} stop (m : M S A) s Q :
  safe stop m s Q -> (exists a s', m s = Done (a, s') /\ Q a s') \/ (stop /\ exists w, m s = Halt w).
Proof.
  unfold safe. destruct (m s) as [[a s']|w| |]; [left; by exists a, s'|right; by eauto|done..].
Qed.

(** Loop rule for [kfor] over [seqZ]: the invariant speaks of the counter. *)
Lemma safe_for_seqZ stop (f : Z -> M S unit) (I : Z -> S -> Prop) n a s :
  I a s ->
  (forall i s1, a <= i < a + Z.of_nat n -> I i s1 -> safe stop (f i) s1 (fun _ s2 => I (i + 1) s2)) ->
  safe stop (kfor (seqZ a (Z.of_nat n)) f) s (fun _ s' => I (a + Z.of_nat n) s').
Proof.
  revert a s. induction n as [|n IH]; intros a s Ha Hstep.
  - simpl. rewrite Z.add_0_r. done.
  - rewrite seqZ_cons by lia. simpl kfor. apply safe_bind.
    eapply safe_mono; [apply Hstep; [lia|done]|done|]. intros [] s2 H2. cbn beta in H2.
    replace (Z.pred (Z.of_nat (Datatypes.S n))) with (Z.of_nat n) by lia.
    replace (a + Z.of_nat (Datatypes.S n)) with (Z.succ a + Z.of_nat n) by lia.
    apply IH; [by rewrite <- Z.add_1_r|]. intros i s1 Hi. apply Hstep. lia.
Qed.
End Safe.

(** ** Frames

    [keeps f m]: the computation [m] does not change the part [f] of the state. *)
Section Keeps.
Context {S X : Type} (f : S -> X).
Definition keeps {A} (m : M S A) : Prop := forall s a s', m s = Done (a, s') -> f s' = f s.

Lemma keeps_ret {A} (a : A) : keeps (kret a).
Proof. intros s b s' E. by injection E as _ <-. Qed.
Lemma keeps_bind {A B} (m : M S A) (k : A -> M S B) : keeps m -> (forall a, keeps (k a)) -> keeps (kbind m k).
Proof.
  intros Hm Hk s b s'. unfold kbind. destruct (m s) as [[a s1]| | |] eqn:E; [|done..].
  intros Ek. rewrite (Hk a s1 b s' Ek). exact (Hm s a s1 E).
Qed.
Lemma keeps_gets {A} (g : S -> A) : keeps (kgets g).
Proof. intros s b s' E. by injection E as _ <-. Qed.
Lemma keeps_mod g : (forall s, f (g s) = f s) -> keeps (kmod g).
Proof. intros Hg s b s' E. injection E as _ <-. apply Hg. Qed.
Lemma keeps_opt {A} (g : S -> option A) : keeps (kopt g).
Proof. intros s b s'. unfold kopt. destruct (g s); [|done]. intros E. by injection E as _ <-. Qed.
Lemma keeps_upd g : (forall s s', g s = Some s' -> f s' = f s) -> keeps (kupd g).
Proof. intros Hg s b s'. unfold kupd. destruct (g s) eqn:E; [|done]. intros E'. injection E' as _ <-. by apply Hg. Qed.
Lemma keeps_zoom {T A} (get : S -> T) set (m : M T A) : (forall t s, f (set t s) = f s) -> keeps (zoom get set m).
Proof.
  intros Hs s b s'. unfold zoom. destruct (m (get s)) as [[a t]| | |]; [|done..]. intros E. injection E as _ <-. apply Hs.
Qed.
Lemma keeps_if {A} (b : bool) (m1 m2 : M S A) : keeps m1 -> keeps m2 -> keeps (if b then m1 else m2).
Proof. by destruct b. Qed.
Lemma keeps_fault {A} : keeps (kfault (A := A)).
Proof. by intros s b s'. Qed.
Lemma keeps_spin {A} : keeps (kspin (A := A)).
Proof. by intros s b s'. Qed.
End Keeps.

(** ** Invariants of computations

    [ensures P m Q]: the computation [m] keeps the invariant [P] of the state, and
    its result satisfies [Q].  Reading operations have their strongest [Q], so
    that proofs can go forward through the code. *)
Section Ensures.
Context {S : Type} (P : S -> Prop).
Definition ensures {A} (m : M S A) (Q : A -> Prop) : Prop := forall s a s', P s -> m s = Done (a, s') -> P s' /\ Q a.

Lemma ensures_ret {A} (a : A) (Q : A -> Prop) : Q a -> ensures (kret a) Q.
Proof. intros HQ s b s' Hs E. by injection E as <- <-. Qed.
Lemma ensures_ret_eq {A} (a : A) : ensures (kret a) (fun b => b = a).
Proof. by apply ensures_ret. Qed.
Lemma ensures_bind {A B} (Q : A -> Prop) (m : M S A) (k : A -> M S B) R :
  ensures m Q -> (forall a, Q a -> ensures (k a) R) -> ensures (kbind m k) R.
Proof. intros Hm Hk s b s' Hs E. apply kbind_inv in E as (a & s1 & E1 & E2). destruct (Hm s a s1 Hs E1). by apply (Hk a) in E2. Qed.
Lemma ensures_mono {A} (m : M S A) (Q Q' : A -> Prop) : ensures m Q -> (forall a, Q a -> Q' a) -> ensures m Q'.
Proof. intros Hm HQ s a s' Hs E. destruct (Hm s a s' Hs E). split; [done|by apply HQ]. Qed.
Lemma ensures_gets {A} (f : S -> A) : ensures (kgets f) (fun a => exists s, P s /\ a = f s).
Proof. intros s a s' Hs E. injection E as <- <-. split; [done|by exists s]. Qed.
Lemma ensures_get : ensures kget P.
Proof. intros s a s' Hs E. by injection E as <- <-. Qed.
Lemma ensures_opt {A} (f : S -> option A) : ensures (kopt f) (fun a => exists s, P s /\ f s = Some a).
Proof. intros s a s' Hs. unfold kopt. destruct (f s) eqn:Ef; [|done]. intros E. injection E as <- <-. split; [done|by exists s]. Qed.
Lemma ensures_mod f : (forall s, P s -> P (f s)) -> ensures (kmod f) (fun _ => True).
Proof. intros Hf s a s' Hs E. injection E as <- <-. split; [by apply Hf|done]. Qed.
Lemma ensures_upd f : (forall s s', P s -> f s = Some s' -> P s') -> ensures (kupd f) (fun _ => True).
Proof. intros Hf s a s' Hs. unfold kupd. destruct (f s) eqn:E; [|done]. intros E'. injection E' as <- <-. split; [by apply (Hf s)|done]. Qed.
Lemma ensures_fault {A} (Q : A -> Prop) : ensures kfault Q.
Proof. by intros s a s'. Qed.
Lemma ensures_halt {A} w (Q : A -> Prop) : ensures (khalt w) Q.
Proof. by intros s a s'. Qed.
Lemma ensures_spin {A} (Q : A -> Prop) : ensures kspin Q.
Proof. by intros s a s'. Qed.
Lemma ensures_for {A} (f : A -> M S unit) (l : list A) :
  (forall x, x ∈ l -> ensures (f x) (fun _ => True)) -> ensures (kfor l f) (fun _ => True).
Proof.
  induction l as [|x l IH]; intros Hf; cbn [kfor]; [by apply ensures_ret|].
  apply (ensures_bind (fun _ => True)); [apply Hf; set_solver|]. intros _ _. apply IH. intros y Hy. apply Hf. set_solver.
Qed.
End Ensures.

Lemma ensures_zoom {S T A} (P : S -> Prop) (R : T -> Prop) (get : S -> T) set (m : M T A) Q :
  (forall s, P s -> R (get s)) -> (forall s t, P s -> R t -> P (set t s)) -> ensures R m Q -> ensures P (zoom get set m) Q.
Proof.
  intros Hg Hs Hm s a s' HP E. apply zoom_inv in E as (t & Et & ->). destruct (Hm _ _ _ (Hg s HP) Et). split; [by apply Hs|done].
Qed.

(** Execute the next call with an equation [H : m s = Done _]. *)
Ltac kstep H := erewrite kbind_done by (apply H).
(** Unfold the administrative combinators and simplify. *)
Ltac kred :=
  cbn [kbind kret kgets kget kmod kopt kupd kfault khalt kspin zoom fst snd] in *.

(** Equality of two results, component by component. *)
Ltac done_eq :=
  unfold kret;
  repeat match goal with
  | |- Done _ = Done _ => f_equal
  | |- (_, _) = (_, _) => f_equal
  end; try reflexivity; try lia.

(** Go forward through the code: calls with a lemma in [typing], reads, updates and
    branches; what is left are the facts about single values and updates. *)
Create HintDb typing discriminated.
#[export] Hint Constants Opaque : typing.
#[export] Hint Resolve ensures_ret_eq ensures_gets ensures_get ensures_opt : typing.
Ltac ens_call := solve [eauto with typing | eapply ensures_mono; [solve [eauto with typing]|by intros]].
Ltac ens_step :=
  lazymatch goal with
  | |- ensures _ (@kbind _ unit _ _ _) _ => apply (ensures_bind _ (fun _ => True)); [|intros _ _]
  | |- ensures _ (kbind _ _) _ => eapply ensures_bind; [ens_call|intros ? ?]; cbv beta in *
  | |- ensures _ (kret _) _ => apply ensures_ret
  | |- ensures _ kfault _ => apply ensures_fault
  | |- ensures _ (khalt _) _ => apply ensures_halt
  | |- ensures _ kspin _ => apply ensures_spin
  | |- ensures _ (kfor _ _) _ => apply ensures_for; intros ? ?
  | |- ensures _ (if ?b then _ else _) _ => destruct b eqn:?
  | |- ensures _ (match ?x with _ => _ end) _ => destruct x eqn:?
  | |- ensures _ (kmod _) _ => apply ensures_mod; intros ? ?
  | |- ensures _ (kupd _) _ => apply ensures_upd; intros ? ? ? ?
  | |- ensures _ _ _ => ens_call
  end.
Ltac ens_done := lazymatch goal with |- ensures _ _ _ => idtac | |- _ => try solve [done | auto with typing] end.
Ltac ens := repeat (ens_step; ens_done).

(** ** Bits *)
Create HintDb relis discriminated.
Create Rewrite HintDb relis_bits.
#[export] Hint Resolve keeps_ret keeps_bind keeps_gets keeps_mod keeps_opt keeps_upd keeps_zoom keeps_if keeps_fault keeps_spin : relis.

Lemma wrap_range w z : 0 <= w -> 0 <= wrap w z < 2 ^ w.
Proof. intros. apply Z.mod_pos_bound, Z.pow_pos_nonneg; lia. Qed.

Lemma wrap_small w z : 0 <= z < 2 ^ w -> wrap w z = z.
Proof. apply Z.mod_small. Qed.

Lemma signed_small w z : 0 < w -> 0 <= z < 2 ^ (w - 1) -> signed w z = z.
Proof.
  intros Hw Hz. unfold signed. assert (2 ^ w = 2 * 2 ^ (w - 1)) as E by (rewrite <- Z.pow_succ_r by lia; f_equal; lia).
  rewrite Z.mod_small by lia. lia.
Qed.

Lemma wrap_idem w z : 0 <= w -> wrap w (wrap w z) = wrap w z.
Proof. intros. apply wrap_small, wrap_range; lia. Qed.

Lemma testbit_wrap w z i :
  0 <= w -> 0 <= i -> Z.testbit (wrap w z) i = bool_decide (i < w) && Z.testbit z i.
Proof.
  intros Hw Hi. unfold wrap. rewrite <- Z.land_ones by lia. rewrite Z.land_spec.
  rewrite Z.testbit_ones by lia. rewrite andb_comm. f_equal.
  rewrite (proj2 (Z.leb_le 0 i) Hi). simpl. case_bool_decide; lia.
Qed.

Lemma testbit_bit i j : 0 <= i -> 0 <= j -> Z.testbit (bit i) j = bool_decide (i = j).
Proof.
  intros Hi Hj. unfold bit. rewrite Z.shiftl_spec by lia.
  case_bool_decide as E.
  - subst. by rewrite Z.sub_diag.
  - destruct (decide (j < i)); [by rewrite Z.testbit_neg_r by lia|].
    rewrite Z.bits_above_log2; simpl; lia.
Qed.

Lemma testbit_cnot w x i :
  0 <= w -> 0 <= i -> Z.testbit (cnot w x) i = bool_decide (i < w) && negb (Z.testbit x i).
Proof.
  intros. unfold cnot. rewrite testbit_wrap by lia. by rewrite Z.lnot_spec by lia.
Qed.

Lemma testbit_range_high n w i :
  0 <= n < 2 ^ w -> 0 <= w <= i -> Z.testbit n i = false.
Proof.
  intros Hn Hi. destruct (decide (n = 0)) as [->|]; [apply Z.bits_0|].
  apply Z.bits_above_log2; [lia|]. apply Z.log2_lt_pow2; [lia|].
  apply Z.lt_le_trans with (2 ^ w); [lia|]. apply Z.pow_le_mono_r; lia.
Qed.

Lemma land_bit_ne0 x i : 0 <= i -> istrue (Z.land x (bit i)) = Z.testbit x i.
Proof.
  intros Hi. unfold istrue. destruct (Z.testbit x i) eqn:E.
  - apply negb_true_iff, Z.eqb_neq. intros H0.
    assert (Z.testbit (Z.land x (bit i)) i = false) as H1 by (rewrite H0; apply Z.bits_0).
    rewrite Z.land_spec, E, testbit_bit, bool_decide_true in H1 by lia. done.
  - apply negb_false_iff, Z.eqb_eq, Z.bits_inj'. intros j Hj.
    rewrite Z.bits_0, Z.land_spec, testbit_bit by lia.
    case_bool_decide; [subst; by rewrite E|apply andb_false_r].
Qed.

Lemma bound_of_bits n w :
  0 <= n -> 0 <= w -> (forall i, w <= i -> Z.testbit n i = false) -> n < 2 ^ w.
Proof.
  intros Hn Hw Hb. destruct (decide (n < 2 ^ w)) as [|Hge]; [done|exfalso].
  assert (0 < n) by (pose proof (Z.pow_pos_nonneg 2 w); lia).
  assert (w <= Z.log2 n) by (apply Z.log2_le_pow2; lia).
  specialize (Hb _ H0). rewrite Z.bit_log2 in Hb by lia. done.
Qed.

Lemma lor_bound a b w : 0 <= w -> 0 <= a < 2 ^ w -> 0 <= b < 2 ^ w -> 0 <= Z.lor a b < 2 ^ w.
Proof.
  intros Hw Ha Hb. split; [apply Z.lor_nonneg; lia|].
  apply bound_of_bits; [apply Z.lor_nonneg; lia|lia|]. intros i Hi.
  rewrite Z.lor_spec, (testbit_range_high a w), (testbit_range_high b w) by lia. done.
Qed.

Lemma land_bound a b w : 0 <= w -> 0 <= a < 2 ^ w -> 0 <= Z.land a b < 2 ^ w.
Proof.
  intros Hw Ha. split; [apply Z.land_nonneg; lia|].
  apply bound_of_bits; [apply Z.land_nonneg; lia|lia|]. intros i Hi.
  by rewrite Z.land_spec, (testbit_range_high a w) by lia.
Qed.

#[export] Hint Rewrite Z.lor_spec Z.land_spec Z.lxor_spec Z.bits_0 : relis_bits.

(** ** Lists *)
Lemma lookup_seqZ_Some m n i x :
  seqZ m n !! i = Some x <-> x = m + Z.of_nat i /\ Z.of_nat i < n.
Proof. rewrite lookup_seqZ. naive_solver. Qed.

(** A finite range checked by evaluation. *)
Lemma forallb_seqZ (P : Z -> bool) n x : forallb P (seqZ 0 n) = true -> 0 <= x < n -> P x = true.
Proof. rewrite forallb_forall. intros H Hx. apply H, list_elem_of_In, elem_of_seqZ. lia. Qed.

Lemma lookupZ_lt {A} (l : list A) (i : Z) x :
  0 <= i -> l !! Z.to_nat i = Some x -> i < Z.of_nat (length l).
Proof. intros Hi H. apply lookup_lt_Some in H. lia. Qed.

Lemma nodup_snoc {A} (l : list A) x : NoDup l -> x ∉ l -> NoDup (l ++ [x]).
Proof.
  intros Hl Hx. apply NoDup_app. split_and!; [done| |apply NoDup_singleton].
  intros y Hy ->%list_elem_of_singleton. done.
Qed.

Lemma nodup_middle {A} (l1 l2 : list A) x :
  NoDup (l1 ++ x :: l2) <-> (x ∉ l1) /\ (x ∉ l2) /\ NoDup (l1 ++ l2).
Proof.
  rewrite <- Permutation_middle, NoDup_cons, not_elem_of_app. tauto.
Qed.

(** Changing a predicate at one element of a duplicate-free list changes the
    number of elements that satisfy it by one. *)
Lemma length_filter_flip {A} (P Q : A -> Prop)
    `{!forall x, Decision (P x)} `{!forall x, Decision (Q x)} (l : list A) x :
  NoDup l -> x ∈ l -> ~ P x -> Q x -> (forall y, y ∈ l -> y <> x -> P y <-> Q y) ->
  length (filter Q l) = S (length (filter P l)).
Proof.
  intros Hnd Hx HP HQ Heq. apply list_elem_of_split in Hx as (l1 & l2 & ->).
  apply nodup_middle in Hnd as (Hx1 & Hx2 & _).
  assert (forall k : list A, k ⊆ l1 ++ x :: l2 -> x ∉ k -> filter Q k = filter P k) as L.
  { induction k as [|y k IH]; intros Hsub Hk; [done|].
    apply not_elem_of_cons in Hk as [Hy Hk]. assert (P y <-> Q y) as E by (apply Heq; set_solver).
    assert (filter Q k = filter P k) as IH' by (apply IH; set_solver).
    destruct (decide (P y)) as [Hp|Hp].
    - rewrite !filter_cons_True by (done || by apply E). by rewrite IH'.
    - rewrite !filter_cons_False by (done || by rewrite <- E). by rewrite IH'. }
  rewrite !filter_app, filter_cons_True, filter_cons_False, !length_app by done. simpl.
  rewrite !L by (done || set_solver). lia.
Qed.

Lemma filter_all {A} (P : A -> Prop) `{!forall x, Decision (P x)} (l : list A) :
  (forall x, x ∈ l -> P x) -> filter P l = l.
Proof.
  induction l as [|x l IH]; intros Hall; [done|].
  rewrite filter_cons_True by (apply Hall; set_solver). rewrite IH; [done|]. set_solver.
Qed.

Lemma filter_none {A} (P : A -> Prop) `{!forall x, Decision (P x)} (l : list A) :
  (forall x, x ∈ l -> ~ P x) -> filter P l = [].
Proof.
  induction l as [|x l IH]; intros Hall; [done|].
  rewrite filter_cons_False by (apply Hall; set_solver). apply IH. set_solver.
Qed.
