(* ===== verification/Memory.v ===== *)
(** * Byte memory

    The memory a routine works on: a finite map from addresses to bytes.  An
    address that is absent is not backed by RAM, and an access to it faults.
    Multi-byte accesses are little endian, as on x86-64.  [readb] .. [writeq]
    are the accessors of [arch/io.h]; a plain dereference of a [uint64_t *]
    compiles to the same access. *)

From S2P Require Import Prelude.

Abbreviation mem := (gmap Z Z).

(** ** Definitions *)

Definition is_byte (b : Z) : Prop := 0 <= b < 256.
(** Every cell holds a byte. *)
Definition mem_wf (m : mem) : Prop := map_Forall (fun _ b => is_byte b) m.
(** The [n] bytes from [a] are backed. *)
Definition mapped (m : mem) (a n : Z) : Prop :=
  forall i, 0 <= i < n -> is_Some (m !! (a + i)).

(** [m] holds the bytes [l] from address [a]. *)
Definition bytes_at (m : mem) (a : Z) (l : list Z) : Prop :=
  forall i b, l !! i = Some b -> m !! (a + Z.of_nat i) = Some b.

(** The memory [m] with the bytes [l] written from [a]. *)
Fixpoint write_list (m : mem) (a : Z) (l : list Z) : mem :=
  match l with
  | [] => m
  | b :: l' => <[a := b]> (write_list m (a + 1) l')
  end.

(** The [n] bytes from [a]; [None] when one of them is not backed. *)
Fixpoint read_list (m : mem) (a : Z) (n : nat) : option (list Z) :=
  match n with
  | O => Some []
  | S n' =>
      match m !! a, read_list m (a + 1) n' with
      | Some b, Some l => Some (b :: l)
      | _, _ => None
      end
  end.

(** One byte access, the primitive the string routines are written with. *)
Definition load8 (a : Z) : M mem Z := kopt (fun m => m !! a).
Definition store8 (a b : Z) : M mem unit :=
  kupd (fun m => match m !! a with Some _ => Some (<[a := b]> m) | None => None end).

(** Little-endian encoding of [n] bytes. *)
Fixpoint le_split (n : nat) (v : Z) : list Z :=
  match n with
  | O => []
  | S n' => v mod 256 :: le_split n' (v / 256)
  end.
Fixpoint le_combine (l : list Z) : Z :=
  match l with
  | [] => 0
  | b :: l' => b + 256 * le_combine l'
  end.

Definition loadn (n : nat) (a : Z) : M mem Z :=
  kopt (fun m => le_combine <$> read_list m a n).
Definition storen (n : nat) (a v : Z) : M mem unit :=
  kupd (fun m =>
    match read_list m a n with
    | Some _ => Some (write_list m a (le_split n v))
    | None => None
    end).

Definition readb := loadn 1.
Definition readw := loadn 2.
Definition readl := loadn 4.
Definition readq := loadn 8.
Definition writeb := storen 1.
Definition writew := storen 2.
Definition writel := storen 4.
Definition writeq := storen 8.

(** The value a [n]-byte load returns, when it does not fault. *)
Definition peekn (n : nat) (m : mem) (a : Z) : option Z := le_combine <$> read_list m a n.
(** The memory after a [n]-byte store. *)
Definition poken (n : nat) (m : mem) (a v : Z) : mem := write_list m a (le_split n v).
Abbreviation peek64 := (peekn 8).
Abbreviation poke64 := (poken 8).

(** ** Lemmas *)

Lemma mem_wf_lookup m a b : mem_wf m -> m !! a = Some b -> is_byte b.
Proof. intros H. exact (H a b). Qed.

Lemma mapped_weaken m a n a' n' :
  mapped m a n -> a <= a' -> a' + n' <= a + n -> mapped m a' n'.
Proof.
  intros H ?? i Hi. replace (a' + i) with (a + (a' - a + i)) by lia. apply H. lia.
Qed.

Lemma lookup_write_list m a l x :
  write_list m a l !! x =
  (if decide (a <= x < a + Z.of_nat (length l)) then l !! Z.to_nat (x - a) else m !! x).
Proof.
  revert a. induction l as [|b l IH]; intros a; simpl.
  - destruct (decide _); [lia|done].
  - rewrite lookup_insert. destruct (decide (a = x)) as [->|Hne].
    + rewrite decide_True by lia. by rewrite Z.sub_diag.
    + rewrite IH. destruct (decide (a + 1 <= x < _)).
      * rewrite decide_True by lia.
        replace (Z.to_nat (x - a)) with (S (Z.to_nat (x - (a + 1)))) by lia. done.
      * rewrite decide_False by lia. done.
Qed.

Lemma lookup_write_list_out m a l x :
  x < a \/ a + Z.of_nat (length l) <= x -> write_list m a l !! x = m !! x.
Proof. intros. rewrite lookup_write_list. rewrite decide_False by lia. done. Qed.

Lemma write_list_bytes_at m a l : bytes_at (write_list m a l) a l.
Proof.
  intros i b Hi. rewrite lookup_write_list. pose proof (lookup_lt_Some _ _ _ Hi).
  rewrite decide_True by lia. by replace (Z.to_nat (a + i - a)) with i by lia.
Qed.

Lemma write_list_app m a l1 l2 :
  write_list m a (l1 ++ l2) = write_list (write_list m (a + Z.of_nat (length l1)) l2) a l1.
Proof.
  revert a. induction l1 as [|b l1 IH]; intros a; simpl.
  - by rewrite Z.add_0_r.
  - rewrite IH. by replace (a + 1 + Z.of_nat (length l1)) with (a + Z.of_nat (S (length l1))) by lia.
Qed.

(** Writing a list byte by byte from the left. *)
Lemma write_list_cons_l m a b l :
  write_list (<[a := b]> m) (a + 1) l = write_list m a (b :: l).
Proof.
  apply map_eq. intros x. rewrite !lookup_write_list. simpl.
  rewrite lookup_insert. destruct (decide (a = x)) as [->|].
  - rewrite decide_False, decide_True by lia. by rewrite Z.sub_diag.
  - destruct (decide (a + 1 <= x < _)).
    + rewrite decide_True by lia.
      by replace (Z.to_nat (x - a)) with (S (Z.to_nat (x - (a + 1)))) by lia.
    + by rewrite decide_False by lia.
Qed.

Lemma bytes_at_cons m a b l :
  bytes_at m a (b :: l) <-> m !! a = Some b /\ bytes_at m (a + 1) l.
Proof.
  split.
  - intros H. split.
    + specialize (H 0%nat b eq_refl). by rewrite Z.add_0_r in H.
    + intros i c Hi. replace (a + 1 + i) with (a + Z.of_nat (S i)) by lia. by apply H.
  - intros [H0 H] [|i] c Hi; simpl in Hi.
    + injection Hi as <-. by rewrite Z.add_0_r.
    + replace (a + S i) with (a + 1 + i) by lia. by apply H.
Qed.

Lemma bytes_at_nil m a : bytes_at m a [].
Proof. intros i b Hi. by rewrite lookup_nil in Hi. Qed.

Lemma bytes_at_app m a l1 l2 :
  bytes_at m a (l1 ++ l2) <-> bytes_at m a l1 /\ bytes_at m (a + Z.of_nat (length l1)) l2.
Proof.
  revert a. induction l1 as [|b l1 IH]; intros a; simpl.
  - rewrite Z.add_0_r. pose proof (bytes_at_nil m a). naive_solver.
  - rewrite !bytes_at_cons, IH.
    replace (a + 1 + length l1) with (a + S (length l1)) by lia. naive_solver.
Qed.

Lemma bytes_at_mapped m a l : bytes_at m a l -> mapped m a (Z.of_nat (length l)).
Proof.
  intros H i Hi. destruct (lookup_lt_is_Some_2 l (Z.to_nat i)) as [b Hb]; [lia|].
  specialize (H _ _ Hb). rewrite Z2Nat.id in H by lia. by exists b.
Qed.

Lemma bytes_at_frame m m' a l :
  (forall x, a <= x < a + Z.of_nat (length l) -> m' !! x = m !! x) ->
  bytes_at m a l -> bytes_at m' a l.
Proof.
  intros Heq H i b Hi. pose proof (lookup_lt_Some _ _ _ Hi).
  rewrite Heq by lia. by apply H.
Qed.

Lemma read_list_bytes_at m a n l :
  read_list m a n = Some l <-> length l = n /\ bytes_at m a l.
Proof.
  revert a l. induction n as [|n IH]; intros a l; simpl.
  - split; [intros [= <-]; split; [done|apply bytes_at_nil]|].
    intros [Hl _]. by destruct l.
  - destruct l as [|b l]; [split; [by repeat case_match|by intros [? _]]|].
    rewrite bytes_at_cons. simpl. specialize (IH (a + 1) l).
    destruct (m !! a), (read_list m (a + 1) n); naive_solver.
Qed.

Lemma mapped_read_list m a n : mapped m a (Z.of_nat n) -> is_Some (read_list m a n).
Proof.
  revert a. induction n as [|n IH]; intros a H; simpl; [by eexists|].
  destruct (H 0) as [b Hb]; [lia|]. rewrite Z.add_0_r in Hb. rewrite Hb.
  destruct (IH (a + 1)) as [l ->]; [|by eexists].
  eapply mapped_weaken; [done|lia..].
Qed.

Lemma read_list_mapped m a n l : read_list m a n = Some l -> mapped m a (Z.of_nat n).
Proof. intros [<- H]%read_list_bytes_at. by apply bytes_at_mapped. Qed.

Lemma write_list_mapped m a l b n : mapped m b n -> mapped (write_list m a l) b n.
Proof.
  intros H i Hi. rewrite lookup_write_list. destruct (decide _) as [Hin|]; [|by apply H].
  apply lookup_lt_is_Some. lia.
Qed.

Lemma write_list_wf m a l : mem_wf m -> Forall is_byte l -> mem_wf (write_list m a l).
Proof.
  intros Hm Hl x b. rewrite lookup_write_list. destruct (decide _); [|apply Hm].
  intros Hb. by eapply Forall_lookup_1.
Qed.

Lemma bytes_at_wf m a l : mem_wf m -> bytes_at m a l -> Forall is_byte l.
Proof. intros Hm H. apply Forall_lookup. intros i b Hi. eapply Hm, H, Hi. Qed.

Lemma length_le_split n v : length (le_split n v) = n.
Proof. revert v. induction n; simpl; auto. Qed.

Lemma le_split_bytes n v : Forall is_byte (le_split n v).
Proof.
  revert v. induction n; intros v; simpl; constructor; [|done].
  apply Z.mod_pos_bound. lia.
Qed.

Lemma le_combine_split n v : le_combine (le_split n v) = v mod 2 ^ (8 * Z.of_nat n).
Proof.
  revert v. induction n as [|n IH]; intros v.
  - simpl. by rewrite Z.mod_1_r.
  - simpl le_split. simpl le_combine. rewrite IH.
    replace (8 * Z.of_nat (S n)) with (8 + 8 * Z.of_nat n) by lia.
    rewrite Z.pow_add_r by lia. change (2 ^ 8) with 256.
    rewrite Z.rem_mul_r by (try apply Z.pow_pos_nonneg; lia). done.
Qed.

Lemma le_combine_range l : Forall is_byte l -> 0 <= le_combine l < 2 ^ (8 * Z.of_nat (length l)).
Proof.
  induction 1 as [|b l Hb Hl IH]; [simpl; lia|]. simpl le_combine. simpl length.
  replace (8 * Z.of_nat (S (length l))) with (8 + 8 * Z.of_nat (length l)) by lia.
  rewrite Z.pow_add_r by lia. change (2 ^ 8) with 256. unfold is_byte in Hb. lia.
Qed.

Lemma le_split_combine l : Forall is_byte l -> le_split (length l) (le_combine l) = l.
Proof.
  induction 1 as [|b l Hb Hl IH]; [done|]. simpl. unfold is_byte in Hb.
  rewrite (Z.mul_comm 256), Z.mod_add, Z.mod_small by lia.
  rewrite Z.div_add, Z.div_small, Z.add_0_l by lia. by rewrite IH.
Qed.

(** *** Loads and stores *)

Lemma load8_done m a b : m !! a = Some b -> load8 a m = Done (b, m).
Proof. intros H. by apply kopt_some. Qed.

Lemma store8_done m a b : is_Some (m !! a) -> store8 a b m = Done (tt, <[a := b]> m).
Proof. intros [c H]. apply kupd_some. by rewrite H. Qed.

Lemma loadn_done n m a v : peekn n m a = Some v -> loadn n a m = Done (v, m).
Proof. intros H. by apply kopt_some. Qed.

Lemma storen_done n m a v :
  mapped m a (Z.of_nat n) -> storen n a v m = Done (tt, poken n m a v).
Proof.
  intros [l H]%mapped_read_list. apply kupd_some. by rewrite H.
Qed.

Lemma peekn_mapped n m a : mapped m a (Z.of_nat n) -> is_Some (peekn n m a).
Proof. intros [l H]%mapped_read_list. unfold peekn. rewrite H. by eexists. Qed.

Lemma read_list_eq m m' a n :
  (forall x, a <= x < a + Z.of_nat n -> m' !! x = m !! x) ->
  read_list m' a n = read_list m a n.
Proof.
  revert a. induction n as [|n IH]; intros a Heq; simpl; [done|].
  rewrite Heq by lia. rewrite IH; [done|]. intros x Hx. apply Heq. lia.
Qed.

Lemma peekn_eq n m m' a :
  (forall x, a <= x < a + Z.of_nat n -> m' !! x = m !! x) -> peekn n m' a = peekn n m a.
Proof. intros H. unfold peekn. by rewrite (read_list_eq m m'). Qed.

Lemma peekn_poken_eq n m a v :
  mapped m a (Z.of_nat n) -> peekn n (poken n m a v) a = Some (v mod 2 ^ (8 * Z.of_nat n)).
Proof.
  intros Hm. unfold peekn, poken.
  assert (read_list (write_list m a (le_split n v)) a n = Some (le_split n v)) as ->.
  { apply read_list_bytes_at. split; [apply length_le_split|apply write_list_bytes_at]. }
  simpl. by rewrite le_combine_split.
Qed.

Lemma lookup_poken_out n m a v x :
  x < a \/ a + Z.of_nat n <= x -> poken n m a v !! x = m !! x.
Proof. intros. apply lookup_write_list_out. rewrite length_le_split. lia. Qed.

Lemma peekn_poken_ne n m a v b :
  b + Z.of_nat n <= a \/ a + Z.of_nat n <= b -> peekn n (poken n m a v) b = peekn n m b.
Proof. intros H. apply peekn_eq. intros x Hx. apply lookup_poken_out. lia. Qed.

Lemma peekn_range n m a v : mem_wf m -> peekn n m a = Some v -> 0 <= v < 2 ^ (8 * Z.of_nat n).
Proof.
  intros Hm. unfold peekn. destruct (read_list m a n) as [l|] eqn:E; [|done].
  intros [= <-]. apply read_list_bytes_at in E as [<- H].
  apply le_combine_range. by eapply bytes_at_wf.
Qed.

(** Storing what is already there. *)
Lemma write_list_same m p l : bytes_at m p l -> write_list m p l = m.
Proof.
  intros H. apply map_eq. intros x. rewrite lookup_write_list. destruct (decide _) as [Hx|]; [|done].
  destruct (lookup_lt_is_Some_2 l (Z.to_nat (x - p))) as [b Hb]; [lia|].
  rewrite Hb. symmetry. specialize (H _ _ Hb). by replace (p + Z.to_nat (x - p)) with x in H by lia.
Qed.

Lemma poken_same n m a v : mem_wf m -> peekn n m a = Some v -> poken n m a v = m.
Proof.
  intros Hm. unfold peekn, poken. destruct (read_list m a n) as [l|] eqn:E; [|done].
  intros [= <-]. apply read_list_bytes_at in E as [<- Hl]. rewrite le_split_combine by (by eapply bytes_at_wf). by apply write_list_same.
Qed.

Lemma poken_wf n m a v : mem_wf m -> mem_wf (poken n m a v).
Proof. intros. apply write_list_wf; [done|apply le_split_bytes]. Qed.

Lemma poken_mapped n m a v b k : mapped m b k -> mapped (poken n m a v) b k.
Proof. apply write_list_mapped. Qed.

(** A run of zero bytes reads as zero. *)
Lemma peekn_zeros n m a :
  bytes_at m a (replicate n 0) -> peekn n m a = Some 0.
Proof.
  intros H. unfold peekn.
  assert (read_list m a n = Some (replicate n 0)) as ->.
  { apply read_list_bytes_at. split; [apply length_replicate|done]. }
  simpl. f_equal. clear. induction n; simpl; lia.
Qed.

#[export] Hint Resolve poken_wf poken_mapped write_list_mapped le_split_bytes : relis.

(** Executable forms of the memory predicates, for concrete inputs. *)
Lemma bytes_at_read m a l : read_list m a (length l) = Some l -> bytes_at m a l.
Proof. intros H. by apply read_list_bytes_at in H as [_ H]. Qed.

Lemma mapped_read m a n :
  0 <= n -> bool_decide (is_Some (read_list m a (Z.to_nat n))) = true -> mapped m a n.
Proof.
  intros Hn. intros [l E]%bool_decide_eq_true.
  apply read_list_mapped in E. by rewrite Z2Nat.id in E.
Qed.

(** Every element of a concrete list is a byte. *)
Ltac solve_bytes :=
  simpl; unfold is_byte;
  repeat first [ apply List.Forall_nil | apply List.Forall_cons; [lia|] ].
(** A memory built with [write_list] holds bytes. *)
Ltac solve_mem_wf :=
  repeat first [ apply map_Forall_empty | apply write_list_wf ]; solve_bytes.
