(* ===== verification/StringLib.v ===== *)
(** * lib/string.c: memory and string routines

    Addresses are integers, memory is [Memory.mem], and each C loop is one
    recursive definition.  A loop counted by a [size_t] recurses on that
    count; a loop that runs to a NUL byte takes a bound [fuel] on its
    iterations and answers [Spin] when the bound is used up, so each theorem
    about such a loop also shows that a bound larger than the string is
    enough.  A [char] is represented by its byte: C compares chars only for
    equality here, and [u8] gives the byte of an [int] converted to [char].
    [NULL] is address 0. *)

From S2P Require Import Prelude Memory.

(** ** Memory operations *)

Fixpoint kmemset_loop (n : nat) (p c : Z) : M mem unit :=
  match n with
  | O => kret tt
  | S n' => store8 p (u8 c);;; kmemset_loop n' (p + 1) c
  end.
Definition kmemset (s c n : Z) : M mem Z :=
  kmemset_loop (Z.to_nat n) s c;;; kret s.

Fixpoint copy_fwd (n : nat) (d s : Z) : M mem unit :=
  match n with
  | O => kret tt
  | S n' => let* b := load8 s in store8 d b;;; copy_fwd n' (d + 1) (s + 1)
  end.
Definition kmemcpy (dest src n : Z) : M mem Z :=
  copy_fwd (Z.to_nat n) dest src;;; kret dest.

(** [while (n--) *--d = *--s;] *)
Fixpoint copy_bwd (n : nat) (d s : Z) : M mem unit :=
  match n with
  | O => kret tt
  | S n' => let* b := load8 (s - 1) in store8 (d - 1) b;;; copy_bwd n' (d - 1) (s - 1)
  end.
Definition kmemmove (dest src n : Z) : M mem Z :=
  (if (src <? dest) && (dest <? src + n)
   then copy_bwd (Z.to_nat n) (dest + n) (src + n)
   else copy_fwd (Z.to_nat n) dest src);;;
  kret dest.

Fixpoint kmemcmp_loop (n : nat) (p1 p2 : Z) : M mem Z :=
  match n with
  | O => kret 0
  | S n' =>
      let* b1 := load8 p1 in
      let* b2 := load8 p2 in
      if negb (b1 =? b2) then kret (b1 - b2) else kmemcmp_loop n' (p1 + 1) (p2 + 1)
  end.
Definition kmemcmp (s1 s2 n : Z) : M mem Z := kmemcmp_loop (Z.to_nat n) s1 s2.

(** ** String length and comparison *)

(** The loop [while ( *p ) p++]. *)
Fixpoint skip_to_nul (fuel : nat) (p : Z) : M mem Z :=
  match fuel with
  | O => kspin
  | S f => let* b := load8 p in if istrue b then skip_to_nul f (p + 1) else kret p
  end.
Definition kstrlen (fuel : nat) (s : Z) : M mem Z :=
  let* p := skip_to_nul fuel s in kret (p - s).

Fixpoint kstrnlen_loop (maxlen : nat) (p : Z) : M mem Z :=
  match maxlen with
  | O => kret p
  | S n => let* b := load8 p in if istrue b then kstrnlen_loop n (p + 1) else kret p
  end.
Definition kstrnlen (s maxlen : Z) : M mem Z :=
  let* p := kstrnlen_loop (Z.to_nat maxlen) s in kret (p - s).

(** The final [*a - *b] of the two comparisons. *)
Definition char_diff (a b : Z) : M mem Z :=
  let* x := load8 a in let* y := load8 b in kret (x - y).
Fixpoint kstrcmp (fuel : nat) (a b : Z) : M mem Z :=
  match fuel with
  | O => kspin
  | S f =>
      let* x := load8 a in
      if istrue x then
        let* y := load8 b in
        if x =? y then kstrcmp f (a + 1) (b + 1) else char_diff a b
      else char_diff a b
  end.

Fixpoint kstrncmp_loop (n : nat) (a b : Z) : M mem Z :=
  match n with
  | O => kret 0
  | S n' =>
      let* x := load8 a in
      if istrue x then
        let* y := load8 b in
        if x =? y then kstrncmp_loop n' (a + 1) (b + 1) else char_diff a b
      else char_diff a b
  end.
Definition kstrncmp (a b n : Z) : M mem Z := kstrncmp_loop (Z.to_nat n) a b.

(** ** String copying and concatenation *)

(** The copy loop of [kstrcpy] and [kstrcat]: the NUL byte is copied too. *)
Fixpoint copy_to_nul (fuel : nat) (d s : Z) : M mem unit :=
  match fuel with
  | O => kspin
  | S f =>
      let* b := load8 s in
      store8 d b;;;
      if istrue b then copy_to_nul f (d + 1) (s + 1) else kret tt
  end.
Definition kstrcpy (fuel : nat) (dest src : Z) : M mem Z :=
  copy_to_nul fuel dest src;;; kret dest.

(** [while (n && *src) *d++ = *src++, n--;], returning the final [d], [src]
    and [n]. *)
Fixpoint copy_bounded (n : nat) (d s : Z) : M mem (Z * Z * nat) :=
  match n with
  | O => kret (d, s, O)
  | S n' =>
      let* b := load8 s in
      if istrue b then store8 d b;;; copy_bounded n' (d + 1) (s + 1)
      else kret (d, s, n)
  end.
Definition kstrncpy (dest src n : Z) : M mem Z :=
  let* (d, s, rest) := copy_bounded (Z.to_nat n) dest src in
  kmemset_loop rest d 0;;;
  kret dest.

(** [while (count > 1 && *src) ...; *dest = 0; return src - original_src]. *)
Definition kstrscpy (dest src count : Z) : M mem Z :=
  if count =? 0 then kret 0 else
  let* (d, s, rest) := copy_bounded (Z.to_nat (count - 1)) dest src in
  store8 d 0;;;
  kret (s - src).

Definition kstrcat (fuel : nat) (dest src : Z) : M mem Z :=
  let* d := skip_to_nul fuel dest in
  copy_to_nul fuel d src;;;
  kret dest.

Definition kstrncat (fuel : nat) (dest src n : Z) : M mem Z :=
  let* d := skip_to_nul fuel dest in
  let* (d', s, rest) := copy_bounded (Z.to_nat n) d src in
  store8 d' 0;;;
  kret dest.

(** ** String searching *)

Fixpoint kstrchr (fuel : nat) (s c : Z) : M mem Z :=
  match fuel with
  | O => kspin
  | S f =>
      let* b := load8 s in
      if istrue b then
        if b =? u8 c then kret s else kstrchr f (s + 1) c
      else kret (if c =? 0 then s else 0)
  end.

Fixpoint kstrrchr_loop (fuel : nat) (s c last : Z) : M mem Z :=
  match fuel with
  | O => kspin
  | S f =>
      let* b := load8 s in
      if istrue b then kstrrchr_loop f (s + 1) c (if b =? u8 c then s else last)
      else kret (if c =? 0 then s else last)
  end.
Definition kstrrchr (fuel : nat) (s c : Z) : M mem Z := kstrrchr_loop fuel s c 0.

(** The inner loop of [kstrstr], returning the final [n]. *)
Fixpoint match_here (fuel : nat) (h n : Z) : M mem Z :=
  match fuel with
  | O => kspin
  | S f =>
      let* x := load8 h in
      if istrue x then
        let* y := load8 n in
        if istrue y && (x =? y) then match_here f (h + 1) (n + 1) else kret n
      else kret n
  end.
Fixpoint kstrstr_loop (fuel : nat) (haystack needle : Z) : M mem Z :=
  match fuel with
  | O => kspin
  | S f =>
      let* b := load8 haystack in
      if istrue b then
        let* n := match_here fuel haystack needle in
        let* e := load8 n in
        if istrue e then kstrstr_loop f (haystack + 1) needle else kret haystack
      else kret 0
  end.
Definition kstrstr (fuel : nat) (haystack needle : Z) : M mem Z :=
  let* b := load8 needle in
  if istrue b then kstrstr_loop fuel haystack needle else kret haystack.

(** ** String parsing *)

(** The loop of [kstrsep], with a bound [dfuel] for the inner search through
    [delim]; the result is the returned token and the new value of
    [*stringp]. *)
Fixpoint kstrsep_loop (fuel dfuel : nat) (s fin delim : Z) : M mem (Z * Z) :=
  match fuel with
  | O => kspin
  | S f =>
      let* b := load8 fin in
      if istrue b then
        let* hit := kstrchr dfuel delim (i8 b) in
        if istrue hit then store8 fin 0;;; kret (s, fin + 1)
        else kstrsep_loop f dfuel s (fin + 1) delim
      else kret (s, 0)
  end.
Definition kstrsep (fuel dfuel : nat) (stringp delim : Z) : M mem (Z * Z) :=
  if stringp =? 0 then kret (0, stringp)
  else kstrsep_loop fuel dfuel stringp stringp delim.

(** ** C strings and their order *)

(** [m] holds at [p] the C string with the characters [l]. *)
Definition cstr (m : mem) (p : Z) (l : list Z) : Prop :=
  Forall (fun b => b <> 0) l /\ bytes_at m p (l ++ [0]).

(** Lexicographic order of strings: [a] is a proper prefix of [b], or the
    first differing character of [a] is smaller. *)
Definition lex_lt (a b : list Z) : Prop :=
  exists p ra rb, a = p ++ ra /\ b = p ++ rb /\
    match ra, rb with
    | [], _ :: _ => True
    | x :: _, y :: _ => x < y
    | _, _ => False
    end.

(** The difference the comparison loops compute. *)
Fixpoint lex_diff (a b : list Z) : Z :=
  match a, b with
  | [], [] => 0
  | [], y :: _ => 0 - y
  | x :: _, [] => x - 0
  | x :: a', y :: b' => if x =? y then lex_diff a' b' else x - y
  end.

(** The offset of the first occurrence of [needle] in [hay]. *)
Definition first_occurrence (hay needle : list Z) (i : nat) : Prop :=
  needle `prefix_of` drop i hay /\ forall j, (j < i)%nat -> ~ needle `prefix_of` drop j hay.

(** ** Lemmas: memory operations *)

Lemma insert_mapped (m : mem) a v b n : mapped m b n -> mapped (<[a := v]> m) b n.
Proof. exact (write_list_mapped m a [v] b n). Qed.
#[local] Hint Resolve insert_mapped : relis.

Lemma mapped_head m p n : mapped m p n -> 0 < n -> is_Some (m !! p).
Proof. intros H Hn. specialize (H 0 ltac:(lia)). by rewrite Z.add_0_r in H. Qed.

Lemma mapped_tail m p n : mapped m p (Z.of_nat (S n)) -> mapped m (p + 1) (Z.of_nat n).
Proof. intros H. eapply mapped_weaken; [done|lia..]. Qed.

Lemma kmemset_loop_spec n m p c :
  mapped m p (Z.of_nat n) ->
  kmemset_loop n p c m = Done (tt, write_list m p (replicate n (u8 c))).
Proof.
  revert m p. induction n as [|n IH]; intros m p Hm; simpl; [done|].
  erewrite kbind_done by (apply store8_done; eapply mapped_head; [done|lia]).
  rewrite IH by (apply insert_mapped; by apply mapped_tail).
  by rewrite write_list_cons_l.
Qed.

Lemma kmemset_spec m s c n :
  0 <= n -> mapped m s n ->
  kmemset s c n m = Done (s, write_list m s (replicate (Z.to_nat n) (u8 c))).
Proof.
  intros Hn Hm. unfold kmemset.
  erewrite kbind_done; [done|]. apply kmemset_loop_spec. by rewrite Z2Nat.id.
Qed.

(** Bytes away from a written cell are kept. *)
Lemma bytes_at_insert (m : mem) a v p l :
  a < p \/ p + Z.of_nat (length l) <= a -> bytes_at m p l -> bytes_at (<[a := v]> m) p l.
Proof.
  intros Ha. apply bytes_at_frame. intros x Hx. rewrite lookup_insert_ne; [done|lia].
Qed.

Lemma copy_fwd_spec l m d s :
  bytes_at m s l -> mapped m d (length l) ->
  d <= s \/ s + length l <= d ->
  copy_fwd (length l) d s m = Done (tt, write_list m d l).
Proof.
  revert m d s. induction l as [|b l IH]; intros m d s Hs Hd Hov; [done|].
  apply bytes_at_cons in Hs as [Hb Hs]. simpl length in *. simpl copy_fwd.
  erewrite kbind_done by (by apply load8_done).
  erewrite kbind_done by (apply store8_done; eapply mapped_head; [done|lia]).
  rewrite IH; [by rewrite write_list_cons_l| | |lia].
  - apply bytes_at_insert; [lia|done].
  - apply insert_mapped. by apply mapped_tail.
Qed.

Lemma copy_bwd_spec l m d s :
  bytes_at m s l -> mapped m d (length l) -> s <= d ->
  copy_bwd (length l) (d + length l) (s + length l) m = Done (tt, write_list m d l).
Proof.
  revert m. induction l as [|b l IH] using rev_ind; intros m Hs Hd Hov; [done|].
  apply bytes_at_app in Hs as [Hs [Hb _]%bytes_at_cons].
  rewrite length_app in *. simpl length in *. rewrite Nat.add_comm. simpl copy_bwd.
  replace (s + S (length l) - 1) with (s + length l) by lia.
  replace (d + S (length l) - 1) with (d + length l) by lia.
  erewrite kbind_done by (by apply load8_done).
  erewrite kbind_done by (apply store8_done; apply Hd; lia).
  rewrite IH; [by rewrite write_list_app| | |done].
  - apply bytes_at_insert; [lia|done].
  - apply insert_mapped. eapply mapped_weaken; [done|lia..].
Qed.

Lemma kmemcpy_spec l m d s :
  bytes_at m s l -> mapped m d (length l) ->
  d <= s \/ s + length l <= d ->
  kmemcpy d s (length l) m = Done (d, write_list m d l).
Proof.
  intros. unfold kmemcpy. rewrite Nat2Z.id.
  by erewrite kbind_done by (by apply copy_fwd_spec).
Qed.

(** C39: [kmemmove] moves the [n] source bytes to the destination and changes
    nothing else, however the two regions overlap: the memory afterwards is the
    memory before with the original source bytes written at [dest]. *)
Theorem kmemmove_correct l m d s :
  bytes_at m s l -> mapped m d (length l) ->
  kmemmove d s (length l) m = Done (d, write_list m d l).
Proof.
  intros Hs Hd. unfold kmemmove. rewrite Nat2Z.id.
  destruct (Z.ltb_spec s d); destruct (Z.ltb_spec d (s + length l)); simpl.
  - by erewrite kbind_done by (by apply copy_bwd_spec; [..|lia]).
  - by erewrite kbind_done by (by apply copy_fwd_spec; [..|lia]).
  - by erewrite kbind_done by (by apply copy_fwd_spec; [..|lia]).
  - by erewrite kbind_done by (by apply copy_fwd_spec; [..|lia]).
Qed.

Lemma kmemcmp_spec l1 l2 m s1 s2 :
  bytes_at m s1 l1 -> bytes_at m s2 l2 -> length l1 = length l2 ->
  kmemcmp s1 s2 (length l1) m = Done (lex_diff l1 l2, m).
Proof.
  unfold kmemcmp. rewrite Nat2Z.id. revert l2 s1 s2.
  induction l1 as [|x l1 IH]; intros [|y l2] s1 s2 H1 H2 Hl; try done.
  apply bytes_at_cons in H1 as [Hx H1]. apply bytes_at_cons in H2 as [Hy H2].
  simpl. do 2 (erewrite kbind_done by (by apply load8_done)).
  destruct (x =? y); [|done]. apply IH; [done..|]. simpl in Hl. lia.
Qed.

(** ** Lemmas: strings *)

Lemma cstr_cons m p b l :
  cstr m p (b :: l) <-> b <> 0 /\ m !! p = Some b /\ cstr m (p + 1) l.
Proof. unfold cstr. simpl. rewrite Forall_cons_iff, bytes_at_cons. naive_solver. Qed.

Lemma cstr_nil m p : cstr m p [] <-> m !! p = Some 0.
Proof.
  unfold cstr. simpl. rewrite bytes_at_cons.
  pose proof (bytes_at_nil m (p + 1)). naive_solver.
Qed.

Lemma cstr_frame m m' p l :
  (forall x, p <= x <= p + length l -> m' !! x = m !! x) -> cstr m p l -> cstr m' p l.
Proof.
  intros Heq [Hnz H]. split; [done|]. eapply bytes_at_frame; [|done].
  intros x. rewrite length_app. simpl. intros Hx. apply Heq. lia.
Qed.

Lemma istrue_ne0 b : b <> 0 -> istrue b = true.
Proof. intros. unfold istrue. apply negb_true_iff. lia. Qed.

Lemma skip_to_nul_spec l m p fuel :
  cstr m p l -> (length l < fuel)%nat -> skip_to_nul fuel p m = Done (p + length l, m).
Proof.
  revert p fuel. induction l as [|b l IH]; intros p [|f] Hc Hf; try (simpl in Hf; lia).
  - apply cstr_nil in Hc. simpl. erewrite kbind_done by (by apply load8_done).
    simpl. by rewrite Z.add_0_r.
  - apply cstr_cons in Hc as (Hb & Hp & Hc). simpl skip_to_nul.
    erewrite kbind_done by (by apply load8_done). rewrite istrue_ne0 by done.
    rewrite IH; [|done|simpl in Hf; lia]. simpl length. done_eq.
Qed.

Lemma kstrlen_spec l m p fuel :
  cstr m p l -> (length l < fuel)%nat -> kstrlen fuel p m = Done (Z.of_nat (length l), m).
Proof.
  intros Hc Hf. unfold kstrlen. erewrite kbind_done by (by apply skip_to_nul_spec).
  done_eq.
Qed.

Lemma kstrnlen_spec l m p n :
  cstr m p l -> 0 <= n -> kstrnlen p n m = Done (Z.min n (length l), m).
Proof.
  intros Hc Hn. unfold kstrnlen.
  assert (kstrnlen_loop (Z.to_nat n) p m = Done (p + Z.min n (length l), m)) as E.
  { rewrite <- (Z2Nat.id n) at 2 by done. clear Hn. revert p l Hc.
    induction (Z.to_nat n) as [|k IH]; intros p l Hc.
    - simpl kstrnlen_loop. done_eq.
    - simpl kstrnlen_loop. destruct l as [|b l].
      + apply cstr_nil in Hc. erewrite kbind_done by (by apply load8_done).
        simpl. done_eq.
      + apply cstr_cons in Hc as (Hb & Hp & Hc).
        erewrite kbind_done by (by apply load8_done). rewrite istrue_ne0 by done.
        rewrite (IH _ l) by done. simpl length. done_eq. }
  erewrite kbind_done by done. done_eq.
Qed.

Lemma char_diff_spec m a b x y :
  m !! a = Some x -> m !! b = Some y -> char_diff a b m = Done (x - y, m).
Proof. intros Ha Hb. unfold char_diff. by repeat (erewrite kbind_done by (by apply load8_done)). Qed.

Lemma kstrcmp_spec la lb m a b fuel :
  cstr m a la -> cstr m b lb -> (length la < fuel)%nat ->
  kstrcmp fuel a b m = Done (lex_diff la lb, m).
Proof.
  revert a b lb fuel. induction la as [|x la IH]; intros a b lb [|f] Ha Hb Hf;
    try (simpl in Hf; lia); simpl kstrcmp.
  - apply cstr_nil in Ha. erewrite kbind_done by (by apply load8_done). simpl.
    destruct lb as [|y lb].
    + apply cstr_nil in Hb. by erewrite char_diff_spec by eassumption.
    + apply cstr_cons in Hb as (? & Hb & _). by erewrite char_diff_spec by eassumption.
  - apply cstr_cons in Ha as (Hx & Ha & Ha'). erewrite kbind_done by (by apply load8_done).
    rewrite istrue_ne0 by done. destruct lb as [|y lb].
    + apply cstr_nil in Hb. erewrite kbind_done by (by apply load8_done).
      rewrite (proj2 (Z.eqb_neq x 0)) by done. by erewrite char_diff_spec by eassumption.
    + apply cstr_cons in Hb as (Hy & Hb & Hb'). erewrite kbind_done by (by apply load8_done).
      simpl lex_diff. destruct (x =? y); [|by erewrite char_diff_spec by eassumption].
      apply IH; [done..|simpl in Hf; lia].
Qed.

Lemma kstrncmp_spec la lb m a b n :
  cstr m a la -> cstr m b lb -> 0 <= n ->
  kstrncmp a b n m = Done (lex_diff (take (Z.to_nat n) la) (take (Z.to_nat n) lb), m).
Proof.
  intros Ha Hb Hn. unfold kstrncmp. clear Hn. revert a b la lb Ha Hb.
  induction (Z.to_nat n) as [|k IH]; intros a b la lb Ha Hb; simpl kstrncmp_loop; [done|].
  destruct la as [|x la].
  - apply cstr_nil in Ha. erewrite kbind_done by (by apply load8_done). simpl.
    destruct lb as [|y lb].
    + apply cstr_nil in Hb. by erewrite char_diff_spec by eassumption.
    + apply cstr_cons in Hb as (? & Hb & _). by erewrite char_diff_spec by eassumption.
  - apply cstr_cons in Ha as (Hx & Ha & Ha'). erewrite kbind_done by (by apply load8_done).
    rewrite istrue_ne0 by done. destruct lb as [|y lb].
    + apply cstr_nil in Hb. erewrite kbind_done by (by apply load8_done).
      rewrite (proj2 (Z.eqb_neq x 0)) by done. by erewrite char_diff_spec by eassumption.
    + apply cstr_cons in Hb as (Hy & Hb & Hb'). erewrite kbind_done by (by apply load8_done).
      simpl. destruct (x =? y); [|by erewrite char_diff_spec by eassumption]. by apply IH.
Qed.

Lemma lex_lt_cons x a b : lex_lt (x :: a) (x :: b) <-> lex_lt a b.
Proof.
  split.
  - intros (p & ra & rb & Ea & Eb & H). destruct p as [|z p]; simplify_eq/=; [lia|].
    by exists p, ra, rb.
  - intros (p & ra & rb & -> & -> & H). by exists (x :: p), ra, rb.
Qed.

Lemma lex_lt_irrefl a : ~ lex_lt a a.
Proof.
  intros (p & ra & rb & -> & E & H). apply app_inv_head in E as <-.
  destruct ra; [done|lia].
Qed.

Lemma lex_diff_sign a b :
  Forall is_byte a -> Forall is_byte b -> Forall (fun x => x <> 0) a -> Forall (fun x => x <> 0) b ->
  (lex_diff a b = 0 <-> a = b) /\ (lex_diff a b < 0 <-> lex_lt a b) /\
  (0 < lex_diff a b <-> lex_lt b a).
Proof.
  unfold is_byte. intros Ha. revert b. induction Ha as [|x a Hx Ha IH]; intros [|y b] Hb Hna Hnb.
  - pose proof (lex_lt_irrefl []). simpl. naive_solver lia.
  - apply Forall_cons_iff in Hb as [Hy _]. apply Forall_cons_iff in Hnb as [Hy0 _]. simpl.
    split_and!; split; try done; try lia; intros Hlt.
    + by exists [], [], (y :: b).
    + destruct Hlt as (p & ra & rb & E & E2 & H). by destruct p, ra, rb.
  - apply Forall_cons_iff in Hna as [Hx0 _]. simpl.
    split_and!; split; try done; try lia; intros Hlt.
    + destruct Hlt as (p & ra & rb & E2 & E & H). by destruct p, ra, rb.
    + by exists [], [], (x :: a).
  - apply Forall_cons_iff in Hb as [Hy Hb]. apply Forall_cons_iff in Hna as [Hx0 Hna].
    apply Forall_cons_iff in Hnb as [Hy0 Hnb]. simpl.
    destruct (Z.eqb_spec x y) as [->|Hne].
    + rewrite !lex_lt_cons. specialize (IH b Hb Hna Hnb). naive_solver.
    + assert (forall u v c d, u <> v -> lex_lt (u :: c) (v :: d) <-> u < v) as L.
      { intros u v c d Huv. split.
        - intros (p & ra & rb & E1 & E2 & H). destruct p as [|z p]; simpl in *.
          + by destruct ra, rb; simplify_eq.
          + congruence.
        - intros Hlt. by exists [], (u :: c), (v :: d). }
      rewrite (L x y a b), (L y x b a) by done. naive_solver lia.
Qed.

(** [kstrcmp] decides the lexicographic order of two C strings, and returns:
    with a bound larger than the first string it ends, its result is 0 exactly
    when the strings are equal, negative exactly when the first comes before
    the second, and positive in the opposite case. *)
Theorem kstrcmp_order la lb m a b fuel :
  mem_wf m -> cstr m a la -> cstr m b lb -> (length la < fuel)%nat ->
  exists r, kstrcmp fuel a b m = Done (r, m) /\
    (r = 0 <-> la = lb) /\ (r < 0 <-> lex_lt la lb) /\ (0 < r <-> lex_lt lb la).
Proof.
  intros Hm Ha Hb Hf. exists (lex_diff la lb). split; [by apply kstrcmp_spec|].
  destruct Ha as [Hna Ha], Hb as [Hnb Hb].
  apply (bytes_at_wf _ _ _ Hm), Forall_app in Ha as [Ha _].
  apply (bytes_at_wf _ _ _ Hm), Forall_app in Hb as [Hb _].
  by apply lex_diff_sign.
Qed.

(** *** Copying *)

Lemma copy_to_nul_spec l m d s fuel :
  cstr m s l -> mapped m d (length l + 1) ->
  d <= s \/ s + length l + 1 <= d -> (length l < fuel)%nat ->
  copy_to_nul fuel d s m = Done (tt, write_list m d (l ++ [0])).
Proof.
  revert m d s fuel. induction l as [|b l IH]; intros m d s [|f] Hs Hd Hov Hf;
    try (simpl in Hf; lia); simpl copy_to_nul; simpl length in *.
  - apply cstr_nil in Hs. erewrite kbind_done by (by apply load8_done).
    by erewrite kbind_done by (apply store8_done; eapply mapped_head; [done|lia]).
  - apply cstr_cons in Hs as (Hb & Hp & Hs).
    erewrite kbind_done by (by apply load8_done).
    erewrite kbind_done by (apply store8_done; eapply mapped_head; [done|lia]).
    rewrite istrue_ne0 by done. rewrite IH; [by rewrite write_list_cons_l| | |lia|lia].
    + eapply cstr_frame; [|done]. intros x Hx. rewrite lookup_insert_ne; [done|lia].
    + apply insert_mapped. eapply mapped_weaken; [done|lia..].
Qed.

Lemma cstr_write_list m p l : Forall (fun b => b <> 0) l -> cstr (write_list m p (l ++ [0])) p l.
Proof. intros H. split; [done|apply write_list_bytes_at]. Qed.

Lemma kstrcpy_spec l m d s fuel :
  cstr m s l -> mapped m d (length l + 1) ->
  d <= s \/ s + length l + 1 <= d -> (length l < fuel)%nat ->
  kstrcpy fuel d s m = Done (d, write_list m d (l ++ [0])).
Proof. intros. unfold kstrcpy. by erewrite kbind_done by (by apply copy_to_nul_spec). Qed.

Lemma copy_bounded_spec l m d s (n : nat) :
  cstr m s l -> mapped m d (Z.min n (length l)) ->
  d <= s \/ s + length l < d ->
  copy_bounded n d s m =
  Done ((d + Z.min n (length l), s + Z.min n (length l), (n - length l)%nat),
        write_list m d (take n l)).
Proof.
  revert m d s n. induction l as [|b l IH]; intros m d s [|n] Hs Hd Hov; simpl copy_bounded.
  - simpl. done_eq.
  - apply cstr_nil in Hs. erewrite kbind_done by (by apply load8_done).
    unfold istrue. simpl. done_eq.
  - simpl. done_eq.
  - apply cstr_cons in Hs as (Hb & Hp & Hs). erewrite kbind_done by (by apply load8_done).
    simpl length in *. rewrite istrue_ne0 by done.
    erewrite kbind_done by (apply store8_done; eapply mapped_head; [done|lia]).
    rewrite IH; [|eapply cstr_frame; [|done]|apply insert_mapped; eapply mapped_weaken; [done|lia..]|lia].
    + simpl take. rewrite write_list_cons_l. done_eq.
    + intros x Hx. rewrite lookup_insert_ne; [done|lia].
Qed.

Lemma kstrncpy_spec l m d s n :
  0 <= n -> cstr m s l -> mapped m d n -> d <= s \/ s + length l < d ->
  kstrncpy d s n m =
  Done (d, write_list m d (take (Z.to_nat n) l ++ replicate (Z.to_nat n - length l) 0)).
Proof.
  intros Hn Hs Hd Hov. unfold kstrncpy.
  erewrite kbind_done
    by (apply copy_bounded_spec; [done|eapply mapped_weaken; [done|lia..]|done]).
  simpl. erewrite kbind_done
    by (apply kmemset_loop_spec, write_list_mapped; eapply mapped_weaken; [done|lia..]).
  unfold kret. do 2 f_equal. apply map_eq. intros x.
  rewrite !lookup_write_list, length_app, !length_replicate, length_take.
  change (u8 0) with 0.
  repeat (destruct (decide _)); try lia; try done.
  - rewrite lookup_app_r by (rewrite length_take; lia). rewrite length_take.
    f_equal. lia.
  - by rewrite lookup_app_l by (rewrite length_take; lia).
Qed.

(** [kstrscpy] with a non-zero size copies the source, truncated to
    [count - 1] characters, always leaves a C string in the destination,
    writes at most [count] bytes there and nothing elsewhere, and returns the
    number of characters copied. *)
Theorem kstrscpy_safe l m d s count :
  0 < count -> cstr m s l -> mapped m d (Z.min count (length l + 1)) ->
  d <= s \/ s + length l < d ->
  exists m', kstrscpy d s count m = Done (Z.min (count - 1) (length l), m') /\
    cstr m' d (take (Z.to_nat (count - 1)) l) /\
    forall x, x < d \/ d + count <= x -> m' !! x = m !! x.
Proof.
  intros Hc Hs Hd Hov. unfold kstrscpy. rewrite (proj2 (Z.eqb_neq count 0)) by lia.
  erewrite kbind_done
    by (apply copy_bounded_spec; [done|eapply mapped_weaken; [done|lia..]|done]).
  simpl.
  erewrite kbind_done by (apply store8_done, write_list_mapped with (b := d) (n := Z.min count (length l + 1)); [done|lia]).
  eexists. split; [done_eq|].
  set (t := take (Z.to_nat (count - 1)) l).
  assert (Z.min (Z.to_nat (count - 1)) (length l) = length t) as ->
    by (unfold t; rewrite length_take; lia).
  change (<[?p := 0]> ?m1) with (write_list m1 p [0]).
  assert (length t < count) by (unfold t; rewrite length_take; lia).
  split; [split|].
  - unfold t. destruct Hs as [Hnz _]. by apply Forall_take.
  - apply bytes_at_app. split; [|apply write_list_bytes_at].
    eapply bytes_at_frame; [|apply write_list_bytes_at].
    intros x Hx. apply lookup_write_list_out. lia.
  - intros x Hx. rewrite !lookup_write_list_out; [done|lia|simpl; lia].
Qed.

Lemma kstrcat_spec l1 l2 m d s fuel :
  cstr m d l1 -> cstr m s l2 -> mapped m d (length l1 + length l2 + 1) ->
  s + length l2 < d \/ d + length l1 + length l2 < s ->
  (length l1 < fuel)%nat -> (length l2 < fuel)%nat ->
  exists m', kstrcat fuel d s m = Done (d, m') /\ cstr m' d (l1 ++ l2).
Proof.
  intros Hd Hs Hm Hov Hf1 Hf2. unfold kstrcat.
  erewrite kbind_done by (by apply skip_to_nul_spec).
  erewrite kbind_done
    by (apply copy_to_nul_spec; [done|eapply mapped_weaken; [done|lia..]|lia|done]).
  eexists. split; [done|]. destruct Hd as [Hn1 Hd], Hs as [Hn2 Hs].
  split; [by apply Forall_app|]. rewrite <- app_assoc. apply bytes_at_app.
  split; [|apply write_list_bytes_at].
  apply bytes_at_app in Hd as [Hd _]. eapply bytes_at_frame; [|done].
  intros x Hx. apply lookup_write_list_out. lia.
Qed.

(** *** Searching *)

Lemma kstrchr_spec l m s c fuel :
  cstr m s l -> (length l < fuel)%nat ->
  kstrchr fuel s c m =
  Done (match list_find (fun b => b = u8 c) l with
        | Some (i, _) => s + Z.of_nat i
        | None => if c =? 0 then s + Z.of_nat (length l) else 0
        end, m).
Proof.
  revert s fuel. induction l as [|b l IH]; intros s [|f] Hs Hf; try (simpl in Hf; lia);
    simpl kstrchr.
  - apply cstr_nil in Hs. erewrite kbind_done by (by apply load8_done).
    simpl. destruct (c =? 0); done_eq.
  - apply cstr_cons in Hs as (Hb & Hp & Hs). erewrite kbind_done by (by apply load8_done).
    rewrite istrue_ne0 by done. simpl list_find.
    destruct (Z.eqb_spec b (u8 c)) as [E|E].
    + rewrite decide_True by done. done_eq.
    + rewrite decide_False by done. rewrite IH; [|done|simpl in Hf; lia].
      destruct (list_find _ l) as [[i x]|]; simpl; [done_eq|].
      destruct (c =? 0); done_eq.
Qed.

Lemma kstrrchr_loop_spec l m s c last fuel :
  cstr m s l -> (length l < fuel)%nat -> c <> 0 ->
  exists r, kstrrchr_loop fuel s c last m = Done (r, m) /\
    ((((u8 c) ∉ l) /\ r = last) \/
     (exists l1 l2, l = l1 ++ u8 c :: l2 /\ ((u8 c) ∉ l2) /\ r = s + Z.of_nat (length l1))).
Proof.
  revert s last fuel. induction l as [|b l IH]; intros s last [|f] Hs Hf Hc;
    try (simpl in Hf; lia); simpl kstrrchr_loop.
  - apply cstr_nil in Hs. erewrite kbind_done by (by apply load8_done). simpl.
    rewrite (proj2 (Z.eqb_neq c 0)) by done. exists last. split; [done|]. left. set_solver.
  - apply cstr_cons in Hs as (Hb & Hp & Hs). erewrite kbind_done by (by apply load8_done).
    rewrite istrue_ne0 by done.
    destruct (IH (s + 1) (if b =? u8 c then s else last) f) as (r & Hr & Hcase);
      [done|simpl in Hf; lia|done|].
    exists r. split; [done|].
    destruct Hcase as [[Hnin ->]|(l1 & l2 & -> & Hnin & ->)].
    + destruct (Z.eqb_spec b (u8 c)) as [->|Hne].
      * right. exists [], l. split_and!; [done..|simpl; lia].
      * left. split; [|done]. set_solver.
    + right. exists (b :: l1), l2. split_and!; [done..|simpl; lia].
Qed.

(** A non-empty result of [kstrrchr] is the last occurrence. *)
Lemma kstrrchr_spec l m s c fuel :
  cstr m s l -> (length l < fuel)%nat -> c <> 0 ->
  exists r, kstrrchr fuel s c m = Done (r, m) /\
    ((((u8 c) ∉ l) /\ r = 0) \/
     (exists l1 l2, l = l1 ++ u8 c :: l2 /\ ((u8 c) ∉ l2) /\ r = s + Z.of_nat (length l1))).
Proof. apply kstrrchr_loop_spec. Qed.

Lemma match_here_spec lh ln m h n fuel :
  cstr m h lh -> cstr m n ln -> (length lh < fuel)%nat ->
  exists k, match_here fuel h n m = Done (n + Z.of_nat k, m) /\
    (k <= length ln)%nat /\ (k = length ln <-> ln `prefix_of` lh).
Proof.
  revert h n ln fuel. induction lh as [|x lh IH]; intros h n ln [|f] Hh Hn Hf;
    try (simpl in Hf; lia); simpl match_here.
  - apply cstr_nil in Hh. erewrite kbind_done by (by apply load8_done). simpl.
    exists 0%nat. split; [done_eq|]. split; [lia|]. split.
    + intros E. destruct ln; [|done]. apply prefix_nil.
    + intros ->%prefix_nil_inv. done.
  - apply cstr_cons in Hh as (Hx & Hp & Hh). erewrite kbind_done by (by apply load8_done).
    rewrite istrue_ne0 by done. destruct ln as [|y ln].
    + apply cstr_nil in Hn. erewrite kbind_done by (by apply load8_done). simpl.
      exists 0%nat. split; [done_eq|]. split; [lia|].
      split; [intros; apply prefix_nil|done].
    + apply cstr_cons in Hn as (Hy & Hq & Hn). erewrite kbind_done by (by apply load8_done).
      rewrite istrue_ne0 by done. simpl andb. destruct (Z.eqb_spec x y) as [<-|Hne].
      * destruct (IH (h + 1) (n + 1) ln f) as (k & Hk & Hle & Hiff); [done..|simpl in Hf; lia|].
        exists (S k). cbn [andb]. rewrite Hk. split; [done_eq|]. simpl. split; [lia|].
        split; [intros; apply prefix_cons, Hiff; lia|].
        intros Hpre%prefix_cons_inv_2. apply Hiff in Hpre. lia.
      * exists 0%nat. cbn [andb]. split; [done_eq|]. simpl. split; [lia|]. split; [done|].
        intros Hpre. by apply prefix_cons_inv_1 in Hpre.
Qed.

(** The cell after [k] characters of a string is NUL only at its end. *)
Lemma cstr_lookup_nul m p l k :
  cstr m p l -> (k <= length l)%nat ->
  exists b, m !! (p + Z.of_nat k) = Some b /\ (b = 0 <-> k = length l).
Proof.
  intros [Hnz H] Hk. destruct (decide (k = length l)) as [->|Hne].
  - exists 0. split; [|done]. apply H. by rewrite lookup_app_r, Nat.sub_diag by lia.
  - destruct (lookup_lt_is_Some_2 l k) as [b Hb]; [lia|]. exists b. split.
    + apply H. by apply lookup_app_l_Some.
    + split; [|done]. intros ->. by apply (Forall_lookup_1 _ _ _ _ Hnz) in Hb.
Qed.

Lemma kstrstr_loop_spec lh ln m h n fuel :
  cstr m h lh -> cstr m n ln -> ln <> [] -> (length lh < fuel)%nat ->
  (exists i, first_occurrence lh ln i /\ kstrstr_loop fuel h n m = Done (h + Z.of_nat i, m)) \/
  ((forall i, ~ ln `prefix_of` drop i lh) /\ kstrstr_loop fuel h n m = Done (0, m)).
Proof.
  revert h fuel. induction lh as [|x lh IH]; intros h [|f] Hh Hn Hne Hf;
    try (simpl in Hf; lia); cbn [kstrstr_loop].
  - apply cstr_nil in Hh. erewrite kbind_done by (by apply load8_done). right.
    split; [|done]. intros i. rewrite drop_nil. by intros ->%prefix_nil_inv.
  - destruct (match_here_spec (x :: lh) ln m h n (S f)) as (k & Hk & Hle & Hiff); [done..|].
    destruct (cstr_lookup_nul m n ln k) as (e & He & Hnul); [done..|].
    apply cstr_cons in Hh as (Hx & Hp & Hh). erewrite kbind_done by (by apply load8_done).
    rewrite istrue_ne0 by done. erewrite kbind_done by done.
    erewrite kbind_done by (by apply load8_done).
    destruct (decide (e = 0)) as [->|Hnz].
    + left. exists 0%nat. split; [split; [apply Hiff, Hnul; done|lia]|]. simpl. done_eq.
    + rewrite istrue_ne0 by done.
      assert (~ ln `prefix_of` x :: lh) as Hnp by (intros ?%Hiff; by apply Hnz, Hnul).
      destruct (IH (h + 1) f) as [(i & [Hi Hfst] & ->)|[Hno ->]]; [done..|simpl in Hf; lia| |].
      * left. exists (S i). split; [|done_eq]. split; [done|].
        intros [|j] Hj; [done|]. apply Hfst. lia.
      * right. split; [|done]. intros [|i]; [done|]. apply Hno.
Qed.

(** [kstrstr] finds the first occurrence of the needle: it returns the
    address of the smallest offset at which the needle is a prefix of the rest
    of the haystack, and [NULL] when there is none; it ends with any bound
    larger than the haystack. *)
Theorem kstrstr_first lh ln m h n fuel :
  cstr m h lh -> cstr m n ln -> (length lh < fuel)%nat ->
  (exists i, first_occurrence lh ln i /\ kstrstr fuel h n m = Done (h + Z.of_nat i, m)) \/
  ((forall i, ~ ln `prefix_of` drop i lh) /\ kstrstr fuel h n m = Done (0, m)).
Proof.
  intros Hh Hn Hf. unfold kstrstr. destruct ln as [|y ln].
  - apply cstr_nil in Hn. erewrite kbind_done by (by apply load8_done). left.
    exists 0%nat. split; [split; [apply prefix_nil|lia]|]. simpl. done_eq.
  - pose proof Hn as (Hy & Hq & _)%cstr_cons. erewrite kbind_done by (by apply load8_done).
    rewrite istrue_ne0 by done. by apply kstrstr_loop_spec.
Qed.

(** *** Tokenising *)

Lemma u8_i8 b : is_byte b -> u8 (i8 b) = b.
Proof. unfold is_byte, wrap, signed. intros. change (2 ^ 8) with 256. change (2 ^ (8 - 1)) with 128. Z.div_mod_to_equations. lia. Qed.

Lemma i8_ne0 b : is_byte b -> b <> 0 -> i8 b <> 0.
Proof. intros Hb Hn E. apply Hn. rewrite <- (u8_i8 b Hb), E. done. Qed.

(** As a test, [kstrchr(delim, b)] is membership of [b] in the delimiters. *)
Lemma kstrchr_member dl m delim b fuel :
  0 < delim -> cstr m delim dl -> is_byte b -> b <> 0 -> (length dl < fuel)%nat ->
  exists r, kstrchr fuel delim (i8 b) m = Done (r, m) /\ istrue r = bool_decide (b ∈ dl).
Proof.
  intros Hd Hc Hb Hn Hf. eexists. split; [by apply kstrchr_spec|].
  rewrite u8_i8 by done. destruct (list_find _ dl) as [[i x]|] eqn:E.
  - apply list_find_Some in E as (Hi & -> & _).
    rewrite bool_decide_true by (by eapply list_elem_of_lookup_2).
    apply istrue_ne0. lia.
  - rewrite (proj2 (Z.eqb_neq _ 0)) by (by apply i8_ne0).
    apply list_find_None in E. rewrite bool_decide_false; [done|].
    intros Hin%list_elem_of_In. rewrite List.Forall_forall in E. by apply (E b).
Qed.

Lemma kstrsep_loop_token l1 d l2 dl m s fin delim fuel dfuel :
  mem_wf m -> 0 < delim -> cstr m delim dl -> cstr m fin (l1 ++ d :: l2) ->
  Forall (fun b => b ∉ dl) l1 -> d ∈ dl ->
  (length l1 < fuel)%nat -> (length dl < dfuel)%nat ->
  kstrsep_loop fuel dfuel s fin delim m =
  Done ((s, fin + length l1 + 1), <[fin + length l1 := 0]> m).
Proof.
  intros Hm Hd Hdl. revert fin fuel.
  induction l1 as [|b l1 IH]; intros fin [|f] Hs Hno Hin Hf Hdf; try (simpl in Hf; lia);
    simpl app in Hs; apply cstr_cons in Hs as (Hb & Hp & Hs); simpl kstrsep_loop;
    (erewrite kbind_done by (by apply load8_done)); rewrite istrue_ne0 by done;
    match type of Hp with _ = Some ?b =>
      destruct (kstrchr_member dl m delim b dfuel) as (r & Hr & Hm'); [done|done|by eapply mem_wf_lookup|done|done|] end;
    erewrite kbind_done by done; rewrite Hm'.
  - rewrite bool_decide_true by done. simpl length.
    erewrite kbind_done by (apply store8_done; by eexists). rewrite !Z.add_0_r. done_eq.
  - apply Forall_cons_iff in Hno as [Hb' Hno]. rewrite bool_decide_false by done.
    rewrite IH; [|done..|simpl in Hf; lia|done]. simpl length.
    replace (fin + 1 + length l1) with (fin + S (length l1)) by lia. done.
Qed.

Lemma kstrsep_loop_last l dl m s fin delim fuel dfuel :
  mem_wf m -> 0 < delim -> cstr m delim dl -> cstr m fin l ->
  Forall (fun b => b ∉ dl) l ->
  (length l < fuel)%nat -> (length dl < dfuel)%nat ->
  kstrsep_loop fuel dfuel s fin delim m = Done ((s, 0), m).
Proof.
  intros Hm Hd Hdl. revert fin fuel.
  induction l as [|b l IH]; intros fin [|f] Hs Hno Hf Hdf; try (simpl in Hf; lia);
    simpl kstrsep_loop.
  - apply cstr_nil in Hs. by erewrite kbind_done by (by apply load8_done).
  - apply cstr_cons in Hs as (Hb & Hp & Hs). erewrite kbind_done by (by apply load8_done).
    rewrite istrue_ne0 by done. apply Forall_cons_iff in Hno as [Hb' Hno].
    destruct (kstrchr_member dl m delim b dfuel) as (r & Hr & Hm'); [done|done|by eapply mem_wf_lookup|done|done|].
    erewrite kbind_done by done. rewrite Hm', bool_decide_false by done.
    apply IH; [done..|simpl in Hf; lia|done].
Qed.

(** [kstrsep] splits one token off a string.  When the string is
    [l1 ++ d :: l2] with [d] its first delimiter, the call returns the start,
    leaves there the C string [l1], and moves [*stringp] to the C string [l2];
    when it holds no delimiter, the whole string is the token, [*stringp]
    becomes [NULL] and memory is unchanged. *)
Theorem kstrsep_token l dl m s delim fuel dfuel :
  mem_wf m -> 0 < delim -> s <> 0 -> cstr m delim dl -> cstr m s l ->
  (length l < fuel)%nat -> (length dl < dfuel)%nat ->
  (Forall (fun b => b ∉ dl) l /\ kstrsep fuel dfuel s delim m = Done ((s, 0), m)) \/
  (exists l1 d l2 m', l = l1 ++ d :: l2 /\ d ∈ dl /\ Forall (fun b => b ∉ dl) l1 /\
     kstrsep fuel dfuel s delim m = Done ((s, s + length l1 + 1), m') /\
     cstr m' s l1 /\ cstr m' (s + length l1 + 1) l2).
Proof.
  intros Hm Hd Hs0 Hdl Hs Hf Hdf. unfold kstrsep. rewrite (proj2 (Z.eqb_neq s 0)) by done.
  destruct (list_find (fun b => b ∈ dl) l) as [[i d]|] eqn:E.
  - right. apply list_find_Some in E as (Hi & Hin & Hfst).
    pose proof (lookup_lt_Some _ _ _ Hi) as Hlt.
    assert (l = take i l ++ d :: drop (S i) l) as El by (symmetry; by apply take_drop_middle).
    assert (length (take i l) = i) as Hti by (rewrite length_take; lia).
    exists (take i l), d, (drop (S i) l), (<[s + i := 0]> m).
    assert (Forall (fun b => b ∉ dl) (take i l)) as Hno.
    { apply Forall_lookup. intros j b Hj. apply lookup_take_Some in Hj as [Hj Hji].
      by eapply Hfst. }
    split_and!; [done..| | |].
    + rewrite El in Hs. erewrite kstrsep_loop_token; [|done..|lia|done]. by rewrite Hti.
    + destruct Hs as [Hnz Hs]. split; [by apply Forall_take|].
      rewrite El, <- app_assoc in Hs. apply bytes_at_app in Hs as [Hs _].
      apply bytes_at_app. split; [apply bytes_at_insert; [lia|done]|].
      apply bytes_at_cons. split; [rewrite Hti; apply lookup_insert_eq|apply bytes_at_nil].
    + destruct Hs as [Hnz Hs]. split; [by apply Forall_drop|].
      rewrite El, <- app_assoc in Hs. apply bytes_at_app in Hs as [_ Hs].
      simpl in Hs. apply bytes_at_cons in Hs as [_ Hs]. rewrite Hti in *.
      apply bytes_at_insert; [lia|done].
  - left. apply list_find_None in E. split; [done|]. by eapply kstrsep_loop_last.
Qed.

(** ** Concrete runs *)

Lemma cstr_read m p l :
  forallb istrue l = true -> read_list m p (length (l ++ [0])) = Some (l ++ [0]) -> cstr m p l.
Proof.
  intros Hl Hr. split; [|by apply bytes_at_read].
  apply List.Forall_forall. intros b Hb. rewrite forallb_forall in Hl.
  specialize (Hl b Hb). unfold istrue in Hl. intros ->. done.
Qed.

(** A scratch memory: "ab,cb" at 100, "," at 110, "cb" at 120 and 16 spare
    bytes at 200. *)
Definition demo_mem : mem :=
  write_list (write_list (write_list (write_list ∅ 100 [97; 98; 44; 99; 98; 0]) 110 [44; 0])
    120 [99; 98; 0]) 200 (replicate 16 7).

Lemma demo_mem_wf : mem_wf demo_mem.
Proof. solve_mem_wf. Qed.

(** The regions overlap: 4 bytes move up by 2. *)
Lemma kmemmove_correct_witness :
  kmemmove 102 100 4 demo_mem = Done (102, write_list demo_mem 102 [97; 98; 44; 99]).
Proof.
  apply (kmemmove_correct [97; 98; 44; 99]).
  - apply bytes_at_read. vm_compute. reflexivity.
  - apply mapped_read; [simpl; lia|vm_compute; reflexivity].
Defined.

Lemma kstrcmp_order_witness :
  exists r, kstrcmp 10 100 120 demo_mem = Done (r, demo_mem) /\
    (r = 0 <-> [97; 98; 44; 99; 98] = [99; 98]) /\
    (r < 0 <-> lex_lt [97; 98; 44; 99; 98] [99; 98]) /\
    (0 < r <-> lex_lt [99; 98] [97; 98; 44; 99; 98]).
Proof.
  apply kstrcmp_order.
  - apply demo_mem_wf.
  - apply cstr_read; vm_compute; reflexivity.
  - apply cstr_read; vm_compute; reflexivity.
  - simpl. lia.
Defined.

(** The five characters do not fit in 4 bytes: three are kept. *)
Lemma kstrscpy_safe_witness :
  exists m', kstrscpy 200 100 4 demo_mem = Done (3, m') /\ cstr m' 200 [97; 98; 44] /\
    forall x, x < 200 \/ 204 <= x -> m' !! x = demo_mem !! x.
Proof.
  apply (kstrscpy_safe [97; 98; 44; 99; 98] demo_mem 200 100 4).
  - lia.
  - apply cstr_read; vm_compute; reflexivity.
  - apply mapped_read; [simpl; lia|vm_compute; reflexivity].
  - simpl. lia.
Defined.

Lemma kstrstr_first_witness :
  (exists i, first_occurrence [97; 98; 44; 99; 98] [99; 98] i /\
     kstrstr 10 100 120 demo_mem = Done (100 + Z.of_nat i, demo_mem)) \/
  ((forall i, ~ [99; 98] `prefix_of` drop i [97; 98; 44; 99; 98]) /\
     kstrstr 10 100 120 demo_mem = Done (0, demo_mem)).
Proof.
  apply kstrstr_first.
  - apply cstr_read; vm_compute; reflexivity.
  - apply cstr_read; vm_compute; reflexivity.
  - simpl. lia.
Defined.

Lemma kstrsep_token_witness :
  (Forall (fun b => b ∉ [44]) [97; 98; 44; 99; 98] /\
     kstrsep 10 5 100 110 demo_mem = Done ((100, 0), demo_mem)) \/
  (exists l1 d l2 m', [97; 98; 44; 99; 98] = l1 ++ d :: l2 /\ d ∈ [44] /\
     Forall (fun b => b ∉ [44]) l1 /\
     kstrsep 10 5 100 110 demo_mem = Done ((100, 100 + length l1 + 1), m') /\
     cstr m' 100 l1 /\ cstr m' (100 + length l1 + 1) l2).
Proof.
  apply kstrsep_token; try lia.
  - apply demo_mem_wf.
  - apply cstr_read; vm_compute; reflexivity.
  - apply cstr_read; vm_compute; reflexivity.
  - simpl. lia.
  - simpl. lia.
Defined.

(** The same calls evaluated. *)
Example kstrstr_demo : kstrstr 10 100 120 demo_mem = Done (103, demo_mem).
Proof. vm_compute. reflexivity. Qed.
Example kstrcmp_demo : kstrcmp 10 100 120 demo_mem = Done (-2, demo_mem).
Proof. vm_compute. reflexivity. Qed.
Example kstrsep_demo : kstrsep 10 5 100 110 demo_mem = Done ((100, 103), <[102 := 0]> demo_mem).
Proof. vm_compute. reflexivity. Qed.
