(* ===== verification/ListHead.v ===== *)
(** * include/relis/list.h: intrusive doubly linked circular lists

    The nodes ([struct list_head]) live in a heap indexed by their address; an
    access to an address without a node faults.  The operations are the C
    statements in order, each store one heap update.  [dll h head xs] says
    that the list headed by [head] holds the nodes [xs]; the theorems show the
    operations implement the corresponding operations on sequences, and leave
    the nodes of other lists alone. *)

From S2P Require Import Prelude.

(** ** The heap of nodes *)

Record list_head := mk_list_head { next : Z; prev : Z }.
Abbreviation nodes := (gmap Z list_head).

#[global] Instance list_head_eq_dec : EqDecision list_head.
Proof. solve_decision. Defined.

Definition set_next_field (v : Z) (n : list_head) : list_head := mk_list_head v (prev n).
Definition set_prev_field (v : Z) (n : list_head) : list_head := mk_list_head (next n) v.

(** [p->next], [p->prev] and the assignments to them. *)
Definition get_next (p : Z) : M nodes Z := kopt (fun h => next <$> h !! p).
Definition get_prev (p : Z) : M nodes Z := kopt (fun h => prev <$> h !! p).
Definition put_next (p v : Z) : M nodes unit :=
  kupd (fun h => match h !! p with Some n => Some (<[p := set_next_field v n]> h) | None => None end).
Definition put_prev (p v : Z) : M nodes unit :=
  kupd (fun h => match h !! p with Some n => Some (<[p := set_prev_field v n]> h) | None => None end).

(** ** The operations of list.h *)

Definition INIT_LIST_HEAD (list : Z) : M nodes unit :=
  put_next list list;;;
  put_prev list list.

Definition list_add (new head : Z) : M nodes unit :=
  let* hn := get_next head in
  put_next new hn;;;
  put_prev new head;;;
  let* hn' := get_next head in
  put_prev hn' new;;;
  put_next head new.

Definition list_add_tail (new head : Z) : M nodes unit :=
  let* hp := get_prev head in
  put_prev new hp;;;
  put_next new head;;;
  let* hp' := get_prev head in
  put_next hp' new;;;
  put_prev head new.

Definition list_del (entry : Z) : M nodes unit :=
  let* p := get_prev entry in
  let* n := get_next entry in
  put_next p n;;;
  let* n' := get_next entry in
  let* p' := get_prev entry in
  put_prev n' p';;;
  put_next entry 0;;;
  put_prev entry 0.

Definition list_empty (head : Z) : M nodes bool :=
  let* n := get_next head in kret (n =? head).

(** [list_for_each(pos, head)], run with the loop body that collects the
    positions; a client loop that stops early looks at a prefix of them. *)
Fixpoint list_for_each_from (fuel : nat) (pos head : Z) : M nodes (list Z) :=
  match fuel with
  | O => kspin
  | S f =>
      if pos =? head then kret [] else
      let* n := get_next pos in
      let* rest := list_for_each_from f n head in
      kret (pos :: rest)
  end.
Definition list_for_each (fuel : nat) (head : Z) : M nodes (list Z) :=
  let* pos := get_next head in list_for_each_from fuel pos head.

(** ** The abstraction: circular lists as sequences *)

Definition nxt (h : nodes) (a : Z) : option Z := next <$> h !! a.
Definition prv (h : nodes) (a : Z) : option Z := prev <$> h !! a.

(** [a] and [b] are neighbours. *)
Definition link (h : nodes) (a b : Z) : Prop := nxt h a = Some b /\ prv h b = Some a.
(** The nodes [l] lead from [a] to [b]. *)
Fixpoint chain (h : nodes) (a : Z) (l : list Z) (b : Z) : Prop :=
  match l with
  | [] => link h a b
  | x :: l' => link h a x /\ chain h x l' b
  end.
Definition dll (h : nodes) (head : Z) (xs : list Z) : Prop :=
  NoDup (head :: xs) /\ chain h head xs head.

(** ** Lemmas *)

(** The heap after [p->next = v] and [p->prev = v]. *)
Definition upd_next (p v : Z) (h : nodes) : nodes := alter (set_next_field v) p h.
Definition upd_prev (p v : Z) (h : nodes) : nodes := alter (set_prev_field v) p h.

Lemma get_next_done h p v : nxt h p = Some v -> get_next p h = Done (v, h).
Proof. apply (kopt_some (fun h => next <$> h !! p)). Qed.
Lemma get_prev_done h p v : prv h p = Some v -> get_prev p h = Done (v, h).
Proof. apply (kopt_some (fun h => prev <$> h !! p)). Qed.
Lemma put_next_done h p v : is_Some (h !! p) -> put_next p v h = Done (tt, upd_next p v h).
Proof.
  intros [n Hn]. apply kupd_some. rewrite Hn. f_equal. apply map_eq. intros q.
  unfold upd_next. rewrite lookup_insert, lookup_alter.
  destruct (decide (p = q)) as [<-|]; [by rewrite Hn|done].
Qed.
Lemma put_prev_done h p v : is_Some (h !! p) -> put_prev p v h = Done (tt, upd_prev p v h).
Proof.
  intros [n Hn]. apply kupd_some. rewrite Hn. f_equal. apply map_eq. intros q.
  unfold upd_prev. rewrite lookup_insert, lookup_alter.
  destruct (decide (p = q)) as [<-|]; [by rewrite Hn|done].
Qed.

Lemma upd_next_is_Some p v h q : is_Some (upd_next p v h !! q) <-> is_Some (h !! q).
Proof. unfold upd_next. by rewrite lookup_alter_is_Some. Qed.
Lemma upd_prev_is_Some p v h q : is_Some (upd_prev p v h !! q) <-> is_Some (h !! q).
Proof. unfold upd_prev. by rewrite lookup_alter_is_Some. Qed.

Lemma upd_next_ne p v h q : p <> q -> upd_next p v h !! q = h !! q.
Proof. intros. by apply lookup_alter_ne. Qed.
Lemma upd_prev_ne p v h q : p <> q -> upd_prev p v h !! q = h !! q.
Proof. intros. by apply lookup_alter_ne. Qed.

Lemma nxt_upd_next_eq p v h : is_Some (h !! p) -> nxt (upd_next p v h) p = Some v.
Proof. intros [n Hn]. unfold nxt, upd_next. by rewrite lookup_alter_eq, Hn. Qed.
Lemma prv_upd_prev_eq p v h : is_Some (h !! p) -> prv (upd_prev p v h) p = Some v.
Proof. intros [n Hn]. unfold prv, upd_prev. by rewrite lookup_alter_eq, Hn. Qed.
Lemma nxt_upd_next_ne p v h q : p <> q -> nxt (upd_next p v h) q = nxt h q.
Proof. intros. unfold nxt. by rewrite upd_next_ne. Qed.
Lemma prv_upd_prev_ne p v h q : p <> q -> prv (upd_prev p v h) q = prv h q.
Proof. intros. unfold prv. by rewrite upd_prev_ne. Qed.
Lemma nxt_upd_prev p v h q : nxt (upd_prev p v h) q = nxt h q.
Proof.
  unfold nxt, upd_prev. rewrite lookup_alter. destruct (decide _) as [<-|]; [|done].
  by destruct (h !! p).
Qed.
Lemma prv_upd_next p v h q : prv (upd_next p v h) q = prv h q.
Proof.
  unfold prv, upd_next. rewrite lookup_alter. destruct (decide _) as [<-|]; [|done].
  by destruct (h !! p).
Qed.

Lemma nxt_is_Some h a b : nxt h a = Some b -> is_Some (h !! a).
Proof. unfold nxt. destruct (h !! a); [by eexists|done]. Qed.
Lemma prv_is_Some h a b : prv h a = Some b -> is_Some (h !! a).
Proof. unfold prv. destruct (h !! a); [by eexists|done]. Qed.
#[export] Hint Resolve nxt_is_Some prv_is_Some : relis.
Create Rewrite HintDb relis_dll.
#[export] Hint Rewrite nxt_upd_prev prv_upd_next : relis_dll.
(** Split memberships and non-memberships of concrete list shapes. *)
Ltac split_mem :=
  repeat match goal with
  | H : _ ∉ [] |- _ => clear H
  | H : _ ∉ _ :: _ |- _ => apply not_elem_of_cons in H as [? ?]
  | H : _ ∉ _ ++ _ |- _ => apply not_elem_of_app in H as [? ?]
  | H : NoDup (_ :: _) |- _ => apply NoDup_cons in H as [? ?]
  | H : NoDup (_ ++ _) |- _ => apply NoDup_app in H as (? & ? & ?)
  | H : _ ∈ [] |- _ => apply elem_of_nil in H; contradiction
  | H : _ ∈ _ :: _ |- _ => apply elem_of_cons in H as [->|H]
  | H : _ ∈ _ ++ _ |- _ => apply elem_of_app in H as [H|H]
  end.
Ltac solve_ne := first [done | congruence | (let E := fresh in intros E; subst; contradiction)].
#[export] Hint Rewrite nxt_upd_next_ne prv_upd_prev_ne using solve_ne : relis_dll.
(** A node still exists after updates. *)
Ltac solve_exists :=
  repeat (rewrite upd_next_is_Some || rewrite upd_prev_is_Some); eauto with relis.
#[export] Hint Rewrite nxt_upd_next_eq prv_upd_prev_eq using solve_exists : relis_dll.

Lemma chain_app h a l1 x l2 b :
  chain h a (l1 ++ x :: l2) b <-> chain h a l1 x /\ chain h x l2 b.
Proof. revert a. induction l1 as [|y l1 IH]; intros a; simpl; [done|]. rewrite IH. tauto. Qed.

(** A chain depends on the [next] of its nodes but the last, and the [prev] of
    its nodes but the first. *)
Lemma chain_frame h h' a l b :
  (forall x, x ∈ a :: l -> nxt h' x = nxt h x) ->
  (forall x, x ∈ l ++ [b] -> prv h' x = prv h x) ->
  chain h a l b -> chain h' a l b.
Proof.
  revert a. induction l as [|y l IH]; intros a Hn Hp; simpl.
  - unfold link. rewrite Hn, Hp; [done|set_solver..].
  - unfold link. intros [Hl Hc]. split.
    + rewrite Hn, Hp; [done|set_solver..].
    + apply IH; [set_solver..|done].
Qed.

Lemma chain_nxt h a l b x : chain h a l b -> x ∈ a :: l -> is_Some (nxt h x).
Proof.
  revert a. induction l as [|y l IH]; intros a; simpl.
  - intros [Hn _] Hx. assert (x = a) as -> by set_solver. by eexists.
  - intros [[Hn _] Hc] Hx. apply elem_of_cons in Hx as [->|Hx]; [by eexists|by eapply IH].
Qed.

Lemma dll_is_Some h head xs x : dll h head xs -> x ∈ head :: xs -> is_Some (h !! x).
Proof. intros [_ Hc] Hx. destruct (chain_nxt _ _ _ _ _ Hc Hx) as [? ?]. eauto with relis. Qed.

(** Two lists on disjoint nodes: what changes one list leaves the other. *)
Lemma dll_frame h h' head xs :
  (forall x, x ∈ head :: xs -> h' !! x = h !! x) -> dll h head xs -> dll h' head xs.
Proof.
  intros Heq [Hnd Hc]. split; [done|]. eapply chain_frame; [| |done].
  - intros x Hx. unfold nxt. by rewrite Heq.
  - intros x Hx. unfold prv. rewrite Heq; [done|set_solver].
Qed.

(** Execute one store to a node known to exist. *)
Ltac put_step :=
  first [ erewrite kbind_done by (apply put_next_done; solve_exists)
        | erewrite kbind_done by (apply put_prev_done; solve_exists)
        | rewrite put_next_done by solve_exists
        | rewrite put_prev_done by solve_exists ].
(** Execute one load whose value the hypotheses give. *)
Ltac get_step :=
  first [ erewrite kbind_done by (apply get_next_done; autorewrite with relis_dll; eassumption)
        | erewrite kbind_done by (apply get_prev_done; autorewrite with relis_dll; eassumption) ].
(** A link or a chain after updates elsewhere. *)
Ltac solve_link := split; autorewrite with relis_dll; first [done | eassumption].
Ltac solve_chain :=
  (eapply chain_frame; [ | | eassumption]); intros ? ?; split_mem; autorewrite with relis_dll; done.
(** The nodes outside the updated ones are untouched. *)
Ltac solve_frame :=
  intros ? ?; split_mem;
  repeat first [rewrite upd_next_ne by solve_ne | rewrite upd_prev_ne by solve_ne]; done.

Lemma INIT_LIST_HEAD_spec h p :
  is_Some (h !! p) ->
  exists h', INIT_LIST_HEAD p h = Done (tt, h') /\ dll h' p [] /\
    forall q, q <> p -> h' !! q = h !! q.
Proof.
  intros Hp. unfold INIT_LIST_HEAD. put_step. put_step. eexists. split; [done|]. split.
  - split; [apply NoDup_singleton|]. simpl. solve_link.
  - solve_frame.
Qed.

Lemma list_add_spec h head xs new :
  dll h head xs -> new ∉ head :: xs -> is_Some (h !! new) ->
  exists h', list_add new head h = Done (tt, h') /\ dll h' head (new :: xs) /\
    forall q, q ∉ new :: head :: xs -> h' !! q = h !! q.
Proof.
  intros [Hnd Hc] Hnew Hsome. unfold list_add.
  assert (NoDup (head :: new :: xs)) as Hnd' by (rewrite !NoDup_cons in *; set_solver).
  destruct xs as [|x xs]; simpl in Hc.
  - destruct Hc as [Hn Hp]. split_mem. get_step. do 2 put_step. get_step. do 2 put_step.
    eexists. split; [done|]. split; [|solve_frame].
    split; [rewrite !NoDup_cons; set_solver|]. simpl. split; solve_link.
  - destruct Hc as [[Hn Hp] Hc]. assert (NoDup (head :: new :: x :: xs)) as Hnd2 by done.
    split_mem. get_step. do 2 put_step. get_step. do 2 put_step.
    eexists. split; [done|]. split; [|solve_frame].
    split; [rewrite !NoDup_cons; set_solver|]. simpl. split_and!; [solve_link|solve_link|solve_chain].
Qed.

Lemma list_add_tail_spec h head xs new :
  dll h head xs -> new ∉ head :: xs -> is_Some (h !! new) ->
  exists h', list_add_tail new head h = Done (tt, h') /\ dll h' head (xs ++ [new]) /\
    forall q, q ∉ new :: head :: xs -> h' !! q = h !! q.
Proof.
  intros [Hnd Hc] Hnew Hsome. unfold list_add_tail.
  assert (NoDup (head :: xs ++ [new])) as Hnd' by (by apply (nodup_snoc (head :: xs))).
  destruct xs as [|x xs _] using rev_ind; simpl in Hc.
  - destruct Hc as [Hn Hp]. split_mem. get_step. do 2 put_step. get_step. do 2 put_step.
    eexists. split; [done|]. split; [|solve_frame].
    split; [by apply (nodup_snoc [head]); [apply NoDup_singleton|set_solver]|].
    simpl. split; solve_link.
  - apply chain_app in Hc as [Hc [Hn Hp]].
    pose proof Hnd as [Hx _]%(nodup_middle (head :: xs) []).
    assert (NoDup (head :: (xs ++ [x]) ++ [new])) as Hnd2 by done.
    split_mem. get_step. do 2 put_step. get_step. do 2 put_step.
    eexists. split; [done|]. split; [|solve_frame].
    split; [by apply (nodup_snoc (head :: xs ++ [x])); [apply (nodup_snoc (head :: xs)); [by apply NoDup_cons|set_solver]|set_solver]|].
    rewrite <- app_assoc. simpl. apply chain_app. simpl.
    split_and!; [solve_chain|solve_link|solve_link].
Qed.

(** Removing a node that lies between [p] and [n]. *)
Lemma list_del_run h p e n :
  nxt h e = Some n -> prv h e = Some p -> e <> p -> e <> n ->
  is_Some (h !! p) -> is_Some (h !! n) ->
  list_del e h = Done (tt, upd_prev e 0 (upd_next e 0 (upd_prev n p (upd_next p n h)))).
Proof.
  intros Hen Hep Hp Hn Sp Sn. unfold list_del.
  get_step. get_step. put_step. get_step. get_step. put_step. put_step. put_step. done.
Qed.

Lemma list_del_chain h head l1 e l2 :
  NoDup (head :: l1 ++ l2) -> e ∉ head :: l1 ++ l2 -> is_Some (h !! e) ->
  chain h head l1 e -> chain h e l2 head ->
  exists h', list_del e h = Done (tt, h') /\ chain h' head (l1 ++ l2) head /\
    h' !! e = Some (mk_list_head 0 0) /\
    forall q, q ∉ head :: l1 ++ e :: l2 -> h' !! q = h !! q.
Proof.
  intros Hnd He [ne Hne] Hc1 Hc2.
  assert (forall p n, e <> p -> e <> n ->
    upd_prev e 0 (upd_next e 0 (upd_prev n p (upd_next p n h))) !! e = Some (mk_list_head 0 0)) as Hz.
  { intros p n ??. unfold upd_prev at 1, upd_next at 1. rewrite !lookup_alter_eq.
    by rewrite upd_prev_ne, upd_next_ne, Hne by done. }
  assert (forall p n, nxt h e = Some n -> prv h e = Some p ->
    e <> p -> e <> n -> p ∈ head :: l1 -> n ∈ head :: l2 -> is_Some (h !! p) -> is_Some (h !! n) ->
    chain (upd_prev e 0 (upd_next e 0 (upd_prev n p (upd_next p n h)))) head (l1 ++ l2) head ->
    exists h', list_del e h = Done (tt, h') /\ chain h' head (l1 ++ l2) head /\
      h' !! e = Some (mk_list_head 0 0) /\
      forall q, q ∉ head :: l1 ++ e :: l2 -> h' !! q = h !! q) as Hrun.
  { intros p n Hn Hp ?? Hpin Hnin ?? Hch. erewrite list_del_run by done.
    eexists. split_and!; [done..|by apply Hz|]. intros q Hq.
    assert (q <> p /\ q <> n /\ q <> e) as (?&?&?) by (split_and!; set_solver).
    by rewrite upd_prev_ne, upd_next_ne, upd_prev_ne, upd_next_ne by done. }
  destruct l1 as [|p l1 _] using rev_ind; [|apply chain_app in Hc1 as [Hc1 Hl1]];
    (destruct l2 as [|n l2]; [|destruct Hc2 as [Hl2 Hc2]]); simpl in *.
  - destruct Hc1, Hc2. split_mem. eapply Hrun; eauto with relis; [set_solver..|]. solve_link.
  - destruct Hc1, Hl2. split_mem. eapply Hrun; eauto with relis; [set_solver..|].
    split; [solve_link|solve_chain].
  - destruct Hl1, Hc2. rewrite app_nil_r in *.
    pose proof Hnd as [? _]%(nodup_middle (head :: l1) []).
    split_mem. eapply Hrun; eauto with relis; [set_solver..|].
    apply chain_app. split; [solve_chain|solve_link].
  - destruct Hl1, Hl2. rewrite <- app_assoc in Hnd. simpl in Hnd.
    pose proof Hnd as (? & ? & ?)%(nodup_middle (head :: l1) (n :: l2)).
    pose proof Hnd as Hnd2. replace (head :: l1 ++ p :: n :: l2) with ((head :: l1 ++ [p]) ++ n :: l2) in Hnd2
      by (simpl; by rewrite <- app_assoc).
    apply nodup_middle in Hnd2 as (? & ? & ?). clear Hnd.
    split_mem. eapply Hrun; eauto with relis; [set_solver..|].
    rewrite <- app_assoc. apply chain_app. simpl. split_and!; [solve_chain|solve_link|solve_chain].
Qed.

Lemma list_del_spec h head l1 e l2 :
  dll h head (l1 ++ e :: l2) ->
  exists h', list_del e h = Done (tt, h') /\ dll h' head (l1 ++ l2) /\
    h' !! e = Some (mk_list_head 0 0) /\
    forall q, q ∉ head :: l1 ++ e :: l2 -> h' !! q = h !! q.
Proof.
  intros Hd. pose proof Hd as [Hnd [Hc1 Hc2]%chain_app].
  pose proof Hnd as (Hel1 & Hel2 & Hnd')%(nodup_middle (head :: l1) l2).
  destruct (list_del_chain h head l1 e l2) as (h' & ? & ? & ? & ?); [done| | |done|done|].
  - set_solver.
  - eapply dll_is_Some; [done|set_solver].
  - by exists h'.
Qed.

Lemma list_empty_spec h head xs :
  dll h head xs -> list_empty head h = Done (bool_decide (xs = []), h).
Proof.
  intros [Hnd Hc]. unfold list_empty. destruct xs as [|x xs]; simpl in Hc.
  - destruct Hc. get_step. by rewrite Z.eqb_refl.
  - destruct Hc as [[] _]. get_step. split_mem. rewrite (proj2 (Z.eqb_neq x head)) by congruence.
    done.
Qed.

Lemma list_for_each_spec h head xs fuel :
  dll h head xs -> (length xs < fuel)%nat -> list_for_each fuel head h = Done (xs, h).
Proof.
  intros [Hnd Hc] Hf. unfold list_for_each.
  assert (forall xs a fuel, chain h a xs head -> head ∉ xs -> (length xs < fuel)%nat ->
    (let* p := get_next a in list_for_each_from fuel p head) h = Done (xs, h)) as L.
  { clear. induction xs as [|x xs IH]; intros a [|f] Hc Hni Hf; try (simpl in Hf; lia);
      simpl in Hc.
    - destruct Hc. get_step. simpl. by rewrite Z.eqb_refl.
    - destruct Hc as [[] Hc]. get_step. cbn [list_for_each_from]. split_mem.
      rewrite (proj2 (Z.eqb_neq x head)) by congruence.
      destruct (chain_nxt _ _ _ _ x Hc) as [y Hy]; [set_solver|]. get_step.
      specialize (IH x f Hc). erewrite kbind_done in IH by (by apply get_next_done).
      erewrite kbind_done; [done|]. apply IH; [done|simpl in Hf; lia]. }
  apply L; [done| |done]. split_mem. done.
Qed.

(** ** Refinement: any sequence of operations on one list *)

Inductive list_op := OpAdd (n : Z) | OpAddTail (n : Z) | OpDel (n : Z).

Definition run_op (head : Z) (op : list_op) : M nodes unit :=
  match op with
  | OpAdd n => list_add n head
  | OpAddTail n => list_add_tail n head
  | OpDel n => list_del n
  end.
Definition op_node (op : list_op) : Z :=
  match op with OpAdd n | OpAddTail n | OpDel n => n end.

(** The sequence operation, with the C code's precondition: a node is added
    when it is in no list, and removed when it is in this one. *)
Definition abs_op (head : Z) (op : list_op) (xs : list Z) : option (list Z) :=
  match op with
  | OpAdd n => if decide (n ∈ head :: xs) then None else Some (n :: xs)
  | OpAddTail n => if decide (n ∈ head :: xs) then None else Some (xs ++ [n])
  | OpDel n => if decide (n ∈ xs) then Some (filter (fun x => x <> n) xs) else None
  end.
Fixpoint abs_ops (head : Z) (ops : list list_op) (xs : list Z) : option (list Z) :=
  match ops with
  | [] => Some xs
  | op :: ops' => match abs_op head op xs with Some xs' => abs_ops head ops' xs' | None => None end
  end.

Lemma filter_ne_middle (l1 l2 : list Z) x :
  NoDup (l1 ++ x :: l2) -> filter (fun y => y <> x) (l1 ++ x :: l2) = l1 ++ l2.
Proof.
  intros (H1 & H2 & _)%nodup_middle.
  assert (forall l : list Z, x ∉ l -> filter (fun y => y <> x) l = l) as L.
  { induction l as [|y l IH]; intros Hx; [done|]. apply not_elem_of_cons in Hx as [Hy Hx].
    rewrite filter_cons_True by done. by rewrite IH. }
  rewrite filter_app, filter_cons_False by (intros ?; done). by rewrite !L.
Qed.

Lemma run_op_refines h head xs xs' op :
  dll h head xs -> is_Some (h !! op_node op) -> abs_op head op xs = Some xs' ->
  exists h', run_op head op h = Done (tt, h') /\ dll h' head xs' /\
    (forall q, q ∉ op_node op :: head :: xs -> h' !! q = h !! q) /\
    (forall q, is_Some (h !! q) -> is_Some (h' !! q)) /\
    xs' ⊆ op_node op :: xs.
Proof.
  intros Hd Hn Habs.
  assert (forall h' xs'', dll h' head xs'' -> op_node op :: head :: xs ⊆ op_node op :: head :: xs'' ->
    is_Some (h' !! op_node op) ->
    (forall q, q ∉ op_node op :: head :: xs -> h' !! q = h !! q) ->
    forall q, is_Some (h !! q) -> is_Some (h' !! q)) as Hkeep.
  { intros h' xs'' Hd' Hsub Hop Hfr q Hq.
    destruct (decide (q ∈ op_node op :: head :: xs)) as [Hin%Hsub|Hin]; [|by rewrite Hfr].
    apply elem_of_cons in Hin as [->|Hin]; [done|by eapply dll_is_Some]. }
  destruct op as [n|n|n]; simpl in *; destruct (decide _) as [Hin|Hin]; simplify_eq.
  - destruct (list_add_spec h head xs n) as (h' & Hr & Hd' & Hfr); [done..|].
    exists h'. split_and!; [done..| |set_solver].
    eapply (Hkeep h' (n :: xs)); [done|set_solver|eapply dll_is_Some; [done|set_solver]|done].
  - destruct (list_add_tail_spec h head xs n) as (h' & Hr & Hd' & Hfr); [done..|].
    exists h'. split_and!; [done..| |set_solver].
    eapply (Hkeep h' (xs ++ [n])); [done|set_solver|eapply dll_is_Some; [done|set_solver]|done].
  - apply list_elem_of_split in Hin as (l1 & l2 & ->).
    destruct (list_del_spec h head l1 n l2) as (h' & Hr & Hd' & Hz & Hfr); [done|].
    assert (NoDup (l1 ++ n :: l2)) as Hnd by (destruct Hd as [Hnd _]; by apply NoDup_cons in Hnd as [_ ?]).
    rewrite filter_ne_middle by done. exists h'. split_and!; [done..| | |set_solver].
    + intros q Hq. apply Hfr. set_solver.
    + eapply (Hkeep h' (l1 ++ l2)); [done|set_solver|by eexists|].
      intros q Hq. apply Hfr. set_solver.
Qed.

(** C16: the pointer operations of list.h implement sequences.  Starting from a
    list that holds the nodes [xs], any sequence of [list_add],
    [list_add_tail] and [list_del] that respects their preconditions runs
    without a fault and leaves the list holding exactly the nodes the
    sequence operations give, in order, with every node outside the list and
    the operands untouched. *)
Theorem list_ops_refine ops h head xs xs' :
  dll h head xs -> (forall op, op ∈ ops -> is_Some (h !! op_node op)) ->
  abs_ops head ops xs = Some xs' ->
  exists h', kfor ops (run_op head) h = Done (tt, h') /\ dll h' head xs' /\
    forall q, q ∉ head :: xs ++ map op_node ops -> h' !! q = h !! q.
Proof.
  revert h xs. induction ops as [|op ops IH]; intros h xs Hd Hex Habs; simpl in *.
  - simplify_eq. by exists h.
  - destruct (abs_op head op xs) as [xs1|] eqn:E; [|done].
    destruct (run_op_refines h head xs xs1 op) as (h1 & Hr & Hd1 & Hfr & Hk & Hsub);
      [done|apply Hex; set_solver|done|].
    erewrite kbind_done by done.
    destruct (IH h1 xs1) as (h' & Hrun & Hd' & Hfr'); [done| |done|].
    + intros op' Hop'. apply Hk, Hex. set_solver.
    + exists h'. split_and!; [done..|]. intros q Hq. rewrite Hfr', Hfr; [done|set_solver..].
Qed.

(** ** A concrete run *)

(** An empty list headed at 16 and three free nodes. *)
Definition demo_nodes : nodes :=
  list_to_map [(16, mk_list_head 16 16); (32, mk_list_head 0 0);
               (48, mk_list_head 0 0); (64, mk_list_head 0 0)].
Definition demo_ops : list list_op := [OpAddTail 32; OpAddTail 48; OpAdd 64; OpDel 32].

Lemma list_ops_refine_witness :
  exists h', kfor demo_ops (run_op 16) demo_nodes = Done (tt, h') /\ dll h' 16 [64; 48] /\
    forall q, q ∉ 16 :: [] ++ map op_node demo_ops -> h' !! q = demo_nodes !! q.
Proof.
  apply list_ops_refine.
  - split; [apply NoDup_singleton|]. split; reflexivity.
  - intros op Hop. unfold demo_ops in Hop. split_mem; eexists; reflexivity.
  - vm_compute. reflexivity.
Defined.
