(* ===== verification/SpinLock.v ===== *)
(** * include/relis/spinlock.h: the spin lock

    Two views.  [spin_lock]/[spin_unlock] act on the lock word of a component
    state, with one processor running: taking a lock that is already taken
    never ends, since nobody else runs.  [lock_step] is the lock shared by any
    number of processors, one atomic access per step; it is where mutual
    exclusion is shown. *)

From S2P Require Import Prelude.

(** ** One processor *)

Section OneProcessor.
Context {S : Type} (get : S -> Z) (set : Z -> S -> S).

(** [while (exchange(&lock, 1) != 0) while (lock != 0) pause;] *)
Definition spin_lock : M S unit :=
  fun s => if get s =? 0 then Done (tt, set 1 s) else Spin.
(** [atomic_store(&lock, 0)] *)
Definition spin_unlock : M S unit := kmod (set 0).

Lemma spin_lock_free s : get s = 0 -> spin_lock s = Done (tt, set 1 s).
Proof. unfold spin_lock. by intros ->. Qed.

Lemma spin_lock_taken s : get s <> 0 -> spin_lock s = Spin.
Proof. unfold spin_lock. intros H. by rewrite (proj2 (Z.eqb_neq _ 0)). Qed.
End OneProcessor.

(** ** Several processors *)

(** Where a processor is: outside, at the exchange, in the inner read loop,
    or between [spin_lock] and [spin_unlock]. *)
Inductive lock_pc := Outside | AtExchange | AtRead | Holding.
#[global] Instance lock_pc_eq_dec : EqDecision lock_pc.
Proof. solve_decision. Defined.

Record lock_state := mk_lock_state { lock_word : Z; lock_pcs : list lock_pc }.

(** One atomic access of processor [i]. *)
Inductive lock_step : lock_state -> lock_state -> Prop :=
| step_enter w pcs i :
    pcs !! i = Some Outside ->
    lock_step (mk_lock_state w pcs) (mk_lock_state w (<[i := AtExchange]> pcs))
| step_exchange w pcs i :
    pcs !! i = Some AtExchange ->
    lock_step (mk_lock_state w pcs)
      (mk_lock_state 1 (<[i := if w =? 0 then Holding else AtRead]> pcs))
| step_read w pcs i :
    pcs !! i = Some AtRead ->
    lock_step (mk_lock_state w pcs)
      (mk_lock_state w (<[i := if w =? 0 then AtExchange else AtRead]> pcs))
| step_unlock w pcs i :
    pcs !! i = Some Holding ->
    lock_step (mk_lock_state w pcs) (mk_lock_state 0 (<[i := Outside]> pcs)).

(** [SPIN_LOCK_UNLOCKED], with [n] processors outside. *)
Definition lock_init (n : nat) : lock_state := mk_lock_state 0 (replicate n Outside).

Definition lock_reachable (n : nat) : lock_state -> Prop := rtc lock_step (lock_init n).

(** The lock word is 1 exactly while some processor holds the lock, and that
    processor is alone. *)
Definition lock_inv (s : lock_state) : Prop :=
  (lock_word s = 0 \/ lock_word s = 1) /\
  (lock_word s = 0 -> forall i, lock_pcs s !! i <> Some Holding) /\
  (lock_word s = 1 -> exists i, lock_pcs s !! i = Some Holding) /\
  (forall i j, lock_pcs s !! i = Some Holding -> lock_pcs s !! j = Some Holding -> i = j).

Lemma lookup_insert_holding (pcs : list lock_pc) i j pc :
  <[i := pc]> pcs !! j = Some Holding -> pc <> Holding -> pcs !! j = Some Holding.
Proof. intros [(<- & <- & _)|[_ ?]]%list_lookup_insert_Some Hne; done. Qed.

Lemma lock_inv_step s s' : lock_inv s -> lock_step s s' -> lock_inv s'.
Proof.
  intros (Hw & H0 & H1 & Hu) Hs. unfold lock_inv.
  assert (forall (pcs : list lock_pc) (i : nat) a (pc : lock_pc), pcs !! i = Some a -> a <> Holding ->
    (exists k, pcs !! k = Some Holding) -> exists k, <[i := pc]> pcs !! k = Some Holding) as Hother.
  { intros pcs i a pc Hi Ha [k Hk]. exists k.
    rewrite list_lookup_insert_ne; [done|congruence]. }
  destruct Hs as [w pcs i Hi|w pcs i Hi|w pcs i Hi|w pcs i Hi]; simpl in *.
  - split_and!; [done| | |].
    + intros E k Hk%lookup_insert_holding; [by eapply H0|done].
    + intros E. eapply Hother; [done|done|by apply H1].
    + intros j k Hj%lookup_insert_holding Hk%lookup_insert_holding; [by apply Hu|done..].
  - destruct (Z.eqb_spec w 0) as [->|Hne].
    + split_and!; [by right|lia| |].
      * intros _. exists i. apply list_lookup_insert_eq. by eapply lookup_lt_Some.
      * intros j k [(<- & _ & _)|[_ Hj]]%list_lookup_insert_Some
          [(<- & _ & _)|[_ Hk]]%list_lookup_insert_Some; try done; exfalso; by eapply H0.
    + assert (w = 1) as -> by lia. split_and!; [by right|lia| |].
      * intros _. eapply Hother; [done|done|by apply H1].
      * intros j k Hj%lookup_insert_holding Hk%lookup_insert_holding; [by apply Hu|done..].
  - destruct (Z.eqb_spec w 0) as [->|Hne]; (split_and!; [done| | |]).
    1,4: intros E k Hk%lookup_insert_holding; [by eapply H0|done].
    1,3: intros E; eapply Hother; [done|done|by apply H1].
    all: intros j k Hj%lookup_insert_holding Hk%lookup_insert_holding; [by apply Hu|done..].
  - split_and!; [by left| |lia|].
    + intros _ k Hk. apply list_lookup_insert_Some in Hk as [(<- & ? & _)|[Hne Hk]]; [done|].
      by apply Hne, Hu.
    + intros j k Hj%lookup_insert_holding Hk%lookup_insert_holding; [by apply Hu|done..].
Qed.

Lemma lock_inv_init n : lock_inv (lock_init n).
Proof.
  split_and!; simpl.
  - by left.
  - intros _ i [? _]%lookup_replicate. done.
  - lia.
  - intros i j [? _]%lookup_replicate. done.
Qed.

Lemma lock_reachable_inv n s : lock_reachable n s -> lock_inv s.
Proof.
  intros H. unfold lock_reachable in H.
  enough (forall s0 s1, rtc lock_step s0 s1 -> lock_inv s0 -> lock_inv s1) as G
    by (eapply G; [done|apply lock_inv_init]).
  clear. induction 1; eauto using lock_inv_step.
Qed.

(** C38: mutual exclusion.  In every state that [n] processors reach by any
    interleaving of their atomic accesses to the lock word, two processors
    between [spin_lock] and [spin_unlock] are the same processor. *)
Theorem spin_lock_mutex n s i j :
  lock_reachable n s ->
  lock_pcs s !! i = Some Holding -> lock_pcs s !! j = Some Holding -> i = j.
Proof. intros (_ & _ & _ & H)%lock_reachable_inv. apply H. Qed.

(** A waiting processor can take a free lock, so the lock does not deadlock:
    from every reachable state with a waiting processor and no holder there is
    a run to a state in which that processor holds the lock. *)
Lemma spin_lock_available n s i :
  lock_reachable n s ->
  lock_pcs s !! i = Some AtExchange \/ lock_pcs s !! i = Some AtRead ->
  (forall j, lock_pcs s !! j <> Some Holding) ->
  exists s', rtc lock_step s s' /\ lock_pcs s' !! i = Some Holding.
Proof.
  intros (Hw & _ & H1 & _)%lock_reachable_inv Hi Hno. destruct s as [w pcs]. simpl in *.
  assert (w = 0) as -> by (destruct Hw as [->|Hw]; [done|destruct (H1 Hw) as [j Hj]; by destruct (Hno j)]).
  destruct Hi as [Hi|Hi]; pose proof (lookup_lt_Some _ _ _ Hi) as Hlt.
  - eexists. split; [apply rtc_once, (step_exchange _ _ i Hi)|].
    simpl. by apply list_lookup_insert_eq.
  - eexists. split.
    + eapply rtc_l; [apply (step_read _ _ i Hi)|]. simpl.
      apply rtc_once, (step_exchange _ _ i). by apply list_lookup_insert_eq.
    + simpl. apply list_lookup_insert_eq. by rewrite length_insert.
Qed.

(** Two processors: the first takes the lock while the second spins. *)
Lemma spin_lock_mutex_witness :
  lock_reachable 2 (mk_lock_state 1 [Holding; AtRead]) /\ (0 = 0)%nat.
Proof.
  assert (lock_reachable 2 (mk_lock_state 1 [Holding; AtRead])) as H.
  { unfold lock_reachable, lock_init. simpl.
    eapply rtc_l; [apply (step_enter _ _ 0%nat); reflexivity|]; simpl.
    eapply rtc_l; [apply (step_enter _ _ 1%nat); reflexivity|]; simpl.
    eapply rtc_l; [apply (step_exchange _ _ 0%nat); reflexivity|]; simpl.
    eapply rtc_l; [apply (step_exchange _ _ 1%nat); reflexivity|]; simpl. apply rtc_refl. }
  split; [exact H|].
  exact (spin_lock_mutex 2 (mk_lock_state 1 [Holding; AtRead]) 0 0 H eq_refl eq_refl).
Defined.
