(* ===== verification/Slab.v ===== *)
(** * mm/slab.c: the kernel heap

    A bump allocator over the static array [kernel_heap_region] of 4 MiB.  The
    state is the static variables and the memory; the address of the array is
    the linker's choice, a parameter [kernel_heap_region]. *)

From S2P Require Import Prelude Memory SpinLock StringLib.

(** ** State and operations *)

Definition kernel_heap_size : Z := 4 * 1024 * 1024.

Record slab_state := mk_slab {
  heap_lock : Z;
  heap_ptr : Z;      (* uint32_t *)
  heap_mem : mem
}.
Definition set_heap_lock (l : Z) (s : slab_state) : slab_state := mk_slab l (heap_ptr s) (heap_mem s).
Definition set_heap_ptr (p : Z) (s : slab_state) : slab_state := mk_slab (heap_lock s) p (heap_mem s).
Definition set_heap_mem (m : mem) (s : slab_state) : slab_state := mk_slab (heap_lock s) (heap_ptr s) m.

Section Slab.
Variable kernel_heap_region : Z.

Definition kmalloc (size : Z) : M slab_state Z :=
  spin_lock heap_lock set_heap_lock;;;
  let* hp := kgets heap_ptr in
  if kernel_heap_size <? u64 (hp + size) then
    spin_unlock set_heap_lock;;;
    kret 0
  else
    let* hp := kgets heap_ptr in
    let ptr := kernel_heap_region + hp in
    kmod (set_heap_ptr (u32 (hp + Z.land (u64 (size + 15)) (cnot 64 15))));;;
    spin_unlock set_heap_lock;;;
    kret ptr.

Definition kcalloc (nmemb size : Z) : M slab_state Z :=
  let* ptr := kmalloc (u64 (nmemb * size)) in
  (if istrue ptr
   then (zoom heap_mem set_heap_mem (kmemset ptr 0 (u64 (nmemb * size)));;; kret tt)
   else kret tt);;;
  kret ptr.

Definition kfree (ptr : Z) : M slab_state unit := kret tt.
End Slab.

(** The state at boot: both statics zero. *)
Definition slab_boot (m : mem) : slab_state := mk_slab 0 0 m.

(** ** Invariant *)

Definition slab_inv (s : slab_state) : Prop :=
  heap_lock s = 0 /\ 0 <= heap_ptr s <= kernel_heap_size /\ heap_ptr s mod 16 = 0.

(** Rounding up to a multiple of 16, as the code computes it. *)
Lemma round16 size :
  0 <= size < 2 ^ 64 - 15 -> Z.land (u64 (size + 15)) (cnot 64 15) = (size + 15) / 16 * 16.
Proof.
  intros Hs. rewrite wrap_small by lia.
  change 16 with (2 ^ 4). rewrite <- Z.shiftl_mul_pow2, <- Z.shiftr_div_pow2 by lia.
  apply Z.bits_inj'. intros i Hi. rewrite Z.land_spec, testbit_cnot by lia.
  change 15 with (Z.ones 4). rewrite Z.testbit_ones_nonneg by lia.
  destruct (decide (i < 4)).
  - rewrite Z.shiftl_spec_low, (proj2 (Z.ltb_lt i 4)) by lia. simpl.
    by rewrite andb_false_r, andb_false_r.
  - rewrite Z.shiftl_spec, Z.shiftr_spec, (proj2 (Z.ltb_ge i 4)) by lia.
    replace (i - 4 + 4) with i by lia. simpl. rewrite andb_true_r.
    destruct (decide (i < 64)).
    + rewrite bool_decide_true by lia. by rewrite andb_true_r.
    + rewrite (testbit_range_high _ 64) by (change (Z.ones 4) with 15; lia). done.
Qed.

Lemma kmalloc_full base s size :
  heap_lock s = 0 -> kernel_heap_size < u64 (heap_ptr s + size) ->
  kmalloc base size s = Done (0, s).
Proof.
  intros Hl Hs. unfold kmalloc, kbind, spin_lock, kgets, spin_unlock, kmod, kret. rewrite Hl. simpl.
  rewrite (proj2 (Z.ltb_lt _ _)) by done. by destruct s; simpl in *; subst.
Qed.

Lemma kmalloc_fits base s size :
  heap_lock s = 0 -> u64 (heap_ptr s + size) <= kernel_heap_size ->
  kmalloc base size s =
  Done (base + heap_ptr s,
        set_heap_ptr (u32 (heap_ptr s + Z.land (u64 (size + 15)) (cnot 64 15))) s).
Proof.
  intros Hl Hs. unfold kmalloc, kbind, spin_lock, kgets, spin_unlock, kmod, kret. rewrite Hl. simpl.
  rewrite (proj2 (Z.ltb_ge _ _)) by done. by destruct s; simpl in *; subst.
Qed.

(** Sizes for which [heap_ptr + size] does not wrap around 2^64. *)
Definition size_ok (size : Z) : Prop := 0 <= size < 2 ^ 64 - kernel_heap_size - 15.

(** [kmalloc] on a size that does not wrap.  Either the request does not fit,
    and it answers [NULL] and changes nothing; or it answers a 16-byte aligned
    block of [size] bytes inside the heap array that starts where the previous
    block ended, and advances the heap pointer past it. *)
Lemma kmalloc_spec base s size :
  slab_inv s -> size_ok size -> 0 < base -> base mod 16 = 0 ->
  (kernel_heap_size < heap_ptr s + size /\ kmalloc base size s = Done (0, s)) \/
  (exists s', kmalloc base size s = Done (base + heap_ptr s, s') /\ slab_inv s' /\
     heap_mem s' = heap_mem s /\
     (base + heap_ptr s) mod 16 = 0 /\
     heap_ptr s + size <= heap_ptr s' < heap_ptr s + size + 16 /\
     heap_ptr s' <= kernel_heap_size).
Proof.
  intros (Hl & Hp & Hm) Hs Hb Hba. unfold size_ok, kernel_heap_size in *.
  assert (u64 (heap_ptr s + size) = heap_ptr s + size) as Hw by (apply wrap_small; lia).
  destruct (decide (4 * 1024 * 1024 < heap_ptr s + size)) as [Hfull|Hfit].
  - left. split; [done|]. apply kmalloc_full; [done|]. rewrite Hw. done.
  - right. eexists. split; [apply kmalloc_fits; [done|]; rewrite Hw; unfold kernel_heap_size; lia|].
    rewrite round16 by lia. unfold slab_inv. simpl.
    assert (heap_ptr s + (size + 15) / 16 * 16 <= 4 * 1024 * 1024) by (Z.div_mod_to_equations; lia).
    assert (0 <= (size + 15) / 16) by (apply Z.div_pos; lia).
    rewrite wrap_small by lia. split_and!; try done; Z.div_mod_to_equations; lia.
Qed.

(** [kcalloc] on a request that does not overflow answers [NULL] without
    touching memory when the heap is full, and otherwise a 16-byte aligned
    block of [nmemb * size] zero bytes inside the heap array; no other byte of
    memory changes, the heap pointer moves past the block, and the lock is free
    again. *)
Theorem kcalloc_zeroed base s nmemb size :
  slab_inv s -> 0 <= nmemb -> 0 <= size -> size_ok (nmemb * size) -> 0 < base -> base mod 16 = 0 ->
  mapped (heap_mem s) (base + heap_ptr s) (nmemb * size) ->
  (kernel_heap_size < heap_ptr s + nmemb * size /\ kcalloc base nmemb size s = Done (0, s)) \/
  (exists s', kcalloc base nmemb size s = Done (base + heap_ptr s, s') /\ slab_inv s' /\
     (base + heap_ptr s) mod 16 = 0 /\
     heap_ptr s + nmemb * size <= heap_ptr s' /\
     heap_mem s' = write_list (heap_mem s) (base + heap_ptr s) (replicate (Z.to_nat (nmemb * size)) 0)).
Proof.
  intros Hinv Hn Hsz Hok Hb Hba Hm.
  assert (u64 (nmemb * size) = nmemb * size) as Hw
    by (apply wrap_small; unfold size_ok, kernel_heap_size in Hok; lia).
  unfold kcalloc. rewrite Hw. pose proof Hinv as (_ & Hp & _).
  destruct (kmalloc_spec base s (nmemb * size))
    as [[Hf Hr]|(s1 & Hr & Hi & Hmem & Hal & Hnext & Hle)]; [done..| |].
  - left. split; [done|]. by erewrite kbind_done by done.
  - right. erewrite kbind_done by done. rewrite istrue_ne0 by lia.
    rewrite kbind_assoc.
    erewrite kbind_done by (apply zoom_done, kmemset_spec; [lia|];
      by rewrite Hmem).
    cbn [kbind kret]. eexists. split; [done|]. rewrite Hmem. split_and!; [exact Hi|done|simpl; lia|done].
Qed.

(** The size check of [kmalloc] can be defeated.  [heap_ptr + size] is computed
    modulo 2^64, so after any allocation a request of at least [2^64 - heap_ptr]
    bytes is granted: the caller receives a pointer to a block that cannot exist,
    and the heap pointer moves back, so the next allocation reuses memory in use. *)
Lemma kmalloc_wraps base s size :
  slab_inv s -> 2 ^ 64 - heap_ptr s <= size <= 2 ^ 64 - 16 ->
  exists p', kmalloc base size s = Done (base + heap_ptr s, set_heap_ptr p' s) /\ 0 <= p' < heap_ptr s.
Proof.
  intros (Hl & Hp & Hm) Hsz. unfold kernel_heap_size in Hp. set (r := (size + 15) / 16 * 16).
  assert (size <= r <= 2 ^ 64 - 16) as Hr by (unfold r; Z.div_mod_to_equations; lia).
  exists (heap_ptr s + r - 2 ^ 64). split; [|lia]. rewrite kmalloc_fits; [|done|].
  - do 3 f_equal. rewrite round16 by lia. fold r. unfold wrap.
    symmetry. apply (Z.mod_unique _ _ (2 ^ 32)); lia.
  - unfold wrap, kernel_heap_size. replace (heap_ptr s + size) with (heap_ptr s + size - 2 ^ 64 + 1 * 2 ^ 64) by lia.
    rewrite Z_mod_plus_full, Z.mod_small by lia. lia.
Qed.

(** ** Sequences of allocations *)

(** Allocate each size in turn; the blocks are the pointers with their sizes. *)
Fixpoint kmalloc_all (base : Z) (sizes : list Z) : M slab_state (list (Z * Z)) :=
  match sizes with
  | [] => kret []
  | size :: sizes' =>
      let* p := kmalloc base size in
      let* rest := kmalloc_all base sizes' in
      kret (if istrue p then (p, size) :: rest else rest)
  end.

Definition block_in (lo hi : Z) (b : Z * Z) : Prop := lo <= b.1 /\ b.1 + b.2 <= hi.
Definition blocks_disjoint (b1 b2 : Z * Z) : Prop := b1.1 + b1.2 <= b2.1 \/ b2.1 + b2.2 <= b1.1.

Lemma kmalloc_all_spec base sizes s :
  slab_inv s -> Forall size_ok sizes -> 0 < base -> base mod 16 = 0 ->
  exists bs s', kmalloc_all base sizes s = Done (bs, s') /\ slab_inv s' /\
    Forall (block_in (base + heap_ptr s) (base + kernel_heap_size)) bs /\
    ForallOrdPairs blocks_disjoint bs.
Proof.
  intros Hinv Hsz Hb Hba. revert s Hinv. induction Hsz as [|size sizes Hs Hsz IH]; intros s Hinv.
  - exists [], s. split_and!; [done..|constructor|constructor].
  - simpl. pose proof Hinv as (_ & Hp & _).
    destruct (kmalloc_spec base s size) as [[_ Hr]|(s1 & Hr & Hi1 & _ & _ & Hnext & Hle)]; [done..| |].
    + destruct (IH s Hinv) as (bs & s' & Hr' & Hi' & Hin & Hd).
      exists bs, s'. do 2 (erewrite kbind_done by done). done.
    + destruct (IH s1 Hi1) as (bs & s' & Hr' & Hi' & Hin & Hd).
      exists ((base + heap_ptr s, size) :: bs), s'. do 2 (erewrite kbind_done by done).
      rewrite istrue_ne0 by lia. unfold size_ok in Hs.
      split_and!; [done..| |].
      * constructor; [split; simpl; lia|]. eapply Forall_impl; [done|].
        intros b [? ?]. split; lia.
      * constructor; [|done]. eapply Forall_impl; [done|]. intros b [? ?]. left. simpl. lia.
Qed.

(** C37: every sequence of allocations of sizes that do not wrap around 2^64 (below
    2^64 minus the size of the heap) runs to the end, and the blocks it hands out
    lie in the heap array and are pairwise disjoint.  A request of 2^64 minus the
    heap pointer bytes or more, up to 2^64 - 16, is granted too, and moves the heap pointer back, so
    that later blocks overlap blocks in use. *)
Theorem kmalloc_blocks_disjoint base sizes s :
  slab_inv s -> 0 < base -> base mod 16 = 0 ->
  (Forall size_ok sizes -> exists bs s', kmalloc_all base sizes s = Done (bs, s') /\ slab_inv s' /\
     Forall (block_in (base + heap_ptr s) (base + kernel_heap_size)) bs /\
     ForallOrdPairs blocks_disjoint bs) /\
  (forall size, 2 ^ 64 - heap_ptr s <= size <= 2 ^ 64 - 16 ->
     exists p', kmalloc base size s = Done (base + heap_ptr s, set_heap_ptr p' s) /\ 0 <= p' < heap_ptr s).
Proof.
  intros Hinv Hb Hba. split; [intros Hsz; by apply kmalloc_all_spec|]. intros size Hsz. by apply kmalloc_wraps.
Qed.

(** ** Concrete runs *)

Lemma slab_boot_inv m : slab_inv (slab_boot m).
Proof. by repeat split. Qed.

(** A heap array at 0x1000 with one page of it backed. *)
Definition demo_heap : slab_state := mk_slab 0 32 (write_list ∅ 4096 (replicate 128 7)).

Lemma kcalloc_zeroed_witness :
  (kernel_heap_size < 32 + 3 * 8 /\ kcalloc 4096 3 8 demo_heap = Done (0, demo_heap)) \/
  (exists s', kcalloc 4096 3 8 demo_heap = Done (4128, s') /\ slab_inv s' /\
     4128 mod 16 = 0 /\ 32 + 3 * 8 <= heap_ptr s' /\
     heap_mem s' = write_list (heap_mem demo_heap) 4128 (replicate 24 0)).
Proof.
  apply (kcalloc_zeroed 4096 demo_heap 3 8).
  - by repeat split.
  - lia.
  - lia.
  - by split.
  - lia.
  - reflexivity.
  - apply mapped_read; [simpl; lia|vm_compute; reflexivity].
Defined.

Lemma kmalloc_blocks_disjoint_witness :
  (exists bs s', kmalloc_all 4096 [8; 0; 100; 5000000; 16] demo_heap = Done (bs, s') /\ slab_inv s' /\
     Forall (block_in 4128 (4096 + kernel_heap_size)) bs /\ ForallOrdPairs blocks_disjoint bs) /\
  exists p', kmalloc 4096 (2 ^ 64 - 20) demo_heap = Done (4128, set_heap_ptr p' demo_heap) /\ 0 <= p' < 32.
Proof.
  destruct (kmalloc_blocks_disjoint 4096 [8; 0; 100; 5000000; 16] demo_heap) as [Hall Hwrap].
  - by repeat split.
  - lia.
  - reflexivity.
  - split.
    + apply Hall. repeat (apply List.Forall_cons; [by split|]). apply List.Forall_nil.
    + apply (Hwrap (2 ^ 64 - 20)). cbn [demo_heap heap_ptr]. lia.
Defined.

(** The request of 5 MB is refused, the others are granted in order. *)
Example kmalloc_all_demo :
  kmalloc_all 4096 [8; 0; 100; 5000000; 16] (slab_boot ∅) =
  Done ([(4096, 8); (4112, 0); (4112, 100); (4224, 16)], mk_slab 0 144 ∅).
Proof. vm_compute. reflexivity. Qed.
