(* ===== verification/PgTable.v ===== *)
(** * include/asm/pgtable.h: page-table constants, indices and the direct map *)

From S2P Require Import Prelude Memory.

Definition PAGE_SHIFT : Z := 12.
Definition PAGE_SIZE : Z := Z.shiftl 1 PAGE_SHIFT.
Definition PAGE_MASK : Z := cnot 64 (PAGE_SIZE - 1).

Definition PTE_PRESENT : Z := bit 0.
Definition PTE_WRITABLE : Z := bit 1.
Definition PTE_USER : Z := bit 2.
Definition PTE_PWT : Z := bit 3.
Definition PTE_PCD : Z := bit 4.
Definition PTE_ACCESSED : Z := bit 5.
Definition PTE_DIRTY : Z := bit 6.
Definition PTE_HUGE : Z := bit 7.
Definition PTE_GLOBAL : Z := bit 8.
Definition PTE_COW : Z := bit 9.
Definition PTE_NX : Z := bit 63.

Definition PTE_FLAGS_MASK : Z := 0xFFF0000000000FFF.
Definition PTE_ADDR_MASK : Z := 0x000FFFFFFFFFF000.

Definition pgd_index (va : Z) : Z := Z.land (Z.shiftr va 39) 0x1FF.
Definition pud_index (va : Z) : Z := Z.land (Z.shiftr va 30) 0x1FF.
Definition pmd_index (va : Z) : Z := Z.land (Z.shiftr va 21) 0x1FF.
Definition pte_index (va : Z) : Z := Z.land (Z.shiftr va 12) 0x1FF.

Definition PHYS_OFFSET : Z := 0xFFFF800000000000.
Definition phys_to_virt (pa : Z) : Z := u64 (pa + PHYS_OFFSET).
Definition virt_to_phys (va : Z) : Z := u64 (va - PHYS_OFFSET).

(** A page of zero bytes. *)
Definition zero_page : list Z := replicate (Z.to_nat PAGE_SIZE) 0.

(** ** Lemmas *)

Lemma zero_page_replicate : zero_page = replicate (Z.to_nat PAGE_SIZE) 0.
Proof. reflexivity. Qed.
Lemma length_zero_page : length zero_page = Z.to_nat PAGE_SIZE.
Proof. apply length_replicate. Qed.
Lemma zero_page_bytes : Forall is_byte zero_page.
Proof. apply Forall_replicate. unfold is_byte. lia. Qed.
#[global] Opaque zero_page.

(** Physical addresses the direct map can reach without wrapping. *)
Definition phys_ok (pa : Z) : Prop := 0 <= pa < 2 ^ 47.

Lemma phys_to_virt_eq pa : phys_ok pa -> phys_to_virt pa = pa + PHYS_OFFSET.
Proof. unfold phys_ok, phys_to_virt, PHYS_OFFSET. intros. apply wrap_small. lia. Qed.

Lemma virt_to_phys_to_virt pa : phys_ok pa -> virt_to_phys (phys_to_virt pa) = pa.
Proof.
  intros H. rewrite phys_to_virt_eq by done. unfold virt_to_phys, phys_ok in *.
  replace (pa + PHYS_OFFSET - PHYS_OFFSET) with pa by lia. apply wrap_small. lia.
Qed.

(** An index is a 9-bit field of the address. *)
Lemma index_field va k : 0 <= k -> Z.land (Z.shiftr va k) 0x1FF = (va / 2 ^ k) mod 512.
Proof.
  intros. change 0x1FF with (Z.ones 9). rewrite Z.land_ones, Z.shiftr_div_pow2 by lia. done.
Qed.

Lemma index_range va k : 0 <= Z.land (Z.shiftr va k) 0x1FF < 512.
Proof.
  change 0x1FF with (Z.ones 9). rewrite Z.land_ones by lia. apply Z.mod_pos_bound. lia.
Qed.

(** The low 12 bits of an entry hold flags, bits 12..51 the frame. *)
Lemma testbit_addr_mask i : 0 <= i -> Z.testbit PTE_ADDR_MASK i = bool_decide (12 <= i < 52).
Proof.
  intros Hi. unfold PTE_ADDR_MASK.
  replace 0x000FFFFFFFFFF000 with (Z.shiftl (Z.ones 40) 12) by reflexivity.
  destruct (decide (i < 12)).
  - rewrite Z.shiftl_spec_low by lia. rewrite bool_decide_false by lia. done.
  - rewrite Z.shiftl_spec, Z.testbit_ones_nonneg by lia.
    case_bool_decide; lia.
Qed.

Lemma testbit_flags_mask i :
  0 <= i -> Z.testbit PTE_FLAGS_MASK i = bool_decide (i < 12 \/ 52 <= i < 64).
Proof.
  intros Hi. replace PTE_FLAGS_MASK with (cnot 64 PTE_ADDR_MASK) by reflexivity.
  rewrite testbit_cnot, testbit_addr_mask by lia.
  destruct (decide (i < 64)); [rewrite (bool_decide_true (i < 64)) by done|
    rewrite (bool_decide_false (i < 64)) by done]; simpl.
  - repeat case_bool_decide; simpl; lia.
  - case_bool_decide; [lia|done].
Qed.

(** Page-aligned physical addresses below 2^52 survive the address mask. *)
Definition frame_ok (pa : Z) : Prop := 0 <= pa < 2 ^ 47 /\ pa mod 4096 = 0.

Lemma frame_low_bits pa i : pa mod 4096 = 0 -> 0 <= i < 12 -> Z.testbit pa i = false.
Proof.
  intros H Hi. rewrite <- (Z.mod_pow2_bits_low pa 12) by lia.
  change (2 ^ 12) with 4096. rewrite H. apply Z.bits_0.
Qed.

Lemma frame_land_mask pa : frame_ok pa -> Z.land pa PTE_ADDR_MASK = pa.
Proof.
  intros [Hr Ha]. apply Z.bits_inj'. intros i Hi. rewrite Z.land_spec, testbit_addr_mask by lia.
  destruct (decide (i < 12)).
  - by rewrite frame_low_bits by (done || lia).
  - destruct (decide (i < 52)).
    + rewrite bool_decide_true by lia. apply andb_true_r.
    + by rewrite (testbit_range_high pa 47) by lia.
Qed.

(** The frame of an entry made of a frame and flag bits. *)
Lemma entry_frame pa fl :
  frame_ok pa -> Z.land fl PTE_ADDR_MASK = 0 -> Z.land (Z.lor pa fl) PTE_ADDR_MASK = pa.
Proof.
  intros Hp Hf. by rewrite Z.land_lor_distr_l, Hf, Z.lor_0_r, frame_land_mask by done.
Qed.

Lemma land_addr_mask_aligned e : Z.land e PTE_ADDR_MASK mod 4096 = 0.
Proof.
  change 4096 with (2 ^ 12). rewrite <- Z.land_ones by lia. apply Z.bits_inj'. intros i Hi.
  rewrite !Z.land_spec, testbit_addr_mask, Z.testbit_ones_nonneg, Z.bits_0 by lia.
  case_bool_decide; [|by rewrite andb_false_r].
  rewrite (proj2 (Z.ltb_ge i 12)) by lia. apply andb_false_r.
Qed.

Lemma PAGE_SIZE_eq : PAGE_SIZE = 4096.
Proof. reflexivity. Qed.

(** Four 9-bit indices and a 12-bit offset determine a 48-bit address. *)
Lemma indices_inj va va' :
  pgd_index va = pgd_index va' -> pud_index va = pud_index va' ->
  pmd_index va = pmd_index va' -> pte_index va = pte_index va' ->
  (va / 4096) mod 2 ^ 36 = (va' / 4096) mod 2 ^ 36.
Proof.
  unfold pgd_index, pud_index, pmd_index, pte_index. rewrite !index_field by lia.
  assert (forall x, x / 2 ^ 39 = x / 4096 / 2 ^ 27 /\ x / 2 ^ 30 = x / 4096 / 2 ^ 18 /\
    x / 2 ^ 21 = x / 4096 / 2 ^ 9 /\ x / 2 ^ 12 = x / 4096) as E.
  { intros x. rewrite !Z.div_div by lia. done. }
  destruct (E va) as (-> & -> & -> & ->), (E va') as (-> & -> & -> & ->).
  generalize (va / 4096) (va' / 4096). clear. intros x y H4 H3 H2 H1.
  change 512 with (2 ^ 9) in *.
  assert (forall z, z mod 2 ^ 36 =
    z mod 2 ^ 9 + 2 ^ 9 * ((z / 2 ^ 9) mod 2 ^ 9 +
      2 ^ 9 * ((z / 2 ^ 18) mod 2 ^ 9 + 2 ^ 9 * ((z / 2 ^ 27) mod 2 ^ 9)))) as D.
  { intros z. change (2 ^ 36) with (2 ^ 9 * 2 ^ 27). rewrite (Z.rem_mul_r z (2 ^ 9) (2 ^ 27)) by lia.
    change (2 ^ 27) with (2 ^ 9 * 2 ^ 18).
    rewrite (Z.rem_mul_r (z / 2 ^ 9) (2 ^ 9) (2 ^ 18)), (Z.div_div z) by lia.
    change (2 ^ 9 * 2 ^ 9) with (2 ^ 18). change (2 ^ 18) with (2 ^ 9 * 2 ^ 9) at 2.
    rewrite (Z.rem_mul_r (z / 2 ^ 18) (2 ^ 9) (2 ^ 9)), (Z.div_div z (2 ^ 18)) by lia. done. }
  rewrite (D x), (D y). lia.
Qed.
