(* ===== verification/FrameAlloc.v ===== *)
(** * The interface between the page tables and the page allocator

    [arch/mm/init.c] and [mm/*.c] need from [alloc_page] only what is stated
    here: a frame nobody uses, cleared, marked as used.  The theorems about
    page tables are proved against this interface; [PageAlloc] shows that
    [mm/page_alloc.c] provides it. *)

From S2P Require Import Prelude Memory PgTable.

(** Operations: the memory of the machine, the allocation and the release of
    a frame, the frames in use (by physical address), how many are left, and the allocator's
    invariant. *)
Class FrameAllocator (S : Type) := {
  fa_mem : S -> mem;
  fa_set_mem : mem -> S -> S;
  fa_alloc : M S Z;
  fa_free : Z -> M S unit;
  fa_used : S -> Z -> Prop;
  fa_avail : S -> Z;
  fa_wf : S -> Prop
}.

(** Promises. *)
Class FrameAllocatorLaws (S : Type) `{FrameAllocator S} := {
  fa_mem_set (m : mem) (s : S) : fa_mem (fa_set_mem m s) = m;
  fa_set_mem_same (s : S) : fa_set_mem (fa_mem s) s = s;
  fa_set_mem_twice (m m' : mem) (s : S) : fa_set_mem m (fa_set_mem m' s) = fa_set_mem m s;
  fa_used_set (m : mem) (s : S) p : fa_used (fa_set_mem m s) p <-> fa_used s p;
  fa_wf_mem (s : S) : fa_wf s -> mem_wf (fa_mem s);
  fa_wf_write (s : S) a l :
    fa_wf s -> Forall is_byte l -> fa_wf (fa_set_mem (write_list (fa_mem s) a l) s);
  fa_avail_set (m : mem) (s : S) : fa_avail (fa_set_mem m s) = fa_avail s;
  fa_avail_nonneg (s : S) : fa_wf s -> 0 <= fa_avail s;
  fa_alloc_outcome (s : S) :
    fa_wf s -> (0 < fa_avail s /\ exists p s', fa_alloc s = Done (p, s')) \/
               (fa_avail s = 0 /\ exists w, fa_alloc s = Halt w);
  fa_alloc_ok (s : S) p s' :
    fa_wf s -> fa_alloc s = Done (p, s') ->
    frame_ok p /\ ~ fa_used s p /\ (forall q, fa_used s' q <-> q = p \/ fa_used s q) /\
    fa_avail s' = fa_avail s - 1 /\
    mapped (fa_mem s) (phys_to_virt p) PAGE_SIZE /\
    fa_mem s' = write_list (fa_mem s) (phys_to_virt p) zero_page /\ fa_wf s';
  fa_free_ok (s : S) p :
    fa_wf s -> 0 <= p < 2 ^ 44 -> p mod 4096 = 0 ->
    exists s', fa_free p s = Done (tt, s') /\ fa_mem s' = fa_mem s /\
      (forall q, fa_used s' q <-> fa_used s q /\ q <> p) /\ fa_wf s'
}.
