(* ===== verification/PageAlloc.v ===== *)
(** * mm/page_alloc.c: the physical page allocator

    One bit per 4 KiB frame, set when the frame is in use, and a hint
    [next_free_page] below which no frame is free.  [alloc_page] clears the
    frame through the direct map, so the state holds the memory too.
    [kernel_end] is the linker's symbol, a parameter. *)

From S2P Require Import Prelude Memory StringLib PgTable FrameAlloc.

(** ** State and operations *)

Definition MAX_PHYS_PAGES : Z := 65536.
Definition BITS_PER_WORD : Z := 64.

Record pmm_state := mk_pmm {
  pmm_bitmap : list Z;          (* uint64_t[1024] *)
  pmm_pages_total : Z;          (* uint32_t *)
  pmm_pages_free : Z;           (* uint32_t *)
  next_free_page : Z;           (* uint32_t *)
  pmm_mem : mem
}.
Definition set_pmm_bitmap (b : list Z) (s : pmm_state) : pmm_state :=
  mk_pmm b (pmm_pages_total s) (pmm_pages_free s) (next_free_page s) (pmm_mem s).
Definition set_pmm_pages_total (n : Z) (s : pmm_state) : pmm_state :=
  mk_pmm (pmm_bitmap s) n (pmm_pages_free s) (next_free_page s) (pmm_mem s).
Definition set_pmm_pages_free (n : Z) (s : pmm_state) : pmm_state :=
  mk_pmm (pmm_bitmap s) (pmm_pages_total s) n (next_free_page s) (pmm_mem s).
Definition set_next_free_page (n : Z) (s : pmm_state) : pmm_state :=
  mk_pmm (pmm_bitmap s) (pmm_pages_total s) (pmm_pages_free s) n (pmm_mem s).
Definition set_pmm_mem (m : mem) (s : pmm_state) : pmm_state :=
  mk_pmm (pmm_bitmap s) (pmm_pages_total s) (pmm_pages_free s) (next_free_page s) m.

(** [pmm_bitmap[k]] and the assignment to it: out of range is a fault. *)
Definition bitmap_get (k : Z) : M pmm_state Z := kopt (fun s => pmm_bitmap s !! Z.to_nat k).
Definition bitmap_put (k w : Z) : M pmm_state unit :=
  kupd (fun s => if decide (Z.to_nat k < length (pmm_bitmap s))%nat
                 then Some (set_pmm_bitmap (<[Z.to_nat k := w]> (pmm_bitmap s)) s) else None).

(** The loop that reserves the kernel's own frames. *)
Definition mark_kernel_page (i : Z) : M pmm_state unit :=
  let* w := bitmap_get (i / BITS_PER_WORD) in
  bitmap_put (i / BITS_PER_WORD) (Z.lor w (bit (i mod BITS_PER_WORD))).

(** The number of frames below [kernel_end]. *)
Definition kernel_pages (kernel_end : Z) : Z :=
  let kernel_phys_end := u64 (kernel_end - 0xFFFFFFFF80000000) in
  u32 (u64 (kernel_phys_end + PAGE_SIZE - 1) / PAGE_SIZE).

Definition pmm_init (kernel_end total_kb kernel_end_addr : Z) : M pmm_state unit :=
  kmod (set_pmm_pages_total (total_kb / 4));;;
  let* t := kgets pmm_pages_total in
  (if MAX_PHYS_PAGES <? t then kmod (set_pmm_pages_total MAX_PHYS_PAGES) else kret tt);;;
  kmod (set_pmm_bitmap (replicate (Z.to_nat (MAX_PHYS_PAGES / BITS_PER_WORD)) 0));;;
  kfor (seqZ 0 (kernel_pages kernel_end)) mark_kernel_page;;;
  kmod (fun s => set_pmm_pages_free (u32 (pmm_pages_total s - kernel_pages kernel_end)) s).

(** The scan of [alloc_page] from frame [i]; [n] is the number of frames left
    before [pmm_pages_total]. *)
Fixpoint alloc_scan (n : nat) (i : Z) : M pmm_state Z :=
  match n with
  | O => khalt "PANIC: Out of physical memory!"
  | S n' =>
      let b := bit (i mod BITS_PER_WORD) in
      let* w := bitmap_get (i / BITS_PER_WORD) in
      if istrue (Z.land w b) then alloc_scan n' (i + 1)
      else
        let* w' := bitmap_get (i / BITS_PER_WORD) in
        bitmap_put (i / BITS_PER_WORD) (Z.lor w' b);;;
        kmod (fun s => set_pmm_pages_free (u32 (pmm_pages_free s - 1)) s);;;
        kmod (set_next_free_page (u32 (i + 1)));;;
        let phys := u64 (i * PAGE_SIZE) in
        zoom pmm_mem set_pmm_mem (kmemset (phys_to_virt phys) 0 PAGE_SIZE);;;
        kret phys
  end.
Definition alloc_page : M pmm_state Z :=
  let* s := kget in
  alloc_scan (Z.to_nat (pmm_pages_total s - next_free_page s)) (next_free_page s).

Definition free_page (phys : Z) : M pmm_state unit :=
  let i := u32 (phys / PAGE_SIZE) in
  let* total := kgets pmm_pages_total in
  if total <=? i then kret tt else
  let b := bit (i mod BITS_PER_WORD) in
  let* w := bitmap_get (i / BITS_PER_WORD) in
  if istrue (Z.land w b) then
    bitmap_put (i / BITS_PER_WORD) (Z.land w (cnot 64 b));;;
    kmod (fun s => set_pmm_pages_free (u32 (pmm_pages_free s + 1)) s);;;
    let* next := kgets next_free_page in
    (if i <? next then kmod (set_next_free_page i) else kret tt)
  else kret tt.

(** The statics at boot. *)
Definition pmm_boot (m : mem) : pmm_state := mk_pmm (replicate 1024 0) 0 0 0 m.

(** ** Invariant *)

(** The bit of frame [i]. *)
Definition page_used (bm : list Z) (i : Z) : bool :=
  match bm !! Z.to_nat (i / 64) with Some w => Z.testbit w (i mod 64) | None => false end.
Definition count_free (bm : list Z) (total : Z) : Z :=
  Z.of_nat (length (filter (fun i => page_used bm i = false) (seqZ 0 total))).

(** The frames are backed by RAM, through the direct map. *)
Definition ram_ok (m : mem) (total : Z) : Prop :=
  mem_wf m /\ mapped m (phys_to_virt 0) (total * PAGE_SIZE).

Record pmm_inv (s : pmm_state) : Prop := {
  pmm_len : length (pmm_bitmap s) = 1024%nat;
  pmm_total : 0 <= pmm_pages_total s <= MAX_PHYS_PAGES;
  pmm_next : 0 <= next_free_page s <= pmm_pages_total s;
  pmm_hint : forall i, 0 <= i < next_free_page s -> page_used (pmm_bitmap s) i = true;
  pmm_count : pmm_pages_free s = count_free (pmm_bitmap s) (pmm_pages_total s);
  pmm_ram : ram_ok (pmm_mem s) (pmm_pages_total s)
}.

(** ** Lemmas: the bitmap *)

Lemma bitmap_get_done s k w :
  pmm_bitmap s !! Z.to_nat k = Some w -> bitmap_get k s = Done (w, s).
Proof. apply (kopt_some (fun s => pmm_bitmap s !! Z.to_nat k)). Qed.

Lemma bitmap_put_done s k w :
  (Z.to_nat k < length (pmm_bitmap s))%nat ->
  bitmap_put k w s = Done (tt, set_pmm_bitmap (<[Z.to_nat k := w]> (pmm_bitmap s)) s).
Proof. intros H. apply kupd_some. by rewrite decide_True. Qed.

Lemma word_exists (bm : list Z) i :
  length bm = 1024%nat -> 0 <= i < MAX_PHYS_PAGES -> exists w, bm !! Z.to_nat (i / 64) = Some w.
Proof.
  intros Hl Hi. apply lookup_lt_is_Some. rewrite Hl. unfold MAX_PHYS_PAGES in Hi.
  assert (0 <= i / 64 < 1024) by (split; [apply Z.div_pos; lia|apply Z.div_lt_upper_bound; lia]). lia.
Qed.

Lemma page_used_word (bm : list Z) i w :
  bm !! Z.to_nat (i / 64) = Some w -> istrue (Z.land w (bit (i mod 64))) = page_used bm i.
Proof.
  intros Hw. unfold page_used. rewrite Hw. apply land_bit_ne0.
  apply Z.mod_pos_bound. lia.
Qed.

(** Two frames in the same word at the same bit are equal. *)
Lemma frame_split_inj i j : 0 <= i -> 0 <= j ->
  Z.to_nat (i / 64) = Z.to_nat (j / 64) -> i mod 64 = j mod 64 -> i = j.
Proof.
  intros Hi Hj Hd Hm.
  assert (0 <= i / 64 /\ 0 <= j / 64) as [? ?] by (split; apply Z.div_pos; lia).
  assert (i / 64 = j / 64) by lia. rewrite (Z.div_mod i 64), (Z.div_mod j 64) by lia. lia.
Qed.

Lemma page_used_put (bm : list Z) i j w w' :
  0 <= i -> 0 <= j -> bm !! Z.to_nat (i / 64) = Some w ->
  (forall k, 0 <= k < 64 -> k <> i mod 64 -> Z.testbit w' k = Z.testbit w k) ->
  page_used (<[Z.to_nat (i / 64) := w']> bm) j =
  if decide (j = i) then Z.testbit w' (i mod 64) else page_used bm j.
Proof.
  intros Hi Hj Hw Hk. unfold page_used.
  pose proof (lookup_lt_Some _ _ _ Hw) as Hlt.
  destruct (decide (j = i)) as [->|Hne].
  - by rewrite list_lookup_insert_eq.
  - destruct (decide (Z.to_nat (i / 64) = Z.to_nat (j / 64))) as [E|E].
    + rewrite <- E, list_lookup_insert_eq, Hw by done. apply Hk.
      * apply Z.mod_pos_bound. lia.
      * intros Em. by apply Hne, frame_split_inj.
    + by rewrite list_lookup_insert_ne.
Qed.

Lemma page_used_set (bm : list Z) i j w :
  0 <= i -> 0 <= j -> bm !! Z.to_nat (i / 64) = Some w ->
  page_used (<[Z.to_nat (i / 64) := Z.lor w (bit (i mod 64))]> bm) j =
  bool_decide (j = i) || page_used bm j.
Proof.
  intros Hi Hj Hw. assert (0 <= i mod 64 < 64) by (apply Z.mod_pos_bound; lia).
  rewrite (page_used_put bm i j w); [|done..|].
  - destruct (decide (j = i)) as [->|Hne].
    + rewrite Z.lor_spec, testbit_bit, !bool_decide_true by lia. by rewrite orb_true_r.
    + by rewrite bool_decide_false.
  - intros k Hk Hne. rewrite Z.lor_spec, testbit_bit, bool_decide_false by lia. apply orb_false_r.
Qed.

Lemma page_used_clear (bm : list Z) i j w :
  0 <= i -> 0 <= j -> bm !! Z.to_nat (i / 64) = Some w ->
  page_used (<[Z.to_nat (i / 64) := Z.land w (cnot 64 (bit (i mod 64)))]> bm) j =
  negb (bool_decide (j = i)) && page_used bm j.
Proof.
  intros Hi Hj Hw. assert (0 <= i mod 64 < 64) by (apply Z.mod_pos_bound; lia).
  rewrite (page_used_put bm i j w); [|done..|].
  - destruct (decide (j = i)) as [->|Hne].
    + rewrite Z.land_spec, testbit_cnot, testbit_bit by lia.
      rewrite (bool_decide_true (i mod 64 = _)), (bool_decide_true (i = i)) by done.
      simpl. by rewrite andb_false_r, andb_false_r.
    + by rewrite bool_decide_false.
  - intros k Hk Hne. rewrite Z.land_spec, testbit_cnot, testbit_bit by lia.
    rewrite bool_decide_true, bool_decide_false by lia. apply andb_true_r.
Qed.

(** ** Lemmas: the count of free frames *)

Lemma elem_of_frames i total : i ∈ seqZ 0 total <-> 0 <= i < total.
Proof. rewrite elem_of_seqZ. lia. Qed.

Lemma count_free_flip bm bm' i total :
  0 <= i < total -> page_used bm i = true -> page_used bm' i = false ->
  (forall j, 0 <= j -> j <> i -> page_used bm' j = page_used bm j) ->
  count_free bm' total = count_free bm total + 1.
Proof.
  intros Hi Hu Hu' Hj. unfold count_free.
  rewrite (length_filter_flip (fun i => page_used bm i = false) (fun i => page_used bm' i = false) _ i);
    [lia|apply NoDup_seqZ|by apply elem_of_frames|by rewrite Hu|done|].
  intros j Hin%elem_of_frames Hne. by rewrite Hj by lia.
Qed.

Lemma count_free_bound bm total : 0 <= total -> 0 <= count_free bm total <= total.
Proof.
  intros Ht. unfold count_free. pose proof (length_filter (fun i => page_used bm i = false) (seqZ 0 total)).
  rewrite length_seqZ in *. lia.
Qed.

Lemma count_free_zero bm total :
  count_free bm total = 0 <-> forall i, 0 <= i < total -> page_used bm i = true.
Proof.
  unfold count_free. split.
  - intros H i Hi. destruct (page_used bm i) eqn:E; [done|exfalso].
    assert (i ∈ filter (fun i => page_used bm i = false) (seqZ 0 total)) as Hin
      by (apply list_elem_of_filter; split; [done|by apply elem_of_frames]).
    destruct (filter _ _); [by apply elem_of_nil in Hin|simpl in H; lia].
  - intros H. destruct (filter _ _) as [|i l] eqn:E; [done|exfalso].
    assert (i ∈ filter (fun i => page_used bm i = false) (seqZ 0 total)) as Hin
      by (rewrite E; set_solver).
    apply list_elem_of_filter in Hin as [Hu Hin%elem_of_frames]. by rewrite H in Hu.
Qed.

Lemma count_free_above bm total kp :
  (forall i, 0 <= i -> page_used bm i = bool_decide (i < kp)) -> 0 <= kp <= total ->
  count_free bm total = total - kp.
Proof.
  intros Hu Hk. unfold count_free. replace total with (kp + (total - kp)) at 1 by lia.
  rewrite seqZ_app, filter_app by lia. rewrite filter_none, filter_all.
  - simpl. rewrite length_seqZ. lia.
  - intros i Hi%elem_of_seqZ. rewrite Hu by lia. apply bool_decide_false. lia.
  - intros i Hi%elem_of_seqZ. rewrite Hu by lia. rewrite bool_decide_true by lia. done.
Qed.

(** ** Lemmas: allocation *)

(** The state after frame [k] is handed out. *)
Definition take_frame (k w : Z) (s : pmm_state) : pmm_state :=
  mk_pmm (<[Z.to_nat (k / 64) := Z.lor w (bit (k mod 64))]> (pmm_bitmap s))
    (pmm_pages_total s) (u32 (pmm_pages_free s - 1)) (k + 1)
    (write_list (pmm_mem s) (phys_to_virt (k * PAGE_SIZE)) zero_page).

Lemma phys_of_frame k : 0 <= k < MAX_PHYS_PAGES -> u64 (k * PAGE_SIZE) = k * PAGE_SIZE /\
  phys_to_virt (k * PAGE_SIZE) = phys_to_virt 0 + k * PAGE_SIZE.
Proof.
  unfold MAX_PHYS_PAGES. rewrite PAGE_SIZE_eq. intros Hk. split; [apply wrap_small; lia|].
  rewrite !phys_to_virt_eq by (unfold phys_ok; lia). lia.
Qed.

Lemma frame_mapped m total k :
  ram_ok m total -> 0 <= k < total -> total <= MAX_PHYS_PAGES ->
  mapped m (phys_to_virt (k * PAGE_SIZE)) PAGE_SIZE.
Proof.
  intros [_ Hm] Hk Ht. destruct (phys_of_frame k) as [_ ->]; [lia|].
  eapply mapped_weaken; [done|rewrite PAGE_SIZE_eq; lia..].
Qed.

Lemma alloc_scan_spec (n : nat) i s :
  length (pmm_bitmap s) = 1024%nat -> 0 <= i -> i + n = pmm_pages_total s ->
  pmm_pages_total s <= MAX_PHYS_PAGES -> ram_ok (pmm_mem s) (pmm_pages_total s) ->
  ((forall j, i <= j < pmm_pages_total s -> page_used (pmm_bitmap s) j = true) /\
   alloc_scan n i s = Halt "PANIC: Out of physical memory!") \/
  (exists k w, i <= k < pmm_pages_total s /\ page_used (pmm_bitmap s) k = false /\
     (forall j, i <= j < k -> page_used (pmm_bitmap s) j = true) /\
     pmm_bitmap s !! Z.to_nat (k / 64) = Some w /\
     alloc_scan n i s = Done (k * PAGE_SIZE, take_frame k w s)).
Proof.
  intros Hlen Hi Hn Ht Hram. revert i Hi Hn. induction n as [|n IH]; intros i Hi Hn.
  - left. split; [lia|done].
  - cbn [alloc_scan]. unfold BITS_PER_WORD.
    destruct (word_exists (pmm_bitmap s) i) as [w Hw]; [done|lia|].
    erewrite kbind_done by (by apply bitmap_get_done). rewrite (page_used_word _ _ _ Hw).
    destruct (page_used (pmm_bitmap s) i) eqn:Hu.
    + destruct (IH (i + 1)) as [[Hall ->]|(k & w' & Hk & Huk & Hbelow & Hwk & ->)]; [lia..| |].
      * left. split; [|done]. intros j Hj. destruct (decide (j = i)) as [->|]; [done|apply Hall; lia].
      * right. exists k, w'. split_and!; try done; try lia.
        intros j Hj. destruct (decide (j = i)) as [->|]; [done|apply Hbelow; lia].
    + right. exists i, w. split_and!; try done; try lia.
      erewrite kbind_done by (by apply bitmap_get_done).
      erewrite kbind_done by (apply bitmap_put_done; by eapply lookup_lt_Some).
      destruct (phys_of_frame i) as [-> _]; [lia|].
      cbn [kbind kmod].
      erewrite kbind_done.
      2:{ apply zoom_done, kmemset_spec; [by rewrite PAGE_SIZE_eq|].
          eapply frame_mapped; [exact Hram|lia|done]. }
      unfold take_frame. rewrite zero_page_replicate, wrap_small by (unfold MAX_PHYS_PAGES in *; lia). reflexivity.
Qed.

Lemma ram_ok_write m total a l :
  ram_ok m total -> Forall is_byte l -> ram_ok (write_list m a l) total.
Proof. intros [Hw Hm] Hl. split; [by apply write_list_wf|by apply write_list_mapped]. Qed.

Lemma page_used_take (bm : list Z) k j w :
  bm !! Z.to_nat (k / 64) = Some w -> 0 <= k -> 0 <= j ->
  page_used (<[Z.to_nat (k / 64) := Z.lor w (bit (k mod 64))]> bm) j =
  bool_decide (j = k) || page_used bm j.
Proof. intros. by apply page_used_set. Qed.

Lemma take_frame_inv s k w :
  pmm_inv s -> 0 <= k < pmm_pages_total s -> page_used (pmm_bitmap s) k = false ->
  (forall j, 0 <= j < k -> page_used (pmm_bitmap s) j = true) ->
  pmm_bitmap s !! Z.to_nat (k / 64) = Some w -> pmm_inv (take_frame k w s).
Proof.
  intros [Hlen Ht Hnx Hh Hc Hr] Hk Hu Hlow Hw. constructor; simpl.
  - by rewrite length_insert.
  - done.
  - lia.
  - intros i Hi. rewrite page_used_take by (done || lia).
    destruct (decide (i = k)) as [->|]; [by rewrite bool_decide_true|].
    rewrite Hlow by lia. apply orb_true_r.
  - assert (count_free (pmm_bitmap s) (pmm_pages_total s) =
      count_free (<[Z.to_nat (k / 64) := Z.lor w (bit (k mod 64))]> (pmm_bitmap s)) (pmm_pages_total s) + 1) as E.
    { eapply (count_free_flip _ _ k); [done| |done|].
      - rewrite page_used_take by (done || lia). by rewrite bool_decide_true.
      - intros j Hj Hne. rewrite page_used_take by (done || lia). by rewrite bool_decide_false. }
    rewrite Hc, E.
    match goal with |- context [count_free ?b ?t + 1] => pose proof (count_free_bound b t ltac:(lia)) end.
    rewrite wrap_small by (unfold MAX_PHYS_PAGES in *; lia). lia.
  - by apply ram_ok_write, zero_page_bytes.
Qed.

(** [alloc_page] hands out the lowest free frame, cleared. *)
Lemma alloc_page_spec s :
  pmm_inv s ->
  ((forall j, 0 <= j < pmm_pages_total s -> page_used (pmm_bitmap s) j = true) /\
   alloc_page s = Halt "PANIC: Out of physical memory!") \/
  (exists k w, 0 <= k < pmm_pages_total s /\ page_used (pmm_bitmap s) k = false /\
     (forall j, 0 <= j < k -> page_used (pmm_bitmap s) j = true) /\
     pmm_bitmap s !! Z.to_nat (k / 64) = Some w /\
     alloc_page s = Done (k * PAGE_SIZE, take_frame k w s) /\ pmm_inv (take_frame k w s)).
Proof.
  intros Hinv. pose proof Hinv as [Hlen Ht Hnx Hh Hc Hr]. unfold alloc_page.
  erewrite kbind_done by done.
  destruct (alloc_scan_spec (Z.to_nat (pmm_pages_total s - next_free_page s)) (next_free_page s) s)
    as [[Hall ->]|(k & w & Hk & Hu & Hlow & Hw & ->)]; [done|lia..|done| |].
  - left. split; [|done]. intros j Hj.
    destruct (decide (j < next_free_page s)); [apply Hh; lia|apply Hall; lia].
  - right. exists k, w.
    assert (forall j, 0 <= j < k -> page_used (pmm_bitmap s) j = true) as Hlow'.
    { intros j Hj. destruct (decide (j < next_free_page s)); [apply Hh; lia|apply Hlow; lia]. }
    assert (0 <= k < pmm_pages_total s) as Hk' by lia.
    split; [exact Hk'|]. split; [exact Hu|]. split; [exact Hlow'|]. split; [exact Hw|].
    split; [reflexivity|by apply take_frame_inv].
Qed.

(** ** Lemmas: release *)

(** The state after frame [k] is given back. *)
Definition drop_frame (k w : Z) (s : pmm_state) : pmm_state :=
  mk_pmm (<[Z.to_nat (k / 64) := Z.land w (cnot 64 (bit (k mod 64)))]> (pmm_bitmap s))
    (pmm_pages_total s) (u32 (pmm_pages_free s + 1))
    (Z.min k (next_free_page s)) (pmm_mem s).

Lemma drop_frame_inv s k w :
  pmm_inv s -> 0 <= k < pmm_pages_total s -> page_used (pmm_bitmap s) k = true ->
  pmm_bitmap s !! Z.to_nat (k / 64) = Some w -> pmm_inv (drop_frame k w s).
Proof.
  intros [Hlen Ht Hnx Hh Hc Hr] Hk Hu Hw.
  assert (Hcl : forall j, 0 <= j ->
    page_used (pmm_bitmap (drop_frame k w s)) j = negb (bool_decide (j = k)) && page_used (pmm_bitmap s) j)
    by (intros j Hj; apply page_used_clear; [lia..|done]).
  constructor; cbn [drop_frame pmm_bitmap pmm_pages_total pmm_pages_free next_free_page pmm_mem] in *.
  - by rewrite length_insert.
  - done.
  - lia.
  - intros i Hi. rewrite Hcl, bool_decide_false, Hh by lia. done.
  - match goal with |- _ = count_free ?b _ =>
      rewrite (count_free_flip (pmm_bitmap s) b k); [rewrite Hc|done|done| |] end.
    + pose proof (count_free_bound (pmm_bitmap s) (pmm_pages_total s) ltac:(lia)).
      apply wrap_small. unfold MAX_PHYS_PAGES in *. lia.
    + by rewrite Hcl, bool_decide_true by lia.
    + intros j Hj Hne. by rewrite Hcl, bool_decide_false by done.
  - done.
Qed.

Lemma free_page_spec s phys :
  pmm_inv s -> 0 <= phys < 2 ^ 44 ->
  (phys / PAGE_SIZE < pmm_pages_total s /\ page_used (pmm_bitmap s) (phys / PAGE_SIZE) = true /\
   exists w, pmm_bitmap s !! Z.to_nat (phys / PAGE_SIZE / 64) = Some w /\
     free_page phys s = Done (tt, drop_frame (phys / PAGE_SIZE) w s) /\
     pmm_inv (drop_frame (phys / PAGE_SIZE) w s)) \/
  ((pmm_pages_total s <= phys / PAGE_SIZE \/ page_used (pmm_bitmap s) (phys / PAGE_SIZE) = false) /\
   free_page phys s = Done (tt, s)).
Proof.
  intros Hinv Hp. unfold free_page.
  assert (0 <= phys / PAGE_SIZE < 2 ^ 32) as Hi.
  { rewrite PAGE_SIZE_eq. split; [apply Z.div_pos; lia|apply Z.div_lt_upper_bound; lia]. }
  rewrite wrap_small by done. set (i := phys / PAGE_SIZE) in *.
  erewrite kbind_done by done. pose proof Hinv as [Hlen Ht Hnx Hh Hc Hr].
  destruct (Z.leb_spec (pmm_pages_total s) i) as [Hge|Hlt]; [right; split; [by left|done]|].
  unfold BITS_PER_WORD. destruct (word_exists (pmm_bitmap s) i) as [w Hw]; [done|lia|].
  erewrite kbind_done by (by apply bitmap_get_done). rewrite (page_used_word _ _ _ Hw).
  destruct (page_used (pmm_bitmap s) i) eqn:Hu; [left|right; split; [by right|done]].
  split_and!; [done..|]. exists w. split; [done|]. split; [|apply drop_frame_inv; try done; lia].
  erewrite kbind_done by (apply bitmap_put_done; by eapply lookup_lt_Some).
  cbn [kbind kmod kgets set_pmm_bitmap set_pmm_pages_free next_free_page].
  destruct (Z.ltb_spec i (next_free_page s)) as [Hlt'|Hge]; unfold kmod, kret, drop_frame, set_next_free_page;
    cbn [pmm_bitmap pmm_pages_total pmm_pages_free next_free_page pmm_mem].
  - by rewrite Z.min_l by lia.
  - by rewrite Z.min_r by lia.
Qed.

(** ** Lemmas: initialisation *)

Lemma mark_kernel_loop s (n : nat) :
  length (pmm_bitmap s) = 1024%nat -> n <= MAX_PHYS_PAGES ->
  (forall i, 0 <= i -> page_used (pmm_bitmap s) i = false) ->
  exists bm, kfor (seqZ 0 n) mark_kernel_page s = Done (tt, set_pmm_bitmap bm s) /\
    length bm = 1024%nat /\ forall i, 0 <= i -> page_used bm i = bool_decide (i < n).
Proof.
  intros Hlen Hn H0. induction n as [|n IH].
  - exists (pmm_bitmap s). split_and!; [by destruct s|done|].
    intros i Hi. rewrite H0, bool_decide_false by lia. done.
  - destruct IH as (bm & Hr & Hl & Hu); [lia|].
    replace (Z.of_nat (S n)) with (n + 1) by lia. rewrite seqZ_app by lia.
    rewrite kfor_app. erewrite kbind_done by done.
    rewrite Z.add_0_l, seqZ_cons, seqZ_nil by lia.
    cbn [kfor]. unfold mark_kernel_page, BITS_PER_WORD. rewrite !kbind_assoc.
    destruct (word_exists bm n) as [w Hw]; [done|lia|].
    erewrite kbind_done by (by apply bitmap_get_done).
    erewrite kbind_done by (apply bitmap_put_done; simpl; by eapply lookup_lt_Some).
    eexists. split; [reflexivity|]. simpl. split; [by rewrite length_insert|].
    intros i Hi. rewrite page_used_take by (done || lia). rewrite Hu by lia.
    repeat case_bool_decide; simpl; lia.
Qed.

Lemma page_used_replicate n i : page_used (replicate n 0) i = false.
Proof.
  unfold page_used. destruct (replicate n 0 !! _) as [w|] eqn:E; [|done].
  apply lookup_replicate in E as [-> _]. apply Z.bits_0.
Qed.

(** The frames the kernel image occupies, for an image that ends inside the
    first 2 GiB of its virtual range. *)
Lemma kernel_pages_eq kernel_end sz :
  0 <= sz < 2 ^ 31 -> kernel_end = 0xFFFFFFFF80000000 + sz ->
  kernel_pages kernel_end = (sz + 4095) / 4096.
Proof.
  intros Hsz ->. unfold kernel_pages. rewrite PAGE_SIZE_eq.
  replace (0xFFFFFFFF80000000 + sz - 0xFFFFFFFF80000000) with sz by lia.
  rewrite (wrap_small 64 sz), (wrap_small 64) by lia.
  replace (sz + 4096 - 1) with (sz + 4095) by lia. apply wrap_small.
  split; [apply Z.div_pos; lia|apply Z.div_lt_upper_bound; lia].
Qed.

(** ** The allocator provides frames *)

Definition frame_used (s : pmm_state) (p : Z) : Prop :=
  p mod PAGE_SIZE = 0 /\ 0 <= p / PAGE_SIZE < pmm_pages_total s /\
  page_used (pmm_bitmap s) (p / PAGE_SIZE) = true.

#[global] Instance pmm_frames : FrameAllocator pmm_state := {|
  fa_mem := pmm_mem;
  fa_set_mem := set_pmm_mem;
  fa_alloc := alloc_page;
  fa_free := free_page;
  fa_used := frame_used;
  fa_avail := pmm_pages_free;
  fa_wf := pmm_inv
|}.

Lemma frame_addr k p : 0 <= k -> p mod PAGE_SIZE = 0 -> p / PAGE_SIZE = k <-> p = k * PAGE_SIZE.
Proof. rewrite PAGE_SIZE_eq. intros. split; intros; Z.div_mod_to_equations; lia. Qed.

Lemma frame_used_take s k w p :
  pmm_bitmap s !! Z.to_nat (k / 64) = Some w -> 0 <= k < pmm_pages_total s ->
  frame_used (take_frame k w s) p <-> p = k * PAGE_SIZE \/ frame_used s p.
Proof.
  intros Hw Hk. unfold frame_used. cbn [take_frame pmm_bitmap pmm_pages_total].
  assert ((k * PAGE_SIZE) mod PAGE_SIZE = 0 /\ k * PAGE_SIZE / PAGE_SIZE = k) as [Em Ed].
  { rewrite PAGE_SIZE_eq. split; [apply Z.mod_mul; lia|apply Z.div_mul; lia]. }
  split.
  - intros (Hm & Hr & Hu). rewrite page_used_take in Hu by (done || lia).
    apply orb_true_iff in Hu as [Hu%bool_decide_eq_true|Hu]; [|by right].
    left. by apply frame_addr; [lia|..].
  - intros [->|(Hm & Hr & Hu)].
    + rewrite Em, Ed, page_used_take by (done || lia). by rewrite bool_decide_true.
    + rewrite page_used_take by (done || lia). rewrite Hu. by rewrite orb_true_r.
Qed.

Lemma frame_used_drop s w p q :
  pmm_bitmap s !! Z.to_nat (p / PAGE_SIZE / 64) = Some w -> 0 <= p -> p mod 4096 = 0 ->
  frame_used (drop_frame (p / PAGE_SIZE) w s) q <-> frame_used s q /\ q <> p.
Proof.
  intros Hw Hp Ha. assert (0 <= p / PAGE_SIZE) by (rewrite PAGE_SIZE_eq; apply Z.div_pos; lia).
  unfold frame_used. cbn [drop_frame pmm_bitmap pmm_pages_total].
  split.
  - intros (Hm & Hr & Hu). rewrite page_used_clear in Hu by (done || lia).
    apply andb_true_iff in Hu as [Hne%negb_true_iff%bool_decide_eq_false Hu].
    split; [done|]. by intros ->.
  - intros [(Hm & Hr & Hu) Hne]. split; [done|]. split; [done|].
    rewrite page_used_clear by (done || lia). rewrite Hu, bool_decide_false; [done|].
    rewrite PAGE_SIZE_eq in *. intros E. apply Hne.
    rewrite (Z.div_mod q 4096), (Z.div_mod p 4096) by lia. lia.
Qed.

(** A free frame means a positive free count; taking one lowers it by one. *)
Lemma free_pos s k :
  pmm_inv s -> 0 <= k < pmm_pages_total s -> page_used (pmm_bitmap s) k = false -> 0 < pmm_pages_free s.
Proof.
  intros Hinv Hk Hu. rewrite (pmm_count _ Hinv).
  assert (count_free (pmm_bitmap s) (pmm_pages_total s) <> 0); [|unfold count_free in *; lia].
  intros Hz. rewrite (proj1 (count_free_zero _ _) Hz) in Hu by lia. done.
Qed.

Lemma take_frame_free s k w :
  pmm_inv s -> 0 <= k < pmm_pages_total s -> page_used (pmm_bitmap s) k = false ->
  pmm_pages_free (take_frame k w s) = pmm_pages_free s - 1.
Proof.
  intros Hinv Hk Hu. pose proof (free_pos s k Hinv Hk Hu). cbn [take_frame pmm_pages_free].
  pose proof (pmm_total _ Hinv) as Ht. unfold MAX_PHYS_PAGES in Ht.
  pose proof (count_free_bound (pmm_bitmap s) (pmm_pages_total s) ltac:(lia)).
  pose proof (pmm_count _ Hinv). apply wrap_small. lia.
Qed.

#[global] Instance pmm_frames_laws : FrameAllocatorLaws pmm_state.
Proof.
  constructor; cbn [fa_mem fa_set_mem fa_alloc fa_free fa_used fa_avail fa_wf pmm_frames].
  - done.
  - by intros [].
  - done.
  - done.
  - intros s Hinv. by destruct Hinv as [_ _ _ _ _ [? _]].
  - intros s a l [] Hl. constructor; cbn; try done. by apply ram_ok_write.
  - done.
  - intros s Hinv. rewrite (pmm_count _ Hinv). unfold count_free. lia.
  - intros s Hinv. destruct (alloc_page_spec s Hinv) as [[Hall E]|(k & w & Hk & Hu & _ & _ & E & _)].
    + right. rewrite (pmm_count _ Hinv). split; [by apply count_free_zero|by eexists].
    + left. split; [by eapply free_pos|by repeat eexists].
  - intros s p s' Hinv Halloc.
    destruct (alloc_page_spec s Hinv) as [[_ E]|(k & w & Hk & Hu & _ & Hw & E & Hinv')];
      rewrite E in Halloc; [done|]. injection Halloc as <- <-.
    pose proof (pmm_total _ Hinv) as Ht. unfold MAX_PHYS_PAGES in Ht.
    split; [|split; [|split; [|split; [|split; [|split]]]]].
    + unfold frame_ok. rewrite PAGE_SIZE_eq. split; [lia|apply Z.mod_mul; lia].
    + intros (_ & _ & Hu'). rewrite PAGE_SIZE_eq, Z.div_mul in Hu' by lia. congruence.
    + intros q. by apply frame_used_take.
    + by eapply take_frame_free.
    + eapply frame_mapped; [by apply pmm_ram|done|unfold MAX_PHYS_PAGES; lia].
    + reflexivity.
    + exact Hinv'.
  - intros s p Hinv Hp Ha.
    destruct (free_page_spec s p Hinv Hp) as [(Hlt & Hu & w & Hw & E & Hinv')|[Hno E]];
      (eexists; split; [exact E|]); (split; [reflexivity|]).
    + split; [|exact Hinv']. intros q. apply frame_used_drop; [done|lia|done].
    + split; [|exact Hinv]. intros q. split; [|tauto]. intros Hq. split; [done|]. intros ->.
      destruct Hq as (_ & Hr & Hu). destruct Hno as [?|Hf]; [lia|congruence].
Qed.

(** ** Properties *)

(** C36: [pmm_init] establishes the allocator's invariant: with the kernel image
    inside the managed memory, the routine ends, exactly the frames below the
    end of the image are in use, and the number of free frames is the rest. *)
Theorem pmm_init_correct kernel_end sz total_kb kernel_end_addr s :
  0 <= sz < 2 ^ 31 -> kernel_end = 0xFFFFFFFF80000000 + sz -> 0 <= total_kb < 2 ^ 32 ->
  (sz + 4095) / 4096 <= Z.min (total_kb / 4) MAX_PHYS_PAGES -> next_free_page s = 0 ->
  ram_ok (pmm_mem s) (Z.min (total_kb / 4) MAX_PHYS_PAGES) ->
  exists s', pmm_init kernel_end total_kb kernel_end_addr s = Done (tt, s') /\ pmm_inv s' /\
    pmm_pages_total s' = Z.min (total_kb / 4) MAX_PHYS_PAGES /\
    (forall i, 0 <= i -> page_used (pmm_bitmap s') i = bool_decide (i < (sz + 4095) / 4096)) /\
    pmm_pages_free s' = pmm_pages_total s' - (sz + 4095) / 4096.
Proof.
  intros Hsz Hend Hkb Hfit Hnext Hram. unfold pmm_init.
  rewrite (kernel_pages_eq kernel_end sz) by done. set (kp := (sz + 4095) / 4096) in *.
  assert (0 <= kp) by (apply Z.div_pos; lia).
  set (total := Z.min (total_kb / 4) MAX_PHYS_PAGES) in *.
  set (s0 := set_pmm_pages_total total s).
  assert (forall k : M pmm_state unit,
    (kmod (set_pmm_pages_total (total_kb / 4));;;
     let* t := kgets pmm_pages_total in
     (if MAX_PHYS_PAGES <? t then kmod (set_pmm_pages_total MAX_PHYS_PAGES) else kret tt);;; k) s = k s0) as Hcap.
  { intros k. cbn [kbind kmod kgets pmm_pages_total set_pmm_pages_total]. subst s0 total.
    destruct (Z.ltb_spec MAX_PHYS_PAGES (total_kb / 4)); [rewrite Z.min_r by lia|rewrite Z.min_l by lia]; done. }
  rewrite Hcap. erewrite kbind_done by done.
  set (s1 := set_pmm_bitmap _ s0).
  destruct (mark_kernel_loop s1 (Z.to_nat kp)) as (bm & Hloop & Hlen & Hused);
    [apply length_replicate|lia|intros; apply page_used_replicate|].
  rewrite Z2Nat.id in Hloop, Hused by lia.
  erewrite kbind_done by done. eexists. split; [reflexivity|].
  cbn [set_pmm_bitmap set_pmm_pages_free pmm_bitmap pmm_pages_total pmm_pages_free s1 s0 set_pmm_pages_total].
  assert (0 <= total <= MAX_PHYS_PAGES) as Ht
    by (unfold total, MAX_PHYS_PAGES; pose proof (Z.div_pos total_kb 4); lia).
  assert (u32 (total - kp) = total - kp) as Hfree by (apply wrap_small; unfold MAX_PHYS_PAGES in *; lia).
  rewrite Hfree. split_and!; [|done|exact Hused|done].
  constructor; cbn [pmm_bitmap pmm_pages_total pmm_pages_free next_free_page pmm_mem set_pmm_bitmap set_pmm_pages_free set_pmm_pages_total s1 s0];
    [done|done|lia|lia| |done].
  symmetry. by apply count_free_above.
Qed.

(** [alloc_page] either stops the machine, exactly when no frame is free, or
    hands out the lowest free frame: the frame is cleared through the direct
    map, no other memory changes, only its bit is set, the free count drops by
    one, and the invariant holds again. *)
Theorem alloc_page_lowest s :
  pmm_inv s ->
  (pmm_pages_free s = 0 /\ alloc_page s = Halt "PANIC: Out of physical memory!") \/
  (exists k s', 0 < pmm_pages_free s /\ 0 <= k < pmm_pages_total s /\
     alloc_page s = Done (k * PAGE_SIZE, s') /\ pmm_inv s' /\
     page_used (pmm_bitmap s) k = false /\
     (forall j, 0 <= j < k -> page_used (pmm_bitmap s) j = true) /\
     (forall j, 0 <= j -> page_used (pmm_bitmap s') j = bool_decide (j = k) || page_used (pmm_bitmap s) j) /\
     pmm_pages_free s' = pmm_pages_free s - 1 /\
     pmm_mem s' = write_list (pmm_mem s) (phys_to_virt (k * PAGE_SIZE)) zero_page).
Proof.
  intros Hinv.
  destruct (alloc_page_spec s Hinv) as [[Hall E]|(k & w & Hk & Hu & Hlow & Hw & E & Hinv')].
  - left. split; [|exact E]. rewrite (pmm_count _ Hinv). by apply count_free_zero.
  - right. exists k, (take_frame k w s).
    split_and!; [by eapply free_pos|lia|lia|exact E|exact Hinv'|exact Hu|exact Hlow| | |reflexivity].
    + intros j Hj. apply page_used_take; [done|lia..].
    + by apply take_frame_free.
Qed.

(** ** Refinement: the allocator as a set of frames *)

(** The specification: the frames in use; allocation takes the least frame
    that is not, release removes a frame. *)
Record abs_pmm := mk_abs_pmm { abs_total : Z; abs_used : gset Z }.
Inductive pmm_op := PAlloc | PFree (phys : Z).

Definition abs_alloc (a : abs_pmm) : option (Z * abs_pmm) :=
  match list_find (fun i => i ∉ abs_used a) (seqZ 0 (abs_total a)) with
  | Some (_, i) => Some (i * PAGE_SIZE, mk_abs_pmm (abs_total a) ({[i]} ∪ abs_used a))
  | None => None
  end.
Definition abs_free (phys : Z) (a : abs_pmm) : abs_pmm :=
  mk_abs_pmm (abs_total a) (abs_used a ∖ {[phys / PAGE_SIZE]}).

(** The frames a sequence of operations hands out; [None] when memory ran out. *)
Fixpoint abs_run (ops : list pmm_op) (a : abs_pmm) : option (list Z * abs_pmm) :=
  match ops with
  | [] => Some ([], a)
  | PAlloc :: ops' =>
      match abs_alloc a with
      | Some (p, a1) => match abs_run ops' a1 with Some (ps, a2) => Some (p :: ps, a2) | None => None end
      | None => None
      end
  | PFree phys :: ops' => abs_run ops' (abs_free phys a)
  end.
Fixpoint pmm_run (ops : list pmm_op) : M pmm_state (list Z) :=
  match ops with
  | [] => kret []
  | PAlloc :: ops' => let* p := alloc_page in let* ps := pmm_run ops' in kret (p :: ps)
  | PFree phys :: ops' => free_page phys;;; pmm_run ops'
  end.

Definition pmm_abs (s : pmm_state) (a : abs_pmm) : Prop :=
  pmm_inv s /\ abs_total a = pmm_pages_total s /\
  forall i, 0 <= i < pmm_pages_total s -> i ∈ abs_used a <-> page_used (pmm_bitmap s) i = true.

Lemma alloc_refines s a :
  pmm_abs s a ->
  match abs_alloc a with
  | Some (p, a') => exists s', alloc_page s = Done (p, s') /\ pmm_abs s' a'
  | None => exists w, alloc_page s = Halt w
  end.
Proof.
  intros (Hinv & Ht & Hu). unfold abs_alloc. rewrite Ht.
  destruct (alloc_page_spec s Hinv) as [[Hall E]|(k & w & Hk & Hk0 & Hlow & Hw & E & Hinv')].
  - destruct (list_find _ _) as [[n i]|] eqn:Ef; [|by eexists].
    apply list_find_Some in Ef as (Hn%list_elem_of_lookup_2%elem_of_frames & Hni & _).
    exfalso. apply Hni, Hu; [done|by apply Hall].
  - destruct (list_find _ _) as [[n i]|] eqn:Ef.
    + apply list_find_Some in Ef as (Hn & Hni & Hfirst).
      apply lookup_seqZ_Some in Hn as [-> Hn]. rewrite Z.add_0_l in *.
      assert (Z.of_nat n = k) as ->.
      { destruct (Z.lt_trichotomy n k) as [Hlt|[|Hgt]]; [|done|].
        - exfalso. apply Hni, Hu; [lia|]. apply Hlow. lia.
        - exfalso. destruct (Hfirst (Z.to_nat k) k) as []; [|lia|].
          + apply lookup_seqZ_Some. lia.
          + rewrite Hu by lia. by rewrite Hk0. }
      exists (take_frame k w s). split; [exact E|]. split; [exact Hinv'|]. split; [done|].
      intros j Hj. cbn [take_frame pmm_bitmap pmm_pages_total abs_used] in *.
      rewrite page_used_take by (done || lia). rewrite orb_true_iff, bool_decide_eq_true, <- Hu by done.
      set_solver.
    + exfalso. rewrite list_find_None, Forall_forall in Ef.
      apply (Ef k); [by apply elem_of_frames|]. rewrite Hu by done. by rewrite Hk0.
Qed.

Lemma free_refines s a phys :
  pmm_abs s a -> 0 <= phys < 2 ^ 44 ->
  exists s', free_page phys s = Done (tt, s') /\ pmm_abs s' (abs_free phys a).
Proof.
  intros (Hinv & Ht & Hu) Hp. assert (0 <= phys / PAGE_SIZE) by (rewrite PAGE_SIZE_eq; apply Z.div_pos; lia).
  destruct (free_page_spec s phys Hinv Hp)
    as [(Hlt & Hk & w & Hw & E & Hinv')|[Hno E]].
  - eexists. split; [exact E|]. split; [exact Hinv'|]. split; [done|].
    intros j Hj. cbn [drop_frame pmm_bitmap pmm_pages_total abs_used abs_free] in *.
    rewrite page_used_clear by (done || lia).
    rewrite andb_true_iff, negb_true_iff, bool_decide_eq_false, <- Hu by done. set_solver.
  - exists s. split; [exact E|]. split; [exact Hinv|]. split; [done|].
    intros j Hj. cbn [abs_free abs_used]. rewrite elem_of_difference, elem_of_singleton, Hu by done.
    split; [tauto|]. intros Hj'. split; [done|]. intros ->. destruct Hno as [?|Hf]; [lia|congruence].
Qed.

(** C3: the bitmap allocator refines the set specification: from related states,
    every sequence of allocations and releases hands out exactly the frames the
    specification hands out and ends in related states, and it stops the
    machine exactly when the specification runs out of frames.  (Released addresses
    are below 2^44: above, the page number is truncated.) *)
Theorem pmm_refines ops s a :
  pmm_abs s a -> Forall (fun op => match op with PFree p => 0 <= p < 2 ^ 44 | PAlloc => True end) ops ->
  match abs_run ops a with
  | Some (ps, a') => exists s', pmm_run ops s = Done (ps, s') /\ pmm_abs s' a'
  | None => exists w, pmm_run ops s = Halt w
  end.
Proof.
  intros Hr Hops. revert s a Hr. induction Hops as [|[|p] ops Hop Hops IH]; intros s a Hr; simpl.
  - by exists s.
  - pose proof (alloc_refines s a Hr) as Ha. destruct (abs_alloc a) as [[p a1]|].
    + destruct Ha as (s1 & E & Hr1). erewrite kbind_done by exact E.
      specialize (IH s1 a1 Hr1). destruct (abs_run ops a1) as [[ps a2]|].
      * destruct IH as (s2 & E2 & Hr2). exists s2. by erewrite kbind_done by exact E2.
      * destruct IH as [w E2]. exists w. by apply kbind_halt.
    + destruct Ha as [w E]. exists w. by apply kbind_halt.
  - destruct (free_refines s a p Hr Hop) as (s1 & E & Hr1). erewrite kbind_done by exact E. by apply IH.
Qed.

(** ** Concrete instances *)

(** A machine with [n] frames of cleared RAM behind the direct map. *)
Definition ram_pages (n : nat) : mem := write_list ∅ (phys_to_virt 0) (replicate (n * 4096) 0).

Lemma ram_pages_ok n : ram_ok (ram_pages n) (Z.of_nat n).
Proof.
  split.
  - apply write_list_wf; [apply map_Forall_empty|]. apply Forall_replicate. unfold is_byte. lia.
  - apply (mapped_weaken _ (phys_to_virt 0) (Z.of_nat (n * 4096))); [|lia|rewrite PAGE_SIZE_eq; lia].
    rewrite <- (length_replicate (n * 4096) 0). apply bytes_at_mapped, write_list_bytes_at.
Qed.

(** Four frames, the first one in use. *)
Definition demo_pmm : pmm_state := mk_pmm (1 :: replicate 1023 0) 4 3 0 (ram_pages 4).

Lemma demo_pmm_inv : pmm_inv demo_pmm.
Proof.
  constructor; cbn [demo_pmm pmm_bitmap pmm_pages_total pmm_pages_free next_free_page pmm_mem].
  - reflexivity.
  - by split.
  - by split.
  - lia.
  - vm_compute. reflexivity.
  - apply (ram_pages_ok 4).
Qed.

Lemma pmm_init_correct_witness :
  exists s', pmm_init 0xFFFFFFFF80001234 16 0 (pmm_boot (ram_pages 4)) = Done (tt, s') /\ pmm_inv s' /\
    pmm_pages_total s' = 4 /\
    (forall i, 0 <= i -> page_used (pmm_bitmap s') i = bool_decide (i < 2)) /\
    pmm_pages_free s' = pmm_pages_total s' - 2.
Proof.
  apply (pmm_init_correct 0xFFFFFFFF80001234 0x1234 16 0 (pmm_boot (ram_pages 4))).
  - lia.
  - reflexivity.
  - lia.
  - by vm_compute.
  - reflexivity.
  - apply (ram_pages_ok 4).
Defined.

Lemma alloc_page_lowest_witness :
  (pmm_pages_free demo_pmm = 0 /\ alloc_page demo_pmm = Halt "PANIC: Out of physical memory!") \/
  (exists k s', 0 < pmm_pages_free demo_pmm /\ 0 <= k < 4 /\
     alloc_page demo_pmm = Done (k * PAGE_SIZE, s') /\ pmm_inv s' /\
     page_used (pmm_bitmap demo_pmm) k = false /\
     (forall j, 0 <= j < k -> page_used (pmm_bitmap demo_pmm) j = true) /\
     (forall j, 0 <= j -> page_used (pmm_bitmap s') j = bool_decide (j = k) || page_used (pmm_bitmap demo_pmm) j) /\
     pmm_pages_free s' = pmm_pages_free demo_pmm - 1 /\
     pmm_mem s' = write_list (pmm_mem demo_pmm) (phys_to_virt (k * PAGE_SIZE)) zero_page).
Proof. exact (alloc_page_lowest demo_pmm demo_pmm_inv). Defined.

(** Two frames are handed out, the first is released and handed out again. *)
Lemma pmm_refines_witness :
  exists s', pmm_run [PAlloc; PAlloc; PFree 4096; PAlloc] demo_pmm = Done ([4096; 8192; 4096], s') /\
    pmm_abs s' (mk_abs_pmm 4 ({[1]} ∪ (({[2]} ∪ ({[1]} ∪ {[0]})) ∖ {[1]}))).
Proof.
  assert (abs_run [PAlloc; PAlloc; PFree 4096; PAlloc] (mk_abs_pmm 4 {[0]}) =
    Some ([4096; 8192; 4096], mk_abs_pmm 4 ({[1]} ∪ (({[2]} ∪ ({[1]} ∪ {[0]})) ∖ {[1]})))) as Hrun
    by (vm_compute; reflexivity).
  assert (pmm_abs demo_pmm (mk_abs_pmm 4 {[0]})) as Habs.
  { split; [apply demo_pmm_inv|]. split; [reflexivity|].
    cbn [abs_used demo_pmm pmm_pages_total pmm_bitmap]. intros i Hi. rewrite elem_of_singleton.
    assert (i = 0 \/ i = 1 \/ i = 2 \/ i = 3) as [-> |[-> |[-> | ->]]] by lia; by vm_compute. }
  pose proof (pmm_refines [PAlloc; PAlloc; PFree 4096; PAlloc] demo_pmm (mk_abs_pmm 4 {[0]}) Habs) as H.
  rewrite Hrun in H. apply H.
  repeat (apply List.Forall_cons; [by split|]). apply List.Forall_nil.
Defined.
