(* ===== verification/Paging.v ===== *)
(** * arch/mm/init.c: page tables

    Four-level tables in physical frames, reached through the direct map.  The
    state is that of a frame allocator ([FrameAlloc]) with the CR3 register, the
    static [current_pgd] and the log of [invlpg] instructions.  A pointer to an
    entry is its address; entries are 64-bit little-endian words. *)

From S2P Require Import Prelude Memory StringLib PgTable FrameAlloc.

Definition LAPIC_BASE_PHYS : Z := 0xFEE00000.
Definition IOAPIC_BASE_PHYS : Z := 0xFEC00000.
Definition LAPIC_VADDR : Z := 0xFFFFC90000000000.
Definition IOAPIC_VADDR : Z := 0xFFFFC90000001000.

(** ** State and operations *)

Record mm_state (A : Type) := mk_mm {
  mm_frames : A;
  cr3_reg : Z;
  current_pgd : Z;              (* pgd_t *, 0 before arch_paging_init *)
  invlpg_log : list Z
}.
Arguments mk_mm {A}.
Arguments mm_frames {A}.
Arguments cr3_reg {A}.
Arguments current_pgd {A}.
Arguments invlpg_log {A}.

Section Operations.
Context {A : Type} `{FrameAllocator A}.

Definition mm_mem (s : mm_state A) : mem := fa_mem (mm_frames s).
Definition set_mm_frames (a : A) (s : mm_state A) : mm_state A :=
  mk_mm a (cr3_reg s) (current_pgd s) (invlpg_log s).
Definition set_mm_mem (m : mem) (s : mm_state A) : mm_state A :=
  set_mm_frames (fa_set_mem m (mm_frames s)) s.
Definition set_cr3_reg (c : Z) (s : mm_state A) : mm_state A :=
  mk_mm (mm_frames s) c (current_pgd s) (invlpg_log s).
Definition set_current_pgd (p : Z) (s : mm_state A) : mm_state A :=
  mk_mm (mm_frames s) (cr3_reg s) p (invlpg_log s).

(** Reading and writing the 64-bit entry at an address. *)
Definition ld64 (a : Z) : M (mm_state A) Z := kopt (fun s => peek64 (mm_mem s) a).
Definition st64 (a v : Z) : M (mm_state A) unit :=
  kupd (fun s =>
    match read_list (mm_mem s) a 8 with
    | Some _ => Some (set_mm_mem (poke64 (mm_mem s) a v) s)
    | None => None
    end).
Definition mm_alloc_page : M (mm_state A) Z := zoom mm_frames set_mm_frames fa_alloc.
Definition invlpg (virt : Z) : M (mm_state A) unit :=
  kmod (fun s => mk_mm (mm_frames s) (cr3_reg s) (current_pgd s) (virt :: invlpg_log s)).

Definition get_cr3 : M (mm_state A) Z := kgets cr3_reg.

Definition switch_address_space (cr3 : Z) : M (mm_state A) unit :=
  kmod (set_cr3_reg cr3);;;
  kmod (set_current_pgd (phys_to_virt (Z.land cr3 PTE_ADDR_MASK))).

(** [if (!(e & PTE_PRESENT))] *)
Definition present (e : Z) : bool := istrue (Z.land e PTE_PRESENT).

(** One level of [arch_map_page]: make the entry at [slot] point to a table,
    then return the address of that table. *)
Definition map_level (slot user_flag : Z) : M (mm_state A) Z :=
  let* e := ld64 slot in
  (if negb (present e) then
     let* new_table := mm_alloc_page in
     st64 slot (Z.lor (Z.lor (Z.lor (Z.land new_table PTE_ADDR_MASK) PTE_PRESENT) PTE_WRITABLE) user_flag)
   else
     let* e' := ld64 slot in st64 slot (Z.lor e' user_flag));;;
  let* e := ld64 slot in
  kret (phys_to_virt (Z.land e PTE_ADDR_MASK)).

Definition arch_map_page (virt phys flags : Z) : M (mm_state A) unit :=
  let* pgd := kgets current_pgd in
  if pgd =? 0 then kret tt else
  let user_flag := if istrue (Z.land flags PTE_USER) then PTE_USER else 0 in
  let* pud := map_level (pgd + 8 * pgd_index virt) user_flag in
  let* pmd := map_level (pud + 8 * pud_index virt) user_flag in
  let* pte := map_level (pmd + 8 * pmd_index virt) user_flag in
  st64 (pte + 8 * pte_index virt) (Z.lor (Z.lor (Z.land phys PTE_ADDR_MASK) flags) PTE_PRESENT);;;
  invlpg virt.

(** The address of the entry of [virt], 0 when a table is missing. *)
Definition walk_page_table (virt : Z) : M (mm_state A) Z :=
  let* pgd := kgets current_pgd in
  if pgd =? 0 then kret 0 else
  let* e := ld64 (pgd + 8 * pgd_index virt) in
  if negb (present e) then kret 0 else
  let pud := phys_to_virt (Z.land e PTE_ADDR_MASK) in
  let* e := ld64 (pud + 8 * pud_index virt) in
  if negb (present e) then kret 0 else
  let pmd := phys_to_virt (Z.land e PTE_ADDR_MASK) in
  let* e := ld64 (pmd + 8 * pmd_index virt) in
  if negb (present e) then kret 0 else
  let pte := phys_to_virt (Z.land e PTE_ADDR_MASK) in
  kret (pte + 8 * pte_index virt).

Definition arch_paging_init : M (mm_state A) unit :=
  let* cr3 := kgets cr3_reg in
  kmod (set_current_pgd (phys_to_virt (Z.land cr3 PTE_ADDR_MASK)));;;
  arch_map_page LAPIC_VADDR LAPIC_BASE_PHYS (Z.lor (Z.lor PTE_WRITABLE PTE_PCD) PTE_GLOBAL);;;
  arch_map_page IOAPIC_VADDR IOAPIC_BASE_PHYS (Z.lor (Z.lor PTE_WRITABLE PTE_PCD) PTE_GLOBAL).

(** The kernel half of the top table is shared between address spaces. *)
Definition copy_kernel_half (old_pml4 new_pml4 : Z) : M (mm_state A) unit :=
  kfor (seqZ 256 256) (fun i =>
    let* e := ld64 (old_pml4 + 8 * i) in st64 (new_pml4 + 8 * i) e).

(** The innermost loop of [clone_address_space]: copy every present page. *)
Definition clone_pt (old_pt new_pt : Z) : M (mm_state A) unit :=
  kfor (seqZ 0 512) (fun l =>
    let* e := ld64 (old_pt + 8 * l) in
    if negb (present e) then kret tt else
    let old_page_phys := Z.land e PTE_ADDR_MASK in
    let* new_page_phys := mm_alloc_page in
    zoom mm_mem set_mm_mem (kmemcpy (phys_to_virt new_page_phys) (phys_to_virt old_page_phys) PAGE_SIZE);;;
    let* e := ld64 (old_pt + 8 * l) in
    st64 (new_pt + 8 * l) (Z.lor new_page_phys (Z.land e PTE_FLAGS_MASK))).

(** A new table for entry [i] of [new], then [child] on the two tables: the body
    the three outer loops share. *)
Definition clone_subtree (child : Z -> Z -> M (mm_state A) unit) (old new i : Z) : M (mm_state A) unit :=
  let* e := ld64 (old + 8 * i) in
  let old_table := phys_to_virt (Z.land e PTE_ADDR_MASK) in
  let* new_phys := mm_alloc_page in
  let new_table := phys_to_virt new_phys in
  let* e := ld64 (old + 8 * i) in
  st64 (new + 8 * i) (Z.lor new_phys (Z.land e PTE_FLAGS_MASK));;;
  child old_table new_table.

Definition clone_pd (old_pd new_pd : Z) : M (mm_state A) unit :=
  kfor (seqZ 0 512) (fun k =>
    let* e := ld64 (old_pd + 8 * k) in
    if negb (present e) then kret tt else
    if istrue (Z.land e PTE_HUGE) then st64 (new_pd + 8 * k) e
    else clone_subtree clone_pt old_pd new_pd k).

Definition clone_pdpt (old_pdpt new_pdpt : Z) : M (mm_state A) unit :=
  kfor (seqZ 0 512) (fun j =>
    let* e := ld64 (old_pdpt + 8 * j) in
    if negb (present e) then kret tt else clone_subtree clone_pd old_pdpt new_pdpt j).

Definition clone_address_space : M (mm_state A) Z :=
  let* new_pml4_phys := mm_alloc_page in
  let new_pml4 := phys_to_virt new_pml4_phys in
  let* cr3 := get_cr3 in
  let old_pml4 := phys_to_virt (Z.land cr3 PTE_ADDR_MASK) in
  copy_kernel_half old_pml4 new_pml4;;;
  kfor (seqZ 0 256) (fun i =>
    let* e := ld64 (old_pml4 + 8 * i) in
    if negb (present e) then kret tt else clone_subtree clone_pdpt old_pml4 new_pml4 i);;;
  kret new_pml4_phys.

Definition create_new_address_space : M (mm_state A) Z :=
  let* new_pml4_phys := mm_alloc_page in
  let new_pml4 := phys_to_virt new_pml4_phys in
  let* cr3 := get_cr3 in
  let old_pml4 := phys_to_virt (Z.land cr3 PTE_ADDR_MASK) in
  copy_kernel_half old_pml4 new_pml4;;;
  kret new_pml4_phys.
End Operations.

(** ** Specification: what the MMU sees *)

Definition entry (m : mem) (t i : Z) : option Z := peek64 m (phys_to_virt t + 8 * i).
Definition huge (e : Z) : bool := istrue (Z.land e PTE_HUGE).
Definition frame_of (e : Z) : Z := Z.land e PTE_ADDR_MASK.

(** The hardware walk from table [t] along the remaining indices: the leaf entry
    and whether it maps a huge page (at the second or third level). *)
Fixpoint lookup_from (m : mem) (t : Z) (idx : list Z) : option (Z * bool) :=
  match idx with
  | [] => None
  | i :: rest =>
      match entry m t i with
      | Some e =>
          if negb (present e) then None else
          match rest with
          | [] => Some (e, false)
          | _ :: _ => if (length rest <=? 2)%nat && huge e then Some (e, true)
                      else lookup_from m (frame_of e) rest
          end
      | None => None
      end
  end.

Definition indices (va : Z) : list Z := [pgd_index va; pud_index va; pmd_index va; pte_index va].
Definition translate (m : mem) (root va : Z) : option (Z * bool) := lookup_from m root (indices va).

(** ** Invariant: the tables form trees

    A tag says where a table sits: the root that owns it, if it is not in the
    shared kernel half, and the indices that lead to it. *)
Abbreviation tag := (option Z * list Z)%type.
Definition child (g : tag) (i : Z) : tag :=
  match g.2 with
  | [] => (if i <? 256 then g.1 else None, [i])
  | p => (g.1, p ++ [i])
  end.
Definition is_link (g : tag) (e : Z) : bool :=
  present e && negb ((1 <=? length (g.2))%nat && huge e).

Definition page_addr (t a : Z) : Prop := phys_to_virt t <= a < phys_to_virt t + PAGE_SIZE.

Section Invariant.
Context {A : Type} `{FrameAllocator A}.

Record tables_ok (s : mm_state A) (L : gmap Z tag) : Prop := {
  tok_wf : fa_wf (mm_frames s);
  tok_frame t g : L !! t = Some g ->
    frame_ok t /\ fa_used (mm_frames s) t /\ mapped (mm_mem s) (phys_to_virt t) PAGE_SIZE /\
    (length (g.2) <= 3)%nat;
  tok_root t o : L !! t = Some (o, []) -> o = Some t;
  tok_child t g i e : L !! t = Some g -> (length (g.2) < 3)%nat -> 0 <= i < 512 ->
    entry (mm_mem s) t i = Some e -> is_link g e = true -> L !! frame_of e = Some (child g i)
}.
End Invariant.

(** The slot a walk from a table tagged [g] ends in. *)
Fixpoint final_slot (g : tag) (idx : list Z) : tag * Z :=
  match idx with
  | [] => (g, 0)
  | [i] => (g, i)
  | i :: rest => final_slot (child g i) rest
  end.

(** ** Lemmas: entries *)

Lemma frame_page t : frame_ok t -> exists k, phys_to_virt t = 4096 * k /\ t = 4096 * k - PHYS_OFFSET.
Proof.
  intros [Hr Ha]. rewrite phys_to_virt_eq by done.
  exists (t / 4096 + 0xFFFF800000000). pose proof (Z.div_mod t 4096 ltac:(lia)).
  unfold PHYS_OFFSET. lia.
Qed.

Lemma slots_apart t i t' j :
  frame_ok t -> frame_ok t' -> 0 <= i < 512 -> 0 <= j < 512 -> t <> t' \/ i <> j ->
  phys_to_virt t' + 8 * j + 8 <= phys_to_virt t + 8 * i \/
  phys_to_virt t + 8 * i + 8 <= phys_to_virt t' + 8 * j.
Proof.
  intros (k & -> & ->)%frame_page (k' & -> & ->)%frame_page Hi Hj Hne.
  destruct (decide (k = k')); [subst; lia|]. lia.
Qed.

Lemma slot_ne (t t' i j : Z) : ~ (t = t' /\ i = j) -> t <> t' \/ i <> j.
Proof. lia. Qed.

Lemma entry_poke_ne m t i v t' j :
  frame_ok t -> frame_ok t' -> 0 <= i < 512 -> 0 <= j < 512 -> t <> t' \/ i <> j ->
  entry (poke64 m (phys_to_virt t + 8 * i) v) t' j = entry m t' j.
Proof.
  intros Ht Ht' Hi Hj Hne. apply peekn_poken_ne.
  pose proof (slots_apart t i t' j Ht Ht' Hi Hj Hne). lia.
Qed.

Lemma slot_mapped m t i :
  mapped m (phys_to_virt t) PAGE_SIZE -> 0 <= i < 512 -> mapped m (phys_to_virt t + 8 * i) 8.
Proof. intros Hm Hi. eapply mapped_weaken; [done|lia|rewrite PAGE_SIZE_eq; lia]. Qed.

Lemma entry_poke_eq m t i v :
  mapped m (phys_to_virt t) PAGE_SIZE -> 0 <= i < 512 -> 0 <= v < 2 ^ 64 ->
  entry (poke64 m (phys_to_virt t + 8 * i) v) t i = Some v.
Proof.
  intros Hm Hi Hv. unfold entry. rewrite peekn_poken_eq by (by apply slot_mapped).
  f_equal. apply Z.mod_small. exact Hv.
Qed.

Lemma entry_mapped m t i :
  mapped m (phys_to_virt t) PAGE_SIZE -> 0 <= i < 512 -> is_Some (entry m t i).
Proof. intros. by apply peekn_mapped, slot_mapped. Qed.

Lemma page_apart t t' a :
  frame_ok t -> frame_ok t' -> t <> t' -> page_addr t a -> ~ page_addr t' a.
Proof.
  unfold page_addr. rewrite PAGE_SIZE_eq.
  intros (k & -> & ->)%frame_page (k' & -> & ->)%frame_page ?. lia.
Qed.

Lemma slot_page t i x : 0 <= i < 512 ->
  phys_to_virt t + 8 * i <= x < phys_to_virt t + 8 * i + 8 -> page_addr t x.
Proof. unfold page_addr. rewrite PAGE_SIZE_eq. lia. Qed.

Lemma lookup_write_page m p l x :
  length l = Z.to_nat PAGE_SIZE -> ~ page_addr p x -> write_list m (phys_to_virt p) l !! x = m !! x.
Proof.
  unfold page_addr. intros Hl Hx. apply lookup_write_list_out. rewrite Hl, Z2Nat.id by by vm_compute. lia.
Qed.

Lemma entry_write_page_ne m p l t i :
  frame_ok p -> frame_ok t -> p <> t -> 0 <= i < 512 -> length l = Z.to_nat PAGE_SIZE ->
  entry (write_list m (phys_to_virt p) l) t i = entry m t i.
Proof.
  intros Hp Ht Hne Hi Hl. apply peekn_eq. intros x Hx. apply lookup_write_page; [done|].
  apply (page_apart t); [done..|]. by apply (slot_page t i).
Qed.

Lemma entry_zero_page m p i : 0 <= i < 512 ->
  entry (write_list m (phys_to_virt p) zero_page) p i = Some 0.
Proof.
  intros Hi. apply peekn_zeros. rewrite zero_page_replicate.
  intros k b Hk. apply lookup_replicate in Hk as [-> Hk].
  rewrite lookup_write_list, length_replicate, Z2Nat.id by by vm_compute.
  rewrite decide_True by (rewrite PAGE_SIZE_eq; lia).
  apply lookup_replicate. split; [done|]. rewrite PAGE_SIZE_eq. lia.
Qed.

Lemma present_zero : present 0 = false.
Proof. reflexivity. Qed.

(** Bits of entries, as [testbit]s. *)
Lemma present_bit e : present e = Z.testbit e 0.
Proof. by apply land_bit_ne0. Qed.
Lemma huge_bit e : huge e = Z.testbit e 7.
Proof. by apply land_bit_ne0. Qed.
Lemma frame_of_ok e : 0 <= e -> frame_of e < 2 ^ 47 -> frame_ok (frame_of e).
Proof.
  intros He Hb. split; [|apply land_addr_mask_aligned]. split; [|done]. by apply Z.land_nonneg; left.
Qed.

(** ** Lemmas: walks after one store *)

Lemma final_slot_range g idx :
  Forall (fun i => 0 <= i < 512) idx -> 0 <= (final_slot g idx).2 < 512.
Proof.
  intros Hidx. revert g. induction Hidx as [|j [|j2 r] Hj Hr IH]; intros g; [simpl; lia|done|].
  apply (IH (child g j)).
Qed.

Abbreviation idx_ok := (Forall (fun i => 0 <= i < 512)).

Lemma indices_ok va : idx_ok (indices va).
Proof. repeat (apply List.Forall_cons; [apply index_range|]). apply List.Forall_nil. Qed.

Lemma huge_level (g : tag) (rest : list Z) :
  (length (g.2) + S (length rest) = 4)%nat ->
  (length rest <=? 2)%nat = (1 <=? length (g.2))%nat.
Proof. intros. destruct (Nat.leb_spec (length rest) 2), (Nat.leb_spec 1 (length (g.2))); lia. Qed.

Lemma length_child g i : length ((child g i).2) = S (length (g.2)).
Proof. destruct g as [o [|x p]]; simpl; [done|]. rewrite length_app. simpl. lia. Qed.

Section Walks.
Context {A : Type} `{FrameAllocatorLaws A}.
Implicit Types (s : mm_state A) (L : gmap Z tag).

Lemma tok_entry s L t g i :
  tables_ok s L -> L !! t = Some g -> 0 <= i < 512 ->
  exists e, entry (mm_mem s) t i = Some e /\ 0 <= e < 2 ^ 64.
Proof.
  intros Hok Ht Hi. destruct (tok_frame _ _ Hok _ _ Ht) as (_ & _ & Hm & _).
  destruct (entry_mapped _ _ i Hm Hi) as [e He]. exists e. split; [done|].
  eapply (peekn_range 8); [|exact He]. apply fa_wf_mem. by apply (tok_wf _ _ Hok).
Qed.

(** An entry of an inner table may keep its meaning: the same entry, a link to
    the same table, or a new link to an empty table in place of no entry. *)
Definition entry_sim (g : tag) (m' : mem) (e e' : Z) : Prop :=
  e' = e \/
  (is_link g e = true /\ is_link g e' = true /\ frame_of e' = frame_of e) \/
  (present e = false /\ is_link g e' = true /\
   forall j, 0 <= j < 512 -> entry m' (frame_of e') j = Some 0).

Lemma is_link_walk g (rest : list Z) e :
  (length (g.2) + S (length rest) = 4)%nat -> is_link g e = true ->
  present e = true /\ (length rest <=? 2)%nat && huge e = false.
Proof.
  intros Hl [Hp Hh]%andb_true_iff. split; [done|]. rewrite (huge_level g) by done.
  by apply negb_true_iff.
Qed.

(** A walk is unchanged if the inner entries keep their meaning and the entry it
    ends in is the same. *)
Lemma lookup_from_sim s L (m' : mem) idx t g :
  tables_ok s L -> L !! t = Some g -> (length (g.2) + length idx = 4)%nat -> idx_ok idx ->
  (forall t g i e, L !! t = Some g -> 0 <= i < 512 -> (length (g.2) < 3)%nat ->
     entry (mm_mem s) t i = Some e -> exists e', entry m' t i = Some e' /\ entry_sim g m' e e') ->
  (forall t, L !! t = Some (final_slot g idx).1 ->
     entry m' t (final_slot g idx).2 = entry (mm_mem s) t (final_slot g idx).2) ->
  lookup_from m' t idx = lookup_from (mm_mem s) t idx.
Proof.
  intros Hok Ht Hlen Hidx Hin. revert t g Ht Hlen.
  induction Hidx as [|i rest Hi Hrest IH]; intros t g Ht Hlen Hleaf; [done|].
  destruct rest as [|i2 rest].
  { simpl in Hleaf |- *. by rewrite (Hleaf t Ht). }
  destruct (tok_entry s L t g i Hok Ht Hi) as (e & He & _).
  assert (length (g.2) < 3)%nat as Hg by (simpl in Hlen; lia).
  destruct (Hin t g i e Ht Hi Hg He) as (e' & He' & Hsim).
  assert (is_link g e = true ->
    lookup_from m' (frame_of e) (i2 :: rest) = lookup_from (mm_mem s) (frame_of e) (i2 :: rest)) as Hdown.
  { intros Hl. apply (IH _ (child g i)); [by eapply (tok_child _ _ Hok)| |done].
    rewrite length_child. simpl in *. lia. }
  change (length (i :: i2 :: rest)) with (S (length (i2 :: rest))) in Hlen.
  cbn [lookup_from]. rewrite He, He'. destruct Hsim as [-> |[(Hl & Hl' & Hf)|(Hnp & Hl' & Hz)]].
  - destruct (present e) eqn:Hp; simpl negb; [|done].
    rewrite (huge_level g) by done. unfold is_link in Hdown. rewrite Hp in Hdown.
    destruct ((1 <=? length (g.2))%nat && huge e); [done|]. by apply Hdown.
  - destruct (is_link_walk _ _ _ Hlen Hl) as [-> ->], (is_link_walk _ _ _ Hlen Hl') as [-> ->].
    simpl negb. rewrite Hf. by apply Hdown.
  - destruct (is_link_walk _ _ _ Hlen Hl') as [-> ->]. rewrite Hnp. simpl.
    rewrite Hz; [done|]. apply Forall_cons in Hrest as [Hi2 _]. exact Hi2.
Qed.
End Walks.

(** ** Lemmas: the primitive steps *)

Section Steps.
Context {A : Type} `{FrameAllocatorLaws A}.
Implicit Types (s : mm_state A) (L : gmap Z tag).

Lemma mm_mem_set s m : mm_mem (set_mm_mem m s) = m.
Proof. apply fa_mem_set. Qed.

Lemma safe_ld64 stop s a v Q : peek64 (mm_mem s) a = Some v -> Q v s -> safe stop (ld64 a) s Q.
Proof. intros Hv HQ. eapply safe_done; [by apply kopt_some|done]. Qed.

Lemma safe_st64 stop s a v Q :
  mapped (mm_mem s) a 8 -> Q tt (set_mm_mem (poke64 (mm_mem s) a v) s) -> safe stop (st64 a v) s Q.
Proof.
  intros Hm HQ. destruct (mapped_read_list _ _ 8 Hm) as [l Hl].
  eapply safe_done; [apply kupd_some; by rewrite Hl|done].
Qed.

(** A frame handed out by the allocator. *)
Record fresh (s : mm_state A) (p : Z) (s' : mm_state A) : Prop := {
  fresh_frame : frame_ok p;
  fresh_unused : ~ fa_used (mm_frames s) p;
  fresh_used q : fa_used (mm_frames s') q <-> q = p \/ fa_used (mm_frames s) q;
  fresh_avail : fa_avail (mm_frames s') = fa_avail (mm_frames s) - 1;
  fresh_mapped : mapped (mm_mem s) (phys_to_virt p) PAGE_SIZE;
  fresh_mem : mm_mem s' = write_list (mm_mem s) (phys_to_virt p) zero_page;
  fresh_wf : fa_wf (mm_frames s');
  fresh_regs : cr3_reg s' = cr3_reg s /\ current_pgd s' = current_pgd s /\ invlpg_log s' = invlpg_log s
}.

Lemma safe_alloc (stop : Prop) s Q :
  fa_wf (mm_frames s) -> (fa_avail (mm_frames s) = 0 -> stop) ->
  (forall p s', fresh s p s' -> Q p s') -> safe stop mm_alloc_page s Q.
Proof.
  intros Hwf Hstop HQ. unfold mm_alloc_page.
  destruct (fa_alloc_outcome (mm_frames s) Hwf) as [(Hav & p & a' & E)|(Hav & w & E)].
  - eapply safe_done; [by apply zoom_done|]. apply HQ.
    destruct (fa_alloc_ok _ _ _ Hwf E) as (? & ? & ? & ? & ? & ? & ?).
    constructor; [assumption..|]. by split.
  - unfold safe, zoom. rewrite E. auto.
Qed.

Lemma tables_ok_poke s L t g i v :
  tables_ok s L -> L !! t = Some g -> 0 <= i < 512 -> 0 <= v < 2 ^ 64 ->
  ((length (g.2) < 3)%nat -> is_link g v = true -> L !! frame_of v = Some (child g i)) ->
  tables_ok (set_mm_mem (poke64 (mm_mem s) (phys_to_virt t + 8 * i) v) s) L.
Proof.
  intros Hok Ht Hi Hv Hlink. destruct (tok_frame _ _ Hok _ _ Ht) as (Hf & _ & Hm & _).
  constructor.
  - apply fa_wf_write; [apply (tok_wf _ _ Hok)|apply le_split_bytes].
  - intros t' g' Ht'. destruct (tok_frame _ _ Hok _ _ Ht') as (? & ? & ? & ?).
    rewrite mm_mem_set. split_and!; [done|by apply fa_used_set|by apply poken_mapped|done].
  - apply (tok_root _ _ Hok).
  - intros t' g' j e Ht' Hl Hj. rewrite mm_mem_set.
    destruct (decide (t = t' /\ i = j)) as [[<- <-]|Hne].
    + rewrite entry_poke_eq by done. intros [= <-]. replace g' with g in * by congruence. by apply Hlink.
    + destruct (tok_frame _ _ Hok _ _ Ht') as (? & _).
      rewrite entry_poke_ne by (done || by apply slot_ne).
      by apply (tok_child _ _ Hok).
Qed.

Lemma fresh_not_table s L p s' : tables_ok s L -> fresh s p s' -> L !! p = None.
Proof.
  intros Hok Hp. destruct (L !! p) eqn:E; [|done]. exfalso. apply (fresh_unused _ _ _ Hp).
  by apply (tok_frame _ _ Hok _ _ E).
Qed.

Lemma fresh_entry_ne s L p s' t g i :
  tables_ok s L -> fresh s p s' -> L !! t = Some g -> 0 <= i < 512 ->
  entry (mm_mem s') t i = entry (mm_mem s) t i.
Proof.
  intros Hok Hp Ht Hi. pose proof (fresh_not_table _ _ _ _ Hok Hp).
  destruct (tok_frame _ _ Hok _ _ Ht) as (Hf & _). rewrite (fresh_mem _ _ _ Hp).
  apply entry_write_page_ne; [apply (fresh_frame _ _ _ Hp)|done|congruence|done|apply length_zero_page].
Qed.

Lemma tables_ok_alloc s L p s' g :
  tables_ok s L -> fresh s p s' -> (length (g.2) <= 3)%nat -> (g.2 = [] -> g.1 = Some p) ->
  tables_ok s' (<[p := g]> L).
Proof.
  intros Hok Hp Hg Hroot. pose proof (fresh_not_table _ _ _ _ Hok Hp) as Hnone.
  constructor.
  - apply (fresh_wf _ _ _ Hp).
  - intros t g'. rewrite lookup_insert_Some, (fresh_used _ _ _ Hp), (fresh_mem _ _ _ Hp).
    intros [[<- <-]|[Hne Ht]].
    + split_and!; [apply (fresh_frame _ _ _ Hp)|by left| |done].
      apply write_list_mapped, (fresh_mapped _ _ _ Hp).
    + destruct (tok_frame _ _ Hok _ _ Ht) as (? & ? & ? & ?).
      split_and!; [done|by right|by apply write_list_mapped|done].
  - intros t o. rewrite lookup_insert_Some. intros [[<- ->]|[Hne Ht]]; [by apply Hroot|].
    by apply (tok_root _ _ Hok) in Ht.
  - intros t g' i e. rewrite lookup_insert_Some. intros [[<- <-]|[Hne Ht]] Hl Hi He Hlink.
    + rewrite (fresh_mem _ _ _ Hp), entry_zero_page in He by done. injection He as <-. done.
    + erewrite fresh_entry_ne in He by done.
      pose proof (tok_child _ _ Hok _ _ _ _ Ht Hl Hi He Hlink) as Hc.
      rewrite lookup_insert_ne; [done|congruence].
Qed.
End Steps.

(** ** Lemmas: one level of [arch_map_page] *)

Definition user_flag_ok (uf : Z) : Prop := uf = 0 \/ uf = PTE_USER.

Lemma new_entry_facts p uf :
  frame_ok p -> user_flag_ok uf ->
  let e := Z.lor (Z.lor (Z.lor (Z.land p PTE_ADDR_MASK) PTE_PRESENT) PTE_WRITABLE) uf in
  frame_of e = p /\ present e = true /\ huge e = false /\ 0 <= e < 2 ^ 64 /\
  (uf = PTE_USER -> Z.testbit e 2 = true).
Proof.
  intros Hp Huf e.
  assert (exists c, e = Z.lor p c /\ (c = 3 \/ c = 7) /\ (uf = PTE_USER -> c = 7)) as (c & -> & Hc & Hu).
  { unfold e. rewrite frame_land_mask, <- !Z.lor_assoc by done. eexists. split; [done|].
    destruct Huf as [-> | ->]; vm_compute; auto. split; [by left|done]. }
  unfold frame_of. rewrite present_bit, huge_bit, !Z.lor_spec, (frame_low_bits p 7) by (lia || apply Hp).
  destruct Hp as [Hr Ha]. split; [|split; [|split; [|split]]].
  - apply entry_frame; [done|]. by destruct Hc as [-> | ->].
  - destruct Hc as [-> | ->]; apply orb_true_r.
  - by destruct Hc as [-> | ->].
  - apply lor_bound; lia.
  - intros ->%Hu. apply orb_true_r.
Qed.

Lemma or_user_facts e uf :
  0 <= e < 2 ^ 64 -> user_flag_ok uf ->
  frame_of (Z.lor e uf) = frame_of e /\ present (Z.lor e uf) = present e /\
  huge (Z.lor e uf) = huge e /\ 0 <= Z.lor e uf < 2 ^ 64 /\
  (uf = PTE_USER -> Z.testbit (Z.lor e uf) 2 = true).
Proof.
  intros He Huf. unfold frame_of. rewrite !present_bit, !huge_bit, !Z.lor_spec.
  split; [|split; [|split; [|split]]].
  - rewrite Z.land_lor_distr_l. replace (Z.land uf PTE_ADDR_MASK) with 0 by (by destruct Huf as [-> | ->]).
    apply Z.lor_0_r.
  - destruct Huf as [-> | ->]; apply orb_false_r.
  - destruct Huf as [-> | ->]; apply orb_false_r.
  - apply lor_bound; [lia..|]. destruct Huf as [-> | ->]; by split.
  - intros ->. apply orb_true_r.
Qed.

Section MapLevel.
Context {A : Type} `{FrameAllocatorLaws A}.
Implicit Types (s : mm_state A) (L : gmap Z tag).

(** The tables after some stores into tables and allocations of tables. *)
Record grown s L s' L' : Prop := {
  gr_sub : L ⊆ L';
  gr_ok : tables_ok s' L';
  gr_new t : is_Some (L' !! t) -> L !! t = None -> ~ fa_used (mm_frames s) t;
  gr_used t : fa_used (mm_frames s) t -> fa_used (mm_frames s') t;
  gr_mem a : (forall t, is_Some (L' !! t) -> ~ page_addr t a) -> mm_mem s' !! a = mm_mem s !! a;
  gr_regs : cr3_reg s' = cr3_reg s /\ current_pgd s' = current_pgd s
}.

(** Walks keep their results. *)
Definition walks_kept s L (m' : mem) : Prop :=
  forall t g idx, L !! t = Some g -> (length (g.2) + length idx = 4)%nat -> idx_ok idx ->
    lookup_from m' t idx = lookup_from (mm_mem s) t idx.

Lemma grown_trans s L s1 L1 s2 L2 : grown s L s1 L1 -> grown s1 L1 s2 L2 -> grown s L s2 L2.
Proof.
  intros [Hs1 Hok1 Hn1 Hu1 Hm1 [Hc1 Hp1]] [Hs2 Hok2 Hn2 Hu2 Hm2 [Hc2 Hp2]]. constructor.
  - by trans L1.
  - done.
  - intros t Ht Hnone. destruct (L1 !! t) eqn:E1; [by apply Hn1; [eexists|]|].
    intros Hu. by apply (Hn2 t), Hu1.
  - auto.
  - intros a Ha. rewrite Hm2 by done. apply Hm1. intros t [g Ht]. apply Ha.
    exists g. by eapply lookup_weaken.
  - split; congruence.
Qed.

Lemma walks_kept_trans s L s1 L1 m2 :
  L ⊆ L1 -> walks_kept s L (mm_mem s1) -> walks_kept s1 L1 m2 -> walks_kept s L m2.
Proof.
  intros Hsub H1 H2 t g idx Ht Hl Hi. rewrite (H2 t g idx) by (done || by eapply lookup_weaken).
  by apply (H1 t g).
Qed.

Lemma grown_poke s L t g i v :
  tables_ok s L -> L !! t = Some g -> 0 <= i < 512 -> 0 <= v < 2 ^ 64 ->
  ((length (g.2) < 3)%nat -> is_link g v = true -> L !! frame_of v = Some (child g i)) ->
  grown s L (set_mm_mem (poke64 (mm_mem s) (phys_to_virt t + 8 * i) v) s) L.
Proof.
  intros Hok Ht Hi Hv Hl. constructor; [done|by eapply tables_ok_poke|intros q [? Hq] Hn; congruence|..|done].
  - intros q. apply fa_used_set.
  - intros a Ha. rewrite mm_mem_set. apply lookup_poken_out.
    assert (~ page_addr t a) as Hp by (apply Ha; eauto).
    unfold page_addr in Hp. rewrite PAGE_SIZE_eq in Hp. lia.
Qed.

Lemma grown_alloc s L p s' g :
  tables_ok s L -> fresh s p s' -> (length (g.2) <= 3)%nat -> (g.2 = [] -> g.1 = Some p) ->
  grown s L s' (<[p := g]> L).
Proof.
  intros Hok Hp Hg Hroot. pose proof (fresh_not_table _ _ _ _ Hok Hp).
  constructor.
  - by apply insert_subseteq.
  - by eapply tables_ok_alloc.
  - intros t Ht HL. destruct (decide (t = p)) as [-> |Hne]; [apply (fresh_unused _ _ _ Hp)|].
    rewrite lookup_insert_ne, HL in Ht by done. by destruct Ht.
  - intros q Hq. apply (fresh_used _ _ _ Hp). by right.
  - intros a Ha. rewrite (fresh_mem _ _ _ Hp). apply lookup_write_page; [apply length_zero_page|].
    apply Ha. by rewrite lookup_insert_eq.
  - destruct (fresh_regs _ _ _ Hp) as (? & ? & _). done.
Qed.

(** What [map_level] does to entry [i] of table [t]. *)
Record level_mapped s L t g i uf s' L' t' : Prop := {
  lm_grown : grown s L s' L';
  lm_tag : L' !! t' = Some (child g i);
  lm_entry : exists e, entry (mm_mem s') t i = Some e /\ is_link g e = true /\ frame_of e = t' /\
    (uf = PTE_USER -> Z.testbit e 2 = true);
  lm_other t2 g2 j : L !! t2 = Some g2 -> 0 <= j < 512 -> ~ (t = t2 /\ i = j) ->
    entry (mm_mem s') t2 j = entry (mm_mem s) t2 j;
  lm_walks : walks_kept s L (mm_mem s');
  lm_avail : fa_avail (mm_frames s) - 1 <= fa_avail (mm_frames s') <= fa_avail (mm_frames s);
  lm_log : invlpg_log s' = invlpg_log s
}.

(** Replacing entry [i] of the inner table [t] by one of the same meaning keeps
    every walk. *)
Lemma walks_kept_entry s L (m' : mem) t g i e v :
  tables_ok s L -> L !! t = Some g -> (length (g.2) < 3)%nat -> 0 <= i < 512 ->
  entry (mm_mem s) t i = Some e -> entry m' t i = Some v -> entry_sim g m' e v ->
  (forall t2 g2 j, L !! t2 = Some g2 -> 0 <= j < 512 -> ~ (t = t2 /\ i = j) ->
     entry m' t2 j = entry (mm_mem s) t2 j) ->
  walks_kept s L m'.
Proof.
  intros Hok Ht Hg Hi He Hv Hsim Hoth t2 g2 idx Ht2 Hlen Hidx.
  apply (lookup_from_sim s L m' idx t2 g2); [done..| |].
  - intros t3 g3 j e3 Ht3 Hj _ He3. destruct (decide (t = t3 /\ i = j)) as [[<- <-]|Hne].
    + exists v. split; [done|]. by replace e3 with e by congruence; replace g3 with g by congruence.
    + exists e3. split; [by erewrite Hoth|by left].
  - intros t3 Ht3. apply (Hoth _ _ _ Ht3).
    + by apply final_slot_range.
    + intros [E _]. rewrite <- E in Ht3. rewrite Ht in Ht3. injection Ht3 as ->. clear -Hlen Hg.
      assert (forall idx g, idx <> [] -> length ((final_slot g idx).1.2) = (length (g.2) + length idx - 1)%nat) as Hfin.
      { induction idx0 as [|j [|j2 r] IH]; intros g Hne; [done|simpl; lia|].
        change (final_slot g (j :: j2 :: r)) with (final_slot (child g j) (j2 :: r)).
        rewrite IH, length_child by done. simpl. lia. }
      destruct idx; [simpl in *; lia|]. rewrite Hfin in Hg by done. simpl in *. lia.
Qed.

Lemma map_level_new s L t g i uf e :
  tables_ok s L -> L !! t = Some g -> (length (g.2) < 3)%nat -> 0 <= i < 512 -> user_flag_ok uf ->
  entry (mm_mem s) t i = Some e -> present e = false ->
  safe (fa_avail (mm_frames s) < 1) (map_level (phys_to_virt t + 8 * i) uf) s
    (fun a s' => exists L' t', a = phys_to_virt t' /\ level_mapped s L t g i uf s' L' t').
Proof.
  intros Hok Ht Hg Hi Huf He Hnp. unfold map_level.
  apply safe_bind, (safe_ld64 _ _ _ e); [exact He|]. rewrite Hnp. simpl negb. cbv iota.
  apply safe_bind, safe_bind, safe_alloc; [apply (tok_wf _ _ Hok)|lia|].
  intros p s1 Hp. set (v := Z.lor _ uf).
  destruct (new_entry_facts p uf (fresh_frame _ _ _ Hp) Huf) as (Hvf & Hvp & Hvh & Hvr & Hvu). fold v in Hvf, Hvp, Hvh, Hvr, Hvu.
  assert (grown s L s1 (<[p := child g i]> L)) as Hg1.
  { apply grown_alloc; [done..|rewrite length_child; lia|]. by destruct g as [? []]. }
  pose proof (gr_ok _ _ _ _ Hg1) as Hok1.
  assert (<[p := child g i]> L !! t = Some g) as Ht1.
  { eapply lookup_weaken; [exact Ht|apply (gr_sub _ _ _ _ Hg1)]. }
  destruct (tok_frame _ _ Hok1 _ _ Ht1) as (Hft & _ & Hmt & _).
  apply safe_st64; [by apply slot_mapped|].
  set (s2 := set_mm_mem _ s1).
  assert (entry (mm_mem s2) t i = Some v) as Hev by (unfold s2; rewrite mm_mem_set; by apply entry_poke_eq).
  apply safe_bind, (safe_ld64 _ _ _ v); [exact Hev|].
  assert (grown s1 (<[p := child g i]> L) s2 (<[p := child g i]> L)) as Hg2.
  { apply grown_poke with g; [done..|]. intros _ _. rewrite Hvf. by rewrite lookup_insert_eq. }
  assert (forall t2 g2 j, L !! t2 = Some g2 -> 0 <= j < 512 -> ~ (t = t2 /\ i = j) ->
     entry (mm_mem s2) t2 j = entry (mm_mem s) t2 j) as Hoth.
  { intros t2 g2 j Ht2 Hj Hne. unfold s2. rewrite mm_mem_set.
    destruct (tok_frame _ _ Hok _ _ Ht2) as (? & _).
    rewrite entry_poke_ne by (done || by apply slot_ne). by eapply fresh_entry_ne. }
  assert (is_link g v = true) as Hlv by (unfold is_link; by rewrite Hvp, Hvh, andb_false_r).
  exists (<[p := child g i]> L), p. split; [change (phys_to_virt (frame_of v) = phys_to_virt p); by rewrite Hvf|].
  constructor.
  - by eapply grown_trans.
  - by rewrite lookup_insert_eq.
  - by exists v.
  - exact Hoth.
  - apply walks_kept_entry with t g i e v; [done..| |done]. right; right. split_and!; [done..|].
    rewrite Hvf. intros j Hj. unfold s2. rewrite mm_mem_set.
    assert (t <> p) by (intros ->; rewrite (fresh_not_table _ _ _ _ Hok Hp) in Ht; done).
    rewrite entry_poke_ne; [|done|apply (fresh_frame _ _ _ Hp)|done|done|by left].
    rewrite (fresh_mem _ _ _ Hp). by apply entry_zero_page.
  - unfold s2. cbn [mm_frames set_mm_mem set_mm_frames]. rewrite fa_avail_set, (fresh_avail _ _ _ Hp). lia.
  - apply (fresh_regs _ _ _ Hp).
Qed.

Lemma map_level_old s L t g i uf e :
  tables_ok s L -> L !! t = Some g -> (length (g.2) < 3)%nat -> 0 <= i < 512 -> user_flag_ok uf ->
  entry (mm_mem s) t i = Some e -> is_link g e = true ->
  safe (fa_avail (mm_frames s) < 1) (map_level (phys_to_virt t + 8 * i) uf) s
    (fun a s' => exists L' t', a = phys_to_virt t' /\ level_mapped s L t g i uf s' L' t').
Proof.
  intros Hok Ht Hg Hi Huf He Hlink. unfold map_level.
  assert (0 <= e < 2 ^ 64) as Her by (destruct (tok_entry _ _ _ _ _ Hok Ht Hi) as (e' & He' & ?); congruence).
  destruct (or_user_facts e uf Her Huf) as (Hvf & Hvp & Hvh & Hvr & Hvu).
  pose proof (proj1 (proj1 (andb_true_iff _ _) Hlink)) as Hp.
  apply safe_bind, (safe_ld64 _ _ _ e); [exact He|]. rewrite Hp. simpl negb. cbv iota.
  apply safe_bind, safe_bind, (safe_ld64 _ _ _ e); [exact He|]. set (v := Z.lor e uf) in *.
  destruct (tok_frame _ _ Hok _ _ Ht) as (Hft & _ & Hmt & _).
  apply safe_st64; [by apply slot_mapped|].
  set (s2 := set_mm_mem _ s).
  assert (entry (mm_mem s2) t i = Some v) as Hev by (unfold s2; rewrite mm_mem_set; by apply entry_poke_eq).
  apply safe_bind, (safe_ld64 _ _ _ v); [exact Hev|].
  assert (is_link g v = true) as Hlv by (unfold is_link; rewrite Hvp, Hvh; exact Hlink).
  pose proof (tok_child _ _ Hok _ _ _ _ Ht Hg Hi He Hlink) as Hchild.
  assert (forall t2 g2 j, L !! t2 = Some g2 -> 0 <= j < 512 -> ~ (t = t2 /\ i = j) ->
     entry (mm_mem s2) t2 j = entry (mm_mem s) t2 j) as Hoth.
  { intros t2 g2 j Ht2 Hj Hne. unfold s2. rewrite mm_mem_set.
    destruct (tok_frame _ _ Hok _ _ Ht2) as (? & _). apply entry_poke_ne; [done..|by apply slot_ne]. }
  exists L, (frame_of e). split; [change (phys_to_virt (frame_of v) = phys_to_virt (frame_of e)); by rewrite Hvf|].
  constructor.
  - apply grown_poke with g; [done..|]. intros _ _. by rewrite Hvf.
  - done.
  - by exists v.
  - exact Hoth.
  - apply walks_kept_entry with t g i e v; [done..| |done]. right; left. done.
  - unfold s2. cbn [mm_frames set_mm_mem set_mm_frames]. rewrite fa_avail_set. lia.
  - done.
Qed.

Lemma map_level_spec s L t g i uf :
  tables_ok s L -> L !! t = Some g -> (length (g.2) < 3)%nat -> 0 <= i < 512 -> user_flag_ok uf ->
  (forall e, entry (mm_mem s) t i = Some e -> present e = true -> is_link g e = true) ->
  safe (fa_avail (mm_frames s) < 1) (map_level (phys_to_virt t + 8 * i) uf) s
    (fun a s' => exists L' t', a = phys_to_virt t' /\ level_mapped s L t g i uf s' L' t').
Proof.
  intros Hok Ht Hg Hi Huf Hl. destruct (tok_entry _ _ _ _ _ Hok Ht Hi) as (e & He & _).
  destruct (present e) eqn:Hp; [eapply map_level_old|eapply map_level_new]; eauto.
Qed.
End MapLevel.

(** ** Lemmas: [arch_map_page] and [walk_page_table] *)

(** The entries a walk of present tables reads. *)
Fixpoint path_entries (m : mem) (t : Z) (idx : list Z) : list Z :=
  match idx with
  | [] => []
  | i :: rest =>
      match entry m t i with
      | Some e => e :: (if present e then path_entries m (frame_of e) rest else [])
      | None => []
      end
  end.
Definition leaf_entry (phys flags : Z) : Z := Z.lor (Z.lor (Z.land phys PTE_ADDR_MASK) flags) PTE_PRESENT.
Definition not_huge (r : option (Z * bool)) : Prop := forall e, r <> Some (e, true).

Lemma lookup_from_step m t g i i2 rest e :
  entry m t i = Some e -> is_link g e = true -> (length (g.2) + S (S (length rest)) = 4)%nat ->
  lookup_from m t (i :: i2 :: rest) = lookup_from m (frame_of e) (i2 :: rest).
Proof.
  intros He Hl Hlen. destruct (is_link_walk g (i2 :: rest) e Hlen Hl) as [Hp Hh].
  cbn [lookup_from]. by rewrite He, Hp, Hh.
Qed.

Lemma not_huge_link m t g i i2 rest e :
  not_huge (lookup_from m t (i :: i2 :: rest)) -> (length (g.2) + S (S (length rest)) = 4)%nat ->
  entry m t i = Some e -> present e = true -> is_link g e = true.
Proof.
  intros Hnh Hlen He Hp. unfold is_link. rewrite Hp, <- (huge_level g (i2 :: rest)) by done.
  destruct ((length (i2 :: rest) <=? 2)%nat && huge e) eqn:Hh; [|done].
  exfalso. apply (Hnh e). cbn [lookup_from]. by rewrite He, Hp, Hh.
Qed.

Lemma path_entries_step m t i rest e :
  entry m t i = Some e -> present e = true ->
  path_entries m t (i :: rest) = e :: path_entries m (frame_of e) rest.
Proof. intros He Hp. cbn [path_entries]. by rewrite He, Hp. Qed.

Lemma is_link_present g e : is_link g e = true -> present e = true.
Proof. by intros [? _]%andb_true_iff. Qed.

Lemma leaf_entry_facts phys flags :
  0 <= phys -> 0 <= flags < 2 ^ 64 ->
  0 <= leaf_entry phys flags < 2 ^ 64 /\ present (leaf_entry phys flags) = true /\
  (Z.testbit flags 2 = true -> Z.testbit (leaf_entry phys flags) 2 = true) /\
  (Z.land flags PTE_ADDR_MASK = 0 -> frame_of (leaf_entry phys flags) = frame_of phys).
Proof.
  intros Hp Hf. unfold leaf_entry. split; [|split; [|split]].
  - assert (0 <= Z.land phys PTE_ADDR_MASK < 2 ^ 64) by (rewrite Z.land_comm; by apply land_bound).
    apply lor_bound; [lia| |by split]. by apply lor_bound.
  - rewrite present_bit, Z.lor_spec. apply orb_true_r.
  - intros Hu. by rewrite !Z.lor_spec, Hu, orb_true_r.
  - intros Hz. unfold frame_of. rewrite !Z.land_lor_distr_l, Hz, <- Z.land_assoc, Z.land_diag.
    by rewrite !Z.lor_0_r.
Qed.

Section MapPage.
Context {A : Type} `{FrameAllocatorLaws A}.
Implicit Types (s : mm_state A) (L : gmap Z tag).

Record page_mapped s L r virt phys flags s' L' : Prop := {
  pm_grown : grown s L s' L';
  pm_avail : fa_avail (mm_frames s) - 3 <= fa_avail (mm_frames s') <= fa_avail (mm_frames s);
  pm_path : exists t3 e0 e1 e2, let leaf := leaf_entry phys flags in
    path_entries (mm_mem s') r (indices virt) = [e0; e1; e2; leaf] /\
    is_link (Some r, []) e0 = true /\ is_link (child (Some r, []) (pgd_index virt)) e1 = true /\
    is_link (child (child (Some r, []) (pgd_index virt)) (pud_index virt)) e2 = true /\
    frame_of e2 = t3 /\ entry (mm_mem s') t3 (pte_index virt) = Some leaf /\
    (Z.testbit flags 2 = true -> Forall (fun e => Z.testbit e 2 = true) [e0; e1; e2; leaf]);
  pm_walks t g idx : L !! t = Some g -> (length (g.2) + length idx = 4)%nat -> idx_ok idx ->
    final_slot g idx <> final_slot (Some r, []) (indices virt) ->
    lookup_from (mm_mem s') t idx = lookup_from (mm_mem s) t idx;
  pm_log : invlpg_log s' = virt :: invlpg_log s
}.

Lemma level_not_huge s L t g i i2 rest uf s' L' t' :
  level_mapped s L t g i uf s' L' t' -> L !! t = Some g ->
  (length (g.2) + S (S (length rest)) = 4)%nat -> idx_ok (i :: i2 :: rest) ->
  not_huge (lookup_from (mm_mem s) t (i :: i2 :: rest)) ->
  not_huge (lookup_from (mm_mem s') t' (i2 :: rest)).
Proof.
  intros Hlm Ht Hlen Hidx Hnh. destruct (lm_entry _ _ _ _ _ _ _ _ _ Hlm) as (e & He & Hl & <- & _).
  rewrite <- (lookup_from_step _ _ _ _ _ _ _ He Hl Hlen).
  by rewrite (lm_walks _ _ _ _ _ _ _ _ _ Hlm t g (i :: i2 :: rest)).
Qed.

(** Tables at different depths are different. *)
Lemma depth_ne L t1 g1 t2 g2 :
  L !! t1 = Some g1 -> L !! t2 = Some g2 -> length (g1.2) <> length (g2.2) -> t1 <> t2.
Proof. intros H1 H2 Hne ->. rewrite H1 in H2. by injection H2 as ->. Qed.

Lemma grown_lookup s L s' L' t g : grown s L s' L' -> L !! t = Some g -> L' !! t = Some g.
Proof. intros Hg Ht. eapply lookup_weaken; [exact Ht|apply (gr_sub _ _ _ _ Hg)]. Qed.

(** The store of the leaf, after the three tables are in place. *)
Lemma leaf_stored s L t g i v :
  tables_ok s L -> L !! t = Some g -> length (g.2) = 3%nat -> 0 <= i < 512 -> 0 <= v < 2 ^ 64 ->
  let s' := set_mm_mem (poke64 (mm_mem s) (phys_to_virt t + 8 * i) v) s in
  grown s L s' L /\ entry (mm_mem s') t i = Some v /\
  (forall t2 g2 j, L !! t2 = Some g2 -> 0 <= j < 512 -> ~ (t = t2 /\ i = j) ->
     entry (mm_mem s') t2 j = entry (mm_mem s) t2 j) /\
  (forall t2 g2 idx, L !! t2 = Some g2 -> (length (g2.2) + length idx = 4)%nat -> idx_ok idx ->
     final_slot g2 idx <> (g, i) -> lookup_from (mm_mem s') t2 idx = lookup_from (mm_mem s) t2 idx).
Proof.
  intros Hok Ht Hg Hi Hv s'. destruct (tok_frame _ _ Hok _ _ Ht) as (Hft & _ & Hmt & _).
  assert (forall t2 g2 j, L !! t2 = Some g2 -> 0 <= j < 512 -> ~ (t = t2 /\ i = j) ->
     entry (mm_mem s') t2 j = entry (mm_mem s) t2 j) as Hoth.
  { intros t2 g2 j Ht2 Hj Hne. unfold s'. rewrite mm_mem_set.
    destruct (tok_frame _ _ Hok _ _ Ht2) as (? & _). apply entry_poke_ne; [done..|by apply slot_ne]. }
  split; [apply grown_poke with g; [done..|lia]|]. split; [unfold s'; rewrite mm_mem_set; by apply entry_poke_eq|].
  split; [exact Hoth|]. intros t2 g2 idx Ht2 Hlen Hidx Hne.
  apply (lookup_from_sim s L (mm_mem s') idx t2 g2); [done..| |].
  - intros t3 g3 j e3 Ht3 Hj Hl3 He3. exists e3. split; [|by left].
    rewrite (Hoth t3 g3) by (done || (intros [E _]; subst t3; assert (g3 = g) by congruence; subst; lia)). done.
  - intros t3 Ht3. destruct (decide (t = t3 /\ i = (final_slot g2 idx).2)) as [[<- E]|Hne3].
    + exfalso. apply Hne. rewrite Ht in Ht3. injection Ht3 as ->. subst i. by destruct (final_slot g2 idx).
    + apply (Hoth t3 _ _ Ht3); [|done]. by apply final_slot_range.
Qed.

Lemma user_flag_of flags :
  let uf := if istrue (Z.land flags PTE_USER) then PTE_USER else 0 in
  user_flag_ok uf /\ (Z.testbit flags 2 = true -> uf = PTE_USER).
Proof.
  unfold PTE_USER at 1 3. rewrite land_bit_ne0 by lia. unfold user_flag_ok.
  destruct (Z.testbit flags 2); (split; [by auto|done]).
Qed.

Lemma root_addr_nonzero r : frame_ok r -> phys_to_virt r <> 0.
Proof. intros [Hr _]. rewrite phys_to_virt_eq by done. unfold PHYS_OFFSET. lia. Qed.

(** The three levels and the leaf together. *)
Lemma page_mapped_compose s L s1 L1 s2 L2 s3 L3 r t1 t2 t3 virt phys flags uf :
  L !! r = Some (Some r, []) -> 0 <= phys -> 0 <= flags < 2 ^ 64 ->
  (Z.testbit flags 2 = true -> uf = PTE_USER) ->
  level_mapped s L r (Some r, []) (pgd_index virt) uf s1 L1 t1 ->
  level_mapped s1 L1 t1 (child (Some r, []) (pgd_index virt)) (pud_index virt) uf s2 L2 t2 ->
  level_mapped s2 L2 t2 (child (child (Some r, []) (pgd_index virt)) (pud_index virt)) (pmd_index virt) uf s3 L3 t3 ->
  let s4 := set_mm_mem (poke64 (mm_mem s3) (phys_to_virt t3 + 8 * pte_index virt) (leaf_entry phys flags)) s3 in
  page_mapped s L r virt phys flags
    (mk_mm (mm_frames s4) (cr3_reg s4) (current_pgd s4) (virt :: invlpg_log s4)) L3.
Proof.
  intros Hr Hph Hfl Hu M1 M2 M3 s4. destruct (leaf_entry_facts phys flags Hph Hfl) as (Hvr & Hvp & Hvu & _).
  pose proof (index_range virt 39) as Hi0. pose proof (index_range virt 30) as Hi1.
  pose proof (index_range virt 21) as Hi2. pose proof (index_range virt 12) as Hi3.
  fold (pgd_index virt) in Hi0. fold (pud_index virt) in Hi1. fold (pmd_index virt) in Hi2. fold (pte_index virt) in Hi3.
  destruct M1 as [G1 T1 (e0 & E0 & K0 & F0 & U0) O1 W1 A1 N1], M2 as [G2 T2 (e1 & E1 & K1 & F1 & U1) O2 W2 A2 N2],
    M3 as [G3 T3 (e2 & E2 & K2 & F2 & U2) O3 W3 A3 N3].
  pose proof (grown_lookup _ _ _ _ _ _ G1 Hr) as Hr1. pose proof (grown_lookup _ _ _ _ _ _ G2 Hr1) as Hr2.
  pose proof (grown_lookup _ _ _ _ _ _ G3 Hr2) as Hr3. pose proof (grown_lookup _ _ _ _ _ _ G2 T1) as Ht12.
  pose proof (grown_lookup _ _ _ _ _ _ G3 Ht12) as Ht13. pose proof (grown_lookup _ _ _ _ _ _ G3 T2) as Ht23.
  pose proof (depth_ne _ _ _ _ _ Hr1 T1 ltac:(done)) as Hn01. pose proof (depth_ne _ _ _ _ _ Hr2 T2 ltac:(done)) as Hn02.
  pose proof (depth_ne _ _ _ _ _ Ht12 T2 ltac:(done)) as Hn12. pose proof (depth_ne _ _ _ _ _ Hr3 T3 ltac:(done)) as Hn03.
  pose proof (depth_ne _ _ _ _ _ Ht13 T3 ltac:(done)) as Hn13. pose proof (depth_ne _ _ _ _ _ Ht23 T3 ltac:(done)) as Hn23.
  destruct (leaf_stored s3 L3 t3 _ (pte_index virt) (leaf_entry phys flags) (gr_ok _ _ _ _ G3) T3 eq_refl Hi3 Hvr)
    as (G4 & E3 & O4 & W4). fold s4 in G4, E3, O4, W4.
  rewrite <- (O2 r _ _ Hr1 Hi0), <- (O3 r _ _ Hr2 Hi0), <- (O4 r _ _ Hr3 Hi0) in E0 by (intros [? ?]; congruence).
  rewrite <- (O3 t1 _ _ Ht12 Hi1), <- (O4 t1 _ _ Ht13 Hi1) in E1 by (intros [? ?]; congruence).
  rewrite <- (O4 t2 _ _ Ht23 Hi2) in E2 by (intros [? ?]; congruence).
  constructor.
  - assert (grown s L s4 L3) as [] by (eapply grown_trans, G4; eapply grown_trans, G3; by eapply grown_trans).
    constructor; [done| |done..]. by destruct gr_ok0.
  - cbn [mm_frames s4 set_mm_mem set_mm_frames]. rewrite fa_avail_set. lia.
  - exists t3, e0, e1, e2. split; [|split_and!; try done].
    + change (path_entries (mm_mem s4) r (indices virt) = [e0; e1; e2; leaf_entry phys flags]). unfold indices.
      rewrite (path_entries_step _ _ _ _ e0), F0 by (done || by eapply is_link_present).
      rewrite (path_entries_step _ _ _ _ e1), F1 by (done || by eapply is_link_present).
      rewrite (path_entries_step _ _ _ _ e2), F2 by (done || by eapply is_link_present).
      by rewrite (path_entries_step _ _ _ _ (leaf_entry phys flags)).
    + intros Hb. pose proof (Hu Hb). repeat (apply List.Forall_cons; [by auto|]). apply List.Forall_nil.
  - intros t g idx Ht Hlen Hidx Hne. change (lookup_from (mm_mem s4) t idx = lookup_from (mm_mem s) t idx).
    pose proof (grown_lookup _ _ _ _ _ _ G1 Ht) as Ht1. pose proof (grown_lookup _ _ _ _ _ _ G2 Ht1) as Ht2.
    pose proof (grown_lookup _ _ _ _ _ _ G3 Ht2) as Ht3.
    rewrite (W4 t g), (W3 t g), (W2 t g), (W1 t g) by done. done.
  - cbn [invlpg_log s4 set_mm_mem set_mm_frames]. congruence.
Qed.

Lemma arch_map_page_spec s L r virt phys flags :
  tables_ok s L -> current_pgd s = phys_to_virt r -> L !! r = Some (Some r, []) ->
  not_huge (translate (mm_mem s) r virt) -> 0 <= phys -> 0 <= flags < 2 ^ 64 ->
  safe (fa_avail (mm_frames s) < 3) (arch_map_page virt phys flags) s
    (fun _ s' => exists L', page_mapped s L r virt phys flags s' L').
Proof.
  intros Hok Hpgd Hr Hnh Hph Hfl. destruct (leaf_entry_facts phys flags Hph Hfl) as (Hvr & Hvp & Hvu & _).
  destruct (tok_frame _ _ Hok _ _ Hr) as (Hrf & _). unfold arch_map_page.
  apply safe_bind. eapply safe_done; [done|]. cbn beta. rewrite Hpgd.
  rewrite (proj2 (Z.eqb_neq _ _) (root_addr_nonzero r Hrf)).
  destruct (user_flag_of flags) as [Huf Hu]. set (uf := if istrue _ then PTE_USER else 0) in *.
  pose proof (indices_ok virt) as Hidx. unfold translate, indices in *.
  set (i0 := pgd_index virt) in *. set (i1 := pud_index virt) in *.
  set (i2 := pmd_index virt) in *. set (i3 := pte_index virt) in *.
  pose proof Hidx as [Hi0 [Hi1 [Hi2 [Hi3 _]%Forall_cons]%Forall_cons]%Forall_cons]%Forall_cons.
  set (g0 := (Some r, []) : tag) in *. set (g1 := child g0 i0). set (g2 := child g1 i1). set (g3 := child g2 i2).
  apply safe_bind. eapply safe_mono; [apply (map_level_spec s L r g0 i0 uf)| |]; [done|done|simpl; lia|done|done| |lia|].
  { intros e He Hp. by apply (not_huge_link _ _ g0 _ _ _ _ Hnh). }
  intros a1 s1 (L1 & t1 & -> & M1).
  pose proof (level_not_huge _ _ _ _ _ i1 [i2; i3] _ _ _ _ M1 Hr eq_refl Hidx Hnh) as Hnh1.
  pose proof (lm_avail _ _ _ _ _ _ _ _ _ M1) as Hav1.
  apply safe_bind. eapply safe_mono; [apply (map_level_spec s1 L1 t1 g1 i1 uf)| |];
    [apply M1|apply M1|simpl; lia|done|done| |lia|].
  { intros e He Hp. by apply (not_huge_link _ _ g1 _ _ _ _ Hnh1). }
  intros a2 s2 (L2 & t2 & -> & M2).
  assert (idx_ok [i1; i2; i3]) as Hidx1 by (by apply Forall_cons in Hidx as [_ ?]).
  pose proof (level_not_huge _ _ _ _ _ i2 [i3] _ _ _ _ M2 (lm_tag _ _ _ _ _ _ _ _ _ M1) eq_refl Hidx1 Hnh1) as Hnh2.
  pose proof (lm_avail _ _ _ _ _ _ _ _ _ M2) as Hav2.
  apply safe_bind. eapply safe_mono; [apply (map_level_spec s2 L2 t2 g2 i2 uf)| |];
    [apply M2|apply M2|simpl; lia|done|done| |lia|].
  { intros e He Hp. by apply (not_huge_link _ _ g2 _ _ _ _ Hnh2). }
  intros a3 s3 (L3 & t3 & -> & M3).
  apply safe_bind. destruct (tok_frame _ _ (gr_ok _ _ _ _ (lm_grown _ _ _ _ _ _ _ _ _ M3)) _ _ (lm_tag _ _ _ _ _ _ _ _ _ M3)) as (_ & _ & Hm3 & _).
  apply safe_st64; [by apply slot_mapped|]. eapply safe_done; [done|]. exists L3. cbv beta.
  by eapply page_mapped_compose.
Qed.
End MapPage.

Lemma final_slot_root r a b c d :
  final_slot (Some r, []) [a; b; c; d] = ((if a <? 256 then Some r else None, [a; b; c]), d).
Proof. reflexivity. Qed.

(** Distinct pages, or a user page seen from another root, end in distinct slots. *)
Lemma final_slot_other r va r' va' :
  (va / 4096) mod 2 ^ 36 <> (va' / 4096) mod 2 ^ 36 \/ (r <> r' /\ pgd_index va < 256) ->
  final_slot (Some r', []) (indices va') <> final_slot (Some r, []) (indices va).
Proof.
  intros Hne E. unfold indices in E. rewrite !final_slot_root in E. apply pair_eq in E as [[Ho Hp]%pair_eq H3].
  pose proof (f_equal (fun l => l !! 0%nat) Hp) as H0. pose proof (f_equal (fun l => l !! 1%nat) Hp) as H1.
  pose proof (f_equal (fun l => l !! 2%nat) Hp) as H2. cbn [lookup list_lookup] in H0, H1, H2.
  apply Some_inj in H0, H1, H2. destruct Hne as [Hne|[Hne Hlow]].
  - apply Hne. by apply indices_inj.
  - rewrite H0, (proj2 (Z.ltb_lt _ _) Hlow) in Ho. congruence.
Qed.

Section Walk.
Context {A : Type} `{FrameAllocatorLaws A}.
Implicit Types (s : mm_state A) (L : gmap Z tag).

(** [m'] has the inner entries of [m]. *)
Definition inner_same L (m m' : mem) : Prop :=
  forall t g i, L !! t = Some g -> (length (g.2) < 3)%nat -> 0 <= i < 512 -> entry m' t i = entry m t i.

(** One step of [walk_page_table]: either the entry is absent and so is the
    translation, or the walk goes on from the next table. *)
Lemma walk_level s L t g i i2 rest (k : Z -> M (mm_state A) Z) Q :
  tables_ok s L -> L !! t = Some g -> (length (g.2) + S (S (length rest)) = 4)%nat ->
  0 <= i < 512 -> not_huge (lookup_from (mm_mem s) t (i :: i2 :: rest)) ->
  (lookup_from (mm_mem s) t (i :: i2 :: rest) = None -> Q 0 s) ->
  (forall t', L !! t' = Some (child g i) ->
     (forall m', inner_same L (mm_mem s) m' ->
        lookup_from m' t (i :: i2 :: rest) = lookup_from m' t' (i2 :: rest)) ->
     safe False (k (phys_to_virt t')) s Q) ->
  safe False (let* e := ld64 (phys_to_virt t + 8 * i) in
              if negb (present e) then kret 0 else k (phys_to_virt (Z.land e PTE_ADDR_MASK))) s Q.
Proof.
  intros Hok Ht Hlen Hi Hnh Hnone Hk. destruct (tok_entry _ _ _ _ _ Hok Ht Hi) as (e & He & _).
  apply safe_bind, (safe_ld64 _ _ _ e); [exact He|].
  destruct (present e) eqn:Hp; simpl negb; cbv iota.
  - pose proof (not_huge_link _ _ _ _ _ _ _ Hnh Hlen He Hp) as Hl.
    apply (Hk (frame_of e)); [apply (tok_child _ _ Hok t g); done || lia|].
    intros m' Hin. eapply lookup_from_step; [|done|done]. rewrite (Hin t g) by (done || lia). done.
  - apply Hnone. cbn [lookup_from]. by rewrite He, Hp.
Qed.

(** What [walk_page_table] finds: no entry, or the slot where the walk ends. *)
Definition walk_found s L (r virt a : Z) : Prop :=
  (a = 0 /\ translate (mm_mem s) r virt = None) \/
  (exists t3, L !! t3 = Some (final_slot (Some r, []) (indices virt)).1 /\
     a = phys_to_virt t3 + 8 * pte_index virt /\ a <> 0 /\
     forall m', inner_same L (mm_mem s) m' ->
       translate m' r virt = lookup_from m' t3 [pte_index virt]).

Lemma walk_page_table_found s L r virt :
  tables_ok s L -> current_pgd s = phys_to_virt r -> L !! r = Some (Some r, []) ->
  not_huge (translate (mm_mem s) r virt) ->
  safe False (walk_page_table virt) s (fun a s' => s' = s /\ walk_found s L r virt a).
Proof.
  intros Hok Hpgd Hr Hnh. destruct (tok_frame _ _ Hok _ _ Hr) as (Hrf & _).
  unfold walk_page_table, walk_found. apply safe_bind. eapply safe_done; [done|]. cbn beta. rewrite Hpgd.
  rewrite (proj2 (Z.eqb_neq _ _) (root_addr_nonzero r Hrf)).
  unfold translate, indices in *.
  apply (walk_level s L r (Some r, []) (pgd_index virt) (pud_index virt) [pmd_index virt; pte_index virt]
           (fun pud => let* e := ld64 (pud + 8 * pud_index virt) in
              if negb (present e) then kret 0 else
              let pmd := phys_to_virt (Z.land e PTE_ADDR_MASK) in
              let* e := ld64 (pmd + 8 * pmd_index virt) in
              if negb (present e) then kret 0 else
              kret (phys_to_virt (Z.land e PTE_ADDR_MASK) + 8 * pte_index virt)));
    [done|done|done|apply index_range|done|by auto|].
  intros t1 Ht1 E1. rewrite (E1 (mm_mem s)) in Hnh |- * by done. set (g1 := child _ (pgd_index virt)) in Ht1.
  apply (walk_level s L t1 g1 (pud_index virt) (pmd_index virt) [pte_index virt]
           (fun pmd => let* e := ld64 (pmd + 8 * pmd_index virt) in
              if negb (present e) then kret 0 else
              kret (phys_to_virt (Z.land e PTE_ADDR_MASK) + 8 * pte_index virt)));
    [done|done|done|apply index_range|done|by auto|].
  intros t2 Ht2 E2. rewrite (E2 (mm_mem s)) in Hnh |- * by done. set (g2 := child g1 (pud_index virt)) in Ht2.
  apply (walk_level s L t2 g2 (pmd_index virt) (pte_index virt) []
           (fun pte => kret (pte + 8 * pte_index virt))); [done|done|done|apply index_range|done|by auto|].
  intros t3 Ht3 E3. eapply safe_done; [done|]. split; [done|]. right. exists t3.
  destruct (tok_frame _ _ Hok _ _ Ht3) as ([Hf _] & _). split; [exact Ht3|]. split; [done|]. split.
  - rewrite phys_to_virt_eq by done. pose proof (index_range virt 12). unfold pte_index, PHYS_OFFSET. lia.
  - intros m' Hin. rewrite E1, E2, E3 by done. done.
Qed.

(** The address [a] of an entry represents the translation [tr]. *)
Definition walk_result (m : mem) (tr : option (Z * bool)) (a : Z) : Prop :=
  if decide (a = 0) then tr = None
  else exists e, peek64 m a = Some e /\ tr = if present e then Some (e, false) else None.

Lemma walk_page_table_spec s L r virt :
  tables_ok s L -> current_pgd s = phys_to_virt r -> L !! r = Some (Some r, []) ->
  not_huge (translate (mm_mem s) r virt) ->
  safe False (walk_page_table virt) s
    (fun a s' => s' = s /\ walk_result (mm_mem s) (translate (mm_mem s) r virt) a).
Proof.
  intros Hok Hpgd Hr Hnh. eapply safe_mono; [by apply walk_page_table_found|done|].
  intros a s' (-> & [[-> Hnone]|(t3 & Ht3 & -> & Hne & Htr)]); (split; [done|]); unfold walk_result.
  - by rewrite decide_True.
  - rewrite decide_False by done. destruct (tok_entry _ _ _ _ (pte_index virt) Hok Ht3) as (e & He & _); [apply index_range|].
    exists e. split; [exact He|]. rewrite Htr by done. cbn [lookup_from]. rewrite He. by destruct (present e).
Qed.

(** Writing the entry [walk_page_table] found changes the translation of that
    page only. *)
Lemma leaf_update s L r virt t3 v :
  tables_ok s L -> L !! r = Some (Some r, []) ->
  L !! t3 = Some (final_slot (Some r, []) (indices virt)).1 ->
  (forall m', inner_same L (mm_mem s) m' -> translate m' r virt = lookup_from m' t3 [pte_index virt]) ->
  0 <= v < 2 ^ 64 ->
  let s' := set_mm_mem (poke64 (mm_mem s) (phys_to_virt t3 + 8 * pte_index virt) v) s in
  grown s L s' L /\
  translate (mm_mem s') r virt = (if present v then Some (v, false) else None) /\
  (forall va, (virt / 4096) mod 2 ^ 36 <> (va / 4096) mod 2 ^ 36 ->
     translate (mm_mem s') r va = translate (mm_mem s) r va).
Proof.
  intros Hok Hr Ht3 Htr Hv s'.
  destruct (leaf_stored s L t3 _ (pte_index virt) v Hok Ht3 eq_refl (index_range virt 12) Hv) as (Hg & He & Hoth & Hw).
  split; [done|]. split.
  - rewrite Htr.
    + cbn [lookup_from]. fold s' in He. rewrite He. by destruct (present v).
    + intros t g i Ht Hl Hi. apply (Hoth t g); [done..|]. intros [<- _]. rewrite Ht3 in Ht.
      injection Ht as <-. by simpl in Hl; lia.
  - intros va Hne. apply (Hw r (Some r, [])); [done|done|apply indices_ok|].
    intros E. eapply (final_slot_other r virt r va); [by left|]. rewrite E. done.
Qed.
End Walk.

Lemma path_translate m t g0 i0 i1 i2 i3 e0 e1 e2 e3 :
  path_entries m t [i0; i1; i2; i3] = [e0; e1; e2; e3] -> g0.2 = [] ->
  is_link g0 e0 = true -> is_link (child g0 i0) e1 = true ->
  is_link (child (child g0 i0) i1) e2 = true -> present e3 = true ->
  lookup_from m t [i0; i1; i2; i3] = Some (e3, false).
Proof.
  intros Hp Hg Hl0 Hl1 Hl2 Hp3.
  cbn [path_entries] in Hp. destruct (entry m t i0) as [x0|] eqn:E0; [|done]. injection Hp as -> Hp.
  rewrite (is_link_present _ _ Hl0) in Hp.
  destruct (entry m (frame_of e0) i1) as [x1|] eqn:E1; [|done]. injection Hp as -> Hp.
  rewrite (is_link_present _ _ Hl1) in Hp.
  destruct (entry m (frame_of e1) i2) as [x2|] eqn:E2; [|done]. injection Hp as -> Hp.
  rewrite (is_link_present _ _ Hl2) in Hp.
  destruct (entry m (frame_of e2) i3) as [x3|] eqn:E3; [|done]. injection Hp as -> _.
  rewrite (lookup_from_step _ _ _ _ _ _ _ E0 Hl0) by (by rewrite Hg).
  rewrite (lookup_from_step _ _ _ _ _ _ _ E1 Hl1) by (rewrite length_child, Hg; done).
  rewrite (lookup_from_step _ _ _ _ _ _ _ E2 Hl2) by (rewrite !length_child, Hg; done).
  cbn [lookup_from]. by rewrite E3, Hp3.
Qed.

(** ** Inside a huge page

    The code never looks at [PTE_HUGE].  Where the hardware walk ends in a 2 MB
    page, the code takes the first 4 KB of that page for a page table. *)

(** The walk of [virt] ends at the third level in the entry [e] of a 2 MB page. *)
Definition huge_2m (m : mem) (r virt e : Z) : Prop :=
  exists e0 e1, entry m r (pgd_index virt) = Some e0 /\ present e0 = true /\
    entry m (frame_of e0) (pud_index virt) = Some e1 /\ present e1 = true /\ huge e1 = false /\
    entry m (frame_of e1) (pmd_index virt) = Some e /\ present e = true /\ huge e = true.

Section HugePages.
Context {A : Type} `{FrameAllocatorLaws A}.
Implicit Types (s : mm_state A) (L : gmap Z tag).

(** The first 4 KB of the page are memory and do not hold a table. *)
Definition plain_page s L (e : Z) : Prop :=
  frame_ok (frame_of e) /\ mapped (mm_mem s) (phys_to_virt (frame_of e)) PAGE_SIZE /\ L !! frame_of e = None.

Lemma huge_2m_translate (m : mem) r virt e : huge_2m m r virt e -> translate m r virt = Some (e, true).
Proof.
  intros (e0 & e1 & E0 & P0 & E1 & P1 & H1 & E2 & P2 & H2). unfold translate, indices. cbn [lookup_from].
  rewrite E0, P0. cbn [negb length Nat.leb andb]. by rewrite E1, P1, H1, E2, P2, H2.
Qed.

Lemma map_level_kept s L t g i e :
  tables_ok s L -> L !! t = Some g -> 0 <= i < 512 -> entry (mm_mem s) t i = Some e -> present e = true ->
  map_level (phys_to_virt t + 8 * i) 0 s = Done (phys_to_virt (frame_of e), s).
Proof.
  intros Hok Ht Hi He Hp. unfold entry in He. unfold map_level. destruct (tok_frame _ _ Hok _ _ Ht) as (_ & _ & Hm & _).
  assert (ld64 (phys_to_virt t + 8 * i) s = Done (e, s)) as Hld by (by apply kopt_some).
  erewrite kbind_done by exact Hld. rewrite Hp. cbn [negb].
  assert (set_mm_mem (poke64 (mm_mem s) (phys_to_virt t + 8 * i) e) s = s) as Hsame.
  { rewrite (poken_same 8) by (done || apply fa_wf_mem, (tok_wf _ _ Hok)). unfold set_mm_mem, mm_mem. rewrite fa_set_mem_same. by destruct s. }
  destruct (mapped_read_list _ _ 8 (slot_mapped _ _ i Hm Hi)) as [l Hl].
  erewrite kbind_done.
  2: { erewrite kbind_done by exact Hld. rewrite Z.lor_0_r. apply kupd_some. rewrite Hl, Hsame. reflexivity. }
  by erewrite kbind_done by exact Hld.
Qed.

Lemma huge_2m_tables s L r virt e :
  tables_ok s L -> L !! r = Some (Some r, []) -> huge_2m (mm_mem s) r virt e ->
  exists e0 e1 g1 g2, entry (mm_mem s) r (pgd_index virt) = Some e0 /\ present e0 = true /\ L !! frame_of e0 = Some g1 /\
    entry (mm_mem s) (frame_of e0) (pud_index virt) = Some e1 /\ present e1 = true /\ L !! frame_of e1 = Some g2 /\
    entry (mm_mem s) (frame_of e1) (pmd_index virt) = Some e /\ present e = true.
Proof.
  intros Hok Hr (e0 & e1 & E0 & P0 & E1 & P1 & H1 & E2 & P2 & H2).
  assert (L !! frame_of e0 = Some (child (Some r, []) (pgd_index virt))) as L1.
  { apply (tok_child _ _ Hok r); [done|simpl; lia|apply index_range|done|]. unfold is_link. by rewrite P0. }
  assert (L !! frame_of e1 = Some (child (child (Some r, []) (pgd_index virt)) (pud_index virt))) as L2.
  { apply (tok_child _ _ Hok (frame_of e0)); [done|rewrite length_child; simpl; lia|apply index_range|done|]. unfold is_link. by rewrite P1, H1, andb_false_r. }
  eexists e0, e1, _, _. by split_and!.
Qed.

(** [walk_page_table] returns an address inside the 2 MB page. *)
Lemma walk_page_table_huge s L r virt e :
  tables_ok s L -> current_pgd s = phys_to_virt r -> L !! r = Some (Some r, []) -> huge_2m (mm_mem s) r virt e ->
  walk_page_table virt s = Done (phys_to_virt (frame_of e) + 8 * pte_index virt, s).
Proof.
  intros Hok Hpgd Hr Hh. destruct (huge_2m_tables s L r virt e Hok Hr Hh) as (e0 & e1 & g1 & g2 & E0 & P0 & _ & E1 & P1 & _ & E2 & P2).
  destruct (tok_frame _ _ Hok _ _ Hr) as (Hrf & _). unfold walk_page_table. erewrite kbind_done by done.
  rewrite Hpgd, (proj2 (Z.eqb_neq _ _) (root_addr_nonzero r Hrf)).
  erewrite kbind_done by (apply kopt_some; exact E0). rewrite P0. cbn [negb].
  erewrite kbind_done by (apply kopt_some; exact E1). rewrite P1. cbn [negb].
  erewrite kbind_done by (apply kopt_some; exact E2). by rewrite P2.
Qed.

(** [arch_map_page] of a kernel page stores its entry inside the 2 MB page. *)
Lemma arch_map_page_huge s L r virt phys flags e :
  tables_ok s L -> current_pgd s = phys_to_virt r -> L !! r = Some (Some r, []) -> huge_2m (mm_mem s) r virt e -> plain_page s L e ->
  Z.testbit flags 2 = false ->
  exists s', arch_map_page virt phys flags s = Done (tt, s') /\ invlpg_log s' = virt :: invlpg_log s /\
    mm_mem s' = poke64 (mm_mem s) (phys_to_virt (frame_of e) + 8 * pte_index virt) (leaf_entry phys flags) /\
    forall r' va, L !! r' = Some (Some r', []) -> translate (mm_mem s') r' va = translate (mm_mem s) r' va.
Proof.
  intros Hok Hpgd Hr Hh (Hf & Hm & Hno) Hu. destruct (huge_2m_tables s L r virt e Hok Hr Hh) as (e0 & e1 & g1 & g2 & E0 & P0 & L1 & E1 & P1 & L2 & E2 & P2).
  destruct (tok_frame _ _ Hok _ _ Hr) as (Hrf & _). pose proof (index_range virt 12 : 0 <= pte_index virt < 512) as Hi3.
  destruct (mapped_read_list _ _ 8 (slot_mapped _ _ _ Hm Hi3)) as [l Hl].
  eexists. split; [|split; [|split]].
  - unfold arch_map_page. erewrite kbind_done by done. rewrite Hpgd, (proj2 (Z.eqb_neq _ _) (root_addr_nonzero r Hrf)).
    assert (istrue (Z.land flags PTE_USER) = false) as -> by (change PTE_USER with (bit 2); by rewrite land_bit_ne0).
    erewrite kbind_done by (eapply map_level_kept; [exact Hok|exact Hr|apply index_range|exact E0|exact P0]).
    erewrite kbind_done by (eapply map_level_kept; [exact Hok|exact L1|apply index_range|exact E1|exact P1]).
    erewrite kbind_done by (eapply map_level_kept; [exact Hok|exact L2|apply index_range|exact E2|exact P2]).
    erewrite kbind_done by (apply kupd_some; rewrite Hl; reflexivity). reflexivity.
  - done.
  - apply fa_mem_set.
  - intros r' va Hr'. unfold mm_mem at 1. cbn [mm_frames set_mm_mem set_mm_frames]. rewrite fa_mem_set.
    assert (forall t g j, L !! t = Some g -> 0 <= j < 512 ->
      entry (poke64 (mm_mem s) (phys_to_virt (frame_of e) + 8 * pte_index virt) (leaf_entry phys flags)) t j = entry (mm_mem s) t j) as Hkeep.
    { intros t g j Ht Hj. destruct (tok_frame _ _ Hok _ _ Ht) as (Hft & _). apply entry_poke_ne; [done..|]. left. intros <-. congruence. }
    apply (lookup_from_sim s L _ _ r' (Some r', [])); [done..|apply indices_ok| |].
    + intros t g j x Ht Hj _ Hx. exists x. split; [by rewrite (Hkeep t g)|by left].
    + intros t Ht. apply (Hkeep t _ _ Ht). apply final_slot_range, indices_ok.
Qed.
End HugePages.

(** ** Properties of mapping and walking *)

Section Properties.
Context {A : Type} `{FrameAllocatorLaws A}.
Implicit Types (s : mm_state A) (L : gmap Z tag).

(** C1: [arch_map_page] maps a page that does not lie inside a huge page: unless
    fewer than three frames are left, it returns, the hardware walk of the page
    ends in the entry built from the frame and the flags, [walk_page_table] finds
    that entry, the entry is flushed from the TLB, the tables are well formed
    again, and a user mapping has the user bit at all four levels.  Inside a 2 MB
    page of the boot tables it does not map the page: it returns, and the hardware
    walk still ends in the 2 MB page (kernel mappings; the first 4 KB of the 2 MB
    page do not themselves hold a table). *)
Theorem arch_map_page_maps s L r virt phys flags :
  tables_ok s L -> current_pgd s = phys_to_virt r -> L !! r = Some (Some r, []) -> 0 <= phys -> 0 <= flags < 2 ^ 64 ->
  (not_huge (translate (mm_mem s) r virt) ->
  safe (fa_avail (mm_frames s) < 3) (arch_map_page virt phys flags) s (fun _ s' =>
    (exists L', tables_ok s' L' /\ L ⊆ L') /\
    translate (mm_mem s') r virt = Some (leaf_entry phys flags, false) /\
    (exists a, walk_page_table virt s' = Done (a, s') /\ a <> 0 /\
       peek64 (mm_mem s') a = Some (leaf_entry phys flags)) /\
    (Z.testbit flags 2 = true ->
       length (path_entries (mm_mem s') r (indices virt)) = 4%nat /\
       Forall (fun e => Z.testbit e 2 = true) (path_entries (mm_mem s') r (indices virt))) /\
    invlpg_log s' = virt :: invlpg_log s)) /\
  (forall e, huge_2m (mm_mem s) r virt e -> plain_page s L e -> Z.testbit flags 2 = false ->
   exists s', arch_map_page virt phys flags s = Done (tt, s') /\ translate (mm_mem s') r virt = Some (e, true)).
Proof.
  intros Hok Hpgd Hr Hph Hfl. split.
  2: { intros e Hh Hpl Hu. destruct (arch_map_page_huge s L r virt phys flags e Hok Hpgd Hr Hh Hpl Hu) as (s' & E & _ & _ & Htr).
       exists s'. split; [done|]. rewrite Htr by done. by apply huge_2m_translate. }
  intros Hnh. destruct (leaf_entry_facts phys flags Hph Hfl) as (_ & Hvp & _).
  eapply safe_mono; [by apply arch_map_page_spec|done|].
  intros _ s' (L' & [Hg _ (t3 & e0 & e1 & e2 & Hpath & K0 & K1 & K2 & Ht3 & He3 & Hus) _ Hlog]).
  assert (translate (mm_mem s') r virt = Some (leaf_entry phys flags, false)) as Htr
    by (eapply (path_translate _ _ (Some r, [])); [exact Hpath|done|exact K0|exact K1|exact K2|done]).
  split; [exists L'; split; apply Hg|]. split; [done|].
  split; [|split; [intros Hb; rewrite Hpath; by auto|done]].
  pose proof (gr_ok _ _ _ _ Hg) as Hok'.
  destruct (safe_inv _ _ _ (walk_page_table_spec s' L' r virt Hok'
    (eq_trans (proj2 (gr_regs _ _ _ _ Hg)) Hpgd) (grown_lookup _ _ _ _ _ _ Hg Hr) ltac:(rewrite Htr; by intros ? [=])))
    as (a & s2 & Hw & -> & Hres).
  exists a. split; [done|]. unfold walk_result in Hres. rewrite Htr in Hres.
  destruct (decide (a = 0)); [done|]. destruct Hres as (e & He & Heq). split; [done|].
  destruct (present e); [|done]. injection Heq as ->. done.
Qed.

(** C2: [arch_map_page] of a page that does not lie inside a huge page disturbs
    nothing else: every other page keeps its translation in every address space,
    the same user page keeps it in every other address space, and memory outside
    the page tables keeps its contents; frames that become tables were free.
    Inside a 2 MB page of the boot tables every translation is kept too, but eight
    bytes of the memory of that page, at the index of [virt] in a page table, are
    overwritten with the new entry; no other byte changes (kernel mappings; the
    first 4 KB of the 2 MB page do not themselves hold a table). *)
Theorem arch_map_page_isolated s L r virt phys flags :
  tables_ok s L -> current_pgd s = phys_to_virt r -> L !! r = Some (Some r, []) -> 0 <= phys -> 0 <= flags < 2 ^ 64 ->
  (not_huge (translate (mm_mem s) r virt) ->
  safe (fa_avail (mm_frames s) < 3) (arch_map_page virt phys flags) s (fun _ s' =>
    (forall r' va, L !! r' = Some (Some r', []) ->
       (virt / 4096) mod 2 ^ 36 <> (va / 4096) mod 2 ^ 36 \/ (r <> r' /\ pgd_index virt < 256) ->
       translate (mm_mem s') r' va = translate (mm_mem s) r' va) /\
    exists L', tables_ok s' L' /\ L ⊆ L' /\
      (forall t, is_Some (L' !! t) -> L !! t = None -> ~ fa_used (mm_frames s) t) /\
      (forall a, (forall t, is_Some (L' !! t) -> ~ page_addr t a) -> mm_mem s' !! a = mm_mem s !! a))) /\
  (forall e, huge_2m (mm_mem s) r virt e -> plain_page s L e -> Z.testbit flags 2 = false ->
   exists s', arch_map_page virt phys flags s = Done (tt, s') /\
     (forall r' va, L !! r' = Some (Some r', []) -> translate (mm_mem s') r' va = translate (mm_mem s) r' va) /\
     mm_mem s' = poke64 (mm_mem s) (phys_to_virt (frame_of e) + 8 * pte_index virt) (leaf_entry phys flags)).
Proof.
  intros Hok Hpgd Hr Hph Hfl. split.
  2: { intros e Hh Hpl Hu. destruct (arch_map_page_huge s L r virt phys flags e Hok Hpgd Hr Hh Hpl Hu) as (s' & E & _ & Hm & Htr). by exists s'. }
  intros Hnh. eapply safe_mono; [by apply arch_map_page_spec|done|].
  intros _ s' (L' & [Hg _ _ Hw _]). split.
  - intros r' va Hr' Hne. apply (Hw r' (Some r', [])); [done|done|apply indices_ok|].
    by apply final_slot_other.
  - exists L'. destruct Hg. done.
Qed.

(** C26: [walk_page_table] agrees with the hardware walk outside huge pages: it
    returns, changes nothing, and gives a null pointer only for pages the MMU does
    not translate, else the address of the entry whose present bit decides the
    translation.  Inside a 2 MB page the hardware walk ends at the third level, and
    [walk_page_table] returns an address inside the memory of that page instead of
    an entry. *)
Theorem walk_page_table_mmu s L r virt :
  tables_ok s L -> current_pgd s = phys_to_virt r -> L !! r = Some (Some r, []) ->
  (not_huge (translate (mm_mem s) r virt) ->
   exists a, walk_page_table virt s = Done (a, s) /\
    if decide (a = 0) then translate (mm_mem s) r virt = None
    else exists e, peek64 (mm_mem s) a = Some e /\
      translate (mm_mem s) r virt = if present e then Some (e, false) else None) /\
  (forall e, huge_2m (mm_mem s) r virt e -> translate (mm_mem s) r virt = Some (e, true) /\
     walk_page_table virt s = Done (phys_to_virt (frame_of e) + 8 * pte_index virt, s)).
Proof.
  intros Hok Hpgd Hr. split.
  - intros Hnh. destruct (safe_inv _ _ _ (walk_page_table_spec s L r virt Hok Hpgd Hr Hnh)) as (a & s' & Hw & -> & Hres).
    by exists a.
  - intros e Hh. split; [by apply huge_2m_translate|by apply (walk_page_table_huge s L r)].
Qed.
End Properties.
