(* ===== verification/AddrSpace.v ===== *)
(** * Address spaces: [create_new_address_space] and [clone_address_space]

    The two routines of [arch/mm/init.c] that build a new top-level table, shown
    to give the new process the kernel's mappings, and, for the clone, a private
    copy of every user page. *)

From S2P Require Import Prelude Memory StringLib PgTable FrameAlloc Paging.

(** ** Specification *)

(** [new] (of height [k]: 0 is a page, 1 a page table, ...) in memory [m'] is a
    copy of [old] in memory [m]: same flags everywhere, huge pages shared,
    every table and page below [new] in a frame that satisfies [F]. *)
Fixpoint copied (k : nat) (m : mem) (old : Z) (m' : mem) (new : Z) (F : Z -> Prop) : Prop :=
  match k with
  | O => forall a, 0 <= a < PAGE_SIZE -> m' !! (phys_to_virt new + a) = m !! (phys_to_virt old + a)
  | S k' => forall i, 0 <= i < 512 -> exists e e', entry m old i = Some e /\ entry m' new i = Some e' /\
      if negb (present e) then e' = 0
      else if (k' =? 1)%nat && huge e then e' = e
      else Z.land e' PTE_FLAGS_MASK = Z.land e PTE_FLAGS_MASK /\ frame_ok (frame_of e') /\ F (frame_of e') /\
           copied k' m (frame_of e) m' (frame_of e') F
  end.

(** One slot of a copied table. *)
Definition slot_copied (k : nat) (m : mem) (old : Z) (m' : mem) (new : Z) (F : Z -> Prop) (i : Z) : Prop :=
  exists e e', entry m old i = Some e /\ entry m' new i = Some e' /\
    if negb (present e) then e' = 0
    else if (k =? 1)%nat && huge e then e' = e
    else Z.land e' PTE_FLAGS_MASK = Z.land e PTE_FLAGS_MASK /\ frame_ok (frame_of e') /\ F (frame_of e') /\
         copied k m (frame_of e) m' (frame_of e') F.

(** The number of frames a copy of height [k] takes, not counting its root. *)
Definition sumZ (f : Z -> Z) (l : list Z) : Z := foldr (fun i acc => f i + acc) 0 l.
Fixpoint copy_cost (k : nat) (m : mem) (t : Z) : Z :=
  match k with
  | O => 0
  | S k' => sumZ (fun i =>
      match entry m t i with
      | Some e => if negb (present e) then 0 else if (k' =? 1)%nat && huge e then 0
                  else 1 + copy_cost k' m (frame_of e)
      | None => 0
      end) (seqZ 0 512)
  end.
Definition slot_cost (k : nat) (m : mem) (t i : Z) : Z :=
  match entry m t i with
  | Some e => if negb (present e) then 0 else if (k =? 1)%nat && huge e then 0
              else 1 + copy_cost k m (frame_of e)
  | None => 0
  end.

Lemma sumZ_snoc f n a : sumZ f (seqZ a (Z.of_nat n + 1)) = sumZ f (seqZ a (Z.of_nat n)) + f (a + Z.of_nat n).
Proof.
  revert a. induction n as [|n IH]; intros a; [|].
  { replace (a + Z.of_nat 0) with a by lia. rewrite (seqZ_cons a), !seqZ_nil by lia. simpl. lia. }
  rewrite (seqZ_cons a (S n + 1)), (seqZ_cons a (S n)) by lia. simpl.
  replace (Z.pred (Z.of_nat (S n) + 1)) with (Z.of_nat n + 1) by lia.
  replace (Z.pred (Z.of_nat (S n))) with (Z.of_nat n) by lia.
  rewrite IH. replace (Z.succ a + Z.of_nat n) with (a + Z.of_nat (S n)) by lia. lia.
Qed.

Lemma sumZ_nonneg f l : (forall i, i ∈ l -> 0 <= f i) -> 0 <= sumZ f l.
Proof.
  induction l as [|x l IH]; intros Hf; simpl; [lia|].
  assert (0 <= f x) by (apply Hf; set_solver). assert (0 <= sumZ f l) by (apply IH; set_solver). lia.
Qed.

Lemma sumZ_ext f g l : (forall i, i ∈ l -> f i = g i) -> sumZ f l = sumZ g l.
Proof.
  induction l as [|x l IH]; intros Hf; simpl; [done|].
  rewrite (Hf x) by set_solver. rewrite IH by set_solver. done.
Qed.

Lemma copy_cost_S k m t : copy_cost (S k) m t = sumZ (slot_cost k m t) (seqZ 0 512).
Proof. reflexivity. Qed.

Lemma slot_cost_nonneg k m t i : 0 <= slot_cost k m t i.
Proof.
  revert t i. induction k as [|k IH]; intros t i; unfold slot_cost;
    destruct (entry m t i) as [e|]; try lia; destruct (negb (present e)); try lia;
    destruct (_ && _); try lia; [simpl; lia|].
  rewrite copy_cost_S. pose proof (sumZ_nonneg (slot_cost k m (frame_of e)) (seqZ 0 512) ltac:(auto)). lia.
Qed.

Lemma sumZ_prefix k m t n i :
  0 <= i <= n -> sumZ (slot_cost k m t) (seqZ 0 i) <= sumZ (slot_cost k m t) (seqZ 0 n).
Proof.
  intros Hi. replace n with (i + Z.of_nat (Z.to_nat (n - i))) by lia.
  generalize (Z.to_nat (n - i)) as d. induction d as [|d IH]; [rewrite Z.add_0_r; lia|].
  replace (i + Z.of_nat (S d)) with (Z.of_nat (Z.to_nat (i + d)) + 1) by lia. rewrite sumZ_snoc.
  replace (Z.of_nat (Z.to_nat (i + d))) with (i + Z.of_nat d) by lia.
  pose proof (slot_cost_nonneg k m t (0 + (i + Z.of_nat d))). lia.
Qed.

(** A copied entry: a new frame with the flags of the old entry. *)
Lemma copied_entry_facts p e :
  frame_ok p -> 0 <= e < 2 ^ 64 ->
  let e' := Z.lor p (Z.land e PTE_FLAGS_MASK) in
  frame_of e' = p /\ Z.land e' PTE_FLAGS_MASK = Z.land e PTE_FLAGS_MASK /\
  present e' = present e /\ huge e' = huge e /\ 0 <= e' < 2 ^ 64.
Proof.
  intros Hp He e'. pose proof Hp as [Hr Ha].
  assert (forall i, 0 <= i < 12 -> Z.testbit e' i = Z.testbit e i) as Hlow.
  { intros i Hi. unfold e'. rewrite Z.lor_spec, Z.land_spec, frame_low_bits, testbit_flags_mask by (done || lia).
    rewrite bool_decide_true by lia. apply andb_true_r. }
  assert (Z.land p PTE_FLAGS_MASK = 0) as Hpf.
  { apply Z.bits_inj'. intros i Hi. rewrite Z.land_spec, testbit_flags_mask, Z.bits_0 by lia.
    destruct (decide (i < 12)); [by rewrite frame_low_bits by (done || lia)|].
    destruct (decide (i < 47)); [rewrite bool_decide_false by lia; apply andb_false_r|].
    by rewrite (testbit_range_high p 47) by lia. }
  split; [|split; [|split; [|split]]].
  - apply entry_frame; [done|]. rewrite <- Z.land_assoc. change (Z.land PTE_FLAGS_MASK PTE_ADDR_MASK) with 0.
    apply Z.land_0_r.
  - unfold e'. rewrite Z.land_lor_distr_l, Hpf, <- Z.land_assoc, Z.land_diag. apply Z.lor_0_l.
  - rewrite !present_bit. apply Hlow. lia.
  - rewrite !huge_bit. apply Hlow. lia.
  - apply lor_bound; [lia..|]. by apply land_bound.
Qed.

(** ** The user half of an address space *)

Section Clone.
Context {A : Type} `{FrameAllocatorLaws A}.
Implicit Types (s : mm_state A) (L : gmap Z tag).

(** Every page a user table of root [r] maps is a frame in use, backed by RAM and
    not itself a table; second-level entries are not huge (the code copies huge
    pages at the third level only). *)
Definition leaves_ok s L (r : Z) : Prop :=
  forall t p i e, L !! t = Some (Some r, p) -> 0 <= i < 512 -> entry (mm_mem s) t i = Some e ->
    present e = true ->
    (length p = 1%nat -> huge e = false) /\
    (length p = 3%nat -> frame_ok (frame_of e) /\ fa_used (mm_frames s) (frame_of e) /\
       mapped (mm_mem s) (phys_to_virt (frame_of e)) PAGE_SIZE /\ L !! frame_of e = None).

(** What copying into the table [tnew] of root [n] may do. *)
Record cloned s L s' L' (n tnew : Z) : Prop := {
  cl_ok : tables_ok s' L';
  cl_sub : L ⊆ L';
  cl_new t g : L' !! t = Some g -> L !! t = None -> ~ fa_used (mm_frames s) t /\ g.1 = Some n;
  cl_used q : fa_used (mm_frames s) q -> fa_used (mm_frames s') q;
  cl_mem a : ~ page_addr tnew a ->
    (forall q, frame_ok q -> ~ fa_used (mm_frames s) q -> ~ page_addr q a) -> mm_mem s' !! a = mm_mem s !! a;
  cl_mapped a k : mapped (mm_mem s) a k -> mapped (mm_mem s') a k;
  cl_regs : cr3_reg s' = cr3_reg s /\ current_pgd s' = current_pgd s /\ invlpg_log s' = invlpg_log s
}.

(** The frames taken between two states. *)
Definition taken s s' (q : Z) : Prop := ~ fa_used (mm_frames s) q /\ fa_used (mm_frames s') q.

Lemma cloned_refl s L n tnew : tables_ok s L -> cloned s L s L n tnew.
Proof. intros Hok. constructor; try done. intros t g Ht Hn. congruence. Qed.

Lemma cloned_trans s L s1 L1 s2 L2 n tnew tnew2 :
  cloned s L s1 L1 n tnew -> cloned s1 L1 s2 L2 n tnew2 ->
  (tnew2 = tnew \/ (frame_ok tnew2 /\ ~ fa_used (mm_frames s) tnew2)) -> cloned s L s2 L2 n tnew.
Proof.
  intros [O1 S1 N1 U1 M1 P1 (R1 & R1' & R1'')] [O2 S2 N2 U2 M2 P2 (R2 & R2' & R2'')] Ht. constructor.
  - done.
  - by trans L1.
  - intros t g Hg HL. destruct (L1 !! t) as [g1|] eqn:E.
    + assert (g1 = g) as -> by (pose proof (lookup_weaken _ _ _ _ E S2); congruence). by apply N1.
    + destruct (N2 _ _ Hg E) as [Hu Hn]. split; [|done]. intros Hu'. by apply Hu, U1.
  - auto.
  - intros a Ha Hq. rewrite M2; [by apply M1| |].
    + destruct Ht as [-> |[Hf Hu]]; [done|by apply Hq].
    + intros q Hf Hu. apply Hq; [done|]. intros Hu'. by apply Hu, U1.
  - auto.
  - split_and!; congruence.
Qed.

Lemma cl_page s L s' L' n tnew t a :
  cloned s L s' L' n tnew -> frame_ok t -> frame_ok tnew -> fa_used (mm_frames s) t -> t <> tnew ->
  page_addr t a -> mm_mem s' !! a = mm_mem s !! a.
Proof.
  intros Hcl Hf Hfn Hu Hne Ha. apply (cl_mem _ _ _ _ _ _ Hcl).
  - by apply (page_apart t).
  - intros q Hq Hnu. apply (page_apart t); [done..| |done]. congruence.
Qed.

Lemma entry_page_eq m m' t i :
  0 <= i < 512 -> (forall a, page_addr t a -> m' !! a = m !! a) -> entry m' t i = entry m t i.
Proof. intros Hi Heq. apply peekn_eq. intros x Hx. apply Heq. by apply (slot_page t i). Qed.

Lemma cl_entry s L s' L' n tnew t i :
  cloned s L s' L' n tnew -> frame_ok t -> frame_ok tnew -> fa_used (mm_frames s) t -> t <> tnew ->
  0 <= i < 512 -> entry (mm_mem s') t i = entry (mm_mem s) t i.
Proof.
  intros. apply entry_page_eq; [done|]. intros a Ha. by apply (cl_page s L s' L' n tnew t).
Qed.

(** The tables of another root are not the table being filled. *)
Lemma other_owner L r n t p tnew q :
  L !! t = Some (Some r, p) -> L !! tnew = Some (Some n, q) -> r <> n -> t <> tnew.
Proof. intros Ht Hn Hne ->. congruence. Qed.

Lemma cloned_leaves_away s L s' L' n tnew r :
  cloned s L s' L' n tnew -> tables_ok s L -> frame_ok tnew ->
  (forall t p, L !! t = Some (Some r, p) -> t <> tnew) -> r <> n ->
  leaves_ok s L r -> leaves_ok s' L' r.
Proof.
  intros Hcl Hok Hfn Haway Hne Hlv t p i e Ht Hi He Hp.
  destruct (L !! t) as [g|] eqn:E; [|destruct (cl_new _ _ _ _ _ _ Hcl _ _ Ht E) as [_ Ho]; simpl in Ho; congruence].
  assert (g = (Some r, p)) as -> by (pose proof (lookup_weaken _ _ _ _ E (cl_sub _ _ _ _ _ _ Hcl)); congruence).
  destruct (tok_frame _ _ Hok _ _ E) as (Hf & Hu & _).
  rewrite (cl_entry _ _ _ _ _ _ t i Hcl) in He by (done || by eapply Haway).
  destruct (Hlv t p i e E Hi He Hp) as [H1 H3]. split; [done|]. intros Hl.
  destruct (H3 Hl) as (Hfe & Hue & Hme & HLe). split_and!; [done| |by apply (cl_mapped _ _ _ _ _ _ Hcl)|].
  - by apply (cl_used _ _ _ _ _ _ Hcl).
  - destruct (L' !! frame_of e) as [g'|] eqn:E'; [|done].
    by destruct (cl_new _ _ _ _ _ _ Hcl _ _ E' HLe).
Qed.

Lemma cloned_leaves s L s' L' n tnew q r :
  cloned s L s' L' n tnew -> tables_ok s L -> L !! tnew = Some (Some n, q) -> r <> n ->
  leaves_ok s L r -> leaves_ok s' L' r.
Proof.
  intros Hcl Hok Hn Hne. destruct (tok_frame _ _ Hok _ _ Hn) as (Hfn & _).
  apply (cloned_leaves_away s L s' L' n tnew r Hcl Hok Hfn); [|done].
  intros t p Ht. by eapply other_owner.
Qed.

(** Later writes outside the copy keep it. *)
Lemma copied_frame_new k m told m1 m2 tnew F (F' : Z -> Prop) :
  (forall a, page_addr tnew a -> m2 !! a = m1 !! a) ->
  (forall q a, frame_ok q -> F q -> page_addr q a -> m2 !! a = m1 !! a) ->
  (forall q, F q -> F' q) ->
  copied k m told m1 tnew F -> copied k m told m2 tnew F'.
Proof.
  intros Hpage HF Hsub. revert told tnew Hpage. induction k as [|k IH]; intros told tnew Hpage Hc; simpl in *.
  - intros a Ha. rewrite Hpage by (unfold page_addr; lia). by apply Hc.
  - intros i Hi. destruct (Hc i Hi) as (e & e' & He & He' & Hbr). exists e, e'.
    rewrite (entry_page_eq m1 m2 tnew i) by done. split; [done|]. split; [done|].
    destruct (negb (present e)); [done|]. destruct (_ && _); [done|].
    destruct Hbr as (Hfl & Hfr & HFe & Hc'). split_and!; [done..|by auto|].
    apply IH; [|done]. intros a. by apply HF.
Qed.

(** [told] is a user page (height 0) or a user table of root [r]. *)
Definition user_node s L (r : Z) (k : nat) (told : Z) (p : list Z) : Prop :=
  match k with
  | O => frame_ok told /\ fa_used (mm_frames s) told /\
         mapped (mm_mem s) (phys_to_virt told) PAGE_SIZE /\ L !! told = None
  | S _ => L !! told = Some (Some r, p) /\ (length p + k = 4)%nat
  end.

(** A present entry of a user table below the root leads to a user node. *)
Lemma user_node_child s L r k told p i e :
  tables_ok s L -> leaves_ok s L r -> L !! told = Some (Some r, p) -> (length p + S k = 4)%nat ->
  p <> [] \/ i < 256 -> 0 <= i < 512 -> entry (mm_mem s) told i = Some e -> present e = true ->
  (k =? 1)%nat && huge e = false -> user_node s L r k (frame_of e) (p ++ [i]).
Proof.
  intros Hok Hlv Ht Hlen Hp Hi He Hpr Hh. destruct (Hlv _ _ _ _ Ht Hi He Hpr) as [H1 H3].
  destruct k as [|k]; [apply H3; lia|]. split; [|rewrite length_app; simpl; lia].
  rewrite (tok_child _ _ Hok _ _ _ _ Ht ltac:(simpl; lia) Hi He).
  - unfold child. simpl. destruct p; [|done]. destruct Hp as [?|Hp]; [done|]. by rewrite (proj2 (Z.ltb_lt _ _) Hp).
  - unfold is_link. rewrite Hpr. simpl. destruct p as [|x p]; [done|].
    destruct k as [|[|k]]; simpl in *; [by rewrite Hh| |lia]. by rewrite H1 by lia.
Qed.

Definition agree_old s L (r : Z) (m1 : mem) : Prop :=
  (forall t g a, L !! t = Some (Some r, g) -> page_addr t a -> m1 !! a = mm_mem s !! a) /\
  (forall q a, frame_ok q -> fa_used (mm_frames s) q -> L !! q = None -> page_addr q a ->
     m1 !! a = mm_mem s !! a).

(** The copy does not depend on which memory the unchanged original is read from. *)
Lemma copied_frame_old k s L r told p m1 m' tnew F :
  tables_ok s L -> leaves_ok s L r -> agree_old s L r m1 -> p <> [] -> user_node s L r k told p ->
  (copied k m1 told m' tnew F -> copied k (mm_mem s) told m' tnew F) /\
  copy_cost k m1 told = copy_cost k (mm_mem s) told.
Proof.
  intros Hok Hlv [Ht Hq]. revert told p tnew. induction k as [|k IH]; intros told p tnew Hp Hn; cbn [copied].
  - split; [|done]. intros Hc a Ha. rewrite Hc by done. destruct Hn as (? & ? & _ & ?).
    apply (Hq told); [done..|]. unfold page_addr. lia.
  - destruct Hn as [HL Hlen]. assert (forall i, 0 <= i < 512 -> entry m1 told i = entry (mm_mem s) told i) as He.
    { intros i Hi. apply entry_page_eq; [done|]. intros a. by eapply Ht. }
    assert (forall i e tn, 0 <= i < 512 -> entry (mm_mem s) told i = Some e -> present e = true ->
      (k =? 1)%nat && huge e = false ->
      (copied k m1 (frame_of e) m' tn F -> copied k (mm_mem s) (frame_of e) m' tn F) /\
      copy_cost k m1 (frame_of e) = copy_cost k (mm_mem s) (frame_of e)) as Hch.
    { intros i e tn Hi Hie Hpr Hh. apply (IH _ (p ++ [i])); [by destruct p|].
      apply (user_node_child s L r k told p i e); [done|done|done|lia|by left|done|done|done|done]. }
    split.
    + intros Hc i Hi. destruct (Hc i Hi) as (e & e' & E & E' & Hbr). rewrite He in E by done.
      exists e, e'. split; [done|]. split; [done|].
      destruct (present e) eqn:Hpr; [|done]. simpl in *. destruct (_ && _) eqn:Hh; [done|].
      destruct Hbr as (? & ? & ? & ?). split_and!; [done..|]. by apply (Hch i).
    + rewrite !copy_cost_S. apply sumZ_ext. intros i Hi%elem_of_seqZ. unfold slot_cost. rewrite He by lia.
      destruct (tok_entry _ _ _ _ i Hok HL) as (e & Ee & _); [lia|]. rewrite Ee.
      destruct (present e) eqn:Hpr; [|done]. simpl. destruct (_ && _) eqn:Hh; [done|].
      f_equal. apply (Hch i e 0); [lia|done..].
Qed.
End Clone.

(** ** The primitive steps of a copy *)

Section CloneSteps.
Context {A : Type} `{FrameAllocatorLaws A}.
Implicit Types (s : mm_state A) (L : gmap Z tag).

Lemma cloned_poke s L n tnew g i v :
  tables_ok s L -> L !! tnew = Some g -> 0 <= i < 512 -> 0 <= v < 2 ^ 64 ->
  ((length (g.2) < 3)%nat -> is_link g v = true -> L !! frame_of v = Some (child g i)) ->
  cloned s L (set_mm_mem (poke64 (mm_mem s) (phys_to_virt tnew + 8 * i) v) s) L n tnew.
Proof.
  intros Hok Ht Hi Hv Hl. constructor.
  - by eapply tables_ok_poke.
  - done.
  - intros t g' Hg Hn. congruence.
  - intros q. apply fa_used_set.
  - intros a Ha _. rewrite mm_mem_set. apply lookup_poken_out.
    unfold page_addr in Ha. rewrite PAGE_SIZE_eq in Ha. lia.
  - intros a k. rewrite mm_mem_set. apply poken_mapped.
  - done.
Qed.

Lemma cloned_alloc s L n tnew p s' g :
  tables_ok s L -> fresh s p s' -> (length (g.2) <= 3)%nat -> (g.2 = [] -> g.1 = Some p) -> g.1 = Some n ->
  cloned s L s' (<[p := g]> L) n tnew.
Proof.
  intros Hok Hp Hg Hr Ho. pose proof (fresh_not_table _ _ _ _ Hok Hp) as Hnone. constructor.
  - by eapply tables_ok_alloc.
  - by apply insert_subseteq.
  - intros t g'. rewrite lookup_insert_Some. intros [[<- <-]|[_ ?]] ?; [|congruence].
    split; [apply (fresh_unused _ _ _ Hp)|done].
  - intros q Hq. apply (fresh_used _ _ _ Hp). by right.
  - intros a _ Ha. rewrite (fresh_mem _ _ _ Hp). apply lookup_write_page; [apply length_zero_page|].
    apply Ha; [apply (fresh_frame _ _ _ Hp)|apply (fresh_unused _ _ _ Hp)].
  - intros a k. rewrite (fresh_mem _ _ _ Hp). apply write_list_mapped.
  - apply (fresh_regs _ _ _ Hp).
Qed.

(** A fresh page, filled with the bytes [l]. *)
Lemma cloned_page s L n tnew p s' l :
  tables_ok s L -> fresh s p s' -> length l = Z.to_nat PAGE_SIZE -> Forall is_byte l ->
  cloned s L (set_mm_mem (write_list (mm_mem s') (phys_to_virt p) l) s') L n tnew.
Proof.
  intros Hok Hp Hl Hb. set (s2 := set_mm_mem _ s').
  assert (forall a, ~ page_addr p a -> mm_mem s2 !! a = mm_mem s !! a) as Hm.
  { intros a Ha. unfold s2. rewrite mm_mem_set, lookup_write_page, (fresh_mem _ _ _ Hp) by done.
    apply lookup_write_page; [apply length_zero_page|done]. }
  assert (forall a k, mapped (mm_mem s) a k -> mapped (mm_mem s2) a k) as Hmap.
  { intros a k Ha. unfold s2. rewrite mm_mem_set. apply write_list_mapped. rewrite (fresh_mem _ _ _ Hp).
    by apply write_list_mapped. }
  assert (forall q, fa_used (mm_frames s) q -> fa_used (mm_frames s2) q) as Hu.
  { intros q Hq. apply fa_used_set, (fresh_used _ _ _ Hp). by right. }
  assert (forall t g, L !! t = Some g -> t <> p) as Hne.
  { intros t g Ht ->. rewrite (fresh_not_table _ _ _ _ Hok Hp) in Ht. done. }
  constructor; [|done|intros; congruence|done| |done|apply (fresh_regs _ _ _ Hp)].
  - constructor.
    + apply fa_wf_write; [apply (fresh_wf _ _ _ Hp)|done].
    + intros t g Ht. destruct (tok_frame _ _ Hok _ _ Ht) as (? & ? & ? & ?). by auto.
    + apply (tok_root _ _ Hok).
    + intros t g i e Ht Hg Hi He. destruct (tok_frame _ _ Hok _ _ Ht) as (Hf & _).
      rewrite (entry_page_eq (mm_mem s)) in He; [by apply (tok_child _ _ Hok _ _ _ _ Ht)|done|].
      intros a Ha. apply Hm. apply (page_apart t); [done|apply (fresh_frame _ _ _ Hp)|by eapply Hne|done].
  - intros a _ Ha. apply Hm. apply Ha; [apply (fresh_frame _ _ _ Hp)|apply (fresh_unused _ _ _ Hp)].
Qed.
End CloneSteps.

(** ** Copying the slots of a table *)

Section CloneLoops.
Context {A : Type} `{FrameAllocatorLaws A} (r n : Z) (Hrn : r <> n).
Implicit Types (s : mm_state A) (L : gmap Z tag).

Lemma slot_frame_new k m told m1 m2 tnew F (F' : Z -> Prop) j :
  entry m2 tnew j = entry m1 tnew j ->
  (forall q a, frame_ok q -> F q -> page_addr q a -> m2 !! a = m1 !! a) -> (forall q, F q -> F' q) ->
  slot_copied k m told m1 tnew F j -> slot_copied k m told m2 tnew F' j.
Proof.
  intros Hj HF Hsub (e & e' & He & He' & Hbr). exists e, e'. rewrite Hj. split; [done|]. split; [done|].
  destruct (negb (present e)); [done|]. destruct (_ && _); [done|].
  destruct Hbr as (Hfl & Hfr & HFe & Hc). split_and!; [done..|by auto|].
  eapply copied_frame_new; [|done..]. intros a. by apply HF.
Qed.

Lemma slot_frame_old k s L told p m1 m' tnew F i :
  tables_ok s L -> leaves_ok s L r -> agree_old s L r m1 -> L !! told = Some (Some r, p) ->
  (length p + S k = 4)%nat -> p <> [] \/ i < 256 -> 0 <= i < 512 ->
  (slot_copied k m1 told m' tnew F i -> slot_copied k (mm_mem s) told m' tnew F i) /\
  slot_cost k m1 told i = slot_cost k (mm_mem s) told i.
Proof.
  intros Hok Hlv Hag HL Hlen Hp Hi.
  assert (entry m1 told i = entry (mm_mem s) told i) as Hent.
  { apply entry_page_eq; [done|]. intros a. exact (proj1 Hag told p a HL). }
  destruct (tok_entry _ _ _ _ i Hok HL Hi) as (e & Ee & _).
  assert (present e = true -> (k =? 1)%nat && huge e = false -> forall tn,
    (copied k m1 (frame_of e) m' tn F -> copied k (mm_mem s) (frame_of e) m' tn F) /\
    copy_cost k m1 (frame_of e) = copy_cost k (mm_mem s) (frame_of e)) as Hch.
  { intros Hpr Hh tn. apply (copied_frame_old k s L r (frame_of e) (p ++ [i])); [done..|by destruct p|].
    by apply (user_node_child s L r k told p i e). }
  unfold slot_copied, slot_cost. rewrite Hent, Ee. destruct (present e) eqn:Hpr; simpl negb; cbv iota.
  - destruct (_ && _) eqn:Hh; [split; [|done]|].
    + intros (e1 & e' & [= <-] & ? & Hbr). rewrite Hpr, Hh in Hbr. exists e, e'. by rewrite Hpr, Hh.
    + specialize (Hch eq_refl eq_refl). split; [|f_equal; apply (Hch 0)].
      intros (e1 & e' & [= <-] & ? & Hbr). rewrite Hpr, Hh in Hbr. exists e, e'. rewrite Hpr, Hh.
      destruct Hbr as (? & ? & ? & ?). split; [done|]. split; [done|]. simpl. split_and!; [done..|]. by apply Hch.
  - split; [|done]. intros (e1 & e' & [= <-] & ? & Hbr). exists e, e'. by rewrite Hpr in Hbr |- *.
Qed.

Lemma cloned_agree s L s1 L1 tnew p :
  tables_ok s L -> cloned s L s1 L1 n tnew -> L !! tnew = Some (Some n, p) -> agree_old s L r (mm_mem s1).
Proof using Hrn.
  intros Hok Hcl Hn. destruct (tok_frame _ _ Hok _ _ Hn) as (Hfn & _). split.
  - intros t g a Ht Ha. destruct (tok_frame _ _ Hok _ _ Ht) as (Hf & Hu & _).
    apply (cl_page s L s1 L1 n tnew t); [done..|by eapply other_owner|done].
  - intros q a Hf Hu Hq Ha. apply (cl_page s L s1 L1 n tnew q); [done..| |done]. intros ->. congruence.
Qed.

(** The state after slot [i] is copied. *)
Definition slot_post (k : nat) s L (told tnew i : Z) s' : Prop :=
  exists L', cloned s L s' L' n tnew /\
    slot_copied k (mm_mem s) told (mm_mem s') tnew (taken s s') i /\
    (forall j, 0 <= j < 512 -> j <> i -> entry (mm_mem s') tnew j = entry (mm_mem s) tnew j) /\
    fa_avail (mm_frames s') = fa_avail (mm_frames s) - slot_cost k (mm_mem s) told i.

(** What copying one slot must do; [k] is the height of what the slot points to. *)
Definition slot_spec (k : nat) (body : Z -> Z -> Z -> M (mm_state A) unit) : Prop :=
  forall s L told tnew p i,
    tables_ok s L -> leaves_ok s L r -> L !! told = Some (Some r, p) -> L !! tnew = Some (Some n, p) ->
    p <> [] \/ i < 256 -> (length p + S k = 4)%nat -> 0 <= i < 512 -> entry (mm_mem s) tnew i = Some 0 ->
    safe (fa_avail (mm_frames s) < slot_cost k (mm_mem s) told i)
      (body (phys_to_virt told) (phys_to_virt tnew) i) s (fun _ s' => slot_post k s L told tnew i s').

(** The loop invariant: the slots below [i] are copied, the others untouched. *)
Definition loop_inv (k : nat) s L (told tnew i : Z) s1 : Prop :=
  exists L1, cloned s L s1 L1 n tnew /\
    (forall j, 0 <= j < i -> slot_copied k (mm_mem s) told (mm_mem s1) tnew (taken s s1) j) /\
    (forall j, i <= j < 512 -> entry (mm_mem s1) tnew j = entry (mm_mem s) tnew j) /\
    fa_avail (mm_frames s1) = fa_avail (mm_frames s) - sumZ (slot_cost k (mm_mem s) told) (seqZ 0 i).

Lemma clone_loop_step k body s L told tnew p (N i : Z) s1 :
  slot_spec k body ->
  tables_ok s L -> leaves_ok s L r -> L !! told = Some (Some r, p) -> L !! tnew = Some (Some n, p) ->
  (length p + S k = 4)%nat -> p <> [] \/ N <= 256 -> N <= 512 ->
  (forall j, 0 <= j < N -> entry (mm_mem s) tnew j = Some 0) -> 0 <= i < N ->
  loop_inv k s L told tnew i s1 ->
  safe (fa_avail (mm_frames s) < sumZ (slot_cost k (mm_mem s) told) (seqZ 0 N))
    (body (phys_to_virt told) (phys_to_virt tnew) i) s1 (fun _ s2 => loop_inv k s L told tnew (i + 1) s2).
Proof using Hrn H0.
  intros Hbody Hok Hlv Ho Hn Hlen HpN HN Hz Hi (L1 & Hcl & Hdone & Htodo & Hav).
  destruct (tok_frame _ _ Hok _ _ Hn) as (Hfn & Hun & _).
  pose proof (cloned_agree _ _ _ _ _ _ Hok Hcl Hn) as Hag.
  assert (p <> [] \/ i < 256) as Hpi by (destruct HpN; [by left|right; lia]).
  assert (forall F m', (slot_copied k (mm_mem s1) told m' tnew F i -> slot_copied k (mm_mem s) told m' tnew F i) /\
     slot_cost k (mm_mem s1) told i = slot_cost k (mm_mem s) told i) as Hold.
  { intros F m'. eapply slot_frame_old; [done..|lia]. }
  assert (sumZ (slot_cost k (mm_mem s) told) (seqZ 0 (i + 1)) =
    sumZ (slot_cost k (mm_mem s) told) (seqZ 0 i) + slot_cost k (mm_mem s) told i) as Hsum.
  { replace i with (Z.of_nat (Z.to_nat i)) by lia. by rewrite sumZ_snoc. }
  pose proof (sumZ_prefix k (mm_mem s) told N (i + 1) ltac:(lia)) as Hpre.
  eapply safe_mono; [apply (Hbody s1 L1 told tnew p i)| |].
  - apply Hcl.
  - by eapply cloned_leaves.
  - eapply lookup_weaken; [exact Ho|apply Hcl].
  - eapply lookup_weaken; [exact Hn|apply Hcl].
  - done.
  - done.
  - lia.
  - rewrite Htodo, Hz by lia. done.
  - rewrite (proj2 (Hold (fun _ => True) ∅)). lia.
  - intros [] s2 (L2 & Hcl2 & Hslot & Hoth & Hav2). rewrite (proj2 (Hold (fun _ => True) ∅)) in Hav2.
    exists L2. split; [eapply cloned_trans; [done..|by left]|]. split_and!.
    + intros j Hj. destruct (decide (j = i)) as [-> |Hne].
      * apply Hold. eapply slot_frame_new; [done..| |exact Hslot].
        intros q [Hq1 Hq2]. split; [|done]. intros Hq. by apply Hq1, (cl_used _ _ _ _ _ _ Hcl).
      * eapply slot_frame_new; [apply Hoth; lia| | |apply Hdone; lia].
        -- intros q a Hf [Hq1 Hq2] Ha. apply (cl_page s1 L1 s2 L2 n tnew q); [done..| |done]. by intros ->.
        -- intros q [Hq1 Hq2]. split; [done|]. by apply (cl_used _ _ _ _ _ _ Hcl2).
    + intros j Hj. rewrite Hoth by lia. apply Htodo. lia.
    + lia.
Qed.

Lemma clone_loop k body s L told tnew p (N : nat) :
  slot_spec k body ->
  tables_ok s L -> leaves_ok s L r -> L !! told = Some (Some r, p) -> L !! tnew = Some (Some n, p) ->
  (length p + S k = 4)%nat -> p <> [] \/ N <= 256 -> N <= 512 ->
  (forall j, 0 <= j < N -> entry (mm_mem s) tnew j = Some 0) ->
  safe (fa_avail (mm_frames s) < sumZ (slot_cost k (mm_mem s) told) (seqZ 0 N))
    (kfor (seqZ 0 N) (body (phys_to_virt told) (phys_to_virt tnew))) s (fun _ s' => loop_inv k s L told tnew N s').
Proof using Hrn H0.
  intros Hbody Hok Hlv Ho Hn Hlen HpN HN Hz.
  apply (safe_for_seqZ _ _ (loop_inv k s L told tnew) N 0).
  - exists L. split; [by apply cloned_refl|]. split_and!; [intros; lia|done|]. rewrite seqZ_nil by lia. simpl. lia.
  - intros i s1 Hi Hinv. by eapply clone_loop_step.
Qed.
End CloneLoops.

Section CloneTables.
Context {A : Type} `{FrameAllocatorLaws A} (r n : Z) (Hrn : r <> n).
Implicit Types (s : mm_state A) (L : gmap Z tag).

(** What copying a whole table must do. *)
Definition clone_spec (k : nat) (f : Z -> Z -> M (mm_state A) unit) : Prop :=
  forall s L told tnew p,
    tables_ok s L -> leaves_ok s L r -> L !! told = Some (Some r, p) -> L !! tnew = Some (Some n, p) ->
    p <> [] -> (length p + k = 4)%nat -> (forall j, 0 <= j < 512 -> entry (mm_mem s) tnew j = Some 0) ->
    safe (fa_avail (mm_frames s) < copy_cost k (mm_mem s) told) (f (phys_to_virt told) (phys_to_virt tnew)) s
      (fun _ s' => exists L', cloned s L s' L' n tnew /\
         copied k (mm_mem s) told (mm_mem s') tnew (taken s s') /\
         fa_avail (mm_frames s') = fa_avail (mm_frames s) - copy_cost k (mm_mem s) told).

Lemma clone_spec_loop k body :
  slot_spec (A := A) r n k body ->
  clone_spec (S k) (fun old new => kfor (seqZ 0 512) (body old new)).
Proof using Hrn H0.
  intros Hbody s L told tnew p Hok Hlv Ho Hn Hp Hlen Hz. rewrite copy_cost_S.
  eapply safe_mono; [eapply (clone_loop r n Hrn k body s L told tnew p 512); [done..|by left|lia|done]|done|].
  intros [] s' (L' & Hcl & Hdone & _ & Hav). exists L'. split; [done|]. split; [|done].
  intros i Hi. exact (Hdone i Hi).
Qed.

(** A slot with nothing to copy. *)
Lemma slot_absent k s L told tnew i e :
  tables_ok s L -> entry (mm_mem s) told i = Some e -> present e = false -> entry (mm_mem s) tnew i = Some 0 ->
  slot_post n k s L told tnew i s.
Proof.
  intros Hok He Hp Hz. exists L. split; [by apply cloned_refl|]. split; [exists e, 0; by rewrite Hp|].
  split; [done|]. unfold slot_cost. rewrite He, Hp. simpl. lia.
Qed.

Lemma child_user o p i : p <> [] \/ i < 256 -> child (Some o, p) i = (Some o, p ++ [i]).
Proof.
  intros Hp. unfold child. simpl. destruct p; [|done]. destruct Hp as [?|Hi]; [done|].
  by rewrite (proj2 (Z.ltb_lt _ _) Hi).
Qed.

(** The new table of [clone_subtree], linked and still empty. *)
Lemma subtree_linked s L told tnew p i e q s1 :
  tables_ok s L -> leaves_ok s L r -> L !! told = Some (Some r, p) -> L !! tnew = Some (Some n, p) ->
  p <> [] \/ i < 256 -> (length p < 3)%nat -> 0 <= i < 512 -> entry (mm_mem s) told i = Some e ->
  fresh s q s1 -> let e' := Z.lor q (Z.land e PTE_FLAGS_MASK) in
  let s2 := set_mm_mem (poke64 (mm_mem s1) (phys_to_virt tnew + 8 * i) e') s1 in
  let L1 := <[q := (Some n, p ++ [i])]> L in
  entry (mm_mem s1) told i = Some e /\ mapped (mm_mem s1) (phys_to_virt tnew + 8 * i) 8 /\
  cloned s L s2 L1 n tnew /\ entry (mm_mem s2) tnew i = Some e' /\ q <> tnew /\ L1 !! tnew = Some (Some n, p) /\
  (forall j, 0 <= j < 512 -> j <> i -> entry (mm_mem s2) tnew j = entry (mm_mem s) tnew j) /\
  (forall j, 0 <= j < 512 -> entry (mm_mem s2) q j = Some 0) /\
  fa_avail (mm_frames s2) = fa_avail (mm_frames s) - 1.
Proof.
  intros Hok Hlv Ho Hn Hp Hlen Hi He Hq e' s2 L1.
  pose proof (fresh_not_table _ _ _ _ Hok Hq) as HLq. pose proof (fresh_frame _ _ _ Hq) as Hfq.
  destruct (tok_entry _ _ _ _ _ Hok Ho Hi) as (e1 & He1 & Her). assert (e1 = e) as -> by congruence.
  destruct (copied_entry_facts q e Hfq Her) as (Hvf & _ & _ & _ & Hvr). fold e' in Hvf, Hvr.
  assert (q <> tnew) as Hne by congruence.
  destruct (tok_frame _ _ Hok _ _ Hn) as (Hfn & _ & Hmn & _).
  assert (cloned s L s1 L1 n tnew) as Hc1.
  { apply cloned_alloc; [done|done|simpl; rewrite length_app; simpl; lia|by destruct p|done]. }
  assert (L1 !! tnew = Some (Some n, p)) as Hn1 by (unfold L1; by rewrite lookup_insert_ne).
  assert (mapped (mm_mem s1) (phys_to_virt tnew) PAGE_SIZE) as Hmn1 by (by apply (cl_mapped _ _ _ _ _ _ Hc1)).
  assert (cloned s1 L1 s2 L1 n tnew) as Hc2.
  { apply cloned_poke with (Some n, p); [apply Hc1|done..|]. intros _ _. rewrite Hvf, child_user by done.
    unfold L1. by rewrite lookup_insert_eq. }
  split_and!.
  - by erewrite fresh_entry_ne.
  - by apply slot_mapped.
  - eapply cloned_trans; [done..|by left].
  - unfold s2. rewrite mm_mem_set. by apply entry_poke_eq.
  - done.
  - done.
  - intros j Hj Hji. unfold s2. rewrite mm_mem_set, entry_poke_ne by (done || by right). by eapply fresh_entry_ne.
  - intros j Hj. unfold s2. rewrite mm_mem_set, entry_poke_ne by (done || by left).
    rewrite (fresh_mem _ _ _ Hq). by apply entry_zero_page.
  - unfold s2. cbn [mm_frames set_mm_mem set_mm_frames]. rewrite fa_avail_set. apply (fresh_avail _ _ _ Hq).
Qed.

(** A huge page is shared. *)
Lemma slot_huge s L told tnew p i e :
  tables_ok s L -> L !! told = Some (Some r, p) -> L !! tnew = Some (Some n, p) -> length p = 2%nat ->
  0 <= i < 512 -> entry (mm_mem s) told i = Some e -> present e = true -> huge e = true ->
  slot_post n 1 s L told tnew i (set_mm_mem (poke64 (mm_mem s) (phys_to_virt tnew + 8 * i) e) s).
Proof.
  intros Hok Ho Hn Hlen Hi He Hp Hh. destruct (tok_entry _ _ _ _ _ Hok Ho Hi) as (e1 & He1 & Her).
  assert (e1 = e) as -> by congruence. destruct (tok_frame _ _ Hok _ _ Hn) as (Hfn & _ & Hmn & _).
  exists L. split_and!.
  - apply cloned_poke with (Some n, p); [done..|]. intros _. unfold is_link. simpl.
    rewrite Hlen, Hp, Hh. done.
  - exists e, e. rewrite mm_mem_set, entry_poke_eq by done. by rewrite Hp, Hh.
  - intros j Hj Hji. rewrite mm_mem_set. apply entry_poke_ne; [done..|by right].
  - cbn [mm_frames set_mm_mem set_mm_frames]. rewrite fa_avail_set. unfold slot_cost. rewrite He, Hp, Hh. simpl. lia.
Qed.

(** The body the three outer loops share copies the slot. *)
Lemma clone_subtree_slot k f s L told tnew p i e :
  clone_spec (S k) f -> tables_ok s L -> leaves_ok s L r ->
  L !! told = Some (Some r, p) -> L !! tnew = Some (Some n, p) ->
  p <> [] \/ i < 256 -> (length p + S (S k) = 4)%nat -> 0 <= i < 512 ->
  entry (mm_mem s) told i = Some e -> present e = true -> (S k =? 1)%nat && huge e = false ->
  safe (fa_avail (mm_frames s) < slot_cost (S k) (mm_mem s) told i)
    (clone_subtree f (phys_to_virt told) (phys_to_virt tnew) i) s (fun _ s' => slot_post n (S k) s L told tnew i s').
Proof using Hrn H0.
  intros Hf Hok Hlv Ho Hn Hp Hlen Hi He Hpr Hh.
  assert (slot_cost (S k) (mm_mem s) told i = 1 + copy_cost (S k) (mm_mem s) (frame_of e)) as Hcost
    by (unfold slot_cost; by rewrite He, Hpr, Hh).
  pose proof (sumZ_nonneg (slot_cost k (mm_mem s) (frame_of e)) (seqZ 0 512) (fun i _ => slot_cost_nonneg _ _ _ i)) as Hnn.
  rewrite <- copy_cost_S in Hnn. rewrite Hcost. unfold clone_subtree.
  apply safe_bind, (safe_ld64 _ _ _ e); [exact He|].
  apply safe_bind, safe_alloc; [apply (tok_wf _ _ Hok)|lia|]. intros q s1 Hq.
  destruct (subtree_linked s L told tnew p i e q s1) as (He1 & Hm1 & Hc2 & Hen & Hqn & Hn1 & Hoth & Hzero & Hav2);
    [done..|lia|done|done|done|].
  apply safe_bind, (safe_ld64 _ _ _ e); [exact He1|]. apply safe_bind, safe_st64; [done|].
  set (s2 := set_mm_mem _ s1) in *. set (L1 := <[q := _]> L) in *.
  destruct (user_node_child s L r (S k) told p i e) as [Hch Hchl]; [done..|].
  assert (q <> frame_of e) as Hqe by (pose proof (fresh_not_table _ _ _ _ Hok Hq); congruence).
  pose proof (cloned_agree r n Hrn _ _ _ _ _ _ Hok Hc2 Hn) as Hag.
  destruct (tok_entry _ _ _ _ _ Hok Ho Hi) as (e1 & Hee & Her). assert (e1 = e) as -> by congruence.
  destruct (copied_entry_facts q e (fresh_frame _ _ _ Hq) Her) as (Hvf & Hvfl & Hvp & Hvh & _).
  assert (forall m' F, (copied (S k) (mm_mem s2) (frame_of e) m' q F -> copied (S k) (mm_mem s) (frame_of e) m' q F) /\
     copy_cost (S k) (mm_mem s2) (frame_of e) = copy_cost (S k) (mm_mem s) (frame_of e)) as Hold.
  { intros m' F. apply (copied_frame_old (S k) s L r _ (p ++ [i])); [done..|by destruct p|done]. }
  eapply safe_mono; [apply (Hf s2 L1 (frame_of e) q (p ++ [i]))| |].
  - apply Hc2.
  - by eapply cloned_leaves.
  - unfold L1. by rewrite lookup_insert_ne.
  - unfold L1. by rewrite lookup_insert_eq.
  - by destruct p.
  - done.
  - exact Hzero.
  - rewrite (proj2 (Hold ∅ (fun _ => True))). lia.
  - intros [] s3 (L3 & Hc3 & Hcp & Hav3). rewrite (proj2 (Hold ∅ (fun _ => True))) in Hav3.
    destruct (tok_frame _ _ (cl_ok _ _ _ _ _ _ Hc2) _ _ Hn1) as (Hfn & Hun & _).
    assert (forall j, 0 <= j < 512 -> entry (mm_mem s3) tnew j = entry (mm_mem s2) tnew j) as Hkeep.
    { intros j Hj. apply (cl_entry s2 L1 s3 L3 n q); [done|done|apply (fresh_frame _ _ _ Hq)|done|done|done]. }
    assert (fa_used (mm_frames s2) q) as Huq by (apply fa_used_set, (fresh_used _ _ _ Hq); by left).
    exists L3. split_and!.
    + eapply cloned_trans; [done..|]. right. split; [apply (fresh_frame _ _ _ Hq)|apply (fresh_unused _ _ _ Hq)].
    + exists e, (Z.lor q (Z.land e PTE_FLAGS_MASK)). rewrite Hkeep by done. split; [done|]. split; [done|].
      rewrite Hpr, Hh. simpl negb. cbv iota. rewrite Hvf. split; [done|]. split; [apply (fresh_frame _ _ _ Hq)|].
      split; [split; [apply (fresh_unused _ _ _ Hq)|by apply (cl_used _ _ _ _ _ _ Hc3)]|].
      apply Hold. eapply copied_frame_new; [done|done| |exact Hcp].
      intros x [Hx1 Hx2]. split; [|done]. intros Hx. by apply Hx1, (cl_used _ _ _ _ _ _ Hc2).
    + intros j Hj Hji. rewrite Hkeep by done. by apply Hoth.
    + lia.
Qed.

(** The fresh page [q] filled from the page [x]. *)
Lemma page_copy s L q s1 x :
  tables_ok s L -> fresh s q s1 -> frame_ok x -> fa_used (mm_frames s) x ->
  mapped (mm_mem s) (phys_to_virt x) PAGE_SIZE ->
  exists l, length l = Z.to_nat PAGE_SIZE /\ Forall is_byte l /\ bytes_at (mm_mem s) (phys_to_virt x) l /\
    zoom mm_mem set_mm_mem (kmemcpy (phys_to_virt q) (phys_to_virt x) PAGE_SIZE) s1 =
      Done (phys_to_virt q, set_mm_mem (write_list (mm_mem s1) (phys_to_virt q) l) s1).
Proof.
  intros Hok Hq Hfx Hux Hmx. assert (q <> x) as Hne by (intros ->; by apply (fresh_unused _ _ _ Hq)).
  destruct (mapped_read_list (mm_mem s) (phys_to_virt x) (Z.to_nat PAGE_SIZE)) as [l Hl];
    [by rewrite Z2Nat.id by by vm_compute|].
  apply read_list_bytes_at in Hl as [Hlen Hb]. exists l. split; [done|].
  split; [eapply bytes_at_wf; [apply fa_wf_mem, (tok_wf _ _ Hok)|done]|]. split; [done|].
  apply zoom_done. replace PAGE_SIZE with (Z.of_nat (length l)) by (rewrite Hlen; by rewrite Z2Nat.id by by vm_compute).
  apply kmemcpy_spec.
  - eapply bytes_at_frame; [|exact Hb]. intros a Ha. rewrite (fresh_mem _ _ _ Hq).
    apply lookup_write_page; [apply length_zero_page|].
    apply (page_apart x); [done|apply (fresh_frame _ _ _ Hq)|congruence|].
    unfold page_addr. rewrite Hlen, Z2Nat.id in Ha by by vm_compute. lia.
  - rewrite Hlen, Z2Nat.id by by vm_compute. rewrite (fresh_mem _ _ _ Hq).
    apply write_list_mapped, (fresh_mapped _ _ _ Hq).
  - rewrite Hlen, Z2Nat.id by by vm_compute. rewrite PAGE_SIZE_eq.
    destruct (frame_page _ (fresh_frame _ _ _ Hq)) as (k & -> & ?), (frame_page _ Hfx) as (k' & -> & ?). lia.
Qed.

Lemma clone_pt_slot :
  slot_spec (A := A) r n 0 (fun old_pt new_pt l =>
    let* e := ld64 (old_pt + 8 * l) in
    if negb (present e) then kret tt else
    let old_page_phys := Z.land e PTE_ADDR_MASK in
    let* new_page_phys := mm_alloc_page in
    zoom mm_mem set_mm_mem (kmemcpy (phys_to_virt new_page_phys) (phys_to_virt old_page_phys) PAGE_SIZE);;;
    let* e := ld64 (old_pt + 8 * l) in
    st64 (new_pt + 8 * l) (Z.lor new_page_phys (Z.land e PTE_FLAGS_MASK))).
Proof using Hrn H0.
  intros s L told tnew p i Hok Hlv Ho Hn Hp Hlen Hi Hz.
  destruct (tok_entry _ _ _ _ _ Hok Ho Hi) as (e & He & Her).
  apply safe_bind, (safe_ld64 _ _ _ e); [exact He|].
  destruct (present e) eqn:Hpr; simpl negb; cbv iota; [|eapply safe_done; [done|by eapply slot_absent]].
  destruct (user_node_child s L r 0 told p i e) as (Hfe & Hue & Hme & HLe); [done..|].
  assert (slot_cost 0 (mm_mem s) told i = 1) as Hcost by (unfold slot_cost; by rewrite He, Hpr). rewrite Hcost.
  apply safe_bind, safe_alloc; [apply (tok_wf _ _ Hok)|lia|]. intros q s1 Hq.
  destruct (page_copy s L q s1 (frame_of e)) as (l & Hl & Hlb & Hb & Hcp); [done..|].
  apply safe_bind. eapply safe_done; [exact Hcp|]. set (s2 := set_mm_mem _ s1).
  pose proof (cloned_page s L n tnew q s1 l Hok Hq Hl Hlb) as Hc2. fold s2 in Hc2.
  pose proof (fresh_frame _ _ _ Hq) as Hfq.
  destruct (copied_entry_facts q e Hfq Her) as (Hvf & Hvfl & Hvp & Hvh & Hvr).
  destruct (tok_frame _ _ Hok _ _ Ho) as (Hfo & Huo & _), (tok_frame _ _ Hok _ _ Hn) as (Hfn & Hun & Hmn & _).
  assert (told <> tnew) as Hot by (by eapply other_owner).
  assert (q <> tnew) as Hqn by (pose proof (fresh_not_table _ _ _ _ Hok Hq); congruence).
  assert (q <> told) as Hqo by (pose proof (fresh_not_table _ _ _ _ Hok Hq); congruence).
  assert (entry (mm_mem s2) told i = Some e) as He2
    by (rewrite (cl_entry s L s2 L n tnew told i); done).
  apply safe_bind, (safe_ld64 _ _ _ e); [exact He2|].
  assert (mapped (mm_mem s2) (phys_to_virt tnew) PAGE_SIZE) as Hmn2 by (by apply (cl_mapped _ _ _ _ _ _ Hc2)).
  apply safe_st64; [by apply slot_mapped|]. set (s3 := set_mm_mem _ s2). set (e' := Z.lor _ _) in *.
  assert (cloned s2 L s3 L n tnew) as Hc3.
  { apply cloned_poke with (Some n, p); [apply Hc2|done..|]. simpl. lia. }
  exists L. split_and!.
  - eapply cloned_trans; [done..|by left].
  - exists e, e'. split; [done|]. split; [unfold s3; rewrite mm_mem_set; by apply entry_poke_eq|].
    rewrite Hpr. simpl. rewrite Hvf. split; [done|]. split; [done|]. split.
    + split; [apply (fresh_unused _ _ _ Hq)|]. apply fa_used_set, fa_used_set, (fresh_used _ _ _ Hq). by left.
    + intros a Ha. rewrite (cl_page s2 L s3 L n tnew q); [|done|done|done| |done|unfold page_addr; lia].
      * unfold s2. rewrite mm_mem_set. destruct (lookup_lt_is_Some_2 l (Z.to_nat a)) as [b Hlb']; [lia|].
        pose proof (Hb _ _ Hlb') as Hba. pose proof (write_list_bytes_at (mm_mem s1) (phys_to_virt q) l _ _ Hlb') as Hqa.
        rewrite Z2Nat.id in Hba, Hqa by lia. change (Z.land e PTE_ADDR_MASK) with (frame_of e). congruence.
      * apply fa_used_set, (fresh_used _ _ _ Hq). by left.
  - intros j Hj Hji. unfold s3. rewrite mm_mem_set, entry_poke_ne by (done || by right).
    unfold s2. rewrite mm_mem_set, entry_write_page_ne by done. by eapply fresh_entry_ne.
  - unfold s3, s2. cbn [mm_frames set_mm_mem set_mm_frames]. rewrite !fa_avail_set, (fresh_avail _ _ _ Hq). lia.
Qed.

Lemma clone_pt_spec : clone_spec 1 clone_pt.
Proof using Hrn H0. apply (clone_spec_loop 0 _ clone_pt_slot). Qed.

Lemma clone_pd_spec : clone_spec 2 clone_pd.
Proof using Hrn H0.
  apply (clone_spec_loop 1 (fun old_pd new_pd k =>
    let* e := ld64 (old_pd + 8 * k) in
    if negb (present e) then kret tt else
    if istrue (Z.land e PTE_HUGE) then st64 (new_pd + 8 * k) e
    else clone_subtree clone_pt old_pd new_pd k)).
  intros s L told tnew p i Hok Hlv Ho Hn Hp Hlen Hi Hz.
  destruct (tok_entry _ _ _ _ _ Hok Ho Hi) as (e & He & _).
  destruct (tok_frame _ _ Hok _ _ Hn) as (_ & _ & Hmn & _).
  apply safe_bind, (safe_ld64 _ _ _ e); [exact He|].
  destruct (present e) eqn:Hpr; simpl negb; cbv iota; [|eapply safe_done; [done|by eapply slot_absent]].
  change (istrue (Z.land e PTE_HUGE)) with (huge e). destruct (huge e) eqn:Hh.
  - apply safe_st64; [by apply slot_mapped|]. eapply slot_huge; [done..|lia|done|done|done|done].
  - by apply (clone_subtree_slot 0 _ s L told tnew p i e clone_pt_spec).
Qed.

Lemma outer_slot k f :
  clone_spec (S (S k)) f ->
  slot_spec (A := A) r n (S (S k)) (fun old new i =>
    let* e := ld64 (old + 8 * i) in
    if negb (present e) then kret tt else clone_subtree f old new i).
Proof using Hrn H0.
  intros Hf s L told tnew p i Hok Hlv Ho Hn Hp Hlen Hi Hz.
  destruct (tok_entry _ _ _ _ _ Hok Ho Hi) as (e & He & _).
  apply safe_bind, (safe_ld64 _ _ _ e); [exact He|].
  destruct (present e) eqn:Hpr; simpl negb; cbv iota; [|eapply safe_done; [done|by eapply slot_absent]].
  by apply (clone_subtree_slot (S k) _ s L told tnew p i e Hf).
Qed.

Lemma clone_pdpt_spec : clone_spec 3 clone_pdpt.
Proof using Hrn H0. apply (clone_spec_loop 2 _ (outer_slot 0 _ clone_pd_spec)). Qed.
End CloneTables.

(** ** Translations in the copy *)

(** What a copied translation may be: absent, the same huge page, or a page of
    the same flags and contents in a frame that satisfies [F]. *)
Definition same_translation (m m' : mem) (F : Z -> Prop) (tr tr' : option (Z * bool)) : Prop :=
  match tr with
  | None => tr' = None
  | Some (e, true) => tr' = Some (e, true)
  | Some (e, false) => exists e', tr' = Some (e', false) /\
      Z.land e' PTE_FLAGS_MASK = Z.land e PTE_FLAGS_MASK /\ F (frame_of e') /\
      forall a, 0 <= a < PAGE_SIZE ->
        m' !! (phys_to_virt (frame_of e') + a) = m !! (phys_to_virt (frame_of e) + a)
  end.

Lemma flags_bits e e' :
  Z.land e' PTE_FLAGS_MASK = Z.land e PTE_FLAGS_MASK -> present e' = present e /\ huge e' = huge e.
Proof.
  intros Heq. assert (forall i, 0 <= i < 12 -> Z.testbit e' i = Z.testbit e i) as Hb.
  { intros i Hi. pose proof (f_equal (fun z => Z.testbit z i) Heq) as Hi'. cbv beta in Hi'.
    rewrite !Z.land_spec, testbit_flags_mask, bool_decide_true, !andb_true_r in Hi' by lia. done. }
  rewrite !present_bit, !huge_bit. split; apply Hb; lia.
Qed.

Section CloneProperties.
Context {A : Type} `{FrameAllocatorLaws A}.
Implicit Types (s : mm_state A) (L : gmap Z tag).

Lemma slot_lookup k s L r told p m' tnew F i rest :
  tables_ok s L -> leaves_ok s L r -> L !! told = Some (Some r, p) -> (length p + S k = 4)%nat ->
  p <> [] \/ i < 256 -> 0 <= i < 512 -> length rest = k -> idx_ok rest ->
  slot_copied k (mm_mem s) told m' tnew F i ->
  same_translation (mm_mem s) m' F (lookup_from (mm_mem s) told (i :: rest)) (lookup_from m' tnew (i :: rest)).
Proof.
  intros Hok Hlv. revert told tnew p i rest. induction k as [|k IH];
    intros told tnew p i rest HL Hlen Hp Hi Hrest Hidx (e & e' & He & He' & Hbr); cbn [lookup_from]; rewrite He, He'.
  - destruct rest; [|done]. destruct (present e) eqn:Hpr; simpl in Hbr |- *; [|by subst e'].
    destruct Hbr as (Hfl & Hfr & HF & Hc). destruct (flags_bits _ _ Hfl) as [-> _]. rewrite Hpr. simpl.
    exists e'. done.
  - destruct rest as [|i2 rest]; [done|]. destruct (present e) eqn:Hpr; simpl negb in *; cbv iota in *; [|by subst e'].
    destruct ((S k =? 1)%nat && huge e) eqn:Hh.
    + subst e'. apply andb_true_iff in Hh as [Hk%Nat.eqb_eq Hh]. rewrite Hpr, Hh.
      replace (length (i2 :: rest)) with 1%nat by (rewrite Hrest; lia). done.
    + destruct Hbr as (Hfl & Hfr & HF & Hc). destruct (flags_bits _ _ Hfl) as [-> ->]. rewrite Hpr. simpl negb. cbv iota.
      destruct (user_node_child s L r (S k) told p i e) as [Hch Hchl]; [done..|].
      assert ((length (i2 :: rest) <=? 2)%nat && huge e = false) as ->.
      { destruct (Hlv _ _ _ _ HL Hi He Hpr) as [H1 _]. rewrite Hrest.
        destruct k as [|[|k]]; [exact Hh| |done]. rewrite H1 by lia. done. }
      apply (IH _ _ (p ++ [i])); [done..|left; by destruct p| |by injection Hrest|by apply Forall_cons in Hidx as [_ ?]|].
      * by apply Forall_cons in Hidx as [? _].
      * apply Hc. by apply Forall_cons in Hidx as [? _].
Qed.

(** Walks of the old tables are unchanged. *)
Lemma cloned_walks s L s' L' n tnew t g idx :
  tables_ok s L -> cloned s L s' L' n tnew -> frame_ok tnew -> ~ fa_used (mm_frames s) tnew ->
  L !! t = Some g -> (length (g.2) + length idx = 4)%nat -> idx_ok idx ->
  lookup_from (mm_mem s') t idx = lookup_from (mm_mem s) t idx.
Proof.
  intros Hok Hcl Hfn Hun Ht Hlen Hidx.
  assert (forall t g i, L !! t = Some g -> 0 <= i < 512 -> entry (mm_mem s') t i = entry (mm_mem s) t i) as Heq.
  { intros t1 g1 i Ht1 Hi. destruct (tok_frame _ _ Hok _ _ Ht1) as (Hf & Hu & _).
    apply (cl_entry s L s' L' n tnew); [done..|congruence|done]. }
  apply (lookup_from_sim s L _ idx t g); [done..| |].
  - intros t1 g1 i e Ht1 Hi _ He. exists e. split; [by rewrite (Heq t1 g1)|by left].
  - intros t1 Ht1. apply (Heq t1 _ _ Ht1). by apply final_slot_range.
Qed.

(** The loop over the kernel half. *)
Lemma copy_kernel_half_spec s L r p :
  tables_ok s L -> L !! r = Some (Some r, []) -> L !! p = Some (Some p, []) -> r <> p ->
  safe False (copy_kernel_half (phys_to_virt r) (phys_to_virt p)) s (fun _ s' =>
    cloned s L s' L p p /\ fa_avail (mm_frames s') = fa_avail (mm_frames s) /\
    (forall j, 256 <= j < 512 -> entry (mm_mem s') p j = entry (mm_mem s) r j) /\
    (forall j, 0 <= j < 256 -> entry (mm_mem s') p j = entry (mm_mem s) p j)).
Proof.
  intros Hok Hr Hp Hne. destruct (tok_frame _ _ Hok _ _ Hr) as (Hfr & Hur & _), (tok_frame _ _ Hok _ _ Hp) as (Hfp & Hup & Hmp & _).
  unfold copy_kernel_half. change (seqZ 256 256) with (seqZ 256 (Z.of_nat 256)).
  eapply safe_mono; [apply (safe_for_seqZ _ _ (fun i s1 => cloned s L s1 L p p /\
    fa_avail (mm_frames s1) = fa_avail (mm_frames s) /\
    (forall j, 256 <= j < i -> entry (mm_mem s1) p j = entry (mm_mem s) r j) /\
    (forall j, 0 <= j < 256 -> entry (mm_mem s1) p j = entry (mm_mem s) p j)) 256 256)|done|].
  - split; [by apply cloned_refl|]. split_and!; [done|intros; lia|done].
  - intros i s1 Hi (Hcl & Hav & Hhi & Hlo).
    destruct (tok_entry _ _ _ _ i Hok Hr) as (e & He & Her); [lia|].
    assert (entry (mm_mem s1) r i = Some e) as He1.
    { rewrite (cl_entry s L s1 L p p r i); [done..|lia]. }
    apply safe_bind, (safe_ld64 _ _ _ e); [exact He1|].
    assert (mapped (mm_mem s1) (phys_to_virt p) PAGE_SIZE) as Hmp1 by (by apply (cl_mapped _ _ _ _ _ _ Hcl)).
    apply safe_st64; [apply slot_mapped; [done|lia]|]. set (s2 := set_mm_mem _ s1).
    assert (cloned s1 L s2 L p p) as Hc2.
    { apply cloned_poke with (Some p, []); [apply Hcl|done|lia|done|]. intros _ Hl.
      rewrite (tok_child _ _ Hok r (Some r, []) i e Hr ltac:(simpl; lia) ltac:(lia) He Hl).
      unfold child. simpl. by rewrite (proj2 (Z.ltb_ge _ _)) by lia. }
    split; [eapply cloned_trans; [done..|by left]|]. split; [|split].
    + unfold s2. cbn [mm_frames set_mm_mem set_mm_frames]. by rewrite fa_avail_set.
    + intros j Hj. unfold s2. rewrite mm_mem_set. destruct (decide (j = i)) as [-> |Hji].
      * rewrite entry_poke_eq by (done || lia). done.
      * rewrite entry_poke_ne by (done || lia). apply Hhi. lia.
    + intros j Hj. unfold s2. rewrite mm_mem_set, entry_poke_ne by (done || lia). by apply Hlo.
  - intros [] s' (Hcl & Hav & Hhi & Hlo). split_and!; [done..|]. intros j Hj. apply Hlo. lia.
Qed.

(** A new root [p] that has the kernel half of [r]. *)
Lemma new_root_spec s L r p s1 :
  tables_ok s L -> L !! r = Some (Some r, []) -> fresh s p s1 ->
  let L1 := <[p := (Some p, [])]> L in
  safe False (copy_kernel_half (phys_to_virt r) (phys_to_virt p)) s1 (fun _ s2 =>
    cloned s L s2 L1 p p /\ fa_avail (mm_frames s2) = fa_avail (mm_frames s) - 1 /\
    fa_used (mm_frames s2) p /\
    (forall j, 256 <= j < 512 -> entry (mm_mem s2) p j = entry (mm_mem s) r j) /\
    (forall j, 0 <= j < 256 -> entry (mm_mem s2) p j = Some 0)).
Proof.
  intros Hok Hr Hp L1. pose proof (fresh_not_table _ _ _ _ Hok Hp) as HLp.
  assert (r <> p) as Hne by congruence.
  assert (cloned s L s1 L1 p p) as Hc1 by (apply cloned_alloc; [done|done|simpl; lia|done|done]).
  assert (L1 !! r = Some (Some r, [])) as Hr1 by (unfold L1; by rewrite lookup_insert_ne).
  assert (L1 !! p = Some (Some p, [])) as Hp1 by (unfold L1; by rewrite lookup_insert_eq).
  eapply safe_mono; [apply (copy_kernel_half_spec s1 L1 r p); [apply Hc1|done..]|done|].
  intros [] s2 (Hc2 & Hav & Hhi & Hlo). split_and!.
  - eapply cloned_trans; [done..|by left].
  - rewrite Hav. apply (fresh_avail _ _ _ Hp).
  - apply (cl_used _ _ _ _ _ _ Hc2), (fresh_used _ _ _ Hp). by left.
  - intros j Hj. rewrite Hhi by done. eapply fresh_entry_ne; [done..|lia].
  - intros j Hj. rewrite Hlo, (fresh_mem _ _ _ Hp) by done. apply entry_zero_page. lia.
Qed.

(** Kernel addresses translate in the new root as in the old one. *)
Lemma kernel_half_same s L r s' L' p va :
  tables_ok s L -> L !! r = Some (Some r, []) -> cloned s L s' L' p p -> frame_ok p ->
  ~ fa_used (mm_frames s) p -> 256 <= pgd_index va ->
  (forall j, 256 <= j < 512 -> entry (mm_mem s') p j = entry (mm_mem s) r j) ->
  translate (mm_mem s') p va = translate (mm_mem s) r va.
Proof.
  intros Hok Hr Hcl Hfp Hup Hva Hhi. pose proof (index_range va 39) as Hi. fold (pgd_index va) in Hi.
  pose proof (indices_ok va) as Hidx. unfold translate, indices in *. apply Forall_cons in Hidx as [_ Hidx].
  cbn [lookup_from]. rewrite Hhi by lia. destruct (tok_entry _ _ _ _ _ Hok Hr Hi) as (e & He & _). rewrite He.
  destruct (present e) eqn:Hpr; [|done]. simpl negb. cbv iota.
  assert (L !! frame_of e = Some (child (Some r, []) (pgd_index va))) as Hc.
  { apply (tok_child _ _ Hok r (Some r, [])); [done|simpl; lia|done|done|]. unfold is_link. by rewrite Hpr. }
  by apply (cloned_walks s L s' L' p p (frame_of e) (child (Some r, []) (pgd_index va))
    [pud_index va; pmd_index va; pte_index va]).
Qed.

(** What [create_new_address_space] gives: a new root in a frame nobody used, the
    kernel's mappings and no user page. *)
Record space_created s L r (p : Z) s' : Prop := {
  sn_tables : exists L', tables_ok s' L' /\ L ⊆ L' /\ L' !! p = Some (Some p, []);
  sn_frame : frame_ok p /\ ~ fa_used (mm_frames s) p;
  sn_regs : cr3_reg s' = cr3_reg s;
  sn_user va : pgd_index va < 256 -> translate (mm_mem s') p va = None;
  sn_kernel va : 256 <= pgd_index va -> translate (mm_mem s') p va = translate (mm_mem s) r va;
  sn_roots r' va : L !! r' = Some (Some r', []) -> translate (mm_mem s') r' va = translate (mm_mem s) r' va;
  sn_used q : fa_used (mm_frames s) q -> fa_used (mm_frames s') q;
  sn_avail : fa_avail (mm_frames s') = fa_avail (mm_frames s) - 1
}.

Lemma create_new_address_space_spec s L r :
  tables_ok s L -> Z.land (cr3_reg s) PTE_ADDR_MASK = r -> L !! r = Some (Some r, []) ->
  safe (fa_avail (mm_frames s) < 1) create_new_address_space s (space_created s L r).
Proof.
  intros Hok Hcr3 Hr. unfold create_new_address_space.
  apply safe_bind, safe_alloc; [apply (tok_wf _ _ Hok)|lia|]. intros p s1 Hp.
  apply safe_bind. eapply safe_done; [done|]. cbv beta zeta.
  rewrite (proj1 (fresh_regs _ _ _ Hp)), Hcr3.
  apply safe_bind. eapply safe_mono; [by apply (new_root_spec s L r p s1)|done|].
  intros [] s2 (Hcl & Hav & Hup & Hhi & Hlo). eapply safe_done; [done|].
  pose proof (fresh_frame _ _ _ Hp) as Hfp. pose proof (fresh_unused _ _ _ Hp) as Hnu.
  constructor; [..|apply Hcl|exact Hav].
  - eexists. split; [apply Hcl|]. split; [apply Hcl|]. by rewrite lookup_insert_eq.
  - done.
  - apply Hcl.
  - intros va Hva. pose proof (index_range va 39) as Hi. fold (pgd_index va) in Hi.
    unfold translate, indices. cbn [lookup_from]. by rewrite Hlo by lia.
  - intros va Hva. by eapply kernel_half_same.
  - intros r' va Hr'.
    apply (cloned_walks s L s2 _ p p r' (Some r', []) (indices va) Hok Hcl Hfp Hnu Hr'); [done|apply indices_ok].
Qed.

(** [create_new_address_space] returns, unless memory is exhausted, a new
    root in a frame nobody used: it translates every kernel address as the
    current address space does and no user address, and no existing address
    space changes. *)
Theorem create_new_address_space_kernel s L r :
  tables_ok s L -> Z.land (cr3_reg s) PTE_ADDR_MASK = r -> L !! r = Some (Some r, []) ->
  safe (fa_avail (mm_frames s) < 1) create_new_address_space s (fun p s' =>
    (exists L', tables_ok s' L' /\ L ⊆ L' /\ L' !! p = Some (Some p, [])) /\
    ~ fa_used (mm_frames s) p /\ cr3_reg s' = cr3_reg s /\
    (forall va, pgd_index va < 256 -> translate (mm_mem s') p va = None) /\
    (forall va, 256 <= pgd_index va -> translate (mm_mem s') p va = translate (mm_mem s) r va) /\
    (forall r' va, L !! r' = Some (Some r', []) -> translate (mm_mem s') r' va = translate (mm_mem s) r' va)).
Proof.
  intros Hok Hcr3 Hr. eapply safe_mono; [by apply (create_new_address_space_spec s L r)|done|].
  intros p s' [Ht [_ Hf] ? ? ? ? _ _]. done.
Qed.

(** The old user half seen from a state that has a fresh root. *)
Lemma cloned_agree_root s L s2 L1 r p :
  tables_ok s L -> cloned s L s2 L1 p p -> frame_ok p -> ~ fa_used (mm_frames s) p -> agree_old s L r (mm_mem s2).
Proof.
  intros Hok Hcl Hfp Hup. split.
  - intros t g a Ht Ha. destruct (tok_frame _ _ Hok _ _ Ht) as (Hf & Hu & _).
    apply (cl_page s L s2 L1 p p t); [done..|congruence|done].
  - intros q a Hf Hu Hq Ha. apply (cl_page s L s2 L1 p p q); [done..|congruence|done].
Qed.

Lemma cloned_leaves_root s L s2 L1 r p :
  tables_ok s L -> leaves_ok s L r -> cloned s L s2 L1 p p -> frame_ok p -> ~ fa_used (mm_frames s) p ->
  r <> p -> leaves_ok s2 L1 r.
Proof.
  intros Hok Hlv Hcl Hfp Hup Hne. apply (cloned_leaves_away s L s2 L1 p p r Hcl Hok Hfp); [|done|done].
  intros t q Ht ->. by destruct (tok_frame _ _ Hok _ _ Ht) as (_ & ? & _).
Qed.

(** The frames a clone takes. *)
Definition clone_frames (m : mem) (r : Z) : Z := 1 + sumZ (slot_cost 3 m r) (seqZ 0 256).

(** The state after [clone_address_space]: [p] is the new root. *)
Record space_cloned s L (r p : Z) s' : Prop := {
  sc_tables : exists L', tables_ok s' L' /\ L ⊆ L' /\ L' !! p = Some (Some p, []);
  sc_fresh : ~ fa_used (mm_frames s) p;
  sc_user va : pgd_index va < 256 ->
    same_translation (mm_mem s) (mm_mem s') (fun q => ~ fa_used (mm_frames s) q)
      (translate (mm_mem s) r va) (translate (mm_mem s') p va);
  sc_kernel va : 256 <= pgd_index va -> translate (mm_mem s') p va = translate (mm_mem s) r va;
  sc_others r' va : L !! r' = Some (Some r', []) -> translate (mm_mem s') r' va = translate (mm_mem s) r' va;
  sc_frames q a : frame_ok q -> fa_used (mm_frames s) q -> page_addr q a -> mm_mem s' !! a = mm_mem s !! a;
  sc_avail : fa_avail (mm_frames s') = fa_avail (mm_frames s) - clone_frames (mm_mem s) r;
  sc_cr3 : cr3_reg s' = cr3_reg s
}.

Lemma clone_address_space_spec s L r :
  tables_ok s L -> leaves_ok s L r -> Z.land (cr3_reg s) PTE_ADDR_MASK = r -> L !! r = Some (Some r, []) ->
  safe (fa_avail (mm_frames s) < clone_frames (mm_mem s) r) clone_address_space s (space_cloned s L r).
Proof.
  intros Hok Hlv Hcr3 Hr. unfold clone_address_space, clone_frames.
  pose proof (sumZ_nonneg (slot_cost 3 (mm_mem s) r) (seqZ 0 256) (fun i _ => slot_cost_nonneg _ _ _ i)) as Hnn.
  apply safe_bind, safe_alloc; [apply (tok_wf _ _ Hok)|lia|]. intros p s1 Hp.
  apply safe_bind. eapply safe_done; [done|]. cbv beta zeta.
  rewrite (proj1 (fresh_regs _ _ _ Hp)), Hcr3.
  apply safe_bind. eapply safe_mono; [by apply (new_root_spec s L r p s1)|done|].
  intros [] s2 (Hcl & Hav & Hup & Hhi & Hlo). set (L1 := <[p := _]> L) in *.
  pose proof (fresh_frame _ _ _ Hp) as Hfp. pose proof (fresh_unused _ _ _ Hp) as Hnu.
  assert (r <> p) as Hne by (pose proof (fresh_not_table _ _ _ _ Hok Hp); congruence).
  assert (L1 !! p = Some (Some p, [])) as Hp1 by (unfold L1; by rewrite lookup_insert_eq).
  assert (L1 !! r = Some (Some r, [])) as Hr1 by (unfold L1; by rewrite lookup_insert_ne).
  assert (leaves_ok s2 L1 r) as Hlv2 by (by eapply cloned_leaves_root).
  assert (agree_old s L r (mm_mem s2)) as Hag by (by eapply cloned_agree_root).
  assert (sumZ (slot_cost 3 (mm_mem s2) r) (seqZ 0 256) = sumZ (slot_cost 3 (mm_mem s) r) (seqZ 0 256)) as Hcost.
  { apply sumZ_ext. intros i Hi%elem_of_seqZ.
    apply (slot_frame_old r 3 s L r [] (mm_mem s2) ∅ p (fun _ => True)); [done..|right; lia|lia]. }
  apply safe_bind. eapply safe_mono.
  { apply (clone_loop r p Hne 3 _ s2 L1 r p [] 256 (outer_slot r p Hne 1 _ (clone_pdpt_spec r p Hne)));
      [apply Hcl|done|done|done|done|by right|lia|exact Hlo]. }
  { cbv beta. change (Z.of_nat 256) with 256. rewrite Hcost. lia. }
  intros [] s3 (L3 & Hc3 & Hdone & Hkeep & Hav3). eapply safe_done; [done|].
  assert (cloned s L s3 L3 p p) as Hc by (eapply cloned_trans; [done..|by left]).
  constructor.
  - exists L3. split; [apply Hc|]. split; [apply Hc|]. eapply lookup_weaken; [exact Hp1|apply Hc3].
  - done.
  - intros va Hva. pose proof (index_range va 39) as Hi. fold (pgd_index va) in Hi.
    pose proof (indices_ok va) as Hidx. unfold translate, indices in *. apply Forall_cons in Hidx as [_ Hidx].
    eapply (slot_lookup 3 s L r r [] _ p (fun q => ~ fa_used (mm_frames s) q)); [done..|by right|done|done|done|].
    apply (slot_frame_old r 3 s L r [] (mm_mem s2)); [done..|by right|done|].
    eapply slot_frame_new; [done..| |apply Hdone; lia].
    intros q [Hq _] Hq'. by apply Hq, (cl_used _ _ _ _ _ _ Hcl).
  - intros va Hva. eapply kernel_half_same; [done..|]. intros j Hj. rewrite Hkeep by lia. by apply Hhi.
  - intros r' va Hr'.
    apply (cloned_walks s L s3 _ p p r' (Some r', []) (indices va) Hok Hc Hfp Hnu Hr'); [done|apply indices_ok].
  - intros q a Hq Hu Ha. apply (cl_page s L s3 L3 p p q); [done..| |done]. congruence.
  - unfold clone_frames. rewrite Hav3. change (Z.of_nat 256) with 256. rewrite Hcost. lia.
  - apply Hc.
Qed.

(** C4: [clone_address_space] gives the new process a private copy: with enough
    free frames it returns a new root that has the kernel's mappings and
    translates every user page to a frame that was free before, with the same
    flags and the same contents (huge pages are shared); no existing address
    space and no frame in use before changes; exactly one frame per copied page
    and table is taken. *)
Theorem clone_address_space_copies s L r :
  tables_ok s L -> leaves_ok s L r -> Z.land (cr3_reg s) PTE_ADDR_MASK = r -> L !! r = Some (Some r, []) ->
  safe (fa_avail (mm_frames s) < clone_frames (mm_mem s) r) clone_address_space s (fun p s' =>
    (exists L', tables_ok s' L' /\ L ⊆ L' /\ L' !! p = Some (Some p, [])) /\
    ~ fa_used (mm_frames s) p /\
    (forall va, pgd_index va < 256 ->
       same_translation (mm_mem s) (mm_mem s') (fun q => ~ fa_used (mm_frames s) q)
         (translate (mm_mem s) r va) (translate (mm_mem s') p va)) /\
    (forall va, 256 <= pgd_index va -> translate (mm_mem s') p va = translate (mm_mem s) r va) /\
    (forall r' va, L !! r' = Some (Some r', []) -> translate (mm_mem s') r' va = translate (mm_mem s) r' va) /\
    (forall q a, frame_ok q -> fa_used (mm_frames s) q -> page_addr q a -> mm_mem s' !! a = mm_mem s !! a) /\
    fa_avail (mm_frames s') = fa_avail (mm_frames s) - clone_frames (mm_mem s) r).
Proof.
  intros Hok Hlv Hcr3 Hr. eapply safe_mono; [by apply clone_address_space_spec|done|].
  intros p s' []. done.
Qed.
End CloneProperties.
