(* ===== verification/VirtMem.v ===== *)
(** * mm/memory.c, mm/mprotect.c, mm/vmalloc.c, mm/mmap.c: virtual memory

    Unmapping, the page-fault handler and permission changes work on the page
    tables alone ([mm_state]); [vmalloc], [vfree] and [sys_mmap] also use the
    kernel heap, the list nodes and their descriptors ([vm_state]).  Of the
    current task the fault handler reads only the bounds of the user stack. *)

From S2P Require Import Prelude Memory StringLib ListHead Slab PgTable FrameAlloc Paging AddrSpace.

(** ** mm/memory.c *)

Section MemoryC.
Context {A : Type} `{FrameAllocator A}.

Definition paging_init : M (mm_state A) unit := arch_paging_init.

Definition paging_map_page (virt phys flags : Z) : M (mm_state A) unit := arch_map_page virt phys flags.

Definition paging_unmap_page (virt : Z) : M (mm_state A) unit :=
  let* pte := walk_page_table virt in
  if pte =? 0 then kret tt else
  let* e := ld64 pte in
  if present e then st64 pte 0;;; invlpg virt else kret tt.

(** The copy of a copy-on-write page. *)
Definition cow_fault (pte e faulting_address : Z) : M (mm_state A) unit :=
  let old_phys := Z.land e PTE_ADDR_MASK in
  let* new_phys := mm_alloc_page in
  zoom mm_mem set_mm_mem (kmemcpy (phys_to_virt new_phys) (phys_to_virt old_phys) PAGE_SIZE);;;
  st64 pte (Z.lor (Z.lor (Z.lor new_phys PTE_WRITABLE) PTE_USER) PTE_PRESENT);;;
  invlpg (Z.land faulting_address PAGE_MASK).

Definition fault_panic {B} : M (mm_state A) B := khalt "KERNEL PANIC: PAGE FAULT".

(** [current] holds the stack bounds of the current task, if there is one. *)
Definition handle_page_fault (current : option (Z * Z)) (faulting_address error_code : Z) : M (mm_state A) unit :=
  let in_stack := match current with
    | Some (stack_start, stack_end) => (stack_start <=? faulting_address) && (faulting_address <? stack_end)
    | None => false
    end in
  if negb (istrue (Z.land error_code 1)) && in_stack then
    let* phys := mm_alloc_page in
    arch_map_page (Z.land faulting_address PAGE_MASK) phys (Z.lor PTE_WRITABLE PTE_USER)
  else if istrue (Z.land error_code 2) then
    let* pte := walk_page_table faulting_address in
    if pte =? 0 then fault_panic else
    let* e := ld64 pte in
    if present e && istrue (Z.land e PTE_COW) then cow_fault pte e faulting_address else fault_panic
  else fault_panic.

(** ** mm/mprotect.c

    The loop runs while [vaddr < end] in 64-bit arithmetic; [fuel] bounds the
    number of pages, and running out of it is [Spin]. *)
Definition mprotect_page (new_flags vaddr : Z) : M (mm_state A) unit :=
  let* pte := walk_page_table vaddr in
  if pte =? 0 then kret tt else
  let* e := ld64 pte in
  if present e then
    st64 pte (Z.lor (Z.lor (Z.land e (cnot 64 PTE_FLAGS_MASK)) (Z.land new_flags PTE_FLAGS_MASK)) PTE_PRESENT);;;
    invlpg vaddr
  else kret tt.
Fixpoint mprotect_loop (fuel : nat) (vaddr fin new_flags : Z) : M (mm_state A) unit :=
  if fin <=? vaddr then kret tt else
  match fuel with
  | O => kspin
  | S f => mprotect_page new_flags vaddr;;; mprotect_loop f (u64 (vaddr + PAGE_SIZE)) fin new_flags
  end.
Definition sys_mprotect (fuel : nat) (addr len new_flags : Z) : M (mm_state A) unit :=
  mprotect_loop fuel addr (u64 (addr + len)) new_flags.
End MemoryC.

(** ** mm/vmalloc.c and mm/mmap.c *)

Definition VMALLOC_START : Z := 0xFFFFC90000000000.

Record vm_struct := mk_vm_struct { vm_addr : Z; vm_size : Z }.
Record vm_area_struct := mk_vm_area { vm_start : Z; vm_end : Z; vm_flags : Z }.
(** Offsets of the list nodes, and the sizes, of the two structures. *)
Definition vm_struct_list_off : Z := 16.
Definition sizeof_vm_struct : Z := 32.
Definition vm_area_list_off : Z := 24.
Definition sizeof_vm_area : Z := 40.

Record vm_state (A : Type) := mk_vm {
  vm_mm : mm_state A;
  vm_slab : slab_state;
  vm_nodes : nodes;
  vm_structs : gmap Z vm_struct;
  vm_areas : gmap Z vm_area_struct;
  vmalloc_ptr : Z
}.
Arguments mk_vm {A}.
Arguments vm_mm {A}.
Arguments vm_slab {A}.
Arguments vm_nodes {A}.
Arguments vm_structs {A}.
Arguments vm_areas {A}.
Arguments vmalloc_ptr {A}.

Section VmallocC.
Context {A : Type} `{FrameAllocator A}.
(** Addresses of the heap region and of the two list heads. *)
Variables (kernel_heap_region vm_struct_list kernel_vma_list : Z).

Definition set_vm_mm (x : mm_state A) (s : vm_state A) : vm_state A :=
  mk_vm x (vm_slab s) (vm_nodes s) (vm_structs s) (vm_areas s) (vmalloc_ptr s).
Definition set_vm_slab (x : slab_state) (s : vm_state A) : vm_state A :=
  mk_vm (vm_mm s) x (vm_nodes s) (vm_structs s) (vm_areas s) (vmalloc_ptr s).
Definition set_vm_nodes (x : nodes) (s : vm_state A) : vm_state A :=
  mk_vm (vm_mm s) (vm_slab s) x (vm_structs s) (vm_areas s) (vmalloc_ptr s).
Definition set_vm_structs (x : gmap Z vm_struct) (s : vm_state A) : vm_state A :=
  mk_vm (vm_mm s) (vm_slab s) (vm_nodes s) x (vm_areas s) (vmalloc_ptr s).
Definition set_vm_areas (x : gmap Z vm_area_struct) (s : vm_state A) : vm_state A :=
  mk_vm (vm_mm s) (vm_slab s) (vm_nodes s) (vm_structs s) x (vmalloc_ptr s).
Definition set_vmalloc_ptr (x : Z) (s : vm_state A) : vm_state A :=
  mk_vm (vm_mm s) (vm_slab s) (vm_nodes s) (vm_structs s) (vm_areas s) x.

Definition on_mm {B} (m : M (mm_state A) B) : M (vm_state A) B := zoom vm_mm set_vm_mm m.
Definition on_slab {B} (m : M slab_state B) : M (vm_state A) B := zoom vm_slab set_vm_slab m.
Definition on_nodes {B} (m : M nodes B) : M (vm_state A) B := zoom vm_nodes set_vm_nodes m.

(** Memory returned by [kmalloc] is used as a descriptor: its list node comes
    into existence with unspecified contents. *)
Definition new_node (p : Z) : M (vm_state A) unit :=
  kmod (fun s => set_vm_nodes (<[p := mk_list_head 0 0]> (vm_nodes s)) s).

(** The loop of [vmalloc] over the pages. *)
Definition vmalloc_page (_ : Z) : M (vm_state A) unit :=
  let* phys := on_mm mm_alloc_page in
  let* ptr := kgets vmalloc_ptr in
  on_mm (arch_map_page ptr phys PTE_WRITABLE);;;
  kmod (fun s => set_vmalloc_ptr (u64 (vmalloc_ptr s + PAGE_SIZE)) s).

Definition vmalloc (size : Z) : M (vm_state A) Z :=
  if size =? 0 then kret 0 else
  let pages_needed := u32 (u64 (size + PAGE_SIZE - 1) / PAGE_SIZE) in
  let* virt_start := kgets vmalloc_ptr in
  kfor (seqZ 0 pages_needed) vmalloc_page;;;
  let* vm := on_slab (kmalloc kernel_heap_region sizeof_vm_struct) in
  (if vm =? 0 then kret tt else
     kmod (fun s => set_vm_structs (<[vm := mk_vm_struct virt_start (u64 (pages_needed * PAGE_SIZE))]> (vm_structs s)) s);;;
     new_node (vm + vm_struct_list_off);;;
     on_nodes (list_add (vm + vm_struct_list_off) vm_struct_list));;;
  kret virt_start.

(** The pages of a block, in [vfree]. *)
Definition vfree_page (ptr i : Z) : M (vm_state A) unit :=
  let va := u64 (ptr + i * PAGE_SIZE) in
  let* pte := on_mm (walk_page_table va) in
  if pte =? 0 then kret tt else
  let* e := on_mm (ld64 pte) in
  if present e then
    let phys := Z.land e PTE_ADDR_MASK in
    on_mm (zoom mm_frames set_mm_frames (fa_free phys));;;
    on_mm (st64 pte 0);;;
    on_mm (invlpg va)
  else kret tt.

Definition vm_entry (p : Z) : M (vm_state A) vm_struct := kopt (fun s => vm_structs s !! p).

(** The search of the list from the entry at [pos]. *)
Fixpoint vfree_scan (fuel : nat) (pos ptr : Z) : M (vm_state A) unit :=
  match fuel with
  | O => kspin
  | S f =>
      if pos =? vm_struct_list then kret tt else
      let* temp := on_nodes (get_next pos) in
      let entry := pos - vm_struct_list_off in
      let* d := vm_entry entry in
      if vm_addr d =? ptr then
        kfor (seqZ 0 (u32 (vm_size d / PAGE_SIZE))) (vfree_page ptr);;;
        on_nodes (list_del pos);;;
        on_slab (kfree entry)
      else vfree_scan f temp ptr
  end.
Definition vfree (fuel : nat) (ptr : Z) : M (vm_state A) unit :=
  if ptr =? 0 then kret tt else
  let* pos := on_nodes (get_next vm_struct_list) in
  vfree_scan fuel pos ptr.

Definition sys_mmap (addr length flags : Z) : M (vm_state A) unit :=
  let* vma := on_slab (kmalloc kernel_heap_region sizeof_vm_area) in
  if vma =? 0 then kret tt else
  let* start := vmalloc length in
  kmod (fun s => set_vm_areas (<[vma := mk_vm_area start (u64 (start + length)) (u32 flags)]> (vm_areas s)) s);;;
  new_node (vma + vm_area_list_off);;;
  on_nodes (list_add (vma + vm_area_list_off) kernel_vma_list).
End VmallocC.

(** ** Lemmas *)

Section FaultLemmas.
Context {A : Type} `{FrameAllocatorLaws A}.
Implicit Types (s : mm_state A) (L : gmap Z tag).

(** Taking a frame for data keeps the tables. *)
Lemma tables_ok_fresh s L p s' : tables_ok s L -> fresh s p s' -> tables_ok s' L.
Proof.
  intros Hok Hp. constructor.
  - apply (fresh_wf _ _ _ Hp).
  - intros t g Ht. destruct (tok_frame _ _ Hok _ _ Ht) as (? & ? & ? & ?).
    rewrite (fresh_used _ _ _ Hp), (fresh_mem _ _ _ Hp). split_and!; [done|by right|by apply write_list_mapped|done].
  - apply (tok_root _ _ Hok).
  - intros t g i e Ht Hl Hi. erewrite fresh_entry_ne by done. by apply (tok_child _ _ Hok).
Qed.

Lemma fresh_walks s L p s' t g idx :
  tables_ok s L -> fresh s p s' -> L !! t = Some g -> (length (g.2) + length idx = 4)%nat -> idx_ok idx ->
  lookup_from (mm_mem s') t idx = lookup_from (mm_mem s) t idx.
Proof.
  intros Hok Hp Ht Hlen Hidx. apply (lookup_from_sim s L _ idx t g); [done..| |].
  - intros t1 g1 i e Ht1 Hi _ He. exists e. split; [by erewrite fresh_entry_ne|by left].
  - intros t1 Ht1. eapply fresh_entry_ne; [done..|]. by apply final_slot_range.
Qed.

Lemma fresh_translate s L p s' r va :
  tables_ok s L -> fresh s p s' -> L !! r = Some (Some r, []) -> translate (mm_mem s') r va = translate (mm_mem s) r va.
Proof. intros Hok Hp Hr. by apply (fresh_walks s L p s' r (Some r, [])); [..|apply indices_ok]. Qed.

(** The address of the page that holds [va]. *)
Lemma page_mask_div va : 0 <= va < 2 ^ 64 -> Z.land va PAGE_MASK = va / 4096 * 4096.
Proof.
  intros Hva. change 4096 with (2 ^ 12). rewrite <- Z.shiftr_div_pow2, <- Z.shiftl_mul_pow2 by lia.
  apply Z.bits_inj'. intros i Hi. unfold PAGE_MASK.
  rewrite Z.land_spec, testbit_cnot, Z.shiftl_spec by lia.
  replace (PAGE_SIZE - 1) with (Z.ones 12) by reflexivity. rewrite Z.testbit_ones_nonneg by lia.
  destruct (decide (i < 12)).
  - rewrite (proj2 (Z.ltb_lt i 12)) by done. rewrite (Z.testbit_neg_r _ (i - 12)) by lia. by rewrite !andb_false_r.
  - rewrite (proj2 (Z.ltb_ge i 12)), Z.shiftr_spec by lia. replace (i - 12 + 12) with i by lia. simpl negb.
    destruct (decide (i < 64)); [rewrite bool_decide_true by done; by rewrite andb_true_r|].
    rewrite (testbit_range_high va 64) by lia. done.
Qed.

(** The same page has the same indices, hence the same translation. *)
Lemma index_page va k : 12 <= k -> Z.land (Z.shiftr (va / 4096 * 4096) k) 0x1FF = Z.land (Z.shiftr va k) 0x1FF.
Proof.
  intros Hk. f_equal. rewrite !Z.shiftr_div_pow2 by lia. replace (2 ^ k) with (4096 * 2 ^ (k - 12)).
  - rewrite <- !Z.div_div by lia. by rewrite Z.div_mul by lia.
  - change 4096 with (2 ^ 12). rewrite <- Z.pow_add_r by lia. f_equal. lia.
Qed.

Lemma translate_page m r va : translate m r (va / 4096 * 4096) = translate m r va.
Proof.
  unfold translate, indices, pgd_index, pud_index, pmd_index, pte_index. by rewrite !index_page by lia.
Qed.
End FaultLemmas.

(** ** Properties *)

Section FaultProperties.
Context {A : Type} `{FrameAllocatorLaws A}.
Implicit Types (s : mm_state A) (L : gmap Z tag).

(** C18: demand paging: a fault on a page of the user stack that is not present
    returns, unless memory is exhausted, with a new zeroed frame mapped
    writable for the user at that page; every other page of the address space
    keeps its translation.  (The address does not lie inside a huge page.) *)
Theorem demand_paging s L r stack_start stack_end addr err :
  tables_ok s L -> current_pgd s = phys_to_virt r -> L !! r = Some (Some r, []) ->
  not_huge (translate (mm_mem s) r addr) -> 0 <= addr < 2 ^ 64 ->
  stack_start <= addr < stack_end -> Z.testbit err 0 = false ->
  safe (fa_avail (mm_frames s) < 4) (handle_page_fault (Some (stack_start, stack_end)) addr err) s (fun _ s' =>
    exists phys, ~ fa_used (mm_frames s) phys /\ fa_used (mm_frames s') phys /\
      translate (mm_mem s') r addr = Some (Z.lor (Z.lor phys (Z.lor PTE_WRITABLE PTE_USER)) PTE_PRESENT, false) /\
      (forall a, 0 <= a < PAGE_SIZE -> mm_mem s' !! (phys_to_virt phys + a) = Some 0) /\
      (forall va, (addr / 4096) mod 2 ^ 36 <> (va / 4096) mod 2 ^ 36 ->
         translate (mm_mem s') r va = translate (mm_mem s) r va)).
Proof.
  intros Hok Hpgd Hr Hnh Ha Hst Herr. unfold handle_page_fault.
  change 1 with (bit 0). rewrite land_bit_ne0, Herr by lia.
  rewrite (proj2 (Z.leb_le _ _)), (proj2 (Z.ltb_lt _ _)) by lia. simpl negb. cbv iota. simpl andb. cbv iota.
  apply safe_bind, safe_alloc; [apply (tok_wf _ _ Hok)|lia|]. intros p s1 Hp.
  pose proof (fresh_avail _ _ _ Hp) as Hav. pose proof (fresh_frame _ _ _ Hp) as Hfp.
  rewrite page_mask_div by done. pose proof (tables_ok_fresh _ _ _ _ Hok Hp) as Hok1.
  destruct (fresh_regs _ _ _ Hp) as (_ & Hpgd1 & _).
  eapply safe_mono; [apply (arch_map_page_spec s1 L r (addr / 4096 * 4096) p (Z.lor PTE_WRITABLE PTE_USER))| |].
  - done.
  - congruence.
  - done.
  - rewrite translate_page. by erewrite fresh_translate.
  - apply Hfp.
  - by split.
  - lia.
  - intros [] s' (L' & [Hg _ (t3 & e0 & e1 & e2 & Hpath & K0 & K1 & K2 & _) Hw _]). exists p.
    split; [apply (fresh_unused _ _ _ Hp)|].
    split; [apply (gr_used _ _ _ _ Hg), (fresh_used _ _ _ Hp); by left|]. split; [|split].
    + rewrite <- translate_page. unfold leaf_entry in Hpath. rewrite frame_land_mask in Hpath by done.
      eapply (path_translate _ _ (Some r, [])); [exact Hpath|done|exact K0|exact K1|exact K2|].
      rewrite present_bit, Z.lor_spec. apply orb_true_r.
    + intros a Ha'. rewrite (gr_mem _ _ _ _ Hg).
      * rewrite (fresh_mem _ _ _ Hp), lookup_write_list, decide_True.
        -- rewrite zero_page_replicate. apply lookup_replicate. split; [done|]. rewrite PAGE_SIZE_eq in *. lia.
        -- rewrite length_zero_page, Z2Nat.id by by vm_compute. lia.
      * intros t Ht. assert (t <> p) as Hne.
        { intros ->. destruct (L !! p) eqn:E; [by rewrite (fresh_not_table _ _ _ _ Hok Hp) in E|].
          apply (gr_new _ _ _ _ Hg p Ht E), (fresh_used _ _ _ Hp). by left. }
        destruct Ht as [g Ht]. destruct (tok_frame _ _ (gr_ok _ _ _ _ Hg) _ _ Ht) as (Hft & _).
        apply (page_apart p); [done..|congruence|]. unfold page_addr. lia.
    + intros va Hne. rewrite <- (fresh_translate s L p s1 r va) by done.
      apply (Hw r (Some r, [])); [done|done|apply indices_ok|]. apply final_slot_other. left.
      by rewrite Z.div_mul by lia.
Qed.

(** The entry after a change of permissions. *)
Definition reprotect (new_flags e : Z) : Z :=
  Z.lor (Z.lor (Z.land e (cnot 64 PTE_FLAGS_MASK)) (Z.land new_flags PTE_FLAGS_MASK)) PTE_PRESENT.
Definition reprotected (new_flags : Z) (tr : option (Z * bool)) : option (Z * bool) :=
  match tr with Some (e, b) => Some (reprotect new_flags e, b) | None => None end.

Lemma reprotect_facts fl e :
  0 <= e < 2 ^ 64 ->
  0 <= reprotect fl e < 2 ^ 64 /\ present (reprotect fl e) = true /\ frame_of (reprotect fl e) = frame_of e /\
  reprotect fl (reprotect fl e) = reprotect fl e.
Proof.
  intros He. assert (forall e, Z.land (reprotect fl e) PTE_ADDR_MASK = Z.land e PTE_ADDR_MASK) as Hf.
  { intros x. unfold reprotect. rewrite !Z.land_lor_distr_l, <- !Z.land_assoc.
    change (Z.land PTE_FLAGS_MASK PTE_ADDR_MASK) with 0. change (Z.land PTE_PRESENT PTE_ADDR_MASK) with 0.
    change (Z.land (cnot 64 PTE_FLAGS_MASK) PTE_ADDR_MASK) with PTE_ADDR_MASK.
    by rewrite Z.land_0_r, !Z.lor_0_r. }
  split; [|split; [|split]].
  - unfold reprotect. apply lor_bound; [lia| |by split]. apply lor_bound; [lia|by apply land_bound|].
    rewrite Z.land_comm. by apply land_bound.
  - unfold reprotect. rewrite present_bit, Z.lor_spec. apply orb_true_r.
  - apply Hf.
  - unfold reprotect at 1 3. change (cnot 64 PTE_FLAGS_MASK) with PTE_ADDR_MASK. by rewrite Hf.
Qed.

(** The frame is kept and the flags are the new ones. *)
Lemma reprotect_flags fl e :
  frame_of (reprotect fl e) = frame_of e /\ Z.land (reprotect fl e) PTE_FLAGS_MASK = Z.lor (Z.land fl PTE_FLAGS_MASK) PTE_PRESENT.
Proof.
  unfold frame_of, reprotect. change (cnot 64 PTE_FLAGS_MASK) with PTE_ADDR_MASK. rewrite !Z.land_lor_distr_l, <- !Z.land_assoc.
  change (Z.land PTE_FLAGS_MASK PTE_ADDR_MASK) with 0. change (Z.land PTE_PRESENT PTE_ADDR_MASK) with 0.
  change (Z.land PTE_ADDR_MASK PTE_FLAGS_MASK) with 0. change (Z.land PTE_PRESENT PTE_FLAGS_MASK) with PTE_PRESENT.
  by rewrite !Z.land_0_r, !Z.lor_0_r, Z.lor_0_l, !Z.land_diag.
Qed.

(** One page. *)
Lemma mprotect_page_spec s L r fl virt :
  tables_ok s L -> current_pgd s = phys_to_virt r -> L !! r = Some (Some r, []) ->
  not_huge (translate (mm_mem s) r virt) ->
  safe False (mprotect_page fl virt) s (fun _ s' =>
    tables_ok s' L /\ current_pgd s' = phys_to_virt r /\
    translate (mm_mem s') r virt = reprotected fl (translate (mm_mem s) r virt) /\
    (forall va, (virt / 4096) mod 2 ^ 36 <> (va / 4096) mod 2 ^ 36 ->
       translate (mm_mem s') r va = translate (mm_mem s) r va)).
Proof.
  intros Hok Hpgd Hr Hnh. unfold mprotect_page. apply safe_bind.
  eapply safe_mono; [by apply walk_page_table_found|done|].
  intros a s' (-> & [[-> Hnone]|(t3 & Ht3 & -> & Hne & Htr)]).
  - eapply safe_done; [done|]. by rewrite Hnone.
  - rewrite (proj2 (Z.eqb_neq _ _) Hne).
    destruct (tok_entry _ _ _ _ (pte_index virt) Hok Ht3) as (e & He & Her); [apply index_range|].
    apply safe_bind, (safe_ld64 _ _ _ e); [exact He|].
    assert (translate (mm_mem s) r virt = if present e then Some (e, false) else None) as Htre.
    { rewrite Htr by done. cbn [lookup_from]. rewrite He. by destruct (present e). }
    destruct (present e) eqn:Hp; [|eapply safe_done; [done|]; by rewrite Htre].
    destruct (tok_frame _ _ Hok _ _ Ht3) as (_ & _ & Hm & _).
    apply safe_bind, safe_st64; [apply slot_mapped; [done|apply index_range]|].
    destruct (reprotect_facts fl e Her) as (Hvr & Hvp & _).
    destruct (leaf_update s L r virt t3 (reprotect fl e) Hok Hr Ht3 Htr Hvr) as (Hg & Hnew & Hoth).
    eapply safe_done; [done|]. split; [destruct (gr_ok _ _ _ _ Hg); by constructor|]. split; [done|].
    split; [|exact Hoth]. rewrite Htre. etrans; [exact Hnew|]. by rewrite Hvp.
Qed.

(** The page of [va] is one of the [n] pages from [vaddr]. *)
Definition in_pages (vaddr : Z) (n : nat) (va : Z) : Prop :=
  exists k, 0 <= k < Z.of_nat n /\ ((vaddr + k * 4096) / 4096) mod 2 ^ 36 = (va / 4096) mod 2 ^ 36.

#[global] Instance in_pages_dec vaddr n va : Decision (in_pages vaddr n va).
Proof.
  destruct (decide (Exists (fun k => ((vaddr + k * 4096) / 4096) mod 2 ^ 36 = (va / 4096) mod 2 ^ 36)
    (seqZ 0 (Z.of_nat n)))) as [Hy|Hn].
  - left. apply Exists_exists in Hy as (k & Hk%elem_of_seqZ & E). exists k. split; [lia|done].
  - right. intros (k & Hk & E). apply Hn, Exists_exists. exists k. split; [apply elem_of_seqZ; lia|done].
Defined.

Lemma translate_same_page m r va va' :
  (va / 4096) mod 2 ^ 36 = (va' / 4096) mod 2 ^ 36 -> translate m r va = translate m r va'.
Proof.
  intros E. unfold translate, indices, pgd_index, pud_index, pmd_index, pte_index. rewrite !index_field by lia.
  assert (forall x, (x / 2 ^ 39) mod 512 = ((x / 4096) mod 2 ^ 36 / 2 ^ 27) mod 512 /\
    (x / 2 ^ 30) mod 512 = ((x / 4096) mod 2 ^ 36 / 2 ^ 18) mod 512 /\
    (x / 2 ^ 21) mod 512 = ((x / 4096) mod 2 ^ 36 / 2 ^ 9) mod 512 /\
    (x / 2 ^ 12) mod 512 = ((x / 4096) mod 2 ^ 36) mod 512) as D.
  { intros x. replace (x / 2 ^ 39) with (x / 4096 / 2 ^ 27) by (by rewrite Z.div_div by lia).
    replace (x / 2 ^ 30) with (x / 4096 / 2 ^ 18) by (by rewrite Z.div_div by lia).
    replace (x / 2 ^ 21) with (x / 4096 / 2 ^ 9) by (by rewrite Z.div_div by lia).
    change (2 ^ 12) with 4096. generalize (x / 4096) as y. intros y. Z.div_mod_to_equations. lia. }
  destruct (D va) as (-> & -> & -> & ->), (D va') as (-> & -> & -> & ->). by rewrite E.
Qed.

Lemma reprotected_idem fl tr : reprotected fl (reprotected fl tr) = reprotected fl tr.
Proof.
  destruct tr as [[e b]|]; [|done]. simpl. do 2 f_equal. unfold reprotect at 1 3.
  f_equal. f_equal. unfold reprotect. change (cnot 64 PTE_FLAGS_MASK) with PTE_ADDR_MASK.
  rewrite !Z.land_lor_distr_l, <- !Z.land_assoc.
  change (Z.land PTE_FLAGS_MASK PTE_ADDR_MASK) with 0. change (Z.land PTE_PRESENT PTE_ADDR_MASK) with 0.
  by rewrite Z.land_0_r, !Z.lor_0_r, Z.land_diag.
Qed.

Lemma reprotected_either fl tr (P Q R : Prop) `{!Decision P} `{!Decision Q} `{!Decision R} :
  (R <-> P \/ Q) ->
  (if decide Q then reprotected fl (if decide P then reprotected fl tr else tr)
   else if decide P then reprotected fl tr else tr) = if decide R then reprotected fl tr else tr.
Proof.
  intros HR. destruct (decide P), (decide Q), (decide R); try done; try tauto. apply reprotected_idem.
Qed.

Lemma in_pages_S vaddr n va :
  in_pages vaddr (S n) va <->
  (vaddr / 4096) mod 2 ^ 36 = (va / 4096) mod 2 ^ 36 \/ in_pages (vaddr + 4096) n va.
Proof.
  split.
  - intros (k & Hk & E). destruct (decide (k = 0)) as [-> |]; [left; by rewrite Z.add_0_r in E|].
    right. exists (k - 1). split; [lia|]. by replace (vaddr + 4096 + (k - 1) * 4096) with (vaddr + k * 4096) by lia.
  - intros [E|(k & Hk & E)]; [exists 0; split; [lia|by rewrite Z.add_0_r]|].
    exists (k + 1). split; [lia|]. by replace (vaddr + (k + 1) * 4096) with (vaddr + 4096 + k * 4096) by lia.
Qed.

Lemma mprotect_loop_spec L r fl n fuel s vaddr fin :
  tables_ok s L -> current_pgd s = phys_to_virt r -> L !! r = Some (Some r, []) ->
  (n <= fuel)%nat -> 0 <= vaddr -> vaddr + Z.of_nat n * 4096 < 2 ^ 64 ->
  fin <= vaddr + Z.of_nat n * 4096 -> ((0 < n)%nat -> vaddr + (Z.of_nat n - 1) * 4096 < fin) ->
  (forall va, in_pages vaddr n va -> not_huge (translate (mm_mem s) r va)) ->
  safe False (mprotect_loop fuel vaddr fin fl) s (fun _ s' =>
    tables_ok s' L /\ current_pgd s' = phys_to_virt r /\
    forall va, translate (mm_mem s') r va =
      if decide (in_pages vaddr n va) then reprotected fl (translate (mm_mem s) r va)
      else translate (mm_mem s) r va).
Proof.
  intros Hok Hpgd Hr. revert fuel s vaddr Hok Hpgd.
  induction n as [|n IH]; intros fuel s vaddr Hok Hpgd Hf Hv Hw Hhi Hlo Hnh.
  - assert ((fin <=? vaddr) = true) as E by (apply Z.leb_le; lia).
    destruct fuel; cbn [mprotect_loop]; rewrite E; (eapply safe_done; [done|]); (split; [done|]); (split; [done|]);
      intros va; (rewrite decide_False; [done|]); intros (k & Hk & _); lia.
  - destruct fuel as [|fuel]; [lia|]. cbn [mprotect_loop]. specialize (Hlo ltac:(lia)).
    rewrite (proj2 (Z.leb_gt _ _)) by lia. apply safe_bind.
    eapply safe_mono; [apply (mprotect_page_spec s L r fl vaddr)|done|]; [done..| |].
    { apply Hnh, in_pages_S. by left. }
    intros [] s1 (Hok1 & Hpgd1 & Hnew & Hoth).
    assert (forall va, translate (mm_mem s1) r va =
      if decide ((vaddr / 4096) mod 2 ^ 36 = (va / 4096) mod 2 ^ 36)
      then reprotected fl (translate (mm_mem s) r va) else translate (mm_mem s) r va) as H1.
    { intros va. destruct (decide _) as [E|Hne]; [|by apply Hoth].
      rewrite <- (translate_same_page (mm_mem s1) r vaddr va), <- (translate_same_page (mm_mem s) r vaddr va) by done.
      done. }
    rewrite PAGE_SIZE_eq, wrap_small by lia.
    eapply safe_mono; [apply (IH fuel s1 (vaddr + 4096))|done|]; [done|done|lia|lia|lia|lia|lia| |].
    { intros va Hin. rewrite H1. destruct (decide _) as [_|_]; [|by apply Hnh, in_pages_S; right].
      assert (not_huge (translate (mm_mem s) r va)) as Hn by (apply Hnh, in_pages_S; by right).
      intros e. destruct (translate (mm_mem s) r va) as [[e' []]|]; [|done..]. by destruct (Hn e'). }
    intros [] s' (Hok' & Hpgd' & H'). split; [done|]. split; [done|]. intros va. rewrite H', H1.
    apply reprotected_either, in_pages_S.
Qed.

(** The page of [va] meets the range of [len] bytes from [addr]. *)
Definition in_range (addr len va : Z) : Prop :=
  exists x, addr <= x < addr + len /\ (x / 4096) mod 2 ^ 36 = (va / 4096) mod 2 ^ 36.

(** The range meets one page more than [len] bytes take from a page boundary. *)
Definition straddles (addr len : Z) : Prop := (len + 4095) / 4096 * 4096 < addr mod 4096 + len.
#[global] Instance straddles_dec addr len : Decision (straddles addr len).
Proof. unfold straddles. apply _. Defined.

(** The part of the range the loop reaches: [vaddr] steps from [addr], not from
    the page boundary below it, so the last page of a straddling range is left
    out. *)
Definition reached (addr len : Z) : Z := if decide (straddles addr len) then (addr + len - 1) / 4096 * 4096 - addr else len.

Lemma reached_pages addr len va :
  0 <= addr -> 0 <= len -> in_range addr (reached addr len) va <-> in_pages addr (Z.to_nat ((len + 4095) / 4096)) va.
Proof.
  intros Ha Hl. unfold in_range, in_pages, reached, straddles. set (n := (len + 4095) / 4096).
  assert (len <= n * 4096 < len + 4096) as Hn by (unfold n; Z.div_mod_to_equations; lia).
  assert (addr = addr / 4096 * 4096 + addr mod 4096 /\ 0 <= addr mod 4096 < 4096) as [Ea Ho] by (Z.div_mod_to_equations; lia).
  rewrite Z2Nat.id by lia. set (q := addr / 4096) in *. set (o := addr mod 4096) in *.
  assert (forall k, (addr + k * 4096) / 4096 = q + k) as Hpage by (intros k; apply Z.div_add; lia).
  assert (n * 4096 < o + len -> (addr + len - 1) / 4096 = q + n) as Hlast.
  { intros Hs. symmetry. apply (Z.div_unique _ _ _ (o + len - 1 - n * 4096)); lia. }
  split.
  - intros (x & Hx & E). exists (x / 4096 - q). rewrite Hpage. replace (q + (x / 4096 - q)) with (x / 4096) by lia.
    split; [|done]. destruct (decide _) as [Hs|Hs]; [rewrite (Hlast Hs) in Hx|]; clear Hlast Hpage E; Z.div_mod_to_equations; lia.
  - intros (k & Hk & E). rewrite Hpage in E. exists (if decide (k = 0) then addr else (q + k) * 4096).
    split; [destruct (decide (n * 4096 < _)) as [Hs|Hs]; [rewrite (Hlast Hs)|]; case_decide; lia|].
    rewrite <- E. f_equal. case_decide as Hk0; [rewrite Hk0, Z.add_0_r; done|by rewrite Z.div_mul by lia].
Qed.

(** The last page of a straddling range is not reached. *)
Lemma last_page_missed addr len :
  0 <= addr -> 0 < len <= 2 ^ 47 -> straddles addr len ->
  in_range addr len (addr + len - 1) /\ ~ in_range addr (reached addr len) (addr + len - 1).
Proof.
  intros Ha Hl Hs. split; [exists (addr + len - 1); split; [lia|done]|]. rewrite reached_pages by lia. intros (k & Hk & E). revert E.
  unfold straddles in Hs. set (n := (len + 4095) / 4096) in *.
  assert (len <= n * 4096 < len + 4096) as Hn by (unfold n; Z.div_mod_to_equations; lia).
  assert ((addr + len - 1) / 4096 = addr / 4096 + n) as ->.
  { symmetry. apply (Z.div_unique _ _ _ (addr mod 4096 + len - 1 - n * 4096)); Z.div_mod_to_equations; lia. }
  rewrite Z2Nat.id in Hk by lia. rewrite Z.div_add by lia. intros E.
  assert ((n - k) mod 2 ^ 36 = 0) as E0.
  { replace (n - k) with ((addr / 4096 + n) - (addr / 4096 + k)) by lia. rewrite Zminus_mod, E, Z.sub_diag. done. }
  rewrite Z.mod_small in E0 by lia. lia.
Qed.

Lemma reached_aligned addr len : addr mod 4096 = 0 -> 0 <= len -> reached addr len = len.
Proof. intros Ha Hl. unfold reached, straddles. rewrite decide_False; [done|]. Z.div_mod_to_equations. lia. Qed.

(** C27: [sys_mprotect] ends after one step per page, if the range does not end in
    the last page of the address space and meets no huge page.  Every page that
    the reached part of the range meets keeps its frame and gets the new flags if
    it is present, and the translation of every other page of the address space is
    unchanged.  The reached part is the whole range when [addr] is page aligned.
    When it is not, and the range extends over one page more than its length
    takes, the last page of the range is in the range but keeps its old flags. *)
Theorem sys_mprotect_range s L r fuel addr len fl :
  tables_ok s L -> current_pgd s = phys_to_virt r -> L !! r = Some (Some r, []) ->
  0 <= addr -> 0 <= len -> addr + len + 4096 <= 2 ^ 64 -> (len + 4095) / 4096 <= Z.of_nat fuel ->
  (forall va, in_range addr (reached addr len) va -> not_huge (translate (mm_mem s) r va)) ->
  exists s', sys_mprotect fuel addr len fl s = Done (tt, s') /\ tables_ok s' L /\
    (forall va,
      (in_range addr (reached addr len) va -> forall e b, translate (mm_mem s) r va = Some (e, b) ->
         exists e', translate (mm_mem s') r va = Some (e', b) /\ frame_of e' = frame_of e /\
           Z.land e' PTE_FLAGS_MASK = Z.lor (Z.land fl PTE_FLAGS_MASK) PTE_PRESENT) /\
      (translate (mm_mem s) r va = None \/ ~ in_range addr (reached addr len) va ->
         translate (mm_mem s') r va = translate (mm_mem s) r va)) /\
    (addr mod 4096 = 0 -> reached addr len = len) /\
    (straddles addr len -> 0 < len <= 2 ^ 47 -> in_range addr len (addr + len - 1) /\
       translate (mm_mem s') r (addr + len - 1) = translate (mm_mem s) r (addr + len - 1)).
Proof.
  intros Hok Hpgd Hr Ha Hl Hend Hf Hnh. unfold sys_mprotect.
  assert (forall va, in_range addr (reached addr len) va <-> in_pages addr (Z.to_nat ((len + 4095) / 4096)) va) as Hin
    by (intros va; by apply reached_pages).
  set (n := Z.to_nat ((len + 4095) / 4096)) in *.
  assert (0 <= (len + 4095) / 4096) as Hn0 by (apply Z.div_pos; lia).
  assert (len <= Z.of_nat n * 4096 < len + 4096) as Hn by (unfold n; rewrite Z2Nat.id by done; Z.div_mod_to_equations; lia).
  destruct (safe_inv _ _ _ (mprotect_loop_spec L r fl n fuel s addr (u64 (addr + len)) Hok Hpgd Hr
    ltac:(lia) Ha ltac:(lia) ltac:(rewrite wrap_small by lia; lia) ltac:(rewrite wrap_small by lia; lia)
    ltac:(intros va Hva; by apply Hnh, Hin)))
    as ([] & s' & Hrun & Hok' & _ & Htr).
  assert (forall va, ~ in_range addr (reached addr len) va -> translate (mm_mem s') r va = translate (mm_mem s) r va) as Hout.
  { intros va Hva. rewrite Htr, decide_False; [done|]. by rewrite <- Hin. }
  exists s'. split; [done|]. split; [done|]. split; [|split].
  - intros va. split; [|intros [Hnone|Hva]; [|by apply Hout]].
    + intros Hva e b E. rewrite Htr, decide_True by (by apply Hin). rewrite E. exists (reprotect fl e). split; [done|].
      by apply reprotect_flags.
    + rewrite Htr, Hnone. by destruct (decide _).
  - intros Hal. by apply reached_aligned.
  - intros Hs Hlen. destruct (last_page_missed addr len Ha Hlen Hs) as [H1 H2]. split; [done|]. by apply Hout.
Qed.
End FaultProperties.

(** ** [vmalloc] *)

Section VmallocProperties.
Context {A : Type} `{FrameAllocatorLaws A}.
Implicit Types (s : mm_state A) (L : gmap Z tag).

Lemma safe_zoom {S T B} stop (get : S -> T) (set : T -> S -> S) (m : M T B) (st : S) Q :
  safe stop m (get st) (fun b t => Q b (set t st)) -> safe stop (zoom get set m) st Q.
Proof. unfold safe, zoom. by destruct (m (get st)) as [[b t]| | |]. Qed.

(** The first [i] pages are mapped, to the frames [ps]. *)
Record vmalloc_inv (s : mm_state A) (r v0 : Z) (i : Z) (ps : list Z) (s' : mm_state A) : Prop := {
  vi_tables : exists L', tables_ok s' L' /\ L' !! r = Some (Some r, []);
  vi_pgd : current_pgd s' = phys_to_virt r;
  vi_len : Z.of_nat (length ps) = i;
  vi_nodup : NoDup ps;
  vi_fresh p : p ∈ ps -> ~ fa_used (mm_frames s) p /\ fa_used (mm_frames s') p;
  vi_used q : fa_used (mm_frames s) q -> fa_used (mm_frames s') q;
  vi_mapped k p : ps !! k = Some p ->
    translate (mm_mem s') r (v0 + Z.of_nat k * 4096) = Some (Z.lor (Z.lor p PTE_WRITABLE) PTE_PRESENT, false);
  vi_other va : ~ in_pages v0 (length ps) va -> translate (mm_mem s') r va = translate (mm_mem s) r va;
  vi_avail : fa_avail (mm_frames s) - 4 * i <= fa_avail (mm_frames s')
}.

Lemma pages_distinct v0 k i :
  0 <= v0 -> v0 mod 4096 = 0 -> 0 <= k < i -> i < 2 ^ 36 ->
  ((v0 + i * 4096) / 4096) mod 2 ^ 36 <> ((v0 + k * 4096) / 4096) mod 2 ^ 36.
Proof.
  intros Hv Ha Hk Hi. rewrite !Z.div_add by lia. generalize (v0 / 4096). intros b E.
  assert ((i - k) mod 2 ^ 36 = 0) as E0.
  { replace (i - k) with ((b + i) - (b + k)) by lia. rewrite Zminus_mod, E, Z.sub_diag. done. }
  rewrite Z.mod_small in E0 by lia. lia.
Qed.

Lemma vmalloc_step s r v0 i ps s1 :
  vmalloc_inv s r v0 i ps s1 -> 0 <= v0 -> v0 mod 4096 = 0 -> 0 <= i < 2 ^ 36 ->
  not_huge (translate (mm_mem s) r (v0 + i * 4096)) ->
  safe (fa_avail (mm_frames s) < 4 * (i + 1))
    (let* phys := mm_alloc_page in arch_map_page (v0 + i * 4096) phys PTE_WRITABLE) s1
    (fun _ s2 => exists p, vmalloc_inv s r v0 (i + 1) (ps ++ [p]) s2).
Proof.
  intros [(L1 & Hok & Hr) Hpgd Hlen Hnd Hfr Hus Hmp Hot Hav] Hv Hal Hi Hnh.
  apply safe_bind, safe_alloc; [apply (tok_wf _ _ Hok)|lia|]. intros p s2 Hp.
  pose proof (fresh_avail _ _ _ Hp) as Hav2. pose proof (tables_ok_fresh _ _ _ _ Hok Hp) as Hok2.
  destruct (fresh_regs _ _ _ Hp) as (_ & Hpgd2 & _).
  assert (forall va, translate (mm_mem s2) r va = translate (mm_mem s1) r va) as Ht2 by (intros; by eapply fresh_translate).
  assert (~ in_pages v0 (length ps) (v0 + i * 4096)) as Hnew.
  { intros (k & Hk & E). symmetry in E. revert E. apply pages_distinct; [done|done|lia|lia]. }
  eapply safe_mono; [apply (arch_map_page_spec s2 L1 r (v0 + i * 4096) p PTE_WRITABLE)| |];
    [done|congruence|done|by rewrite Ht2, Hot|apply (fresh_frame _ _ _ Hp)|by split|lia|].
  intros [] s3 (L3 & [Hg Hav3 (t3 & e0 & e1 & e2 & Hpath & K0 & K1 & K2 & _) Hw _]). exists p.
  assert (forall va, ((v0 + i * 4096) / 4096) mod 2 ^ 36 <> (va / 4096) mod 2 ^ 36 ->
    translate (mm_mem s3) r va = translate (mm_mem s1) r va) as Hkeep.
  { intros va Hne. rewrite <- Ht2. apply (Hw r (Some r, [])); [done|done|apply indices_ok|].
    apply final_slot_other. by left. }
  constructor.
  - exists L3. split; [apply Hg|]. by eapply grown_lookup.
  - destruct (gr_regs _ _ _ _ Hg). congruence.
  - rewrite length_app. simpl. lia.
  - apply nodup_snoc; [done|]. intros Hin. apply (fresh_unused _ _ _ Hp). by apply Hfr.
  - intros q [Hq| ->%list_elem_of_singleton]%elem_of_app.
    + destruct (Hfr q Hq) as [? Hu]. split; [done|]. apply (gr_used _ _ _ _ Hg), (fresh_used _ _ _ Hp). by right.
    + split; [intros Hu; by apply (fresh_unused _ _ _ Hp), Hus|].
      apply (gr_used _ _ _ _ Hg), (fresh_used _ _ _ Hp). by left.
  - intros q Hq. apply (gr_used _ _ _ _ Hg), (fresh_used _ _ _ Hp). right. by apply Hus.
  - intros k q [Hk|(Hk & Hq)]%lookup_app_Some.
    + pose proof (lookup_lt_Some _ _ _ Hk). rewrite Hkeep; [by apply Hmp|]. apply pages_distinct; [done|done|lia|lia].
    + apply list_lookup_singleton_Some in Hq as [Hk0 <-]. replace (Z.of_nat k) with i by lia.
      unfold leaf_entry in Hpath. rewrite frame_land_mask in Hpath by apply (fresh_frame _ _ _ Hp).
      eapply (path_translate _ _ (Some r, [])); [exact Hpath|done|exact K0|exact K1|exact K2|].
      rewrite present_bit, Z.lor_spec. apply orb_true_r.
  - intros va Hva. rewrite length_app in Hva. rewrite Hkeep.
    + apply Hot. intros (k & Hk & E). apply Hva. exists k. split; [simpl; lia|done].
    + intros E. apply Hva. exists i. split; [simpl; lia|done].
  - lia.
Qed.

Context (base head vmas : Z).

Lemma vmalloc_page_eq i (v : vm_state A) :
  vmalloc_page i v =
  (on_mm (let* phys := mm_alloc_page in arch_map_page (vmalloc_ptr v) phys PTE_WRITABLE);;;
   kmod (fun v => set_vmalloc_ptr (u64 (vmalloc_ptr v + PAGE_SIZE)) v)) v.
Proof.
  unfold vmalloc_page, on_mm, kbind, zoom, kgets, kmod.
  destruct (mm_alloc_page (vm_mm v)) as [[p m]| | |]; [|done..]. simpl.
  by destruct (arch_map_page (vmalloc_ptr v) p PTE_WRITABLE m) as [[[] m']| | |].
Qed.

(** The loop over the pages. *)
Lemma vmalloc_loop (v : vm_state A) L r (n : nat) :
  tables_ok (vm_mm v) L -> L !! r = Some (Some r, []) -> current_pgd (vm_mm v) = phys_to_virt r ->
  0 <= vmalloc_ptr v -> vmalloc_ptr v mod 4096 = 0 -> vmalloc_ptr v + Z.of_nat n * 4096 < 2 ^ 64 ->
  Z.of_nat n < 2 ^ 36 ->
  (forall va, in_pages (vmalloc_ptr v) n va -> not_huge (translate (mm_mem (vm_mm v)) r va)) ->
  safe (fa_avail (mm_frames (vm_mm v)) < 4 * Z.of_nat n) (kfor (seqZ 0 (Z.of_nat n)) vmalloc_page) v
    (fun _ v' => exists ps mm', vmalloc_inv (vm_mm v) r (vmalloc_ptr v) (Z.of_nat n) ps mm' /\
       v' = set_vmalloc_ptr (vmalloc_ptr v + Z.of_nat n * 4096) (set_vm_mm mm' v)).
Proof.
  intros Hok Hr Hpgd Hv Hal Hend Hn36 Hnh.
  apply (safe_for_seqZ _ _ (fun i v' => exists ps mm', vmalloc_inv (vm_mm v) r (vmalloc_ptr v) i ps mm' /\
       v' = set_vmalloc_ptr (vmalloc_ptr v + i * 4096) (set_vm_mm mm' v))).
  - exists [], (vm_mm v). split; [|rewrite Z.add_0_r; by destruct v].
    constructor; [by exists L|done|done|apply NoDup_nil_2|by intros ? ?%elem_of_nil|done|done|done|lia].
  - intros i v1 Hi (ps & mm1 & Hinv & ->). unfold safe at 1. rewrite vmalloc_page_eq. apply safe_bind, safe_zoom.
    cbn [vm_mm set_vmalloc_ptr set_vm_mm vmalloc_ptr]. eapply safe_mono; [apply (vmalloc_step _ _ _ _ _ _ Hinv)| |].
    + done.
    + done.
    + lia.
    + apply Hnh. exists i. split; [lia|done].
    + lia.
    + intros [] mm2 (p & Hinv2). eapply safe_done; [done|]. exists (ps ++ [p]), mm2. split; [exact Hinv2|].
      unfold set_vmalloc_ptr, set_vm_mm. cbn [vmalloc_ptr vm_mm vm_slab vm_nodes vm_structs vm_areas].
      rewrite PAGE_SIZE_eq, wrap_small by lia. f_equal. lia.
Qed.

(** The descriptor of the block: it is put in front of the list, in the memory
    [kmalloc] returns; only when the heap has no room for it nothing is recorded. *)
Definition described (v v' : vm_state A) (v0 size : Z) (xs : list Z) : Prop :=
  let vm := base + heap_ptr (vm_slab v) in
  if heap_ptr (vm_slab v) + sizeof_vm_struct <=? kernel_heap_size
  then dll (vm_nodes v') head (vm + vm_struct_list_off :: xs) /\ vm_structs v' = <[vm := mk_vm_struct v0 size]> (vm_structs v)
  else vm_nodes v' = vm_nodes v /\ vm_structs v' = vm_structs v.

End VmallocProperties.

(** ** Pages of data *)

Section DataPages.
Context {A : Type} `{FrameAllocatorLaws A}.
Implicit Types (s : mm_state A) (L : gmap Z tag).

(** Writing into a frame that is not a table, at an offset and from its start. *)
Lemma data_write_at s L p off l :
  tables_ok s L -> frame_ok p -> L !! p = None -> Forall is_byte l -> 0 <= off -> off + Z.of_nat (length l) <= 4096 ->
  let s' := set_mm_mem (write_list (mm_mem s) (phys_to_virt p + off) l) s in
  tables_ok s' L /\ (forall a, ~ page_addr p a -> mm_mem s' !! a = mm_mem s !! a) /\
  (forall t g idx, L !! t = Some g -> (length (g.2) + length idx = 4)%nat -> idx_ok idx ->
     lookup_from (mm_mem s') t idx = lookup_from (mm_mem s) t idx).
Proof.
  intros Hok Hp HL Hb Ho Hl s'.
  assert (forall a, ~ page_addr p a -> mm_mem s' !! a = mm_mem s !! a) as Hm.
  { intros a Ha. unfold s'. rewrite mm_mem_set. apply lookup_write_list_out. unfold page_addr in Ha. rewrite PAGE_SIZE_eq in Ha. lia. }
  assert (forall t g i, L !! t = Some g -> 0 <= i < 512 -> entry (mm_mem s') t i = entry (mm_mem s) t i) as He.
  { intros t g i Ht Hi. apply peekn_eq. intros x Hx. apply Hm. destruct (tok_frame _ _ Hok _ _ Ht) as (Hf & _).
    apply (page_apart t p x Hf Hp ltac:(congruence)). by apply (slot_page t i). }
  split; [|split; [done|]].
  - constructor.
    + apply fa_wf_write; [apply (tok_wf _ _ Hok)|done].
    + intros t g Ht. destruct (tok_frame _ _ Hok _ _ Ht) as (? & ? & ? & ?). split; [done|]. split; [by apply fa_used_set|].
      split; [|done]. unfold s'. rewrite mm_mem_set. by apply write_list_mapped.
    + apply (tok_root _ _ Hok).
    + intros t g i e Ht Hg Hi Hent. rewrite (He t g) in Hent by done. by apply (tok_child _ _ Hok t g i e).
  - intros t g idx Ht Hlen Hidx. apply (lookup_from_sim s L _ idx t g); [done..| |].
    + intros t1 g1 i e Ht1 Hi _ Hent. exists e. split; [by rewrite (He t1 g1)|by left].
    + intros t1 Ht1. apply (He t1 _ _ Ht1). by apply final_slot_range.
Qed.
Lemma data_write s L p l :
  tables_ok s L -> frame_ok p -> L !! p = None -> Forall is_byte l -> (length l <= 4096)%nat ->
  let s' := set_mm_mem (write_list (mm_mem s) (phys_to_virt p) l) s in
  tables_ok s' L /\ (forall a, ~ page_addr p a -> mm_mem s' !! a = mm_mem s !! a) /\
  (forall t g idx, L !! t = Some g -> (length (g.2) + length idx = 4)%nat -> idx_ok idx ->
     lookup_from (mm_mem s') t idx = lookup_from (mm_mem s) t idx).
Proof.
  intros Hok Hp HL Hb Hl. rewrite <- (Z.add_0_r (phys_to_virt p)). apply data_write_at; [done..|lia|lia].
Qed.

(** The frames of tables added by a mapping are not those of data. *)
Lemma grown_not_data s L s' L' q :
  grown s L s' L' -> L !! q = None -> fa_used (mm_frames s) q -> L' !! q = None.
Proof.
  intros Hg HL Hu. destruct (L' !! q) eqn:E; [|done]. exfalso. by apply (gr_new _ _ _ _ Hg q).
Qed.
Lemma grown_page s L s' L' q a :
  grown s L s' L' -> frame_ok q -> L !! q = None -> fa_used (mm_frames s) q -> page_addr q a -> mm_mem s' !! a = mm_mem s !! a.
Proof.
  intros Hg Hq HL Hu Ha. apply (gr_mem _ _ _ _ Hg). intros t [g Ht]. destruct (tok_frame _ _ (gr_ok _ _ _ _ Hg) _ _ Ht) as (Hf & _).
  apply (page_apart q t a Hq Hf); [|done]. intros ->. by rewrite (grown_not_data _ _ _ _ _ Hg HL Hu) in Ht.
Qed.

Lemma bytes_page m m' q l :
  (length l <= 4096)%nat -> (forall a, page_addr q a -> m' !! a = m !! a) -> bytes_at m (phys_to_virt q) l -> bytes_at m' (phys_to_virt q) l.
Proof. intros Hl Heq. apply bytes_at_frame. intros x Hx. apply Heq. unfold page_addr. rewrite PAGE_SIZE_eq. lia. Qed.
End DataPages.
