(* ===== verification/PagingInst.v ===== *)
(** * The page tables on top of the bitmap allocator

    The theorems of [Paging], [AddrSpace] and [VirtMem] are stated for any frame allocator;
    here they are instantiated with [mm/page_alloc.c] on a small machine, whose
    invariants are established by evaluation. *)

From S2P Require Import Prelude Memory StringLib ListHead Slab PgTable FrameAlloc PageAlloc Paging AddrSpace VirtMem.

(** ** Decision procedures for the invariants *)

Definition link_okb (m : mem) (L : gmap Z tag) (t : Z) (g : tag) (i : Z) : bool :=
  match entry m t i with
  | Some e => negb (is_link g e && (length (g.2) <? 3)%nat) || bool_decide (L !! frame_of e = Some (child g i))
  | None => true
  end.
Definition frame_okb (s : pmm_state) (p : Z) : bool :=
  (0 <=? p) && (p <? 2 ^ 47) && (p mod 4096 =? 0) && (p / 4096 <? pmm_pages_total s) &&
  page_used (pmm_bitmap s) (p / 4096).
Definition table_okb (s : mm_state pmm_state) (L : gmap Z tag) (t : Z) (g : tag) : bool :=
  frame_okb (mm_frames s) t && (length (g.2) <=? 3)%nat &&
  (bool_decide (g.2 <> []) || bool_decide (g.1 = Some t)) &&
  forallb (link_okb (mm_mem s) L t g) (seqZ 0 512).
Definition leaf_okb (s : mm_state pmm_state) (L : gmap Z tag) (t : Z) (g : tag) (i : Z) : bool :=
  match entry (mm_mem s) t i with
  | Some e => negb (present e) ||
      ((negb (length (g.2) =? 1)%nat || negb (huge e)) &&
       (negb (length (g.2) =? 3)%nat ||
        (frame_okb (mm_frames s) (frame_of e) && bool_decide (L !! frame_of e = None))))
  | None => true
  end.

Lemma frame_okb_spec s p :
  pmm_inv s -> frame_okb s p = true ->
  frame_ok p /\ frame_used s p /\ mapped (pmm_mem s) (phys_to_virt p) PAGE_SIZE.
Proof.
  intros Hinv Hb. unfold frame_okb in Hb. rewrite !andb_true_iff in Hb.
  destruct Hb as ((((H1%Z.leb_le & H2%Z.ltb_lt) & H3%Z.eqb_eq) & H4%Z.ltb_lt) & H5).
  pose proof (pmm_total _ Hinv) as Ht. unfold MAX_PHYS_PAGES in Ht.
  assert (0 <= p / 4096) by (apply Z.div_pos; lia).
  split; [done|]. split; [by unfold frame_used; rewrite PAGE_SIZE_eq|].
  replace p with (p / 4096 * PAGE_SIZE) by (rewrite PAGE_SIZE_eq; Z.div_mod_to_equations; lia).
  eapply frame_mapped; [by apply pmm_ram|done|unfold MAX_PHYS_PAGES; lia].
Qed.

Lemma tables_okb_spec (s : mm_state pmm_state) L :
  pmm_inv (mm_frames s) -> map_Forall (fun t g => table_okb s L t g = true) L -> tables_ok s L.
Proof.
  intros Hinv HL.
  assert (forall t g, L !! t = Some g -> frame_okb (mm_frames s) t = true /\ (length (g.2) <= 3)%nat /\
    (g.2 = [] -> g.1 = Some t) /\ forall i, 0 <= i < 512 -> link_okb (mm_mem s) L t g i = true) as Hall.
  { intros t g Ht. pose proof (HL t g Ht) as Hb. unfold table_okb in Hb. rewrite !andb_true_iff in Hb.
    destruct Hb as (((H1 & H2%Nat.leb_le) & H3) & H4). rewrite forallb_forall in H4.
    split; [done|]. split; [done|]. split.
    - intros Hnil. apply orb_true_iff in H3 as [H3|H3]; apply bool_decide_eq_true in H3; done.
    - intros i Hi. apply H4. apply list_elem_of_In, elem_of_seqZ. lia. }
  constructor.
  - done.
  - intros t g Ht. destruct (Hall t g Ht) as (Hf & Hl & _).
    destruct (frame_okb_spec _ _ Hinv Hf) as (? & ? & ?). done.
  - intros t o Ht. destruct (Hall _ _ Ht) as (_ & _ & Hr & _). by apply Hr.
  - intros t g i e Ht Hl Hi He Hlink. destruct (Hall _ _ Ht) as (_ & _ & _ & Hk). specialize (Hk i Hi).
    unfold link_okb in Hk. rewrite He, Hlink, (proj2 (Nat.ltb_lt _ _) Hl) in Hk. by apply bool_decide_eq_true in Hk.
Qed.

Lemma leaves_okb_spec (s : mm_state pmm_state) L r :
  pmm_inv (mm_frames s) -> map_Forall (fun t g => forallb (leaf_okb s L t g) (seqZ 0 512) = true) L ->
  leaves_ok s L r.
Proof.
  intros Hinv HL t p i e Ht Hi He Hp. pose proof (HL _ _ Ht) as Hb. cbv beta in Hb. rewrite forallb_forall in Hb.
  specialize (Hb i ltac:(apply list_elem_of_In, elem_of_seqZ; lia)). unfold leaf_okb in Hb.
  rewrite He, Hp in Hb. simpl in Hb. apply andb_true_iff in Hb as [H1 H3]. split.
  - intros Hl. rewrite Hl in H1. simpl in H1. by apply negb_true_iff.
  - intros Hl. rewrite Hl in H3. simpl in H3. apply andb_true_iff in H3 as [Hf Hn%bool_decide_eq_true].
    destruct (frame_okb_spec _ _ Hinv Hf) as (? & ? & ?). done.
Qed.

(** ** A machine with one user page *)

(** Twelve frames: root, page directory pointer table, page directory, page table
    and a data page are in use. *)
Definition demo_va : Z := 0x400000.
Definition demo_ram : mem :=
  poke64 (poke64 (poke64 (poke64 (poke64 (ram_pages 12)
    (phys_to_virt 0x0000) (0x1000 + 7))
    (phys_to_virt 0x1000) (0x2000 + 7))
    (phys_to_virt 0x2000 + 8 * 2) (0x3000 + 7))
    (phys_to_virt 0x3000) (0x4000 + 7))
    (phys_to_virt 0x4000) 0x1122334455667788.
Definition demo_frames : pmm_state := mk_pmm (31 :: replicate 1023 0) 12 7 0 demo_ram.
Definition demo_space : mm_state pmm_state := mk_mm demo_frames 0 (phys_to_virt 0) [].
Definition demo_tables : gmap Z tag :=
  {[ 0 := (Some 0, []); 0x1000 := (Some 0, [0]); 0x2000 := (Some 0, [0; 0]); 0x3000 := (Some 0, [0; 0; 2]) ]}.

Lemma demo_frames_inv : pmm_inv demo_frames.
Proof.
  constructor; cbn [demo_frames pmm_bitmap pmm_pages_total pmm_pages_free next_free_page pmm_mem].
  - reflexivity.
  - by split.
  - by split.
  - lia.
  - vm_compute. reflexivity.
  - unfold demo_ram. destruct (ram_pages_ok 12) as [Hwf Hm]. split.
    + do 5 apply poken_wf. exact Hwf.
    + do 5 apply poken_mapped. exact Hm.
Qed.

Lemma demo_tables_ok : tables_ok demo_space demo_tables.
Proof.
  apply tables_okb_spec; [apply demo_frames_inv|].
  apply (bool_decide_eq_true_1 (map_Forall (fun t g => table_okb demo_space demo_tables t g = true) demo_tables)).
  vm_compute. reflexivity.
Qed.

Lemma demo_leaves_ok : leaves_ok demo_space demo_tables 0.
Proof.
  apply leaves_okb_spec; [apply demo_frames_inv|].
  apply (bool_decide_eq_true_1 (map_Forall
    (fun t g => forallb (leaf_okb demo_space demo_tables t g) (seqZ 0 512) = true) demo_tables)).
  vm_compute. reflexivity.
Qed.

Lemma demo_root : demo_tables !! 0 = Some (Some 0, []).
Proof. vm_compute. reflexivity. Qed.

Lemma demo_not_huge : not_huge (translate (mm_mem demo_space) 0 (demo_va + 4096)).
Proof.
  assert (translate (mm_mem demo_space) 0 (demo_va + 4096) = None) as -> by (vm_compute; reflexivity).
  by intros e.
Qed.

(** The same machine with a 2 MB page at 0x600000, whose first 4 KB are backed. *)
Definition with_huge (s : pmm_state) : pmm_state :=
  set_pmm_mem (write_list (poke64 (pmm_mem s) (phys_to_virt 0x2000 + 8 * 3) (0x200000 + 0x83)) (phys_to_virt 0x200000) (replicate 4096 0)) s.
Definition demo_huge_space : mm_state pmm_state := mk_mm (with_huge demo_frames) 0 (phys_to_virt 0) [].
Definition demo_huge_va : Z := 0x608000.

Lemma with_huge_inv s : pmm_inv s -> pmm_inv (with_huge s).
Proof.
  intros []. constructor; try done. apply ram_ok_write; [|by apply Forall_replicate]. by apply ram_ok_write; [|apply le_split_bytes].
Qed.
Lemma with_huge_mapped s : mapped (pmm_mem (with_huge s)) (phys_to_virt 0x200000) PAGE_SIZE.
Proof. apply (bytes_at_mapped _ _ (replicate 4096 0)), write_list_bytes_at. Qed.

Lemma demo_huge_tables_ok : tables_ok demo_huge_space demo_tables.
Proof.
  apply tables_okb_spec; [exact (with_huge_inv _ demo_frames_inv)|].
  apply (bool_decide_eq_true_1 (map_Forall (fun t g => table_okb demo_huge_space demo_tables t g = true) demo_tables)).
  vm_compute. reflexivity.
Qed.
Lemma demo_huge_2m : huge_2m (mm_mem demo_huge_space) 0 demo_huge_va 0x200083.
Proof. exists 0x1007, 0x2007. split_and!; vm_compute; reflexivity. Qed.
Lemma demo_plain_page : plain_page demo_huge_space demo_tables 0x200083.
Proof. split; [by vm_compute|]. split; [exact (with_huge_mapped demo_frames)|vm_compute; reflexivity]. Qed.

(** Mapping the next page for the user; and a page inside the 2 MB page, which
    stays mapped as it was. *)
Lemma arch_map_page_maps_witness :
  safe False (arch_map_page (demo_va + 4096) 0x5000 7) demo_space (fun _ s' =>
    translate (mm_mem s') 0 (demo_va + 4096) = Some (0x5007, false)) /\
  exists s', arch_map_page demo_huge_va 0x8000 3 demo_huge_space = Done (tt, s') /\
    translate (mm_mem s') 0 demo_huge_va = Some (0x200083, true).
Proof.
  destruct (arch_map_page_maps demo_space demo_tables 0 (demo_va + 4096) 0x5000 7) as [Hmap _];
    [apply demo_tables_ok|reflexivity|apply demo_root|lia|lia|].
  destruct (arch_map_page_maps demo_huge_space demo_tables 0 demo_huge_va 0x8000 3) as [_ Hhuge];
    [apply demo_huge_tables_ok|reflexivity|apply demo_root|lia|lia|].
  split; [|exact (Hhuge 0x200083 demo_huge_2m demo_plain_page eq_refl)].
  eapply safe_mono; [exact (Hmap demo_not_huge)| |].
  - intros Hstop. vm_compute in Hstop. discriminate.
  - intros [] s' (_ & Htr & _). exact Htr.
Defined.

Lemma arch_map_page_isolated_witness :
  safe False (arch_map_page (demo_va + 4096) 0x5000 7) demo_space (fun _ s' =>
    translate (mm_mem s') 0 demo_va = Some (0x4007, false)) /\
  exists s', arch_map_page demo_huge_va 0x8000 3 demo_huge_space = Done (tt, s') /\
    mm_mem s' = poke64 (mm_mem demo_huge_space) (phys_to_virt 0x200000 + 8 * 8) 0x8003.
Proof.
  destruct (arch_map_page_isolated demo_space demo_tables 0 (demo_va + 4096) 0x5000 7) as [Hmap _];
    [apply demo_tables_ok|reflexivity|apply demo_root|lia|lia|].
  destruct (arch_map_page_isolated demo_huge_space demo_tables 0 demo_huge_va 0x8000 3) as [_ Hhuge];
    [apply demo_huge_tables_ok|reflexivity|apply demo_root|lia|lia|].
  split.
  - eapply safe_mono; [exact (Hmap demo_not_huge)| |].
    + intros Hstop. vm_compute in Hstop. discriminate.
    + intros [] s' (Hkeep & _). rewrite (Hkeep 0 demo_va demo_root) by (left; vm_compute; discriminate).
      vm_compute. reflexivity.
  - destruct (Hhuge 0x200083 demo_huge_2m demo_plain_page eq_refl) as (s' & E & _ & Hm). exists s'. split; [exact E|exact Hm].
Defined.

Lemma walk_page_table_mmu_witness :
  (exists a, walk_page_table (demo_va + 4096) demo_space = Done (a, demo_space) /\
    if decide (a = 0) then translate (mm_mem demo_space) 0 (demo_va + 4096) = None
    else exists e, peek64 (mm_mem demo_space) a = Some e /\
      translate (mm_mem demo_space) 0 (demo_va + 4096) = if present e then Some (e, false) else None) /\
  walk_page_table demo_huge_va demo_huge_space = Done (phys_to_virt 0x200000 + 8 * 8, demo_huge_space).
Proof.
  destruct (walk_page_table_mmu demo_space demo_tables 0 (demo_va + 4096)) as [Hwalk _]; [apply demo_tables_ok|reflexivity|apply demo_root|].
  destruct (walk_page_table_mmu demo_huge_space demo_tables 0 demo_huge_va) as [_ Hhuge]; [apply demo_huge_tables_ok|reflexivity|apply demo_root|].
  split; [exact (Hwalk demo_not_huge)|]. exact (proj2 (Hhuge 0x200083 demo_huge_2m)).
Defined.

Lemma create_new_address_space_kernel_witness :
  safe False create_new_address_space demo_space (fun p s' => translate (mm_mem s') p demo_va = None).
Proof.
  eapply safe_mono; [apply (create_new_address_space_kernel demo_space demo_tables 0)| |].
  - apply demo_tables_ok.
  - reflexivity.
  - apply demo_root.
  - intros Hstop. vm_compute in Hstop. discriminate.
  - intros p s' (_ & _ & _ & Huser & _). apply Huser. vm_compute. reflexivity.
Defined.

(** The data page is copied: the clone takes five frames and the new page holds
    the old bytes. *)
Lemma clone_address_space_copies_witness :
  safe False clone_address_space demo_space (fun p s' =>
    (exists e', translate (mm_mem s') p demo_va = Some (e', false) /\ ~ frame_used demo_frames (frame_of e') /\
       mm_mem s' !! phys_to_virt (frame_of e') = Some 0x88) /\
    fa_avail (mm_frames s') = 2).
Proof.
  assert (clone_frames (mm_mem demo_space) 0 = 5) as Hc by (vm_compute; reflexivity).
  eapply safe_mono; [apply (clone_address_space_copies demo_space demo_tables 0)| |].
  - apply demo_tables_ok.
  - apply demo_leaves_ok.
  - reflexivity.
  - apply demo_root.
  - rewrite Hc. intros Hstop. vm_compute in Hstop. discriminate.
  - intros p s' (_ & _ & Huser & _ & _ & _ & Hav). rewrite Hc in Hav. split; [|exact Hav].
    specialize (Huser demo_va ltac:(vm_compute; reflexivity)).
    assert (translate (mm_mem demo_space) 0 demo_va = Some (0x4007, false)) as E by (vm_compute; reflexivity).
    rewrite E in Huser. destruct Huser as (e' & Htr & _ & Hu & Hb). exists e'.
    split; [exact Htr|]. split; [exact Hu|]. specialize (Hb 0 ltac:(rewrite PAGE_SIZE_eq; lia)).
    rewrite Z.add_0_r in Hb. rewrite Hb. vm_compute. reflexivity.
Defined.

(** ** Virtual memory on the same machine *)

Lemma demand_paging_witness :
  safe False (handle_page_fault (Some (0x7FF00000, 0x80000000)) 0x7FFFF123 6) demo_space (fun _ s' =>
    exists phys, ~ frame_used demo_frames phys /\
      translate (mm_mem s') 0 0x7FFFF123 = Some (Z.lor (Z.lor phys 6) 1, false)).
Proof.
  eapply safe_mono; [apply (demand_paging demo_space demo_tables 0 0x7FF00000 0x80000000 0x7FFFF123 6)| |].
  - apply demo_tables_ok.
  - reflexivity.
  - apply demo_root.
  - assert (translate (mm_mem demo_space) 0 0x7FFFF123 = None) as -> by (vm_compute; reflexivity). by intros e.
  - lia.
  - lia.
  - reflexivity.
  - intros Hstop. vm_compute in Hstop. discriminate.
  - intros [] s' (phys & Hu & _ & Htr & _). exists phys. split; [exact Hu|exact Htr].
Defined.

Lemma same_page_not_huge va0 va :
  in_pages va0 1 va -> not_huge (translate (mm_mem demo_space) 0 va0) -> not_huge (translate (mm_mem demo_space) 0 va).
Proof.
  intros (k & Hk & E) Hn. assert (k = 0) as -> by lia. rewrite Z.add_0_r in E.
  by rewrite <- (translate_same_page _ 0 va0 va E).
Qed.

(** Making the data page read-only for the user through a range that ends in the
    next page, which is not reached. *)
Lemma sys_mprotect_range_witness :
  exists s' e', sys_mprotect 1 (demo_va + 4095) 2 4 demo_space = Done (tt, s') /\ tables_ok s' demo_tables /\
    translate (mm_mem s') 0 demo_va = Some (e', false) /\ frame_of e' = 0x4000 /\ Z.land e' PTE_FLAGS_MASK = 5 /\
    in_range (demo_va + 4095) 2 (demo_va + 4096) /\ translate (mm_mem s') 0 (demo_va + 4096) = translate (mm_mem demo_space) 0 (demo_va + 4096).
Proof.
  assert (translate (mm_mem demo_space) 0 demo_va = Some (0x4007, false)) as Hva by (vm_compute; reflexivity).
  destruct (sys_mprotect_range demo_space demo_tables 0 1 (demo_va + 4095) 2 4) as (s' & E & Hok & Hpages & _ & Hmissed).
  - apply demo_tables_ok.
  - reflexivity.
  - apply demo_root.
  - unfold demo_va. lia.
  - lia.
  - unfold demo_va. lia.
  - by vm_compute.
  - intros va Hin. apply (same_page_not_huge (demo_va + 4095)).
    + apply (reached_pages (demo_va + 4095) 2 va) in Hin; [exact Hin|unfold demo_va; lia|lia].
    + rewrite (translate_same_page _ _ (demo_va + 4095) demo_va) by reflexivity. rewrite Hva. by intros e.
  - destruct (Hmissed eq_refl ltac:(lia)) as [Hin Hkeep].
    destruct (Hpages demo_va) as [Hset _]. destruct (Hset ltac:(exists (demo_va + 4095); split; [vm_compute; split; congruence|reflexivity]) _ _ Hva) as (e' & H1 & H2 & H3).
    exists s', e'. split; [exact E|]. split; [exact Hok|]. split; [exact H1|]. split; [exact H2|]. split; [exact H3|]. split; [exact Hin|exact Hkeep].
Defined.

Definition demo_vm : vm_state pmm_state :=
  mk_vm demo_space (slab_boot ∅) {[ 100 := mk_list_head 100 100 ]} ∅ ∅ VMALLOC_START.

