(* ===== verification/KState.v ===== *)
(** * The kernel's shared state

    Tasks, open files, the run queues and the statics of the scheduler, with the
    machine state of the memory subsystems.  Structures live in typed heaps, by
    address; the list nodes inside them live in the node heap, at the offsets
    the compiler gives their fields.  The addresses of statics and of assembly
    routines are parameters ([Layout]). *)

From S2P Require Import Prelude Memory StringLib ListHead SpinLock Slab PgTable FrameAlloc PageAlloc Paging VirtMem.

(** ** include/relis/sched.h *)

Definition TASK_RUNNING : Z := 0.
Definition TASK_INTERRUPTIBLE : Z := 1.
Definition TASK_ZOMBIE : Z := 2.
Definition KERNEL_STACK_SIZE : Z := 16384.
Definition MAX_FDS : Z := 32.
Definition RELIS_SIGHUP : Z := 1.
Definition RELIS_SIGINT : Z := 2.
Definition RELIS_SIGKILL : Z := 9.
Definition RELIS_SIGCHLD : Z := 17.
Definition MAX_SIGNALS : Z := 32.
Definition MAX_SHM_REGIONS : Z := 4.
Definition SCHED_NORMAL : Z := 0.
Definition SCHED_FIFO : Z := 1.
Definition SCHED_RR : Z := 2.
Definition MAX_RT_PRIO : Z := 100.
Definition MAX_PRIO : Z := MAX_RT_PRIO + 40.
Definition DEFAULT_PRIO : Z := 120.
Definition TIF_NEED_RESCHED : Z := 1.

(** The three scheduling classes, [fair_sched_class], [rt_sched_class] and
    [idle_sched_class]. *)
Inductive sched_class_id := Fair | Rt | Idle.
#[global] Instance sched_class_id_eq_dec : EqDecision sched_class_id.
Proof. solve_decision. Defined.

(** [struct task_struct].  The members of the union of [se] and [rt] are separate
    fields: a task is used through one of them only, according to its class. *)
Record task_struct := mk_task {
  t_rsp : Z;                                      (* uint64_t * *)
  t_pid : Z;                                      (* uint32_t *)
  t_ppid : Z;                                     (* uint32_t *)
  t_name : list Z;                                (* char[32], up to the NUL *)
  t_state : Z;                                    (* uint32_t *)
  t_flags : Z;                                    (* uint32_t *)
  t_policy : Z;                                   (* int *)
  t_prio : Z;                                     (* int *)
  t_cr3 : Z;                                      (* uint64_t *)
  t_stack_start : Z;                              (* uint64_t *)
  t_stack_end : Z;                                (* uint64_t *)
  t_exec_start : Z;                               (* se.exec_start *)
  t_sum_exec_runtime : Z;                         (* se.sum_exec_runtime *)
  t_vruntime : Z;                                 (* se.vruntime *)
  t_weight : Z;                                   (* se.weight *)
  t_rt_prio : Z;                                  (* rt.prio *)
  t_sched_class : option sched_class_id;          (* NULL is None *)
  t_kernel_stack : list Z;                        (* uint64_t[2048] *)
  t_kernel_stack_top : Z;                         (* uint64_t * *)
  t_files : list Z;                               (* struct file *[32] *)
  t_pending_signals : Z;                          (* uint64_t *)
  t_signal_handlers : list Z;                     (* uint64_t[32] *)
  t_shm_pages : list Z;                           (* uint64_t[4] *)
  t_shm_count : Z;                                (* int *)
  t_fn : Z;                                       (* code address *)
  t_arg : Z                                      (* void * *)
}.

(** Offsets of the embedded list nodes and the size of the structure (x86-64). *)
Definition se_run_node_off : Z := 120.
Definition rt_run_node_off : Z := 96.
Definition tasks_off : Z := 144.
Definition kernel_stack_off : Z := 160.
Definition sizeof_task : Z := 17128.

Definition set_t_rsp (x : Z) (s : task_struct) : task_struct :=
  mk_task x (t_pid s) (t_ppid s) (t_name s) (t_state s) (t_flags s) (t_policy s) (t_prio s) (t_cr3
    s) (t_stack_start s) (t_stack_end s) (t_exec_start s) (t_sum_exec_runtime s) (t_vruntime s)
    (t_weight s) (t_rt_prio s) (t_sched_class s) (t_kernel_stack s) (t_kernel_stack_top s) (t_files
    s) (t_pending_signals s) (t_signal_handlers s) (t_shm_pages s) (t_shm_count s) (t_fn s) (t_arg
    s).
Definition set_t_pid (x : Z) (s : task_struct) : task_struct :=
  mk_task (t_rsp s) x (t_ppid s) (t_name s) (t_state s) (t_flags s) (t_policy s) (t_prio s) (t_cr3
    s) (t_stack_start s) (t_stack_end s) (t_exec_start s) (t_sum_exec_runtime s) (t_vruntime s)
    (t_weight s) (t_rt_prio s) (t_sched_class s) (t_kernel_stack s) (t_kernel_stack_top s) (t_files
    s) (t_pending_signals s) (t_signal_handlers s) (t_shm_pages s) (t_shm_count s) (t_fn s) (t_arg
    s).
Definition set_t_ppid (x : Z) (s : task_struct) : task_struct :=
  mk_task (t_rsp s) (t_pid s) x (t_name s) (t_state s) (t_flags s) (t_policy s) (t_prio s) (t_cr3 s)
    (t_stack_start s) (t_stack_end s) (t_exec_start s) (t_sum_exec_runtime s) (t_vruntime s)
    (t_weight s) (t_rt_prio s) (t_sched_class s) (t_kernel_stack s) (t_kernel_stack_top s) (t_files
    s) (t_pending_signals s) (t_signal_handlers s) (t_shm_pages s) (t_shm_count s) (t_fn s) (t_arg
    s).
Definition set_t_name (x : list Z) (s : task_struct) : task_struct :=
  mk_task (t_rsp s) (t_pid s) (t_ppid s) x (t_state s) (t_flags s) (t_policy s) (t_prio s) (t_cr3 s)
    (t_stack_start s) (t_stack_end s) (t_exec_start s) (t_sum_exec_runtime s) (t_vruntime s)
    (t_weight s) (t_rt_prio s) (t_sched_class s) (t_kernel_stack s) (t_kernel_stack_top s) (t_files
    s) (t_pending_signals s) (t_signal_handlers s) (t_shm_pages s) (t_shm_count s) (t_fn s) (t_arg
    s).
Definition set_t_state (x : Z) (s : task_struct) : task_struct :=
  mk_task (t_rsp s) (t_pid s) (t_ppid s) (t_name s) x (t_flags s) (t_policy s) (t_prio s) (t_cr3 s)
    (t_stack_start s) (t_stack_end s) (t_exec_start s) (t_sum_exec_runtime s) (t_vruntime s)
    (t_weight s) (t_rt_prio s) (t_sched_class s) (t_kernel_stack s) (t_kernel_stack_top s) (t_files
    s) (t_pending_signals s) (t_signal_handlers s) (t_shm_pages s) (t_shm_count s) (t_fn s) (t_arg
    s).
Definition set_t_flags (x : Z) (s : task_struct) : task_struct :=
  mk_task (t_rsp s) (t_pid s) (t_ppid s) (t_name s) (t_state s) x (t_policy s) (t_prio s) (t_cr3 s)
    (t_stack_start s) (t_stack_end s) (t_exec_start s) (t_sum_exec_runtime s) (t_vruntime s)
    (t_weight s) (t_rt_prio s) (t_sched_class s) (t_kernel_stack s) (t_kernel_stack_top s) (t_files
    s) (t_pending_signals s) (t_signal_handlers s) (t_shm_pages s) (t_shm_count s) (t_fn s) (t_arg
    s).
Definition set_t_policy (x : Z) (s : task_struct) : task_struct :=
  mk_task (t_rsp s) (t_pid s) (t_ppid s) (t_name s) (t_state s) (t_flags s) x (t_prio s) (t_cr3 s)
    (t_stack_start s) (t_stack_end s) (t_exec_start s) (t_sum_exec_runtime s) (t_vruntime s)
    (t_weight s) (t_rt_prio s) (t_sched_class s) (t_kernel_stack s) (t_kernel_stack_top s) (t_files
    s) (t_pending_signals s) (t_signal_handlers s) (t_shm_pages s) (t_shm_count s) (t_fn s) (t_arg
    s).
Definition set_t_prio (x : Z) (s : task_struct) : task_struct :=
  mk_task (t_rsp s) (t_pid s) (t_ppid s) (t_name s) (t_state s) (t_flags s) (t_policy s) x (t_cr3 s)
    (t_stack_start s) (t_stack_end s) (t_exec_start s) (t_sum_exec_runtime s) (t_vruntime s)
    (t_weight s) (t_rt_prio s) (t_sched_class s) (t_kernel_stack s) (t_kernel_stack_top s) (t_files
    s) (t_pending_signals s) (t_signal_handlers s) (t_shm_pages s) (t_shm_count s) (t_fn s) (t_arg
    s).
Definition set_t_cr3 (x : Z) (s : task_struct) : task_struct :=
  mk_task (t_rsp s) (t_pid s) (t_ppid s) (t_name s) (t_state s) (t_flags s) (t_policy s) (t_prio s)
    x (t_stack_start s) (t_stack_end s) (t_exec_start s) (t_sum_exec_runtime s) (t_vruntime s)
    (t_weight s) (t_rt_prio s) (t_sched_class s) (t_kernel_stack s) (t_kernel_stack_top s) (t_files
    s) (t_pending_signals s) (t_signal_handlers s) (t_shm_pages s) (t_shm_count s) (t_fn s) (t_arg
    s).
Definition set_t_stack_start (x : Z) (s : task_struct) : task_struct :=
  mk_task (t_rsp s) (t_pid s) (t_ppid s) (t_name s) (t_state s) (t_flags s) (t_policy s) (t_prio s)
    (t_cr3 s) x (t_stack_end s) (t_exec_start s) (t_sum_exec_runtime s) (t_vruntime s) (t_weight s)
    (t_rt_prio s) (t_sched_class s) (t_kernel_stack s) (t_kernel_stack_top s) (t_files s)
    (t_pending_signals s) (t_signal_handlers s) (t_shm_pages s) (t_shm_count s) (t_fn s) (t_arg s).
Definition set_t_stack_end (x : Z) (s : task_struct) : task_struct :=
  mk_task (t_rsp s) (t_pid s) (t_ppid s) (t_name s) (t_state s) (t_flags s) (t_policy s) (t_prio s)
    (t_cr3 s) (t_stack_start s) x (t_exec_start s) (t_sum_exec_runtime s) (t_vruntime s) (t_weight
    s) (t_rt_prio s) (t_sched_class s) (t_kernel_stack s) (t_kernel_stack_top s) (t_files s)
    (t_pending_signals s) (t_signal_handlers s) (t_shm_pages s) (t_shm_count s) (t_fn s) (t_arg s).
Definition set_t_sum_exec_runtime (x : Z) (s : task_struct) : task_struct :=
  mk_task (t_rsp s) (t_pid s) (t_ppid s) (t_name s) (t_state s) (t_flags s) (t_policy s) (t_prio s)
    (t_cr3 s) (t_stack_start s) (t_stack_end s) (t_exec_start s) x (t_vruntime s) (t_weight s)
    (t_rt_prio s) (t_sched_class s) (t_kernel_stack s) (t_kernel_stack_top s) (t_files s)
    (t_pending_signals s) (t_signal_handlers s) (t_shm_pages s) (t_shm_count s) (t_fn s) (t_arg s).
Definition set_t_vruntime (x : Z) (s : task_struct) : task_struct :=
  mk_task (t_rsp s) (t_pid s) (t_ppid s) (t_name s) (t_state s) (t_flags s) (t_policy s) (t_prio s)
    (t_cr3 s) (t_stack_start s) (t_stack_end s) (t_exec_start s) (t_sum_exec_runtime s) x (t_weight
    s) (t_rt_prio s) (t_sched_class s) (t_kernel_stack s) (t_kernel_stack_top s) (t_files s)
    (t_pending_signals s) (t_signal_handlers s) (t_shm_pages s) (t_shm_count s) (t_fn s) (t_arg s).
Definition set_t_weight (x : Z) (s : task_struct) : task_struct :=
  mk_task (t_rsp s) (t_pid s) (t_ppid s) (t_name s) (t_state s) (t_flags s) (t_policy s) (t_prio s)
    (t_cr3 s) (t_stack_start s) (t_stack_end s) (t_exec_start s) (t_sum_exec_runtime s) (t_vruntime
    s) x (t_rt_prio s) (t_sched_class s) (t_kernel_stack s) (t_kernel_stack_top s) (t_files s)
    (t_pending_signals s) (t_signal_handlers s) (t_shm_pages s) (t_shm_count s) (t_fn s) (t_arg s).
Definition set_t_rt_prio (x : Z) (s : task_struct) : task_struct :=
  mk_task (t_rsp s) (t_pid s) (t_ppid s) (t_name s) (t_state s) (t_flags s) (t_policy s) (t_prio s)
    (t_cr3 s) (t_stack_start s) (t_stack_end s) (t_exec_start s) (t_sum_exec_runtime s) (t_vruntime
    s) (t_weight s) x (t_sched_class s) (t_kernel_stack s) (t_kernel_stack_top s) (t_files s)
    (t_pending_signals s) (t_signal_handlers s) (t_shm_pages s) (t_shm_count s) (t_fn s) (t_arg s).
Definition set_t_sched_class (x : option sched_class_id) (s : task_struct) : task_struct :=
  mk_task (t_rsp s) (t_pid s) (t_ppid s) (t_name s) (t_state s) (t_flags s) (t_policy s) (t_prio s)
    (t_cr3 s) (t_stack_start s) (t_stack_end s) (t_exec_start s) (t_sum_exec_runtime s) (t_vruntime
    s) (t_weight s) (t_rt_prio s) x (t_kernel_stack s) (t_kernel_stack_top s) (t_files s)
    (t_pending_signals s) (t_signal_handlers s) (t_shm_pages s) (t_shm_count s) (t_fn s) (t_arg s).
Definition set_t_kernel_stack (x : list Z) (s : task_struct) : task_struct :=
  mk_task (t_rsp s) (t_pid s) (t_ppid s) (t_name s) (t_state s) (t_flags s) (t_policy s) (t_prio s)
    (t_cr3 s) (t_stack_start s) (t_stack_end s) (t_exec_start s) (t_sum_exec_runtime s) (t_vruntime
    s) (t_weight s) (t_rt_prio s) (t_sched_class s) x (t_kernel_stack_top s) (t_files s)
    (t_pending_signals s) (t_signal_handlers s) (t_shm_pages s) (t_shm_count s) (t_fn s) (t_arg s).
Definition set_t_kernel_stack_top (x : Z) (s : task_struct) : task_struct :=
  mk_task (t_rsp s) (t_pid s) (t_ppid s) (t_name s) (t_state s) (t_flags s) (t_policy s) (t_prio s)
    (t_cr3 s) (t_stack_start s) (t_stack_end s) (t_exec_start s) (t_sum_exec_runtime s) (t_vruntime
    s) (t_weight s) (t_rt_prio s) (t_sched_class s) (t_kernel_stack s) x (t_files s)
    (t_pending_signals s) (t_signal_handlers s) (t_shm_pages s) (t_shm_count s) (t_fn s) (t_arg s).
Definition set_t_files (x : list Z) (s : task_struct) : task_struct :=
  mk_task (t_rsp s) (t_pid s) (t_ppid s) (t_name s) (t_state s) (t_flags s) (t_policy s) (t_prio s)
    (t_cr3 s) (t_stack_start s) (t_stack_end s) (t_exec_start s) (t_sum_exec_runtime s) (t_vruntime
    s) (t_weight s) (t_rt_prio s) (t_sched_class s) (t_kernel_stack s) (t_kernel_stack_top s) x
    (t_pending_signals s) (t_signal_handlers s) (t_shm_pages s) (t_shm_count s) (t_fn s) (t_arg s).
Definition set_t_pending_signals (x : Z) (s : task_struct) : task_struct :=
  mk_task (t_rsp s) (t_pid s) (t_ppid s) (t_name s) (t_state s) (t_flags s) (t_policy s) (t_prio s)
    (t_cr3 s) (t_stack_start s) (t_stack_end s) (t_exec_start s) (t_sum_exec_runtime s) (t_vruntime
    s) (t_weight s) (t_rt_prio s) (t_sched_class s) (t_kernel_stack s) (t_kernel_stack_top s)
    (t_files s) x (t_signal_handlers s) (t_shm_pages s) (t_shm_count s) (t_fn s) (t_arg s).
Definition set_t_signal_handlers (x : list Z) (s : task_struct) : task_struct :=
  mk_task (t_rsp s) (t_pid s) (t_ppid s) (t_name s) (t_state s) (t_flags s) (t_policy s) (t_prio s)
    (t_cr3 s) (t_stack_start s) (t_stack_end s) (t_exec_start s) (t_sum_exec_runtime s) (t_vruntime
    s) (t_weight s) (t_rt_prio s) (t_sched_class s) (t_kernel_stack s) (t_kernel_stack_top s)
    (t_files s) (t_pending_signals s) x (t_shm_pages s) (t_shm_count s) (t_fn s) (t_arg s).
Definition set_t_shm_pages (x : list Z) (s : task_struct) : task_struct :=
  mk_task (t_rsp s) (t_pid s) (t_ppid s) (t_name s) (t_state s) (t_flags s) (t_policy s) (t_prio s)
    (t_cr3 s) (t_stack_start s) (t_stack_end s) (t_exec_start s) (t_sum_exec_runtime s) (t_vruntime
    s) (t_weight s) (t_rt_prio s) (t_sched_class s) (t_kernel_stack s) (t_kernel_stack_top s)
    (t_files s) (t_pending_signals s) (t_signal_handlers s) x (t_shm_count s) (t_fn s) (t_arg s).
Definition set_t_shm_count (x : Z) (s : task_struct) : task_struct :=
  mk_task (t_rsp s) (t_pid s) (t_ppid s) (t_name s) (t_state s) (t_flags s) (t_policy s) (t_prio s)
    (t_cr3 s) (t_stack_start s) (t_stack_end s) (t_exec_start s) (t_sum_exec_runtime s) (t_vruntime
    s) (t_weight s) (t_rt_prio s) (t_sched_class s) (t_kernel_stack s) (t_kernel_stack_top s)
    (t_files s) (t_pending_signals s) (t_signal_handlers s) (t_shm_pages s) x (t_fn s) (t_arg s).
Definition set_t_fn (x : Z) (s : task_struct) : task_struct :=
  mk_task (t_rsp s) (t_pid s) (t_ppid s) (t_name s) (t_state s) (t_flags s) (t_policy s) (t_prio s)
    (t_cr3 s) (t_stack_start s) (t_stack_end s) (t_exec_start s) (t_sum_exec_runtime s) (t_vruntime
    s) (t_weight s) (t_rt_prio s) (t_sched_class s) (t_kernel_stack s) (t_kernel_stack_top s)
    (t_files s) (t_pending_signals s) (t_signal_handlers s) (t_shm_pages s) (t_shm_count s) x (t_arg
    s).
Definition set_t_arg (x : Z) (s : task_struct) : task_struct :=
  mk_task (t_rsp s) (t_pid s) (t_ppid s) (t_name s) (t_state s) (t_flags s) (t_policy s) (t_prio s)
    (t_cr3 s) (t_stack_start s) (t_stack_end s) (t_exec_start s) (t_sum_exec_runtime s) (t_vruntime
    s) (t_weight s) (t_rt_prio s) (t_sched_class s) (t_kernel_stack s) (t_kernel_stack_top s)
    (t_files s) (t_pending_signals s) (t_signal_handlers s) (t_shm_pages s) (t_shm_count s) (t_fn s)
    x.

(** [kmemset(p, 0, sizeof(struct task_struct))] *)
Definition zero_kernel_stack : list Z := replicate (Z.to_nat (KERNEL_STACK_SIZE / 8)) 0.
Definition zero_task : task_struct :=
  mk_task 0 0 0 [] 0 0 0 0 0 0 0 0 0 0 0 0 None zero_kernel_stack 0 (replicate 32 0) 0 (replicate 32 0)
    (replicate 4 0) 0 0 0.

(** ** include/relis/fs.h *)

(** The tables of file operations the kernel defines. *)
Inductive file_operations := StdinFops | StdoutFops | PipeReadFops | PipeWriteFops | CpuinfoFops | RelisfsFops.
#[global] Instance file_operations_eq_dec : EqDecision file_operations.
Proof. solve_decision. Defined.

Record inode := mk_inode {
  i_ino : Z;
  i_mode : Z;
  i_size : Z;
  i_private : Z;
  i_fop : option file_operations
}.
Record file := mk_file { f_dentry : Z; f_inode : Z; f_pos : Z }.
Definition sizeof_inode : Z := 32.
Definition sizeof_file : Z := 24.

(** ** kernel/ipc.c: the pipe buffer *)
Record relis_pipe := mk_pipe { p_buffer : list Z; p_read_pos : Z; p_write_pos : Z; p_lock : Z }.
Definition sizeof_pipe : Z := 4108.

(** ** The state *)

Record kstate := mk_kstate {
  k_vm : vm_state pmm_state;                      (* page tables, frames, heap, list nodes *)
  k_tasks : gmap Z task_struct;
  k_files : gmap Z file;
  k_inodes : gmap Z inode;
  k_pipes : gmap Z relis_pipe;
  k_umem : mem;                                   (* buffers of system calls *)
  k_nr_running : Z;                               (* runqueues.nr_running *)
  k_clock : Z;                                    (* runqueues.clock *)
  k_current : Z;                                  (* current_task *)
  k_next_pid : Z;                                 (* next_pid *)
  k_sched_lock : Z;                               (* sched_lock *)
  k_tss_rsp0 : Z;                                 (* rsp0 of the task-state segment *)
  k_switches : list (Z * Z)                      (* calls of switch_to, latest first *)
}.

Definition set_k_vm (x : vm_state pmm_state) (s : kstate) : kstate :=
  mk_kstate x (k_tasks s) (k_files s) (k_inodes s) (k_pipes s) (k_umem s) (k_nr_running s) (k_clock
    s) (k_current s) (k_next_pid s) (k_sched_lock s) (k_tss_rsp0 s) (k_switches s).
Definition set_k_tasks (x : gmap Z task_struct) (s : kstate) : kstate :=
  mk_kstate (k_vm s) x (k_files s) (k_inodes s) (k_pipes s) (k_umem s) (k_nr_running s) (k_clock s)
    (k_current s) (k_next_pid s) (k_sched_lock s) (k_tss_rsp0 s) (k_switches s).
Definition set_k_files (x : gmap Z file) (s : kstate) : kstate :=
  mk_kstate (k_vm s) (k_tasks s) x (k_inodes s) (k_pipes s) (k_umem s) (k_nr_running s) (k_clock s)
    (k_current s) (k_next_pid s) (k_sched_lock s) (k_tss_rsp0 s) (k_switches s).
Definition set_k_inodes (x : gmap Z inode) (s : kstate) : kstate :=
  mk_kstate (k_vm s) (k_tasks s) (k_files s) x (k_pipes s) (k_umem s) (k_nr_running s) (k_clock s)
    (k_current s) (k_next_pid s) (k_sched_lock s) (k_tss_rsp0 s) (k_switches s).
Definition set_k_pipes (x : gmap Z relis_pipe) (s : kstate) : kstate :=
  mk_kstate (k_vm s) (k_tasks s) (k_files s) (k_inodes s) x (k_umem s) (k_nr_running s) (k_clock s)
    (k_current s) (k_next_pid s) (k_sched_lock s) (k_tss_rsp0 s) (k_switches s).
Definition set_k_umem (x : mem) (s : kstate) : kstate :=
  mk_kstate (k_vm s) (k_tasks s) (k_files s) (k_inodes s) (k_pipes s) x (k_nr_running s) (k_clock s)
    (k_current s) (k_next_pid s) (k_sched_lock s) (k_tss_rsp0 s) (k_switches s).
Definition set_k_nr_running (x : Z) (s : kstate) : kstate :=
  mk_kstate (k_vm s) (k_tasks s) (k_files s) (k_inodes s) (k_pipes s) (k_umem s) x (k_clock s)
    (k_current s) (k_next_pid s) (k_sched_lock s) (k_tss_rsp0 s) (k_switches s).
Definition set_k_clock (x : Z) (s : kstate) : kstate :=
  mk_kstate (k_vm s) (k_tasks s) (k_files s) (k_inodes s) (k_pipes s) (k_umem s) (k_nr_running s) x
    (k_current s) (k_next_pid s) (k_sched_lock s) (k_tss_rsp0 s) (k_switches s).
Definition set_k_current (x : Z) (s : kstate) : kstate :=
  mk_kstate (k_vm s) (k_tasks s) (k_files s) (k_inodes s) (k_pipes s) (k_umem s) (k_nr_running s)
    (k_clock s) x (k_next_pid s) (k_sched_lock s) (k_tss_rsp0 s) (k_switches s).
Definition set_k_next_pid (x : Z) (s : kstate) : kstate :=
  mk_kstate (k_vm s) (k_tasks s) (k_files s) (k_inodes s) (k_pipes s) (k_umem s) (k_nr_running s)
    (k_clock s) (k_current s) x (k_sched_lock s) (k_tss_rsp0 s) (k_switches s).
Definition set_k_sched_lock (x : Z) (s : kstate) : kstate :=
  mk_kstate (k_vm s) (k_tasks s) (k_files s) (k_inodes s) (k_pipes s) (k_umem s) (k_nr_running s)
    (k_clock s) (k_current s) (k_next_pid s) x (k_tss_rsp0 s) (k_switches s).
Definition set_k_tss_rsp0 (x : Z) (s : kstate) : kstate :=
  mk_kstate (k_vm s) (k_tasks s) (k_files s) (k_inodes s) (k_pipes s) (k_umem s) (k_nr_running s)
    (k_clock s) (k_current s) (k_next_pid s) (k_sched_lock s) x (k_switches s).
Definition set_k_switches (x : list (Z * Z)) (s : kstate) : kstate :=
  mk_kstate (k_vm s) (k_tasks s) (k_files s) (k_inodes s) (k_pipes s) (k_umem s) (k_nr_running s)
    (k_clock s) (k_current s) (k_next_pid s) (k_sched_lock s) (k_tss_rsp0 s) x.

(** The addresses the linker chooses. *)
Class Layout := {
  cfs_queue : Z;                (* &runqueues.cfs_queue *)
  rt_queue : Z;                 (* &runqueues.rt_queue *)
  global_tasks : Z;
  kernel_heap_region : Z;
  stack_top : Z;
  thread_trampoline : Z;
  isr_common_return : Z
}.

(** ** Access *)

Definition k_slab (s : kstate) : slab_state := vm_slab (k_vm s).
Definition k_nodes (s : kstate) : nodes := vm_nodes (k_vm s).
Definition k_mm (s : kstate) : mm_state pmm_state := vm_mm (k_vm s).
Definition set_k_slab (x : slab_state) (s : kstate) : kstate := set_k_vm (set_vm_slab x (k_vm s)) s.
Definition set_k_nodes (x : nodes) (s : kstate) : kstate := set_k_vm (set_vm_nodes x (k_vm s)) s.
Definition set_k_mm (x : mm_state pmm_state) (s : kstate) : kstate := set_k_vm (set_vm_mm x (k_vm s)) s.

Definition on_list {B} (m : M nodes B) : M kstate B := zoom k_nodes set_k_nodes m.
Definition on_heap {B} (m : M slab_state B) : M kstate B := zoom k_slab set_k_slab m.
Definition on_paging {B} (m : M (mm_state pmm_state) B) : M kstate B := zoom k_mm set_k_mm m.

(** Reading and writing a field of [*p]; a pointer to no task is a fault. *)
Definition task_get {B} (p : Z) (f : task_struct -> B) : M kstate B := kopt (fun s => f <$> k_tasks s !! p).
Definition task_upd (p : Z) (f : task_struct -> task_struct) : M kstate unit :=
  kupd (fun s =>
    match k_tasks s !! p with Some t => Some (set_k_tasks (<[p := f t]> (k_tasks s)) s) | None => None end).

(** A list node at [p] with the given contents comes into existence. *)
Definition put_node (p : Z) (n : list_head) : M kstate unit :=
  kmod (fun s => set_k_nodes (<[p := n]> (k_nodes s)) s).
(** The structure [t] is stored in fresh memory at [p], its list nodes cleared. *)
Definition put_task (p : Z) (t : task_struct) : M kstate unit :=
  kmod (fun s => set_k_tasks (<[p := t]> (k_tasks s)) s);;;
  put_node (p + se_run_node_off) (mk_list_head 0 0);;;
  put_node (p + rt_run_node_off) (mk_list_head 0 0);;;
  put_node (p + tasks_off) (mk_list_head 0 0).
