(* ===== verification/Sched.v ===== *)
(** * kernel/sched: the scheduler

    [core.c], [fair.c], [rt.c], [idle.c], [clock.c], [syscalls.c], and
    [task_setup_stdio] of [kernel/entry/syscall.c], which [kernel_thread] calls.
    A scheduling class is a table of optional functions, as in the code.
    [switch_to] is assembly: the model records which tasks it is given, and the
    theorems speak of the state in which the next task starts to run. *)

From S2P Require Import Prelude Memory StringLib ListHead SpinLock Slab PgTable FrameAlloc PageAlloc Paging VirtMem KState.

(** The result of code that may give up the processor. *)
#[warnings="-register-all"]
Inductive flow (B : Type) :=
| Returned (b : B)
| Suspended (k : kstate -> outcome (flow B * kstate)).
Arguments Returned {B} b.
Arguments Suspended {B} k.

(** ** Operations *)

Section Operations.
Context `{Layout}.

(** *** fair.c *)
Definition nr_running_add (d : Z) : M kstate unit :=
  kmod (fun s => set_k_nr_running (u64 (k_nr_running s + d)) s).

Definition enqueue_task_fair (p : Z) : M kstate unit :=
  on_list (list_add_tail (p + se_run_node_off) cfs_queue);;;
  nr_running_add 1.
Definition dequeue_task_fair (p : Z) : M kstate unit :=
  on_list (list_del (p + se_run_node_off));;;
  nr_running_add (-1).
Definition pick_next_task_fair : M kstate Z :=
  let* empty := on_list (list_empty cfs_queue) in
  if (empty : bool) then kret 0 else
  let* next := on_list (get_next cfs_queue) in
  on_list (list_del next);;;
  on_list (list_add_tail next cfs_queue);;;
  kret (next - se_run_node_off).
(** The division by a zero weight faults. *)
Definition task_tick_fair (p : Z) : M kstate unit :=
  task_upd p (fun t => set_t_sum_exec_runtime (u64 (t_sum_exec_runtime t + 1)) t);;;
  let* w := task_get p t_weight in
  if w =? 0 then kfault else
  task_upd p (fun t => set_t_vruntime (u64 (t_vruntime t + 1024 / w)) t);;;
  task_upd p (fun t => set_t_flags (Z.lor (t_flags t) TIF_NEED_RESCHED) t).

(** *** rt.c *)
Definition enqueue_task_rt (p : Z) : M kstate unit :=
  on_list (list_add (p + rt_run_node_off) rt_queue);;;
  nr_running_add 1.
Definition dequeue_task_rt (p : Z) : M kstate unit :=
  on_list (list_del (p + rt_run_node_off));;;
  nr_running_add (-1).
Definition pick_next_task_rt : M kstate Z :=
  let* empty := on_list (list_empty rt_queue) in
  if (empty : bool) then kret 0 else
  let* next := on_list (get_next rt_queue) in
  kret (next - rt_run_node_off).
Definition task_tick_rt (p : Z) : M kstate unit :=
  let* policy := task_get p t_policy in
  if policy =? SCHED_RR then task_upd p (fun t => set_t_flags (Z.lor (t_flags t) TIF_NEED_RESCHED) t) else kret tt.

(** *** idle.c *)
Definition pick_next_task_idle : M kstate Z := kgets k_current.
Definition task_tick_idle (p : Z) : M kstate unit :=
  task_upd p (fun t => set_t_flags (Z.lor (t_flags t) TIF_NEED_RESCHED) t).

(** The tables [fair_sched_class], [rt_sched_class] and [idle_sched_class]. *)
Record sched_class := mk_sched_class {
  enqueue_task : option (Z -> M kstate unit);
  dequeue_task : option (Z -> M kstate unit);
  pick_next_task : M kstate Z;
  task_tick : option (Z -> M kstate unit)
}.
Definition class_ops (c : sched_class_id) : sched_class :=
  match c with
  | Fair => mk_sched_class (Some enqueue_task_fair) (Some dequeue_task_fair) pick_next_task_fair (Some task_tick_fair)
  | Rt => mk_sched_class (Some enqueue_task_rt) (Some dequeue_task_rt) pick_next_task_rt (Some task_tick_rt)
  | Idle => mk_sched_class None None pick_next_task_idle (Some task_tick_idle)
  end.
(** [p->sched_class->f]: a null class pointer faults. *)
Definition task_class (p : Z) : M kstate sched_class :=
  let* c := task_get p t_sched_class in
  match c with Some c => kret (class_ops c) | None => kfault end.
(** [if (p->sched_class->enqueue_task) p->sched_class->enqueue_task(p)] *)
Definition class_enqueue (p : Z) : M kstate unit :=
  let* c := task_class p in
  match enqueue_task c with Some f => f p | None => kret tt end.

(** *** clock.c *)
Definition sched_clock (jiffies : Z) : Z := jiffies.
Definition rq_clock : M kstate Z := kgets k_clock.
Definition update_rq_clock (jiffies : Z) : M kstate unit := kmod (set_k_clock (sched_clock jiffies)).

(** *** kernel/entry/syscall.c: [task_setup_stdio]

    The results of [kmalloc] are not checked: a store through a null pointer
    faults.  Fresh heap memory is zero, since it is never reused. *)
Definition store_file (p : Z) (f : file) : M kstate unit :=
  if p =? 0 then kfault else kmod (fun s => set_k_files (<[p := f]> (k_files s)) s).
Definition store_inode (p : Z) (i : inode) : M kstate unit :=
  if p =? 0 then kfault else kmod (fun s => set_k_inodes (<[p := i]> (k_inodes s)) s).
Definition new_file (fops : file_operations) (priv : Z) : M kstate Z :=
  let* f := on_heap (kmalloc kernel_heap_region sizeof_file) in
  let* i := on_heap (kmalloc kernel_heap_region sizeof_inode) in
  store_file f (mk_file 0 i 0);;;
  store_inode i (mk_inode 0 0 0 priv (Some fops));;;
  kret f.
Definition set_file (t fd f : Z) : M kstate unit :=
  task_upd t (fun x => set_t_files (<[Z.to_nat fd := f]> (t_files x)) x).
Definition task_setup_stdio (t : Z) : M kstate unit :=
  let* fin := new_file StdinFops 0 in
  set_file t 0 fin;;;
  let* fout := new_file StdoutFops 0 in
  set_file t 1 fout;;;
  let* ferr := new_file StdoutFops 0 in
  set_file t 2 ferr.

(** *** core.c *)

(** [*--stack = v] on the kernel stack of task [p]. *)
Definition push_word (p stack v : Z) : M kstate Z :=
  let stack := stack - 8 in
  let* ks := task_get p t_kernel_stack in
  let i := (stack - (p + kernel_stack_off)) / 8 in
  if (0 <=? i) && (i <? Z.of_nat (length ks)) then
    task_upd p (fun t => set_t_kernel_stack (<[Z.to_nat i := v]> (t_kernel_stack t)) t);;;
    kret stack
  else kfault.
Fixpoint push_words (p stack : Z) (vs : list Z) : M kstate Z :=
  match vs with
  | [] => kret stack
  | v :: vs' => let* stack := push_word p stack v in push_words p stack vs'
  end.

(** [kstrcpy(p->name, name)]: a name of 32 characters or more overruns the field. *)
Definition set_task_name (p : Z) (name : list Z) : M kstate unit :=
  if (length name <? 32)%nat then task_upd p (set_t_name name) else kfault.

(** "swapper" *)
Definition swapper_name : list Z := [115; 119; 97; 112; 112; 101; 114].

Definition sched_init : M kstate unit :=
  put_node cfs_queue (mk_list_head 0 0);;; put_node rt_queue (mk_list_head 0 0);;; put_node global_tasks (mk_list_head 0 0);;;
  on_list (INIT_LIST_HEAD cfs_queue);;;
  on_list (INIT_LIST_HEAD rt_queue);;;
  on_list (INIT_LIST_HEAD global_tasks);;;
  kmod (set_k_nr_running 0);;;
  kmod (set_k_clock 0);;;
  let* p := on_heap (kmalloc kernel_heap_region sizeof_task) in
  kmod (set_k_current p);;;
  if p =? 0 then khalt "PANIC: Failed to allocate initial task!" else
  put_task p zero_task;;;
  task_upd p (set_t_pid 0);;;
  set_task_name p swapper_name;;;
  task_upd p (set_t_state TASK_RUNNING);;;
  task_upd p (set_t_sched_class (Some Idle));;;
  task_upd p (set_t_kernel_stack_top stack_top);;;
  let* c := on_paging get_cr3 in
  task_upd p (set_t_cr3 c);;;
  on_list (list_add (p + tasks_off) global_tasks).

Definition sched_spin_lock : M kstate unit := spin_lock k_sched_lock set_k_sched_lock.
Definition sched_spin_unlock : M kstate unit := spin_unlock set_k_sched_lock.

(** [kernel_thread], the fields of the new task and its first stack frame. *)
Definition init_thread (p : Z) (name : list Z) (fn arg policy : Z) : M kstate unit :=
  let* pid := kgets k_next_pid in
  task_upd p (set_t_pid pid);;;
  kmod (set_k_next_pid (u32 (pid + 1)));;;
  set_task_name p name;;;
  task_upd p (set_t_state TASK_RUNNING);;;
  task_upd p (set_t_policy policy);;;
  task_upd p (set_t_fn fn);;;
  task_upd p (set_t_arg arg);;;
  let* c := on_paging get_cr3 in
  task_upd p (set_t_cr3 c);;;
  (if (policy =? SCHED_FIFO) || (policy =? SCHED_RR) then
     task_upd p (set_t_prio 50);;;
     task_upd p (set_t_rt_prio 50);;;
     task_upd p (set_t_sched_class (Some Rt))
   else
     task_upd p (set_t_prio DEFAULT_PRIO);;;
     task_upd p (set_t_weight 1024);;;
     task_upd p (set_t_sched_class (Some Fair)));;;
  let top := p + kernel_stack_off + KERNEL_STACK_SIZE in
  task_upd p (set_t_kernel_stack_top top);;;
  let* stack := push_words p top [thread_trampoline; 0; 0; 0; 0; 0; 0] in
  task_upd p (set_t_rsp stack).

(** The result is the new task's pid as an [int], -1 when the heap is full. *)
Definition kernel_thread (name : list Z) (fn arg policy : Z) : M kstate Z :=
  sched_spin_lock;;;
  let* p := on_heap (kmalloc kernel_heap_region sizeof_task) in
  if p =? 0 then sched_spin_unlock;;; kret (-1) else
  put_task p zero_task;;;
  init_thread p name fn arg policy;;;
  task_setup_stdio p;;;
  class_enqueue p;;;
  on_list (list_add (p + tasks_off) global_tasks);;;
  sched_spin_unlock;;;
  task_get p (fun t => i32 (t_pid t)).

Definition wake_up_process (p : Z) : M kstate unit :=
  sched_spin_lock;;;
  (if p =? 0 then kret tt else
   let* st := task_get p t_state in
   if st =? TASK_INTERRUPTIBLE then
     task_upd p (set_t_state TASK_RUNNING);;;
     class_enqueue p
   else kret tt);;;
  sched_spin_unlock.

Definition scheduler_tick : M kstate unit :=
  kmod (fun s => set_k_clock (u64 (k_clock s + 1)) s);;;
  let* cur := kgets k_current in
  let* c := task_class cur in
  match task_tick c with Some f => f cur | None => kret tt end.

Definition switch_to (prev next : Z) : M kstate unit :=
  kmod (fun s => set_k_switches ((prev, next) :: k_switches s) s).

Definition __schedule : M kstate unit :=
  sched_spin_lock;;;
  let* prev := kgets k_current in
  let* next := pick_next_task (class_ops Rt) in
  let* next := (if next =? 0 then pick_next_task (class_ops Fair) else kret next) in
  let* next := (if next =? 0 then pick_next_task (class_ops Idle) else kret next) in
  if next =? prev then
    let* cur := kgets k_current in
    task_upd cur (fun t => set_t_flags (Z.land (t_flags t) (cnot 32 TIF_NEED_RESCHED)) t);;;
    sched_spin_unlock
  else
    kmod (set_k_current next);;;
    let* top := task_get next t_kernel_stack_top in
    kmod (set_k_tss_rsp0 top);;;
    let* c := task_get next t_cr3 in
    let* cr3 := on_paging get_cr3 in
    (if c =? cr3 then kret tt else on_paging (switch_address_space c));;;
    sched_spin_unlock;;;
    switch_to prev next.
Definition schedule : M kstate unit := __schedule.

(** A caller of [schedule] goes on at once when it keeps the processor; when
    another task is chosen, the rest of its code waits until [switch_to] returns
    to it: it is [Suspended] with what is left to do. *)
Definition reschedule {B} (k : M kstate (flow B)) : M kstate (flow B) :=
  let* me := kgets k_current in
  schedule;;;
  let* now := kgets k_current in
  if now =? me then k else kret (Suspended k).

(** [thread_trampoline]: the thread's function, then a zombie that only yields.
    The fuel bounds the number of times the zombie is scheduled. *)
Fixpoint zombie_loop (fuel : nat) : M kstate (flow unit) :=
  match fuel with
  | O => kspin
  | S f => reschedule (zombie_loop f)
  end.
Definition thread_trampoline_body (fuel : nat) (fn : M kstate unit) : M kstate (flow unit) :=
  fn;;;
  let* cur := kgets k_current in
  task_upd cur (set_t_state TASK_ZOMBIE);;;
  zombie_loop fuel.

(** *** syscalls.c *)
Definition sys_sched_yield : M kstate unit := schedule.

(** *** wait.c *)
Definition init_waitqueue_head (q : Z) : M kstate unit := on_list (INIT_LIST_HEAD q).
Definition wake_up (q : Z) : M kstate unit := kret tt.
End Operations.

(** ** Invariant *)

Section Invariant.
Context `{Layout}.

Definition se_nodes (l : list Z) : list Z := (fun p => p + se_run_node_off) <$> l.
Definition rt_nodes (l : list Z) : list Z := (fun p => p + rt_run_node_off) <$> l.
Definition task_nodes (l : list Z) : list Z := (fun p => p + tasks_off) <$> l.

(** The run queues and the list of all tasks are well-formed lists that share no
    node, their elements are tasks, and [nr_running] counts the queued tasks. *)
Record sched_inv (s : kstate) (cfs rt glob : list Z) : Prop := {
  si_cfs : dll (k_nodes s) cfs_queue (se_nodes cfs);
  si_rt : dll (k_nodes s) rt_queue (rt_nodes rt);
  si_glob : dll (k_nodes s) global_tasks (task_nodes glob);
  si_sep : NoDup ((cfs_queue :: se_nodes cfs) ++ (rt_queue :: rt_nodes rt) ++ (global_tasks :: task_nodes glob));
  si_tasks p : p ∈ cfs ++ rt ++ glob -> is_Some (k_tasks s !! p);
  si_nonnull p : p ∈ cfs ++ rt -> p <> 0;
  si_count : k_nr_running s = Z.of_nat (length cfs + length rt);
  si_current : is_Some (k_tasks s !! k_current s)
}.

(** Between calls the scheduler lock is free. *)
Definition sched_ok (s : kstate) (cfs rt glob : list Z) : Prop :=
  sched_inv s cfs rt glob /\ k_sched_lock s = 0.

(** The task the scheduler picks, and the fair queue afterwards. *)
Definition sched_next (cfs rt : list Z) (cur : Z) : Z :=
  match rt with p :: _ => p | [] => match cfs with p :: _ => p | [] => cur end end.
Definition rotate (cfs rt : list Z) : list Z :=
  match rt, cfs with [], p :: q => q ++ [p] | _, _ => cfs end.
End Invariant.

(** ** Lemmas *)

Section Lemmas.
Context `{Layout}.

Lemma on_list_done {B} (m : M nodes B) s b h :
  m (k_nodes s) = Done (b, h) -> on_list m s = Done (b, set_k_nodes h s).
Proof. apply zoom_done. Qed.

Lemma task_get_done {B} s p (f : task_struct -> B) t :
  k_tasks s !! p = Some t -> task_get p f s = Done (f t, s).
Proof. intros Ht. apply kopt_some. by rewrite Ht. Qed.

Lemma task_upd_done s p f t :
  k_tasks s !! p = Some t -> task_upd p f s = Done (tt, set_k_tasks (<[p := f t]> (k_tasks s)) s).
Proof. intros Ht. apply kupd_some. by rewrite Ht. Qed.

Lemma sched_lock_done s : k_sched_lock s = 0 -> sched_spin_lock s = Done (tt, set_k_sched_lock 1 s).
Proof. intros Hl. apply spin_lock_free. exact Hl. Qed.

Lemma set_k_nodes_id s : set_k_nodes (k_nodes s) s = s.
Proof. by destruct s as [[]]. Qed.

Lemma on_list_read {B} (m : M nodes B) s b :
  m (k_nodes s) = Done (b, k_nodes s) -> on_list m s = Done (b, s).
Proof. intros E. erewrite on_list_done by exact E. by rewrite set_k_nodes_id. Qed.

Lemma get_next_head h head x xs : dll h head (x :: xs) -> get_next head h = Done (x, h).
Proof.
  intros [_ [[Hn _] _]]. apply kopt_some. exact Hn.
Qed.

(** The fair class takes the front of the queue and moves it to the back. *)
Lemma pick_fair_cons s p q :
  dll (k_nodes s) cfs_queue (se_nodes (p :: q)) ->
  exists h', pick_next_task_fair s = Done (p, set_k_nodes h' s) /\ dll h' cfs_queue (se_nodes (q ++ [p])) /\
    forall x, x ∉ cfs_queue :: se_nodes (p :: q) -> h' !! x = k_nodes s !! x.
Proof.
  intros Hd. unfold pick_next_task_fair.
  erewrite kbind_done by (apply on_list_read, (list_empty_spec _ _ _ Hd)). rewrite bool_decide_false by done.
  erewrite kbind_done by (apply on_list_read; exact (get_next_head _ _ _ _ Hd)).
  destruct (list_del_spec (k_nodes s) cfs_queue [] (p + se_run_node_off) (se_nodes q) Hd) as (h1 & E1 & Hd1 & Hn1 & Hf1).
  erewrite kbind_done by (apply on_list_done; exact E1).
  pose proof Hd as [Hnd _]. change (se_nodes (p :: q)) with (p + se_run_node_off :: se_nodes q) in *.
  apply NoDup_cons in Hnd as [Hh Hnd]. apply NoDup_cons in Hnd as [Hp _].
  destruct (list_add_tail_spec h1 cfs_queue (se_nodes q) (p + se_run_node_off) Hd1) as (h2 & E2 & Hd2 & Hf2);
    [set_solver|by rewrite Hn1|].
  erewrite kbind_done by (apply on_list_done; exact E2).
  exists h2. split; [unfold kret; f_equal; f_equal; lia|]. split.
  - unfold se_nodes in *. by rewrite fmap_app.
  - intros x Hx. rewrite Hf2 by set_solver. apply Hf1. set_solver.
Qed.

Lemma pick_fair_nil s : dll (k_nodes s) cfs_queue [] -> pick_next_task_fair s = Done (0, s).
Proof.
  intros Hd. unfold pick_next_task_fair.
  erewrite kbind_done by (apply on_list_read, (list_empty_spec _ _ _ Hd)). done.
Qed.

Lemma pick_rt s rt :
  dll (k_nodes s) rt_queue (rt_nodes rt) ->
  pick_next_task_rt s = Done (match rt with p :: _ => p | [] => 0 end, s).
Proof.
  intros Hd. unfold pick_next_task_rt.
  erewrite kbind_done by (apply on_list_read, (list_empty_spec _ _ _ Hd)).
  destruct rt as [|p q]; [done|]. rewrite bool_decide_false by done.
  erewrite kbind_done by (apply on_list_read; exact (get_next_head _ _ _ _ Hd)).
  unfold kret. f_equal. f_equal. lia.
Qed.

(** Rearranging the fair queue in place keeps the invariant. *)
Lemma sched_inv_requeue s cfs cfs' rt glob h' :
  sched_inv s cfs rt glob -> cfs' ≡ₚ cfs -> dll h' cfs_queue (se_nodes cfs') ->
  (forall x, x ∉ cfs_queue :: se_nodes cfs -> h' !! x = k_nodes s !! x) ->
  sched_inv (set_k_nodes h' s) cfs' rt glob.
Proof.
  intros [Hc Hr Hg Hs Ht Hn Hcnt Hcur] Hp Hd Hf.
  assert (forall x, x ∈ (rt_queue :: rt_nodes rt) ++ (global_tasks :: task_nodes glob) -> h' !! x = k_nodes s !! x) as Hout.
  { intros x Hx. apply Hf. intros Hx'. apply NoDup_app in Hs as (_ & Hs & _). by apply (Hs x). }
  constructor.
  - done.
  - apply (dll_frame (k_nodes s)); [|done]. intros x Hx. apply Hout. set_solver.
  - apply (dll_frame (k_nodes s)); [|done]. intros x Hx. apply Hout. set_solver.
  - unfold se_nodes in *. by rewrite Hp.
  - intros p Hp'. apply Ht. by rewrite <- Hp.
  - intros p Hp'. apply Hn. by rewrite <- Hp.
  - rewrite Hp. done.
  - done.
Qed.

(** Changes that touch neither the lists nor the set of tasks. *)
Lemma sched_inv_ext s s' cfs rt glob :
  sched_inv s cfs rt glob -> k_nodes s' = k_nodes s ->
  (forall p, is_Some (k_tasks s !! p) -> is_Some (k_tasks s' !! p)) ->
  k_nr_running s' = k_nr_running s -> is_Some (k_tasks s' !! k_current s') ->
  sched_inv s' cfs rt glob.
Proof.
  intros [Hc Hr Hg Hs Ht Hn Hcnt Hcur] Hnd Htk Hnr Hcu.
  constructor; rewrite ?Hnd; try done; [by auto|congruence].
Qed.

(** The first half of [__schedule]: the choice of the next task. *)
Definition choose_next : M kstate Z :=
  let* next := pick_next_task (class_ops Rt) in
  let* next := (if next =? 0 then pick_next_task (class_ops Fair) else kret next) in
  if next =? 0 then pick_next_task (class_ops Idle) else kret next.

Lemma choose_next_spec s cfs rt glob :
  sched_inv s cfs rt glob ->
  exists h', choose_next s = Done (sched_next cfs rt (k_current s), set_k_nodes h' s) /\
    sched_inv (set_k_nodes h' s) (rotate cfs rt) rt glob.
Proof.
  intros Hinv. pose proof Hinv as [Hc Hr Hg Hs Ht Hn Hcnt Hcur]. unfold choose_next.
  cbn [pick_next_task class_ops]. erewrite kbind_done by (by apply pick_rt).
  destruct rt as [|p rt].
  - cbn [Z.eqb]. destruct cfs as [|p q].
    + erewrite kbind_done by (by apply pick_fair_nil). cbn [Z.eqb]. exists (k_nodes s). rewrite set_k_nodes_id. done.
    + destruct (pick_fair_cons s p q Hc) as (h' & E & Hd & Hf). erewrite kbind_done by exact E.
      rewrite (proj2 (Z.eqb_neq p 0)) by (apply Hn; set_solver).
      exists h'. split; [done|]. eapply sched_inv_requeue; [done| |done|done].
      simpl. by rewrite Permutation_app_comm.
  - assert (p <> 0) by (apply Hn; set_solver). rewrite (proj2 (Z.eqb_neq p 0)) by done.
    erewrite kbind_done by done. rewrite (proj2 (Z.eqb_neq p 0)) by done.
    exists (k_nodes s). rewrite set_k_nodes_id. done.
Qed.
End Lemmas.

(** ** [schedule] *)

Section Schedule.
Context `{Layout}.

Lemma choose_next_bind {B} (k : Z -> M kstate B) s :
  (let* next := pick_next_task (class_ops Rt) in
   let* next := (if next =? 0 then pick_next_task (class_ops Fair) else kret next) in
   let* next := (if next =? 0 then pick_next_task (class_ops Idle) else kret next) in k next) s =
  (let* next := choose_next in k next) s.
Proof.
  unfold choose_next. rewrite kbind_assoc. unfold kbind at 1 4.
  destruct (pick_next_task (class_ops Rt) s) as [[p s1]| | |]; [|done..]. by rewrite kbind_assoc.
Qed.

(** What [schedule] does to the rest of the state when it switches to [next]. *)
Record switched (s s' : kstate) (next : Z) : Prop := {
  sw_switch : k_switches s' = (k_current s, next) :: k_switches s;
  sw_regs t : k_tasks s !! next = Some t ->
    k_tss_rsp0 s' = t_kernel_stack_top t /\ cr3_reg (k_mm s') = t_cr3 t;
  sw_tasks : k_tasks s' = k_tasks s
}.

Lemma schedule_spec s cfs rt glob :
  sched_ok s cfs rt glob ->
  let next := sched_next cfs rt (k_current s) in
  exists s', schedule s = Done (tt, s') /\ sched_ok s' (rotate cfs rt) rt glob /\ k_current s' = next /\
    (next = k_current s -> k_switches s' = k_switches s /\
       exists t, k_tasks s !! next = Some t /\
         k_tasks s' = <[next := set_t_flags (Z.land (t_flags t) (cnot 32 TIF_NEED_RESCHED)) t]> (k_tasks s)) /\
    (next <> k_current s -> switched s s' next).
Proof.
  intros [Hinv Hl] next. pose proof Hinv as [_ _ _ _ Ht _ _ Hcur]. unfold schedule, __schedule.
  assert (is_Some (k_tasks s !! next)) as [t Hnext].
  { unfold next, sched_next. destruct rt as [|p ?]; [destruct cfs as [|p ?]; [done|]|]; apply Ht; set_solver. }
  erewrite kbind_done by (by apply sched_lock_done).
  erewrite kbind_done by done. cbn [k_current set_k_sched_lock]. rewrite choose_next_bind.
  set (s1 := set_k_sched_lock 1 s).
  assert (sched_inv s1 cfs rt glob) as Hinv1 by (eapply sched_inv_ext; [exact Hinv|done..]).
  destruct (choose_next_spec s1 cfs rt glob Hinv1) as (h' & E & Hinv').
  change (k_current s1) with (k_current s) in E. fold next in E. erewrite kbind_done by exact E.
  set (s2 := set_k_nodes h' s1) in *.
  destruct (Z.eqb_spec next (k_current s)) as [Heq|Hne].
  - erewrite kbind_done by done. change (k_current s2) with (k_current s). rewrite <- Heq.
    erewrite kbind_done by (apply task_upd_done; exact Hnext). eexists. split; [reflexivity|].
    split; [|split; [by symmetry|split; [intros _; split; [done|by exists t]|by intros []]]].
    split; [|done]. eapply sched_inv_ext; [exact Hinv'|done| |done|].
    + intros p Hp. cbn [k_tasks set_k_tasks set_k_sched_lock]. destruct (decide (p = next)) as [-> |];
        [by rewrite lookup_insert_eq|by rewrite lookup_insert_ne].
    + cbn [k_tasks set_k_tasks set_k_sched_lock k_current]. change (k_current s2) with (k_current s).
      rewrite <- Heq. by rewrite lookup_insert_eq.
  - erewrite kbind_done by done.
    erewrite kbind_done by (apply task_get_done; exact Hnext). erewrite kbind_done by done.
    erewrite kbind_done by (apply task_get_done; exact Hnext).
    set (s3 := set_k_tss_rsp0 (t_kernel_stack_top t) (set_k_current next s2)).
    assert (on_paging get_cr3 s3 = Done (cr3_reg (k_mm s), s3)) as Eg by (by destruct s as [[]]).
    erewrite kbind_done by exact Eg.
    assert (exists mm, (if t_cr3 t =? cr3_reg (k_mm s) then kret tt else on_paging (switch_address_space (t_cr3 t))) s3
      = Done (tt, set_k_mm mm s3) /\ cr3_reg mm = t_cr3 t) as (mm & Em & Hmm).
    { destruct (Z.eqb_spec (t_cr3 t) (cr3_reg (k_mm s))) as [->|]; [exists (k_mm s); by destruct s as [[]]|].
      eexists. split; [reflexivity|done]. }
    erewrite kbind_done by exact Em. eexists. split; [reflexivity|].
    split; [|split; [done|split; [by intros ->|intros _; constructor]]].
    + split; [|done]. eapply sched_inv_ext; [exact Hinv'|done|done|done|].
      cbn. rewrite Hnext. by eexists.
    + done.
    + intros t' Ht'. assert (t' = t) as -> by (rewrite Hnext in Ht'; by injection Ht'). done.
    + done.
Qed.
End Schedule.

(** ** Properties of [schedule] *)

Section ScheduleProperties.
Context `{Layout}.

(** [schedule] always returns with the lock free; it runs the first real-time
    task if there is one, else the first task of the fair queue, which moves to
    the back, else the current task goes on.  When the task changes, the address
    space and the kernel stack are those of the new task and [switch_to] is
    called once; when it does not, only its reschedule flag is cleared. *)
Theorem schedule_picks s cfs rt glob :
  sched_ok s cfs rt glob ->
  let next := match rt, cfs with p :: _, _ => p | [], p :: _ => p | [], [] => k_current s end in
  exists s', schedule s = Done (tt, s') /\ k_current s' = next /\
    sched_ok s' (match rt, cfs with [], p :: q => q ++ [p] | _, _ => cfs end) rt glob /\
    if decide (next = k_current s) then
      k_switches s' = k_switches s /\ exists t, k_tasks s !! next = Some t /\
        k_tasks s' = <[next := set_t_flags (Z.land (t_flags t) (cnot 32 TIF_NEED_RESCHED)) t]> (k_tasks s)
    else
      k_switches s' = (k_current s, next) :: k_switches s /\ k_tasks s' = k_tasks s /\
      exists t, k_tasks s !! next = Some t /\ k_tss_rsp0 s' = t_kernel_stack_top t /\ cr3_reg (k_mm s') = t_cr3 t.
Proof.
  intros Hok. destruct (schedule_spec s cfs rt glob Hok) as (s' & E & Hok' & Hcur & Hsame & Hdiff).
  assert (sched_next cfs rt (k_current s) =
    match rt, cfs with p :: _, _ => p | [], p :: _ => p | [], [] => k_current s end) as Hn by (by destruct rt, cfs).
  assert (rotate cfs rt = match rt, cfs with [], p :: q => q ++ [p] | _, _ => cfs end) as Hr by (by destruct rt, cfs).
  rewrite <- Hn, <- Hr. exists s'. split; [done|]. split; [done|]. split; [done|].
  destruct (decide _) as [Heq|Hne]; [by apply Hsame|]. destruct (Hdiff Hne) as [H1 H2 H3].
  split; [done|]. split; [done|]. pose proof Hok' as [[_ _ _ _ _ _ _ [t Ht]] _]. rewrite Hcur, H3 in Ht.
  exists t. split; [done|]. by apply H2.
Qed.

(** The tasks that run after each of [n] calls. *)
Fixpoint run_schedules (n : nat) : M kstate (list Z) :=
  match n with
  | O => kret []
  | S n' => schedule;;; let* cur := kgets k_current in let* rest := run_schedules n' in kret (cur :: rest)
  end.
Fixpoint robin (n : nat) (l : list Z) : list Z :=
  match n, l with
  | S n', p :: q => p :: robin n' (q ++ [p])
  | _, _ => []
  end.

Lemma robin_lookup n l i :
  l <> [] -> (i < n)%nat -> robin n l !! i = l !! (i mod length l)%nat.
Proof.
  revert l i. induction n as [|n IH]; intros l i Hl Hi; [lia|].
  destruct l as [|p q]; [done|]. simpl robin. destruct i as [|i].
  - simpl. by rewrite Nat.sub_diag.
  - rewrite lookup_cons_ne_0 by lia. simpl pred. rewrite IH by first [lia | by destruct q].
    assert (length (q ++ [p]) = S (length q)) as Hlen by (rewrite length_app; simpl; lia).
    rewrite Hlen. change (length (p :: q)) with (S (length q)).
    pose proof (Nat.mod_upper_bound i (S (length q)) ltac:(lia)) as Hb.
    destruct (decide (i mod S (length q) = length q)%nat) as [E|Hne].
    + assert (S i mod S (length q) = 0)%nat as ->.
      { pose proof (Nat.div_mod_eq i (S (length q))) as D. rewrite E in D.
        apply Nat.Div0.mod_divides. exists (S (i / S (length q))). lia. }
      rewrite E. by rewrite lookup_app_r, Nat.sub_diag by lia.
    + assert (S i mod S (length q) = S (i mod S (length q)))%nat as ->.
      { symmetry. apply Nat.mod_unique with (i / S (length q))%nat; [lia|].
        pose proof (Nat.div_mod_eq i (S (length q))). lia. }
      rewrite lookup_app_l by lia. done.
Qed.

(** C6: round robin: with no real-time task, the [i]-th call of [schedule] runs
    task number [i] modulo the length of the fair queue, whatever the state of
    the tasks: each task of the queue runs once in every round, a zombie
    included. *)
Theorem schedule_round_robin n s cfs glob :
  sched_ok s cfs [] glob -> cfs <> [] ->
  exists picks s', run_schedules n s = Done (picks, s') /\ length picks = n /\
    (forall i, (i < n)%nat -> picks !! i = cfs !! (i mod length cfs)%nat) /\
    exists cfs', sched_ok s' cfs' [] glob /\ cfs' ≡ₚ cfs.
Proof.
  intros Hok Hne.
  assert (exists s' cfs', run_schedules n s = Done (robin n cfs, s') /\ length (robin n cfs) = n /\
    sched_ok s' cfs' [] glob /\ cfs' ≡ₚ cfs) as (s' & cfs' & E & Hl & Hok' & Hp).
  { revert s cfs Hok Hne. induction n as [|n IH]; intros s cfs Hok Hne; [by exists s, cfs|].
    destruct cfs as [|p q]; [done|]. destruct (schedule_spec s (p :: q) [] glob Hok) as (s1 & E1 & Hok1 & Hcur & _).
    destruct (IH s1 (q ++ [p]) Hok1 ltac:(by destruct q)) as (s2 & cfs' & E2 & Hl2 & Hok2 & Hp2).
    exists s2, cfs'. simpl run_schedules. erewrite kbind_done by exact E1. erewrite kbind_done by done.
    erewrite kbind_done by exact E2. rewrite Hcur. split; [done|]. split; [simpl; by rewrite Hl2|]. split; [done|].
    rewrite Hp2. by rewrite Permutation_app_comm. }
  exists (robin n cfs), s'. split; [done|]. split; [done|]. split; [intros i Hi; by apply robin_lookup|].
  by exists cfs'.
Qed.
End ScheduleProperties.
