(* ===== verification/Threads.v ===== *)
(** * Creating and waking tasks

    The theorems about [kernel_thread] and [wake_up_process] of
    [kernel/sched/core.c] (defined in [Sched]): a new task is complete before it
    can be scheduled, and enqueueing keeps the run queues well formed. *)

From S2P Require Import Prelude Memory StringLib ListHead SpinLock Slab PgTable FrameAlloc PageAlloc Paging VirtMem KState Sched.

(** ** The task a thread starts as *)

Section ThreadTask.
Context `{Layout}.

(** The stack frame [switch_to] pops: six zero registers below the entry point. *)
Definition thread_stack : list Z :=
  <[2041%nat := 0]> (<[2042%nat := 0]> (<[2043%nat := 0]> (<[2044%nat := 0]> (<[2045%nat := 0]>
    (<[2046%nat := 0]> (<[2047%nat := thread_trampoline]> zero_kernel_stack)))))).

Definition is_rt (policy : Z) : bool := (policy =? SCHED_FIFO) || (policy =? SCHED_RR).

(** The task after [init_thread]. *)
Definition thread_task (p pid : Z) (name : list Z) (fn arg policy cr3 : Z) : task_struct :=
  let top := p + kernel_stack_off + KERNEL_STACK_SIZE in
  mk_task (top - 56) pid 0 name TASK_RUNNING 0 policy (if is_rt policy then 50 else DEFAULT_PRIO) cr3 0 0 0 0 0
    (if is_rt policy then 0 else 1024) (if is_rt policy then 50 else 0) (Some (if is_rt policy then Rt else Fair))
    thread_stack top (replicate 32 0) 0 (replicate 32 0) (replicate 4 0) 0 fn arg.

(** [push_word] with the index of the word it writes. *)
Lemma push_word_done s p stack v t (i : nat) :
  k_tasks s !! p = Some t -> stack = p + kernel_stack_off + 8 * (Z.of_nat i + 1) ->
  (i < length (t_kernel_stack t))%nat ->
  push_word p stack v s =
    Done (stack - 8, set_k_tasks (<[p := set_t_kernel_stack (<[i := v]> (t_kernel_stack t)) t]> (k_tasks s)) s).
Proof.
  intros Ht -> Hi. unfold push_word. erewrite kbind_done by (apply task_get_done; exact Ht).
  replace (_ - 8 - (p + kernel_stack_off)) with (Z.of_nat i * 8) by lia. rewrite Z.div_mul by lia.
  rewrite (proj2 (Z.leb_le 0 (Z.of_nat i))), (proj2 (Z.ltb_lt (Z.of_nat i) _)) by lia. cbn [andb].
  erewrite kbind_done by (apply task_upd_done; exact Ht). by rewrite Nat2Z.id.
Qed.

Lemma set_k_tasks_twice s x y : set_k_tasks x (set_k_tasks y s) = set_k_tasks x s.
Proof. done. Qed.

(** Successive updates of one task. *)
Lemma task_upd_again s p t f :
  task_upd p f (set_k_tasks (<[p := t]> (k_tasks s)) s) = Done (tt, set_k_tasks (<[p := f t]> (k_tasks s)) s).
Proof.
  erewrite task_upd_done by (apply lookup_insert_eq). cbn [k_tasks set_k_tasks]. by rewrite insert_insert_eq, set_k_tasks_twice.
Qed.

Lemma push_word_again s p stack v t (i : nat) :
  stack = p + kernel_stack_off + 8 * (Z.of_nat i + 1) -> (i < length (t_kernel_stack t))%nat ->
  push_word p stack v (set_k_tasks (<[p := t]> (k_tasks s)) s) =
    Done (stack - 8, set_k_tasks (<[p := set_t_kernel_stack (<[i := v]> (t_kernel_stack t)) t]> (k_tasks s)) s).
Proof.
  intros Hs Hi. erewrite push_word_done by (done || apply lookup_insert_eq). cbn [k_tasks set_k_tasks].
  by rewrite insert_insert_eq, set_k_tasks_twice.
Qed.

Lemma length_zero_kernel_stack : length zero_kernel_stack = 2048%nat.
Proof. apply length_replicate. Qed.

(** The stack after pushing [vs] when the words from index [n] on are in use. *)
Fixpoint pushed (n : nat) (vs ks : list Z) : list Z :=
  match vs with
  | [] => ks
  | v :: vs' => pushed (n - 1) vs' (<[(n - 1)%nat := v]> ks)
  end.

Lemma push_words_spec s p t vs n stack :
  stack = p + kernel_stack_off + 8 * Z.of_nat n -> (length vs <= n <= length (t_kernel_stack t))%nat ->
  push_words p stack vs (set_k_tasks (<[p := t]> (k_tasks s)) s) =
  Done (stack - 8 * Z.of_nat (length vs),
        set_k_tasks (<[p := set_t_kernel_stack (pushed n vs (t_kernel_stack t)) t]> (k_tasks s)) s).
Proof.
  revert t n stack. induction vs as [|v vs IH]; intros t n stack Hs Hn; cbn [push_words].
  - unfold kret. replace (set_t_kernel_stack (pushed n [] (t_kernel_stack t)) t) with t by (by destruct t).
    simpl length. by rewrite Z.mul_0_r, Z.sub_0_r.
  - simpl length in *. erewrite kbind_done by (apply (push_word_again s p stack v t (n - 1)); lia).
    rewrite (IH _ (n - 1)%nat); [|lia|cbn [t_kernel_stack set_t_kernel_stack]; rewrite length_insert; lia].
    f_equal. f_equal. lia.
Qed.

(** The first frame. *)
Lemma push_frame s p t :
  t_kernel_stack t = zero_kernel_stack ->
  push_words p (p + kernel_stack_off + KERNEL_STACK_SIZE) [thread_trampoline; 0; 0; 0; 0; 0; 0]
    (set_k_tasks (<[p := t]> (k_tasks s)) s) =
  Done (p + kernel_stack_off + KERNEL_STACK_SIZE - 56,
        set_k_tasks (<[p := set_t_kernel_stack thread_stack t]> (k_tasks s)) s).
Proof.
  intros Hz. pose proof length_zero_kernel_stack as Hl. unfold thread_stack. rewrite <- Hz in *.
  rewrite (push_words_spec s p t _ 2048); [reflexivity|done|]. rewrite Hl. simpl length. lia.
Qed.

Lemma get_cr3_done s : on_paging get_cr3 s = Done (cr3_reg (k_mm s), s).
Proof. by destruct s as [[]]. Qed.

Lemma init_thread_spec s p name fn arg policy :
  (length name < 32)%nat ->
  init_thread p name fn arg policy (set_k_tasks (<[p := zero_task]> (k_tasks s)) s) =
  Done (tt, set_k_next_pid (u32 (k_next_pid s + 1))
    (set_k_tasks (<[p := thread_task p (k_next_pid s) name fn arg policy (cr3_reg (k_mm s))]> (k_tasks s)) s)).
Proof.
  intros Hn. unfold init_thread. erewrite kbind_done by done. cbn [k_next_pid set_k_tasks].
  erewrite kbind_done by apply task_upd_again. erewrite kbind_done by done.
  set (s1 := set_k_next_pid (u32 (k_next_pid s + 1)) s).
  change (set_k_next_pid (u32 (k_next_pid s + 1)) (set_k_tasks ?x s)) with (set_k_tasks x s1).
  change (k_tasks s) with (k_tasks s1). change (cr3_reg (k_mm s)) with (cr3_reg (k_mm s1)).
  generalize (k_next_pid s) as pid. clearbody s1. clear s. intros pid.
  unfold set_task_name. rewrite (proj2 (Nat.ltb_lt _ _) Hn).
  do 5 erewrite kbind_done by apply task_upd_again.
  erewrite kbind_done by apply get_cr3_done. cbn [k_mm k_vm set_k_tasks].
  erewrite kbind_done by apply task_upd_again.
  fold (is_rt policy). unfold thread_task.
  destruct (is_rt policy);
    (erewrite kbind_done; [|do 2 erewrite kbind_done by apply task_upd_again; apply task_upd_again]);
    (erewrite kbind_done by apply task_upd_again); (erewrite kbind_done by (by apply push_frame)); apply task_upd_again.
Qed.
End ThreadTask.

#[global] Opaque zero_kernel_stack.

(** ** The standard files *)

(** The parts of the state [task_setup_stdio] leaves alone. *)
Record sched_same (s s' : kstate) : Prop := {
  ss_nodes : k_nodes s' = k_nodes s;
  ss_mm : k_mm s' = k_mm s;
  ss_running : k_nr_running s' = k_nr_running s;
  ss_clock : k_clock s' = k_clock s;
  ss_current : k_current s' = k_current s;
  ss_pid : k_next_pid s' = k_next_pid s;
  ss_lock : k_sched_lock s' = k_sched_lock s;
  ss_switches : k_switches s' = k_switches s
}.

#[global] Instance sched_same_preorder : PreOrder sched_same.
Proof. split; [by constructor|]. intros s1 s2 s3 [] []. constructor; congruence. Qed.

(** [f] is an open file of the given kind. *)
Definition open_as (s : kstate) (f : Z) (fops : file_operations) : Prop :=
  exists fl i, k_files s !! f = Some fl /\ k_inodes s !! f_inode fl = Some i /\ i_fop i = Some fops.

Section Stdio.
Context `{Layout}.
Hypothesis heap_base : 0 < kernel_heap_region /\ kernel_heap_region mod 16 = 0.

Lemma kmalloc_room s size :
  slab_inv (k_slab s) -> 0 < size < 2 ^ 32 -> heap_ptr (k_slab s) + size <= kernel_heap_size ->
  exists sl, on_heap (kmalloc kernel_heap_region size) s =
      Done (kernel_heap_region + heap_ptr (k_slab s), set_k_slab sl s) /\
    slab_inv sl /\ heap_ptr (k_slab s) + size <= heap_ptr sl < heap_ptr (k_slab s) + size + 16.
Proof using heap_base.
  intros Hinv Hs Hroom. destruct heap_base as [Hb Hba].
  destruct (kmalloc_spec kernel_heap_region (k_slab s) size Hinv) as [[Hfull _]|(sl & E & Hi & _ & _ & Hp & _)];
    [unfold size_ok, kernel_heap_size; lia|done|done|lia|].
  exists sl. split; [by apply zoom_done|]. split; [done|lia].
Qed.

(** A file with its inode; both come from the heap, so they are new addresses. *)
Lemma new_file_spec s fops priv :
  slab_inv (k_slab s) -> heap_ptr (k_slab s) + 96 <= kernel_heap_size ->
  exists f i s', new_file fops priv s = Done (f, s') /\ sched_same s s' /\ slab_inv (k_slab s') /\
    kernel_heap_region + heap_ptr (k_slab s) <= f < i /\ i < kernel_heap_region + heap_ptr (k_slab s') /\
    heap_ptr (k_slab s') <= heap_ptr (k_slab s) + 96 /\ k_tasks s' = k_tasks s /\
    k_files s' = <[f := mk_file 0 i 0]> (k_files s) /\
    k_inodes s' = <[i := mk_inode 0 0 0 priv (Some fops)]> (k_inodes s) /\ k_pipes s' = k_pipes s.
Proof using heap_base.
  intros Hinv Hroom. destruct heap_base as [Hb _]. pose proof Hinv as (_ & Hhp & _). unfold new_file.
  destruct (kmalloc_room s sizeof_file Hinv) as (sl1 & E1 & Hi1 & Hp1); [by split|unfold sizeof_file; lia|].
  erewrite kbind_done by exact E1. set (s1 := set_k_slab sl1 s). unfold sizeof_file in Hp1.
  destruct (kmalloc_room s1 sizeof_inode Hi1) as (sl2 & E2 & Hi2 & Hp2); [by split|unfold sizeof_inode; change (k_slab s1) with sl1; lia|].
  erewrite kbind_done by exact E2. change (heap_ptr (k_slab s1)) with (heap_ptr sl1) in *. unfold sizeof_inode in Hp2.
  set (f := kernel_heap_region + heap_ptr (k_slab s)) in *. set (i := kernel_heap_region + heap_ptr sl1) in *.
  unfold store_file, store_inode. rewrite (proj2 (Z.eqb_neq f 0)), (proj2 (Z.eqb_neq i 0)) by lia.
  erewrite kbind_done by done. erewrite kbind_done by done.
  exists f, i. eexists. split; [reflexivity|]. split; [by constructor|]. cbn.
  split; [done|]. split; [lia|]. split; [lia|]. split; [lia|]. done.
Qed.

Lemma task_setup_stdio_spec s p t :
  k_tasks s !! p = Some t -> slab_inv (k_slab s) -> heap_ptr (k_slab s) + 288 <= kernel_heap_size ->
  exists f0 f1 f2 s', task_setup_stdio p s = Done (tt, s') /\ sched_same s s' /\ slab_inv (k_slab s') /\
    heap_ptr (k_slab s) <= heap_ptr (k_slab s') <= heap_ptr (k_slab s) + 288 /\
    k_tasks s' = <[p := set_t_files (<[2%nat := f2]> (<[1%nat := f1]> (<[0%nat := f0]> (t_files t)))) t]> (k_tasks s) /\
    open_as s' f0 StdinFops /\ open_as s' f1 StdoutFops /\ open_as s' f2 StdoutFops.
Proof using heap_base.
  intros Ht Hinv Hroom. unfold task_setup_stdio, set_file.
  destruct (new_file_spec s StdinFops 0 Hinv) as (f0 & i0 & s1 & E0 & S1 & I1 & Hf0 & Hi0 & Hh1 & T1 & F1 & N1 & _); [lia|].
  erewrite kbind_done by exact E0. erewrite kbind_done by (apply task_upd_done; by rewrite T1). set (s1' := set_k_tasks _ s1).
  destruct (new_file_spec s1' StdoutFops 0 I1) as (f1 & i1 & s2 & E1 & S2 & I2 & Hf1 & Hi1 & Hh2 & T2 & F2 & N2 & _);
    [change (k_slab s1') with (k_slab s1); lia|]. change (k_slab s1') with (k_slab s1) in *.
  erewrite kbind_done by exact E1. erewrite kbind_done by (apply task_upd_done; rewrite T2; apply lookup_insert_eq).
  set (s2' := set_k_tasks _ s2).
  destruct (new_file_spec s2' StdoutFops 0 I2) as (f2 & i2 & s3 & E2 & S3 & I3 & Hf2 & Hi2 & Hh3 & T3 & F3 & N3 & _);
    [change (k_slab s2') with (k_slab s2); lia|]. change (k_slab s2') with (k_slab s2) in *.
  erewrite kbind_done by exact E2. erewrite task_upd_done by (rewrite T3; apply lookup_insert_eq).
  exists f0, f1, f2. eexists. split; [reflexivity|]. split; [|split; [exact I3|split; [|split]]].
  - trans s1; [done|]. trans s1'; [by constructor|]. trans s2; [done|]. trans s2'; [by constructor|]. trans s3; [done|by constructor].
  - change (heap_ptr (k_slab s) <= heap_ptr (k_slab s3) <= heap_ptr (k_slab s) + 288). lia.
  - cbn [k_tasks set_k_tasks]. rewrite T3. cbn [k_tasks set_k_tasks s2']. rewrite T2. cbn [k_tasks set_k_tasks s1']. rewrite T1.
    by rewrite !insert_insert_eq.
  - assert (forall (m : gmap Z file) (n : gmap Z inode) f i fops fl, m !! f = Some (mk_file 0 i 0) ->
      n !! i = Some (mk_inode 0 0 0 0 (Some fops)) -> fl = fops ->
      exists x y, m !! f = Some x /\ n !! f_inode x = Some y /\ i_fop y = Some fl) as Hopen.
    { intros m n f i fops fl Hm Hn' ->. eexists _, _. split; [exact Hm|]. split; [exact Hn'|done]. }
    unfold open_as. cbn [k_files k_inodes set_k_tasks]. rewrite F3, N3.
    cbn [k_files k_inodes set_k_tasks s2']. rewrite F2, N2. cbn [k_files k_inodes set_k_tasks s1']. rewrite F1, N1.
    split; [|split].
    + apply (Hopen _ _ _ i0 StdinFops); [..|done]; by rewrite !lookup_insert_ne, lookup_insert_eq by lia.
    + apply (Hopen _ _ _ i1 StdoutFops); [..|done]; by rewrite lookup_insert_ne, lookup_insert_eq by lia.
    + apply (Hopen _ _ _ i2 StdoutFops); [..|done]; by rewrite lookup_insert_eq.
Qed.
End Stdio.

(** ** Enqueueing *)

Section Enqueue.
Context `{Layout}.

Definition all_nodes (cfs rt glob : list Z) : list Z :=
  (cfs_queue :: se_nodes cfs) ++ (rt_queue :: rt_nodes rt) ++ (global_tasks :: task_nodes glob).

(** The queues after a task of class [c] is enqueued, and the node it uses. *)
Definition enq_cfs (c : sched_class_id) (p : Z) (cfs : list Z) : list Z :=
  match c with Fair => cfs ++ [p] | _ => cfs end.
Definition enq_rt (c : sched_class_id) (p : Z) (rt : list Z) : list Z :=
  match c with Rt => p :: rt | _ => rt end.
Definition enq_node (c : sched_class_id) (p : Z) : Z :=
  match c with Rt => p + rt_run_node_off | _ => p + se_run_node_off end.
Definition enq_queue (c : sched_class_id) : Z := match c with Rt => rt_queue | _ => cfs_queue end.
Definition enq_count (c : sched_class_id) : Z := match c with Idle => 0 | _ => 1 end.

Lemma se_nodes_snoc cfs p : se_nodes (cfs ++ [p]) = se_nodes cfs ++ [p + se_run_node_off].
Proof. unfold se_nodes. by rewrite fmap_app. Qed.

Lemma all_nodes_enq c p cfs rt glob :
  c <> Idle -> all_nodes (enq_cfs c p cfs) (enq_rt c p rt) glob ≡ₚ enq_node c p :: all_nodes cfs rt glob.
Proof.
  unfold all_nodes. destruct c; cbn [enq_cfs enq_rt enq_node]; intros Hc; [..|done].
  - rewrite se_nodes_snoc, app_comm_cons, <- (app_assoc (cfs_queue :: se_nodes cfs)).
    symmetry. apply (Permutation_middle (cfs_queue :: se_nodes cfs)).
  - trans ((cfs_queue :: se_nodes cfs) ++ (p + rt_run_node_off) :: (rt_queue :: rt_nodes rt) ++ global_tasks :: task_nodes glob).
    + apply Permutation_app_head, Permutation_swap.
    + symmetry. apply (Permutation_middle (cfs_queue :: se_nodes cfs)).
Qed.

Lemma sep_rest cfs rt glob x :
  NoDup (all_nodes cfs rt glob) ->
  (x ∈ cfs_queue :: se_nodes cfs -> (x ∉ rt_queue :: rt_nodes rt) /\ (x ∉ global_tasks :: task_nodes glob)) /\
  (x ∈ rt_queue :: rt_nodes rt -> (x ∉ cfs_queue :: se_nodes cfs) /\ (x ∉ global_tasks :: task_nodes glob)) /\
  (x ∈ global_tasks :: task_nodes glob -> (x ∉ cfs_queue :: se_nodes cfs) /\ (x ∉ rt_queue :: rt_nodes rt)).
Proof.
  unfold all_nodes. intros (_ & H1 & (_ & H2 & _)%NoDup_app)%NoDup_app.
  specialize (H1 x). specialize (H2 x). rewrite elem_of_app in H1. tauto.
Qed.

(** The insertion itself, at the tail (fair) or at the head (real time). *)
Lemma enq_list s c p cfs rt glob :
  sched_inv s cfs rt glob -> c <> Idle -> enq_node c p ∉ all_nodes cfs rt glob -> is_Some (k_nodes s !! enq_node c p) ->
  exists h', (match c with Fair => list_add_tail | _ => list_add end) (enq_node c p) (enq_queue c) (k_nodes s) = Done (tt, h') /\
    dll h' cfs_queue (se_nodes (enq_cfs c p cfs)) /\ dll h' rt_queue (rt_nodes (enq_rt c p rt)) /\
    dll h' global_tasks (task_nodes glob) /\
    forall x, x ∉ enq_node c p :: all_nodes cfs rt glob -> h' !! x = k_nodes s !! x.
Proof.
  intros [Hc Hr Hg Hs Ht Hn Hcnt Hcur] Hidle Hni Hsome.
  destruct c; [| |done]; cbn [enq_node enq_queue enq_cfs enq_rt] in *.
  - destruct (list_add_tail_spec (k_nodes s) cfs_queue (se_nodes cfs) (p + se_run_node_off) Hc) as (h' & E & Hd & Hf);
      [unfold all_nodes in Hni; set_solver|done|].
    exists h'. split; [done|]. split; [by rewrite se_nodes_snoc|].
    split; [|split]; [apply (dll_frame (k_nodes s)); [|done]..|]; intros x Hx; apply Hf;
      [destruct (sep_rest cfs rt glob x Hs) as (_ & H2 & _)|destruct (sep_rest cfs rt glob x Hs) as (_ & _ & H2)|];
      unfold all_nodes in *; set_solver.
  - destruct (list_add_spec (k_nodes s) rt_queue (rt_nodes rt) (p + rt_run_node_off) Hr) as (h' & E & Hd & Hf);
      [unfold all_nodes in Hni; set_solver|done|].
    exists h'. split; [done|]. split; [|split; [exact Hd|]].
    + apply (dll_frame (k_nodes s)); [|done]. intros x Hx. apply Hf.
      destruct (sep_rest cfs rt glob x Hs) as (H2 & _). unfold all_nodes in *; set_solver.
    + split; [apply (dll_frame (k_nodes s)); [|done]|]; intros x Hx; apply Hf;
        [destruct (sep_rest cfs rt glob x Hs) as (_ & _ & H2)|]; unfold all_nodes in *; set_solver.
Qed.

Lemma class_enqueue_spec s c p t cfs rt glob :
  sched_inv s cfs rt glob -> k_tasks s !! p = Some t -> t_sched_class t = Some c -> p <> 0 ->
  (c <> Idle -> (enq_node c p ∉ all_nodes cfs rt glob) /\ is_Some (k_nodes s !! enq_node c p)) ->
  Z.of_nat (length cfs + length rt) + 1 < 2 ^ 64 ->
  exists h', class_enqueue p s = Done (tt, set_k_nr_running (k_nr_running s + enq_count c) (set_k_nodes h' s)) /\
    sched_inv (set_k_nr_running (k_nr_running s + enq_count c) (set_k_nodes h' s)) (enq_cfs c p cfs) (enq_rt c p rt) glob /\
    forall x, x ∉ enq_node c p :: all_nodes cfs rt glob -> h' !! x = k_nodes s !! x.
Proof.
  intros Hinv Hp Hcl Hnz Hnode Hcount. unfold class_enqueue, task_class.
  rewrite kbind_assoc. erewrite kbind_done by (apply task_get_done; exact Hp). rewrite Hcl.
  erewrite kbind_done by done. destruct (decide (c = Idle)) as [-> |Hidle].
  { exists (k_nodes s). rewrite set_k_nodes_id. cbn [class_ops enqueue_task enq_count enq_cfs enq_rt].
    rewrite Z.add_0_r. assert (set_k_nr_running (k_nr_running s) s = s) as -> by (by destruct s). done. }
  destruct (Hnode Hidle) as [Hni Hsome]. pose proof Hinv as [Hc Hr Hg Hs Ht Hn Hcnt Hcur].
  destruct (enq_list s c p cfs rt glob Hinv Hidle Hni Hsome) as (h' & E & D1 & D2 & D3 & Hf).
  exists h'. split; [|split; [|done]].
  - destruct c; [| |done]; cbn [class_ops enqueue_task] in *; unfold enqueue_task_fair, enqueue_task_rt;
      (erewrite kbind_done by (apply on_list_done; exact E)); unfold nr_running_add, kmod;
      do 2 f_equal; cbn [k_nr_running set_k_nodes set_k_vm enq_count]; rewrite wrap_small by lia; done.
  - constructor; cbn [k_tasks k_nr_running set_k_nr_running set_k_nodes set_k_vm k_current]; [exact D1|exact D2|exact D3| | | | |done].
    + change (NoDup (all_nodes (enq_cfs c p cfs) (enq_rt c p rt) glob)).
      rewrite all_nodes_enq by done. by apply NoDup_cons.
    + intros q Hq. destruct (decide (q = p)) as [-> |]; [by rewrite Hp|]. apply Ht.
      destruct c; cbn [enq_cfs enq_rt] in Hq; set_solver.
    + intros q Hq. destruct (decide (q = p)) as [-> |]; [done|]. apply Hn.
      destruct c; cbn [enq_cfs enq_rt] in Hq; set_solver.
    + rewrite Hcnt. destruct c; cbn [enq_cfs enq_rt enq_count]; rewrite ?length_app; simpl; lia.
Qed.
End Enqueue.

(** ** Properties *)

Section ThreadProperties.
Context `{Layout}.

(** The nodes of a new task. *)
Definition add_task_nodes (p : Z) (a b c : list_head) (h : nodes) : nodes :=
  <[p + tasks_off := c]> (<[p + rt_run_node_off := b]> (<[p + se_run_node_off := a]> h)).
Abbreviation zero_node := (mk_list_head 0 0).

Lemma put_task_done p t s :
  put_task p t s = Done (tt, set_k_nodes (add_task_nodes p zero_node zero_node zero_node (k_nodes s))
    (set_k_tasks (<[p := t]> (k_tasks s)) s)).
Proof. by destruct s as [[]]. Qed.

Lemma add_task_nodes_some p a b c h :
  is_Some (add_task_nodes p a b c h !! (p + se_run_node_off)) /\ is_Some (add_task_nodes p a b c h !! (p + rt_run_node_off)) /\
  is_Some (add_task_nodes p a b c h !! (p + tasks_off)).
Proof.
  unfold add_task_nodes, se_run_node_off, rt_run_node_off, tasks_off.
  split; [|split]; rewrite ?lookup_insert_ne by lia; rewrite lookup_insert_eq; by eexists.
Qed.

(** A task added or replaced. *)
Lemma insert_task_some (m : gmap Z task_struct) p t q : is_Some (m !! q) -> is_Some (<[p := t]> m !! q).
Proof. intros Hq. apply lookup_insert_is_Some. destruct (decide (p = q)); [by left|by right]. Qed.

Lemma replace_task_some (m : gmap Z task_struct) p t t' q :
  is_Some (<[p := t]> m !! q) -> is_Some (<[p := t']> m !! q).
Proof. by rewrite !lookup_insert_is_Some. Qed.

(** Storing a new task outside the lists. *)
Lemma sched_inv_add s p t a b c cfs rt glob :
  sched_inv s cfs rt glob ->
  (forall x, x ∈ all_nodes cfs rt glob -> x < p \/ p + sizeof_task <= x) ->
  sched_inv (set_k_nodes (add_task_nodes p a b c (k_nodes s)) (set_k_tasks (<[p := t]> (k_tasks s)) s)) cfs rt glob.
Proof.
  intros [Hc Hr Hg Hs Ht Hn Hcnt Hcur] Hout.
  assert (forall x, x ∈ all_nodes cfs rt glob -> add_task_nodes p a b c (k_nodes s) !! x = k_nodes s !! x) as Hf.
  { intros x Hx. specialize (Hout x Hx). unfold add_task_nodes, se_run_node_off, rt_run_node_off, tasks_off, sizeof_task in *.
    by rewrite !lookup_insert_ne by lia. }
  unfold all_nodes in Hf. constructor; [..|exact Hs| |exact Hn|exact Hcnt|by apply insert_task_some].
  - apply (dll_frame (k_nodes s)); [|done]. intros x Hx. apply Hf. set_solver.
  - apply (dll_frame (k_nodes s)); [|done]. intros x Hx. apply Hf. set_solver.
  - apply (dll_frame (k_nodes s)); [|done]. intros x Hx. apply Hf. set_solver.
  - intros q Hq. by apply insert_task_some, Ht.
Qed.

(** Putting a task on the list of all tasks. *)
Lemma register_task s cfs rt glob p :
  sched_inv s cfs rt glob -> p + tasks_off ∉ all_nodes cfs rt glob -> is_Some (k_nodes s !! (p + tasks_off)) ->
  is_Some (k_tasks s !! p) ->
  exists h', on_list (list_add (p + tasks_off) global_tasks) s = Done (tt, set_k_nodes h' s) /\
    sched_inv (set_k_nodes h' s) cfs rt (p :: glob).
Proof.
  intros [Hc Hr Hg Hs Ht Hn Hcnt Hcur] Hni Hsome Hp.
  destruct (list_add_spec (k_nodes s) global_tasks (task_nodes glob) (p + tasks_off) Hg) as (h' & E & Hd & Hf);
    [unfold all_nodes in Hni; set_solver|done|].
  exists h'. split; [by apply on_list_done|]. unfold all_nodes in Hni.
  constructor; [| |exact Hd| | |done|done|done].
  - apply (dll_frame (k_nodes s)); [|done]. intros x Hx. apply Hf.
    destruct (sep_rest cfs rt glob x Hs) as (H2 & _). set_solver.
  - apply (dll_frame (k_nodes s)); [|done]. intros x Hx. apply Hf.
    destruct (sep_rest cfs rt glob x Hs) as (_ & H2 & _). set_solver.
  - change (task_nodes (p :: glob)) with (p + tasks_off :: task_nodes glob).
    rewrite (Permutation_swap (p + tasks_off) global_tasks), app_assoc, <- Permutation_middle, <- app_assoc.
    by apply NoDup_cons.
  - intros q Hq. destruct (decide (q = p)) as [-> |]; [done|]. apply Ht. set_solver.
Qed.

(** Enqueueing a new task and registering it, as both [kernel_thread] and
    [sys_fork] end. *)
Lemma launch_task {B} s c p t cfs rt glob (k : unit -> M kstate B) :
  sched_inv s cfs rt glob -> k_tasks s !! p = Some t -> t_sched_class t = Some c -> p <> 0 ->
  (forall off, 0 <= off < sizeof_task -> p + off ∉ all_nodes cfs rt glob) ->
  is_Some (k_nodes s !! enq_node c p) -> is_Some (k_nodes s !! (p + tasks_off)) ->
  Z.of_nat (length cfs + length rt) + 1 < 2 ^ 64 ->
  exists h n, kbind (class_enqueue p) (fun _ => kbind (on_list (list_add (p + tasks_off) global_tasks)) k) s =
      k tt (set_k_nr_running n (set_k_nodes h s)) /\
    sched_inv (set_k_nr_running n (set_k_nodes h s)) (enq_cfs c p cfs) (enq_rt c p rt) (p :: glob).
Proof.
  intros Hinv Hp Hcl Hnz Hnot Nq Ntk Hcount.
  assert (p + tasks_off ∉ enq_node c p :: all_nodes cfs rt glob) as Hni.
  { apply not_elem_of_cons. split; [|apply Hnot; by split].
    unfold enq_node, tasks_off, rt_run_node_off, se_run_node_off. destruct c; lia. }
  destruct (class_enqueue_spec s c p t cfs rt glob Hinv Hp Hcl Hnz) as (h & E & Hinv1 & Hf); [|done|].
  { intros _. split; [destruct c; apply Hnot; by split|done]. }
  erewrite kbind_done by exact E. set (s1 := set_k_nr_running _ _) in *.
  destruct (register_task s1 _ _ glob p Hinv1) as (h' & E' & Hinv2).
  { destruct (decide (c = Idle)) as [-> |]; [by apply not_elem_of_cons in Hni as [_ ?]|by rewrite all_nodes_enq]. }
  { change (k_nodes s1) with h. by rewrite Hf. }
  { change (k_tasks s1) with (k_tasks s). by rewrite Hp. }
  exists h', (k_nr_running s + enq_count c). erewrite kbind_done by exact E'. split; [done|exact Hinv2].
Qed.

(** The stack of a new thread: [switch_to] pops six zero registers and returns
    into the trampoline. *)
Lemma thread_stack_frame :
  thread_stack !! 2047%nat = Some thread_trampoline /\
  forall i, (2041 <= i < 2047)%nat -> thread_stack !! i = Some 0.
Proof.
  pose proof length_zero_kernel_stack as Hl. unfold thread_stack. split.
  - rewrite !list_lookup_insert_ne by lia. apply list_lookup_insert_eq. lia.
  - intros i Hi. assert (i = 2041 \/ i = 2042 \/ i = 2043 \/ i = 2044 \/ i = 2045 \/ i = 2046)%nat
      as [-> |[-> |[-> |[-> |[-> | ->]]]]] by lia;
      rewrite ?list_lookup_insert_ne by lia; apply list_lookup_insert_eq; rewrite !length_insert; lia.
Qed.

Hypothesis heap_base : 0 < kernel_heap_region /\ kernel_heap_region mod 16 = 0.

(** A thread at [p], created from [s]. *)
Record new_thread (s : kstate) (p : Z) (name : list Z) (fn : Z) (s' : kstate) (t : task_struct) : Prop := {
  nt_tasks : k_tasks s' = <[p := t]> (k_tasks s);
  nt_next_pid : k_next_pid s' = u32 (k_next_pid s + 1);
  nt_pid : t_pid t = k_next_pid s;
  nt_name : t_name t = name;
  nt_state : t_state t = TASK_RUNNING;
  nt_fn : t_fn t = fn;
  nt_cr3 : t_cr3 t = cr3_reg (k_mm s);
  nt_rsp : t_rsp t = p + kernel_stack_off + 8 * 2041;
  nt_frame : t_kernel_stack t !! 2047%nat = Some thread_trampoline;
  nt_zeros i : (2041 <= i < 2047)%nat -> t_kernel_stack t !! i = Some 0;
  nt_files : exists f0 f1 f2, take 3 (t_files t) = [f0; f1; f2] /\
    open_as s' f0 StdinFops /\ open_as s' f1 StdoutFops /\ open_as s' f2 StdoutFops;
  nt_slab : slab_inv (k_slab s');
  nt_heap : heap_ptr (k_slab s) + sizeof_task <= heap_ptr (k_slab s') <= heap_ptr (k_slab s) + sizeof_task + 304;
  nt_same : k_mm s' = k_mm s /\ k_current s' = k_current s /\ k_switches s' = k_switches s;
  nt_class : t_sched_class t = Some Rt \/ (t_sched_class t = Some Fair /\ t_weight t = 1024)
}.

(** [kernel_thread] with enough room in the heap. *)
Lemma kernel_thread_room s cfs rt glob name fn arg policy :
  let p := kernel_heap_region + heap_ptr (k_slab s) in
  sched_ok s cfs rt glob -> slab_inv (k_slab s) -> (length name < 32)%nat ->
  (forall x, x ∈ all_nodes cfs rt glob -> x < p \/ p + sizeof_task <= x) ->
  Z.of_nat (length cfs + length rt) + 1 < 2 ^ 64 ->
  heap_ptr (k_slab s) + sizeof_task + 304 <= kernel_heap_size ->
  exists s' t, kernel_thread name fn arg policy s = Done (i32 (k_next_pid s), s') /\
    sched_ok s' (if is_rt policy then cfs else cfs ++ [p]) (if is_rt policy then p :: rt else rt) (p :: glob) /\
    new_thread s p name fn s' t.
Proof using heap_base.
  intros p [Hinv Hl] Hslab Hname Hout Hcount Hroom. destruct heap_base as [Hb Hba].
  pose proof Hslab as (_ & Hhp & _).
  assert (sched_inv (set_k_sched_lock 1 s) cfs rt glob) as Hinv1
    by (eapply sched_inv_ext; [exact Hinv|done|done|done|exact (si_current _ _ _ _ Hinv)]).
  unfold kernel_thread. erewrite kbind_done by (by apply sched_lock_done).
  destruct (kmalloc_room heap_base (set_k_sched_lock 1 s) sizeof_task Hslab) as (sl & E & Hsl & Hslp); [by split|change (k_slab (set_k_sched_lock 1 s)) with (k_slab s); lia|].
  change (k_slab (set_k_sched_lock 1 s)) with (k_slab s) in *. erewrite kbind_done by exact E. fold p.
  rewrite (proj2 (Z.eqb_neq p 0)) by (unfold p; lia). set (s1 := set_k_slab sl (set_k_sched_lock 1 s)) in *.
  assert (sched_inv s1 cfs rt glob) as Hinv2
    by (eapply sched_inv_ext; [exact Hinv1|done|done|done|exact (si_current _ _ _ _ Hinv)]).
  erewrite kbind_done by apply put_task_done.
  pose proof (sched_inv_add s1 p zero_task zero_node zero_node zero_node cfs rt glob Hinv2 Hout) as Hinv3.
  set (s3 := set_k_nodes (add_task_nodes p zero_node zero_node zero_node (k_nodes s1)) s1).
  erewrite kbind_done by apply (init_thread_spec s3 p name fn arg policy Hname).
  set (t0 := thread_task _ _ _ _ _ _ _). set (s4 := set_k_next_pid _ _).
  assert (k_tasks s4 = <[p := t0]> (k_tasks s)) as Ht4 by done.
  assert (sched_inv s4 cfs rt glob) as Hinv4.
  { eapply sched_inv_ext; [exact Hinv3|done| |done|].
    - intros q Hq. rewrite Ht4. apply (replace_task_some _ p zero_task). exact Hq.
    - rewrite Ht4. apply insert_task_some. apply (si_current _ _ _ _ Hinv). }
  destruct (task_setup_stdio_spec heap_base s4 p t0) as (f0 & f1 & f2 & s5 & E5 & SS & Hsl5 & Hh5 & Ht5 & O0 & O1 & O2);
    [by rewrite Ht4, lookup_insert_eq|exact Hsl|change (k_slab s4) with sl; unfold sizeof_task in *; lia|].
  erewrite kbind_done by exact E5. set (t1 := set_t_files _ t0) in Ht5. rewrite Ht4, insert_insert_eq in Ht5.
  assert (sched_inv s5 cfs rt glob) as Hinv5.
  { eapply sched_inv_ext; [exact Hinv4|apply SS| |apply SS|].
    - intros q Hq. rewrite Ht5. rewrite Ht4 in Hq. by apply (replace_task_some _ p t0).
    - rewrite (ss_current _ _ SS), Ht5. apply insert_task_some. apply (si_current _ _ _ _ Hinv). }
  assert (k_tasks s5 !! p = Some t1) as Hp5 by (by rewrite Ht5, lookup_insert_eq).
  destruct (add_task_nodes_some p zero_node zero_node zero_node (k_nodes s1)) as (Nse & Nrt & Ntk).
  assert (k_nodes s5 = add_task_nodes p zero_node zero_node zero_node (k_nodes s1)) as Hn5 by (rewrite (ss_nodes _ _ SS); done).
  set (c := if is_rt policy then Rt else Fair).
  assert (c <> Idle) as Hci by (unfold c; by destruct (is_rt policy)).
  assert (forall off, 0 <= off < sizeof_task -> p + off ∉ all_nodes cfs rt glob) as Hnot.
  { intros off Hoff Hin. specialize (Hout _ Hin). lia. }
  destruct (launch_task s5 c p t1 cfs rt glob (fun _ => sched_spin_unlock;;; task_get p (fun t => i32 (t_pid t))) Hinv5 Hp5)
    as (h & n & E6 & Hinv6); [done|unfold p; lia|exact Hnot|rewrite Hn5; unfold c; by destruct (is_rt policy)|by rewrite Hn5|done|].
  rewrite E6. erewrite kbind_done by done. set (s6 := set_k_nr_running n (set_k_nodes h s5)) in *.
  rewrite (task_get_done (set_k_sched_lock 0 s6) p (fun t => i32 (t_pid t)) t1 Hp5).
  exists (set_k_sched_lock 0 s6), t1. split; [done|].
  split; [split; [|done]; unfold c in Hinv6; destruct (is_rt policy);
    (eapply sched_inv_ext; [exact Hinv6|done|done|done|exact (si_current _ _ _ _ Hinv6)])|].
  destruct thread_stack_frame as [F1 F2]. change (k_slab s4) with sl in Hh5.
  constructor; [exact Ht5|exact (ss_pid _ _ SS)|done|done|done|done|done| |exact F1|exact F2| |exact Hsl5| | |].
  - change (t_rsp t1) with (p + kernel_stack_off + KERNEL_STACK_SIZE - 56). unfold KERNEL_STACK_SIZE. lia.
  - exists f0, f1, f2. split; [reflexivity|]. split; [exact O0|]. split; [exact O1|exact O2].
  - change (k_slab (set_k_sched_lock 0 s6)) with (k_slab s5). lia.
  - split; [exact (ss_mm _ _ SS)|]. split; [exact (ss_current _ _ SS)|exact (ss_switches _ _ SS)].
  - unfold t1, t0, thread_task. destruct (is_rt policy); [by left|by right].
Qed.

(** [kernel_thread] without room for a task. *)
Lemma kernel_thread_full s name fn arg policy :
  k_sched_lock s = 0 -> slab_inv (k_slab s) -> kernel_heap_size < heap_ptr (k_slab s) + sizeof_task ->
  kernel_thread name fn arg policy s = Done (-1, s).
Proof using heap_base.
  intros Hl Hslab Hfull. destruct heap_base as [Hb Hba]. unfold kernel_thread. erewrite kbind_done by (by apply sched_lock_done).
  destruct (kmalloc_spec kernel_heap_region (k_slab s) sizeof_task Hslab) as [[_ E]|(sl & _ & _ & _ & _ & Hp & Hq)];
    [by unfold size_ok, kernel_heap_size, sizeof_task|done|done| |lia].
  erewrite kbind_done by (apply zoom_done; exact E). cbn [Z.eqb]. destruct s as [[]]. cbn in Hl. by subst.
Qed.

(** C21: [kernel_thread] returns -1 and changes nothing when the heap has no room
    for a task; when there is room for the task and its three files it returns
    the next pid (converted to the result type int), and the new task is complete:
    name, entry point, address space, three open standard files and a stack
    frame that makes the first [switch_to] return into the trampoline.  It is
    at the back of the fair queue, or at the front of the real-time queue, and
    on the list of all tasks; the other tasks are unchanged and the lock is free. *)
Theorem kernel_thread_creates s cfs rt glob name fn arg policy :
  let p := kernel_heap_region + heap_ptr (k_slab s) in
  sched_ok s cfs rt glob -> slab_inv (k_slab s) -> (length name < 32)%nat ->
  (forall x, x ∈ all_nodes cfs rt glob -> x < p \/ p + sizeof_task <= x) ->
  Z.of_nat (length cfs + length rt) + 1 < 2 ^ 64 ->
  (kernel_heap_size < heap_ptr (k_slab s) + sizeof_task -> kernel_thread name fn arg policy s = Done (-1, s)) /\
  (heap_ptr (k_slab s) + sizeof_task + 304 <= kernel_heap_size ->
   exists s' t f0 f1 f2, kernel_thread name fn arg policy s = Done (i32 (k_next_pid s), s') /\
     sched_ok s' (if is_rt policy then cfs else cfs ++ [p]) (if is_rt policy then p :: rt else rt) (p :: glob) /\
     k_tasks s' = <[p := t]> (k_tasks s) /\ k_next_pid s' = u32 (k_next_pid s + 1) /\
     t_pid t = k_next_pid s /\ t_name t = name /\ t_state t = TASK_RUNNING /\ t_fn t = fn /\
     t_cr3 t = cr3_reg (k_mm s) /\
     t_rsp t = p + kernel_stack_off + 8 * 2041 /\ t_kernel_stack t !! 2047%nat = Some thread_trampoline /\
     (forall i, (2041 <= i < 2047)%nat -> t_kernel_stack t !! i = Some 0) /\
     take 3 (t_files t) = [f0; f1; f2] /\
     open_as s' f0 StdinFops /\ open_as s' f1 StdoutFops /\ open_as s' f2 StdoutFops).
Proof.
  intros p Hok Hslab Hname Hout Hcount. split; intros Hroom; [apply kernel_thread_full; [apply Hok|done|done]|].
  destruct (kernel_thread_room s cfs rt glob name fn arg policy Hok Hslab Hname Hout Hcount Hroom) as (s' & t & E & Hok' & Hn).
  destruct Hn as [? ? ? ? ? ? ? ? ? ? (f0 & f1 & f2 & ? & ? & ? & ?) _ _ _ _]. exists s', t, f0, f1, f2.
  repeat (split; [assumption|]). assumption.
Qed.
End ThreadProperties.
