(* ===== verification/Fork.v ===== *)
(** * kernel/fork.c: [sys_fork] *)

From S2P Require Import Prelude Memory StringLib ListHead SpinLock Slab PgTable FrameAlloc PageAlloc Paging AddrSpace VirtMem KState Sched Threads.

(** ** include/relis/irq.h: the saved registers, in the order of the stack *)
Record registers := mk_regs {
  r15 : Z; r14 : Z; r13 : Z; r12 : Z; r11 : Z; r10 : Z; r9 : Z; r8 : Z;
  rbp : Z; rdi : Z; rsi : Z; rdx : Z; rcx : Z; rbx : Z; rax : Z;
  int_no : Z; err_code : Z;
  rip : Z; cs : Z; rflags : Z; rsp : Z; ss : Z
}.
Definition sizeof_registers : Z := 176.
Definition reg_words (r : registers) : list Z :=
  [r15 r; r14 r; r13 r; r12 r; r11 r; r10 r; r9 r; r8 r; rbp r; rdi r; rsi r; rdx r; rcx r; rbx r; rax r;
   int_no r; err_code r; rip r; cs r; rflags r; rsp r; ss r].
Definition set_rax (x : Z) (r : registers) : registers :=
  mk_regs (r15 r) (r14 r) (r13 r) (r12 r) (r11 r) (r10 r) (r9 r) (r8 r) (rbp r) (rdi r) (rsi r) (rdx r) (rcx r)
    (rbx r) x (int_no r) (err_code r) (rip r) (cs r) (rflags r) (rsp r) (ss r).
Definition set_rip (x : Z) (r : registers) : registers :=
  mk_regs (r15 r) (r14 r) (r13 r) (r12 r) (r11 r) (r10 r) (r9 r) (r8 r) (rbp r) (rdi r) (rsi r) (rdx r) (rcx r)
    (rbx r) (rax r) (int_no r) (err_code r) x (cs r) (rflags r) (rsp r) (ss r).

(** ** Operations *)

Section Operations.
Context `{Layout}.

(** [kmemcpy(child, parent, sizeof(struct task_struct))]: the embedded list nodes
    are copied too. *)
Definition copy_task (child parent : Z) : M kstate unit :=
  let* t := task_get parent (fun t => t) in
  let* a := kopt (fun s => k_nodes s !! (parent + se_run_node_off)) in
  let* b := kopt (fun s => k_nodes s !! (parent + rt_run_node_off)) in
  let* c := kopt (fun s => k_nodes s !! (parent + tasks_off)) in
  kmod (fun s => set_k_tasks (<[child := t]> (k_tasks s)) s);;;
  put_node (child + se_run_node_off) a;;;
  put_node (child + rt_run_node_off) b;;;
  put_node (child + tasks_off) c.

(** The registers are copied to the top of the child's kernel stack, where the
    child finds 0 in rax; below them is the frame [switch_to] pops. *)
Definition fork_stack (child : Z) (regs : registers) : M kstate unit :=
  task_upd child (set_t_kernel_stack_top (child + kernel_stack_off + KERNEL_STACK_SIZE));;;
  let child_regs := child + kernel_stack_off + KERNEL_STACK_SIZE - sizeof_registers in
  let base := Z.to_nat ((KERNEL_STACK_SIZE - sizeof_registers) / 8) in
  task_upd child (fun t => set_t_kernel_stack (list_inserts base (reg_words regs) (t_kernel_stack t)) t);;;
  task_upd child (fun t => set_t_kernel_stack (<[(base + 14)%nat := 0]> (t_kernel_stack t)) t);;;
  let* stack := push_words child child_regs [isr_common_return; 0; 0; 0; 0; 0; 0] in
  task_upd child (set_t_rsp stack).

Definition sys_fork (regs : registers) : M kstate Z :=
  let* parent := kgets k_current in
  let* child := on_heap (kmalloc kernel_heap_region sizeof_task) in
  if child =? 0 then kret (-1) else
  copy_task child parent;;;
  let* pid := kgets k_next_pid in
  task_upd child (set_t_pid pid);;;
  kmod (set_k_next_pid (u32 (pid + 1)));;;
  let* ppid := task_get parent t_pid in
  task_upd child (set_t_ppid ppid);;;
  task_upd child (set_t_state TASK_RUNNING);;;
  task_upd child (set_t_pending_signals 0);;;
  let* c := on_paging clone_address_space in
  task_upd child (set_t_cr3 c);;;
  fork_stack child regs;;;
  on_list (INIT_LIST_HEAD (child + se_run_node_off));;;
  class_enqueue child;;;
  on_list (list_add (child + tasks_off) global_tasks);;;
  task_upd parent (fun t => set_t_pending_signals (Z.lor (t_pending_signals t) (bit RELIS_SIGCHLD)) t);;;
  task_get child t_pid.
End Operations.

(** ** The child *)

Section Child.
Context `{Layout}.

(** The kernel stack of the child: the saved registers with rax cleared, and
    below them the return into [isr_common_return] with six zero registers. *)
Definition child_stack (regs : registers) (ks : list Z) : list Z :=
  <[2019%nat := 0]> (<[2020%nat := 0]> (<[2021%nat := 0]> (<[2022%nat := 0]> (<[2023%nat := 0]>
    (<[2024%nat := 0]> (<[2025%nat := isr_common_return]>
      (<[2040%nat := 0]> (list_inserts 2026 (reg_words regs) ks)))))))).

Definition child_task (child pid : Z) (regs : registers) (cr3 : Z) (t : task_struct) : task_struct :=
  set_t_rsp (child + kernel_stack_off + 8 * 2019)
    (set_t_kernel_stack (child_stack regs (t_kernel_stack t))
      (set_t_kernel_stack_top (child + kernel_stack_off + KERNEL_STACK_SIZE)
        (set_t_cr3 cr3 (set_t_pending_signals 0 (set_t_state TASK_RUNNING
          (set_t_ppid (t_pid t) (set_t_pid pid t))))))).

Lemma fork_stack_spec s child regs t :
  length (t_kernel_stack t) = 2048%nat ->
  fork_stack child regs (set_k_tasks (<[child := t]> (k_tasks s)) s) =
  Done (tt, set_k_tasks (<[child := set_t_rsp (child + kernel_stack_off + 8 * 2019)
    (set_t_kernel_stack (child_stack regs (t_kernel_stack t))
      (set_t_kernel_stack_top (child + kernel_stack_off + KERNEL_STACK_SIZE) t))]> (k_tasks s)) s).
Proof.
  intros Hl. unfold fork_stack. change (Z.to_nat ((KERNEL_STACK_SIZE - sizeof_registers) / 8)) with 2026%nat.
  do 3 erewrite kbind_done by apply task_upd_again.
  erewrite kbind_done; [|eapply (push_words_spec s child _ _ 2026)].
  - rewrite task_upd_again.
    replace (child + kernel_stack_off + KERNEL_STACK_SIZE - sizeof_registers - 8 * _)
      with (child + kernel_stack_off + 8 * 2019) by (unfold KERNEL_STACK_SIZE, sizeof_registers; simpl length; lia).
    reflexivity.
  - unfold KERNEL_STACK_SIZE, sizeof_registers. lia.
  - cbn [t_kernel_stack set_t_kernel_stack]. rewrite length_insert, length_inserts.
    cbn [t_kernel_stack set_t_kernel_stack_top]. rewrite Hl. simpl length. lia.
Qed.
End Child.

(** ** Properties *)

Section ForkProperties.
Context `{Layout}.

Lemma copy_task_done s child parent t a b c :
  k_tasks s !! parent = Some t -> k_nodes s !! (parent + se_run_node_off) = Some a ->
  k_nodes s !! (parent + rt_run_node_off) = Some b -> k_nodes s !! (parent + tasks_off) = Some c ->
  copy_task child parent s =
  Done (tt, set_k_nodes (add_task_nodes child a b c (k_nodes s)) (set_k_tasks (<[child := t]> (k_tasks s)) s)).
Proof.
  intros Ht Ha Hb Hc. unfold copy_task. erewrite kbind_done by (apply task_get_done; exact Ht).
  erewrite kbind_done by (apply kopt_some; exact Ha). erewrite kbind_done by (apply kopt_some; exact Hb).
  erewrite kbind_done by (apply kopt_some; exact Hc). by destruct s as [[]].
Qed.

(** [INIT_LIST_HEAD] of a node outside the lists. *)
Lemma init_node_inv s cfs rt glob x :
  sched_inv s cfs rt glob -> x ∉ all_nodes cfs rt glob -> is_Some (k_nodes s !! x) ->
  exists h', on_list (INIT_LIST_HEAD x) s = Done (tt, set_k_nodes h' s) /\
    sched_inv (set_k_nodes h' s) cfs rt glob /\ (forall y, is_Some (k_nodes s !! y) -> is_Some (h' !! y)).
Proof.
  intros [Hc Hr Hg Hs Ht Hn Hcnt Hcur] Hx Hsome.
  destruct (INIT_LIST_HEAD_spec (k_nodes s) x Hsome) as (h' & E & Hd & Hf).
  exists h'. split; [by apply on_list_done|]. unfold all_nodes in Hx. split.
  - constructor; [..|done|done|done|done|done]; (apply (dll_frame (k_nodes s)); [|done]); intros y Hy; apply Hf; set_solver.
  - intros y Hy. destruct (decide (y = x)) as [-> |]; [|by rewrite Hf].
    apply (dll_is_Some _ _ _ _ Hd). set_solver.
Qed.

(** The saved registers of the child. *)
Lemma child_stack_frame regs ks :
  length ks = 2048%nat ->
  (forall i, (i < 22)%nat -> child_stack regs ks !! (2026 + i)%nat = reg_words (set_rax 0 regs) !! i) /\
  child_stack regs ks !! 2025%nat = Some isr_common_return /\
  (forall i, (2019 <= i < 2025)%nat -> child_stack regs ks !! i = Some 0).
Proof.
  intros Hl. assert (length (list_inserts 2026 (reg_words regs) ks) = 2048%nat) as Hl2 by (by rewrite length_inserts).
  unfold child_stack. split; [|split].
  - intros i Hi. rewrite !(list_lookup_insert_ne _ _ (2026 + i)) by lia. destruct (decide (i = 14%nat)) as [-> |].
    + rewrite list_lookup_insert_eq by lia. done.
    + rewrite list_lookup_insert_ne by lia. rewrite list_lookup_inserts by (simpl; lia).
      replace (2026 + i - 2026)%nat with i by lia. do 14 (destruct i as [|i]; [done|]). destruct i as [|i]; [lia|done].
  - rewrite !list_lookup_insert_ne by lia. apply list_lookup_insert_eq. rewrite length_insert. lia.
  - intros i Hi. assert (i = 2019 \/ i = 2020 \/ i = 2021 \/ i = 2022 \/ i = 2023 \/ i = 2024)%nat
      as [-> |[-> |[-> |[-> |[-> | ->]]]]] by lia;
      rewrite ?list_lookup_insert_ne by lia; apply list_lookup_insert_eq; rewrite !length_insert; lia.
Qed.
(** The fields [sys_fork] sets before it copies the address space. *)
Lemma fork_fields {B} s child parent t pt (k : unit -> M kstate B) :
  k_tasks s !! parent = Some pt -> child <> parent ->
  kbind (kgets k_next_pid) (fun pid =>
    task_upd child (set_t_pid pid);;;
    kmod (set_k_next_pid (u32 (pid + 1)));;;
    let* ppid := task_get parent t_pid in
    task_upd child (set_t_ppid ppid);;;
    task_upd child (set_t_state TASK_RUNNING);;;
    kbind (task_upd child (set_t_pending_signals 0)) k) (set_k_tasks (<[child := t]> (k_tasks s)) s) =
  k tt (set_k_tasks (<[child := set_t_pending_signals 0 (set_t_state TASK_RUNNING
    (set_t_ppid (t_pid pt) (set_t_pid (k_next_pid s) t)))]> (k_tasks s)) (set_k_next_pid (u32 (k_next_pid s + 1)) s)).
Proof.
  intros Hp Hne. erewrite kbind_done by done. cbn [k_next_pid set_k_tasks].
  erewrite kbind_done by apply task_upd_again. erewrite kbind_done by done.
  set (s1 := set_k_next_pid (u32 (k_next_pid s + 1)) s).
  change (set_k_next_pid (u32 (k_next_pid s + 1)) (set_k_tasks ?x s)) with (set_k_tasks x s1).
  change (k_tasks s) with (k_tasks s1) in *.
  erewrite kbind_done; [|apply (task_get_done _ _ _ pt); cbn [k_tasks set_k_tasks]; by rewrite lookup_insert_ne].
  do 3 erewrite kbind_done by apply task_upd_again. done.
Qed.

(** The current task can be copied: it has a class, a kernel stack of full size and
    its list nodes. *)
Record forkable (s : kstate) (t : task_struct) (c : sched_class_id) : Prop := {
  fk_task : k_tasks s !! k_current s = Some t;
  fk_class : t_sched_class t = Some c;
  fk_stack : length (t_kernel_stack t) = 2048%nat;
  fk_nodes off : off ∈ [se_run_node_off; rt_run_node_off; tasks_off] -> is_Some (k_nodes s !! (k_current s + off))
}.

(** What the child shares with the parent and what it does not. *)
Record fork_child (regs : registers) (p pid cr3 : Z) (t t' : task_struct) : Prop := {
  fc_ids : t_pid t' = pid /\ t_ppid t' = t_pid t;
  fc_state : t_state t' = TASK_RUNNING /\ t_pending_signals t' = 0;
  fc_files : t_files t' = t_files t /\ t_signal_handlers t' = t_signal_handlers t /\ t_name t' = t_name t;
  fc_cr3 : t_cr3 t' = cr3;
  fc_stack : t_rsp t' = p + kernel_stack_off + 8 * 2019 /\ t_kernel_stack_top t' = p + kernel_stack_off + KERNEL_STACK_SIZE;
  fc_zeros i : (2019 <= i < 2025)%nat -> t_kernel_stack t' !! i = Some 0;
  fc_return : t_kernel_stack t' !! 2025%nat = Some isr_common_return;
  fc_regs i : (i < 22)%nat -> t_kernel_stack t' !! (2026 + i)%nat = reg_words (set_rax 0 regs) !! i
}.

Lemma child_task_ok regs p pid cr3 t :
  length (t_kernel_stack t) = 2048%nat -> fork_child regs p pid cr3 t (child_task p pid regs cr3 t).
Proof. intros Hl. destruct (child_stack_frame regs _ Hl) as (H1 & H2 & H3). by constructor. Qed.

(** The end of [sys_fork], after the copy of the address space. *)
Definition fork_finish (parent child : Z) (regs : registers) (c : Z) : M kstate Z :=
  task_upd child (set_t_cr3 c);;;
  fork_stack child regs;;;
  on_list (INIT_LIST_HEAD (child + se_run_node_off));;;
  class_enqueue child;;;
  on_list (list_add (child + tasks_off) global_tasks);;;
  task_upd parent (fun t => set_t_pending_signals (Z.lor (t_pending_signals t) (bit RELIS_SIGCHLD)) t);;;
  task_get child t_pid.

Lemma fork_finish_spec s p t t0 c cfs rt glob regs cr3 a b d h0 :
  let s0 := set_k_tasks (<[p := t0]> (k_tasks s)) s in
  sched_inv s0 cfs rt glob -> k_tasks s !! k_current s = Some t -> k_current s <> p -> p <> 0 ->
  length (t_kernel_stack t0) = 2048%nat -> t_sched_class t0 = Some c ->
  (forall off, 0 <= off < sizeof_task -> p + off ∉ all_nodes cfs rt glob) ->
  k_nodes s = add_task_nodes p a b d h0 -> Z.of_nat (length cfs + length rt) + 1 < 2 ^ 64 ->
  let t1 := set_t_rsp (p + kernel_stack_off + 8 * 2019) (set_t_kernel_stack (child_stack regs (t_kernel_stack t0))
      (set_t_kernel_stack_top (p + kernel_stack_off + KERNEL_STACK_SIZE) (set_t_cr3 cr3 t0))) in
  exists h n, let s' := set_k_tasks (<[k_current s := set_t_pending_signals (Z.lor (t_pending_signals t) (bit RELIS_SIGCHLD)) t]>
        (<[p := t1]> (k_tasks s))) (set_k_nr_running n (set_k_nodes h s)) in
    fork_finish (k_current s) p regs cr3 s0 = Done (t_pid t0, s') /\
    sched_inv s' (enq_cfs c p cfs) (enq_rt c p rt) (p :: glob).
Proof.
  intros s0 Hinv Hcur Hne Hnz Hl Hcl Hnot Hnodes Hcount t1. unfold fork_finish.
  erewrite kbind_done by apply task_upd_again. erewrite kbind_done by (by apply fork_stack_spec).
  set (s1 := set_k_tasks _ s). assert (k_tasks s1 = <[p := t1]> (k_tasks s)) as Ht1 by done.
  assert (sched_inv s1 cfs rt glob) as Hinv1.
  { eapply sched_inv_ext; [exact Hinv|done| |done|].
    - intros q. rewrite Ht1. apply replace_task_some.
    - rewrite Ht1. apply insert_task_some. change (k_current s1) with (k_current s). by rewrite Hcur. }
  destruct (add_task_nodes_some p a b d h0) as (Nse & Nrt & Ntk). rewrite <- Hnodes in Nse, Nrt, Ntk.
  destruct (init_node_inv s1 cfs rt glob (p + se_run_node_off) Hinv1) as (h2 & E2 & Hinv2 & Hk2);
    [apply Hnot; by split|exact Nse|].
  erewrite kbind_done by exact E2. set (s2 := set_k_nodes h2 s1) in *.
  assert (k_tasks s2 !! p = Some t1) as Hp2 by (change (k_tasks s2) with (k_tasks s1); by rewrite Ht1, lookup_insert_eq).
  destruct (launch_task s2 c p t1 cfs rt glob (fun _ => task_upd (k_current s)
      (fun t => set_t_pending_signals (Z.lor (t_pending_signals t) (bit RELIS_SIGCHLD)) t);;; task_get p t_pid) Hinv2 Hp2)
    as (h & n & E3 & Hinv3); [done|done|done|destruct c; by apply Hk2|by apply Hk2|done|].
  exists h, n. rewrite E3. set (s3 := set_k_nr_running n _) in *.
  assert (k_tasks s3 !! k_current s = Some t) as Hc3.
  { change (k_tasks s3) with (k_tasks s1). by rewrite Ht1, lookup_insert_ne. }
  erewrite kbind_done by (apply task_upd_done; exact Hc3). split.
  - etrans; [apply (task_get_done _ _ _ t1)|reflexivity]. cbn [k_tasks set_k_tasks]. rewrite lookup_insert_ne by done. exact Hp2.
  - eapply sched_inv_ext; [exact Hinv3|done| |done|].
    + intros q Hq. by apply insert_task_some.
    + cbn [k_tasks set_k_tasks]. apply insert_task_some. apply insert_task_some.
      change (k_current _) with (k_current s). by rewrite Hcur.
Qed.

Hypothesis heap_base : 0 < kernel_heap_region /\ kernel_heap_region mod 16 = 0.

(** C7: [sys_fork] returns -1 and changes nothing when the heap has no room for a
    task.  Otherwise it returns the child's pid, unless the frames for the copy
    run out: the child has the parent's files and handlers, its own copy of the
    address space, the parent's saved registers with 0 in rax below a frame that
    returns into [isr_common_return]; it is queued by the parent's class, on the
    list of all tasks, and the parent has SIGCHLD pending.  No other task changes. *)
Theorem sys_fork_child s cfs rt glob regs t c L r :
  let p := kernel_heap_region + heap_ptr (k_slab s) in
  sched_inv s cfs rt glob -> slab_inv (k_slab s) -> forkable s t c ->
  (forall x, x ∈ all_nodes cfs rt glob -> x < p \/ p + sizeof_task <= x) -> k_current s <> p ->
  Z.of_nat (length cfs + length rt) + 1 < 2 ^ 64 ->
  tables_ok (k_mm s) L -> leaves_ok (k_mm s) L r -> Z.land (cr3_reg (k_mm s)) PTE_ADDR_MASK = r -> L !! r = Some (Some r, []) ->
  (kernel_heap_size < heap_ptr (k_slab s) + sizeof_task -> sys_fork regs s = Done (-1, s)) /\
  (heap_ptr (k_slab s) + sizeof_task <= kernel_heap_size ->
   safe (fa_avail (mm_frames (k_mm s)) < clone_frames (mm_mem (k_mm s)) r) (sys_fork regs) s (fun pid s' =>
     pid = k_next_pid s /\ k_next_pid s' = u32 (pid + 1) /\ k_current s' = k_current s /\
     sched_inv s' (enq_cfs c p cfs) (enq_rt c p rt) (p :: glob) /\
     exists cr3 t', space_cloned (k_mm s) L r cr3 (k_mm s') /\ fork_child regs p pid cr3 t t' /\
       k_tasks s' = <[k_current s := set_t_pending_signals (Z.lor (t_pending_signals t) (bit RELIS_SIGCHLD)) t]>
         (<[p := t']> (k_tasks s)))).
Proof.
  intros p Hinv Hslab [Hcur Hcl Hl Hnd] Hout Hne Hcount Htab Hlv Hcr3 Hr. destruct heap_base as [Hb Hba].
  pose proof Hslab as (_ & Hhp & _).
  split; intros Hroom; unfold sys_fork.
  - erewrite kbind_done by done.
    destruct (kmalloc_spec kernel_heap_region (k_slab s) sizeof_task Hslab) as [[_ E]|(sl & _ & _ & _ & _ & Hp & Hq)];
      [by unfold size_ok, kernel_heap_size, sizeof_task|done|done| |lia].
    erewrite kbind_done by (apply zoom_done; exact E). cbn [Z.eqb]. by destruct s as [[]].
  - eapply safe_step; [done|].
    destruct (kmalloc_room heap_base s sizeof_task Hslab) as (sl & E & Hsl & Hslp); [by split|done|].
    eapply safe_step; [exact E|]. fold p. rewrite (proj2 (Z.eqb_neq p 0)) by (unfold p; lia).
    set (s1 := set_k_slab sl s).
    destruct (Hnd se_run_node_off ltac:(set_solver)) as [a Ha]. destruct (Hnd rt_run_node_off ltac:(set_solver)) as [b Hb'].
    destruct (Hnd tasks_off ltac:(set_solver)) as [d Hd].
    eapply safe_step; [apply (copy_task_done s1 p (k_current s) t a b d); done|].
    assert (sched_inv s1 cfs rt glob) as Hinv1
      by (eapply sched_inv_ext; [exact Hinv|done|done|done|exact (si_current _ _ _ _ Hinv)]).
    pose proof (sched_inv_add s1 p t a b d cfs rt glob Hinv1 Hout) as Hinv2.
    set (s2 := set_k_nodes (add_task_nodes p a b d (k_nodes s1)) s1).
    change (set_k_nodes _ (set_k_tasks ?x s1)) with (set_k_tasks x s2) in *. change (k_tasks s1) with (k_tasks s2) in *.
    eapply safe_eq; [by apply (fork_fields s2 p (k_current s) t t)|].
    set (t0 := set_t_pending_signals 0 _). set (s3 := set_k_next_pid _ s2). change (k_tasks s2) with (k_tasks s3) in *.
    apply safe_bind, safe_zoom.
    eapply safe_mono; [apply (clone_address_space_spec (k_mm s) L r Htab Hlv Hcr3 Hr)|done|]. intros cr3 mm Hsc.
    set (s4 := set_k_mm mm s3). change (set_k_mm mm (set_k_tasks ?x s3)) with (set_k_tasks x s4).
    destruct (fork_finish_spec s4 p t t0 c cfs rt glob regs cr3 a b d (k_nodes s1)) as (h & n & E4 & Hinv4).
    + eapply sched_inv_ext; [exact Hinv2|done| |done|].
      * intros q. apply replace_task_some.
      * apply insert_task_some. exact (si_current _ _ _ _ Hinv).
    + done.
    + done.
    + unfold p; lia.
    + done.
    + done.
    + intros off Hoff Hin. specialize (Hout _ Hin). lia.
    + done.
    + done.
    + eapply safe_done; [exact E4|]. split; [done|]. split; [done|]. split; [done|]. split; [exact Hinv4|].
      exists cr3, (child_task p (k_next_pid s) regs cr3 t). split; [exact Hsc|]. split; [by apply child_task_ok|].
      done.
Qed.
End ForkProperties.
