(* ===== verification/Signal.v ===== *)
(** * kernel/signal.c: [sys_kill], [sys_sigaction], [deliver_signals] *)

From S2P Require Import Prelude Memory StringLib ListHead SpinLock Slab PgTable FrameAlloc PageAlloc Paging AddrSpace VirtMem KState Sched Threads Fork.

(** ** Operations *)

Section Operations.
Context `{Layout}.

(** The loop over [global_tasks]; 0 is the null pointer.  The fuel bounds the
    number of list nodes visited. *)
Fixpoint find_task (fuel : nat) (pos pid : Z) : M kstate Z :=
  match fuel with
  | O => kspin
  | S f =>
      if pos =? global_tasks then kret 0 else
      let t := pos - tasks_off in
      let* p := task_get t t_pid in
      if p =? pid then kret t else
      let* pos' := on_list (get_next pos) in
      find_task f pos' pid
  end.

Definition sys_kill (fuel : nat) (pid sig : Z) : M kstate Z :=
  if (sig <? 1) || (sig >=? MAX_SIGNALS) then kret (-1) else
  let* pos := on_list (get_next global_tasks) in
  let* target := find_task fuel pos pid in
  if target =? 0 then kret (-1) else
  task_upd target (fun t => set_t_pending_signals (Z.lor (t_pending_signals t) (bit sig)) t);;;
  let* st := task_get target t_state in
  (if st =? TASK_INTERRUPTIBLE then wake_up_process target else kret tt);;;
  kret 0.

Definition sys_sigaction (sig handler : Z) : M kstate Z :=
  if (sig <? 1) || (sig >=? MAX_SIGNALS) then kret (-1) else
  let* cur := kgets k_current in
  task_upd cur (fun t => set_t_signal_handlers (<[Z.to_nat sig := handler]> (t_signal_handlers t)) t);;;
  kret 0.

(** [current_task->state = TASK_ZOMBIE; schedule();] and what follows it. *)
Definition terminate {B} (k : M kstate (flow B)) : M kstate (flow B) :=
  let* cur := kgets k_current in
  task_upd cur (set_t_state TASK_ZOMBIE);;;
  reschedule k.

(** The rest of the loop body once the pending bit is cleared and SIGKILL dealt
    with; [next] is the next round of the loop. *)
Definition signal_action (sig : Z) (regs : registers) (next : M kstate (flow registers)) : M kstate (flow registers) :=
  let* cur := kgets k_current in
  let* handlers := task_get cur t_signal_handlers in
  match handlers !! Z.to_nat sig with
  | None => kfault
  | Some handler =>
      if handler =? 0 then
        if (sig =? RELIS_SIGINT) || (sig =? RELIS_SIGHUP) then terminate next else next
      else kret (Returned (set_rip handler regs))
  end.

Fixpoint deliver_loop (sigs : list Z) (regs : registers) : M kstate (flow registers) :=
  match sigs with
  | [] => kret (Returned regs)
  | sig :: rest =>
      let* cur := kgets k_current in
      let* pending := task_get cur t_pending_signals in
      if istrue (Z.land pending (bit sig)) then
        task_upd cur (fun t => set_t_pending_signals (Z.land (t_pending_signals t) (cnot 64 (bit sig))) t);;;
        if sig =? RELIS_SIGKILL then terminate (signal_action sig regs (deliver_loop rest regs))
        else signal_action sig regs (deliver_loop rest regs)
      else deliver_loop rest regs
  end.

(** The result is the register file the handler of the system call returns with. *)
Definition deliver_signals (regs : registers) : M kstate (flow registers) :=
  let* cur := kgets k_current in
  let* pending := task_get cur t_pending_signals in
  if pending =? 0 then kret (Returned regs) else deliver_loop (seqZ 1 (MAX_SIGNALS - 1)) regs.
End Operations.

(** ** Finding the target of a signal *)

Section KillProperties.
Context `{Layout}.

(** The first task of the list with the given pid. *)
Definition pid_is (s : kstate) (pid p : Z) : bool :=
  match k_tasks s !! p with Some t => t_pid t =? pid | None => false end.
Definition task_by_pid (s : kstate) (pid : Z) (glob : list Z) : Z := default 0 (snd <$> list_find (pid_is s pid) glob).

Lemma find_task_spec s pid l a fuel :
  chain (k_nodes s) a (task_nodes l) global_tasks -> global_tasks ∉ task_nodes l ->
  (forall p, p ∈ l -> is_Some (k_tasks s !! p)) -> (length l < fuel)%nat ->
  (let* pos := on_list (get_next a) in find_task fuel pos pid) s = Done (task_by_pid s pid l, s).
Proof.
  revert a fuel. induction l as [|p l IH]; intros a [|f] Hc Hni Ht Hf; try (simpl in Hf; lia).
  - destruct Hc as [Hn _]. erewrite kbind_done by (apply on_list_read, get_next_done; exact Hn).
    simpl find_task. by rewrite Z.eqb_refl.
  - change (task_nodes (p :: l)) with (p + tasks_off :: task_nodes l) in *. destruct Hc as [[Hn _] Hc].
    erewrite kbind_done by (apply on_list_read, get_next_done; exact Hn). simpl find_task.
    apply not_elem_of_cons in Hni as [Hne Hni]. rewrite (proj2 (Z.eqb_neq (p + tasks_off) global_tasks)) by congruence.
    destruct (Ht p ltac:(set_solver)) as [t Hp]. replace (p + tasks_off - tasks_off) with p by lia.
    erewrite kbind_done by (apply task_get_done; exact Hp). unfold task_by_pid. simpl list_find.
    assert (pid_is s pid p = (t_pid t =? pid)) as Epid by (unfold pid_is; by rewrite Hp).
    destruct (t_pid t =? pid) eqn:E.
    + rewrite decide_True by (by rewrite Epid). done.
    + rewrite decide_False by (by rewrite Epid; intros []). rewrite (IH (p + tasks_off) f Hc Hni); [|intros q Hq; apply Ht; set_solver|simpl in Hf; lia].
      unfold task_by_pid. by destruct (list_find _ l) as [[]|].
Qed.

Lemma task_by_pid_none s pid glob :
  (forall p t, p ∈ glob -> k_tasks s !! p = Some t -> t_pid t <> pid) -> task_by_pid s pid glob = 0.
Proof.
  intros Hno. unfold task_by_pid. destruct (list_find (pid_is s pid) glob) as [[i p]|] eqn:E; [|done].
  apply list_find_Some in E as (Hi & Hp & _). apply list_elem_of_lookup_2 in Hi. unfold pid_is in Hp.
  destruct (k_tasks s !! p) as [t|] eqn:Ht; [|done]. apply Is_true_true, Z.eqb_eq in Hp. by destruct (Hno p t Hi Ht).
Qed.

Lemma task_by_pid_some s pid l1 p l2 t :
  (forall q u, q ∈ l1 -> k_tasks s !! q = Some u -> t_pid u <> pid) -> k_tasks s !! p = Some t -> t_pid t = pid ->
  task_by_pid s pid (l1 ++ p :: l2) = p.
Proof.
  intros Hno Ht Hpid. unfold task_by_pid.
  assert (list_find (pid_is s pid) (l1 ++ p :: l2) = Some (length l1, p)) as ->; [|done].
  apply list_find_Some. split; [by apply list_lookup_middle|].
  split; [unfold pid_is; rewrite Ht; by apply Is_true_true, Z.eqb_eq|].
  intros j y Hj Hlt. rewrite lookup_app_l in Hj by done. apply list_elem_of_lookup_2 in Hj. unfold pid_is.
  destruct (k_tasks s !! y) as [u|] eqn:Hu; [|by intros []]. intros Heq%Is_true_true%Z.eqb_eq. by destruct (Hno y u Hj Hu).
Qed.

(** [wake_up_process] of a sleeping task that is not queued. *)
Lemma wake_up_process_spec s cfs rt glob p t c :
  sched_ok s cfs rt glob -> k_tasks s !! p = Some t -> t_state t = TASK_INTERRUPTIBLE -> t_sched_class t = Some c -> p <> 0 ->
  (enq_node c p ∉ all_nodes cfs rt glob) -> is_Some (k_nodes s !! enq_node c p) ->
  Z.of_nat (length cfs + length rt) + 1 < 2 ^ 64 ->
  exists s', wake_up_process p s = Done (tt, s') /\ sched_ok s' (enq_cfs c p cfs) (enq_rt c p rt) glob /\
    k_tasks s' = <[p := set_t_state TASK_RUNNING t]> (k_tasks s).
Proof.
  intros [Hinv Hl] Ht Hst Hcl Hnz Hni Hnode Hcount. unfold wake_up_process.
  erewrite kbind_done by (by apply sched_lock_done). rewrite (proj2 (Z.eqb_neq p 0)) by done.
  set (s1 := set_k_sched_lock 1 s). set (s2 := set_k_tasks (<[p := set_t_state TASK_RUNNING t]> (k_tasks s)) s1).
  destruct (class_enqueue_spec s2 c p (set_t_state TASK_RUNNING t) cfs rt glob) as (h & E & Hinv2 & _).
  - eapply sched_inv_ext; [exact Hinv|done| |done|]; intros; apply insert_task_some; [done|exact (si_current _ _ _ _ Hinv)].
  - apply lookup_insert_eq.
  - done.
  - done.
  - intros _. split; [exact Hni|exact Hnode].
  - done.
  - erewrite kbind_done.
    2: { erewrite kbind_done by (apply (task_get_done s1 p t_state t); exact Ht). rewrite Hst. cbn [Z.eqb TASK_INTERRUPTIBLE Pos.eqb].
         erewrite kbind_done by (apply (task_upd_done s1 p _ t); exact Ht). exact E. }
    eexists. split; [reflexivity|]. split; [|reflexivity]. split; [|reflexivity].
    eapply sched_inv_ext; [exact Hinv2|done|done|done|exact (si_current _ _ _ _ Hinv2)].
Qed.

(** A pid that no task has. *)
Lemma sys_kill_no_task s cfs rt glob fuel pid sig :
  sched_ok s cfs rt glob -> (length glob < fuel)%nat ->
  (forall p t, p ∈ glob -> k_tasks s !! p = Some t -> t_pid t <> pid) -> sys_kill fuel pid sig s = Done (-1, s).
Proof.
  intros [Hinv _] Hf Hno. pose proof (si_glob _ _ _ _ Hinv) as [Hnd Hch]. apply NoDup_cons in Hnd as [Hni _].
  assert (forall p, p ∈ glob -> is_Some (k_tasks s !! p)) as Hts by (intros p Hp; apply (si_tasks _ _ _ _ Hinv); set_solver).
  unfold sys_kill. destruct ((sig <? 1) || (sig >=? MAX_SIGNALS)); [done|]. rewrite <- kbind_assoc.
  erewrite kbind_done by (by apply (find_task_spec s pid glob)). by rewrite task_by_pid_none by done.
Qed.

(** C23: [sys_kill] rejects a signal outside 1..31 and a pid no task has, without
    changing anything.  Otherwise the first task with that pid on the list of all
    tasks gets the signal's bit and nothing else changes, except that a sleeping
    task also becomes runnable and joins the run queue of its class. *)
Theorem sys_kill_posts s cfs rt glob fuel pid sig :
  sched_ok s cfs rt glob -> (forall p, p ∈ glob -> p <> 0) -> (length glob < fuel)%nat ->
  (sig < 1 \/ 32 <= sig -> sys_kill fuel pid sig s = Done (-1, s)) /\
  ((forall p t, p ∈ glob -> k_tasks s !! p = Some t -> t_pid t <> pid) -> sys_kill fuel pid sig s = Done (-1, s)) /\
  (forall l1 p l2 t, 1 <= sig < 32 -> glob = l1 ++ p :: l2 ->
     (forall q u, q ∈ l1 -> k_tasks s !! q = Some u -> t_pid u <> pid) -> k_tasks s !! p = Some t -> t_pid t = pid ->
     let t' := set_t_pending_signals (Z.lor (t_pending_signals t) (bit sig)) t in
     (t_state t <> TASK_INTERRUPTIBLE -> sys_kill fuel pid sig s = Done (0, set_k_tasks (<[p := t']> (k_tasks s)) s)) /\
     (forall c, t_state t = TASK_INTERRUPTIBLE -> t_sched_class t = Some c ->
        (enq_node c p ∉ all_nodes cfs rt glob) -> is_Some (k_nodes s !! enq_node c p) ->
        Z.of_nat (length cfs + length rt) + 1 < 2 ^ 64 ->
        exists s', sys_kill fuel pid sig s = Done (0, s') /\ sched_ok s' (enq_cfs c p cfs) (enq_rt c p rt) glob /\
          k_tasks s' = <[p := set_t_state TASK_RUNNING t']> (k_tasks s))).
Proof.
  intros [Hinv Hl] Hnn Hf. pose proof (si_glob _ _ _ _ Hinv) as [Hnd Hch]. apply NoDup_cons in Hnd as [Hni _].
  assert (forall p, p ∈ glob -> is_Some (k_tasks s !! p)) as Hts by (intros p Hp; apply (si_tasks _ _ _ _ Hinv); set_solver).
  pose proof (find_task_spec s pid glob global_tasks fuel Hch Hni Hts Hf) as Hfind.
  assert (forall B (k : Z -> M kstate B), (let* pos := on_list (get_next global_tasks) in kbind (find_task fuel pos pid) k) s =
    k (task_by_pid s pid glob) s) as Hfk by (intros B k; rewrite <- kbind_assoc; by erewrite kbind_done by exact Hfind).
  split; [|split].
  - intros Hsig. unfold sys_kill, MAX_SIGNALS. assert ((sig <? 1) || (sig >=? 32) = true) as -> by lia. done.
  - intros Hno. by apply (sys_kill_no_task s cfs rt glob).
  - intros l1 p l2 t Hsig Hg Hfirst Ht Hpid t'. unfold sys_kill, MAX_SIGNALS. assert ((sig <? 1) || (sig >=? 32) = false) as -> by lia.
    rewrite Hfk. assert (task_by_pid s pid glob = p) as -> by (rewrite Hg; by apply (task_by_pid_some s pid l1 p l2 t)).
    assert (p <> 0) as Hp0 by (apply Hnn; rewrite Hg; set_solver). rewrite (proj2 (Z.eqb_neq p 0)) by done.
    erewrite kbind_done by (apply task_upd_done; exact Ht). fold t'.
    set (s1 := set_k_tasks (<[p := t']> (k_tasks s)) s).
    assert (k_tasks s1 !! p = Some t') as Ht1 by apply lookup_insert_eq.
    erewrite kbind_done by (apply (task_get_done s1 p t_state t' Ht1)). change (t_state t') with (t_state t). split.
    + intros Hst. by rewrite (proj2 (Z.eqb_neq _ _) Hst).
    + intros c Hst Hcl Hen Hno Hcount. rewrite Hst. cbn [Z.eqb TASK_INTERRUPTIBLE Pos.eqb].
      destruct (wake_up_process_spec s1 cfs rt glob p t' c) as (s2 & E & Hok2 & Ht2); try done.
      * split; [|done]. eapply sched_inv_ext; [exact Hinv|done| |done|]; intros; apply insert_task_some; [done|exact (si_current _ _ _ _ Hinv)].
      * erewrite kbind_done by exact E. exists s2. split; [done|]. split; [done|]. rewrite Ht2. cbn [k_tasks s1 set_k_tasks].
        by rewrite insert_insert_eq.
Qed.
End KillProperties.

(** ** Delivery *)

Section DeliverProperties.
Context `{Layout}.

(** The signals 1 to [n] are cleared. *)
Definition cleared (n pending : Z) : Z := Z.ldiff pending (Z.shiftl (Z.ones n) 1).

Lemma cleared_bit n pending i :
  0 <= n -> 0 <= i -> Z.testbit (cleared n pending) i = Z.testbit pending i && negb (bool_decide (1 <= i <= n)).
Proof.
  intros Hn Hi. unfold cleared. rewrite Z.ldiff_spec, Z.shiftl_spec by lia. f_equal. f_equal.
  destruct (decide (i = 0)) as [-> |]; [by rewrite Z.testbit_neg_r, bool_decide_false by lia|].
  rewrite Z.testbit_ones by lia. case_bool_decide; lia.
Qed.

Lemma cleared_0 pending : cleared 0 pending = pending.
Proof. unfold cleared. by rewrite Z.shiftl_0_l, Z.ldiff_0_r. Qed.

Lemma cleared_range n pending : 0 <= n -> 0 <= pending < 2 ^ 64 -> 0 <= cleared n pending < 2 ^ 64.
Proof.
  intros Hn Hp. assert (0 <= cleared n pending) by (apply Z.ldiff_nonneg; lia). split; [done|].
  apply bound_of_bits; [done|lia|]. intros i Hi. rewrite cleared_bit by lia. by rewrite (testbit_range_high pending 64) by lia.
Qed.

(** One more signal: the code's [&= ~(1ULL << sig)], or nothing when the bit is
    already clear. *)
Lemma cleared_step n pending :
  0 <= n < 63 -> 0 <= pending < 2 ^ 64 ->
  Z.land (cleared n pending) (cnot 64 (bit (n + 1))) = cleared (n + 1) pending.
Proof.
  intros Hn Hp. apply Z.bits_inj'. intros i Hi. rewrite Z.land_spec, testbit_cnot, testbit_bit, !cleared_bit by lia.
  destruct (decide (i < 64)).
  - rewrite (bool_decide_true (i < 64)) by done. destruct (Z.testbit pending i); simpl; [|done]. repeat case_bool_decide; try done; lia.
  - by rewrite (testbit_range_high pending 64) by lia.
Qed.

Lemma cleared_skip n pending :
  0 <= n -> Z.testbit pending (n + 1) = false -> cleared n pending = cleared (n + 1) pending.
Proof.
  intros Hn Hb. apply Z.bits_inj'. intros i Hi. rewrite !cleared_bit by lia.
  destruct (decide (i = n + 1)) as [-> |]; [by rewrite Hb|]. f_equal. f_equal. apply bool_decide_ext. lia.
Qed.

(** A pending signal the kernel does not ignore. *)
Definition signal_acts (t : task_struct) (sig : Z) : Prop :=
  Z.testbit (t_pending_signals t) sig = true /\
  (sig = RELIS_SIGKILL \/ sig = RELIS_SIGINT \/ sig = RELIS_SIGHUP \/ t_signal_handlers t !! Z.to_nat sig <> Some 0).

(** The state with the current task's signals 1 to [n] cleared. *)
Definition with_cleared (n : Z) (t : task_struct) : task_struct := set_t_pending_signals (cleared n (t_pending_signals t)) t.
Definition state_cleared (s : kstate) (n : Z) (t : task_struct) : kstate :=
  set_k_tasks (<[k_current s := with_cleared n t]> (k_tasks s)) s.

Lemma state_cleared_0 s t : k_tasks s !! k_current s = Some t -> state_cleared s 0 t = s.
Proof.
  intros Ht. unfold state_cleared, with_cleared. rewrite cleared_0.
  assert (set_t_pending_signals (t_pending_signals t) t = t) as -> by (by destruct t). rewrite insert_id by done. by destruct s.
Qed.

Section Task.
Context (s : kstate) (t : task_struct) (regs : registers).
Hypothesis Hpend : 0 <= t_pending_signals t < 2 ^ 64.
Hypothesis Hhand : length (t_signal_handlers t) = 32%nat.

Lemma current_cleared n : k_tasks (state_cleared s n t) !! k_current s = Some (with_cleared n t).
Proof. apply lookup_insert_eq. Qed.

Lemma upd_cleared n :
  0 <= n < 63 ->
  task_upd (k_current s) (fun t => set_t_pending_signals (Z.land (t_pending_signals t) (cnot 64 (bit (n + 1)))) t)
    (state_cleared s n t) = Done (tt, state_cleared s (n + 1) t).
Proof.
  intros Hn. unfold state_cleared. rewrite task_upd_again. unfold with_cleared. cbn [t_pending_signals set_t_pending_signals].
  by rewrite cleared_step by lia.
Qed.

(** One round of the loop for a signal that is not pending, and for one that is. *)
Lemma deliver_clear n rest :
  0 <= n < 31 -> Z.testbit (t_pending_signals t) (n + 1) = false ->
  deliver_loop (n + 1 :: rest) regs (state_cleared s n t) = deliver_loop rest regs (state_cleared s (n + 1) t).
Proof.
  intros Hn Hb. cbn [deliver_loop]. erewrite kbind_done by done.
  erewrite kbind_done by (apply task_get_done; exact (current_cleared n)).
  rewrite land_bit_ne0 by lia. change (t_pending_signals (with_cleared n t)) with (cleared n (t_pending_signals t)).
  rewrite cleared_bit, Hb by lia. cbn [andb]. unfold state_cleared, with_cleared. by rewrite cleared_skip by (lia || done).
Qed.

Lemma deliver_pending n rest :
  0 <= n < 31 -> Z.testbit (t_pending_signals t) (n + 1) = true ->
  deliver_loop (n + 1 :: rest) regs (state_cleared s n t) =
  (if n + 1 =? RELIS_SIGKILL then terminate (signal_action (n + 1) regs (deliver_loop rest regs))
   else signal_action (n + 1) regs (deliver_loop rest regs)) (state_cleared s (n + 1) t).
Proof.
  intros Hn Hb. cbn [deliver_loop]. erewrite kbind_done by done.
  erewrite kbind_done by (apply task_get_done; exact (current_cleared n)).
  rewrite land_bit_ne0 by lia. change (t_pending_signals (with_cleared n t)) with (cleared n (t_pending_signals t)).
  rewrite cleared_bit, Hb, bool_decide_false by lia. cbn [andb negb].
  erewrite kbind_done by (apply upd_cleared; lia). done.
Qed.

Lemma signal_action_handler sig k h :
  t_signal_handlers t !! Z.to_nat sig = Some h ->
  signal_action sig regs k (state_cleared s sig t) =
  (if h =? 0 then if (sig =? RELIS_SIGINT) || (sig =? RELIS_SIGHUP) then terminate k else k
   else kret (Returned (set_rip h regs))) (state_cleared s sig t).
Proof.
  intros Hh. unfold signal_action. erewrite kbind_done by done.
  erewrite kbind_done by (apply task_get_done; exact (current_cleared sig)).
  change (t_signal_handlers (with_cleared sig t)) with (t_signal_handlers t). by rewrite Hh.
Qed.

Lemma handler_exists sig : 1 <= sig < 32 -> exists h, t_signal_handlers t !! Z.to_nat sig = Some h.
Proof. intros Hs. apply lookup_lt_is_Some_2. lia. Qed.

(** Signals on which the kernel does not act are skipped. *)
Lemma deliver_skip (m : nat) n rest :
  0 <= n -> n + Z.of_nat m <= 31 -> (forall sig, n < sig <= n + Z.of_nat m -> ~ signal_acts t sig) ->
  deliver_loop (seqZ (n + 1) (Z.of_nat m) ++ rest) regs (state_cleared s n t) =
  deliver_loop rest regs (state_cleared s (n + Z.of_nat m) t).
Proof.
  revert n. induction m as [|m IH]; intros n Hn Hm Hno; [by rewrite Z.add_0_r|].
  rewrite seqZ_cons by lia. simpl app. rewrite <- Z.add_1_r. replace (Z.pred (Z.of_nat (S m))) with (Z.of_nat m) by lia.
  replace (n + Z.of_nat (S m)) with (n + 1 + Z.of_nat m) by lia.
  rewrite <- (IH (n + 1)); [|lia|lia|intros sig Hs; apply Hno; lia].
  destruct (Z.testbit (t_pending_signals t) (n + 1)) eqn:Hb; [|apply deliver_clear; [lia|done]].
  rewrite deliver_pending by (lia || done). specialize (Hno (n + 1) ltac:(lia)).
  destruct (handler_exists (n + 1) ltac:(lia)) as [h Hh].
  destruct (Z.eqb_spec (n + 1) RELIS_SIGKILL) as [Hk|Hk]; [destruct Hno; split; [done|by left]|].
  rewrite (signal_action_handler _ _ h Hh). destruct (Z.eqb_spec h 0) as [->|Hh0].
  - destruct (Z.eqb_spec (n + 1) RELIS_SIGINT); [destruct Hno; split; [done|auto]|].
    destruct (Z.eqb_spec (n + 1) RELIS_SIGHUP); [destruct Hno; split; [done|auto]|]. done.
  - destruct Hno. split; [done|]. rewrite Hh. right. right. right. congruence.
Qed.

(** The loop reaches the first signal it acts on. *)
Lemma deliver_first sig :
  k_tasks s !! k_current s = Some t -> 1 <= sig < 32 -> signal_acts t sig -> (forall j, 1 <= j < sig -> ~ signal_acts t j) ->
  let k := deliver_loop (seqZ (sig + 1) (31 - sig)) regs in
  deliver_signals regs s =
    (if sig =? RELIS_SIGKILL then terminate (signal_action sig regs k) else signal_action sig regs k) (state_cleared s sig t).
Proof.
  intros Ht Hsig Hact Hfirst k. unfold deliver_signals. erewrite kbind_done by done.
  erewrite kbind_done by (apply task_get_done; exact Ht). destruct Hact as [Hb _].
  rewrite (proj2 (Z.eqb_neq (t_pending_signals t) 0)) by (intros E; by rewrite E, Z.bits_0 in Hb).
  rewrite <- (state_cleared_0 s t Ht) at 1. change (MAX_SIGNALS - 1) with 31.
  replace (seqZ 1 31) with (seqZ (0 + 1) (Z.of_nat (Z.to_nat (sig - 1))) ++ (sig :: seqZ (sig + 1) (31 - sig))).
  2: { rewrite Z2Nat.id by lia. assert (31 = (sig - 1) + (32 - sig)) as E by lia. rewrite E at 2.
       rewrite seqZ_app by lia. f_equal. rewrite (seqZ_cons (1 + _)) by lia. f_equal; [lia|f_equal; lia]. }
  rewrite deliver_skip; [|lia|lia|intros j Hj; apply Hfirst; lia].
  rewrite Z2Nat.id by lia. replace (0 + (sig - 1)) with (sig - 1) by lia.
  replace (sig :: seqZ (sig + 1) (31 - sig)) with (sig - 1 + 1 :: seqZ (sig + 1) (31 - sig)) by (f_equal; lia).
  rewrite deliver_pending; [|lia|by replace (sig - 1 + 1) with sig by lia].
  by replace (sig - 1 + 1) with sig by lia.
Qed.

(** A signal that terminates goes through [terminate]; what follows it, should
    [schedule] come back, looks at the handler only when the signal is SIGKILL. *)
Lemma terminated_first sig h :
  k_tasks s !! k_current s = Some t -> signal_acts t sig -> t_signal_handlers t !! Z.to_nat sig = Some h -> sig = RELIS_SIGKILL \/ h = 0 ->
  let next := deliver_loop (seqZ (sig + 1) (31 - sig)) regs in
  exists k, (if sig =? RELIS_SIGKILL then terminate (signal_action sig regs next) else signal_action sig regs next) (state_cleared s sig t) =
      terminate k (state_cleared s sig t) /\
    forall s' t', k_tasks s' !! k_current s' = Some t' -> t_signal_handlers t' = t_signal_handlers t ->
      k s' = (if h =? 0 then next else kret (Returned (set_rip h regs))) s'.
Proof.
  intros Ht [_ Hact] Hh Hwhy next. destruct (Z.eqb_spec sig RELIS_SIGKILL) as [Hk|Hk].
  - exists (signal_action sig regs next). split; [done|]. intros s' t' Ht' Hhs. unfold signal_action. erewrite kbind_done by done.
    erewrite kbind_done by (apply task_get_done; exact Ht'). rewrite Hhs, Hh, Hk. by destruct (h =? 0).
  - destruct Hwhy as [|Hz]; [done|]. exists next. rewrite (signal_action_handler _ _ h Hh), Hz. cbn [Z.eqb]. split; [|done].
    destruct Hact as [|[-> |[-> |Hbad]]]; [done|done..|congruence].
Qed.
End Task.

(** Terminating the current task gives the processor to the next one; when the
    scheduler picks the task itself, [schedule] returns and the zombie goes on. *)
Definition unmarked (t : task_struct) : task_struct := set_t_flags (Z.land (t_flags t) (cnot 32 TIF_NEED_RESCHED)) t.

Lemma terminate_spec {B} s t cfs rt glob (k : M kstate (flow B)) :
  sched_ok s cfs rt glob -> k_tasks s !! k_current s = Some t ->
  let next := sched_next cfs rt (k_current s) in
  let zombie := set_t_state TASK_ZOMBIE t in
  exists s', sched_ok s' (rotate cfs rt) rt glob /\ k_current s' = next /\
    if decide (next = k_current s)
    then k_tasks s' = <[k_current s := unmarked zombie]> (k_tasks s) /\ terminate k s = k s'
    else k_tasks s' = <[k_current s := zombie]> (k_tasks s) /\ terminate k s = Done (Suspended k, s').
Proof.
  intros [Hinv Hl] Ht next zombie. unfold terminate. erewrite kbind_done by done.
  erewrite kbind_done by (apply task_upd_done; exact Ht). set (s1 := set_k_tasks _ s).
  destruct (schedule_spec s1 cfs rt glob) as (s2 & E & Hok & Hcur & Hsame & Hdiff).
  { split; [|done]. eapply sched_inv_ext; [exact Hinv|done| |done|]; intros; apply insert_task_some; [done|exact (si_current _ _ _ _ Hinv)]. }
  change (k_current s1) with (k_current s) in *. fold next in Hcur, Hsame, Hdiff.
  exists s2. split; [done|]. split; [done|]. unfold reschedule. erewrite kbind_done by done. erewrite kbind_done by exact E.
  erewrite kbind_done by done. change (k_current s1) with (k_current s). rewrite Hcur. destruct (decide _) as [Heq|Hne].
  - rewrite (proj2 (Z.eqb_eq _ _) Heq). split; [|done]. destruct (Hsame Heq) as (_ & t1 & Ht1 & ->). rewrite Heq in *.
    cbn [k_tasks s1 set_k_tasks] in *. rewrite lookup_insert_eq in Ht1. injection Ht1 as <-. by rewrite insert_insert_eq.
  - rewrite (proj2 (Z.eqb_neq _ _) Hne). split; [|done]. destruct (Hdiff Hne) as [_ _ H3]. exact H3.
Qed.

(** C22: [deliver_signals] looks at the pending signals of the current task in
    ascending order.  Signals without handler other than SIGKILL, SIGINT and
    SIGHUP are cleared and dropped.  On the first other one it clears the bit and
    acts; signals above it stay pending.  With a handler, and not SIGKILL, it
    returns to the handler and changes no other register.  SIGKILL, and SIGINT or
    SIGHUP without a handler, make the task a zombie and call the scheduler.  If
    that picks another task the zombie is suspended there.  If it picks the zombie
    itself - it is alone in the queue, or at the head of the real-time queue -
    [schedule] returns and the zombie goes on: a SIGKILL with a handler is caught
    by it, and without one the delivery continues with the higher signals. *)
Theorem deliver_signals_acts s t regs cfs rt glob :
  k_tasks s !! k_current s = Some t -> 0 <= t_pending_signals t < 2 ^ 64 -> length (t_signal_handlers t) = 32%nat ->
  ((forall j, 1 <= j < 32 -> ~ signal_acts t j) ->
   deliver_signals regs s = Done (Returned regs, set_k_tasks (<[k_current s := with_cleared 31 t]> (k_tasks s)) s)) /\
  (forall sig h, 1 <= sig < 32 -> signal_acts t sig -> (forall j, 1 <= j < sig -> ~ signal_acts t j) ->
   t_signal_handlers t !! Z.to_nat sig = Some h ->
   (sig <> RELIS_SIGKILL -> h <> 0 -> deliver_signals regs s =
      Done (Returned (set_rip h regs), set_k_tasks (<[k_current s := with_cleared sig t]> (k_tasks s)) s)) /\
   (sig = RELIS_SIGKILL \/ h = 0 -> sched_ok s cfs rt glob ->
      let zombie := set_t_state TASK_ZOMBIE (with_cleared sig t) in
      let next := sched_next cfs rt (k_current s) in
      let go_on := if h =? 0 then deliver_loop (seqZ (sig + 1) (31 - sig)) regs else kret (Returned (set_rip h regs)) in
      exists s', sched_ok s' (rotate cfs rt) rt glob /\ k_current s' = next /\
        if decide (next = k_current s)
        then k_tasks s' = <[k_current s := unmarked zombie]> (k_tasks s) /\ deliver_signals regs s = go_on s'
        else k_tasks s' = <[k_current s := zombie]> (k_tasks s) /\
          exists k, deliver_signals regs s = Done (Suspended k, s'))).
Proof.
  intros Ht Hpend Hhand. split.
  - intros Hno. unfold deliver_signals. erewrite kbind_done by done. erewrite kbind_done by (apply task_get_done; exact Ht).
    destruct (Z.eqb_spec (t_pending_signals t) 0) as [Hz|_].
    + assert (with_cleared 31 t = with_cleared 0 t) as -> by (unfold with_cleared; by rewrite Hz).
      fold (state_cleared s 0 t). by rewrite state_cleared_0.
    + rewrite <- (state_cleared_0 s t Ht) at 1. change (seqZ 1 (MAX_SIGNALS - 1)) with (seqZ (0 + 1) (Z.of_nat 31)).
      rewrite <- (app_nil_r (seqZ (0 + 1) (Z.of_nat 31))). rewrite deliver_skip; [done|done|done|done|done|].
      intros j Hj. apply Hno. lia.
  - intros sig h Hsig Hact Hfirst Hh. rewrite (deliver_first s t regs Hpend Hhand sig Ht Hsig Hact Hfirst). split.
    + intros Hk Hh0. rewrite (proj2 (Z.eqb_neq _ _) Hk). rewrite (signal_action_handler _ _ _ _ _ h) by done.
      by rewrite (proj2 (Z.eqb_neq _ _) Hh0).
    + intros Hwhy [Hinv Hl] zombie next go_on.
      destruct (terminated_first s t regs sig h Ht Hact Hh Hwhy) as (k & -> & Hk).
      assert (sched_ok (state_cleared s sig t) cfs rt glob) as Hok1.
      { split; [|done]. eapply sched_inv_ext; [exact Hinv|done| |done|]; intros; apply insert_task_some; [done|exact (si_current _ _ _ _ Hinv)]. }
      destruct (terminate_spec (state_cleared s sig t) (with_cleared sig t) cfs rt glob k Hok1) as (s' & E1 & E2 & E3);
        [exact (current_cleared s t sig)|]. exists s'. split; [exact E1|]. split; [exact E2|].
      change (k_current (state_cleared s sig t)) with (k_current s) in *. fold next zombie in E2, E3.
      cbn [k_tasks state_cleared set_k_tasks] in E3. rewrite !insert_insert_eq in E3. destruct (decide (next = k_current s)) as [Heq|].
      * destruct E3 as [Etasks ->]. split; [exact Etasks|]. apply (Hk s' (unmarked zombie)); [rewrite E2, Heq, Etasks; apply lookup_insert_eq|done].
      * destruct E3 as [Etasks E]. split; [exact Etasks|]. by exists k.
Qed.
End DeliverProperties.
