(* ===== verification/Ipc.v ===== *)
(** * kernel/ipc.c: pipes and shared pages

    A pipe's buffer, its positions and its lock live in [k_pipes]; the buffers of
    the callers live in [k_umem].  A copy between the two faults when it leaves
    the buffer or touches memory that is not backed. *)

From S2P Require Import Prelude Memory StringLib ListHead SpinLock Slab PgTable FrameAlloc PageAlloc Paging AddrSpace VirtMem KState Sched Threads.

(** ** Operations *)

Section Operations.
Context `{Layout}.

Definition pipe_get {B} (p : Z) (f : relis_pipe -> B) : M kstate B := kopt (fun s => f <$> k_pipes s !! p).
Definition pipe_upd (p : Z) (f : relis_pipe -> relis_pipe) : M kstate unit :=
  kupd (fun s =>
    match k_pipes s !! p with Some x => Some (set_k_pipes (<[p := f x]> (k_pipes s)) s) | None => None end).
Definition set_p_lock (v : Z) (x : relis_pipe) : relis_pipe := mk_pipe (p_buffer x) (p_read_pos x) (p_write_pos x) v.
Definition set_p_read_pos (v : Z) (x : relis_pipe) : relis_pipe := mk_pipe (p_buffer x) v (p_write_pos x) (p_lock x).
Definition set_p_write_pos (v : Z) (x : relis_pipe) : relis_pipe := mk_pipe (p_buffer x) (p_read_pos x) v (p_lock x).
Definition set_p_buffer (v : list Z) (x : relis_pipe) : relis_pipe := mk_pipe v (p_read_pos x) (p_write_pos x) (p_lock x).

Definition pipe_lock (p : Z) : M kstate unit :=
  let* l := pipe_get p p_lock in
  if l =? 0 then pipe_upd p (set_p_lock 1) else kspin.
Definition pipe_unlock (p : Z) : M kstate unit := pipe_upd p (set_p_lock 0).

(** The pipe behind [f->f_inode->i_private]. *)
Definition file_pipe (f : Z) : M kstate Z :=
  let* i := kopt (fun s => f_inode <$> k_files s !! f) in
  kopt (fun s => i_private <$> k_inodes s !! i).

(** [kmemcpy(buf, p->buffer + off, n)] and [kmemcpy(p->buffer + off, buf, n)] *)
Definition copy_out (p off n buf : Z) : M kstate unit :=
  let* l := pipe_get p p_buffer in
  if off + n <=? Z.of_nat (length l) then
    kupd (fun s =>
      match read_list (k_umem s) buf (Z.to_nat n) with
      | Some _ => Some (set_k_umem (write_list (k_umem s) buf (take (Z.to_nat n) (drop (Z.to_nat off) l))) s)
      | None => None
      end)
  else kfault.
Definition copy_in (p off n buf : Z) : M kstate unit :=
  let* l := pipe_get p p_buffer in
  if off + n <=? Z.of_nat (length l) then
    let* bytes := kopt (fun s => read_list (k_umem s) buf (Z.to_nat n)) in
    pipe_upd p (set_p_buffer (take (Z.to_nat off) l ++ bytes ++ drop (Z.to_nat (off + n)) l))
  else kfault.

(** The loop of [pipe_read]; the fuel bounds the number of times the reader is
    woken and finds the pipe empty. *)
Fixpoint pipe_read_loop (fuel : nat) (p buf count : Z) : M kstate (flow Z) :=
  match fuel with
  | O => kspin
  | S fuel' =>
      pipe_lock p;;;
      let* r := pipe_get p p_read_pos in
      let* w := pipe_get p p_write_pos in
      if negb (r =? w) then
        let to_copy := u32 (w - r) in
        let to_copy := if to_copy >? count then count else to_copy in
        copy_out p r to_copy buf;;;
        pipe_upd p (set_p_read_pos (u32 (r + to_copy)));;;
        pipe_unlock p;;;
        kret (Returned to_copy)
      else
        pipe_unlock p;;;
        reschedule (pipe_read_loop fuel' p buf count)
  end.
Definition pipe_read (fuel : nat) (f buf count : Z) : M kstate (flow Z) :=
  let* p := file_pipe f in
  pipe_read_loop fuel p buf count.

Definition pipe_write (f buf count : Z) : M kstate Z :=
  let* p := file_pipe f in
  pipe_lock p;;;
  let* w := pipe_get p p_write_pos in
  let space := u32 (4096 - w) in
  let to_copy := if count <? space then count else space in
  copy_in p w to_copy buf;;;
  pipe_upd p (set_p_write_pos (u32 (w + to_copy)));;;
  pipe_unlock p;;;
  kret to_copy.

(** The search for two free descriptors, from descriptor [i] on: the read end goes
    to the first, the write end to the second. *)
Fixpoint install_ends (files : list Z) (i : Z) (rfd read_end write_end : Z) : M kstate (Z * Z) :=
  match files with
  | [] => kret (rfd, -1)
  | x :: rest =>
      if x =? 0 then
        let* cur := kgets k_current in
        if rfd =? -1 then
          set_file cur i read_end;;;
          install_ends rest (i + 1) i read_end write_end
        else
          set_file cur i write_end;;;
          kret (rfd, i)
      else install_ends rest (i + 1) rfd read_end write_end
  end.

Definition store_int (a v : Z) : M kstate unit := zoom k_umem set_k_umem (writel a (u32 v)).

Definition sys_pipe (fds : Z) : M kstate Z :=
  let* p := on_heap (kmalloc kernel_heap_region sizeof_pipe) in
  (if p =? 0 then kfault
   else kmod (fun s => set_k_pipes (<[p := mk_pipe (replicate 4096 0) 0 0 0]> (k_pipes s)) s));;;
  let* read_end := new_file PipeReadFops p in
  let* write_end := new_file PipeWriteFops p in
  let* cur := kgets k_current in
  let* files := task_get cur t_files in
  let* (rfd, wfd) := install_ends files 0 (-1) read_end write_end in
  if (rfd =? -1) || (wfd =? -1) then kret (-1) else
  store_int fds rfd;;;
  store_int (fds + 4) wfd;;;
  kret 0.

(** *** Shared pages *)
Definition SHM_VADDR_START : Z := 0x60000000.

Definition sys_shmget (size : Z) : M kstate Z :=
  let* cur := kgets k_current in
  let* count := task_get cur t_shm_count in
  if count >=? MAX_SHM_REGIONS then kret (-1) else
  let* phys := on_paging mm_alloc_page in
  task_upd cur (set_t_shm_count (count + 1));;;
  (if count <? 0 then kfault
   else task_upd cur (fun t => set_t_shm_pages (<[Z.to_nat count := phys]> (t_shm_pages t)) t));;;
  kret count.

Definition sys_shmat (id : Z) : M kstate Z :=
  let* cur := kgets k_current in
  let* count := task_get cur t_shm_count in
  if (id <? 0) || (id >=? count) then kret (-1) else
  let virt := SHM_VADDR_START + id * PAGE_SIZE in
  let* pages := task_get cur t_shm_pages in
  match pages !! Z.to_nat id with
  | None => kfault
  | Some phys =>
      on_paging (arch_map_page virt phys (Z.lor PTE_WRITABLE PTE_USER));;;
      kret virt
  end.
End Operations.

(** ** A pipe is a queue of bytes

    The abstract pipe: the bytes written and not yet read, and the room left.
    Since the positions are never reset the room only shrinks. *)

Inductive pipe_op := PWrite (data : list Z) | PRead (count : Z).
Inductive pipe_result := Wrote (n : Z) | Got (data : list Z).

Definition pipe_spec (st : list Z * Z) (op : pipe_op) : option (pipe_result * (list Z * Z)) :=
  let '(q, room) := st in
  match op with
  | PWrite data =>
      let n := Z.min (Z.of_nat (length data)) room in
      Some (Wrote n, (q ++ take (Z.to_nat n) data, room - n))
  | PRead count =>
      match q with
      | [] => None
      | _ => Some (Got (take (Z.to_nat count) q), (drop (Z.to_nat count) q, room))
      end
  end.
Fixpoint pipe_spec_run (st : list Z * Z) (ops : list pipe_op) : option (list pipe_result * (list Z * Z)) :=
  match ops with
  | [] => Some ([], st)
  | op :: ops' =>
      match pipe_spec st op with
      | None => None
      | Some (r, st') =>
          match pipe_spec_run st' ops' with Some (rs, st'') => Some (r :: rs, st'') | None => None end
      end
  end.

(** The bytes from [r] to [w], when [x] is stored at [w]. *)
Lemma append_slice (b x rest : list Z) (r w n : Z) :
  0 <= r <= w -> (Z.to_nat w <= length b)%nat -> n = w + Z.of_nat (length x) ->
  take (Z.to_nat (w - r)) (drop (Z.to_nat r) b) ++ take (length x) x =
  take (Z.to_nat (n - r)) (drop (Z.to_nat r) (take (Z.to_nat w) b ++ x ++ rest)).
Proof.
  intros Hr Hw ->. rewrite firstn_all. rewrite take_drop_commute.
  replace (Z.to_nat r + Z.to_nat (w - r))%nat with (Z.to_nat w) by lia.
  rewrite drop_app_le by (rewrite length_take; lia). rewrite app_assoc.
  symmetry. apply take_app_length'. rewrite length_app, length_drop, length_take. lia.
Qed.

Lemma read_list_take m a n k l : (k <= n)%nat -> read_list m a n = Some l -> read_list m a k = Some (take k l).
Proof.
  revert a n l. induction k as [|k IH]; intros a [|n] l Hk E; try lia; [done|done|].
  simpl in *. destruct (m !! a) as [x|]; [|done]. destruct (read_list m (a + 1) n) as [l'|] eqn:E'; [|done].
  injection E as <-. rewrite (IH (a + 1) n l') by (lia || done). done.
Qed.

Section PipeProperties.
Context `{Layout}.

(** The calls, with the caller's buffer at [ub]. *)
Definition run_pipe_op (rf wf ub : Z) (op : pipe_op) : M kstate pipe_result :=
  match op with
  | PWrite data =>
      kmod (fun s => set_k_umem (write_list (k_umem s) ub data) s);;;
      let* n := pipe_write wf ub (Z.of_nat (length data)) in
      kret (Wrote n)
  | PRead count =>
      let* r := pipe_read 1 rf ub count in
      match r with
      | Returned n => let* bs := kopt (fun s => read_list (k_umem s) ub (Z.to_nat n)) in kret (Got bs)
      | Suspended _ => kspin
      end
  end.
Fixpoint run_pipe_ops (rf wf ub : Z) (ops : list pipe_op) : M kstate (list pipe_result) :=
  match ops with
  | [] => kret []
  | op :: ops' =>
      let* r := run_pipe_op rf wf ub op in
      let* rs := run_pipe_ops rf wf ub ops' in
      kret (r :: rs)
  end.

Definition op_fits (N : Z) (op : pipe_op) : Prop :=
  match op with PWrite data => Z.of_nat (length data) <= N | PRead count => 0 <= count <= N end.

Definition file_leads_to (s : kstate) (f p : Z) : Prop :=
  exists fl i, k_files s !! f = Some fl /\ k_inodes s !! f_inode fl = Some i /\ i_private i = p.

(** The state of the pipe at [p], whose ends are [rf] and [wf]. *)
Record pipe_rep (s : kstate) (rf wf p : Z) (q : list Z) (room : Z) : Prop := {
  pr_read : file_leads_to s rf p;
  pr_write : file_leads_to s wf p;
  pr_pipe : exists buf r w, k_pipes s !! p = Some (mk_pipe buf r w 0) /\ length buf = 4096%nat /\
    0 <= r <= w /\ w <= 4096 /\ q = take (Z.to_nat (w - r)) (drop (Z.to_nat r) buf) /\ room = 4096 - w
}.

(** What pipe calls leave alone. *)
Definition same_but_pipe (s s' : kstate) : Prop :=
  k_vm s' = k_vm s /\ k_tasks s' = k_tasks s /\ k_files s' = k_files s /\ k_inodes s' = k_inodes s /\
  k_current s' = k_current s /\ k_sched_lock s' = k_sched_lock s /\ k_nr_running s' = k_nr_running s.

Lemma file_pipe_done s f p : file_leads_to s f p -> file_pipe f s = Done (p, s).
Proof.
  intros (fl & i & Hf & Hi & <-). unfold file_pipe.
  erewrite kbind_done; [|apply kopt_some; rewrite Hf; reflexivity]. apply kopt_some. by rewrite Hi.
Qed.

Lemma pipe_get_done {B} s p (f : relis_pipe -> B) x : k_pipes s !! p = Some x -> pipe_get p f s = Done (f x, s).
Proof. intros E. apply kopt_some. by rewrite E. Qed.

Lemma pipe_get_again {B} s p (f : relis_pipe -> B) x :
  pipe_get p f (set_k_pipes (<[p := x]> (k_pipes s)) s) = Done (f x, set_k_pipes (<[p := x]> (k_pipes s)) s).
Proof. apply pipe_get_done. apply lookup_insert_eq. Qed.

Lemma pipe_upd_done s p f x :
  k_pipes s !! p = Some x -> pipe_upd p f s = Done (tt, set_k_pipes (<[p := f x]> (k_pipes s)) s).
Proof. intros E. apply kupd_some. by rewrite E. Qed.

Lemma pipe_upd_again s p f x :
  pipe_upd p f (set_k_pipes (<[p := x]> (k_pipes s)) s) = Done (tt, set_k_pipes (<[p := f x]> (k_pipes s)) s).
Proof.
  erewrite pipe_upd_done by apply lookup_insert_eq. cbn [k_pipes set_k_pipes]. by rewrite insert_insert_eq.
Qed.

Lemma pipe_lock_done s p b r w :
  k_pipes s !! p = Some (mk_pipe b r w 0) ->
  pipe_lock p s = Done (tt, set_k_pipes (<[p := mk_pipe b r w 1]> (k_pipes s)) s).
Proof.
  intros E. unfold pipe_lock. erewrite kbind_done by (apply pipe_get_done; exact E). exact (pipe_upd_done s p (set_p_lock 1) _ E).
Qed.

(** A write stores the bytes that fit behind those already there. *)
Lemma pipe_write_spec s rf wf p q room buf data :
  pipe_rep s rf wf p q room -> read_list (k_umem s) buf (length data) = Some data -> Z.of_nat (length data) < 2 ^ 63 ->
  let n := Z.min (Z.of_nat (length data)) room in
  exists s', pipe_write wf buf (Z.of_nat (length data)) s = Done (n, s') /\
    pipe_rep s' rf wf p (q ++ take (Z.to_nat n) data) (room - n) /\ same_but_pipe s s' /\ k_umem s' = k_umem s.
Proof.
  intros [Hrd Hwr (b & r & w & Hp & Hl & Hr & Hw & Hq & Hroom)] Hdata Hlen n. unfold pipe_write.
  erewrite kbind_done by (by apply file_pipe_done). erewrite kbind_done by (by apply pipe_lock_done).
  erewrite kbind_done by apply pipe_get_again. cbn [p_write_pos].
  rewrite (wrap_small 32 (4096 - w)) by lia.
  assert ((if Z.of_nat (length data) <? 4096 - w then Z.of_nat (length data) else 4096 - w) = n) as ->.
  { unfold n. destruct (Z.ltb_spec (Z.of_nat (length data)) (4096 - w)); lia. }
  set (data' := take (Z.to_nat n) data).
  assert (length data' = Z.to_nat n) as Hld by (unfold data'; rewrite length_take; lia).
  set (b' := take (Z.to_nat w) b ++ data' ++ drop (Z.to_nat (w + n)) b).
  assert (length b' = 4096%nat) as Hb' by (unfold b'; rewrite !length_app, length_take, length_drop, Hld; lia).
  erewrite kbind_done.
  2: { unfold copy_in. erewrite kbind_done by apply pipe_get_again. cbn [p_buffer].
       rewrite (proj2 (Z.leb_le (w + n) _)) by lia.
       erewrite kbind_done; [|apply kopt_some; cbn [k_umem set_k_pipes]; apply (read_list_take _ _ (length data)); [lia|exact Hdata]].
       rewrite pipe_upd_again. fold data' b'. reflexivity. }
  erewrite kbind_done by apply pipe_upd_again. erewrite kbind_done by apply pipe_upd_again.
  rewrite wrap_small by lia. eexists. split; [reflexivity|].
  split; [|split; [done|done]]. constructor; [exact Hrd|exact Hwr|].
  exists b', r, (w + n). split; [apply lookup_insert_eq|]. split; [done|]. split; [lia|]. split; [lia|]. split; [|lia].
  rewrite Hq. unfold b'. rewrite <- (append_slice b data' _ r w (w + n)) by lia. by rewrite firstn_all.
Qed.

(** A read of a pipe with data takes the oldest bytes. *)
Lemma pipe_read_spec s rf wf p q room buf count fuel :
  pipe_rep s rf wf p q room -> q <> [] -> 0 <= count -> mapped (k_umem s) buf count ->
  let data := take (Z.to_nat count) q in
  exists s', pipe_read (S fuel) rf buf count s = Done (Returned (Z.of_nat (length data)), s') /\
    pipe_rep s' rf wf p (drop (Z.to_nat count) q) room /\ same_but_pipe s s' /\ k_umem s' = write_list (k_umem s) buf data.
Proof.
  intros [Hrd Hwr (b & r & w & Hp & Hl & Hr & Hw & Hq & Hroom)] Hne Hc Hm data. unfold pipe_read.
  erewrite kbind_done by (by apply file_pipe_done). cbn [pipe_read_loop].
  erewrite kbind_done by (by apply pipe_lock_done). do 2 erewrite kbind_done by apply pipe_get_again.
  cbn [p_read_pos p_write_pos].
  assert (length q = Z.to_nat (w - r)) as Hlq by (rewrite Hq, length_take, length_drop; lia).
  assert (r <> w) as Hrw by (intros ->; rewrite Z.sub_diag in Hlq; by destruct q).
  rewrite (proj2 (Z.eqb_neq r w) Hrw). cbn [negb]. rewrite (wrap_small 32 (w - r)) by lia.
  assert (Z.of_nat (length data) = Z.min count (w - r)) as Hn by (unfold data; rewrite length_take, Hlq; lia).
  assert ((if w - r >? count then count else w - r) = Z.of_nat (length data)) as ->
    by (rewrite Hn, Z.gtb_ltb; destruct (Z.ltb_spec count (w - r)); lia).
  assert (take (length data) (drop (Z.to_nat r) b) = data) as Hd.
  { unfold data at 2. rewrite Hq at 1. rewrite take_take. f_equal. lia. }
  erewrite kbind_done.
  2: { unfold copy_out. erewrite kbind_done by apply pipe_get_again. cbn [p_buffer].
       rewrite (proj2 (Z.leb_le _ (Z.of_nat (length b)))) by lia. rewrite Nat2Z.id, Hd.
       destruct (mapped_read_list (k_umem s) buf (length data)) as [x Hx]; [apply (mapped_weaken _ _ count _ _ Hm); lia|].
       apply kupd_some. cbn [k_umem set_k_pipes]. rewrite Hx. reflexivity. }
  set (s1 := set_k_umem (write_list (k_umem s) buf data) s).
  change (set_k_umem _ (set_k_pipes ?x s)) with (set_k_pipes x s1). change (k_pipes s) with (k_pipes s1).
  erewrite kbind_done by apply pipe_upd_again. erewrite kbind_done by apply pipe_upd_again.
  rewrite (wrap_small 32 (r + _)) by lia. eexists. split; [reflexivity|].
  split; [|split; [done|done]]. constructor; [exact Hrd|exact Hwr|].
  exists b, (r + Z.of_nat (length data)), w. split; [apply lookup_insert_eq|]. split; [done|]. split; [lia|]. split; [done|].
  split; [|done]. rewrite Hq. rewrite skipn_firstn_comm, drop_drop. destruct (decide (count <= w - r)).
  - f_equal; [lia|f_equal; lia].
  - replace (Z.to_nat (w - r) - Z.to_nat count)%nat with 0%nat by lia.
    replace (Z.to_nat (w - (r + Z.of_nat (length data)))) with 0%nat by lia. done.
Qed.

(** A read of an empty pipe gives the processor to the next task. *)
Lemma pipe_read_empty s rf wf p room buf count fuel cfs rt glob :
  pipe_rep s rf wf p [] room -> sched_ok s cfs rt glob -> sched_next cfs rt (k_current s) <> k_current s ->
  exists s', pipe_read (S fuel) rf buf count s = Done (Suspended (pipe_read_loop fuel p buf count), s') /\
    k_current s' = sched_next cfs rt (k_current s) /\ sched_ok s' (rotate cfs rt) rt glob.
Proof.
  intros [Hrd Hwr (b & r & w & Hp & Hl & Hr & Hw & Hq & Hroom)] [Hinv Hlk] Hne. unfold pipe_read.
  erewrite kbind_done by (by apply file_pipe_done). cbn [pipe_read_loop].
  erewrite kbind_done by (by apply pipe_lock_done). do 2 erewrite kbind_done by apply pipe_get_again.
  cbn [p_read_pos p_write_pos].
  assert (r = w) as ->. { apply (f_equal length) in Hq. rewrite length_take, length_drop in Hq. simpl in Hq. lia. }
  rewrite Z.eqb_refl. cbn [negb]. erewrite kbind_done by apply pipe_upd_again. set (s1 := set_k_pipes _ s).
  destruct (schedule_spec s1 cfs rt glob) as (s2 & E & Hok & Hcur & _ & _).
  { split; [|done]. eapply sched_inv_ext; [exact Hinv|done|done|done|exact (si_current _ _ _ _ Hinv)]. }
  change (k_current s1) with (k_current s) in *. unfold reschedule. erewrite kbind_done by done.
  erewrite kbind_done by exact E. erewrite kbind_done by done. change (k_current s1) with (k_current s).
  rewrite Hcur, (proj2 (Z.eqb_neq _ _) Hne). by exists s2.
Qed.

Lemma same_but_pipe_trans s1 s2 s3 : same_but_pipe s1 s2 -> same_but_pipe s2 s3 -> same_but_pipe s1 s3.
Proof. unfold same_but_pipe. intros (?&?&?&?&?&?&?) (?&?&?&?&?&?&?). repeat split; congruence. Qed.

(** One call refines one step of the queue. *)
Lemma run_pipe_op_refines s rf wf p q room ub N op res q' room' :
  pipe_rep s rf wf p q room -> mapped (k_umem s) ub N -> N < 2 ^ 63 -> op_fits N op ->
  pipe_spec (q, room) op = Some (res, (q', room')) ->
  exists s', run_pipe_op rf wf ub op s = Done (res, s') /\ pipe_rep s' rf wf p q' room' /\ same_but_pipe s s' /\
    mapped (k_umem s') ub N.
Proof.
  intros Hrep Hm HN Hfit Hspec. destruct op as [data|count]; simpl in Hspec, Hfit; unfold run_pipe_op.
  - injection Hspec as <- <- <-. erewrite kbind_done by done. set (s1 := set_k_umem _ s).
    assert (pipe_rep s1 rf wf p q room) as Hrep1 by (destruct Hrep as [? ? ?]; by constructor).
    destruct (pipe_write_spec s1 rf wf p q room ub data Hrep1) as (s2 & E & Hrep2 & Hsame & Hu).
    + apply read_list_bytes_at; split; [done|apply write_list_bytes_at].
    + lia.
    + erewrite kbind_done by exact E. exists s2. split; [done|]. split; [done|]. split; [exact Hsame|].
      rewrite Hu. by apply write_list_mapped.
  - destruct q as [|x q0] eqn:Eq; [done|]. injection Hspec as <- <- <-. rewrite <- Eq in *.
    destruct (pipe_read_spec s rf wf p q room ub count 0 Hrep) as (s2 & E & Hrep2 & Hsame & Hu);
      [by rewrite Eq|lia|apply (mapped_weaken _ _ _ _ _ Hm); lia|].
    erewrite kbind_done by exact E. cbv iota. erewrite kbind_done.
    2: { apply kopt_some. rewrite Nat2Z.id, Hu. apply read_list_bytes_at; split; [done|apply write_list_bytes_at]. }
    exists s2. split; [done|]. split; [done|]. split; [exact Hsame|]. rewrite Hu. by apply write_list_mapped.
Qed.

(** C11: a pipe is a queue of bytes: any sequence of writes and reads on its two
    ends returns what the abstract queue returns, as long as no read meets an
    empty queue; the bytes come out in the order they went in, none is lost or
    duplicated, and a write takes as many bytes as there is room for (4096 in the
    lifetime of the pipe).  A read of an empty pipe releases the pipe's lock and
    suspends the caller in favour of the next task. *)
Theorem pipe_refines s rf wf p ub N q room :
  pipe_rep s rf wf p q room -> mapped (k_umem s) ub N -> N < 2 ^ 63 ->
  (forall ops res q' room', Forall (op_fits N) ops -> pipe_spec_run (q, room) ops = Some (res, (q', room')) ->
     exists s', run_pipe_ops rf wf ub ops s = Done (res, s') /\ pipe_rep s' rf wf p q' room' /\ same_but_pipe s s') /\
  (forall fuel cfs rt glob count, q = [] -> sched_ok s cfs rt glob -> sched_next cfs rt (k_current s) <> k_current s ->
     exists s', pipe_read (S fuel) rf ub count s = Done (Suspended (pipe_read_loop fuel p ub count), s') /\
       k_current s' = sched_next cfs rt (k_current s) /\ sched_ok s' (rotate cfs rt) rt glob).
Proof.
  intros Hrep Hm HN. split.
  - intros ops. revert s q room Hrep Hm. induction ops as [|op ops IH]; intros s q room Hrep Hm res q' room' Hfit Hrun.
    + injection Hrun as <- <- <-. by exists s.
    + apply Forall_cons in Hfit as [Hf Hfit]. cbn [pipe_spec_run] in Hrun.
      destruct (pipe_spec (q, room) op) as [[r1 [q1 room1]]|] eqn:E1; [|done].
      destruct (pipe_spec_run (q1, room1) ops) as [[rs [q2 room2]]|] eqn:E2; [|done]. injection Hrun as <- <- <-.
      destruct (run_pipe_op_refines s rf wf p q room ub N op r1 q1 room1 Hrep Hm HN Hf E1) as (s1 & R1 & Hrep1 & S1 & Hm1).
      destruct (IH s1 q1 room1 Hrep1 Hm1 rs q2 room2 Hfit E2) as (s2 & R2 & Hrep2 & S2).
      exists s2. cbn [run_pipe_ops]. erewrite kbind_done by exact R1. erewrite kbind_done by exact R2.
      split; [done|]. split; [done|]. by eapply same_but_pipe_trans.
  - intros fuel cfs rt glob count -> Hok Hne. by eapply pipe_read_empty.
Qed.
End PipeProperties.
