(* ===== verification/SchedInst.v ===== *)
(** * A booted kernel with two threads

    The theorems about the scheduler, [kernel_thread] and [sys_fork] applied to
    the state that [sched_init], two calls of [kernel_thread] and a call of
    [schedule] produce on the machine of [PagingInst].  The invariants are
    decidable and are established by evaluation. *)

From S2P Require Import Prelude Memory StringLib ListHead SpinLock Slab PgTable FrameAlloc PageAlloc Paging AddrSpace VirtMem PagingInst KState Sched Threads Fork Signal Ipc.

(** ** Decision procedures *)

#[global] Instance link_dec h a b : Decision (link h a b).
Proof. unfold link. apply _. Defined.
#[global] Instance chain_dec h a l b : Decision (chain h a l b).
Proof. revert a. induction l as [|x l IH]; intros a; simpl; apply _. Defined.
#[global] Instance dll_dec h head xs : Decision (dll h head xs).
Proof. unfold dll. apply _. Defined.

Section Deciders.
Context `{Layout}.

Definition sched_invb (s : kstate) (cfs rt glob : list Z) : bool :=
  bool_decide (dll (k_nodes s) cfs_queue (se_nodes cfs)) && bool_decide (dll (k_nodes s) rt_queue (rt_nodes rt)) &&
  bool_decide (dll (k_nodes s) global_tasks (task_nodes glob)) && bool_decide (NoDup (all_nodes cfs rt glob)) &&
  forallb (fun p => bool_decide (is_Some (k_tasks s !! p))) (cfs ++ rt ++ glob) &&
  forallb (fun p => negb (p =? 0)) (cfs ++ rt) &&
  (k_nr_running s =? Z.of_nat (length cfs + length rt)) && bool_decide (is_Some (k_tasks s !! k_current s)).

Lemma sched_invb_spec s cfs rt glob : sched_invb s cfs rt glob = true -> sched_inv s cfs rt glob.
Proof.
  unfold sched_invb. rewrite !andb_true_iff, !bool_decide_eq_true, !forallb_forall, Z.eqb_eq.
  intros [[[[[[[H1 H2] H3] H4] H5] H6] H7] H8]. constructor; [done|done|done|exact H4| | |done|done].
  - intros p Hp. specialize (H5 p ltac:(by apply list_elem_of_In)). by apply bool_decide_eq_true in H5.
  - intros p Hp. specialize (H6 p ltac:(by apply list_elem_of_In)). by apply negb_true_iff, Z.eqb_neq in H6.
Qed.
End Deciders.

(** ** The machine *)

#[local] Instance demo_layout : Layout := Build_Layout 16 32 48 0x1000000 0x900000 0x100100 0x100200.

Definition demo_boot : kstate :=
  mk_kstate (mk_vm demo_space (slab_boot ∅) ∅ ∅ ∅ VMALLOC_START) ∅ ∅ ∅ ∅ ∅ 0 0 0 1 0 0 [].
Definition demo_start : M kstate unit :=
  sched_init;;;
  let* _ := kernel_thread [97] 0x100300 0 SCHED_NORMAL in
  let* _ := kernel_thread [98] 0x100400 0 SCHED_NORMAL in
  schedule.
(** None of these calls changes the page tables. *)
Definition demo_kernel : kstate :=
  set_k_mm demo_space (match demo_start demo_boot with Done (_, s) => s | _ => demo_boot end).

(** The idle task and the two threads. *)
Definition task_a : Z := 0x1000000 + 17136.
Definition task_b : Z := 0x1000000 + 34464.
Definition demo_glob : list Z := [task_b; task_a; 0x1000000].

Lemma demo_kernel_ok : sched_ok demo_kernel [task_b; task_a] [] demo_glob.
Proof. split; [apply sched_invb_spec|]; vm_compute; reflexivity. Qed.

Lemma demo_slab_inv : slab_inv (k_slab demo_kernel).
Proof. by vm_compute. Qed.

Lemma demo_apart : forall x, x ∈ all_nodes [task_b; task_a] [] demo_glob ->
  x < kernel_heap_region + heap_ptr (k_slab demo_kernel) \/ kernel_heap_region + heap_ptr (k_slab demo_kernel) + sizeof_task <= x.
Proof.
  intros x Hx. left. assert (kernel_heap_region + heap_ptr (k_slab demo_kernel) = 16829008) as -> by (vm_compute; reflexivity).
  assert (forallb (fun x => x <? 16829008) (all_nodes [task_b; task_a] [] demo_glob) = true) as Hall by (vm_compute; reflexivity).
  rewrite forallb_forall in Hall. apply Z.ltb_lt, Hall. by apply list_elem_of_In.
Qed.

Lemma demo_heap_base : 0 < kernel_heap_region /\ kernel_heap_region mod 16 = 0.
Proof. by vm_compute. Qed.

(** ** Witnesses *)

Lemma schedule_picks_witness :
  exists s', schedule demo_kernel = Done (tt, s') /\ k_current s' = task_b /\ sched_ok s' [task_a; task_b] [] demo_glob.
Proof.
  destruct (schedule_picks demo_kernel [task_b; task_a] [] demo_glob demo_kernel_ok) as (s' & E & Hc & Hok & _).
  exists s'. split; [exact E|]. split; [exact Hc|exact Hok].
Defined.

Lemma schedule_round_robin_witness :
  exists picks s', run_schedules 5 demo_kernel = Done (picks, s') /\
    picks !! 3%nat = Some task_a /\ picks !! 4%nat = Some task_b.
Proof.
  destruct (schedule_round_robin 5 demo_kernel [task_b; task_a] demo_glob demo_kernel_ok) as (picks & s' & E & _ & Hp & _);
    [discriminate|].
  exists picks, s'. split; [exact E|]. split; rewrite Hp by lia; reflexivity.
Defined.

Lemma kernel_thread_creates_witness :
  exists s', kernel_thread [99] 0x100500 0 SCHED_RR demo_kernel = Done (3, s') /\
    sched_ok s' [task_b; task_a] [16829008] (16829008 :: demo_glob).
Proof.
  assert (kernel_heap_region + heap_ptr (k_slab demo_kernel) = 16829008) as Hp by (vm_compute; reflexivity).
  assert (k_next_pid demo_kernel = 3) as Hpid by (vm_compute; reflexivity).
  destruct (kernel_thread_creates demo_heap_base demo_kernel [task_b; task_a] [] demo_glob [99] 0x100500 0 SCHED_RR
    demo_kernel_ok demo_slab_inv) as [_ Hroom].
  - simpl. lia.
  - apply demo_apart.
  - vm_compute. reflexivity.
  - destruct Hroom as (s' & t & f0 & f1 & f2 & E & Hok & _); [vm_compute; discriminate|].
    rewrite Hp in Hok. rewrite Hpid in E. exists s'. split; [exact E|exact Hok].
Defined.

Lemma demo_kernel_mm : k_mm demo_kernel = demo_space.
Proof. reflexivity. Qed.

(** The first thread, which is running. *)
Definition demo_task : task_struct := default zero_task (k_tasks demo_kernel !! task_a).

Lemma demo_forkable : forkable demo_kernel demo_task Fair.
Proof.
  assert (k_current demo_kernel = task_a) as Hc by (vm_compute; reflexivity). constructor; rewrite ?Hc.
  - unfold demo_task. destruct (k_tasks demo_kernel !! task_a) eqn:E; [done|]. vm_compute in E. discriminate.
  - vm_compute. reflexivity.
  - vm_compute. reflexivity.
  - intros off Hoff. assert (forallb (fun off => bool_decide (is_Some (k_nodes demo_kernel !! (task_a + off))))
      [se_run_node_off; rt_run_node_off; tasks_off] = true) as Hall by (vm_compute; reflexivity).
    rewrite forallb_forall in Hall. apply list_elem_of_In in Hoff. exact (bool_decide_eq_true_1 _ (Hall off Hoff)).
Qed.

Definition demo_regs : registers := mk_regs 15 14 13 12 11 10 9 8 7 6 5 4 3 2 57 0x80 0 0x400010 0x1B 0x202 0x7FFFF000 0x23.

(** The child starts with 0 in rax where the parent had 57. *)
Lemma sys_fork_child_witness :
  safe False (sys_fork demo_regs) demo_kernel (fun pid s' =>
    pid = 3 /\ sched_inv s' [task_b; task_a; 16829008] [] (16829008 :: demo_glob) /\
    exists t', k_tasks s' !! 16829008 = Some t' /\ t_pid t' = 3 /\ t_kernel_stack t' !! 2040%nat = Some 0 /\
      t_kernel_stack t' !! 2043%nat = Some 0x400010).
Proof.
  assert (kernel_heap_region + heap_ptr (k_slab demo_kernel) = 16829008) as Hp by (vm_compute; reflexivity).
  assert (k_next_pid demo_kernel = 3) as Hpid by (vm_compute; reflexivity).
  assert (k_current demo_kernel = task_a) as Hc by (vm_compute; reflexivity).
  assert (clone_frames (mm_mem demo_space) 0 = 5) as Hcl by (vm_compute; reflexivity).
  destruct (sys_fork_child demo_heap_base demo_kernel [task_b; task_a] [] demo_glob demo_regs demo_task Fair demo_tables 0)
    as [_ Hroom].
  - apply demo_kernel_ok.
  - apply demo_slab_inv.
  - apply demo_forkable.
  - apply demo_apart.
  - rewrite Hp, Hc. discriminate.
  - vm_compute. reflexivity.
  - rewrite demo_kernel_mm. apply demo_tables_ok.
  - rewrite demo_kernel_mm. apply demo_leaves_ok.
  - rewrite demo_kernel_mm. reflexivity.
  - apply demo_root.
  - rewrite Hp in Hroom. eapply safe_mono; [apply Hroom; vm_compute; discriminate| |].
    + rewrite demo_kernel_mm, Hcl. intros Hstop. vm_compute in Hstop. discriminate.
    + intros pid s' (-> & _ & _ & Hinv & cr3 & t' & _ & Hch & Ht). split; [exact Hpid|]. split; [exact Hinv|].
      exists t'. destruct Hch as [[Hi _] _ _ _ _ _ _ Hregs]. rewrite Hc in Ht. split.
      * rewrite Ht, lookup_insert_ne, lookup_insert_eq by (unfold task_a; lia). reflexivity.
      * split; [exact (eq_trans Hi Hpid)|]. split; [apply (Hregs 14%nat); lia|apply (Hregs 17%nat); lia].
Defined.

(** Signal 2 for pid 1, the second task of the list. *)
Lemma sys_kill_posts_witness :
  exists s', sys_kill 10 1 2 demo_kernel = Done (0, s') /\
    k_tasks s' = <[task_a := set_t_pending_signals 4 demo_task]> (k_tasks demo_kernel).
Proof.
  pose proof (fk_task _ _ _ demo_forkable) as Ht.
  assert (k_current demo_kernel = task_a) as Hc by (vm_compute; reflexivity). rewrite Hc in Ht.
  destruct (sys_kill_posts demo_kernel [task_b; task_a] [] demo_glob 10 1 2 demo_kernel_ok) as (_ & _ & Hpost).
  - intros p Hp. unfold demo_glob in Hp. split_mem; discriminate.
  - simpl. lia.
  - destruct (Hpost [task_b] task_a [0x1000000] demo_task) as [Hrun _].
    + lia.
    + reflexivity.
    + intros q u ->%list_elem_of_singleton Hu. assert (pid_is demo_kernel 2 task_b = true) as Hb by (vm_compute; reflexivity).
      unfold pid_is in Hb. rewrite Hu in Hb. apply Z.eqb_eq in Hb. rewrite Hb. discriminate.
    + exact Ht.
    + vm_compute. reflexivity.
    + eexists. split; [apply Hrun; vm_compute; discriminate|]. cbn [k_tasks set_k_tasks].
      assert (Z.lor (t_pending_signals demo_task) (bit 2) = 4) as -> by (vm_compute; reflexivity). reflexivity.
Defined.

(** The running thread has signals 3, 9 and 17 pending: 3 is dropped, 9 kills it
    and 17 stays. *)
Definition demo_signalled : task_struct := set_t_pending_signals (bit 3 + bit 9 + bit 17) demo_task.
Definition demo_kill_state : kstate := set_k_tasks (<[task_a := demo_signalled]> (k_tasks demo_kernel)) demo_kernel.

Lemma demo_kill_ok : sched_ok demo_kill_state [task_b; task_a] [] demo_glob.
Proof. split; [apply sched_invb_spec|]; vm_compute; reflexivity. Qed.

Lemma deliver_signals_acts_witness :
  exists k s' t', deliver_signals demo_regs demo_kill_state = Done (Suspended k, s') /\ k_current s' = task_b /\
    k_tasks s' !! task_a = Some t' /\ t_state t' = TASK_ZOMBIE /\ t_pending_signals t' = bit 17.
Proof.
  assert (k_current demo_kill_state = task_a) as Hc by (vm_compute; reflexivity).
  destruct (deliver_signals_acts demo_kill_state demo_signalled demo_regs [task_b; task_a] [] demo_glob) as [_ Hact].
  - rewrite Hc. apply lookup_insert_eq.
  - vm_compute. split; [discriminate|reflexivity].
  - vm_compute. reflexivity.
  - destruct (Hact 9 0) as [_ Hkill].
    + lia.
    + split; [vm_compute; reflexivity|by left].
    + clear Hc. intros j Hj [Hb Hw]. assert (j = 1 \/ j = 2 \/ j = 3 \/ j = 4 \/ j = 5 \/ j = 6 \/ j = 7 \/ j = 8)
        as [->|[->|[->|[->|[->|[->|[->| ->]]]]]]] by lia; try (vm_compute in Hb; discriminate Hb).
      destruct Hw as [Hw|[Hw|[Hw|Hw]]]; [discriminate..|]. apply Hw. vm_compute. reflexivity.
    + vm_compute. reflexivity.
    + rewrite Hc in Hkill. destruct Hkill as (s' & _ & E2 & E3); [by left|apply demo_kill_ok|].
      destruct (decide _) as [?|_] in E3; [discriminate|]. destruct E3 as (E4 & k & E1).
      exists k, s', (set_t_state TASK_ZOMBIE (with_cleared 9 demo_signalled)). split; [exact E1|]. split; [exact E2|].
      split; [rewrite E4; apply lookup_insert_eq|]. split; vm_compute; reflexivity.
Defined.

(** ** A pipe *)

Definition demo_umem : mem := write_list ∅ 900 (replicate 64 0).
Definition demo_pipe_state : kstate :=
  set_k_umem demo_umem
    (set_k_pipes {[ 5000 := mk_pipe (replicate 4096 0) 0 0 0 ]}
      (set_k_files {[ 6000 := mk_file 0 7000 0; 6024 := mk_file 0 7032 0 ]}
        (set_k_inodes {[ 7000 := mk_inode 0 0 0 5000 (Some PipeReadFops); 7032 := mk_inode 0 0 0 5000 (Some PipeWriteFops) ]}
          demo_kernel))).

Lemma demo_pipe_rep : pipe_rep demo_pipe_state 6000 6024 5000 [] 4096.
Proof.
  constructor.
  - exists (mk_file 0 7000 0), (mk_inode 0 0 0 5000 (Some PipeReadFops)). split; [|split]; vm_compute; reflexivity.
  - exists (mk_file 0 7032 0), (mk_inode 0 0 0 5000 (Some PipeWriteFops)). split; [|split]; vm_compute; reflexivity.
  - exists (replicate 4096 0), 0, 0. split; [vm_compute; reflexivity|]. split; [apply length_replicate|].
    split; [lia|]. split; [lia|]. split; [reflexivity|lia].
Qed.

(** Two writes, then a read that spans both and stops before the end. *)
Lemma pipe_refines_witness :
  exists s', run_pipe_ops 6000 6024 900 [PWrite [1; 2; 3]; PWrite [4; 5]; PRead 4] demo_pipe_state =
      Done ([Wrote 3; Wrote 2; Got [1; 2; 3; 4]], s') /\ pipe_rep s' 6000 6024 5000 [5] 4091.
Proof.
  destruct (pipe_refines demo_pipe_state 6000 6024 5000 900 64 [] 4096 demo_pipe_rep) as [Hops _].
  - apply mapped_read; [lia|]. vm_compute. reflexivity.
  - lia.
  - destruct (Hops [PWrite [1; 2; 3]; PWrite [4; 5]; PRead 4] [Wrote 3; Wrote 2; Got [1; 2; 3; 4]] [5] 4091)
      as (s' & E & Hrep & _).
    + repeat constructor; simpl; lia.
    + vm_compute. reflexivity.
    + exists s'. split; [exact E|exact Hrep].
Defined.
