(* ===== verification/Ports.v ===== *)
(** * arch/io.h: port input and output

    The devices behind the ports are the environment: [port_in] holds, for each
    port, the values the next reads return, and [port_out] records the writes,
    latest first.  A port with no more values reads as all ones, as an
    unconnected bus does. *)

From S2P Require Import Prelude.

Record ports := mk_ports { port_in : gmap Z (list Z); port_out : list (Z * Z) }.

Definition port_read (w : Z) (port : Z) : M ports Z :=
  fun s =>
    match port_in s !! port with
    | Some (v :: l) => Done (wrap w v, mk_ports (<[port := l]> (port_in s)) (port_out s))
    | _ => Done (Z.ones w, s)
    end.
Definition port_write (w : Z) (port v : Z) : M ports unit :=
  kmod (fun s => mk_ports (port_in s) ((port, wrap w v) :: port_out s)).

Definition inb : Z -> M ports Z := port_read 8.
Definition inw : Z -> M ports Z := port_read 16.
Definition inl : Z -> M ports Z := port_read 32.
Definition outb : Z -> Z -> M ports unit := port_write 8.
Definition outw : Z -> Z -> M ports unit := port_write 16.
Definition outl : Z -> Z -> M ports unit := port_write 32.

(** The bytes written to one port, in order. *)
Definition sent_to (port : Z) (s : ports) : list Z :=
  rev (snd <$> filter (fun x => x.1 = port) (port_out s)).

(** ** Lemmas *)

Lemma outb_done s port v : outb port v s = Done (tt, mk_ports (port_in s) ((port, u8 v) :: port_out s)).
Proof. reflexivity. Qed.

Lemma inb_range s port : exists v s', inb port s = Done (v, s') /\ 0 <= v < 256 /\ port_out s' = port_out s.
Proof.
  unfold inb, port_read. destruct (port_in s !! port) as [[|v l]|].
  - by exists 255, s.
  - eexists _, _. split; [reflexivity|]. split; [|done]. apply (wrap_range 8 v). lia.
  - by exists 255, s.
Qed.

Lemma sent_to_cons port p v i o :
  sent_to port (mk_ports i ((p, v) :: o)) = sent_to port (mk_ports i o) ++ (if decide (p = port) then [v] else []).
Proof.
  unfold sent_to. cbn [port_out]. rewrite filter_cons. cbn [fst].
  destruct (decide (p = port)); simpl; [done|by rewrite app_nil_r].
Qed.

Lemma sent_to_out port s s' : port_out s' = port_out s -> sent_to port s' = sent_to port s.
Proof. unfold sent_to. by intros ->. Qed.
