(* ===== verification/Console.v ===== *)
(** * The console: kernel/drivers/vga.c, kernel/drivers/serial.c,
    kernel/printk/printk.c and kernel/kprintf.c

    Video memory is the array of 80 x 25 character cells at 0xB8000; a store
    outside it faults.  [fbterm_active] always answers 0, so the branches it
    guards are never taken; they are part of the definitions all the same. *)

From S2P Require Import Prelude SpinLock Ports.

Definition VGA_WIDTH : Z := 80.
Definition VGA_HEIGHT : Z := 25.
Definition COM1 : Z := 0x3F8.

(** vga.h: [vga_color_t] *)
Definition VGA_COLOR_BLACK : Z := 0.
Definition VGA_COLOR_LIGHT_GREEN : Z := 10.
Definition VGA_COLOR_WHITE : Z := 15.

Record console := mk_console {
  c_ports : ports;
  c_vga : list Z;                 (* uint16_t cells *)
  c_row : Z;                      (* size_t *)
  c_col : Z;                      (* size_t *)
  c_color : Z;                    (* uint8_t *)
  c_lock : Z                      (* console_lock *)
}.
Definition set_c_ports (x : ports) (s : console) : console := mk_console x (c_vga s) (c_row s) (c_col s) (c_color s) (c_lock s).
Definition set_c_vga (x : list Z) (s : console) : console := mk_console (c_ports s) x (c_row s) (c_col s) (c_color s) (c_lock s).
Definition set_c_row (x : Z) (s : console) : console := mk_console (c_ports s) (c_vga s) x (c_col s) (c_color s) (c_lock s).
Definition set_c_col (x : Z) (s : console) : console := mk_console (c_ports s) (c_vga s) (c_row s) x (c_color s) (c_lock s).
Definition set_c_color (x : Z) (s : console) : console := mk_console (c_ports s) (c_vga s) (c_row s) (c_col s) x (c_lock s).
Definition set_c_lock (x : Z) (s : console) : console := mk_console (c_ports s) (c_vga s) (c_row s) (c_col s) (c_color s) x.

Definition on_ports {B} (m : M ports B) : M console B := zoom c_ports set_c_ports m.

(** ** vga.c *)

Definition mkcolor (fg bg : Z) : Z := u8 (Z.lor fg (Z.shiftl bg 4)).
Definition mkentry (c col : Z) : Z := u16 (Z.lor (u8 c) (Z.shiftl col 8)).

Definition vga_load (i : Z) : M console Z :=
  kopt (fun s => if 0 <=? i then c_vga s !! Z.to_nat i else None).
Definition vga_store (i v : Z) : M console unit :=
  kupd (fun s =>
    if (0 <=? i) && (i <? Z.of_nat (length (c_vga s))) then Some (set_c_vga (<[Z.to_nat i := v]> (c_vga s)) s) else None).

Definition update_cursor : M console unit :=
  let* row := kgets c_row in
  let* col := kgets c_col in
  let pos := u16 (row * VGA_WIDTH + col) in
  on_ports (outb 0x3D4 0x0F);;; on_ports (outb 0x3D5 (u8 (Z.land pos 0xFF)));;;
  on_ports (outb 0x3D4 0x0E);;; on_ports (outb 0x3D5 (u8 (Z.land (Z.shiftr pos 8) 0xFF))).

Definition fbterm_active : M console Z := kret 0.
Definition fbterm_clear : M console unit := kret tt.
Definition fbterm_setcolor (fg bg : Z) : M console unit := kret tt.
Definition fbterm_putchar (c : Z) : M console unit := kret tt.

Definition terminal_clear : M console unit :=
  let* fb := fbterm_active in
  if istrue fb then fbterm_clear else
  kfor (seqZ 0 VGA_HEIGHT) (fun y =>
    kfor (seqZ 0 VGA_WIDTH) (fun x =>
      let* color := kgets c_color in
      vga_store (y * VGA_WIDTH + x) (mkentry 32 color)));;;
  kmod (set_c_row 0);;; kmod (set_c_col 0);;;
  update_cursor.

Definition terminal_init : M console unit :=
  kmod (set_c_row 0);;; kmod (set_c_col 0);;;
  kmod (set_c_color (mkcolor VGA_COLOR_WHITE VGA_COLOR_BLACK));;;
  terminal_clear.

Definition vga_rgb : list Z :=
  [0x0E0E12; 0x185AB4; 0x10A020; 0x10A0A0; 0xC02020; 0xA020A0; 0xA05010; 0xD0D0D0;
   0x505060; 0x4A9EFF; 0x40C070; 0x40C0C0; 0xFF4A4A; 0xFF40FF; 0xFFB030; 0xF0F0F0].
Definition terminal_setcolor (fg bg : Z) : M console unit :=
  let* fb := fbterm_active in
  if istrue fb then
    match vga_rgb !! Z.to_nat (Z.land fg 0xF), vga_rgb !! Z.to_nat (Z.land bg 0xF) with
    | Some f, Some b => fbterm_setcolor f b
    | _, _ => kfault
    end
  else kmod (set_c_color (mkcolor fg bg)).

Definition vga_scroll : M console unit :=
  kfor (seqZ 0 (VGA_HEIGHT - 1)) (fun y =>
    kfor (seqZ 0 VGA_WIDTH) (fun x =>
      let* v := vga_load ((y + 1) * VGA_WIDTH + x) in
      vga_store (y * VGA_WIDTH + x) v));;;
  kfor (seqZ 0 VGA_WIDTH) (fun x =>
    let* color := kgets c_color in
    vga_store ((VGA_HEIGHT - 1) * VGA_WIDTH + x) (mkentry 32 color));;;
  kmod (set_c_row (VGA_HEIGHT - 1)).

(** [if (++row == VGA_HEIGHT) vga_scroll();] *)
Definition next_row : M console unit :=
  let* row := kgets c_row in
  kmod (set_c_row (u64 (row + 1)));;;
  if u64 (row + 1) =? VGA_HEIGHT then vga_scroll else kret tt.

Definition terminal_putchar (c : Z) : M console unit :=
  let* fb := fbterm_active in
  if istrue fb then fbterm_putchar c else
  (if c =? 10 then
     kmod (set_c_col 0);;; next_row
   else if c =? 13 then
     kmod (set_c_col 0)
   else if c =? 9 then
     let* col := kgets c_col in
     let col := Z.land (u64 (col + 8)) (cnot 32 7) in
     kmod (set_c_col col);;;
     if col >=? VGA_WIDTH then kmod (set_c_col 0);;; next_row else kret tt
   else if c =? 8 then
     let* col := kgets c_col in
     if col >? 0 then
       kmod (set_c_col (col - 1));;;
       let* row := kgets c_row in
       let* color := kgets c_color in
       vga_store (row * VGA_WIDTH + (col - 1)) (mkentry 32 color)
     else kret tt
   else
     let* row := kgets c_row in
     let* col := kgets c_col in
     let* color := kgets c_color in
     vga_store (row * VGA_WIDTH + col) (mkentry c color);;;
     kmod (set_c_col (u64 (col + 1)));;;
     if u64 (col + 1) =? VGA_WIDTH then kmod (set_c_col 0);;; next_row else kret tt);;;
  update_cursor.

Definition terminal_write (str : list Z) : M console unit := kfor str terminal_putchar.
Definition terminal_writeline (str : list Z) : M console unit := terminal_write str;;; terminal_putchar 10.

(** ** serial.c *)

Definition serial_init : M console unit :=
  on_ports (outb (COM1 + 1) 0x00);;; on_ports (outb (COM1 + 3) 0x80);;; on_ports (outb (COM1 + 0) 0x03);;;
  on_ports (outb (COM1 + 1) 0x00);;; on_ports (outb (COM1 + 3) 0x03);;; on_ports (outb (COM1 + 2) 0xC7);;;
  on_ports (outb (COM1 + 4) 0x0B).
(** The fuel bounds the number of status reads before the transmitter is free. *)
Fixpoint serial_wait (fuel : nat) : M console unit :=
  match fuel with
  | O => kspin
  | S f =>
      let* st := on_ports (inb (COM1 + 5)) in
      if istrue (Z.land st 0x20) then kret tt else serial_wait f
  end.
Definition serial_putchar (fuel : nat) (c : Z) : M console unit :=
  serial_wait fuel;;; on_ports (outb COM1 (u8 c)).
Definition serial_write (fuel : nat) (str : list Z) : M console unit := kfor str (serial_putchar fuel).

(** ** printk.c *)

Definition console_init : M console unit := serial_init;;; terminal_init.

Definition print_char (c : Z) : M console unit :=
  terminal_putchar c;;; on_ports (outb 0x3F8 c).
Definition print_string (str : list Z) : M console unit := kfor str print_char.

(** The loop that fills [buf], 16 characters, least significant digit first; the
    result is the order in which they are printed.  [None]: the buffer is full. *)
Fixpoint fill_digits (room : nat) (digit : Z -> Z) (base n : Z) (acc : list Z) : option (list Z) :=
  if n >? 0 then
    match room with
    | O => None
    | S r => fill_digits r digit base (n / base) (digit (n mod base) :: acc)
    end
  else Some acc.
Definition dec_digit (d : Z) : Z := d + 48.
Definition hex_digit (d : Z) : Z := if d <? 10 then d + 48 else d - 10 + 97.

Definition print_digits (ds : option (list Z)) : M console unit :=
  match ds with Some l => kfor l print_char | None => kfault end.

(** [n = -n] on a 32-bit [int]. *)
Definition print_int (n : Z) : M console unit :=
  if n =? 0 then print_char 48 else
  if n <? 0 then
    print_char 45;;;
    print_digits (fill_digits 16 dec_digit 10 (i32 (- n)) [])
  else print_digits (fill_digits 16 dec_digit 10 n []).

Definition print_hex (n : Z) : M console unit :=
  if n =? 0 then print_string [48; 120; 48] else
  print_string [48; 120];;;
  print_digits (fill_digits 16 hex_digit 16 n []).

(** The variable arguments: integers and strings.  A directive that finds no
    argument of its kind reads something undefined. *)
Inductive karg := AInt (n : Z) | AStr (str : list Z).

(** The loop over the format.  [fmt] is the memory the format points to: the loop
    ends at a NUL, except at one that follows a per cent sign, which is printed
    like any other unknown directive; reading past the given memory is undefined. *)
Fixpoint printk_loop (fmt : list Z) (args : list karg) : M console unit :=
  match fmt with
  | [] => kfault
  | c :: rest =>
      if c =? 0 then kret tt
      else if c =? 37 then
        match rest with
        | [] => kfault
        | d :: rest' =>
            if d =? 100 then match args with AInt n :: a => print_int (i32 n);;; printk_loop rest' a | _ => kfault end
            else if d =? 115 then match args with AStr str :: a => print_string str;;; printk_loop rest' a | _ => kfault end
            else if d =? 120 then match args with AInt n :: a => print_hex (u32 n);;; printk_loop rest' a | _ => kfault end
            else if d =? 99 then match args with AInt n :: a => print_char (u8 n);;; printk_loop rest' a | _ => kfault end
            else if d =? 37 then print_char 37;;; printk_loop rest' args
            else print_char 37;;; print_char d;;; printk_loop rest' args
        end
      else print_char c;;; printk_loop rest args
  end.

(** "[RELIS] " *)
Definition printk_prefix : list Z := [91; 82; 69; 76; 73; 83; 93; 32].

Definition printk (fmt : list Z) (args : list karg) : M console unit :=
  spin_lock c_lock set_c_lock;;;
  terminal_setcolor VGA_COLOR_LIGHT_GREEN VGA_COLOR_BLACK;;;
  print_string printk_prefix;;;
  terminal_setcolor VGA_COLOR_WHITE VGA_COLOR_BLACK;;;
  printk_loop fmt args;;;
  print_char 10;;;
  spin_unlock set_c_lock.

(** ** kprintf.c: the arguments are dropped *)
Definition kprintf (fmt : list Z) (args : list karg) : M console unit := printk fmt [].

(** ** The terminal as a screen with a cursor *)

Record screen := mk_screen { cells : list Z; cur_row : Z; cur_col : Z; attr : Z }.
Definition view (s : console) : screen := mk_screen (c_vga s) (c_row s) (c_col s) (c_color s).

Definition blank (a : Z) : Z := mkentry 32 a.
Definition put_cell (y x v : Z) (t : screen) : screen :=
  mk_screen (<[Z.to_nat (y * 80 + x) := v]> (cells t)) (cur_row t) (cur_col t) (attr t).
Definition move_to (y x : Z) (t : screen) : screen := mk_screen (cells t) y x (attr t).
(** To the start of the next line; on the last line the screen moves up by one. *)
Definition new_line (t : screen) : screen :=
  if cur_row t =? 24 then mk_screen (drop 80 (cells t) ++ replicate 80 (blank (attr t))) 24 0 (attr t)
  else move_to (cur_row t + 1) 0 t.

Definition show_char (c : Z) (t : screen) : screen :=
  let y := cur_row t in
  let x := cur_col t in
  if c =? 10 then new_line t
  else if c =? 13 then move_to y 0 t
  else if c =? 9 then
    let x' := (x / 8 + 1) * 8 in if x' <? 80 then move_to y x' t else new_line t
  else if c =? 8 then
    if x =? 0 then t else put_cell y (x - 1) (blank (attr t)) (move_to y (x - 1) t)
  else
    let t' := put_cell y x (mkentry c (attr t)) t in
    if x =? 79 then new_line t' else move_to y (x + 1) t'.

Record screen_ok (t : screen) : Prop := {
  so_cells : length (cells t) = 2000%nat;
  so_row : 0 <= cur_row t < 25;
  so_col : 0 <= cur_col t < 80
}.

Lemma new_line_ok t : screen_ok t -> screen_ok (new_line t).
Proof.
  intros [Hc Hr Hl]. unfold new_line. destruct (Z.eqb_spec (cur_row t) 24); constructor; cbn [cells cur_row cur_col attr move_to put_cell]; try lia.
  rewrite length_app, length_drop, length_replicate. lia.
Qed.

Lemma show_char_ok c t : screen_ok t -> screen_ok (show_char c t).
Proof.
  intros Hok. pose proof Hok as [Hc Hr Hl]. unfold show_char.
  destruct (c =? 10); [by apply new_line_ok|]. destruct (c =? 13); [constructor; cbn [cells cur_row cur_col attr move_to put_cell]; lia|].
  destruct (c =? 9).
  { cbv zeta. destruct (Z.ltb_spec ((cur_col t / 8 + 1) * 8) 80); [|by apply new_line_ok].
    constructor; cbn [cells cur_row cur_col attr move_to put_cell]; try lia. assert (0 <= cur_col t / 8) by (apply Z.div_pos; lia). lia. }
  destruct (c =? 8).
  { destruct (Z.eqb_spec (cur_col t) 0); [done|]. constructor; cbn [cells cur_row cur_col attr move_to put_cell]; rewrite ?length_insert; lia. }
  cbv zeta. destruct (Z.eqb_spec (cur_col t) 79).
  - apply new_line_ok. constructor; cbn [cells cur_row cur_col attr move_to put_cell]; rewrite ?length_insert; lia.
  - constructor; cbn [cells cur_row cur_col attr move_to put_cell]; rewrite ?length_insert; lia.
Qed.

(** ** The operations on the state *)

Lemma vga_store_done s i v :
  0 <= i < Z.of_nat (length (c_vga s)) -> vga_store i v s = Done (tt, set_c_vga (<[Z.to_nat i := v]> (c_vga s)) s).
Proof.
  intros Hi. apply kupd_some.
  by rewrite (proj2 (Z.leb_le 0 i)), (proj2 (Z.ltb_lt i _)) by lia.
Qed.

Lemma vga_load_done s i v : 0 <= i -> c_vga s !! Z.to_nat i = Some v -> vga_load i s = Done (v, s).
Proof. intros Hi Hv. apply kopt_some. by rewrite (proj2 (Z.leb_le 0 i)). Qed.

(** A nested loop over rows and columns, seen as one loop over the cells. *)
Lemma safe_grid (f : Z -> Z -> M console unit) (I : Z -> console -> Prop) (h w : nat) s :
  I 0 s ->
  (forall y x s1, 0 <= y < Z.of_nat h -> 0 <= x < Z.of_nat w -> I (y * Z.of_nat w + x) s1 ->
     safe False (f y x) s1 (fun _ s2 => I (y * Z.of_nat w + x + 1) s2)) ->
  safe False (kfor (seqZ 0 (Z.of_nat h)) (fun y => kfor (seqZ 0 (Z.of_nat w)) (fun x => f y x))) s
    (fun _ s' => I (Z.of_nat h * Z.of_nat w) s').
Proof.
  intros H0 Hstep. eapply safe_mono.
  - apply (safe_for_seqZ False _ (fun y s => I (y * Z.of_nat w) s) h 0 s); [exact H0|].
    intros y s1 Hy Hs1. eapply safe_mono.
    + apply (safe_for_seqZ False _ (fun x s => I (y * Z.of_nat w + x) s) w 0 s1); [by rewrite Z.add_0_r|].
      intros x s2 Hx Hs2. rewrite Z.add_assoc. apply Hstep; [lia|lia|done].
    + done.
    + intros [] s2 Hs2. cbv beta in *. replace ((y + 1) * Z.of_nat w) with (y * Z.of_nat w + (0 + Z.of_nat w)) by lia. exact Hs2.
  - done.
  - intros [] s' Hs'. exact Hs'.
Qed.

(** Video memory with the cells below [i] given by [f], the others as in [s]. *)
Definition filled (s : console) (f : nat -> option Z) (i : Z) (s1 : console) : Prop :=
  exists v, s1 = set_c_vga v s /\ length v = length (c_vga s) /\
    forall j, v !! j = if decide (Z.of_nat j < i) then f j else c_vga s !! j.

Lemma filled_0 s f : filled s f 0 s.
Proof. exists (c_vga s). split; [by destruct s|]. split; [done|]. intros j. by rewrite decide_False by lia. Qed.

(** Storing the right value in the next cell. *)
Lemma filled_store s f i k v s1 :
  filled s f i s1 -> k = i -> 0 <= i < Z.of_nat (length (c_vga s)) -> f (Z.to_nat i) = Some v ->
  safe False (vga_store k v) s1 (fun _ s2 => filled s f (i + 1) s2).
Proof.
  intros (vs & -> & Hl & Hj) -> Hi Hf. eapply safe_done; [apply vga_store_done; cbn [c_vga set_c_vga]; lia|].
  exists (<[Z.to_nat i := v]> vs). split; [done|]. split; [by rewrite length_insert|]. intros j.
  destruct (decide (j = Z.to_nat i)) as [-> |Hne].
  - rewrite list_lookup_insert_eq by lia. by rewrite decide_True by lia.
  - rewrite list_lookup_insert_ne, Hj by lia. destruct (decide (Z.of_nat j < i)), (decide (Z.of_nat j < i + 1)); try lia; done.
Qed.

(** [vga_scroll] moves every line up and blanks the last one. *)
Lemma vga_scroll_done s :
  length (c_vga s) = 2000%nat ->
  vga_scroll s = Done (tt, set_c_row 24 (set_c_vga (drop 80 (c_vga s) ++ replicate 80 (blank (c_color s))) s)).
Proof.
  intros Hl. unfold vga_scroll. change (VGA_HEIGHT - 1) with (Z.of_nat 24). change VGA_WIDTH with (Z.of_nat 80).
  destruct (safe_inv _ _ _ (safe_grid (fun y x => let* v := vga_load ((y + 1) * Z.of_nat 80 + x) in vga_store (y * Z.of_nat 80 + x) v)
    (filled s (fun j => c_vga s !! (j + 80)%nat)) 24 80 s (filled_0 _ _)
    ltac:(intros y x s1 Hy Hx Hs1; pose proof Hs1 as (v & -> & Hlv & Hj);
      (destruct (lookup_lt_is_Some_2 (c_vga s) (Z.to_nat ((y + 1) * Z.of_nat 80 + x))) as [a Ha]; [lia|]);
      (eapply safe_step; [apply vga_load_done; [lia|]; cbn [c_vga set_c_vga]; rewrite Hj, decide_False by lia; exact Ha|]);
      apply filled_store; [done|done|lia|rewrite <- Ha; f_equal; lia])))
    as ([] & s1 & E & v & -> & Hv & Hj).
  erewrite kbind_done by exact E.
  set (s1 := set_c_vga v s) in *.
  destruct (safe_inv _ _ _ (safe_for_seqZ False (fun x => let* color := kgets c_color in
      vga_store (Z.of_nat 24 * Z.of_nat 80 + x) (mkentry 32 color))
    (fun x => filled s1 (fun j => if decide (Z.of_nat j < 1920) then v !! j else Some (blank (c_color s))) (1920 + x)) 80 0 s1
    ltac:(exists v; split; [done|]; split; [done|]; intros j; case_decide; [by rewrite decide_True by lia|done])
    ltac:(intros x s2 Hx Hs2; pose proof Hs2 as (v2 & -> & _); eapply safe_step; [done|];
      rewrite Z.add_assoc; apply filled_store; [done|lia|cbn [c_vga set_c_vga s1]; lia|by rewrite decide_False by lia])))
    as ([] & s2 & E2 & v2 & -> & Hv2 & Hj2).
  erewrite kbind_done by exact E2.
  assert (v2 = drop 80 (c_vga s) ++ replicate 80 (blank (c_color s))) as ->; [|done].
  apply list_eq. intros j. rewrite Hj2. change (c_vga s1) with v. destruct (decide (Z.of_nat j < 1920)).
  - rewrite decide_True by lia. rewrite Hj, decide_True by lia. rewrite lookup_app_l by (rewrite length_drop; lia).
    rewrite lookup_drop. f_equal. lia.
  - rewrite lookup_app_r by (rewrite length_drop; lia). rewrite length_drop, Hl. destruct (decide (Z.of_nat j < 2000)).
    + rewrite decide_True by lia. symmetry. apply lookup_replicate. split; [done|lia].
    + rewrite decide_False by lia. rewrite !lookup_ge_None_2 by (rewrite ?length_replicate; lia). done.
Qed.

Lemma on_ports_done {B} (m : M ports B) s b p : m (c_ports s) = Done (b, p) -> on_ports m s = Done (b, set_c_ports p s).
Proof. apply zoom_done. Qed.

(** The cursor registers get the low and the high byte of the position. *)
Definition cursor_writes (pos : Z) : list (Z * Z) :=
  [(0x3D5, pos / 256); (0x3D4, 0x0E); (0x3D5, pos mod 256); (0x3D4, 0x0F)].

Lemma update_cursor_done s :
  screen_ok (view s) ->
  update_cursor s = Done (tt, set_c_ports (mk_ports (port_in (c_ports s))
    (cursor_writes (c_row s * 80 + c_col s) ++ port_out (c_ports s))) s).
Proof.
  intros [_ Hr Hc]. cbn [view cur_row cur_col] in *. unfold update_cursor.
  do 2 erewrite kbind_done by done. do 3 erewrite kbind_done by (apply on_ports_done, outb_done).
  erewrite on_ports_done by apply outb_done. do 2 f_equal.
  unfold VGA_WIDTH. assert (0 <= c_row s * 80 + c_col s < 2000) as Hp by lia.
  rewrite (wrap_small 16) by lia. set (pos := c_row s * 80 + c_col s) in *.
  change 0xFF with (Z.ones 8). rewrite !Z.land_ones, Z.shiftr_div_pow2 by lia. change (2 ^ 8) with 256.
  assert (0 <= pos mod 256 < 256) by (apply Z.mod_pos_bound; lia).
  assert (0 <= pos / 256 < 8) by (split; [apply Z.div_pos|apply Z.div_lt_upper_bound]; lia).
  rewrite (Z.mod_small (pos / 256) 256) by lia. rewrite !(wrap_idem 8), !(wrap_small 8 (pos mod 256)), !(wrap_small 8 (pos / 256)) by lia. done.
Qed.

(** What a terminal operation leaves alone. *)
Definition quiet (s s' : console) : Prop := c_ports s' = c_ports s /\ c_lock s' = c_lock s.

Lemma next_row_done s :
  length (c_vga s) = 2000%nat -> 0 <= c_row s < 25 -> c_col s = 0 ->
  exists s', next_row s = Done (tt, s') /\ view s' = new_line (view s) /\ quiet s s'.
Proof.
  intros Hl Hr Hc. unfold next_row. erewrite kbind_done by done. erewrite kbind_done by done.
  rewrite wrap_small by lia. unfold new_line, VGA_HEIGHT. cbn [view cur_row attr cells].
  destruct (Z.eqb_spec (c_row s + 1) 25), (Z.eqb_spec (c_row s) 24); try lia.
  - rewrite vga_scroll_done by done. eexists. split; [reflexivity|]. split; [|done]. unfold view. cbn. by rewrite Hc.
  - eexists. split; [reflexivity|]. split; [|done]. unfold view, move_to. cbn. by rewrite Hc.
Qed.

Lemma tab_stop col : 0 <= col < 80 -> Z.land (u64 (col + 8)) (cnot 32 7) = (col / 8 + 1) * 8.
Proof.
  intros Hc. assert (forallb (fun col => Z.land (u64 (col + 8)) (cnot 32 7) =? (col / 8 + 1) * 8) (seqZ 0 80) = true) as Hall
    by (vm_compute; reflexivity).
  apply Z.eqb_eq. by apply (forallb_seqZ _ _ _ Hall).
Qed.

(** The character without the cursor update. *)
Definition put_body (c : Z) : M console unit :=
  if c =? 10 then kmod (set_c_col 0);;; next_row
  else if c =? 13 then kmod (set_c_col 0)
  else if c =? 9 then
    let* col := kgets c_col in
    let col := Z.land (u64 (col + 8)) (cnot 32 7) in
    kmod (set_c_col col);;;
    if col >=? VGA_WIDTH then kmod (set_c_col 0);;; next_row else kret tt
  else if c =? 8 then
    let* col := kgets c_col in
    if col >? 0 then
      kmod (set_c_col (col - 1));;;
      let* row := kgets c_row in
      let* color := kgets c_color in
      vga_store (row * VGA_WIDTH + (col - 1)) (mkentry 32 color)
    else kret tt
  else
    let* row := kgets c_row in
    let* col := kgets c_col in
    let* color := kgets c_color in
    vga_store (row * VGA_WIDTH + col) (mkentry c color);;;
    kmod (set_c_col (u64 (col + 1)));;;
    if u64 (col + 1) =? VGA_WIDTH then kmod (set_c_col 0);;; next_row else kret tt.

Lemma put_body_done c s :
  screen_ok (view s) -> exists s', put_body c s = Done (tt, s') /\ view s' = show_char c (view s) /\ quiet s s'.
Proof.
  intros [Hl Hr Hc]. cbn [view cells cur_row cur_col] in *. unfold put_body, show_char, VGA_WIDTH. cbn [view cur_row cur_col attr].
  destruct (c =? 10).
  { erewrite kbind_done by done. destruct (next_row_done (set_c_col 0 s)) as (s' & E & Hv & Hq); [done|done|done|].
    exists s'. split; [done|]. split; [|done]. rewrite Hv. unfold new_line. cbn. by destruct (c_row s =? 24). }
  destruct (c =? 13); [eexists; by split|]. destruct (c =? 9).
  { erewrite kbind_done by done. rewrite tab_stop by done. erewrite kbind_done by done. rewrite Z.geb_leb.
    destruct (Z.leb_spec 80 ((c_col s / 8 + 1) * 8)), (Z.ltb_spec ((c_col s / 8 + 1) * 8) 80); try lia.
    - erewrite kbind_done by done. destruct (next_row_done (set_c_col 0 (set_c_col ((c_col s / 8 + 1) * 8) s))) as (s' & E & Hv & Hq); [done|done|done|].
      exists s'. split; [done|]. split; [|done]. rewrite Hv. unfold new_line. cbn. by destruct (c_row s =? 24).
    - eexists. by split. }
  destruct (c =? 8).
  { erewrite kbind_done by done. rewrite Z.gtb_ltb. destruct (Z.ltb_spec 0 (c_col s)), (Z.eqb_spec (c_col s) 0); try lia.
    - do 3 erewrite kbind_done by done. rewrite vga_store_done by (cbn [c_vga c_row set_c_col]; lia). eexists. by split.
    - eexists. by split. }
  do 3 erewrite kbind_done by done. erewrite kbind_done by (apply vga_store_done; lia). erewrite kbind_done by done.
  rewrite wrap_small by lia. destruct (Z.eqb_spec (c_col s + 1) 80), (Z.eqb_spec (c_col s) 79); try lia.
  - erewrite kbind_done by done. set (s1 := set_c_col 0 _).
    destruct (next_row_done s1) as (s' & E & Hv & Hq); [cbn; by rewrite length_insert|done|done|].
    exists s'. split; [done|]. split; [|done]. rewrite Hv. unfold new_line. cbn. by destruct (c_row s =? 24).
  - eexists. by split.
Qed.

Lemma terminal_putchar_spec c s :
  screen_ok (view s) ->
  exists s', terminal_putchar c s = Done (tt, s') /\ view s' = show_char c (view s) /\ c_lock s' = c_lock s /\
    c_ports s' = mk_ports (port_in (c_ports s)) (cursor_writes (c_row s' * 80 + c_col s') ++ port_out (c_ports s)).
Proof.
  intros Hok. destruct (put_body_done c s Hok) as (s1 & E & Hv & Hp & Hl).
  pose proof (show_char_ok c _ Hok) as Hok1. rewrite <- Hv in Hok1.
  exists (set_c_ports (mk_ports (port_in (c_ports s1)) (cursor_writes (c_row s1 * 80 + c_col s1) ++ port_out (c_ports s1))) s1).
  split; [|split; [exact Hv|split; [exact Hl|by rewrite Hp]]].
  unfold terminal_putchar. erewrite kbind_done by done. cbn [istrue Z.eqb negb].
  erewrite kbind_done by exact E. by apply update_cursor_done.
Qed.

(** C34: the VGA terminal: whatever the character, [terminal_putchar] returns; it
    changes the screen as the 80 x 25 terminal [show_char] does (a printable
    character at the cursor, line feed, carriage return, tab stops of eight,
    destructive backspace, one line up when the last line is full), never stores
    outside video memory, keeps the cursor on the screen, and programs the cursor
    registers of the card with exactly that position. *)
Theorem terminal_putchar_screen c s :
  screen_ok (view s) ->
  exists s', terminal_putchar c s = Done (tt, s') /\ view s' = show_char c (view s) /\ screen_ok (view s') /\
    exists hi lo, port_out (c_ports s') = [(0x3D5, hi); (0x3D4, 0x0E); (0x3D5, lo); (0x3D4, 0x0F)] ++ port_out (c_ports s) /\
      256 * hi + lo = cur_row (view s') * 80 + cur_col (view s') /\ 0 <= lo < 256.
Proof.
  intros Hok. destruct (terminal_putchar_spec c s Hok) as (s' & E & Hv & _ & Hp). exists s'.
  split; [done|]. split; [done|]. split; [rewrite Hv; by apply show_char_ok|].
  eexists _, _. rewrite Hp. split; [reflexivity|]. cbn [view cur_row cur_col].
  split; [symmetry; apply Z.div_mod; lia|apply Z.mod_pos_bound; lia].
Qed.

(** ** Numbers as text *)

Definition digit_val (c : Z) : Z := if c <? 58 then c - 48 else c - 87.
Definition num_value (base : Z) (ds : list Z) : Z := foldl (fun a c => a * base + digit_val c) 0 ds.
(** [ds] is the numeral of [n]: digits of the base, most significant first, no
    superfluous zero, and its value is [n]. *)
Record numeral (base n : Z) (ds : list Z) : Prop := {
  nu_digits : Forall (fun c => 48 <= c < 58 \/ 97 <= c < 103) ds;
  nu_range : Forall (fun c => 0 <= digit_val c < base) ds;
  nu_value : num_value base ds = n;
  nu_canonical : ds = [48] \/ exists c ds', ds = c :: ds' /\ c <> 48
}.

Lemma num_value_cons base c ds : num_value base (c :: ds) = digit_val c * base ^ Z.of_nat (length ds) + num_value base ds.
Proof.
  assert (forall l a, foldl (fun a c => a * base + digit_val c) a l =
    a * base ^ Z.of_nat (length l) + foldl (fun a c => a * base + digit_val c) 0 l) as Hgen.
  { clear. induction l as [|c l IH]; intros a; simpl foldl.
    - change (Z.of_nat (length (@nil Z))) with 0. rewrite Z.pow_0_r. lia.
    - rewrite IH. rewrite (IH (0 * base + digit_val c)). simpl length. rewrite Nat2Z.inj_succ, Z.pow_succ_r by lia. nia. }
  unfold num_value. simpl foldl. rewrite Hgen. lia.
Qed.

Definition good_digit (digit : Z -> Z) (base : Z) : Prop :=
  forall d, 0 <= d < base -> digit_val (digit d) = d /\ (digit d = 48 -> d = 0) /\
    (48 <= digit d < 58 \/ 97 <= digit d < 103).

Lemma dec_digit_good : good_digit dec_digit 10.
Proof. intros d Hd. unfold dec_digit, digit_val. rewrite (proj2 (Z.ltb_lt _ _)) by lia. lia. Qed.

Lemma hex_digit_good : good_digit hex_digit 16.
Proof.
  intros d Hd. unfold hex_digit, digit_val. destruct (Z.ltb_spec d 10).
  - rewrite (proj2 (Z.ltb_lt _ _)) by lia. lia.
  - rewrite (proj2 (Z.ltb_ge _ _)) by lia. lia.
Qed.

(** The digit loop: the buffer suffices, and what is printed is the numeral. *)
Lemma fill_digits_spec digit base room n acc :
  2 <= base -> good_digit digit base -> 0 < n < base ^ Z.of_nat room ->
  exists ds, fill_digits room digit base n acc = Some (ds ++ acc) /\ numeral base n ds.
Proof.
  intros Hb Hg. revert n acc. induction room as [|room IH]; intros n acc Hn; [simpl in Hn; lia|].
  rewrite Nat2Z.inj_succ, Z.pow_succ_r in Hn by lia.
  pose proof (Z.div_mod n base ltac:(lia)) as Hdm. pose proof (Z.mod_pos_bound n base ltac:(lia)) as Hm.
  assert (0 <= n / base < base ^ Z.of_nat room) as Hq by (split; [apply Z.div_pos|apply Z.div_lt_upper_bound]; lia).
  destruct (Hg (n mod base) Hm) as (G1 & G2 & G3).
  cbn [fill_digits]. rewrite Z.gtb_ltb, (proj2 (Z.ltb_lt 0 n)) by lia.
  destruct (decide (n / base = 0)) as [E|Hne].
  - rewrite E. exists [digit (n mod base)]. split; [by destruct room|].
    rewrite E in Hdm. split.
    + by apply Forall_singleton.
    + apply Forall_singleton. lia.
    + rewrite num_value_cons. unfold num_value. simpl. lia.
    + right. eexists _, []. split; [reflexivity|]. intros H48. specialize (G2 H48). lia.
  - destruct (IH (n / base) (digit (n mod base) :: acc)) as (ds & -> & [N1 N2 N3 N4]); [lia|].
    exists (ds ++ [digit (n mod base)]). split; [by rewrite <- app_assoc|]. split.
    + apply Forall_app. split; [done|by apply Forall_singleton].
    + apply Forall_app. split; [done|apply Forall_singleton; lia].
    + unfold num_value in *. rewrite foldl_app, N3. simpl. lia.
    + destruct N4 as [->|(c & ds' & -> & Hc)].
      * unfold num_value, digit_val in N3. simpl in N3. lia.
      * right. by exists c, (ds' ++ [digit (n mod base)]).
Qed.

(** ** What is printed *)

Record printed (s : console) (text : list Z) (s' : console) : Prop := {
  pt_screen : screen_ok (view s');
  pt_sent : sent_to COM1 (c_ports s') = sent_to COM1 (c_ports s) ++ text;
  pt_lock : c_lock s' = c_lock s
}.
Definition prints (m : M console unit) (text : list Z) : Prop :=
  forall s, screen_ok (view s) -> exists s', m s = Done (tt, s') /\ printed s text s'.

Lemma prints_nil : prints (kret tt) [].
Proof. intros s Hs. exists s. split; [done|]. constructor; [done|by rewrite app_nil_r|done]. Qed.

Lemma prints_seq m1 m2 t1 t2 : prints m1 t1 -> prints m2 t2 -> prints (m1;;; m2) (t1 ++ t2).
Proof.
  intros H1 H2 s Hs. destruct (H1 s Hs) as (s1 & E1 & [A1 B1 C1]). destruct (H2 s1 A1) as (s2 & E2 & [A2 B2 C2]).
  exists s2. erewrite kbind_done by exact E1. split; [done|]. constructor; [done| |congruence].
  by rewrite B2, B1, app_assoc.
Qed.

Lemma print_char_prints c : 0 <= c < 256 -> prints (print_char c) [c].
Proof.
  intros Hc s Hs. destruct (terminal_putchar_spec c s Hs) as (s1 & E & Hv & Hl & Hp). unfold print_char.
  erewrite kbind_done by exact E. eexists. split; [apply on_ports_done, outb_done|]. constructor.
  - change (screen_ok (view s1)). rewrite Hv. by apply show_char_ok.
  - cbn [c_ports set_c_ports]. rewrite Hp, sent_to_cons, decide_True by done. rewrite wrap_small by lia. f_equal.
  - done.
Qed.

Lemma print_list_prints l : Forall (fun c => 0 <= c < 256) l -> prints (kfor l print_char) l.
Proof.
  induction 1 as [|c l Hc _ IH]; [apply prints_nil|]. apply (prints_seq _ _ [c] l); [by apply print_char_prints|done].
Qed.

Lemma numeral_bytes base n ds : numeral base n ds -> Forall (fun c => 0 <= c < 256) ds.
Proof. intros [Hd _ _ _]. eapply Forall_impl; [exact Hd|]. intros c Hc. cbv beta in Hc. lia. Qed.

(** [print_int] and [print_hex] print a numeral of their argument. *)
Definition dec_text (n : Z) (t : list Z) : Prop :=
  exists ds, numeral 10 (Z.abs n) ds /\ t = if n <? 0 then 45 :: ds else ds.
Definition hex_text (n : Z) (t : list Z) : Prop := exists ds, numeral 16 n ds /\ t = 48 :: 120 :: ds.

Lemma numeral_0 base : 2 <= base -> numeral base 0 [48].
Proof. intros Hb. constructor; [apply Forall_singleton; lia|apply Forall_singleton; change (digit_val 48) with 0; lia|done|by left]. Qed.

Lemma print_int_prints n : - 2 ^ 31 < n < 2 ^ 31 -> exists t, dec_text n t /\ prints (print_int n) t.
Proof.
  intros Hn. unfold print_int, dec_text. destruct (Z.eqb_spec n 0) as [->|Hnz].
  { exists [48]. split; [by exists [48]; split; [apply numeral_0|]|by apply print_char_prints]. }
  destruct (fill_digits_spec dec_digit 10 16 (Z.abs n) [] ltac:(lia) dec_digit_good) as (ds & E & Hnum).
  { change (10 ^ Z.of_nat 16) with 10000000000000000. lia. }
  rewrite app_nil_r in E. destruct (Z.ltb_spec n 0).
  - exists (45 :: ds). split; [by exists ds|]. assert (i32 (- n) = Z.abs n) as ->.
    { unfold signed. rewrite Z.mod_small by lia. lia. }
    rewrite E. apply (prints_seq _ _ [45] ds); [by apply print_char_prints|]. by eapply print_list_prints, numeral_bytes.
  - exists ds. split; [by exists ds|]. replace n with (Z.abs n) at 1 by lia. rewrite E.
    by eapply print_list_prints, numeral_bytes.
Qed.

(** Negating the smallest [int] gives it back, and the digit loop does not start. *)
Lemma print_int_min : prints (print_int (- 2 ^ 31)) [45].
Proof. apply (prints_seq _ _ [45] []); [by apply print_char_prints|apply prints_nil]. Qed.

Lemma print_hex_prints n : 0 <= n < 2 ^ 32 -> exists t, hex_text n t /\ prints (print_hex n) t.
Proof.
  intros Hn. unfold print_hex, hex_text, print_string. destruct (Z.eqb_spec n 0) as [->|Hnz].
  { exists [48; 120; 48]. split; [by exists [48]; split; [apply numeral_0|]|]. apply print_list_prints. repeat constructor; lia. }
  destruct (fill_digits_spec hex_digit 16 16 n [] ltac:(lia) hex_digit_good) as (ds & E & Hnum).
  { change (16 ^ Z.of_nat 16) with 18446744073709551616. lia. }
  rewrite app_nil_r in E. exists (48 :: 120 :: ds). split; [by exists ds|]. rewrite E.
  apply (prints_seq _ _ [48; 120] ds); [apply print_list_prints; repeat constructor; lia|].
  by eapply print_list_prints, numeral_bytes.
Qed.

(** The text of a format with its arguments.  %d of the smallest [int] is a sign
    without digits. *)
Inductive renders : list Z -> list karg -> list Z -> Prop :=
| r_end rest args : renders (0 :: rest) args []
| r_char c fmt args t : c <> 0 -> c <> 37 -> renders fmt args t -> renders (c :: fmt) args (c :: t)
| r_dec n fmt args t t' : i32 n <> - 2 ^ 31 -> dec_text (i32 n) t -> renders fmt args t' -> renders (37 :: 100 :: fmt) (AInt n :: args) (t ++ t')
| r_min n fmt args t' : i32 n = - 2 ^ 31 -> renders fmt args t' -> renders (37 :: 100 :: fmt) (AInt n :: args) (45 :: t')
| r_str str fmt args t' : renders fmt args t' -> renders (37 :: 115 :: fmt) (AStr str :: args) (str ++ t')
| r_hex n fmt args t t' : hex_text (u32 n) t -> renders fmt args t' -> renders (37 :: 120 :: fmt) (AInt n :: args) (t ++ t')
| r_chr n fmt args t' : renders fmt args t' -> renders (37 :: 99 :: fmt) (AInt n :: args) (u8 n :: t')
| r_pct fmt args t' : renders fmt args t' -> renders (37 :: 37 :: fmt) args (37 :: t')
| r_other d fmt args t' : d ∉ [100; 115; 120; 99; 37] -> renders fmt args t' -> renders (37 :: d :: fmt) args (37 :: d :: t').

(** The memory the format points to has a terminator, and every directive before
    it has an argument of its kind; strings are bytes without a NUL. *)
Fixpoint format_ok (fmt : list Z) (args : list karg) : bool :=
  match fmt with
  | [] => false
  | c :: rest =>
      if c =? 0 then true
      else if c =? 37 then
        match rest with
        | [] => false
        | d :: rest' =>
            if d =? 100 then match args with AInt n :: a => format_ok rest' a | _ => false end
            else if d =? 115 then
              match args with AStr str :: a => forallb (fun c => (0 <? c) && (c <? 256)) str && format_ok rest' a | _ => false end
            else if d =? 120 then match args with AInt n :: a => format_ok rest' a | _ => false end
            else if d =? 99 then match args with AInt n :: a => format_ok rest' a | _ => false end
            else (0 <=? d) && (d <? 256) && format_ok rest' args
        end
      else (0 <=? c) && (c <? 256) && format_ok rest args
  end.

Lemma bytes_forallb l : forallb (fun c => (0 <? c) && (c <? 256)) l = true -> Forall (fun c => 0 <= c < 256) l.
Proof.
  rewrite forallb_forall, Forall_forall. intros Hb c Hc. specialize (Hb c ltac:(by apply list_elem_of_In)). lia.
Qed.

Lemma i32_range n : - 2 ^ 31 <= i32 n < 2 ^ 31.
Proof. unfold signed. pose proof (Z.mod_pos_bound (n + 2 ^ (32 - 1)) (2 ^ 32) ltac:(lia)). lia. Qed.

(** The loop, by the size of the format: a directive takes two characters. *)
Lemma printk_loop_prints fmt args :
  format_ok fmt args = true -> exists t, renders fmt args t /\ prints (printk_loop fmt args) t.
Proof.
  remember (length fmt) as n eqn:Hn. assert (length fmt <= n)%nat as Hle by lia. clear Hn. revert fmt args Hle.
  induction n as [|n IH]; intros [|c fmt] args Hle Hok; try done; try (simpl in Hle; lia).
  cbn [format_ok printk_loop] in *. destruct (Z.eqb_spec c 0) as [->|Hc0]; [exists []; split; [constructor|apply prints_nil]|].
  destruct (Z.eqb_spec c 37) as [->|Hc].
  2: { apply andb_true_iff in Hok as [Hb Hok]. destruct (IH fmt args ltac:(simpl in Hle; lia) Hok) as (t & R & P).
       exists (c :: t). split; [by constructor|]. apply (prints_seq _ _ [c] t); [apply print_char_prints; lia|done]. }
  destruct fmt as [|d fmt]; [done|]. simpl in Hle.
  assert (forall a, format_ok fmt a = true -> exists t, renders fmt a t /\ prints (printk_loop fmt a) t) as Hrest
    by (intros a Ha; apply (IH fmt a); [lia|done]).
  destruct (Z.eqb_spec d 100) as [->|H100].
  { destruct args as [|[k|k] a]; [done| |done]. destruct (Hrest a Hok) as (t & R & P).
    pose proof (i32_range k). destruct (decide (i32 k = - 2 ^ 31)) as [Hmin|Hmin].
    - exists (45 :: t). split; [by apply r_min|]. apply (prints_seq _ _ [45] t); [|done]. rewrite Hmin. exact print_int_min.
    - destruct (print_int_prints (i32 k)) as (t1 & T1 & P1); [lia|].
      exists (t1 ++ t). split; [by constructor|by apply prints_seq]. }
  destruct (Z.eqb_spec d 115) as [->|H115].
  { destruct args as [|[k|k] a]; [done|done|]. apply andb_true_iff in Hok as [Hb Hok]. destruct (Hrest a Hok) as (t & R & P).
    exists (k ++ t). split; [by constructor|]. apply prints_seq; [by apply print_list_prints, bytes_forallb|done]. }
  destruct (Z.eqb_spec d 120) as [->|H120].
  { destruct args as [|[k|k] a]; [done| |done]. destruct (Hrest a Hok) as (t & R & P).
    destruct (print_hex_prints (u32 k) (wrap_range 32 k ltac:(lia))) as (t1 & T1 & P1).
    exists (t1 ++ t). split; [by constructor|by apply prints_seq]. }
  destruct (Z.eqb_spec d 99) as [->|H99].
  { destruct args as [|[k|k] a]; [done| |done]. destruct (Hrest a Hok) as (t & R & P).
    exists (u8 k :: t). split; [by constructor|]. apply (prints_seq _ _ [u8 k] t); [apply print_char_prints, (wrap_range 8); lia|done]. }
  apply andb_true_iff in Hok as [Hb Hok]. destruct (Hrest args Hok) as (t & R & P).
  destruct (Z.eqb_spec d 37) as [->|H37].
  { exists (37 :: t). split; [by constructor|]. apply (prints_seq _ _ [37] t); [by apply print_char_prints|done]. }
  exists (37 :: d :: t). split; [constructor; [|done]; rewrite !not_elem_of_cons; split_and!; try done; apply not_elem_of_nil|].
  apply (prints_seq _ _ [37] (d :: t)); [by apply print_char_prints|].
  apply (prints_seq _ _ [d] t); [apply print_char_prints; lia|done].
Qed.

(** C35: [printk] on a format whose directives match its arguments returns with
    the console lock free, and the serial line has received exactly the prefix,
    the rendered text and a line feed.  The rendering of %x, and of %d for every
    [int] but the smallest, is a round trip: hexadecimal and decimal numerals
    without superfluous zeros whose value is the (32-bit) argument.  %d of the
    smallest [int] prints the sign only.  Any other directive, such as %u, %X or
    %p, is printed as it stands; so is the terminating NUL after a per cent sign
    at the end of the format, and the text goes on with the memory behind it. *)
Theorem printk_renders fmt args s :
  screen_ok (view s) -> c_lock s = 0 -> format_ok fmt args = true ->
  exists s' text, printk fmt args s = Done (tt, s') /\ renders fmt args text /\
    sent_to COM1 (c_ports s') = sent_to COM1 (c_ports s) ++ printk_prefix ++ text ++ [10] /\
    screen_ok (view s') /\ c_lock s' = 0.
Proof.
  intros Hs Hl Hok. destruct (printk_loop_prints fmt args Hok) as (text & R & P). unfold printk.
  erewrite kbind_done by (by apply spin_lock_free). erewrite kbind_done by done. set (s1 := set_c_color _ _).
  destruct (print_list_prints printk_prefix ltac:(by apply bytes_forallb) s1) as (s2 & E2 & [A2 B2 C2]);
    [destruct Hs as [? ? ?]; by constructor|].
  erewrite kbind_done by exact E2. erewrite kbind_done by done. set (s3 := set_c_color _ s2).
  destruct (P s3) as (s4 & E4 & [A4 B4 C4]); [destruct A2 as [? ? ?]; by constructor|].
  erewrite kbind_done by exact E4. destruct (print_char_prints 10 ltac:(lia) s4 A4) as (s5 & E5 & [A5 B5 C5]).
  erewrite kbind_done by exact E5. eexists _, text. split; [reflexivity|]. split; [done|]. split; [|split; [|done]].
  - change (c_ports (set_c_lock 0 s5)) with (c_ports s5). rewrite B5, B4. change (c_ports s3) with (c_ports s2). rewrite B2.
    change (c_ports s1) with (c_ports s). by rewrite <- !app_assoc.
  - destruct A5 as [? ? ?]. by constructor.
Qed.

(** ** Witnesses *)

Definition demo_console : console := mk_console (mk_ports ∅ []) (replicate 2000 0) 24 79 15 0.

Lemma demo_screen_ok : screen_ok (view demo_console).
Proof. constructor; [apply length_replicate|cbn; lia|cbn; lia]. Qed.

(** A character in the last cell scrolls the screen. *)
Lemma terminal_putchar_screen_witness :
  exists s', terminal_putchar 65 demo_console = Done (tt, s') /\ c_vga s' !! 1919%nat = Some 3905 /\ c_row s' = 24 /\ c_col s' = 0.
Proof.
  destruct (terminal_putchar_screen 65 demo_console demo_screen_ok) as (s' & E & Hv & _).
  exists s'. split; [exact E|]. injection Hv as H1 H2 H3 H4. rewrite H1, H2, H3. split; [|split]; vm_compute; reflexivity.
Defined.

(** "%d %d%", followed in memory by "!": the text is "-42 -%", a NUL and "!". *)
Definition demo_format : list Z := [37; 100; 32; 37; 100; 37; 0; 33; 0].
Lemma printk_renders_witness :
  exists s' text, printk demo_format [AInt (-42); AInt (- 2 ^ 31)] demo_console = Done (tt, s') /\
    renders demo_format [AInt (-42); AInt (- 2 ^ 31)] text /\
    sent_to COM1 (c_ports s') = printk_prefix ++ text ++ [10].
Proof.
  destruct (printk_renders demo_format [AInt (-42); AInt (- 2 ^ 31)] demo_console demo_screen_ok) as (s' & text & E & R & S & _);
    [reflexivity|vm_compute; reflexivity|]. exists s', text. split; [exact E|]. split; [exact R|exact S].
Defined.
