(* ===== verification/Keyboard.v ===== *)
(** * kernel/drivers/keyboard.c: scan codes, modifiers and the key buffer *)

From S2P Require Import Prelude SpinLock Ports.

Definition KB_DATA : Z := 0x60.
Definition KB_CMD : Z := 0x64.
Definition KB_BUF_SIZE : Z := 256.

(** The tables; the entries the initialisers leave out are zero. *)
Definition normal : list Z :=
  [0; 0; 49; 50; 51; 52; 53; 54;
   55; 56; 57; 48; 45; 61; 8; 9;
   113; 119; 101; 114; 116; 121; 117; 105;
   111; 112; 91; 93; 10; 0; 97; 115;
   100; 102; 103; 104; 106; 107; 108; 59;
   39; 96; 0; 92; 122; 120; 99; 118;
   98; 110; 109; 44; 46; 47; 0; 42;
   0; 32; 0; 0; 0; 0; 0; 0;
   0; 0; 0; 0; 0; 0; 0; 55;
   56; 57; 45; 52; 53; 54; 43; 49;
   50; 51; 48; 46; 0; 0; 0; 0] ++ replicate 40 0.
Definition shifted : list Z :=
  [0; 0; 33; 64; 35; 36; 37; 94;
   38; 42; 40; 41; 95; 43; 8; 9;
   81; 87; 69; 82; 84; 89; 85; 73;
   79; 80; 123; 125; 10; 0; 65; 83;
   68; 70; 71; 72; 74; 75; 76; 58;
   34; 126; 0; 124; 90; 88; 67; 86;
   66; 78; 77; 60; 62; 63; 0; 42;
   0; 32; 0; 0; 0; 0; 0; 0;
   0; 0; 0; 0; 0; 0; 0; 55;
   56; 57; 45; 52; 53; 54; 43; 49;
   50; 51; 48; 46; 0; 0; 0; 0] ++ replicate 40 0.

(** The modifiers and locks. *)
Record modifiers := mk_mods { shift : Z; ctrl : Z; alt : Z; caps : Z; num : Z; scroll : Z; extended : Z }.
Record keyboard := mk_kb {
  kb_buf : list Z;                (* char[256] *)
  rp : Z;                         (* uint32_t *)
  wp : Z;                         (* uint32_t *)
  kb_mods : modifiers;
  kb_lock : Z;
  kb_ports : ports
}.
Definition set_kb_buf (x : list Z) (s : keyboard) : keyboard := mk_kb x (rp s) (wp s) (kb_mods s) (kb_lock s) (kb_ports s).
Definition set_rp (x : Z) (s : keyboard) : keyboard := mk_kb (kb_buf s) x (wp s) (kb_mods s) (kb_lock s) (kb_ports s).
Definition set_wp (x : Z) (s : keyboard) : keyboard := mk_kb (kb_buf s) (rp s) x (kb_mods s) (kb_lock s) (kb_ports s).
Definition set_kb_mods (x : modifiers) (s : keyboard) : keyboard := mk_kb (kb_buf s) (rp s) (wp s) x (kb_lock s) (kb_ports s).
Definition set_kb_lock (x : Z) (s : keyboard) : keyboard := mk_kb (kb_buf s) (rp s) (wp s) (kb_mods s) x (kb_ports s).
Definition set_kb_ports (x : ports) (s : keyboard) : keyboard := mk_kb (kb_buf s) (rp s) (wp s) (kb_mods s) (kb_lock s) x.

Definition set_shift (x : Z) (m : modifiers) : modifiers := mk_mods x (ctrl m) (alt m) (caps m) (num m) (scroll m) (extended m).
Definition set_ctrl (x : Z) (m : modifiers) : modifiers := mk_mods (shift m) x (alt m) (caps m) (num m) (scroll m) (extended m).
Definition set_alt (x : Z) (m : modifiers) : modifiers := mk_mods (shift m) (ctrl m) x (caps m) (num m) (scroll m) (extended m).
Definition set_caps (x : Z) (m : modifiers) : modifiers := mk_mods (shift m) (ctrl m) (alt m) x (num m) (scroll m) (extended m).
Definition set_num (x : Z) (m : modifiers) : modifiers := mk_mods (shift m) (ctrl m) (alt m) (caps m) x (scroll m) (extended m).
Definition set_scroll (x : Z) (m : modifiers) : modifiers := mk_mods (shift m) (ctrl m) (alt m) (caps m) (num m) x (extended m).
Definition set_extended (x : Z) (m : modifiers) : modifiers := mk_mods (shift m) (ctrl m) (alt m) (caps m) (num m) (scroll m) x.

Definition kb_port {B} (m : M ports B) : M keyboard B := zoom kb_ports set_kb_ports m.
Definition mods (f : modifiers -> modifiers) : M keyboard unit := kmod (fun s => set_kb_mods (f (kb_mods s)) s).

(** ** Operations *)

Definition push (c : Z) : M keyboard unit :=
  let* w := kgets wp in
  let* r := kgets rp in
  let next := u32 (w + 1) mod KB_BUF_SIZE in
  if negb (next =? r) then
    kupd (fun s => if w <? KB_BUF_SIZE then Some (set_kb_buf (<[Z.to_nat w := c]> (kb_buf s)) s) else None);;;
    kmod (set_wp next)
  else kret tt.

(** [while ((inb(KB_CMD) & 0x02) && --timeout);] with the value of [timeout] *)
Fixpoint kb_wait (timeout : nat) : M keyboard bool :=
  let* st := kb_port (inb KB_CMD) in
  if istrue (Z.land st 0x02) then
    match timeout with
    | O | 1%nat => kret false
    | S t => kb_wait t
    end
  else kret true.

Definition update_leds : M keyboard unit :=
  let* ready := kb_wait (Z.to_nat 100000) in
  if negb ready then kret tt else
  kb_port (outb KB_DATA 0xED);;;
  let* ready := kb_wait (Z.to_nat 100000) in
  if negb ready then kret tt else
  let* m := kgets kb_mods in
  kb_port (outb KB_DATA (u8 (Z.lor (Z.lor (Z.land (scroll m) 1) (Z.shiftl (Z.land (num m) 1) 1)) (Z.shiftl (Z.land (caps m) 1) 2)))).

Definition is_letter (c : Z) : bool := ((97 <=? c) && (c <=? 122)) || ((65 <=? c) && (c <=? 90)).

(** The key press of an ordinary key, after the modifiers are dealt with. *)
Definition key_char (sc : Z) : M keyboard unit :=
  if sc >=? 128 then kret tt else
  let* m := kgets kb_mods in
  match (if istrue (shift m) then shifted else normal) !! Z.to_nat sc with
  | None => kfault
  | Some c =>
      if c =? 0 then kret tt else
      push (if istrue (caps m) && is_letter c then
              if istrue (shift m) then (if (65 <=? c) && (c <=? 90) then c + 32 else c)
              else (if (97 <=? c) && (c <=? 122) then c - 32 else c)
            else c)
  end.

Definition kb_irq : M keyboard unit :=
  let* sc := kb_port (inb KB_DATA) in
  if sc =? 0xE0 then mods (set_extended 1) else
  let* m := kgets kb_mods in
  if istrue (extended m) then
    mods (set_extended 0);;;
    if istrue (Z.land sc 0x80) then kret tt else push 0xE0;;; push sc
  else if istrue (Z.land sc 0x80) then
    let r := Z.land sc 0x7F in
    (if (r =? 0x2A) || (r =? 0x36) then mods (set_shift 0) else kret tt);;;
    (if r =? 0x1D then mods (set_ctrl 0) else kret tt);;;
    (if r =? 0x38 then mods (set_alt 0) else kret tt)
  else if (sc =? 0x2A) || (sc =? 0x36) then mods (set_shift 1)
  else if sc =? 0x1D then mods (set_ctrl 1)
  else if sc =? 0x38 then mods (set_alt 1)
  else if sc =? 0x3A then mods (fun m => set_caps (Z.lxor (caps m) 1) m);;; update_leds
  else if sc =? 0x45 then mods (fun m => set_num (Z.lxor (num m) 1) m);;; update_leds
  else if sc =? 0x46 then mods (fun m => set_scroll (Z.lxor (scroll m) 1) m);;; update_leds
  else if istrue (ctrl m) && (sc =? 0x2E) then push 0x03
  else if istrue (ctrl m) && (sc =? 0x26) then push 0x0C
  else key_char sc.

(** [request_irq(33, kb_irq)] is the caller's, see the interrupt component. *)
Definition keyboard_init : M keyboard unit :=
  spin_lock kb_lock set_kb_lock;;;
  kmod (set_rp 0);;; kmod (set_wp 0);;;
  mods (fun m => mk_mods 0 0 0 0 0 0 (extended m));;;
  spin_unlock set_kb_lock.

Definition keyboard_poll : M keyboard Z :=
  spin_lock kb_lock set_kb_lock;;;
  let* r := kgets rp in
  let* w := kgets wp in
  let* c := (if negb (r =? w) then
      let* c := kopt (fun s => kb_buf s !! Z.to_nat r) in
      kmod (set_rp (u32 (r + 1) mod KB_BUF_SIZE));;;
      kret c
    else kret 0) in
  spin_unlock set_kb_lock;;;
  kret c.

(** [keyboard_getchar] halts between polls; [wake] is what the interrupt that ends
    the halt does, the fuel bounds the number of halts. *)
Fixpoint keyboard_getchar (fuel : nat) (wake : M keyboard unit) : M keyboard Z :=
  match fuel with
  | O => kspin
  | S f =>
      let* c := keyboard_poll in
      if c =? 0 then wake;;; keyboard_getchar f wake else kret c
  end.

Definition keyboard_ctrl : M keyboard Z := kgets (fun s => ctrl (kb_mods s)).
Definition keyboard_shift : M keyboard Z := kgets (fun s => shift (kb_mods s)).
Definition keyboard_alt : M keyboard Z := kgets (fun s => alt (kb_mods s)).
Definition keyboard_caps : M keyboard Z := kgets (fun s => caps (kb_mods s)).

(** ** The abstract keyboard: modifiers and a queue of at most 255 characters *)

Definition swap_case (c : Z) : Z := if (97 <=? c) && (c <=? 122) then c - 32 else if (65 <=? c) && (c <=? 90) then c + 32 else c.

(** The character of a key: the shift key selects the table, caps lock swaps the
    case of letters; 0 stands for no character. *)
Definition char_of (m : modifiers) (sc : Z) : Z :=
  let c := default 0 ((if istrue (shift m) then shifted else normal) !! Z.to_nat sc) in
  if istrue (caps m) then swap_case c else c.

(** What a scan code does: the new modifiers and the characters it produces. *)
Definition decode (m : modifiers) (sc : Z) : modifiers * list Z :=
  if sc =? 0xE0 then (set_extended 1 m, [])
  else if istrue (extended m) then (set_extended 0 m, if 128 <=? sc then [] else [0xE0; sc])
  else if 128 <=? sc then
    let r := sc - 128 in
    (if (r =? 0x2A) || (r =? 0x36) then set_shift 0 m
     else if r =? 0x1D then set_ctrl 0 m else if r =? 0x38 then set_alt 0 m else m, [])
  else if (sc =? 0x2A) || (sc =? 0x36) then (set_shift 1 m, [])
  else if sc =? 0x1D then (set_ctrl 1 m, [])
  else if sc =? 0x38 then (set_alt 1 m, [])
  else if sc =? 0x3A then (set_caps (Z.lxor (caps m) 1) m, [])
  else if sc =? 0x45 then (set_num (Z.lxor (num m) 1) m, [])
  else if sc =? 0x46 then (set_scroll (Z.lxor (scroll m) 1) m, [])
  else if istrue (ctrl m) && (sc =? 0x2E) then (m, [3])
  else if istrue (ctrl m) && (sc =? 0x26) then (m, [12])
  else (m, if char_of m sc =? 0 then [] else [char_of m sc]).

Definition enqueue (q : list Z) (c : Z) : list Z := if (length q <? 255)%nat then q ++ [c] else q.

Inductive kb_event := Key (sc : Z) | Poll.
Definition kb_spec (st : modifiers * list Z) (e : kb_event) : (modifiers * list Z) * list Z :=
  let '(m, q) := st in
  match e with
  | Key sc => let '(m', cs) := decode m sc in ((m', foldl enqueue q cs), [])
  | Poll => ((m, tail q), [default 0 (head q)])
  end.
Fixpoint kb_spec_run (st : modifiers * list Z) (es : list kb_event) : (modifiers * list Z) * list Z :=
  match es with
  | [] => (st, [])
  | e :: es' => let '(st1, o1) := kb_spec st e in let '(st2, o2) := kb_spec_run st1 es' in (st2, o1 ++ o2)
  end.

(** The driver: a key puts its scan code in the data port and raises the interrupt. *)
Definition kb_run (e : kb_event) : M keyboard (list Z) :=
  match e with
  | Key sc =>
      kmod (fun s => set_kb_ports (mk_ports (<[KB_DATA := [sc]]> (port_in (kb_ports s))) (port_out (kb_ports s))) s);;;
      kb_irq;;; kret []
  | Poll => let* c := keyboard_poll in kret [c]
  end.
Fixpoint kb_runs (es : list kb_event) : M keyboard (list Z) :=
  match es with
  | [] => kret []
  | e :: es' => let* o1 := kb_run e in let* o2 := kb_runs es' in kret (o1 ++ o2)
  end.

(** The ring buffer holds the queue [q]. *)
Record kb_rep (s : keyboard) (m : modifiers) (q : list Z) : Prop := {
  kr_buf : length (kb_buf s) = 256%nat;
  kr_rp : 0 <= rp s < 256;
  kr_wp : 0 <= wp s < 256;
  kr_len : Z.of_nat (length q) = (wp s - rp s) mod 256;
  kr_queue (i : nat) : (i < length q)%nat -> kb_buf s !! Z.to_nat ((rp s + Z.of_nat i) mod 256) = q !! i;
  kr_mods : kb_mods s = m;
  kr_lock : kb_lock s = 0
}.

(** ** Lemmas *)

(** Positions in the ring. *)
Lemma ring_distance a b : 0 <= a < 256 -> 0 <= b < 256 -> (b - a) mod 256 = if decide (a <= b) then b - a else b - a + 256.
Proof. intros Ha Hb. destruct (decide (a <= b)); Z.div_mod_to_equations; lia. Qed.
Lemma ring_index a i : 0 <= a < 256 -> 0 <= i < 256 -> (a + i) mod 256 = if decide (a + i < 256) then a + i else a + i - 256.
Proof. intros Ha Hi. destruct (decide (a + i < 256)); Z.div_mod_to_equations; lia. Qed.

Lemma kb_rep_mods s m q f : kb_rep s m q -> kb_rep (set_kb_mods (f (kb_mods s)) s) (f m) q.
Proof. intros [? ? ? ? ? <- ?]. by constructor. Qed.
Lemma kb_rep_ports s m q p : kb_rep s m q -> kb_rep (set_kb_ports p s) m q.
Proof. intros [? ? ? ? ? ? ?]. by constructor. Qed.

Lemma push_rep c s m q :
  kb_rep s m q -> exists s', push c s = Done (tt, s') /\ kb_rep s' m (enqueue q c).
Proof.
  intros [Hb Hr Hw Hlen Hq Hm Hlk]. unfold push, enqueue, KB_BUF_SIZE. do 2 erewrite kbind_done by done.
  pose proof (Z.mod_pos_bound (wp s - rp s) 256 ltac:(lia)) as Hlt. rewrite <- Hlen in Hlt.
  rewrite wrap_small by lia.
  destruct (Z.eqb_spec ((wp s + 1) mod 256) (rp s)) as [Hfull|Hroom]; cbn [negb].
  - exists s. split; [done|]. rewrite (proj2 (Nat.ltb_ge _ _)); [by constructor|].
    Z.div_mod_to_equations. lia.
  - rewrite (proj2 (Nat.ltb_lt _ _)) by (Z.div_mod_to_equations; lia).
    erewrite kbind_done by (apply kupd_some; rewrite (proj2 (Z.ltb_lt _ _)) by lia; reflexivity).
    eexists. split; [reflexivity|]. constructor; cbn [kb_buf rp wp kb_mods kb_lock set_wp set_kb_buf]; try done.
    + by rewrite length_insert.
    + apply Z.mod_pos_bound. lia.
    + rewrite length_app. simpl length. Z.div_mod_to_equations. lia.
    + intros i Hi. rewrite length_app in Hi. simpl length in Hi. destruct (decide (i = length q)) as [-> |Hne].
      * rewrite lookup_app_r, Nat.sub_diag by lia. assert ((rp s + Z.of_nat (length q)) mod 256 = wp s) as ->
          by (rewrite Hlen, Zplus_mod_idemp_r; replace (rp s + (wp s - rp s)) with (wp s) by lia; apply Z.mod_small; lia).
        rewrite list_lookup_insert_eq by lia. done.
      * rewrite lookup_app_l by lia. rewrite list_lookup_insert_ne; [apply Hq; lia|].
        pose proof (Z.mod_pos_bound (rp s + Z.of_nat i) 256 ltac:(lia)).
        assert ((rp s + Z.of_nat i) mod 256 <> wp s); [|lia].
        rewrite ring_distance in Hlen by lia. rewrite ring_index by lia.
        destruct (decide (rp s <= wp s)), (decide (rp s + Z.of_nat i < 256)); lia.
Qed.

Lemma keyboard_poll_rep s m q :
  kb_rep s m q -> exists s', keyboard_poll s = Done (default 0 (head q), s') /\ kb_rep s' m (tail q).
Proof.
  intros [Hb Hr Hw Hlen Hq Hm Hlk]. unfold keyboard_poll, KB_BUF_SIZE. erewrite kbind_done by (by apply spin_lock_free).
  do 2 erewrite kbind_done by done. cbn [rp wp set_kb_lock]. destruct q as [|c q].
  - assert (rp s = wp s) as Heq
      by (simpl length in Hlen; rewrite ring_distance in Hlen by lia; destruct (decide (rp s <= wp s)); lia). rewrite Heq, Z.eqb_refl.
    erewrite kbind_done by done. erewrite kbind_done by done. eexists. split; [reflexivity|]. constructor; try done; cbn; lia.
  - assert (rp s <> wp s) as Hne by (intros E; rewrite E, Z.sub_diag, Zmod_0_l in Hlen; cbn [length] in Hlen; lia).
    rewrite (proj2 (Z.eqb_neq _ _) Hne). cbn [negb]. rewrite wrap_small by lia.
    specialize (Hq 0%nat ltac:(simpl; lia)) as H0. rewrite Z.add_0_r, Z.mod_small in H0 by lia.
    erewrite kbind_done.
    2: { erewrite kbind_done by (apply kopt_some; exact H0). erewrite kbind_done by done. reflexivity. }
    erewrite kbind_done by done. eexists. split; [reflexivity|].
    constructor; cbn [kb_buf rp wp kb_mods kb_lock set_rp set_kb_lock tail]; try done.
    + apply Z.mod_pos_bound. lia.
    + simpl length in Hlen. rewrite Zminus_mod_idemp_r. replace (wp s - (rp s + 1)) with (wp s - rp s - 1) by lia.
      rewrite <- Zminus_mod_idemp_l, <- Hlen, Z.mod_small; [lia|]. pose proof (Z.mod_pos_bound (wp s - rp s) 256 ltac:(lia)). lia.
    + intros i Hi. specialize (Hq (S i) ltac:(simpl; lia)). simpl in Hq. rewrite <- Hq. f_equal. f_equal.
      rewrite Zplus_mod_idemp_l. f_equal. lia.
Qed.

(** Bit 7 of a scan code. *)
Lemma release_bit sc : 0 <= sc < 256 ->
  istrue (Z.land sc 0x80) = (128 <=? sc) /\ (128 <= sc -> Z.land sc 0x7F = sc - 128).
Proof.
  intros Hsc. assert (forallb (fun sc => Bool.eqb (istrue (Z.land sc 0x80)) (128 <=? sc) &&
    ((sc <? 128) || (Z.land sc 0x7F =? sc - 128))) (seqZ 0 256) = true) as Hall by (vm_compute; reflexivity).
  apply (forallb_seqZ _ _ sc) in Hall; [|done].
  apply andb_true_iff in Hall as [H1 H2]. apply eqb_prop in H1. split; [done|lia].
Qed.

(** The two tables: the code's treatment of caps lock is a swap of the case. *)
Definition caps_fix (sh cp : bool) (c : Z) : Z :=
  if cp && is_letter c then
    if sh then (if (65 <=? c) && (c <=? 90) then c + 32 else c) else (if (97 <=? c) && (c <=? 122) then c - 32 else c)
  else c.
Lemma caps_table (sh cp : bool) sc : 0 <= sc < 128 ->
  exists c, (if sh then shifted else normal) !! Z.to_nat sc = Some c /\ 0 <= c < 256 /\
    caps_fix sh cp c = (if cp then swap_case c else c) /\ (c = 0 <-> caps_fix sh cp c = 0).
Proof.
  intros Hsc.
  assert (forall b1 b2, forallb (fun sc => match (if b1 : bool then shifted else normal) !! Z.to_nat sc with
      | Some c => (0 <=? c) && (c <? 256) && (caps_fix b1 b2 c =? (if b2 : bool then swap_case c else c)) &&
          Bool.eqb (c =? 0) (caps_fix b1 b2 c =? 0)
      | None => false end) (seqZ 0 128) = true) as Hall by (intros [] []; vm_compute; reflexivity).
  specialize (Hall sh cp). pose proof (forallb_seqZ _ _ _ Hall Hsc) as Hc. clear Hall. cbn beta in Hc. rename Hc into Hall.
  destruct ((if sh then shifted else normal) !! Z.to_nat sc) as [c|]; [|done]. exists c.
  rewrite !andb_true_iff in Hall. destruct Hall as [[[H1 H2] H3] H4]. apply eqb_prop in H4.
  split; [done|]. split; [lia|]. split; [lia|]. rewrite <- !Z.eqb_eq, H4. done.
Qed.

Lemma key_char_rep sc s m q :
  kb_rep s m q -> 0 <= sc < 128 ->
  exists s', key_char sc s = Done (tt, s') /\ kb_rep s' m (foldl enqueue q (if char_of m sc =? 0 then [] else [char_of m sc])).
Proof.
  intros Hrep Hsc. unfold key_char. rewrite Z.geb_leb, (proj2 (Z.leb_gt 128 sc)) by lia. erewrite kbind_done by done.
  rewrite (kr_mods _ _ _ Hrep). destruct (caps_table (istrue (shift m)) (istrue (caps m)) sc Hsc) as (c & Hc & _ & Hfix & Hz).
  assert (char_of m sc = caps_fix (istrue (shift m)) (istrue (caps m)) c) as -> by (unfold char_of; by rewrite Hc, Hfix).
  rewrite Hc. fold (caps_fix (istrue (shift m)) (istrue (caps m)) c).
  destruct (Z.eqb_spec c 0) as [E|Hne].
  - rewrite (proj2 (Z.eqb_eq _ 0)) by tauto. exists s. by split.
  - rewrite (proj2 (Z.eqb_neq _ 0)) by tauto. by apply push_rep.
Qed.

(** Waiting for the controller always ends, whatever it answers. *)
Lemma kb_wait_done t s : exists b p, kb_wait t s = Done (b, set_kb_ports p s).
Proof.
  assert (forall s, exists v p, kb_port (inb KB_CMD) s = Done (v, set_kb_ports p s)) as Hin.
  { intros s0. destruct (inb_range (kb_ports s0) KB_CMD) as (v & p & E & _). exists v, p. by apply zoom_done. }
  revert s. induction t as [|t IH]; intros s; destruct (Hin s) as (v & p & E); cbn [kb_wait]; erewrite kbind_done by exact E.
  - destruct (istrue _); by eexists _, _.
  - destruct (istrue _); [|by eexists _, _]. destruct t as [|t]; [by eexists _, _|].
    destruct (IH (set_kb_ports p s)) as (b & p' & E'). exists b, p'. exact E'.
Qed.

Lemma update_leds_done s : exists p, update_leds s = Done (tt, set_kb_ports p s).
Proof.
  unfold update_leds. generalize (Z.to_nat 100000) as t. intros t. destruct (kb_wait_done t s) as (b & p & E).
  erewrite kbind_done by exact E. destruct b; cbn [negb]; [|by exists p].
  erewrite kbind_done by (apply zoom_done, outb_done). cbn [kb_ports set_kb_ports].
  destruct (kb_wait_done t (set_kb_ports (mk_ports (port_in p) ((KB_DATA, u8 0xED) :: port_out p)) (set_kb_ports p s))) as (b2 & p2 & E2).
  erewrite kbind_done by exact E2. destruct b2; cbn [negb]; [|by exists p2].
  erewrite kbind_done by done. eexists. reflexivity.
Qed.

Lemma leds_rep s m q f :
  kb_rep s m q -> exists s', (mods f;;; update_leds) s = Done (tt, s') /\ kb_rep s' (f m) q.
Proof.
  intros Hrep. erewrite kbind_done by done. destruct (update_leds_done (set_kb_mods (f (kb_mods s)) s)) as (p & E).
  eexists. split; [exact E|]. by apply kb_rep_ports, kb_rep_mods.
Qed.

Lemma kb_irq_rep sc s m q l :
  kb_rep s m q -> 0 <= sc < 256 -> port_in (kb_ports s) !! KB_DATA = Some (sc :: l) ->
  exists s', kb_irq s = Done (tt, s') /\ kb_rep s' (decode m sc).1 (foldl enqueue q (decode m sc).2).
Proof.
  intros Hrep Hsc Hport. unfold kb_irq.
  assert (kb_port (inb KB_DATA) s = Done (sc, set_kb_ports (mk_ports (<[KB_DATA := l]> (port_in (kb_ports s))) (port_out (kb_ports s))) s)) as E.
  { apply zoom_done. unfold inb, port_read. rewrite Hport. by rewrite wrap_small by lia. }
  erewrite kbind_done by exact E. set (s1 := set_kb_ports _ s). pose proof (kb_rep_ports _ _ _ _ Hrep : kb_rep s1 m q) as Hrep1.
  destruct (release_bit sc Hsc) as [Hbit Hlow]. unfold decode. destruct (sc =? 0xE0).
  { eexists. split; [reflexivity|]. by apply (kb_rep_mods s1 m q (set_extended 1)). }
  erewrite kbind_done by done. rewrite (kr_mods _ _ _ Hrep1), Hbit. destruct (istrue (extended m)).
  { erewrite kbind_done by done. pose proof (kb_rep_mods s1 m q (set_extended 0) Hrep1) as Hrep2.
    destruct (128 <=? sc); [eexists; by split|]. cbn [fst snd foldl].
    destruct (push_rep 0xE0 _ _ _ Hrep2) as (s3 & E3 & Hrep3). erewrite kbind_done by exact E3. by apply push_rep. }
  destruct (Z.leb_spec 128 sc).
  { rewrite Hlow by done. cbn [fst snd foldl].
    destruct ((sc - 128 =? 0x2A) || (sc - 128 =? 0x36)) eqn:Es; [|destruct (sc - 128 =? 0x1D) eqn:Ec; [|destruct (sc - 128 =? 0x38) eqn:Ea]];
      repeat (erewrite kbind_done by done);
      repeat match goal with |- context [sc - 128 =? ?n] => rewrite (proj2 (Z.eqb_neq (sc - 128) n)) by lia end;
      eexists; (split; [reflexivity|]); first [done | by apply kb_rep_mods]. }
  repeat match goal with |- context [if ?b then (_, _) else _] => destruct b end; cbn [fst snd foldl];
    try (eexists; split; [reflexivity|]; by apply kb_rep_mods).
  - exact (leds_rep s1 m q (fun m => set_caps (Z.lxor (caps m) 1) m) Hrep1).
  - exact (leds_rep s1 m q (fun m => set_num (Z.lxor (num m) 1) m) Hrep1).
  - exact (leds_rep s1 m q (fun m => set_scroll (Z.lxor (scroll m) 1) m) Hrep1).
  - by apply push_rep.
  - by apply push_rep.
  - apply key_char_rep; [done|lia].
Qed.

Definition event_ok (e : kb_event) : Prop := match e with Key sc => 0 <= sc < 256 | Poll => True end.

Lemma kb_run_refines e s m q :
  kb_rep s m q -> event_ok e ->
  exists s', kb_run e s = Done ((kb_spec (m, q) e).2, s') /\ kb_rep s' (kb_spec (m, q) e).1.1 (kb_spec (m, q) e).1.2.
Proof.
  intros Hrep He. destruct e as [sc|]; cbn [kb_run kb_spec].
  - erewrite kbind_done by done. set (s1 := set_kb_ports _ s).
    destruct (kb_irq_rep sc s1 m q [] (kb_rep_ports _ _ _ _ Hrep) He) as (s2 & E & Hrep2); [apply lookup_insert_eq|].
    erewrite kbind_done by exact E. destruct (decode m sc) as [m' cs]. by exists s2.
  - destruct (keyboard_poll_rep s m q Hrep) as (s2 & E & Hrep2). erewrite kbind_done by exact E. by exists s2.
Qed.

(** C17: the keyboard driver: for any sequence of scan codes and polls, the polls
    return what the abstract keyboard returns: each scan code is decoded with the
    modifiers in force (shift selects the table, caps lock swaps the case of
    letters, control combinations, extended keys marked by 0xE0), its characters
    join a queue in order, dropped only when 255 are waiting, and a poll takes
    the oldest, or 0 when there is none.  The handler always returns, even when
    the controller never becomes ready. *)
Theorem keyboard_refines es s m q :
  kb_rep s m q -> Forall event_ok es ->
  exists s', kb_runs es s = Done ((kb_spec_run (m, q) es).2, s') /\
    kb_rep s' (kb_spec_run (m, q) es).1.1 (kb_spec_run (m, q) es).1.2.
Proof.
  intros Hrep Hes. revert s m q Hrep. induction Hes as [|e es He _ IH]; intros s m q Hrep; [by exists s|].
  destruct (kb_run_refines e s m q Hrep He) as (s1 & E1 & Hrep1). cbn [kb_runs kb_spec_run].
  destruct (kb_spec (m, q) e) as [[m1 q1] o1]. cbn [fst snd] in *. destruct (IH s1 m1 q1 Hrep1) as (s2 & E2 & Hrep2).
  destruct (kb_spec_run (m1, q1) es) as [[m2 q2] o2]. cbn [fst snd] in *.
  exists s2. erewrite kbind_done by exact E1. by erewrite kbind_done by exact E2.
Qed.

(** ** Witness: shift down, a, shift up, caps lock, b, and four polls *)

Definition demo_keyboard : keyboard := mk_kb (replicate 256 0) 250 250 (mk_mods 0 0 0 0 0 0 0) 0 (mk_ports ∅ []).

Lemma keyboard_refines_witness :
  exists s', kb_runs [Key 0x2A; Key 0x1E; Key 0xAA; Key 0x1E; Key 0x3A; Key 0x30; Poll; Poll; Poll; Poll] demo_keyboard =
    Done ([65; 97; 66; 0], s').
Proof.
  destruct (keyboard_refines [Key 0x2A; Key 0x1E; Key 0xAA; Key 0x1E; Key 0x3A; Key 0x30; Poll; Poll; Poll; Poll]
    demo_keyboard (mk_mods 0 0 0 0 0 0 0) []) as (s' & E & _).
  - constructor; try reflexivity; try (cbn; lia).
  - repeat constructor; cbn; lia.
  - exists s'. rewrite E. reflexivity.
Defined.
