(* ===== verification/Ata.v ===== *)
(** * drivers/block/ata.c: the ATA disk, programmed I/O

    The drive is the environment: a sparse image of 512-byte sectors (a sector
    never written reads as zeros), the task-file registers last written, and the
    values the status register will show; once these are used up the drive is
    ready with data.  A data transfer moves the sector the registers address, as
    the ATA standard says for READ SECTORS and WRITE SECTORS with 28-bit LBA. *)

From S2P Require Import Prelude Memory.

Definition ATA_DATA : Z := 0x1F0.
Definition ATA_COUNT : Z := 0x1F2.
Definition ATA_LBAlo : Z := 0x1F3.
Definition ATA_LBAmid : Z := 0x1F4.
Definition ATA_LBAhi : Z := 0x1F5.
Definition ATA_DRV : Z := 0x1F6.
Definition ATA_CMD : Z := 0x1F7.

Record ata := mk_ata { ata_regs : gmap Z Z; ata_status : list Z; ata_disk : gmap Z (list Z) }.

(** ** The drive *)

Definition sector (d : ata) (lba : Z) : list Z := default (replicate 512 0) (ata_disk d !! lba).
Definition ata_reg (d : ata) (port : Z) : Z := default 0 (ata_regs d !! port).
(** The sector the registers address. *)
Definition ata_lba (d : ata) : Z :=
  Z.lor (Z.lor (Z.lor (ata_reg d ATA_LBAlo) (Z.shiftl (ata_reg d ATA_LBAmid) 8)) (Z.shiftl (ata_reg d ATA_LBAhi) 16))
    (Z.shiftl (Z.land (ata_reg d ATA_DRV) 0x0F) 24).

Definition ata_outb (port v : Z) : M ata unit :=
  kmod (fun d => mk_ata (<[port := u8 v]> (ata_regs d)) (ata_status d) (ata_disk d)).
Definition ata_inb_status : M ata Z :=
  fun d =>
    match ata_status d with
    | v :: l => Done (u8 v, mk_ata (ata_regs d) l (ata_disk d))
    | [] => Done (0x08, d)
    end.
(** [insw(ATA_DATA, buf, 256)] and [outsw(ATA_DATA, buf, 256)] *)
Definition ata_insw : M ata (list Z) := kgets (fun d => sector d (ata_lba d)).
Definition ata_outsw (buf : list Z) : M ata unit :=
  kmod (fun d => mk_ata (ata_regs d) (ata_status d) (<[ata_lba d := buf]> (ata_disk d))).

(** ** Operations *)

(** [while ((inb(ATA_STATUS) & 0x80) && --timeout);] *)
Fixpoint bsy_loop (timeout : nat) : M ata unit :=
  let* st := ata_inb_status in
  if istrue (Z.land st 0x80) then match timeout with O | 1%nat => kret tt | S t => bsy_loop t end else kret tt.
Definition ata_wait_bsy : M ata unit := bsy_loop (Z.to_nat 1000000).

Fixpoint drq_loop (timeout : nat) : M ata bool :=
  match timeout with
  | O => kret false
  | S t =>
      let* st := ata_inb_status in
      if istrue (Z.land st 0x08) then kret true
      else if istrue (Z.land st 0x01) then kret false
      else if istrue (Z.land st 0x20) then kret false
      else drq_loop t
  end.
Definition ata_wait_drq : M ata bool := drq_loop (Z.to_nat 1000000).

Definition ata_command (lba cmd : Z) : M ata unit :=
  ata_outb ATA_DRV (Z.lor 0xE0 (Z.land (Z.shiftr lba 24) 0x0F));;;
  ata_outb ATA_COUNT 1;;;
  ata_outb ATA_LBAlo (Z.land lba 0xFF);;;
  ata_outb ATA_LBAmid (Z.land (Z.shiftr lba 8) 0xFF);;;
  ata_outb ATA_LBAhi (Z.land (Z.shiftr lba 16) 0xFF);;;
  ata_outb ATA_CMD cmd.

(** The 512 bytes for the caller's buffer; [None] is the result -1. *)
Definition ata_read_block (lba : Z) : M ata (option (list Z)) :=
  ata_command lba 0x20;;;
  ata_wait_bsy;;;
  let* ok := ata_wait_drq in
  if negb ok then kret None else
  let* data := ata_insw in
  kret (Some data).

Definition ata_write_block (lba : Z) (buf : list Z) : M ata Z :=
  ata_command lba 0x30;;;
  ata_wait_bsy;;;
  let* ok := ata_wait_drq in
  if negb ok then kret (-1) else
  ata_outsw buf;;;
  ata_outb ATA_CMD 0xE7;;;
  ata_wait_bsy;;;
  kret 0.

(** ** Lemmas *)

(** A bit field above another is an addition. *)
Lemma lor_shiftl_add a b k : 0 <= k -> 0 <= a < 2 ^ k -> 0 <= b -> Z.lor a (Z.shiftl b k) = a + b * 2 ^ k.
Proof.
  intros Hk Ha Hb. rewrite <- Z.shiftl_mul_pow2 by lia.
  assert (Z.land a (Z.shiftl b k) = 0) as Hd.
  { apply Z.bits_inj'. intros i Hi. rewrite Z.land_spec, Z.bits_0. destruct (decide (i < k)).
    - by rewrite Z.shiftl_spec_low, andb_false_r by lia.
    - by rewrite (testbit_range_high a k) by lia. }
  rewrite Z.add_nocarry_lxor by done. symmetry. by apply Z.lxor_lor.
Qed.

Lemma drv_field d : 0 <= d < 16 -> Z.land (u8 (Z.lor 0xE0 d)) 0x0F = d.
Proof.
  intros Hd. assert (forallb (fun d => Z.land (u8 (Z.lor 0xE0 d)) 0x0F =? d) (seqZ 0 16) = true) as Hall by (vm_compute; reflexivity).
  apply Z.eqb_eq. by apply (forallb_seqZ _ _ _ Hall).
Qed.

(** The registers hold the low 28 bits of the block number. *)
Lemma ata_lba_bits lba :
  0 <= lba ->
  Z.lor (Z.lor (Z.lor (u8 (Z.land lba 0xFF)) (Z.shiftl (u8 (Z.land (Z.shiftr lba 8) 0xFF)) 8))
      (Z.shiftl (u8 (Z.land (Z.shiftr lba 16) 0xFF)) 16))
    (Z.shiftl (Z.land (u8 (Z.lor 0xE0 (Z.land (Z.shiftr lba 24) 0x0F))) 0x0F) 24) = lba mod 2 ^ 28.
Proof.
  intros Hl. assert (forall x, Z.land x 0xFF = x mod 256) as H8 by (intros x; change 0xFF with (Z.ones 8); by rewrite Z.land_ones).
  assert (Z.land (Z.shiftr lba 24) 0x0F = (lba / 2 ^ 24) mod 16) as ->
    by (change 0x0F with (Z.ones 4); by rewrite Z.land_ones, Z.shiftr_div_pow2).
  rewrite drv_field by (apply Z.mod_pos_bound; lia). rewrite !H8, !Z.shiftr_div_pow2 by lia.
  assert (forall x, 0 <= x mod 256 < 256) as Hb by (intros; apply Z.mod_pos_bound; lia).
  rewrite !(wrap_small 8) by apply Hb.
  pose proof (Hb lba). pose proof (Hb (lba / 2 ^ 8)). pose proof (Hb (lba / 2 ^ 16)).
  assert (0 <= (lba / 2 ^ 24) mod 16 < 16) by (apply Z.mod_pos_bound; lia).
  rewrite (lor_shiftl_add _ _ 8), (lor_shiftl_add _ _ 16), (lor_shiftl_add _ _ 24) by lia.
  change (2 ^ 8) with 256. change (2 ^ 16) with 65536. change (2 ^ 24) with 16777216. change (2 ^ 28) with 268435456.
  Z.div_mod_to_equations. lia.
Qed.

Lemma ata_command_done lba cmd d :
  0 <= lba -> exists r, ata_command lba cmd d = Done (tt, mk_ata r (ata_status d) (ata_disk d)) /\
    forall st dk, ata_lba (mk_ata r st dk) = lba mod 2 ^ 28.
Proof.
  intros Hl. eexists. split; [reflexivity|]. intros st dk. rewrite <- ata_lba_bits by done.
  unfold ata_lba, ata_reg, ATA_LBAlo, ATA_LBAmid, ATA_LBAhi, ATA_DRV, ATA_CMD, ATA_COUNT. cbn [ata_regs].
  by simplify_map_eq.
Qed.

(** A drive that is never busy and always has its data: the status reads 0x08. *)
Definition drive_ready (d : ata) : Prop := ata_status d = [].

(** Polling the status only uses up status values, and it always ends. *)
Lemma ata_inb_done d :
  exists v l, ata_inb_status d = Done (v, mk_ata (ata_regs d) l (ata_disk d)) /\ (drive_ready d -> v = 0x08 /\ l = []).
Proof. unfold ata_inb_status, drive_ready. destruct d as [r [|v l] dk]; by eexists _, _. Qed.

Lemma bsy_loop_done t d :
  exists l, bsy_loop t d = Done (tt, mk_ata (ata_regs d) l (ata_disk d)) /\ (drive_ready d -> l = []).
Proof.
  revert d. induction t as [|t IH]; intros d; destruct (ata_inb_done d) as (v & l & E & Hr); cbn [bsy_loop];
    erewrite kbind_done by exact E; (destruct (istrue (Z.land v 0x80)); [|exists l; split; [done|]; intros Hd; apply Hr, Hd]);
    [exists l; split; [done|]; intros Hd; apply Hr, Hd|].
  destruct t as [|t]; [exists l; split; [done|]; intros Hd; apply Hr, Hd|].
  destruct (IH (mk_ata (ata_regs d) l (ata_disk d))) as (l' & E' & Hr'). exists l'. split; [exact E'|].
  intros Hd. apply Hr'. apply Hr, Hd.
Qed.

Lemma drq_loop_done t d :
  exists b l, drq_loop t d = Done (b, mk_ata (ata_regs d) l (ata_disk d)) /\ ((0 < t)%nat -> drive_ready d -> b = true /\ l = []).
Proof.
  revert d. induction t as [|t IH]; intros d; cbn [drq_loop]; [exists false, (ata_status d); split; [by destruct d|lia]|].
  destruct (ata_inb_done d) as (v & l & E & Hr). erewrite kbind_done by exact E.
  destruct (istrue (Z.land v 0x08)) eqn:E8; [exists true, l; split; [done|]; intros _ Hd; split; [done|apply Hr, Hd]|].
  assert (drive_ready d -> False) as Hn by (intros Hd; destruct (Hr Hd) as [-> _]; discriminate E8).
  destruct (istrue (Z.land v 0x01)); [exists false, l; tauto|]. destruct (istrue (Z.land v 0x20)); [exists false, l; tauto|].
  destruct (IH (mk_ata (ata_regs d) l (ata_disk d))) as (b & l' & E' & _). exists b, l'. split; [exact E'|tauto].
Qed.

(** A read returns the sector or fails; either way the disk is unchanged.  A drive
    that is ready does not fail. *)
Lemma ata_read_block_spec lba d :
  0 <= lba < 2 ^ 28 -> exists r d', ata_read_block lba d = Done (r, d') /\ ata_disk d' = ata_disk d /\
    (drive_ready d -> r = Some (sector d lba) /\ drive_ready d') /\ (r = None \/ r = Some (sector d lba)).
Proof.
  intros Hl. unfold ata_read_block, ata_wait_bsy, ata_wait_drq. assert (0 < Z.to_nat 1000000)%nat as Ht0 by lia. revert Ht0.
  generalize (Z.to_nat 1000000) as t. intros t Ht0.
  destruct (ata_command_done lba 0x20 d ltac:(lia)) as (r & E & Hlba). erewrite kbind_done by exact E.
  destruct (bsy_loop_done t (mk_ata r (ata_status d) (ata_disk d))) as (l & E2 & Hr2). erewrite kbind_done by exact E2.
  destruct (drq_loop_done t (mk_ata r l (ata_disk d))) as (b & l2 & E3 & Hr3). cbn [ata_regs ata_disk] in *.
  erewrite kbind_done by exact E3. destruct b; cbn [negb].
  - erewrite kbind_done by done. rewrite Hlba, Z.mod_small by lia. eexists _, _. split; [reflexivity|]. split; [done|].
    split; [|by right]. intros Hd. split; [done|]. apply Hr3; [done|]. by apply Hr2.
  - eexists _, _. split; [reflexivity|]. split; [done|]. split; [|by left]. intros Hd. by destruct (Hr3 Ht0 (Hr2 Hd)).
Qed.

(** A write stores the sector and returns 0, or returns -1 and changes nothing. *)
Lemma ata_write_block_spec lba buf d :
  0 <= lba < 2 ^ 28 -> exists r d', ata_write_block lba buf d = Done (r, d') /\
    (drive_ready d -> r = 0 /\ drive_ready d') /\
    (r = 0 /\ ata_disk d' = <[lba := buf]> (ata_disk d) \/ r = -1 /\ ata_disk d' = ata_disk d).
Proof.
  intros Hl. unfold ata_write_block, ata_wait_bsy, ata_wait_drq. assert (0 < Z.to_nat 1000000)%nat as Ht0 by lia. revert Ht0.
  generalize (Z.to_nat 1000000) as t. intros t Ht0.
  destruct (ata_command_done lba 0x30 d ltac:(lia)) as (r & E & Hlba). erewrite kbind_done by exact E.
  destruct (bsy_loop_done t (mk_ata r (ata_status d) (ata_disk d))) as (l & E2 & Hr2). erewrite kbind_done by exact E2.
  destruct (drq_loop_done t (mk_ata r l (ata_disk d))) as (b & l2 & E3 & Hr3). cbn [ata_regs ata_disk] in *.
  erewrite kbind_done by exact E3. destruct b; cbn [negb].
  - do 2 erewrite kbind_done by done. set (d1 := mk_ata _ _ _). destruct (bsy_loop_done t d1) as (l3 & E4 & Hr4).
    erewrite kbind_done by exact E4. eexists _, _. split; [reflexivity|].
    split; [intros Hd; split; [done|]; apply Hr4, Hr3; [done|by apply Hr2]|]. left. split; [done|].
    cbn [ata_disk d1]. by rewrite Hlba, Z.mod_small by lia.
  - eexists _, _. split; [reflexivity|]. split; [|by right]. intros Hd. by destruct (Hr3 Ht0 (Hr2 Hd)).
Qed.

Lemma sector_insert d d' lba buf : ata_disk d' = <[lba := buf]> (ata_disk d) ->
  sector d' lba = buf /\ forall n, n <> lba -> sector d' n = sector d n.
Proof.
  intros E. unfold sector. rewrite E. split; [by rewrite lookup_insert_eq|]. intros n Hn. by rewrite lookup_insert_ne.
Qed.
