(* ===== verification/FileSys.v ===== *)
(** * The file systems: fs/vfs.c, fs/proc/proc.c and fs/relisfs/relisfs.c

    Directory entries and the in-memory copies of disk inodes live in typed heaps
    by address; files and inodes are those of the kernel state, which [vfs_read]
    and the system calls share.  Results of [kmalloc] are not checked by the code:
    a store through a null pointer faults. *)

From S2P Require Import Prelude Memory ListHead SpinLock Slab PgTable FrameAlloc PageAlloc Paging AddrSpace VirtMem KState Sched Threads Ata.

(** ** State *)

Record dentry := mk_dentry {
  d_name : list Z;                (* char[64], up to the NUL *)
  d_inode : Z;
  d_parent : Z;
  d_children : list Z             (* the first d_child_count of 32 pointers *)
}.
Definition sizeof_dentry : Z := 344.

(** [relisfs_inode_t] *)
Record relisfs_inode := mk_rinode { ri_used : Z; ri_size : Z; ri_direct : Z; ri_name : list Z }.
Definition sizeof_relisfs_inode : Z := 76.
Definition RELISFS_MAGIC : Z := 0x52454C49.

Record fstate := mk_fstate {
  fs_k : kstate;
  fs_dentries : gmap Z dentry;
  root_dentry : Z;
  fs_ata : ata;
  block_buf : list Z;             (* uint8_t[512] *)
  fs_rinodes : gmap Z relisfs_inode
}.
Definition set_fs_k (x : kstate) (s : fstate) : fstate := mk_fstate x (fs_dentries s) (root_dentry s) (fs_ata s) (block_buf s) (fs_rinodes s).
Definition set_fs_dentries (x : gmap Z dentry) (s : fstate) : fstate := mk_fstate (fs_k s) x (root_dentry s) (fs_ata s) (block_buf s) (fs_rinodes s).
Definition set_root_dentry (x : Z) (s : fstate) : fstate := mk_fstate (fs_k s) (fs_dentries s) x (fs_ata s) (block_buf s) (fs_rinodes s).
Definition set_fs_ata (x : ata) (s : fstate) : fstate := mk_fstate (fs_k s) (fs_dentries s) (root_dentry s) x (block_buf s) (fs_rinodes s).
Definition set_block_buf (x : list Z) (s : fstate) : fstate := mk_fstate (fs_k s) (fs_dentries s) (root_dentry s) (fs_ata s) x (fs_rinodes s).
Definition set_fs_rinodes (x : gmap Z relisfs_inode) (s : fstate) : fstate := mk_fstate (fs_k s) (fs_dentries s) (root_dentry s) (fs_ata s) (block_buf s) x.

(** ** Operations *)

Section Operations.
Context `{Layout}.

Definition on_k {B} (m : M kstate B) : M fstate B := zoom fs_k set_fs_k m.
Definition on_ata {B} (m : M ata B) : M fstate B := zoom fs_ata set_fs_ata m.
Definition fs_kmalloc (size : Z) : M fstate Z := on_k (on_heap (kmalloc kernel_heap_region size)).
Definition dentry_get {B} (p : Z) (f : dentry -> B) : M fstate B := kopt (fun s => f <$> fs_dentries s !! p).
Definition put_dentry (p : Z) (d : dentry) : M fstate unit :=
  if p =? 0 then kfault else kmod (fun s => set_fs_dentries (<[p := d]> (fs_dentries s)) s).

(** *** vfs.c *)

(** A file system is its [mount] function; a null function is [None]. *)
Definition vfs_kern_mount (mount : option (M fstate Z)) : M fstate Z :=
  match mount with
  | None => kret 0
  | Some m => let* root := m in kmod (set_root_dentry root);;; kret root
  end.

(** The loop over the children: the first one with the name.  [kstrcmp] of two
    strings is 0 exactly when they are equal. *)
Fixpoint find_child (children : list Z) (name : list Z) : M fstate (option Z) :=
  match children with
  | [] => kret None
  | c :: rest =>
      let* n := dentry_get c d_name in
      if bool_decide (n = name) then kret (Some c) else find_child rest name
  end.

(** The end of a component: an empty one is skipped. *)
Definition enter (name : list Z) (current_d : Z) : M fstate (option Z) :=
  match name with
  | [] => kret (Some current_d)
  | _ => let* children := dentry_get current_d d_children in find_child children name
  end.

(** The loop over the path; [name] is the part of [char name[64]] in use, an index
    outside it faults. *)
Fixpoint walk_path (path name : list Z) (current_d : Z) : M fstate (option Z) :=
  match path with
  | [] => if (length name <? 64)%nat then enter name current_d else kfault
  | c :: rest =>
      if c =? 47 then
        if (length name <? 64)%nat then
          let* next := enter name current_d in
          match next with None => kret None | Some d => walk_path rest [] d end
        else kfault
      else if (length name <? 64)%nat then walk_path rest (name ++ [c]) current_d else kfault
  end.

Definition vfs_open (path : list Z) : M fstate Z :=
  let* root := kgets root_dentry in
  match path with
  | c :: rest =>
      if (root =? 0) || negb (c =? 47) then kret 0 else
      let* found := walk_path rest [] root in
      match found with
      | None => kret 0
      | Some d =>
          let* f := fs_kmalloc sizeof_file in
          let* i := dentry_get d d_inode in
          on_k (store_file f (mk_file d i 0));;;
          kret f
      end
  | [] => kret 0
  end.

(** *** proc.c *)

(** "processor : 0", "vendor_id : RELIS", "cpu MHz : 3000", each with a line feed *)
Definition cpuinfo_text : list Z :=
  [112; 114; 111; 99; 101; 115; 115; 111; 114; 32; 58; 32; 48; 10;
   118; 101; 110; 100; 111; 114; 95; 105; 100; 32; 58; 32; 82; 69; 76; 73; 83; 10;
   99; 112; 117; 32; 77; 72; 122; 32; 58; 32; 51; 48; 48; 48; 10].

Definition file_get {B} (f : Z) (g : file -> B) : M fstate B := kopt (fun s => g <$> k_files (fs_k s) !! f).
Definition set_f_pos (f pos : Z) : M fstate unit :=
  on_k (kupd (fun s =>
    match k_files s !! f with
    | Some x => Some (set_k_files (<[f := mk_file (f_dentry x) (f_inode x) pos]> (k_files s)) s)
    | None => None
    end)).
(** [kmemcpy] into and out of the caller's buffer. *)
Definition copy_to_caller (buf : Z) (bytes : list Z) : M fstate unit :=
  on_k (kupd (fun s =>
    match read_list (k_umem s) buf (length bytes) with
    | Some _ => Some (set_k_umem (write_list (k_umem s) buf bytes) s)
    | None => None
    end)).
Definition copy_from_caller (buf n : Z) : M fstate (list Z) :=
  on_k (kopt (fun s => read_list (k_umem s) buf (Z.to_nat n))).

Definition proc_cpuinfo_read (f buf count : Z) : M fstate Z :=
  let len := Z.of_nat (length cpuinfo_text) in
  let* pos := file_get f f_pos in
  if pos >=? len then kret 0 else
  let to_copy := u32 (len - pos) in
  let to_copy := if to_copy >? count then u32 count else to_copy in
  copy_to_caller buf (take (Z.to_nat to_copy) (drop (Z.to_nat pos) cpuinfo_text));;;
  set_f_pos f (u32 (pos + to_copy));;;
  kret to_copy.

(** "proc" and "cpuinfo" *)
Definition proc_name : list Z := [112; 114; 111; 99].
Definition cpuinfo_name : list Z := [99; 112; 117; 105; 110; 102; 111].

Definition proc_mount : M fstate Z :=
  let* root := fs_kmalloc sizeof_dentry in
  put_dentry root (mk_dentry proc_name 0 0 []);;;
  let* cpuinfo := fs_kmalloc sizeof_dentry in
  put_dentry cpuinfo (mk_dentry cpuinfo_name 0 root []);;;
  let* i := fs_kmalloc sizeof_inode in
  put_dentry cpuinfo (mk_dentry cpuinfo_name i root []);;;
  on_k (store_inode i (mk_inode 0 2 0 0 (Some CpuinfoFops)));;;
  put_dentry root (mk_dentry proc_name 0 0 [cpuinfo]);;;
  kret root.

(** *** relisfs.c *)

Definition rinode_bytes (r : relisfs_inode) : list Z :=
  le_split 4 (ri_used r) ++ le_split 4 (ri_size r) ++ le_split 4 (ri_direct r) ++ ri_name r.
Definition rinode_parse (l : list Z) : relisfs_inode :=
  mk_rinode (le_combine (take 4 l)) (le_combine (take 4 (drop 4 l))) (le_combine (take 4 (drop 8 l))) (take 64 (drop 12 l)).

(** [ata_read_block(lba, block_buf)]: the buffer keeps its contents on an error. *)
Definition read_block (lba : Z) : M fstate Z :=
  let* r := on_ata (ata_read_block lba) in
  match r with
  | Some data => kmod (set_block_buf data);;; kret 0
  | None => kret (-1)
  end.
Definition write_block (lba : Z) : M fstate Z :=
  let* b := kgets block_buf in
  on_ata (ata_write_block lba b).
(** [kmemcpy(block_buf + off, bytes, ...)], which faults outside the buffer. *)
Definition block_put (off : Z) (bytes : list Z) : M fstate unit :=
  kupd (fun s =>
    if off + Z.of_nat (length bytes) <=? Z.of_nat (length (block_buf s)) then
      Some (set_block_buf (take (Z.to_nat off) (block_buf s) ++ bytes ++ drop (Z.to_nat off + length bytes) (block_buf s)) s)
    else None).
Definition block_get (off n : Z) : M fstate (list Z) :=
  kopt (fun s =>
    if off + n <=? Z.of_nat (length (block_buf s)) then Some (take (Z.to_nat n) (drop (Z.to_nat off) (block_buf s))) else None).

Definition file_rinode (f : Z) : M fstate Z :=
  let* i := file_get f f_inode in
  on_k (kopt (fun s => i_private <$> k_inodes s !! i)).
Definition rinode_get {B} (p : Z) (g : relisfs_inode -> B) : M fstate B := kopt (fun s => g <$> fs_rinodes s !! p).

Definition relisfs_read (f buf count : Z) : M fstate Z :=
  let* inode := file_rinode f in
  if inode =? 0 then kret (-1) else
  let* used := rinode_get inode ri_used in
  if used =? 0 then kret (-1) else
  let* pos := file_get f f_pos in
  let* size := rinode_get inode ri_size in
  if pos >=? size then kret 0 else
  let count := if u64 (pos + count) >? size then u32 (size - pos) else count in
  let* block := rinode_get inode ri_direct in
  let* r := read_block block in
  if r <? 0 then kret (-1) else
  let* bytes := block_get pos count in
  copy_to_caller buf bytes;;;
  set_f_pos f (u32 (pos + count));;;
  kret count.

(** The inode goes back to slot 1 of the inode table in block 1. *)
Definition relisfs_write (f buf count : Z) : M fstate Z :=
  let* inode := file_rinode f in
  if inode =? 0 then kret (-1) else
  let* used := rinode_get inode ri_used in
  if used =? 0 then kret (-1) else
  let* block := rinode_get inode ri_direct in
  let* r := read_block block in
  if r <? 0 then kret (-1) else
  let* pos := file_get f f_pos in
  let* bytes := copy_from_caller buf count in
  block_put pos bytes;;;
  let* r := write_block block in
  if r <? 0 then kret (-1) else
  set_f_pos f (u32 (pos + count));;;
  let* pos' := file_get f f_pos in
  let* size := rinode_get inode ri_size in
  (if pos' >? size then
     kupd (fun s =>
       match fs_rinodes s !! inode with
       | Some r => Some (set_fs_rinodes (<[inode := mk_rinode (ri_used r) pos' (ri_direct r) (ri_name r)]> (fs_rinodes s)) s)
       | None => None
       end);;;
     let* r := read_block 1 in
     if r =? 0 then
       let* bytes := rinode_get inode rinode_bytes in
       block_put sizeof_relisfs_inode bytes;;;
       let* _ := write_block 1 in
       kret tt
     else kret tt
   else kret tt);;;
  kret count.

(** Making a new file system: superblock, empty inode table, the root inode. *)
Definition relisfs_format : M fstate unit :=
  block_put 0 (le_split 4 RELISFS_MAGIC);;;
  block_put 4 (le_split 4 64);;;
  block_put 8 (le_split 4 1);;;
  block_put 12 (le_split 4 2);;;
  let* _ := write_block 0 in
  kmod (set_block_buf (replicate 512 0));;;
  let* _ := write_block 1 in
  let root_inode := mk_rinode 1 0 2 (47 :: replicate 63 0) in
  let* _ := read_block 1 in
  block_put sizeof_relisfs_inode (rinode_bytes root_inode);;;
  let* _ := write_block 1 in
  kret tt.

Definition relisfs_mount : M fstate Z :=
  let* r := read_block 0 in
  if r <? 0 then kret 0 else
  let* magic := block_get 0 4 in
  (if negb (le_combine magic =? RELISFS_MAGIC) then relisfs_format else kret tt);;;
  let* root := fs_kmalloc sizeof_dentry in
  put_dentry root (mk_dentry [47] 0 0 []);;;
  let* i := fs_kmalloc sizeof_inode in
  put_dentry root (mk_dentry [47] i 0 []);;;
  on_k (store_inode i (mk_inode 0 0 0 0 (Some RelisfsFops)));;;
  let* _ := read_block 1 in
  let* disk_inode := fs_kmalloc sizeof_relisfs_inode in
  let* bytes := block_get sizeof_relisfs_inode sizeof_relisfs_inode in
  (if disk_inode =? 0 then kfault
   else kmod (fun s => set_fs_rinodes (<[disk_inode := rinode_parse bytes]> (fs_rinodes s)) s));;;
  on_k (store_inode i (mk_inode 0 0 0 disk_inode (Some RelisfsFops)));;;
  kret root.
End Operations.

(** ** Path resolution *)

Section VfsProperties.
Context `{Layout}.

(** [path_of cs p]: the path [p] (behind its leading slash) names the components
    [cs]; any number of slashes separates them. *)
Inductive path_of : list (list Z) -> list Z -> Prop :=
| po_end : path_of [] []
| po_slash cs p : path_of cs p -> path_of cs (47 :: p)
| po_name c cs p : c <> [] -> 47 ∉ c -> path_of cs p -> (p = [] \/ exists p', p = 47 :: p') -> path_of (c :: cs) (c ++ p).

(** The reference: follow the names from the root, first match first. *)
Definition has_name (s : fstate) (name : list Z) (c : Z) : bool :=
  match fs_dentries s !! c with Some e => bool_decide (d_name e = name) | None => false end.
Definition child_named (s : fstate) (d : Z) (name : list Z) : option Z :=
  match fs_dentries s !! d with
  | Some e => head (filter (has_name s name) (d_children e))
  | None => None
  end.
Fixpoint resolve (s : fstate) (d : Z) (cs : list (list Z)) : option Z :=
  match cs with
  | [] => Some d
  | c :: cs' => match child_named s d c with Some d' => resolve s d' cs' | None => None end
  end.

(** Children of entries are entries. *)
Definition tree_ok (s : fstate) : Prop :=
  forall d e c, fs_dentries s !! d = Some e -> c ∈ d_children e -> is_Some (fs_dentries s !! c).

Lemma dentry_get_done {B} s p (f : dentry -> B) e : fs_dentries s !! p = Some e -> dentry_get p f s = Done (f e, s).
Proof. intros E. apply kopt_some. by rewrite E. Qed.

Lemma find_child_done s l name :
  (forall c, c ∈ l -> is_Some (fs_dentries s !! c)) ->
  find_child l name s = Done (head (filter (has_name s name) l), s).
Proof.
  induction l as [|c l IH]; intros Hl; [done|]. cbn [find_child]. destruct (Hl c ltac:(set_solver)) as [e He].
  erewrite kbind_done by (apply dentry_get_done; exact He). rewrite filter_cons. unfold has_name at 1.
  assert (has_name s name c = bool_decide (d_name e = name)) as Hn by (unfold has_name; by rewrite He).
  destruct (bool_decide (d_name e = name)) eqn:Eb.
  - rewrite decide_True by (by rewrite Hn). done.
  - rewrite decide_False by (rewrite Hn; by intros []). apply IH. intros x Hx. apply Hl. set_solver.
Qed.

Lemma enter_done s d e name :
  tree_ok s -> fs_dentries s !! d = Some e -> name <> [] -> enter name d s = Done (child_named s d name, s).
Proof.
  intros Ht He Hn. unfold enter, child_named. destruct name as [|x name]; [done|].
  erewrite kbind_done by (apply dentry_get_done; exact He). rewrite He. apply find_child_done. intros c Hc. by eapply Ht.
Qed.

(** A component without slash goes to the name buffer. *)
Lemma walk_name s c p name d :
  47 ∉ c -> (length name + length c < 64)%nat -> walk_path (c ++ p) name d s = walk_path p (name ++ c) d s.
Proof.
  revert name. induction c as [|x c IH]; intros name Hc Hl; [by rewrite app_nil_r|].
  apply not_elem_of_cons in Hc as [Hx Hc]. simpl length in Hl. cbn [walk_path app].
  rewrite (proj2 (Z.eqb_neq x 47)) by done. rewrite (proj2 (Nat.ltb_lt _ _)) by lia.
  rewrite IH; [by rewrite <- app_assoc|done|rewrite length_app; simpl; lia].
Qed.

Lemma child_named_some s d name d' : tree_ok s -> child_named s d name = Some d' -> is_Some (fs_dentries s !! d').
Proof.
  intros Ht. unfold child_named. destruct (fs_dentries s !! d) as [e|] eqn:He; [|done]. intros Hh.
  destruct (filter (has_name s name) (d_children e)) as [|x l] eqn:Ef; [done|]. injection Hh as ->.
  apply (Ht d e d' He). assert (d' ∈ filter (has_name s name) (d_children e)) as Hin by (rewrite Ef; set_solver).
  by apply list_elem_of_filter in Hin as [_ Hin].
Qed.

Lemma path_of_nil cs : path_of cs [] -> cs = [].
Proof.
  intros Hp. remember [] as p eqn:E. destruct Hp as [|cs p _|c cs p Hc _ _ _]; [done|done|].
  by apply app_eq_nil in E as [-> _].
Qed.

Lemma walk_path_done s cs p d :
  tree_ok s -> path_of cs p -> Forall (fun c => (length c < 64)%nat) cs -> is_Some (fs_dentries s !! d) ->
  walk_path p [] d s = Done (resolve s d cs, s).
Proof.
  intros Ht Hp. revert d. induction Hp as [|cs p Hp IH|c cs p Hne Hsl Hp IH Hend]; intros d Hl Hd.
  - done.
  - cbn [walk_path]. change (47 =? 47) with true. cbn [length Nat.ltb Nat.leb]. erewrite kbind_done by done. by apply IH.
  - apply Forall_cons in Hl as [Hc Hl]. destruct Hd as [e He]. rewrite walk_name by (simpl; lia || done). cbn [app resolve].
    destruct Hend as [->|[p' ->]].
    + rewrite (path_of_nil cs Hp). cbn [walk_path]. rewrite (proj2 (Nat.ltb_lt _ _)) by lia.
      rewrite (enter_done s d e) by done. by destruct (child_named s d c).
    + cbn [walk_path]. change (47 =? 47) with true. cbv iota. rewrite (proj2 (Nat.ltb_lt _ _)) by lia.
      erewrite kbind_done by (by apply (enter_done s d e)). destruct (child_named s d c) as [d'|] eqn:Ec; [|done].
      specialize (IH d' Hl (child_named_some _ _ _ _ Ht Ec)). cbn [walk_path] in IH. change (47 =? 47) with true in IH.
      cbn [length Nat.ltb Nat.leb] in IH. by erewrite kbind_done in IH by done.
Qed.

Lemma resolve_some s d cs d' :
  tree_ok s -> is_Some (fs_dentries s !! d) -> resolve s d cs = Some d' -> is_Some (fs_dentries s !! d').
Proof.
  intros Ht. revert d. induction cs as [|c cs IH]; intros d Hd Hr; cbn [resolve] in Hr; [by injection Hr as <-|].
  destruct (child_named s d c) as [d1|] eqn:Ec; [|done]. apply (IH d1); [by eapply child_named_some|done].
Qed.

Hypothesis heap_base : 0 < kernel_heap_region /\ kernel_heap_region mod 16 = 0.

(** Opening a path that resolves: a new file, and nothing else but the heap
    pointer changes. *)
Lemma vfs_open_found s cs p d :
  tree_ok s -> root_dentry s <> 0 -> is_Some (fs_dentries s !! root_dentry s) ->
  path_of cs p -> Forall (fun c => (length c < 64)%nat) cs -> resolve s (root_dentry s) cs = Some d ->
  slab_inv (k_slab (fs_k s)) -> heap_ptr (k_slab (fs_k s)) + sizeof_file <= kernel_heap_size ->
  exists f sl e, fs_dentries s !! d = Some e /\ f <> 0 /\ heap_ptr (k_slab (fs_k s)) < heap_ptr sl /\
    vfs_open (47 :: p) s =
    Done (f, set_fs_k (set_k_files (<[f := mk_file d (d_inode e) 0]> (k_files (fs_k s))) (set_k_slab sl (fs_k s))) s).
Proof using heap_base.
  intros Ht Hr Hroot Hp Hl Er Hslab Hroom. pose proof (walk_path_done s cs p _ Ht Hp Hl Hroot) as Hw. rewrite Er in Hw.
  destruct heap_base as [Hb Hba]. destruct (resolve_some s _ cs d Ht Hroot Er) as [e He]. pose proof Hslab as (_ & Hhp & _).
  destruct (kmalloc_room heap_base (fs_k s) sizeof_file Hslab) as (sl & E & _ & Hsl); [by split|done|].
  exists (kernel_heap_region + heap_ptr (k_slab (fs_k s))), sl, e. set (f := kernel_heap_region + _) in *.
  assert (f <> 0) as Hf by (unfold f; lia). split; [done|]. split; [done|]. split; [unfold sizeof_file in *; lia|].
  unfold vfs_open. erewrite kbind_done by done. change (negb (47 =? 47)) with false.
  rewrite (proj2 (Z.eqb_neq _ 0) Hr). cbn [orb]. erewrite kbind_done by exact Hw.
  cbv beta iota. erewrite kbind_done by (apply zoom_done; exact E). erewrite kbind_done by (apply dentry_get_done; exact He).
  erewrite kbind_done; [|apply zoom_done; unfold store_file; rewrite (proj2 (Z.eqb_neq f 0) Hf); reflexivity]. done.
Qed.

(** Opening a path that is not absolute, or that does not resolve. *)
Lemma vfs_open_relative s l : head l <> Some 47 -> vfs_open l s = Done (0, s).
Proof.
  intros Hh. unfold vfs_open. erewrite kbind_done by done. destruct l as [|c l]; [done|].
  destruct (Z.eqb_spec c 47) as [->|]; [by destruct Hh|]. by rewrite orb_true_r.
Qed.
Lemma vfs_open_missing s cs p :
  tree_ok s -> root_dentry s <> 0 -> is_Some (fs_dentries s !! root_dentry s) -> path_of cs p ->
  Forall (fun c => (length c < 64)%nat) cs -> resolve s (root_dentry s) cs = None -> vfs_open (47 :: p) s = Done (0, s).
Proof.
  intros Ht Hr Hroot Hp Hl Hres. unfold vfs_open. erewrite kbind_done by done.
  rewrite (proj2 (Z.eqb_neq _ 0) Hr). cbn [orb negb Z.eqb Pos.eqb].
  erewrite kbind_done by (by apply (walk_path_done s cs p)). by rewrite Hres.
Qed.

(** C33: [vfs_open] resolves an absolute path as the tree does: the components,
    separated by any number of slashes, are followed from the root, the first
    child of that name each time.  When one is missing the answer is NULL and
    nothing changes; otherwise a new file at position 0 refers to the entry found
    and to its inode.  (Every component must be shorter than the 64-byte name
    buffer.) *)
Theorem vfs_open_resolves s cs p :
  tree_ok s -> root_dentry s <> 0 -> is_Some (fs_dentries s !! root_dentry s) ->
  path_of cs p -> Forall (fun c => (length c < 64)%nat) cs ->
  match resolve s (root_dentry s) cs with
  | None => vfs_open (47 :: p) s = Done (0, s)
  | Some d =>
      slab_inv (k_slab (fs_k s)) -> heap_ptr (k_slab (fs_k s)) + sizeof_file <= kernel_heap_size ->
      exists f s' e, vfs_open (47 :: p) s = Done (f, s') /\ f <> 0 /\ fs_dentries s !! d = Some e /\
        k_files (fs_k s') = <[f := mk_file d (d_inode e) 0]> (k_files (fs_k s)) /\
        fs_dentries s' = fs_dentries s /\ k_inodes (fs_k s') = k_inodes (fs_k s) /\ k_tasks (fs_k s') = k_tasks (fs_k s)
  end.
Proof using heap_base.
  intros Ht Hr Hroot Hp Hl. destruct (resolve s (root_dentry s) cs) as [d|] eqn:Er; [|by apply (vfs_open_missing s cs)].
  intros Hslab Hroom. destruct (vfs_open_found s cs p d) as (f & sl & e & He & Hf & _ & E); try done.
  eexists f, _, e. split; [exact E|]. done.
Qed.
End VfsProperties.

(** ** Reading and writing on disk *)

Section RelisfsProperties.

Definition disk_ok (d : ata) : Prop := forall lba, length (sector d lba) = 512%nat.

(** The bytes [data] stored at [pos] in a block. *)
Definition splice (pos : Z) (data block : list Z) : list Z :=
  take (Z.to_nat pos) block ++ data ++ drop (Z.to_nat pos + length data) block.

Lemma length_splice pos data block :
  0 <= pos -> pos + Z.of_nat (length data) <= Z.of_nat (length block) -> length (splice pos data block) = length block.
Proof. intros. unfold splice. rewrite !length_app, length_take, length_drop. lia. Qed.

Lemma splice_get pos data block :
  0 <= pos -> pos + Z.of_nat (length data) <= Z.of_nat (length block) ->
  take (length data) (drop (Z.to_nat pos) (splice pos data block)) = data.
Proof.
  intros Hp Hl. unfold splice. rewrite drop_app_length' by (rewrite length_take; lia). by rewrite take_app_length.
Qed.

(** The two block operations: only the drive and the buffer change. *)
Lemma read_block_done lba s :
  0 <= lba < 2 ^ 28 -> exists r d b, read_block lba s = Done (r, set_block_buf b (set_fs_ata d s)) /\
    ata_disk d = ata_disk (fs_ata s) /\ (drive_ready (fs_ata s) -> r = 0 /\ drive_ready d) /\
    (r = 0 /\ b = sector (fs_ata s) lba \/ r = -1 /\ b = block_buf s).
Proof.
  intros Hl. unfold read_block. destruct (ata_read_block_spec lba (fs_ata s) Hl) as (r & d & E & Hd & Hrd & Hr).
  erewrite kbind_done by (apply zoom_done; exact E). destruct Hr as [-> | ->].
  - exists (-1), d, (block_buf s). split; [by destruct s|]. split; [done|]. split; [|by right]. intros H0. by destruct (Hrd H0).
  - exists 0, d, (sector (fs_ata s) lba). split; [done|]. split; [done|]. split; [|by left]. intros H0. split; [done|by apply Hrd].
Qed.

Lemma write_block_done lba s :
  0 <= lba < 2 ^ 28 -> exists r d, write_block lba s = Done (r, set_fs_ata d s) /\
    (drive_ready (fs_ata s) -> r = 0 /\ drive_ready d) /\
    (r = 0 /\ ata_disk d = <[lba := block_buf s]> (ata_disk (fs_ata s)) \/ r = -1 /\ ata_disk d = ata_disk (fs_ata s)).
Proof.
  intros Hl. unfold write_block. erewrite kbind_done by done.
  destruct (ata_write_block_spec lba (block_buf s) (fs_ata s) Hl) as (r & d & E & Hrd & Hr).
  exists r, d. split; [by apply zoom_done|done].
Qed.

Lemma block_put_done pos data s :
  0 <= pos -> pos + Z.of_nat (length data) <= Z.of_nat (length (block_buf s)) ->
  block_put pos data s = Done (tt, set_block_buf (splice pos data (block_buf s)) s).
Proof. intros Hp Hl. apply kupd_some. by rewrite (proj2 (Z.leb_le _ _) Hl). Qed.

(** [f] is open at [pos] on the disk inode [p], whose contents are [ri]. *)
Record open_on (s : fstate) (f p pos : Z) (ri : relisfs_inode) : Prop := {
  oo_file : exists d i x, k_files (fs_k s) !! f = Some (mk_file d i pos) /\ k_inodes (fs_k s) !! i = Some x /\ i_private x = p;
  oo_inode : fs_rinodes s !! p = Some ri
}.

Lemma file_get_done {B} s f (g : file -> B) x : k_files (fs_k s) !! f = Some x -> file_get f g s = Done (g x, s).
Proof. intros E. apply kopt_some. by rewrite E. Qed.
Lemma rinode_get_done {B} s p (g : relisfs_inode -> B) r : fs_rinodes s !! p = Some r -> rinode_get p g s = Done (g r, s).
Proof. intros E. apply kopt_some. by rewrite E. Qed.
Lemma set_fs_k_id s : set_fs_k (fs_k s) s = s.
Proof. by destruct s. Qed.
Lemma file_rinode_done s f p pos ri : open_on s f p pos ri -> file_rinode f s = Done (p, s).
Proof.
  intros [(d & i & x & Hf & Hi & Hx) _]. unfold file_rinode. erewrite kbind_done by (apply file_get_done; exact Hf).
  etrans; [apply zoom_done, kopt_some; cbn [f_inode]; rewrite Hi; reflexivity|]. by rewrite set_fs_k_id, Hx.
Qed.
Lemma open_on_pos {B} s f p pos ri (k : Z -> M fstate B) : open_on s f p pos ri -> kbind (file_get f f_pos) k s = k pos s.
Proof. intros [(d & i & x & Hf & _) _]. by erewrite kbind_done by (apply file_get_done; exact Hf). Qed.
Lemma open_on_blocks s f p pos ri b d : open_on s f p pos ri -> open_on (set_block_buf b (set_fs_ata d s)) f p pos ri.
Proof. intros [? ?]. by constructor. Qed.

(** A read inside one block. *)
Lemma relisfs_read_spec s f p pos ri buf n :
  open_on s f p pos ri -> p <> 0 -> ri_used ri <> 0 -> 0 <= ri_direct ri < 2 ^ 28 -> 0 <= pos -> 0 < n ->
  pos + n <= ri_size ri -> ri_size ri <= 512 -> disk_ok (fs_ata s) -> mapped (k_umem (fs_k s)) buf n ->
  exists r s', relisfs_read f buf n s = Done (r, s') /\ ata_disk (fs_ata s') = ata_disk (fs_ata s) /\
    (drive_ready (fs_ata s) -> r = n) /\
    (r = -1 \/ r = n /\ bytes_at (k_umem (fs_k s')) buf (take (Z.to_nat n) (drop (Z.to_nat pos) (sector (fs_ata s) (ri_direct ri))))).
Proof.
  intros Ho Hp Hu Hd Hpos Hn Hsz Hmax Hdisk Hm. unfold relisfs_read.
  erewrite kbind_done by (by eapply file_rinode_done). rewrite (proj2 (Z.eqb_neq p 0)) by done.
  erewrite kbind_done by (apply rinode_get_done; apply Ho). rewrite (proj2 (Z.eqb_neq _ 0)) by done.
  erewrite open_on_pos by exact Ho. erewrite kbind_done by (apply rinode_get_done; apply Ho).
  rewrite Z.geb_leb, (proj2 (Z.leb_gt (ri_size ri) pos)) by lia. rewrite (wrap_small 64) by lia.
  rewrite Z.gtb_ltb, (proj2 (Z.ltb_ge (ri_size ri) (pos + n))) by lia.
  erewrite kbind_done by (apply rinode_get_done; apply Ho).
  destruct (read_block_done (ri_direct ri) s Hd) as (r & d & b & E & Hdk & Hrd & [[-> ->]|[-> ->]]);
    (erewrite kbind_done by exact E); cbn [Z.ltb Z.compare].
  2: { eexists _, _. split; [reflexivity|]. split; [done|]. split; [|by left]. intros H0. by destruct (Hrd H0). }
  set (blk := sector (fs_ata s) (ri_direct ri)) in *. set (data := take (Z.to_nat n) (drop (Z.to_nat pos) blk)).
  assert (length blk = 512%nat) as Hlb by apply Hdisk.
  assert (length data = Z.to_nat n) as Hld by (unfold data; rewrite length_take, length_drop; lia).
  erewrite kbind_done; [|apply kopt_some; cbn [block_buf set_block_buf]; rewrite (proj2 (Z.leb_le _ _)) by lia; reflexivity].
  fold data. destruct (mapped_read_list (k_umem (fs_k s)) buf (length data)) as [x Hx]; [apply (mapped_weaken _ _ n _ _ Hm); lia|].
  erewrite kbind_done; [|apply zoom_done, kupd_some; cbn [fs_k set_block_buf set_fs_ata]; rewrite Hx; reflexivity].
  destruct Ho as [(dd & i & xi & Hf & _) _].
  erewrite kbind_done; [|apply zoom_done, kupd_some; cbn [k_files set_k_umem fs_k set_fs_k]; rewrite Hf; reflexivity].
  eexists _, _. split; [reflexivity|]. split; [done|]. split; [done|]. right. split; [done|]. apply write_list_bytes_at.
Qed.

(** Storing the inode in block 1: whatever the drive does, no other block changes. *)
Lemma store_inode_done s p ri :
  fs_rinodes s !! p = Some ri -> length (ri_name ri) = 64%nat -> disk_ok (fs_ata s) ->
  exists d b, (let* r := read_block 1 in
    if r =? 0 then
      let* bytes := rinode_get p rinode_bytes in
      block_put sizeof_relisfs_inode bytes;;;
      let* _ := write_block 1 in kret tt
    else kret tt) s = Done (tt, set_block_buf b (set_fs_ata d s)) /\
    disk_ok d /\ (forall n, n <> 1 -> sector d n = sector (fs_ata s) n) /\
    (drive_ready (fs_ata s) -> drive_ready d /\
       sector d 1 = splice sizeof_relisfs_inode (rinode_bytes ri) (sector (fs_ata s) 1)).
Proof.
  intros Hr Hn Hdisk. destruct (read_block_done 1 s ltac:(lia)) as (r & d & b & E & Hdk & Hrd & Hb). erewrite kbind_done by exact E.
  assert (forall n, sector d n = sector (fs_ata s) n) as Hsec by (intros n; unfold sector; by rewrite Hdk).
  assert (disk_ok d) as Hdd by (intros n; rewrite Hsec; apply Hdisk).
  destruct Hb as [[-> ->]|[-> ->]]; cbn [Z.eqb];
    [|exists d, (block_buf s); do 3 (split; [done|]); intros H0; by destruct (Hrd H0)].
  erewrite kbind_done by (apply rinode_get_done; exact Hr).
  assert (length (rinode_bytes ri) = 76%nat) as Hlen by (unfold rinode_bytes; rewrite !length_app, !length_le_split, Hn; lia).
  assert (length (sector (fs_ata s) 1) = 512%nat) as H512 by apply Hdisk.
  erewrite kbind_done by (apply block_put_done; cbn [block_buf set_block_buf]; unfold sizeof_relisfs_inode; lia).
  cbn [block_buf set_block_buf]. set (b1 := splice _ _ _).
  assert (length b1 = 512%nat) as Hb1 by (unfold b1; rewrite length_splice; unfold sizeof_relisfs_inode; lia).
  match goal with |- context [kbind (write_block 1) _ ?st] => destruct (write_block_done 1 st ltac:(lia)) as (r & d2 & E2 & Hrd2 & Hr2) end.
  erewrite kbind_done by exact E2. exists d2, b1. split; [done|].
  destruct Hr2 as [[_ Hd2]|[-> Hd2]]; cbn [fs_ata block_buf set_block_buf set_fs_ata] in Hd2.
  - destruct (sector_insert d d2 1 b1 Hd2) as [S1 S2]. split; [|split].
    + intros n. destruct (decide (n = 1)) as [-> |Hne]; [by rewrite S1|by rewrite S2].
    + intros n Hne. by rewrite S2.
    + intros H0. split; [|exact S1]. apply Hrd2. apply Hrd, H0.
  - assert (forall n, sector d2 n = sector d n) as Hs2 by (intros n; unfold sector; by rewrite Hd2).
    split; [intros n; by rewrite Hs2|]. split; [intros n _; by rewrite Hs2|]. intros H0. destruct (Hrd H0) as [_ H1]. by destruct (Hrd2 H1).
Qed.

Definition grown_inode (ri : relisfs_inode) (pos : Z) : relisfs_inode :=
  mk_rinode (ri_used ri) (Z.max (ri_size ri) pos) (ri_direct ri) (ri_name ri).

(** A write inside one block either fails and changes no sector, or stores the
    bytes in the file's block and keeps the size up to date. *)
Lemma relisfs_write_spec s f p pos ri buf data :
  let n := Z.of_nat (length data) in
  open_on s f p pos ri -> p <> 0 -> ri_used ri <> 0 -> 0 <= ri_direct ri < 2 ^ 28 -> ri_direct ri <> 1 ->
  length (ri_name ri) = 64%nat -> 0 <= pos -> pos + n <= 512 -> disk_ok (fs_ata s) ->
  read_list (k_umem (fs_k s)) buf (length data) = Some data ->
  exists r s', relisfs_write f buf n s = Done (r, s') /\
    (drive_ready (fs_ata s) -> r = n /\ drive_ready (fs_ata s') /\
       sector (fs_ata s') 1 = if ri_size ri <? pos + n
         then splice sizeof_relisfs_inode (rinode_bytes (grown_inode ri (pos + n))) (sector (fs_ata s) 1) else sector (fs_ata s) 1) /\
    (r = -1 /\ ata_disk (fs_ata s') = ata_disk (fs_ata s) \/
     r = n /\ disk_ok (fs_ata s') /\ sector (fs_ata s') (ri_direct ri) = splice pos data (sector (fs_ata s) (ri_direct ri)) /\
     (forall lba, lba <> ri_direct ri -> lba <> 1 -> sector (fs_ata s') lba = sector (fs_ata s) lba) /\
     fs_rinodes s' = <[p := grown_inode ri (pos + n)]> (fs_rinodes s) /\
     (forall g, g <> f -> k_files (fs_k s') !! g = k_files (fs_k s) !! g) /\ k_inodes (fs_k s') = k_inodes (fs_k s) /\
     k_umem (fs_k s') = k_umem (fs_k s) /\ open_on s' f p (pos + n) (grown_inode ri (pos + n))).
Proof.
  intros n Ho Hp Hu Hd Hd1 Hname Hpos Hfit Hdisk Hdata. unfold relisfs_write.
  erewrite kbind_done by (by eapply file_rinode_done). rewrite (proj2 (Z.eqb_neq p 0)) by done.
  erewrite kbind_done by (apply rinode_get_done; apply Ho). rewrite (proj2 (Z.eqb_neq _ 0)) by done.
  erewrite kbind_done by (apply rinode_get_done; apply Ho).
  destruct (read_block_done (ri_direct ri) s Hd) as (r & d & b & E & Hdk & Hrd & Hb). erewrite kbind_done by exact E.
  destruct Hb as [[-> ->]|[-> ->]]; cbn [Z.ltb Z.compare];
    [|eexists _, _; split; [reflexivity|]; split; [intros H0; by destruct (Hrd H0)|by left]].
  set (blk := sector (fs_ata s) (ri_direct ri)) in *. assert (length blk = 512%nat) as Hlb by apply Hdisk.
  set (s1 := set_block_buf blk (set_fs_ata d s)). pose proof (open_on_blocks s f p pos ri blk d Ho : open_on s1 f p pos ri) as Ho1.
  erewrite open_on_pos by exact Ho1.
  erewrite kbind_done; [|etrans; [apply zoom_done, kopt_some; unfold n; rewrite Nat2Z.id; exact Hdata|by rewrite set_fs_k_id]].
  erewrite kbind_done by (apply block_put_done; cbn [block_buf set_block_buf s1]; lia).
  change (block_buf s1) with blk. set (blk' := splice pos data blk). set (s2 := set_block_buf blk' s1).
  destruct (write_block_done (ri_direct ri) s2 Hd) as (r & d2 & E2 & Hrd2 & Hr2). erewrite kbind_done by exact E2.
  destruct Hr2 as [[-> Hd2]|[-> Hd2]]; cbn [Z.ltb Z.compare].
  2: { eexists _, _. split; [reflexivity|]. split; [intros H0; destruct (Hrd H0) as [_ H1]; by destruct (Hrd2 H1)|]. left. split; [done|]. cbn. rewrite Hd2. exact Hdk. }
  pose proof Ho as [(dd & i & xi & Hf & Hi & Hxi) Hri].
  erewrite kbind_done; [|apply zoom_done, kupd_some; cbn [fs_k set_fs_ata s2 s1 set_block_buf]; rewrite Hf; reflexivity].
  cbn [f_dentry f_inode]. rewrite wrap_small by lia. set (s3 := set_fs_k _ _).
  assert (k_files (fs_k s3) !! f = Some (mk_file dd i (pos + n))) as Hf3 by apply lookup_insert_eq.
  erewrite kbind_done by (apply file_get_done; exact Hf3). cbn [f_pos].
  erewrite kbind_done by (apply (rinode_get_done s3 p ri_size ri); exact Hri).
  assert (fs_ata s3 = d2) as Ha3 by done.
  destruct (sector_insert d d2 (ri_direct ri) blk' Hd2) as [S1 S2].
  assert (length blk' = 512%nat) as Hlb' by (unfold blk'; rewrite length_splice; lia).
  assert (forall lba, sector d lba = sector (fs_ata s) lba) as Hsd by (intros lba; unfold sector; by rewrite Hdk).
  assert (disk_ok d2) as Hdd.
  { intros lba. destruct (decide (lba = ri_direct ri)) as [-> |Hne]; [by rewrite S1|]. rewrite S2, Hsd by done. apply Hdisk. }
  rewrite Z.gtb_ltb. destruct (Z.ltb_spec (ri_size ri) (pos + n)).
  - set (s4 := set_fs_rinodes (<[p := mk_rinode (ri_used ri) (pos + n) (ri_direct ri) (ri_name ri)]> (fs_rinodes s3)) s3).
    assert (kupd (fun s => match fs_rinodes s !! p with Some r => Some (set_fs_rinodes (<[p := mk_rinode (ri_used r) (pos + n)
       (ri_direct r) (ri_name r)]> (fs_rinodes s)) s) | None => None end) s3 = Done (tt, s4)) as Eu.
    { apply kupd_some. change (fs_rinodes s3) with (fs_rinodes s). by rewrite Hri. }
    destruct (store_inode_done s4 p (mk_rinode (ri_used ri) (pos + n) (ri_direct ri) (ri_name ri))) as (d5 & b5 & E5 & Hd5 & Hs5 & Hr5);
      [apply lookup_insert_eq|done|done|].
    erewrite kbind_done by (erewrite kbind_done by exact Eu; exact E5).
    eexists _, _. split; [reflexivity|]. split.
    { intros H0. split; [done|]. destruct Hr5 as [Hr5 Hs1]; [apply Hrd2, Hrd, H0|]. split; [exact Hr5|].
      etrans; [exact Hs1|]. change (fs_ata s4) with d2. unfold grown_inode. rewrite Z.max_r by lia. rewrite S2, Hsd by done. reflexivity. }
    right. split; [done|]. split; [done|].
    split; [cbn [fs_ata set_block_buf set_fs_ata]; rewrite Hs5 by done; exact S1|].
    split; [intros lba L1 L2; cbn [fs_ata set_block_buf set_fs_ata]; rewrite Hs5 by done; rewrite <- Hsd; by apply S2|].
    split; [unfold grown_inode; rewrite Z.max_r by lia; done|]. split; [intros g Hg; by apply lookup_insert_ne|].
    do 2 (split; [done|]). constructor; [by exists dd, i, xi|]. unfold grown_inode. rewrite Z.max_r by lia. apply lookup_insert_eq.
  - erewrite kbind_done by done. eexists _, _. split; [reflexivity|].
    split; [intros H0; split; [done|]; split; [apply Hrd2, Hrd, H0|]; rewrite <- Hsd; by apply S2|].
    right. split; [done|]. split; [done|]. split; [exact S1|].
    split; [intros lba L1 L2; rewrite <- Hsd; by apply S2|].
    assert (grown_inode ri (pos + n) = ri) as -> by (unfold grown_inode; rewrite Z.max_l by lia; by destruct ri).
    split; [change (fs_rinodes s3) with (fs_rinodes s); by rewrite insert_id|].
    split; [intros g Hg; by apply lookup_insert_ne|]. do 2 (split; [done|]). constructor; [by exists dd, i, xi|exact Hri].
Qed.

(** C14: what is written to a file can be read back.  A [relisfs_write] of bytes
    inside the file's block succeeds on a drive that is ready: it returns the
    count, the block holds the bytes at the file's position and is otherwise
    unchanged, no other block but the inode table changes, the position moves
    past the bytes and the size grows to hold them, in memory and in the inode
    table.  A [relisfs_read] at the same position through any other open file of
    the inode then succeeds on the ready drive and returns exactly these bytes.
    On a drive that is not ready, whatever its status register answers, a failed
    write changes no sector and a read that succeeds returns these bytes. *)
Theorem relisfs_write_read s f g p pos ri buf buf2 data :
  let n := Z.of_nat (length data) in
  let ri' := grown_inode ri (pos + n) in
  open_on s f p pos ri -> open_on s g p pos ri -> f <> g -> p <> 0 -> ri_used ri <> 0 ->
  0 <= ri_direct ri < 2 ^ 28 -> ri_direct ri <> 1 -> length (ri_name ri) = 64%nat -> ri_size ri <= 512 ->
  0 <= pos -> 0 < n -> pos + n <= 512 -> disk_ok (fs_ata s) ->
  read_list (k_umem (fs_k s)) buf (length data) = Some data -> mapped (k_umem (fs_k s)) buf2 n ->
  exists r s1, relisfs_write f buf n s = Done (r, s1) /\
    (drive_ready (fs_ata s) -> r = n /\ drive_ready (fs_ata s1) /\
       sector (fs_ata s1) 1 = if ri_size ri <? pos + n
         then splice sizeof_relisfs_inode (rinode_bytes ri') (sector (fs_ata s) 1) else sector (fs_ata s) 1) /\
    (r = -1 /\ ata_disk (fs_ata s1) = ata_disk (fs_ata s) \/
     r = n /\ sector (fs_ata s1) (ri_direct ri) = splice pos data (sector (fs_ata s) (ri_direct ri)) /\
     (forall lba, lba <> ri_direct ri -> lba <> 1 -> sector (fs_ata s1) lba = sector (fs_ata s) lba) /\
     open_on s1 f p (pos + n) ri' /\ open_on s1 g p pos ri' /\
     exists r2 s2, relisfs_read g buf2 n s1 = Done (r2, s2) /\ (drive_ready (fs_ata s1) -> r2 = n) /\
       (r2 = -1 \/ r2 = n /\ bytes_at (k_umem (fs_k s2)) buf2 data)).
Proof.
  intros n ri' Hof Hog Hfg Hp Hu Hd Hd1 Hname Hsz Hpos Hn Hfit Hdisk Hdata Hm.
  destruct (relisfs_write_spec s f p pos ri buf data Hof Hp Hu Hd Hd1 Hname Hpos Hfit Hdisk Hdata)
    as (r & s1 & E & Hready & Hcase). exists r, s1. split; [exact E|]. split; [exact Hready|].
  destruct Hcase as [Hfail|(-> & Hdk & Hsec & Hoth & Hri & Hfiles & Hino & Hum & Hof1)]; [by left|].
  right. split; [done|]. split; [exact Hsec|]. split; [exact Hoth|]. split; [exact Hof1|].
  destruct Hog as [(dg & ig & xg & Hg & Hig & Hxg) _].
  assert (open_on s1 g p pos ri') as Hog1.
  { constructor; [exists dg, ig, xg; split; [by rewrite Hfiles|split; [by rewrite Hino|done]]|]. rewrite Hri. apply lookup_insert_eq. }
  split; [exact Hog1|].
  destruct (relisfs_read_spec s1 g p pos ri' buf2 n) as (r2 & s2 & E2 & _ & Hready2 & Hr2); try done.
  - cbn. lia.
  - cbn. lia.
  - by rewrite Hum.
  - exists r2, s2. split; [done|]. split; [exact Hready2|]. destruct Hr2 as [->|[-> Hb]]; [by left|]. right. split; [done|].
    cbn [ri_direct grown_inode ri'] in Hb. rewrite Hsec in Hb. unfold n in Hb. rewrite Nat2Z.id, splice_get in Hb; [exact Hb|lia|].
    rewrite Hdisk. lia.
Qed.
End RelisfsProperties.
