(* ===== verification/Persist.v ===== *)
(** * A file outlives the kernel that wrote it: relisfs across two mounts

    [volume d ri] says what a disk with a relisfs file system on it looks like.
    [relisfs_mount] makes one when the disk has none and otherwise finds the one
    that is there; [relisfs_write] keeps it a volume.  Together: bytes written to
    the root file are read back after another boot from the same disk. *)

From S2P Require Import Prelude Memory ListHead SpinLock Slab PgTable FrameAlloc PageAlloc Paging AddrSpace VirtMem KState Sched Threads Ata FileSys.

(** ** Disk inodes as bytes *)

Record inode_ok (ri : relisfs_inode) : Prop := {
  io_used : 0 < ri_used ri < 2 ^ 32;
  io_size : 0 <= ri_size ri <= 512;
  io_direct : 2 <= ri_direct ri < 2 ^ 28;
  io_name : length (ri_name ri) = 64%nat
}.

Lemma length_rinode_bytes ri : length (ri_name ri) = 64%nat -> length (rinode_bytes ri) = 76%nat.
Proof. intros Hn. unfold rinode_bytes. rewrite !length_app, !length_le_split, Hn. lia. Qed.

(** Reading an inode back from its bytes. *)
Lemma rinode_parse_bytes ri : inode_ok ri -> rinode_parse (rinode_bytes ri) = ri.
Proof.
  intros [Hu Hs Hd Hn]. unfold rinode_parse, rinode_bytes.
  rewrite (take_app_length' (le_split 4 _)) by (by rewrite length_le_split).
  rewrite (drop_app_length' (le_split 4 _)) by (by rewrite length_le_split).
  rewrite (take_app_length' (le_split 4 (ri_size ri))) by (by rewrite length_le_split).
  rewrite !(app_assoc (le_split 4 (ri_used ri))).
  rewrite (drop_app_length' (le_split 4 (ri_used ri) ++ _)) by (by rewrite length_app, !length_le_split).
  rewrite (take_app_length' (le_split 4 (ri_direct ri))) by (by rewrite length_le_split).
  rewrite (app_assoc (le_split 4 (ri_used ri) ++ _)).
  rewrite (drop_app_length' (_ ++ le_split 4 (ri_direct ri))) by (by rewrite !length_app, !length_le_split).
  rewrite !le_combine_split, !Z.mod_small by (cbn; lia). rewrite take_ge by lia. by destruct ri.
Qed.

(** ** What is on the disk *)

(** The superblock has the magic number and slot 1 of the inode table is [ri]. *)
Record volume (d : ata) (ri : relisfs_inode) : Prop := {
  vo_disk : disk_ok d;
  vo_magic : le_combine (take 4 (sector d 0)) = RELISFS_MAGIC;
  vo_root : take 76 (drop 76 (sector d 1)) = rinode_bytes ri;
  vo_inode : inode_ok ri
}.
(** The disk has no file system of this kind yet. *)
Definition blank (d : ata) : Prop := disk_ok d /\ le_combine (take 4 (sector d 0)) <> RELISFS_MAGIC.

Definition new_root : relisfs_inode := mk_rinode 1 0 2 (47 :: replicate 63 0).

Lemma volume_disk d d' ri : ata_disk d' = ata_disk d -> volume d ri -> volume d' ri.
Proof.
  intros E [H1 H2 H3 H4]. assert (forall n, sector d' n = sector d n) as Hs by (intros n; unfold sector; by rewrite E).
  constructor; [intros n; rewrite Hs; apply H1|by rewrite Hs|by rewrite Hs|done].
Qed.

(** ** Blocks on a drive that answers *)

Lemma read_block_ready lba s :
  0 <= lba < 2 ^ 28 -> drive_ready (fs_ata s) ->
  exists d, read_block lba s = Done (0, set_block_buf (sector (fs_ata s) lba) (set_fs_ata d s)) /\
    ata_disk d = ata_disk (fs_ata s) /\ drive_ready d.
Proof.
  intros Hl Hr. destruct (read_block_done lba s Hl) as (r & d & b & E & Hd & Hrd & Hb). destruct (Hrd Hr) as [-> Hr'].
  destruct Hb as [[_ ->]|[? _]]; [|done]. by exists d.
Qed.
Lemma write_block_ready lba s :
  0 <= lba < 2 ^ 28 -> drive_ready (fs_ata s) ->
  exists d, write_block lba s = Done (0, set_fs_ata d s) /\ ata_disk d = <[lba := block_buf s]> (ata_disk (fs_ata s)) /\ drive_ready d.
Proof.
  intros Hl Hr. destruct (write_block_done lba s Hl) as (r & d & E & Hrd & Hb). destruct (Hrd Hr) as [-> Hr'].
  destruct Hb as [[_ Hd]|[? _]]; [|done]. by exists d.
Qed.
Lemma block_get_done off n s :
  off + n <= Z.of_nat (length (block_buf s)) -> block_get off n s = Done (take (Z.to_nat n) (drop (Z.to_nat off) (block_buf s)), s).
Proof. intros Hl. apply kopt_some. by rewrite (proj2 (Z.leb_le _ _) Hl). Qed.

Lemma sector_upd d d' lba buf n :
  ata_disk d' = <[lba := buf]> (ata_disk d) -> sector d' n = if decide (n = lba) then buf else sector d n.
Proof. intros E. destruct (sector_insert d d' lba buf E) as [S1 S2]. case_decide as Hn; [by rewrite Hn|by apply S2]. Qed.

(** The head of a block is what was put there first. *)
Lemma splice_head k data block pos x :
  (k <= Z.to_nat pos)%nat -> (k <= length block)%nat -> take k block = x -> take k (splice pos data block) = x.
Proof.
  intros Hk Hl <-. unfold splice. rewrite take_app_le by (rewrite length_take; lia). by rewrite take_take, Nat.min_l by lia.
Qed.

Lemma block_puts_done s b :
  block_buf s = b -> length b = 512%nat ->
  exists b', (forall B (k : M fstate B), (block_put 0 (le_split 4 RELISFS_MAGIC);;; block_put 4 (le_split 4 64);;;
    block_put 8 (le_split 4 1);;; block_put 12 (le_split 4 2);;; k) s = k (set_block_buf b' s)) /\
    length b' = 512%nat /\ take 4 b' = le_split 4 RELISFS_MAGIC.
Proof.
  intros Hb Hl. set (p := fun off v (x : list Z) => splice off (le_split 4 v) x).
  assert (forall off v x, 0 <= off <= 508 -> length x = 512%nat -> length (p off v x) = 512%nat) as Hp.
  { intros off v x Ho Hx. unfold p. rewrite length_splice; rewrite ?length_le_split; lia. }
  exists (p 12 2 (p 8 1 (p 4 64 (p 0 RELISFS_MAGIC b)))).
  assert (forall off v x t, 0 <= off <= 508 -> block_buf t = x -> length x = 512%nat ->
    block_put off (le_split 4 v) t = Done (tt, set_block_buf (p off v x) t)) as Hput.
  { intros off v x t Ho <- Hx. apply block_put_done; rewrite ?length_le_split; lia. }
  assert (length (p 0 RELISFS_MAGIC b) = 512%nat) as L0 by (apply Hp; [lia|done]).
  assert (length (p 4 64 (p 0 RELISFS_MAGIC b)) = 512%nat) as L1 by (apply Hp; [lia|done]).
  assert (length (p 8 1 (p 4 64 (p 0 RELISFS_MAGIC b))) = 512%nat) as L2 by (apply Hp; [lia|done]).
  split; [|split; [by apply Hp|]].
  - intros B k. erewrite kbind_done by (apply Hput; [lia|exact Hb|done]). by do 3 (erewrite kbind_done by (apply Hput; [lia|reflexivity|done])).
  - do 3 (apply splice_head; [lia|lia|]). unfold p, splice.
    rewrite app_assoc, take_app_length'; [done|]. by rewrite length_app, length_le_split.
Qed.

(** Formatting leaves a volume whose root file is empty. *)
Lemma relisfs_format_done s :
  length (block_buf s) = 512%nat -> disk_ok (fs_ata s) -> drive_ready (fs_ata s) ->
  exists d b, relisfs_format s = Done (tt, set_block_buf b (set_fs_ata d s)) /\ drive_ready d /\ volume d new_root.
Proof.
  intros Hb Hd Hr. unfold relisfs_format.
  destruct (block_puts_done s _ eq_refl Hb) as (b0 & Hk & L0 & M0).
  rewrite Hk.
  destruct (write_block_ready 0 (set_block_buf b0 s) ltac:(lia) Hr) as (d0 & W0 & D0 & R0). erewrite kbind_done by exact W0.
  erewrite kbind_done by done.
  match goal with |- context [kbind (write_block 1) _ ?st] => set (s1 := st) end.
  destruct (write_block_ready 1 s1 ltac:(lia) R0) as (d1 & W1 & D1 & R1). erewrite kbind_done by exact W1.
  destruct (read_block_ready 1 (set_fs_ata d1 s1) ltac:(lia) R1) as (d2 & W2 & D2 & R2). erewrite kbind_done by exact W2.
  assert (sector d1 1 = replicate 512 0) as Hz by (rewrite (sector_upd _ _ _ _ 1 D1); by rewrite decide_True by done).
  assert (length (rinode_bytes new_root) = 76%nat) as Hn by (by apply length_rinode_bytes).
  cbn [fs_ata set_fs_ata]. rewrite Hz.
  erewrite kbind_done by (apply block_put_done; cbn [block_buf set_block_buf]; rewrite ?length_replicate; unfold sizeof_relisfs_inode; fold new_root; lia).
  cbn [block_buf set_block_buf]. fold new_root. set (b3 := splice _ _ _).
  match goal with |- context [kbind (write_block 1) _ ?st] => set (s3 := st) end.
  destruct (write_block_ready 1 s3 ltac:(lia) R2) as (d3 & W3 & D3 & R3). erewrite kbind_done by exact W3.
  assert (length b3 = 512%nat) as L3 by (unfold b3; rewrite length_splice; rewrite ?length_replicate; unfold sizeof_relisfs_inode; lia).
  assert (forall n, sector d3 n = if decide (n = 1) then b3 else if decide (n = 0) then b0 else sector (fs_ata s) n) as Hs.
  { intros n. rewrite (sector_upd _ _ _ _ n D3). case_decide; [done|]. change (fs_ata s3) with d2.
    assert (sector d2 n = sector d1 n) as -> by (unfold sector; by rewrite D2). rewrite (sector_upd _ _ _ _ n D1), decide_False by done.
    change (fs_ata s1) with d0. by rewrite (sector_upd _ _ _ _ n D0). }
  exists d3, b3. split; [done|]. split; [done|]. constructor.
  - intros n. rewrite Hs. repeat case_decide; [done|done|apply Hd].
  - rewrite Hs, decide_False, decide_True by done. by rewrite M0.
  - rewrite Hs, decide_True by done. unfold b3. rewrite <- Hn at 1. apply (splice_get sizeof_relisfs_inode); rewrite ?length_replicate; unfold sizeof_relisfs_inode; lia.
  - constructor; cbn; lia || done.
Qed.

(** ** Mounting *)

Section Mount.
Context `{Layout}.
Hypothesis heap_base : 0 < kernel_heap_region /\ kernel_heap_region mod 16 = 0.

(** The kernel before the mount: an answering drive and room on the heap for the
    four objects of a mount and an open. *)
Record fs_ready (s : fstate) : Prop := {
  fr_slab : slab_inv (k_slab (fs_k s));
  fr_room : heap_ptr (k_slab (fs_k s)) + 600 <= kernel_heap_size;
  fr_drive : drive_ready (fs_ata s)
}.

(** What a mount leaves: the root entry with its inode and the disk inode's copy,
    in a kernel whose memory is as before. *)
Record mounted (s s' : fstate) (root i p : Z) (ri : relisfs_inode) : Prop := {
  mo_root : root <> 0 /\ fs_dentries s' !! root = Some (mk_dentry [47] i 0 []);
  mo_inode : k_inodes (fs_k s') !! i = Some (mk_inode 0 0 0 p (Some RelisfsFops));
  mo_rinode : p <> 0 /\ fs_rinodes s' !! p = Some ri;
  mo_volume : volume (fs_ata s') ri;
  mo_disk : volume (fs_ata s) ri -> ata_disk (fs_ata s') = ata_disk (fs_ata s);
  mo_drive : drive_ready (fs_ata s');
  mo_slab : slab_inv (k_slab (fs_k s')) /\ heap_ptr (k_slab (fs_k s')) + 100 <= kernel_heap_size;
  mo_kernel : k_umem (fs_k s') = k_umem (fs_k s)
}.

Lemma fs_kmalloc_room s size :
  slab_inv (k_slab (fs_k s)) -> 0 < size < 2 ^ 32 -> heap_ptr (k_slab (fs_k s)) + size <= kernel_heap_size ->
  exists a sl, fs_kmalloc size s = Done (a, set_fs_k (set_k_slab sl (fs_k s)) s) /\ a <> 0 /\ slab_inv sl /\
    heap_ptr sl <= heap_ptr (k_slab (fs_k s)) + size + 16.
Proof using heap_base.
  intros Hs Hsz Hroom. destruct (kmalloc_room heap_base (fs_k s) size Hs Hsz Hroom) as (sl & E & Hi & Hp).
  eexists _, sl. split; [apply zoom_done; exact E|]. destruct heap_base as [Hb _]. pose proof Hs as (_ & Hhp & _).
  split; [lia|]. split; [done|lia].
Qed.
Lemma put_dentry_done s p d : p <> 0 -> put_dentry p d s = Done (tt, set_fs_dentries (<[p := d]> (fs_dentries s)) s).
Proof. intros Hp. unfold put_dentry. by rewrite (proj2 (Z.eqb_neq p 0) Hp). Qed.
Lemma store_inode_at s i x : i <> 0 ->
  on_k (store_inode i x) s = Done (tt, set_fs_k (set_k_inodes (<[i := x]> (k_inodes (fs_k s))) (fs_k s)) s).
Proof. intros Hp. apply zoom_done. unfold store_inode. by rewrite (proj2 (Z.eqb_neq i 0) Hp). Qed.

(** The check of the superblock: a volume is left as it is, a blank disk formatted. *)
Lemma superblock_done {B} s ri (k : M fstate B) :
  volume (fs_ata s) ri \/ blank (fs_ata s) /\ ri = new_root -> drive_ready (fs_ata s) -> block_buf s = sector (fs_ata s) 0 ->
  exists d b, (let* magic := block_get 0 4 in
     (if negb (le_combine magic =? RELISFS_MAGIC) then relisfs_format else kret tt);;; k) s = k (set_block_buf b (set_fs_ata d s)) /\
    drive_ready d /\ volume d ri /\ (volume (fs_ata s) ri -> ata_disk d = ata_disk (fs_ata s)).
Proof.
  intros Hv Hr Hb. assert (disk_ok (fs_ata s)) as Hd by (by destruct Hv as [[]|[[] _]]).
  assert (length (block_buf s) = 512%nat) as Hl by (rewrite Hb; apply Hd).
  erewrite kbind_done by (apply block_get_done; rewrite Hl; lia). rewrite Hb.
  change (Z.to_nat 4) with 4%nat. change (Z.to_nat 0) with 0%nat. rewrite drop_0. destruct Hv as [Hv|[[_ Hm] ->]].
  - rewrite (vo_magic _ _ Hv), Z.eqb_refl. erewrite kbind_done by done. exists (fs_ata s), (block_buf s). by destruct s.
  - rewrite (proj2 (Z.eqb_neq _ _) Hm). destruct (relisfs_format_done s Hl Hd Hr) as (d & b & E & Hr' & Hv). cbn [negb].
    erewrite kbind_done by exact E. exists d, b. do 3 (split; [done|]). intros Hv'. by destruct Hm; apply (vo_magic _ _ Hv').
Qed.

(** Mounting a disk gives its root file, an empty one on a blank disk. *)
Lemma relisfs_mount_done s ri :
  fs_ready s -> volume (fs_ata s) ri \/ blank (fs_ata s) /\ ri = new_root ->
  exists root s' i p, relisfs_mount s = Done (root, s') /\ mounted s s' root i p ri.
Proof using heap_base.
  intros [Hslab Hroom Hr] Hv. unfold relisfs_mount.
  destruct (read_block_ready 0 s ltac:(lia) Hr) as (d0 & E0 & D0 & R0). erewrite kbind_done by exact E0. cbn [Z.ltb Z.compare].
  set (s0 := set_block_buf (sector (fs_ata s) 0) (set_fs_ata d0 s)) in *.
  assert (forall n, sector d0 n = sector (fs_ata s) n) as Hs0 by (intros n; unfold sector; by rewrite D0).
  assert (volume (fs_ata s0) ri \/ blank (fs_ata s0) /\ ri = new_root) as Hv0.
  { destruct Hv as [Hv|[[Hd Hm] Hri]]; [left; by apply (volume_disk (fs_ata s))|right].
    split; [|done]. split; [intros n; cbn; by rewrite Hs0|cbn; by rewrite Hs0]. }
  match goal with |- context [kbind (block_get 0 4) (fun m => kbind (@?g m) (fun _ => ?tail)) s0] =>
    destruct (superblock_done s0 ri tail Hv0 R0 (eq_sym (Hs0 0))) as (d1 & b1 & E1 & R1 & V1 & K1) end.
  rewrite E1. clear E1. set (s1 := set_block_buf b1 _).
  destruct (fs_kmalloc_room s1 sizeof_dentry) as (root & sl1 & A1 & Hroot & I1 & P1); [done|done|unfold sizeof_dentry; cbn; lia|].
  erewrite kbind_done by exact A1. erewrite kbind_done by (by apply put_dentry_done).
  set (s2 := set_fs_dentries _ _).
  destruct (fs_kmalloc_room s2 sizeof_inode) as (i & sl2 & A2 & Hi & I2 & P2); [done|done|unfold sizeof_dentry, sizeof_inode in *; cbn in *; lia|].
  erewrite kbind_done by exact A2. erewrite kbind_done by (by apply put_dentry_done). erewrite kbind_done by (by apply store_inode_at).
  match goal with |- context [kbind (read_block 1) _ ?st] => set (s3 := st) end.
  destruct (read_block_ready 1 s3 ltac:(lia) R1) as (d3 & E3 & D3 & R3). erewrite kbind_done by exact E3.
  set (s4 := set_block_buf _ _).
  destruct (fs_kmalloc_room s4 sizeof_relisfs_inode) as (p & sl3 & A3 & Hp & I3 & P3);
    [done|done|unfold sizeof_dentry, sizeof_inode, sizeof_relisfs_inode in *; cbn in *; lia|].
  erewrite kbind_done by exact A3.
  assert (length (sector d1 1) = 512%nat) as H512 by apply V1.
  erewrite kbind_done by (apply block_get_done; change (length (block_buf _)) with (length (sector d1 1)); rewrite H512; unfold sizeof_relisfs_inode; lia).
  match goal with |- context [rinode_parse ?x] => assert (rinode_parse x = ri) as -> end.
  { etrans; [|apply rinode_parse_bytes, V1]. f_equal. apply V1. }
  rewrite (proj2 (Z.eqb_neq p 0) Hp). erewrite kbind_done by done. erewrite kbind_done by (by apply store_inode_at).
  eexists root, _, i, p. split; [reflexivity|]. constructor; cbn.
  - split; [done|apply lookup_insert_eq].
  - apply lookup_insert_eq.
  - split; [done|apply lookup_insert_eq].
  - by apply (volume_disk d1).
  - intros Hvs. etrans; [exact D3|]. cbn. rewrite K1; [exact D0|]. by apply (volume_disk (fs_ata s)).
  - done.
  - split; [done|]. unfold sizeof_dentry, sizeof_inode, sizeof_relisfs_inode in *. cbn in *. lia.
  - done.
Qed.
(** Mounting the disk's file system as the root and opening "/". *)
Definition open_root : M fstate Z := vfs_kern_mount (Some relisfs_mount);;; vfs_open [47].

Lemma open_root_done s ri :
  fs_ready s -> volume (fs_ata s) ri \/ blank (fs_ata s) /\ ri = new_root ->
  exists f s' p, open_root s = Done (f, s') /\ f <> 0 /\ p <> 0 /\ open_on s' f p 0 ri /\
    volume (fs_ata s') ri /\ drive_ready (fs_ata s') /\ k_umem (fs_k s') = k_umem (fs_k s) /\
    (volume (fs_ata s) ri -> ata_disk (fs_ata s') = ata_disk (fs_ata s)).
Proof using heap_base.
  intros Hs Hv. destruct (relisfs_mount_done s ri Hs Hv) as (root & s1 & i & p & E & [[Hroot Hde] Hin [Hp Hri] Hvol Hkeep Hdr [Hsl Hrm] Hum]).
  unfold open_root, vfs_kern_mount. rewrite kbind_assoc. erewrite kbind_done by exact E. rewrite kbind_assoc. erewrite kbind_done by done.
  erewrite kbind_done by done. unfold vfs_open. erewrite kbind_done by done. cbn [root_dentry set_root_dentry].
  rewrite (proj2 (Z.eqb_neq root 0) Hroot). change (negb (47 =? 47)) with false. cbn [orb].
  erewrite kbind_done by done. set (s2 := set_root_dentry root s1).
  destruct (fs_kmalloc_room s2 sizeof_file) as (f & sl & A & Hf & _ & _); [done|done|unfold sizeof_file; cbn; lia|].
  erewrite kbind_done by exact A. erewrite kbind_done by (apply dentry_get_done; exact Hde).
  erewrite kbind_done; [|apply zoom_done; unfold store_file; rewrite (proj2 (Z.eqb_neq f 0) Hf); reflexivity].
  eexists f, _, p. split; [reflexivity|]. split; [done|]. split; [done|]. split; [|done].
  constructor; [|exact Hri]. eexists root, i, _. split; [apply lookup_insert_eq|]. split; [exact Hin|done].
Qed.

(** Writing to the root file keeps the disk a volume, with the grown inode. *)
Lemma relisfs_write_volume s f p ri buf data :
  let n := Z.of_nat (length data) in
  open_on s f p 0 ri -> p <> 0 -> volume (fs_ata s) ri -> drive_ready (fs_ata s) -> n <= 512 ->
  read_list (k_umem (fs_k s)) buf (length data) = Some data ->
  exists s', relisfs_write f buf n s = Done (n, s') /\ volume (fs_ata s') (grown_inode ri n) /\
    sector (fs_ata s') (ri_direct ri) = splice 0 data (sector (fs_ata s) (ri_direct ri)).
Proof.
  intros n Ho Hp [Hd Hm Hroot [Hu Hsz Hdir Hname]] Hr Hn Hdata.
  destruct (relisfs_write_spec s f p 0 ri buf data) as (r & s' & E & Hready & Hcase); try done; try lia.
  destruct (Hready Hr) as (-> & Hr' & Hs1). fold n in E, Hs1, Hcase. rewrite Z.add_0_l in Hs1.
  destruct Hcase as [[? _]|(_ & Hd' & Hsec & Hoth & _)]; [lia|].
  exists s'. split; [exact E|]. split; [|exact Hsec]. constructor; [done|by rewrite Hoth by lia| |by constructor; cbn; lia].
  rewrite Hs1. destruct (Z.ltb_spec (ri_size ri) n).
  - rewrite <- (length_rinode_bytes (grown_inode ri n)) at 1 by done.
    apply (splice_get sizeof_relisfs_inode); rewrite ?length_rinode_bytes, ?Hd by done; unfold sizeof_relisfs_inode; lia.
  - unfold grown_inode. rewrite Z.max_l, Hroot by lia. by destruct ri.
Qed.

(** C13: what is written to the disk stays there: on a disk that holds a relisfs
    file system, or none yet, mounting it, opening "/" and writing up to 512 bytes
    stores them all; and whenever a kernel later starts with this disk - with
    whatever memory, tasks and heap - mounting it and opening "/" and reading
    gives exactly these bytes.  (The drive reports no errors.) *)
Theorem relisfs_persists s ri buf data :
  let n := Z.of_nat (length data) in
  fs_ready s -> volume (fs_ata s) ri \/ blank (fs_ata s) /\ ri = new_root -> 0 < n <= 512 ->
  read_list (k_umem (fs_k s)) buf (length data) = Some data ->
  exists f s1 s2, open_root s = Done (f, s1) /\ f <> 0 /\ relisfs_write f buf n s1 = Done (n, s2) /\
    forall t buf2, fs_ready t -> ata_disk (fs_ata t) = ata_disk (fs_ata s2) -> mapped (k_umem (fs_k t)) buf2 n ->
      exists g t1 t2, open_root t = Done (g, t1) /\ g <> 0 /\ relisfs_read g buf2 n t1 = Done (n, t2) /\
        bytes_at (k_umem (fs_k t2)) buf2 data.
Proof using heap_base.
  intros n Hs Hv Hn Hdata. destruct (open_root_done s ri Hs Hv) as (f & s1 & p & E & Hf & Hp & Ho & V & R & U & _).
  destruct (relisfs_write_volume s1 f p ri buf data Ho Hp V R ltac:(lia)) as (s2 & E2 & V2 & Hsec); [by rewrite U|].
  exists f, s1, s2. split; [exact E|]. split; [done|]. split; [exact E2|]. intros t buf2 Ht Hdisk Hm.
  assert (volume (fs_ata t) (grown_inode ri n)) as Vt by (by apply (volume_disk (fs_ata s2))).
  destruct (open_root_done t (grown_inode ri n) Ht (or_introl Vt)) as (g & t1 & q & Et & Hg & Hq & Hog & Vt1 & Rt & Ut & Kt).
  destruct V as [Hd _ _ [Hu Hsz Hdir _]].
  destruct (relisfs_read_spec t1 g q 0 (grown_inode ri n) buf2 n) as (r & t2 & E3 & _ & Hr & Hb);
    [done|done|cbn; lia|cbn; lia|lia|lia|cbn; lia|cbn; lia|apply Vt1|by rewrite Ut|].
  rewrite (Hr Rt) in E3, Hb. exists g, t1, t2. split; [exact Et|]. split; [done|]. split; [exact E3|].
  destruct Hb as [?|[_ Hb]]; [lia|]. cbn [ri_direct grown_inode] in Hb.
  assert (sector (fs_ata t1) (ri_direct ri) = sector (fs_ata s2) (ri_direct ri)) as Hs12 by (unfold sector; by rewrite (Kt Vt), Hdisk).
  rewrite Hs12, Hsec in Hb. unfold n in Hb. rewrite Nat2Z.id, splice_get in Hb; [exact Hb|lia|]. rewrite Hd. lia.
Qed.
End Mount.
