(* ===== verification/FsInst.v ===== *)
(** * File systems on a booted kernel

    The theorems of [FileSys] applied to the proc file system as [proc_mount]
    builds it, to a file on a small disk, and to a blank disk that a first kernel
    formats and writes and a second one reads. *)

From S2P Require Import Prelude Memory ListHead SpinLock Slab PgTable FrameAlloc PageAlloc Paging AddrSpace VirtMem PagingInst KState Sched Threads Fork Signal Ipc SchedInst Ata FileSys Persist.

#[local] Existing Instance demo_layout.

(** ** proc *)

Definition demo_fs_boot : fstate := mk_fstate demo_boot ∅ 0 (mk_ata ∅ [] ∅) (replicate 512 0) ∅.
Definition demo_proc : fstate :=
  match vfs_kern_mount (Some proc_mount) demo_fs_boot with Done (_, s) => s | _ => demo_fs_boot end.

Definition tree_okb (s : fstate) : bool :=
  bool_decide (map_Forall (fun _ e => Forall (fun c => is_Some (fs_dentries s !! c)) (d_children e)) (fs_dentries s)).
Lemma tree_okb_spec s : tree_okb s = true -> tree_ok s.
Proof.
  intros Hb%bool_decide_eq_true d e c He Hc. specialize (Hb d e He). cbv beta in Hb. rewrite Forall_forall in Hb. by apply Hb.
Qed.

(** "//cpuinfo" is found, at the second entry allocated. *)
Lemma vfs_open_resolves_witness :
  exists f s' e, vfs_open (47 :: 47 :: cpuinfo_name) demo_proc = Done (f, s') /\ f <> 0 /\
    fs_dentries demo_proc !! 16777568 = Some e /\ k_files (fs_k s') = <[f := mk_file 16777568 (d_inode e) 0]> (k_files (fs_k demo_proc)).
Proof.
  pose proof (vfs_open_resolves demo_heap_base demo_proc [cpuinfo_name] (47 :: cpuinfo_name)) as Hopen.
  assert (resolve demo_proc (root_dentry demo_proc) [cpuinfo_name] = Some 16777568) as Hr by (vm_compute; reflexivity).
  rewrite Hr in Hopen. destruct Hopen as (f & s' & e & E & Hf & He & Hk & _).
  - apply tree_okb_spec. vm_compute. reflexivity.
  - vm_compute. discriminate.
  - assert (bool_decide (is_Some (fs_dentries demo_proc !! root_dentry demo_proc)) = true) as Hb by (vm_compute; reflexivity).
    exact (bool_decide_eq_true_1 _ Hb).
  - constructor. rewrite <- (app_nil_r cpuinfo_name) at 2. constructor; [discriminate| |constructor|by left].
    unfold cpuinfo_name. rewrite !not_elem_of_cons. repeat split; try discriminate. apply not_elem_of_nil.
  - repeat constructor; simpl; lia.
  - by vm_compute.
  - vm_compute. discriminate.
  - exists f, s', e. split; [exact E|]. split; [exact Hf|]. split; [exact He|exact Hk].
Defined.

(** ** relisfs: a file of ten bytes in block 2, open twice at position 8 *)

Definition demo_rinode : relisfs_inode := mk_rinode 1 10 2 (47 :: replicate 63 0).
Definition demo_disk : fstate :=
  mk_fstate (set_k_umem (write_list ∅ 900 ([7; 8; 9] ++ replicate 61 0))
      (set_k_files {[ 6000 := mk_file 0 7000 8; 6024 := mk_file 0 7000 8 ]}
        (set_k_inodes {[ 7000 := mk_inode 0 0 0 8000 (Some RelisfsFops) ]} demo_boot)))
    ∅ 0 (mk_ata ∅ [] ∅) (replicate 512 0) {[ 8000 := demo_rinode ]}.

Lemma demo_open f : f = 6000 \/ f = 6024 -> open_on demo_disk f 8000 8 demo_rinode.
Proof.
  intros Hf. constructor; [|vm_compute; reflexivity].
  exists 0, 7000, (mk_inode 0 0 0 8000 (Some RelisfsFops)).
  destruct Hf as [->| ->]; (split; [|split]; vm_compute; reflexivity).
Qed.

(** The write of three bytes at position 8 makes the file eleven bytes long. *)
Lemma relisfs_write_read_witness :
  exists s1 s2, relisfs_write 6000 900 3 demo_disk = Done (3, s1) /\ open_on s1 6000 8000 11 (grown_inode demo_rinode 11) /\
    relisfs_read 6024 950 3 s1 = Done (3, s2) /\ bytes_at (k_umem (fs_k s2)) 950 [7; 8; 9].
Proof.
  destruct (relisfs_write_read demo_disk 6000 6024 8000 8 demo_rinode 900 950 [7; 8; 9]) as (r & s1 & E & Hready & Hr).
  - apply demo_open. by left.
  - apply demo_open. by right.
  - discriminate.
  - discriminate.
  - discriminate.
  - cbn. lia.
  - discriminate.
  - reflexivity.
  - cbn. lia.
  - lia.
  - simpl. lia.
  - simpl. lia.
  - intros lba. unfold sector. cbn. rewrite lookup_empty. reflexivity.
  - vm_compute. reflexivity.
  - apply mapped_read; [simpl; lia|]. vm_compute. reflexivity.
  - destruct (Hready eq_refl) as (-> & Hd1 & _).
    destruct Hr as [[? _]|(_ & _ & _ & Ho & _ & r2 & s2 & E2 & Hr2 & Hb)]; [discriminate|].
    rewrite (Hr2 Hd1) in E2, Hb. destruct Hb as [?|[_ Hb]]; [discriminate|].
    exists s1, s2. split; [exact E|]. split; [exact Ho|]. split; [exact E2|exact Hb].
Defined.

(** ** relisfs on a blank disk *)

Definition demo_blank (d : gmap Z (list Z)) : fstate :=
  mk_fstate (set_k_umem (write_list ∅ 900 ([7; 8; 9] ++ replicate 61 0)) demo_boot) ∅ 0 (mk_ata ∅ [] d) (replicate 512 0) ∅.

Lemma demo_blank_ready d : fs_ready (demo_blank d).
Proof.
  assert (k_slab (fs_k (demo_blank d)) = k_slab demo_boot) as Hk by reflexivity. constructor; [rewrite Hk..|reflexivity].
  - by vm_compute.
  - vm_compute. discriminate.
Qed.

Lemma relisfs_persists_witness :
  exists f s1 s2 g t1 t2, open_root (demo_blank ∅) = Done (f, s1) /\ relisfs_write f 900 3 s1 = Done (3, s2) /\
    open_root (demo_blank (ata_disk (fs_ata s2))) = Done (g, t1) /\ relisfs_read g 950 3 t1 = Done (3, t2) /\
    bytes_at (k_umem (fs_k t2)) 950 [7; 8; 9].
Proof.
  destruct (relisfs_persists demo_heap_base (demo_blank ∅) new_root 900 [7; 8; 9]) as (f & s1 & s2 & E & _ & E2 & Hlater).
  - apply demo_blank_ready.
  - right. split; [|reflexivity]. split; [intros lba; reflexivity|]. vm_compute. discriminate.
  - simpl. lia.
  - vm_compute. reflexivity.
  - destruct (Hlater (demo_blank (ata_disk (fs_ata s2))) 950) as (g & t1 & t2 & Et & _ & Er & Hb).
    + apply demo_blank_ready.
    + reflexivity.
    + apply mapped_read; [simpl; lia|]. vm_compute. reflexivity.
    + exists f, s1, s2, g, t1, t2. split; [exact E|]. split; [exact E2|]. split; [exact Et|]. split; [exact Er|exact Hb].
Defined.
