(* ===== verification/Net.v ===== *)
(** * net/: device table, IPv4 and UDP output

    The globals of net/ipv4/ip.c and net/core/dev.c, and the kernel memory the
    packets are built in.  A packet is assembled byte for byte in the buffer
    [kmalloc] returns; there is no transmit path, the code prints and frees it.
    The stack slot of [udp_send_packet]'s buffer is a parameter, as the
    compiler places it. *)

From S2P Require Import Prelude Memory SpinLock StringLib Slab.

Record net_state := mk_net {
  n_slab : slab_state;
  net_ip : Z;
  net_gw : Z;
  net_mask : Z;
  net_dns : Z;
  netdevs : list Z;       (* struct net_device *[MAX_NETDEVS] *)
  netdev_count : Z
}.
Definition set_n_slab (x : slab_state) (s : net_state) : net_state :=
  mk_net x (net_ip s) (net_gw s) (net_mask s) (net_dns s) (netdevs s) (netdev_count s).

Definition MAX_NETDEVS : Z := 8.
Definition sizeof_sk_buff : Z := 1552.
Definition skb_len_off : Z := 1536.
Definition sizeof_net_device : Z := 56.
Definition sizeof_iphdr : Z := 20.
Definition sizeof_udphdr : Z := 8.

(** [#define IP4(a,b,c,d)] *)
Definition IP4 (a b c d : Z) : Z :=
  u32 (Z.lor (Z.lor (Z.lor a (Z.shiftl b 8)) (Z.shiftl c 16)) (Z.shiftl d 24)).

Section Net.
Variable kernel_heap_region : Z.

Definition n_heap {B} (m : M slab_state B) : M net_state B := zoom n_slab set_n_slab m.
Definition n_mem {B} (m : M mem B) : M net_state B := n_heap (zoom heap_mem set_heap_mem m).

(** ** net/net.c *)

Definition net_init : M net_state unit :=
  kmod (fun s => mk_net (n_slab s) (IP4 10 0 2 15) (IP4 10 0 2 2) (IP4 255 255 255 0) (IP4 10 0 2 3)
                   (netdevs s) (netdev_count s)).

Definition dhcp_request : M net_state Z := kret 0.

(** ** net/core/dev.c *)

Definition alloc_netdev (name : Z) : M net_state Z :=
  let* dev := n_heap (kmalloc kernel_heap_region sizeof_net_device) in
  if negb (istrue dev) then kret 0
  else
    n_mem (kmemset dev 0 sizeof_net_device);;;
    n_mem (kstrncpy dev name 15);;;
    kret dev.

Definition register_netdev (dev : Z) : M net_state Z :=
  let* n := kgets netdev_count in
  if MAX_NETDEVS <=? n then kret (-1)
  else
    kupd (fun s =>
      if (0 <=? n) && (n <? Z.of_nat (length (netdevs s)))
      then Some (mk_net (n_slab s) (net_ip s) (net_gw s) (net_mask s) (net_dns s) (<[Z.to_nat n := dev]> (netdevs s)) (i32 (n + 1)))
      else None);;;
    kret 0.

Definition netif_rx (skb : Z) : M net_state unit :=
  if negb (istrue skb) then kret tt
  else
    let* _ := n_mem (readl (skb + skb_len_off)) in
    n_heap (kfree skb).

(** ** net/ipv4/ip.c *)

(** [for (int i = 0; i < 10; i++) sum += *p++;] *)
Fixpoint csum_words (n : nat) (p sum : Z) : M mem Z :=
  match n with
  | O => kret sum
  | S n' => let* w := readw p in csum_words n' (p + 2) (u32 (sum + w))
  end.

(** [while (sum >> 16) sum = (sum & 0xFFFF) + (sum >> 16);] *)
Fixpoint csum_fold (fuel : nat) (sum : Z) : M mem Z :=
  match fuel with
  | O => kspin
  | S f =>
      if istrue (Z.shiftr sum 16) then csum_fold f (u32 (Z.land sum 0xFFFF + Z.shiftr sum 16))
      else kret sum
  end.

(** Three rounds fold any 32-bit sum. *)
Definition ip_checksum (hdr : Z) : M mem Z :=
  let* sum := csum_words 10 hdr 0 in
  let* sum := csum_fold 4 sum in
  kret (u16 (cnot 32 sum)).

Definition ip_send_packet (dest_ip protocol data len : Z) : M net_state Z :=
  let* skb := n_heap (kmalloc kernel_heap_region sizeof_sk_buff) in
  if negb (istrue skb) then kret (-1)
  else
    let hdr := skb in
    (* the bit fields version and ihl share the first byte *)
    let* b := n_mem (readb hdr) in
    n_mem (writeb hdr (Z.lor (Z.land b 0x0F) (Z.shiftl 4 4)));;;
    let* b := n_mem (readb hdr) in
    n_mem (writeb hdr (Z.lor (Z.land b 0xF0) 5));;;
    n_mem (writeb (hdr + 1) 0);;;
    n_mem (writew (hdr + 2) (sizeof_iphdr + len));;;
    n_mem (writew (hdr + 4) 1);;;
    n_mem (writew (hdr + 6) 0);;;
    n_mem (writeb (hdr + 8) 64);;;
    n_mem (writeb (hdr + 9) protocol);;;
    let* ip := kgets net_ip in
    n_mem (writel (hdr + 12) ip);;;
    n_mem (writel (hdr + 16) dest_ip);;;
    n_mem (writew (hdr + 10) 0);;;
    let* sum := n_mem (ip_checksum hdr) in
    n_mem (writew (hdr + 10) sum);;;
    n_mem (kmemcpy (skb + sizeof_iphdr) data len);;;
    let* l := n_mem (readw (hdr + 2)) in
    n_mem (writel (skb + skb_len_off) l);;;
    n_heap (kfree skb);;;
    kret 0.

(** ** net/ipv4/udp.c *)

Definition udp_send_packet (buf dest_ip dest_port data len : Z) : M net_state Z :=
  n_mem (writew buf 1234);;;
  n_mem (writew (buf + 2) dest_port);;;
  n_mem (writew (buf + 4) (sizeof_udphdr + len));;;
  n_mem (writew (buf + 6) 0);;;
  n_mem (kmemcpy (buf + sizeof_udphdr) data len);;;
  let* l := n_mem (readw (buf + 4)) in
  ip_send_packet dest_ip 17 buf l.
End Net.

(** ** Blocks of memory

    The memory [write_list m p l] holds the block [l] at [p]; loads and stores
    inside the block act on the list. *)

Definition put_bytes (off : nat) (k l : list Z) : list Z := take off l ++ k ++ drop (off + length k) l.

Lemma length_put_bytes off k l : (off + length k <= length l)%nat -> length (put_bytes off k l) = length l.
Proof. intros. unfold put_bytes. rewrite !length_app, length_take, length_drop. lia. Qed.

Lemma write_list_put m p l a off k :
  a = p + Z.of_nat off -> (off + length k <= length l)%nat ->
  write_list (write_list m p l) a k = write_list m p (put_bytes off k l).
Proof.
  intros -> Hk. apply map_eq. intros x. rewrite !lookup_write_list, length_put_bytes by done.
  unfold put_bytes. destruct (decide (p + off <= x < _)) as [Hin|Hout].
  - rewrite decide_True by lia. rewrite lookup_app_r; rewrite length_take; [|lia].
    rewrite lookup_app_l by lia. f_equal. lia.
  - destruct (decide (p <= x < _)) as [Hx|]; [|done].
    destruct (decide (x < p + off)).
    + rewrite lookup_app_l by (rewrite length_take; lia). by rewrite lookup_take_lt by lia.
    + rewrite lookup_app_r; rewrite length_take; [|lia]. rewrite lookup_app_r by lia.
      rewrite lookup_drop. f_equal. lia.
Qed.

Lemma write_list_over m p l k : length k = length l -> write_list (write_list m p l) p k = write_list m p k.
Proof.
  intros Hk. rewrite (write_list_put m p l p 0 k) by lia. unfold put_bytes.
  rewrite drop_ge by lia. by rewrite app_nil_r.
Qed.

Lemma storen_block n m p l a off v :
  a = p + Z.of_nat off -> (off + n <= length l)%nat ->
  storen n a v (write_list m p l) = Done (tt, write_list m p (put_bytes off (le_split n v) l)).
Proof.
  intros Ha Hn. rewrite storen_done.
  - unfold poken. by rewrite (write_list_put m p l a off) by (rewrite ?length_le_split; done).
  - pose proof (bytes_at_mapped _ _ _ (write_list_bytes_at m p l)). eapply mapped_weaken; [done|lia..].
Qed.

Lemma bytes_at_sub m p l off n : bytes_at m p l -> bytes_at m (p + Z.of_nat off) (take n (drop off l)).
Proof.
  intros H i b Hi. apply lookup_take_Some in Hi as [Hi _]. rewrite lookup_drop in Hi.
  apply H in Hi. by replace (p + off + i) with (p + (off + i)%nat) by lia.
Qed.

Lemma loadn_bytes n m p l a off :
  bytes_at m p l -> a = p + Z.of_nat off -> (off + n <= length l)%nat ->
  loadn n a m = Done (le_combine (take n (drop off l)), m).
Proof.
  intros H -> Hn. apply loadn_done. unfold peekn.
  assert (read_list m (p + off) n = Some (take n (drop off l))) as ->; [|done].
  apply read_list_bytes_at. split; [rewrite length_take, length_drop; lia|by apply bytes_at_sub].
Qed.

Lemma loadn_block n m p l a off :
  a = p + Z.of_nat off -> (off + n <= length l)%nat ->
  loadn n a (write_list m p l) = Done (le_combine (take n (drop off l)), write_list m p l).
Proof. intros. eapply loadn_bytes; [apply write_list_bytes_at|done..]. Qed.

(** ** The Internet checksum *)

(** The sum of the 16-bit words of a header. *)
Fixpoint words_sum (l : list Z) : Z :=
  match l with
  | a :: b :: l' => a + 256 * b + words_sum l'
  | _ => 0
  end.

Lemma words_sum_range n l :
  length l = (2 * n)%nat -> Forall is_byte l -> 0 <= words_sum l <= 65535 * Z.of_nat n.
Proof.
  revert l. induction n as [|n IH]; intros [|a [|b l]] Hl Hb; simpl in Hl; try lia; [simpl; lia|].
  apply Forall_cons in Hb as [Ha Hb]. apply Forall_cons in Hb as [Hb Hl']. unfold is_byte in *.
  simpl words_sum. specialize (IH l ltac:(lia) Hl'). lia.
Qed.

Lemma csum_words_done n m p l sum :
  bytes_at m p l -> length l = (2 * n)%nat -> Forall is_byte l -> 0 <= sum -> sum + 65535 * Z.of_nat n < 2 ^ 32 ->
  csum_words n p sum m = Done (sum + words_sum l, m).
Proof.
  revert p l sum. induction n as [|n IH]; intros p [|a [|b l]] sum H Hl Hb Hs Hr; simpl in Hl; try lia.
  - simpl. by rewrite Z.add_0_r.
  - cbn [csum_words words_sum]. unfold readw.
    rewrite (kbind_done _ _ _ _ _ (loadn_bytes 2 m p (a :: b :: l) p 0 H ltac:(lia) ltac:(simpl; lia))).
    cbn [drop take le_combine]. apply Forall_cons in Hb as [Ha Hb]. apply Forall_cons in Hb as [Hb Hl']. unfold is_byte in *.
    rewrite take_0. cbn [le_combine]. rewrite wrap_small by lia.
    apply bytes_at_cons in H as [_ H]. apply bytes_at_cons in H as [_ H].
    rewrite (IH (p + 2) l); [f_equal; f_equal; lia| |lia|done|lia|lia].
    by replace (p + 2) with (p + 1 + 1) by lia.
Qed.

(** Folding keeps the residue modulo 65535 and ends in 16 bits. *)
Lemma fold_round sum :
  0 <= sum < 2 ^ 32 -> u32 (Z.land sum 0xFFFF + Z.shiftr sum 16) = sum mod 65536 + sum / 65536.
Proof.
  intros Hs. change 0xFFFF with (Z.ones 16). rewrite Z.land_ones, Z.shiftr_div_pow2 by lia.
  apply wrap_small. change (2 ^ 16) with 65536. Z.div_mod_to_equations. lia.
Qed.

Lemma csum_fold_done sum m :
  0 <= sum < 2 ^ 32 ->
  exists f, csum_fold 4 sum m = Done (f, m) /\ 0 <= f < 65536 /\ f mod 65535 = sum mod 65535 /\ (f = 0 <-> sum = 0).
Proof.
  intros Hs.
  assert (forall fuel b x, 0 <= x < b -> b = 2 ^ 32 /\ (4 <= fuel)%nat \/ b = 2 ^ 17 /\ (3 <= fuel)%nat \/
      b = 65537 /\ (2 <= fuel)%nat \/ b = 65536 /\ (1 <= fuel)%nat ->
    exists f, csum_fold fuel x m = Done (f, m) /\ 0 <= f < 65536 /\ f mod 65535 = x mod 65535 /\ (f = 0 <-> x = 0)) as L.
  { induction fuel as [|fuel IH]; intros b x Hx Hb; [lia|]. cbn [csum_fold].
    assert (x < 2 ^ 32) by lia. assert (Z.shiftr x 16 = x / 65536) as Esh by (rewrite Z.shiftr_div_pow2 by lia; done).
    unfold istrue. destruct (Z.eqb_spec (Z.shiftr x 16) 0) as [E|E]; cbn [negb].
    - rewrite Esh in E. exists x. split; [done|]. Z.div_mod_to_equations. lia.
    - rewrite fold_round by lia. rewrite Esh in E. set (y := x mod 65536 + x / 65536).
      assert (y = x - 65535 * (x / 65536)) as Hy by (unfold y; Z.div_mod_to_equations; lia).
      assert (0 < y /\ y mod 65535 = x mod 65535) as [Hy0 Hym].
      { split; [unfold y; Z.div_mod_to_equations; lia|]. rewrite Hy.
        replace (x - 65535 * (x / 65536)) with (x + - (x / 65536) * 65535) by lia. apply Z_mod_plus_full. }
      destruct (IH (if decide (b = 2 ^ 32) then 2 ^ 17 else if decide (b = 2 ^ 17) then 65537 else 65536) y)
        as (f & Ef & Hf & Hm & H0).
      + destruct Hb as [(-> & ?)|[(-> & ?)|[(-> & ?)|(-> & ?)]]]; repeat case_decide; try lia; Z.div_mod_to_equations; lia.
      + destruct Hb as [(-> & ?)|[(-> & ?)|[(-> & ?)|(-> & ?)]]]; repeat case_decide; try lia; Z.div_mod_to_equations; lia.
      + exists f. split; [exact Ef|]. split; [done|]. split; [congruence|]. Z.div_mod_to_equations. lia. }
  apply (L 4%nat (2 ^ 32) sum); [lia|]. left. lia.
Qed.

(** ** Packets *)

(** A field in network byte order: the first byte is the most significant. *)
Definition net_field (n off : nat) (pkt : list Z) : Z := le_combine (rev (take n (drop off pkt))).
Definition bswap16 (v : Z) : Z := v mod 256 * 256 + v / 256.

(** The sum of the 16-bit words of a header in network byte order. *)
Fixpoint net_words_sum (l : list Z) : Z :=
  match l with
  | a :: b :: l' => 256 * a + b + net_words_sum l'
  | _ => 0
  end.

(** What a receiver that follows RFC 791 and RFC 768 makes of a packet: the
    octets of the two addresses, the two ports and the payload.  It drops a packet
    whose version, header checksum, protocol, total length or UDP length is wrong;
    bytes behind the total length are padding. *)
Definition parse_udp (pkt : list Z) : option (list Z * list Z * Z * Z * list Z) :=
  let tot := net_field 2 2 pkt in
  let u := drop 20 (take (Z.to_nat tot) pkt) in
  let len := net_field 2 4 u in
  if bool_decide (net_field 1 0 pkt = 0x45 /\ net_words_sum (take 20 pkt) mod 65535 = 0 /\ net_field 1 9 pkt = 17 /\
                  28 <= tot <= Z.of_nat (length pkt) /\ 8 <= len <= Z.of_nat (length u))
  then Some (take 4 (drop 12 pkt), take 4 (drop 16 pkt), net_field 2 0 u, net_field 2 2 u, drop 8 (take (Z.to_nat len) u))
  else None.

(** The receiver accepts a packet as the protocol defines it: three bytes from
    port 1234 of 10.0.2.15 to port 53 of 10.0.2.3. *)
Example parse_udp_accepts :
  parse_udp ([0x45; 0; 0; 31; 0; 1; 0; 0; 64; 17; 0x62; 0xBC; 10; 0; 2; 15; 10; 0; 2; 3] ++ [4; 210; 0; 53; 0; 11; 0; 0] ++ [1; 2; 3])
  = Some ([10; 0; 2; 15], [10; 0; 2; 3], 1234, 53, [1; 2; 3]).
Proof. vm_compute. reflexivity. Qed.

Definition ip_header (saddr daddr proto tot chk : Z) : list Z :=
  [0x45; 0] ++ le_split 2 tot ++ [1; 0; 0; 0; 64; proto mod 256] ++ le_split 2 chk ++ le_split 4 saddr ++ le_split 4 daddr.

Definition with_mem (m : mem) (s : net_state) : net_state := set_n_slab (set_heap_mem m (n_slab s)) s.

Lemma with_mem_id s : with_mem (heap_mem (n_slab s)) s = s.
Proof. by destruct s as [[]]. Qed.

Lemma n_mem_done {B} (f : M mem B) m s b m' : f m = Done (b, m') -> n_mem f (with_mem m s) = Done (b, with_mem m' s).
Proof. intros H. unfold n_mem, n_heap, zoom. simpl. by rewrite H. Qed.

Lemma version_ihl b : is_byte b ->
  Z.lor (Z.land (Z.lor (Z.land b 0x0F) (Z.shiftl 4 4) mod 256) 0xF0) 5 mod 256 = 0x45.
Proof.
  intros Hb. assert (forallb (fun b => Z.lor (Z.land (Z.lor (Z.land b 0x0F) (Z.shiftl 4 4) mod 256) 0xF0) 5 mod 256 =? 0x45)
    (seqZ 0 256) = true) as H by (vm_compute; reflexivity).
  apply Z.eqb_eq. by apply (forallb_seqZ _ _ _ H).
Qed.

Lemma ip_checksum_done m p l :
  bytes_at m p l -> (20 <= length l)%nat -> Forall is_byte l ->
  exists c, ip_checksum p m = Done (c, m) /\ 0 <= c < 65536 /\ (c + words_sum (take 20 l)) mod 65535 = 0 /\
    (words_sum (take 20 l) <> 0 -> c < 65535).
Proof.
  intros H Hl Hb. assert (Forall is_byte (take 20 l)) as Hb20 by by apply Forall_take.
  assert (length (take 20 l) = (2 * 10)%nat) as Hl20 by (rewrite length_take; lia).
  pose proof (words_sum_range 10 _ Hl20 Hb20) as Hr.
  assert (bytes_at m p (take 20 l)) as H20.
  { pose proof (bytes_at_sub m p l 0 20 H) as Hs. by rewrite Z.add_0_r in Hs. }
  destruct (csum_fold_done (words_sum (take 20 l)) m) as (f & Ef & Hf & Hm & H0); [lia|].
  exists (65535 - f). unfold ip_checksum.
  rewrite (kbind_done _ _ _ _ _ (csum_words_done 10 m p (take 20 l) 0 H20 Hl20 Hb20 ltac:(lia) ltac:(lia))).
  rewrite Z.add_0_l. rewrite (kbind_done _ _ _ _ _ Ef). split; [|split; [lia|split; [|lia]]].
  - unfold kret. do 2 f_equal. unfold cnot, wrap. replace (Z.lnot f) with (-1 - f) by (unfold Z.lnot; lia).
    Z.div_mod_to_equations. lia.
  - Z.div_mod_to_equations. lia.
Qed.

(** One access to the block under construction. *)
Ltac n_store off :=
  erewrite kbind_done by (apply n_mem_done; eapply (storen_block _ _ _ _ _ off); [lia|cbn [length]; lia]);
  unfold put_bytes; cbn [take drop app length le_split Nat.add].
Ltac n_load off :=
  erewrite kbind_done by (apply n_mem_done; eapply (loadn_block _ _ _ _ _ off); [lia|cbn [length]; lia]);
  cbn [take drop le_combine].

Section Output.
Variable kernel_heap_region : Z.
Hypothesis heap_base : 0 < kernel_heap_region /\ kernel_heap_region mod 16 = 0.

(** The room for the next packet. *)
Definition skb_room (s : net_state) : Prop :=
  slab_inv (n_slab s) /\ mem_wf (heap_mem (n_slab s)) /\
  mapped (heap_mem (n_slab s)) (kernel_heap_region + heap_ptr (n_slab s)) sizeof_sk_buff.

Lemma two_bytes v : 0 <= v < 65536 -> v mod 256 + 256 * ((v / 256) mod 256) = v.
Proof. intros. Z.div_mod_to_equations. lia. Qed.

Lemma ip_send_packet_spec s dest proto data l :
  skb_room s -> bytes_at (heap_mem (n_slab s)) data l -> (20 + length l <= 1536)%nat ->
  let skb := kernel_heap_region + heap_ptr (n_slab s) in
  data + Z.of_nat (length l) <= skb \/ skb + sizeof_sk_buff <= data ->
  (kernel_heap_size < heap_ptr (n_slab s) + sizeof_sk_buff /\
   ip_send_packet kernel_heap_region dest proto data (Z.of_nat (length l)) s = Done (-1, s)) \/
  (exists s' chk blk, ip_send_packet kernel_heap_region dest proto data (Z.of_nat (length l)) s = Done (0, s') /\
     slab_inv (n_slab s') /\ heap_mem (n_slab s') = write_list (heap_mem (n_slab s)) skb blk /\ length blk = Z.to_nat sizeof_sk_buff /\
     0 <= chk < 65536 /\ take (20 + length l) blk = ip_header (net_ip s) dest proto (20 + Z.of_nat (length l)) chk ++ l /\
     words_sum (ip_header (net_ip s) dest proto (20 + Z.of_nat (length l)) chk) mod 65535 = 0).
Proof.
  intros (Hslab & Hwf & Hmap) Hdata Hlen skb Hdis. destruct heap_base as [Hb Hba].
  destruct (kmalloc_spec kernel_heap_region (n_slab s) sizeof_sk_buff) as [[Hfull E]|(sl & E & Hsl & Hm & _ & _ & _)];
    [done|unfold size_ok, sizeof_sk_buff, kernel_heap_size; lia|done|done| |].
  - left. split; [done|]. unfold ip_send_packet, n_heap.
    erewrite kbind_done by (apply zoom_done; exact E). cbn. by destruct s.
  - right. pose proof Hslab as (_ & Hhp & _). unfold ip_send_packet, n_heap.
    erewrite kbind_done by (apply zoom_done; exact E). fold skb. rewrite (istrue_ne0 skb) by (unfold skb; lia). cbn [negb].
    set (s1 := set_n_slab sl s). set (m := heap_mem (n_slab s)) in *.
    destruct (mapped_read_list m skb (Z.to_nat sizeof_sk_buff)) as [blk0 Hblk]; [by rewrite Z2Nat.id by done|].
    apply read_list_bytes_at in Hblk as [Hlb Hblk].
    assert (s1 = with_mem (write_list m skb blk0) s1) as ->.
    { rewrite write_list_same by done. rewrite <- Hm. unfold s1, with_mem. by destruct sl. }
    pose proof (bytes_at_wf _ _ _ Hwf Hblk) as Hbytes. pose proof (bytes_at_wf _ _ _ Hwf Hdata) as Hlbytes.
    change (Z.to_nat sizeof_sk_buff) with 1552%nat in *.
    do 20 (destruct blk0 as [|?b blk0]; [discriminate|]). assert (is_byte b) as Hb0 by by inversion Hbytes.
    unfold readb, readw, writeb, writew, writel. n_load 0%nat. n_store 0%nat. n_load 0%nat. n_store 0%nat.
    rewrite !Z.mul_0_r, !Z.add_0_r, version_ihl by done.
    n_store 1%nat. n_store 2%nat. n_store 4%nat. n_store 6%nat. n_store 8%nat. n_store 9%nat.
    erewrite (kbind_done (kgets net_ip) _ _ (net_ip s)) by reflexivity. n_store 12%nat. n_store 16%nat. n_store 10%nat.
    match goal with |- context [with_mem (write_list m skb ?x) s1] => set (blk1 := x) end.
    assert (Forall is_byte blk1) as Hb1.
    { unfold blk1. repeat (apply Forall_cons; split; [first [by apply Z.mod_pos_bound | done]|]).
      do 20 (apply Forall_cons in Hbytes as [_ Hbytes]). done. }
    destruct (ip_checksum_done (write_list m skb blk1) skb blk1) as (chk & Ec & Hc & Hsum & _);
      [apply write_list_bytes_at|cbn [blk1 length]; lia|done|].
    erewrite kbind_done by (apply n_mem_done; exact Ec). unfold blk1. n_store 10%nat.
    match goal with |- context [with_mem (write_list m skb ?x) s1] => set (blk2 := x) end.
    assert (length blk2 = 1552%nat) as Hl2 by exact Hlb.
    erewrite kbind_done.
    2: { apply n_mem_done. apply kmemcpy_spec.
         - eapply bytes_at_frame; [|exact Hdata]. intros x Hx. apply lookup_write_list_out. unfold sizeof_sk_buff in *. lia.
         - pose proof (bytes_at_mapped _ _ _ (write_list_bytes_at m skb blk2)). eapply mapped_weaken; [done|unfold sizeof_iphdr; lia..].
         - unfold sizeof_iphdr, sizeof_sk_buff in *. lia. }
    rewrite (write_list_put m skb blk2 _ 20 l) by (unfold sizeof_iphdr; lia).
    erewrite kbind_done by (apply n_mem_done; eapply (loadn_block _ _ _ _ _ 2); [lia|rewrite length_put_bytes; lia]).
    erewrite kbind_done by (apply n_mem_done; eapply (storen_block _ _ _ _ _ 1536); [unfold skb_len_off; lia|rewrite length_put_bytes; lia]).
    erewrite kbind_done by done. match goal with |- context [write_list m skb ?x] => set (blk3 := x) end.
    eexists _, chk, blk3. split; [reflexivity|]. split; [exact Hsl|]. split; [done|].
    assert (length (put_bytes 20 l blk2) = 1552%nat) as Hl3 by (rewrite length_put_bytes; lia).
    split; [unfold blk3; rewrite length_put_bytes; rewrite ?length_le_split; lia|]. split; [done|].
    assert (take 20 blk2 = ip_header (net_ip s) dest proto (20 + Z.of_nat (length l)) chk) as Hhdr by reflexivity.
    split.
    + unfold blk3. unfold put_bytes at 1. rewrite take_app_le by (rewrite length_take; lia). rewrite take_take, Nat.min_l by lia.
      unfold put_bytes. rewrite Hhdr, app_assoc. rewrite take_app_length'; [done|]. rewrite length_app, <- Hhdr, length_take. lia.
    + rewrite <- Hhdr. cbn [blk1 blk2 take words_sum] in Hsum |- *. etrans; [|exact Hsum]. f_equal.
      pose proof (two_bytes chk Hc).
      change (0 `div` 256) with 0. change (0 `mod` 256) with 0. lia.
Qed.

Definition udp_bytes (sport dport : Z) (l : list Z) : list Z :=
  le_split 2 sport ++ le_split 2 dport ++ le_split 2 (8 + Z.of_nat (length l)) ++ [0; 0] ++ l.

Lemma length_udp_bytes sport dport l : length (udp_bytes sport dport l) = (8 + length l)%nat.
Proof. unfold udp_bytes. rewrite !length_app, !length_le_split. simpl. lia. Qed.

(** The datagram as it is assembled on the stack. *)
Lemma udp_send_packet_buf s buf dest port data l :
  mem_wf (heap_mem (n_slab s)) -> bytes_at (heap_mem (n_slab s)) data l -> (8 + length l <= 1024)%nat ->
  mapped (heap_mem (n_slab s)) buf 1024 -> data + Z.of_nat (length l) <= buf \/ buf + 1024 <= data ->
  exists blk, length blk = 1024%nat /\ Forall is_byte blk /\ take (8 + length l) blk = udp_bytes 1234 port l /\
    udp_send_packet kernel_heap_region buf dest port data (Z.of_nat (length l)) s =
    ip_send_packet kernel_heap_region dest 17 buf (Z.of_nat (8 + length l)) (with_mem (write_list (heap_mem (n_slab s)) buf blk) s).
Proof.
  intros Hwf Hdata Hlen Hbuf Hdis. set (m := heap_mem (n_slab s)) in *.
  destruct (mapped_read_list m buf 1024 Hbuf) as [blk0 Hblk]. apply read_list_bytes_at in Hblk as [Hlb Hblk].
  assert (s = with_mem (write_list m buf blk0) s) as Es by (rewrite write_list_same by done; symmetry; apply with_mem_id).
  pose proof (bytes_at_wf _ _ _ Hwf Hblk) as Hbytes. pose proof (bytes_at_wf _ _ _ Hwf Hdata) as Hlbytes.
  enough (exists blk, length blk = 1024%nat /\ Forall is_byte blk /\ take (8 + length l) blk = udp_bytes 1234 port l /\
    udp_send_packet kernel_heap_region buf dest port data (Z.of_nat (length l)) (with_mem (write_list m buf blk0) s) =
    ip_send_packet kernel_heap_region dest 17 buf (Z.of_nat (8 + length l)) (with_mem (write_list m buf blk) s)) as E
    by (rewrite <- Es in E; exact E).
  clear Es. unfold udp_send_packet. do 8 (destruct blk0 as [|?b blk0]; [discriminate|]).
  unfold readw, writew. n_store 0%nat. n_store 2%nat. n_store 4%nat. n_store 6%nat.
  match goal with |- context [with_mem (write_list m buf ?x) s] => set (blk1 := x) end.
  assert (length blk1 = 1024%nat) as Hl1 by exact Hlb.
  erewrite kbind_done.
  2: { apply n_mem_done. apply kmemcpy_spec.
       - eapply bytes_at_frame; [|exact Hdata]. intros x Hx. apply lookup_write_list_out. lia.
       - pose proof (bytes_at_mapped _ _ _ (write_list_bytes_at m buf blk1)). eapply mapped_weaken; [done|unfold sizeof_udphdr; lia..].
       - unfold sizeof_udphdr. lia. }
  rewrite (write_list_put m buf blk1 _ 8 l) by (unfold sizeof_udphdr; lia).
  assert (length (put_bytes 8 l blk1) = 1024%nat) as Hl2 by (rewrite length_put_bytes; lia).
  erewrite kbind_done by (apply n_mem_done; eapply (loadn_block _ _ _ _ _ 4); [lia|lia]).
  exists (put_bytes 8 l blk1). split; [done|]. split; [|split].
  - unfold put_bytes, blk1. rewrite !Forall_app. split_and!; [|done|].
    + cbn [take]. repeat (apply Forall_cons; split; [by apply Z.mod_pos_bound|]). by apply List.Forall_nil.
    + apply Forall_drop. do 8 (apply Forall_cons in Hbytes as [_ Hbytes]).
      repeat (apply Forall_cons; split; [by apply Z.mod_pos_bound|]). done.
  - unfold put_bytes. change (take 8 blk1) with (le_split 2 1234 ++ le_split 2 port ++ le_split 2 (8 + Z.of_nat (length l)) ++ [0; 0]).
    rewrite app_assoc. rewrite take_app_length'; [by rewrite <- !app_assoc|].
    rewrite !length_app, !length_le_split. simpl. lia.
  - assert (le_combine (take 2 (drop 4 (put_bytes 8 l blk1))) = Z.of_nat (8 + length l)) as ->; [|done].
    pose proof (two_bytes (sizeof_udphdr + Z.of_nat (length l))) as H2. unfold sizeof_udphdr in *.
    unfold put_bytes, blk1. cbn [take drop app le_combine]. lia.
Qed.

(** A 16-bit value stored in host byte order is read swapped. *)
Lemma net_field_swapped off pre v post :
  length pre = off -> 0 <= v < 2 ^ 16 -> net_field 2 off (pre ++ le_split 2 v ++ post) = bswap16 v.
Proof.
  intros <- Hv. unfold net_field. rewrite drop_app_length, take_app_length' by done. unfold bswap16. cbn [le_split rev app le_combine].
  change (2 ^ 8) with 256. rewrite (Z.mod_small (v / 256)) by (Z.div_mod_to_equations; lia). lia.
Qed.

(** The checksum does not depend on the byte order in which the words are added. *)
Lemma net_words_sum_swap l : net_words_sum l mod 65535 = (256 * words_sum l) mod 65535.
Proof.
  revert l. fix IH 1. intros [|a [|b l]]; [done|done|]. cbn [net_words_sum words_sum].
  replace (256 * (a + 256 * b + words_sum l)) with (256 * a + b + 256 * words_sum l + b * 65535) by lia.
  rewrite Z_mod_plus_full, (Z.add_mod _ (net_words_sum l)), IH, <- Z.add_mod by lia. done.
Qed.

(** No datagram with the two lengths in host byte order passes both length checks. *)
Lemma swapped_lengths t : 28 <= t <= 1044 -> 28 <= bswap16 t <= t -> bswap16 (t - 20) <= t -> False.
Proof. unfold bswap16. intros Ht. Z.div_mod_to_equations. lia. Qed.

Lemma host_order_dropped pkt tot :
  length pkt = Z.to_nat tot -> 28 <= tot <= 1044 -> net_field 2 2 pkt = bswap16 tot -> net_field 2 24 pkt = bswap16 (tot - 20) ->
  parse_udp pkt = None.
Proof.
  intros Hl Ht H2 H24. unfold parse_udp. rewrite H2, bool_decide_false; [done|].
  intros (_ & _ & _ & Htot & Hlen). rewrite Hl, Z2Nat.id in Htot by lia.
  apply (swapped_lengths tot Ht Htot).
  assert (net_field 2 4 (drop 20 (take (Z.to_nat (bswap16 tot)) pkt)) = bswap16 (tot - 20)) as E.
  { rewrite <- H24. unfold net_field. do 2 f_equal. rewrite drop_drop. change (20 + 4)%nat with 24%nat.
    rewrite skipn_firstn_comm, take_take. f_equal. lia. }
  rewrite E, length_drop, length_take in Hlen. lia.
Qed.

(** The packet of a datagram, field by field. *)
Record wire_udp (saddr daddr sport dport : Z) (l pkt : list Z) : Prop := {
  wu_length : length pkt = (28 + length l)%nat;
  wu_version : net_field 1 0 pkt = 0x45;
  wu_checksum : net_words_sum (take 20 pkt) mod 65535 = 0;
  wu_ttl : net_field 1 8 pkt = 64;
  wu_protocol : net_field 1 9 pkt = 17;
  wu_saddr : take 4 (drop 12 pkt) = le_split 4 saddr;
  wu_daddr : take 4 (drop 16 pkt) = le_split 4 daddr;
  wu_payload : drop 28 pkt = l;
  wu_tot_len : net_field 2 2 pkt = bswap16 (28 + Z.of_nat (length l));
  wu_sport : net_field 2 20 pkt = bswap16 sport;
  wu_dport : net_field 2 22 pkt = bswap16 dport;
  wu_len : net_field 2 24 pkt = bswap16 (8 + Z.of_nat (length l))
}.

Lemma wire_packet saddr daddr sport dport chk l :
  0 <= sport < 2 ^ 16 -> 0 <= dport < 2 ^ 16 -> Z.of_nat (length l) < 2 ^ 15 ->
  words_sum (ip_header saddr daddr 17 (20 + Z.of_nat (length (udp_bytes sport dport l))) chk) mod 65535 = 0 ->
  wire_udp saddr daddr sport dport l
    (ip_header saddr daddr 17 (20 + Z.of_nat (length (udp_bytes sport dport l))) chk ++ udp_bytes sport dport l).
Proof.
  intros Hsp Hdp Hl Hsum. pose proof (length_udp_bytes sport dport l) as Hlu. rewrite Hlu in *.
  replace (20 + Z.of_nat (8 + length l)) with (28 + Z.of_nat (length l)) in * by lia.
  set (h := ip_header _ _ _ _ _) in *. set (u := udp_bytes _ _ _) in *. assert (length h = 20%nat) as Hh by reflexivity.
  constructor; try reflexivity.
  - rewrite take_app_length' by done. rewrite net_words_sum_swap, Z.mul_mod, Hsum by lia. by rewrite Z.mul_0_r.
  - apply (net_field_swapped 2 (take 2 h) _ (drop 4 h ++ u)); [done|lia].
  - apply (net_field_swapped 20 h sport (drop 2 u)); [done|exact Hsp].
  - apply (net_field_swapped 22 (h ++ take 2 u) dport (drop 4 u)); [done|exact Hdp].
  - apply (net_field_swapped 24 (h ++ take 4 u) (8 + Z.of_nat (length l)) (drop 6 u)); [done|lia].
Qed.

Lemma wire_dropped saddr daddr sport dport l pkt :
  (8 + length l <= 1024)%nat -> wire_udp saddr daddr sport dport l pkt -> parse_udp pkt = None.
Proof.
  intros Hl [Hlen _ _ _ _ _ _ _ Htot _ _ Hu]. apply (host_order_dropped pkt (28 + Z.of_nat (length l))); [lia|lia|done|].
  by replace (28 + Z.of_nat (length l) - 20) with (8 + Z.of_nat (length l)) by lia.
Qed.

(** C20: a datagram handed to [udp_send_packet] is assembled as follows: when the
    heap has room for a packet buffer the call returns 0 and the buffer holds an
    IPv4 header without options, with a header checksum that verifies, protocol
    17, the octets of this host's and of the destination's address, a UDP header,
    and exactly the bytes of the caller; nothing outside the packet buffer and the
    function's own stack buffer is written.  The total length, the source port
    1234, the destination port and the UDP length are stored in host byte order,
    so that on the wire they read with their bytes swapped, and a receiver that
    follows the protocol drops every such packet.  When the heap is full the call
    returns -1.  The datagram must fit the 1024-byte stack buffer, which the code
    does not check. *)
Theorem udp_send_packet_wire s buf dest port data l :
  let skb := kernel_heap_region + heap_ptr (n_slab s) in
  skb_room s -> 0 <= port < 2 ^ 16 ->
  bytes_at (heap_mem (n_slab s)) data l -> (8 + length l <= 1024)%nat -> mapped (heap_mem (n_slab s)) buf 1024 ->
  data + Z.of_nat (length l) <= buf \/ buf + 1024 <= data -> buf + 1024 <= skb \/ skb + sizeof_sk_buff <= buf ->
  exists r s', udp_send_packet kernel_heap_region buf dest port data (Z.of_nat (length l)) s = Done (r, s') /\
    (kernel_heap_size < heap_ptr (n_slab s) + sizeof_sk_buff /\ r = -1 \/
     r = 0 /\ slab_inv (n_slab s') /\
     exists pkt, bytes_at (heap_mem (n_slab s')) skb pkt /\ wire_udp (net_ip s) dest 1234 port l pkt /\ parse_udp pkt = None) /\
    (forall x, x < buf \/ buf + 1024 <= x -> x < skb \/ skb + sizeof_sk_buff <= x ->
       heap_mem (n_slab s') !! x = heap_mem (n_slab s) !! x).
Proof.
  intros skb (Hslab & Hwf & Hmap) Hp Hdata Hlen Hbuf Hdis Hsep.
  destruct (udp_send_packet_buf s buf dest port data l Hwf Hdata Hlen Hbuf Hdis) as (blk & Hlb & Hbb & Htake & ->).
  set (m := heap_mem (n_slab s)) in *. set (s1 := with_mem (write_list m buf blk) s).
  assert (bytes_at (heap_mem (n_slab s1)) buf (udp_bytes 1234 port l)) as Hu.
  { rewrite <- Htake. pose proof (bytes_at_sub _ _ _ 0 (8 + length l) (write_list_bytes_at m buf blk)) as Hsub.
    rewrite Z.add_0_r in Hsub. exact Hsub. }
  pose proof (length_udp_bytes 1234 port l) as Hlu. rewrite <- Hlu.
  destruct (ip_send_packet_spec s1 dest 17 buf (udp_bytes 1234 port l)) as [[Hfull E]|(s' & chk & blk' & E & Hs' & Hm & Hl' & Hc & Hpkt & Hsum)].
  - split; [exact Hslab|]. split; [by apply write_list_wf|by apply write_list_mapped].
  - exact Hu.
  - lia.
  - change (heap_ptr (n_slab s1)) with (heap_ptr (n_slab s)). fold skb. rewrite Hlu. lia.
  - exists (-1), s1. split; [exact E|]. split; [by left|]. intros x Hx _. apply lookup_write_list_out. lia.
  - exists 0, s'. split; [exact E|]. split.
    + right. split; [done|]. split; [done|]. pose proof (wire_packet (net_ip s) dest 1234 port chk l ltac:(lia) Hp ltac:(lia) Hsum) as Hw.
      eexists. split; [|split; [exact Hw|by eapply wire_dropped]].
      rewrite Hm. change (net_ip s) with (net_ip s1). rewrite <- Hpkt.
      pose proof (bytes_at_sub _ _ _ 0 (20 + length (udp_bytes 1234 port l)) (write_list_bytes_at (heap_mem (n_slab s1)) skb blk')) as Hsub.
      rewrite Z.add_0_r in Hsub. exact Hsub.
    + intros x Hx Hx'. rewrite Hm. rewrite lookup_write_list_out; [apply lookup_write_list_out; lia|].
      rewrite Hl', Z2Nat.id by done. exact Hx'.
Qed.
End Output.

(** ** Witness: three bytes to port 53 *)

Definition demo_net_mem : mem :=
  write_list (write_list (write_list ∅ 4096 (replicate 1552 0)) 8192 (replicate 1024 7)) 16384 [1; 2; 3].
Definition demo_net : net_state :=
  mk_net (slab_boot demo_net_mem) (IP4 10 0 2 15) (IP4 10 0 2 2) (IP4 255 255 255 0) (IP4 10 0 2 3) (replicate 8 0) 0.

Lemma demo_net_room : skb_room 4096 demo_net.
Proof.
  split; [vm_compute; split_and!; congruence|]. split; [|apply mapped_read; [done|vm_compute; reflexivity]].
  repeat apply write_list_wf; [apply map_Forall_empty|by apply Forall_replicate..|solve_bytes].
Qed.

Lemma udp_send_packet_wire_witness :
  exists s' pkt, udp_send_packet 4096 8192 (IP4 10 0 2 3) 53 16384 3 demo_net = Done (0, s') /\
    bytes_at (heap_mem (n_slab s')) 4096 pkt /\ wire_udp (IP4 10 0 2 15) (IP4 10 0 2 3) 1234 53 [1; 2; 3] pkt /\ parse_udp pkt = None.
Proof.
  destruct (udp_send_packet_wire 4096 ltac:(vm_compute; split; congruence) demo_net 8192 (IP4 10 0 2 3) 53 16384 [1; 2; 3])
    as (r & s' & E & H & _).
  - apply demo_net_room.
  - lia.
  - apply bytes_at_read. vm_compute. reflexivity.
  - cbn [length]. lia.
  - apply mapped_read; [lia|vm_compute; reflexivity].
  - right. vm_compute. congruence.
  - right. vm_compute. congruence.
  - destruct H as [[Hfull _]|(-> & _ & pkt & H)]; [vm_compute in Hfull; discriminate|].
    exists s', pkt. split; [exact E|exact H].
Defined.
