(* ===== verification/Descriptors.v ===== *)
(** * arch/gdt.c and arch/idt.c: descriptor tables

    The segment table with its task-state segment, the interrupt table and the
    remapping of the interrupt controllers.  arch/gdt.c holds both sides of an
    unresolved merge; the side labelled HEAD is modelled, the other differs from
    it only in not exporting [gdtr_base] and [gdtr_limit].  The addresses of the
    statics and of the assembly stubs are parameters; lgdt, ltr and lidt store
    into the registers [gdt_loaded], [tr] and [idt_loaded]. *)

From S2P Require Import Prelude Ports.

(** ** Data *)

Record tss_t := mk_tss {
  reserved0 : Z;
  rsp0 : Z;
  rsp1 : Z;
  rsp2 : Z;
  reserved1 : Z;
  reserved2 : Z;
  ist : list Z;           (* ist1 .. ist7 *)
  reserved3 : Z;
  reserved4 : Z;
  reserved5 : Z;
  iomap_base : Z
}.
Definition sizeof_tss : Z := 104.
Definition zero_tss : tss_t := mk_tss 0 0 0 0 0 0 (replicate 7 0) 0 0 0 0.
Definition set_rsp0 (x : Z) (t : tss_t) : tss_t :=
  mk_tss (reserved0 t) x (rsp1 t) (rsp2 t) (reserved1 t) (reserved2 t) (ist t) (reserved3 t) (reserved4 t) (reserved5 t) (iomap_base t).

Record idt_entry_t := mk_gate {
  offset_low : Z;
  selector : Z;
  gate_ist : Z;
  type_attr : Z;
  offset_mid : Z;
  offset_high : Z;
  gate_zero : Z
}.
Definition sizeof_idt_entry : Z := 16.
Definition IDT_ENTRIES : Z := 256.
Definition IDT_INTERRUPT_GATE : Z := 0x8E.

Record desc_state := mk_desc {
  gdt : list Z;
  gdtr : Z * Z;             (* limit, base *)
  gdtr_exported : Z * Z;    (* gdtr_limit, gdtr_base *)
  tss : tss_t;
  tss_rsp0 : Z;
  idt : list idt_entry_t;
  idtr : Z * Z;             (* limit, base *)
  gdt_loaded : Z;           (* operand of lgdt *)
  tr : Z;                   (* operand of ltr *)
  idt_loaded : Z;           (* operand of lidt *)
  d_ports : ports
}.
Definition set_gdt (x : list Z) (s : desc_state) : desc_state :=
  mk_desc x (gdtr s) (gdtr_exported s) (tss s) (tss_rsp0 s) (idt s) (idtr s) (gdt_loaded s) (tr s) (idt_loaded s) (d_ports s).
Definition set_gdtr (x : Z * Z) (s : desc_state) : desc_state :=
  mk_desc (gdt s) x (gdtr_exported s) (tss s) (tss_rsp0 s) (idt s) (idtr s) (gdt_loaded s) (tr s) (idt_loaded s) (d_ports s).
Definition set_gdtr_exported (x : Z * Z) (s : desc_state) : desc_state :=
  mk_desc (gdt s) (gdtr s) x (tss s) (tss_rsp0 s) (idt s) (idtr s) (gdt_loaded s) (tr s) (idt_loaded s) (d_ports s).
Definition set_tss (x : tss_t) (s : desc_state) : desc_state :=
  mk_desc (gdt s) (gdtr s) (gdtr_exported s) x (tss_rsp0 s) (idt s) (idtr s) (gdt_loaded s) (tr s) (idt_loaded s) (d_ports s).
Definition set_tss_rsp0_var (x : Z) (s : desc_state) : desc_state :=
  mk_desc (gdt s) (gdtr s) (gdtr_exported s) (tss s) x (idt s) (idtr s) (gdt_loaded s) (tr s) (idt_loaded s) (d_ports s).
Definition set_idt (x : list idt_entry_t) (s : desc_state) : desc_state :=
  mk_desc (gdt s) (gdtr s) (gdtr_exported s) (tss s) (tss_rsp0 s) x (idtr s) (gdt_loaded s) (tr s) (idt_loaded s) (d_ports s).
Definition set_idtr (x : Z * Z) (s : desc_state) : desc_state :=
  mk_desc (gdt s) (gdtr s) (gdtr_exported s) (tss s) (tss_rsp0 s) (idt s) x (gdt_loaded s) (tr s) (idt_loaded s) (d_ports s).
Definition set_gdt_loaded (x : Z) (s : desc_state) : desc_state :=
  mk_desc (gdt s) (gdtr s) (gdtr_exported s) (tss s) (tss_rsp0 s) (idt s) (idtr s) x (tr s) (idt_loaded s) (d_ports s).
Definition set_tr (x : Z) (s : desc_state) : desc_state :=
  mk_desc (gdt s) (gdtr s) (gdtr_exported s) (tss s) (tss_rsp0 s) (idt s) (idtr s) (gdt_loaded s) x (idt_loaded s) (d_ports s).
Definition set_idt_loaded (x : Z) (s : desc_state) : desc_state :=
  mk_desc (gdt s) (gdtr s) (gdtr_exported s) (tss s) (tss_rsp0 s) (idt s) (idtr s) (gdt_loaded s) (tr s) x (d_ports s).
Definition set_d_ports (x : ports) (s : desc_state) : desc_state :=
  mk_desc (gdt s) (gdtr s) (gdtr_exported s) (tss s) (tss_rsp0 s) (idt s) (idtr s) (gdt_loaded s) (tr s) (idt_loaded s) x.

(** The initialised segment table: null, kernel code and data, user data and
    code, and two slots for the task-state segment. *)
Definition gdt_boot : list Z :=
  [0; 0x00AF9A000000FFFF; 0x00CF92000000FFFF; 0x00CFF2000000FFFF; 0x00AFFA000000FFFF; 0; 0; 0].

(** Addresses of statics and stubs. *)
Class DescLayout := {
  gdt_addr : Z;
  gdtr_addr : Z;
  tss_addr : Z;
  intr_stack : Z;
  idt_addr : Z;
  idtr_addr : Z;
  isr : Z -> Z;             (* isr0 .. isr31 and isr128 *)
  irq : Z -> Z              (* irq0 .. irq15 *)
}.

Section Descriptors.
Context {L : DescLayout}.

(** ** arch/gdt.c *)

Definition gdt_store (i v : Z) : M desc_state unit :=
  kupd (fun s => if (0 <=? i) && (i <? Z.of_nat (length (gdt s))) then Some (set_gdt (<[Z.to_nat i := v]> (gdt s)) s) else None).

Definition set_tss_rsp0 (rsp : Z) : M desc_state unit :=
  kmod (set_tss_rsp0_var rsp);;;
  kmod (fun s => set_tss (set_rsp0 rsp (tss s)) s).

Definition tss_entry (base limit : Z) : Z :=
  let entry := 0 in
  let entry := Z.lor entry (Z.land limit 0xFFFF) in
  let entry := Z.lor entry (u64 (Z.shiftl (Z.land (Z.shiftr limit 16) 0x0F) 48)) in
  let entry := Z.lor entry (u64 (Z.shiftl (Z.land base 0xFFFFFF) 16)) in
  let entry := Z.lor entry (u64 (Z.shiftl (Z.land (Z.shiftr base 24) 0xFF) 56)) in
  Z.lor entry (u64 (Z.shiftl 0x89 40)).

Definition gdt_set_tss (base limit : Z) : M desc_state unit :=
  gdt_store 5 (tss_entry base limit);;;
  gdt_store 6 (Z.land (Z.shiftr base 32) 0xFFFFFFFF).

Definition gdt_init : M desc_state unit :=
  kmod (set_gdtr (u16 (8 * 8 - 1), gdt_addr));;;
  kmod (fun s => set_gdtr_exported (gdtr s) s);;;
  gdt_set_tss tss_addr (sizeof_tss - 1);;;
  kmod (set_gdt_loaded gdtr_addr);;;
  kmod (set_tss_rsp0_var (intr_stack + 16384));;;
  kmod (fun s => set_tss (set_rsp0 (tss_rsp0 s) (tss s)) s);;;
  kmod (set_tr 0x28).

(** ** arch/idt.c *)

Definition d_port {B} (m : M ports B) : M desc_state B := zoom d_ports set_d_ports m.
Definition io_wait : M desc_state unit := d_port (outb 0x80 0).

Definition gate_store (idx : Z) (e : idt_entry_t) : M desc_state unit :=
  kupd (fun s => if (0 <=? idx) && (idx <? Z.of_nat (length (idt s))) then Some (set_idt (<[Z.to_nat idx := e]> (idt s)) s) else None).

Definition idt_set_gate (idx handler sel flags : Z) : M desc_state unit :=
  gate_store idx
    (mk_gate (u16 (Z.land handler 0xFFFF)) sel 0 flags
       (u16 (Z.land (Z.shiftr handler 16) 0xFFFF)) (u32 (Z.land (Z.shiftr handler 32) 0xFFFFFFFF)) 0).

Definition pic_remap : M desc_state unit :=
  let* m1 := d_port (inb 0x21) in
  let* m2 := d_port (inb 0xA1) in
  d_port (outb 0x20 0x11);;; io_wait;;;
  d_port (outb 0xA0 0x11);;; io_wait;;;
  d_port (outb 0x21 0x20);;; io_wait;;;
  d_port (outb 0xA1 0x28);;; io_wait;;;
  d_port (outb 0x21 0x04);;; io_wait;;;
  d_port (outb 0xA1 0x02);;; io_wait;;;
  d_port (outb 0x21 0x01);;; io_wait;;;
  d_port (outb 0xA1 0x01);;; io_wait;;;
  d_port (outb 0x21 m1);;;
  d_port (outb 0xA1 m2).

Definition zero_gate : idt_entry_t := mk_gate 0 0 0 0 0 0 0.

Definition idt_init : M desc_state unit :=
  kfor (seqZ 0 IDT_ENTRIES) (fun i => gate_store i zero_gate);;;
  kmod (set_idtr (u16 (sizeof_idt_entry * IDT_ENTRIES - 1), idt_addr));;;
  kfor (seqZ 0 32) (fun i => idt_set_gate i (isr i) 0x08 IDT_INTERRUPT_GATE);;;
  pic_remap;;;
  kfor (seqZ 32 16) (fun i => idt_set_gate i (irq (i - 32)) 0x08 IDT_INTERRUPT_GATE);;;
  idt_set_gate 128 (isr 128) 0x08 0xEE;;;
  kmod (set_idt_loaded idtr_addr).
End Descriptors.

(** ** What the processor reads *)

(** A segment descriptor (the low word of a system descriptor). *)
Record segment := mk_segment {
  seg_base : Z;
  seg_limit : Z;
  seg_type : Z;
  seg_code_or_data : bool;      (* the S bit *)
  seg_dpl : Z;
  seg_present : bool;
  seg_long : bool
}.
Definition bits_of (d lo n : Z) : Z := Z.land (Z.shiftr d lo) (Z.ones n).
Definition read_segment (d : Z) : segment :=
  mk_segment (Z.lor (bits_of d 16 24) (Z.shiftl (bits_of d 56 8) 24))
    (Z.lor (bits_of d 0 16) (Z.shiftl (bits_of d 48 4) 16))
    (bits_of d 40 4) (Z.testbit d 44) (bits_of d 45 2) (Z.testbit d 47) (Z.testbit d 53).
(** A system descriptor has the upper half of its base in the next slot. *)
Definition read_system (d d' : Z) : segment :=
  let s := read_segment d in
  mk_segment (Z.lor (seg_base s) (Z.shiftl (bits_of d' 0 32) 32)) (seg_limit s) (seg_type s)
    (seg_code_or_data s) (seg_dpl s) (seg_present s) (seg_long s).

(** A gate: handler address, code selector, gate type and privilege; [None] when
    the present bit is clear. *)
Definition read_gate (e : idt_entry_t) : option (Z * Z * Z * Z) :=
  if Z.testbit (type_attr e) 7 then
    Some (offset_low e + 2 ^ 16 * offset_mid e + 2 ^ 32 * offset_high e, selector e,
          bits_of (type_attr e) 0 4, bits_of (type_attr e) 5 2)
  else None.

(** ** Bits of descriptors *)

Lemma testbit_bits_of d lo n i :
  0 <= lo -> 0 <= n -> 0 <= i -> Z.testbit (bits_of d lo n) i = bool_decide (i < n) && Z.testbit d (i + lo).
Proof.
  intros. unfold bits_of. rewrite Z.land_spec, Z.shiftr_spec, Z.testbit_ones by lia.
  rewrite (proj2 (Z.leb_le 0 i)) by lia. rewrite andb_comm. simpl. f_equal. case_bool_decide; lia.
Qed.

(** A field of [n] bits placed at bit [lo]. *)
Lemma testbit_placed x n lo i :
  0 <= n -> 0 <= lo -> lo + n <= 64 -> 0 <= i ->
  Z.testbit (u64 (Z.shiftl (Z.land x (Z.ones n)) lo)) i = bool_decide (lo <= i < lo + n) && Z.testbit x (i - lo).
Proof.
  intros. rewrite testbit_wrap, Z.shiftl_spec by lia. destruct (decide (i < lo)) as [Hlt|Hge].
  - rewrite (Z.testbit_neg_r _ (i - lo)) by lia. rewrite andb_false_r. by rewrite bool_decide_false by lia.
  - rewrite Z.land_spec, Z.testbit_ones by lia. rewrite (proj2 (Z.leb_le 0 (i - lo))) by lia. simpl.
    destruct (decide (i < lo + n)).
    + rewrite !bool_decide_true by lia. rewrite (proj2 (Z.ltb_lt _ _)) by lia. by rewrite andb_true_r.
    + rewrite (bool_decide_false (lo <= i < lo + n)) by lia. rewrite (proj2 (Z.ltb_ge _ _)) by lia. by rewrite !andb_false_r.
Qed.

Lemma testbit_tss_entry base limit i :
  0 <= i -> Z.testbit (tss_entry base limit) i =
    (bool_decide (i < 16) && Z.testbit limit i) || (bool_decide (48 <= i < 52) && Z.testbit limit (i - 32)) ||
    (bool_decide (16 <= i < 40) && Z.testbit base (i - 16)) || (bool_decide (56 <= i < 64) && Z.testbit base (i - 32)) ||
    (bool_decide (40 <= i < 48) && Z.testbit 0x89 (i - 40)).
Proof.
  intros Hi. unfold tss_entry. rewrite !Z.lor_spec, Z.bits_0.
  change 0xFFFF with (Z.ones 16). change 0x0F with (Z.ones 4). change 0xFFFFFF with (Z.ones 24). change 0xFF with (Z.ones 8).
  change (Z.shiftl 0x89 40) with (Z.shiftl (Z.land 0x89 (Z.ones 8)) 40).
  rewrite !testbit_placed by lia.
  change (48 + 4) with 52. change (16 + 24) with 40. change (56 + 8) with 64. change (40 + 8) with 48. rewrite Z.land_spec, Z.testbit_ones by lia. rewrite (proj2 (Z.leb_le 0 i)) by lia.
  assert (forall x k, 48 <= i -> Z.testbit (Z.shiftr x k) (i - 48) = Z.testbit x (i - 48 + k)) as Hsh by (intros; apply Z.shiftr_spec; lia).
  cbn [orb andb]. repeat apply (f_equal2 orb).
  - rewrite andb_comm. f_equal. case_bool_decide; lia.
  - case_bool_decide; [|done]. cbn [andb]. rewrite Hsh by lia. f_equal. lia.
  - done.
  - case_bool_decide; [|done]. cbn [andb]. rewrite Z.shiftr_spec by lia. f_equal. lia.
  - done.
Qed.

(** The bits of the entry that a field of the descriptor reads. *)
Ltac entry_bits :=
  rewrite ?testbit_tss_entry by lia; repeat (case_bool_decide; try lia); cbn [andb orb]; rewrite ?orb_false_r, ?orb_false_l.

(** The descriptor of a task-state segment reads back as its base and limit. *)
Lemma tss_entry_reads base limit :
  0 <= base < 2 ^ 64 -> 0 <= limit < 2 ^ 20 ->
  read_system (tss_entry base limit) (Z.land (Z.shiftr base 32) 0xFFFFFFFF) = mk_segment base limit 9 false 0 true false.
Proof.
  intros Hb Hl. unfold read_system, read_segment. cbn [seg_base seg_limit seg_type seg_code_or_data seg_dpl seg_present seg_long].
  assert (forall i, 0 <= i -> Z.testbit (Z.land (Z.shiftr base 32) 0xFFFFFFFF) i = bool_decide (i < 32) && Z.testbit base (i + 32)) as Hhi
    by (intros; change 0xFFFFFFFF with (Z.ones 32); by apply testbit_bits_of).
  f_equal.
  - apply Z.bits_inj'. intros i Hi. rewrite !Z.lor_spec.
    destruct (decide (i < 24)); [|destruct (decide (i < 32))].
    + rewrite !Z.shiftl_spec_low, testbit_bits_of by lia. entry_bits. f_equal. lia.
    + rewrite (Z.shiftl_spec_low _ 32), Z.shiftl_spec, !testbit_bits_of by lia. entry_bits. f_equal. lia.
    + rewrite !Z.shiftl_spec, !testbit_bits_of, Z.add_0_r, Hhi by lia.
      entry_bits; try (f_equal; lia); symmetry; apply (testbit_range_high _ 64); lia.
  - apply Z.bits_inj'. intros i Hi. rewrite Z.lor_spec. destruct (decide (i < 16)).
    + rewrite Z.shiftl_spec_low, testbit_bits_of by lia. entry_bits. f_equal. lia.
    + rewrite Z.shiftl_spec, !testbit_bits_of by lia. entry_bits; try (f_equal; lia); symmetry; apply (testbit_range_high _ 20); lia.
  - apply Z.bits_inj'. intros i Hi. rewrite testbit_bits_of by lia. entry_bits; try (symmetry; apply (testbit_range_high 9 4); lia).
    assert (i = 0 \/ i = 1 \/ i = 2 \/ i = 3) as [->|[->|[->| ->]]] by lia; reflexivity.
  - by entry_bits.
  - apply Z.bits_inj'. intros i Hi. rewrite testbit_bits_of, Z.bits_0 by lia. entry_bits; try done.
    assert (i = 0 \/ i = 1) as [->| ->] by lia; reflexivity.
  - by entry_bits.
  - by entry_bits.
Qed.

Section Tables.
Context {L : DescLayout}.

(** The segment table after [gdt_init] means to the processor what the
    selectors of arch/gdt.h say: flat 64-bit kernel code at 0x08, kernel data at
    0x10, user data at 0x18 and 64-bit user code at 0x20; the descriptor the task
    register selects is a present, available 64-bit task-state segment whose
    base and limit read back as the address of [tss] and its last byte, and whose
    ring-0 stack is the top of the interrupt stack; the register image covers
    the eight entries and is the one loaded and exported. *)
Theorem gdt_init_segments s :
  gdt s = gdt_boot -> 0 <= tss_addr < 2 ^ 64 ->
  exists s' lo hi, gdt_init s = Done (tt, s') /\
    read_segment <$> take 5 (gdt s') =
      [mk_segment 0 0 0 false 0 false false; mk_segment 0 0xFFFFF 0xA true 0 true true; mk_segment 0 0xFFFFF 2 true 0 true false;
       mk_segment 0 0xFFFFF 2 true 3 true false; mk_segment 0 0xFFFFF 0xA true 3 true true] /\
    gdt s' !! Z.to_nat (tr s' / 8) = Some lo /\ gdt s' !! S (Z.to_nat (tr s' / 8)) = Some hi /\
    read_system lo hi = mk_segment tss_addr (sizeof_tss - 1) 9 false 0 true false /\
    rsp0 (tss s') = intr_stack + 16384 /\ tss_rsp0 s' = intr_stack + 16384 /\
    gdtr s' = (8 * Z.of_nat (length (gdt s')) - 1, gdt_addr) /\ gdtr_exported s' = gdtr s' /\ gdt_loaded s' = gdtr_addr /\
    idt s' = idt s /\ d_ports s' = d_ports s.
Proof.
  intros Hg Hb. unfold gdt_init, gdt_set_tss, gdt_store, kupd, kmod, kbind. cbn [gdt set_gdtr set_gdtr_exported]. rewrite Hg.
  cbn [gdt_boot length Z.of_nat Z.leb Z.ltb Z.compare Pos.of_succ_nat Pos.succ Pos.compare Pos.compare_cont andb set_gdt gdt].
  cbn [length insert list_insert Z.to_nat Pos.to_nat Pos.iter_op Nat.add].
  eexists _, (tss_entry tss_addr (sizeof_tss - 1)), (Z.land (Z.shiftr tss_addr 32) 0xFFFFFFFF). split; [reflexivity|].
  split; [vm_compute; reflexivity|]. split; [reflexivity|]. split; [reflexivity|].
  split; [apply tss_entry_reads; [done|unfold sizeof_tss; lia]|]. done.
Qed.

(** ** The interrupt table *)

Lemma gate_store_done i e s :
  0 <= i < Z.of_nat (length (idt s)) -> gate_store i e s = Done (tt, set_idt (<[Z.to_nat i := e]> (idt s)) s).
Proof.
  intros Hi. unfold gate_store, kupd. by rewrite (proj2 (Z.leb_le 0 i)), (proj2 (Z.ltb_lt i _)) by lia.
Qed.

(** A range of vectors filled one after the other. *)
Lemma gates_done (f : Z -> idt_entry_t) (n : nat) a s :
  0 <= a -> a + Z.of_nat n <= Z.of_nat (length (idt s)) ->
  exists t, kfor (seqZ a (Z.of_nat n)) (fun i => gate_store i (f i)) s = Done (tt, set_idt t s) /\ length t = length (idt s) /\
    forall j, t !! j = if decide (a <= Z.of_nat j < a + Z.of_nat n) then Some (f (Z.of_nat j)) else idt s !! j.
Proof.
  revert a s. induction n as [|n IH]; intros a s Ha Hn.
  - exists (idt s). split; [by destruct s|]. split; [done|]. intros j. by rewrite decide_False by lia.
  - rewrite seqZ_cons by lia. cbn [kfor]. erewrite kbind_done by (apply gate_store_done; lia).
    replace (Z.pred (Z.of_nat (S n))) with (Z.of_nat n) by lia.
    destruct (IH (Z.succ a) (set_idt (<[Z.to_nat a := f a]> (idt s)) s)) as (t & E & Hl & Hj);
      [lia|cbn [idt set_idt]; rewrite length_insert; lia|].
    exists t. split; [exact E|]. cbn [idt set_idt] in *. rewrite length_insert in Hl. split; [done|]. intros j. rewrite Hj.
    destruct (decide (Z.of_nat j = a)) as [<-|Hne].
    + rewrite decide_False, decide_True by lia. rewrite Nat2Z.id. apply list_lookup_insert_eq. lia.
    + rewrite list_lookup_insert_ne by lia. repeat case_decide; try done; lia.
Qed.

Lemma d_port_done {B} (m : M ports B) s b p : m (d_ports s) = Done (b, p) -> d_port m s = Done (b, set_d_ports p s).
Proof. apply zoom_done. Qed.

Lemma d_outb_done port v s i o :
  d_port (outb port v) (set_d_ports (mk_ports i o) s) = Done (tt, set_d_ports (mk_ports i ((port, u8 v) :: o)) s).
Proof. reflexivity. Qed.

Definition remap_writes : list (Z * Z) :=
  [(0x80, 0); (0xA1, 1); (0x80, 0); (0x21, 1); (0x80, 0); (0xA1, 2); (0x80, 0); (0x21, 4); (0x80, 0); (0xA1, 0x28);
   (0x80, 0); (0x21, 0x20); (0x80, 0); (0xA0, 0x11); (0x80, 0); (0x20, 0x11)].

Lemma pic_remap_done s :
  exists p m1 m2 p1 p2, pic_remap s = Done (tt, set_d_ports p s) /\
    inb 0x21 (d_ports s) = Done (m1, p1) /\ inb 0xA1 p1 = Done (m2, p2) /\
    port_out p = (0xA1, m2) :: (0x21, m1) :: remap_writes ++ port_out (d_ports s).
Proof.
  destruct (inb_range (d_ports s) 0x21) as (m1 & p1 & E1 & R1 & O1).
  destruct (inb_range p1 0xA1) as (m2 & p2 & E2 & R2 & O2).
  unfold pic_remap. erewrite kbind_done by (apply d_port_done; exact E1). erewrite kbind_done by (apply d_port_done; exact E2).
  exists (mk_ports (port_in p2) ((0xA1, m2) :: (0x21, m1) :: remap_writes ++ port_out p2)), m1, m2, p1, p2.
  split; [|split; [done|split; [done|cbn [port_out]; by rewrite O2, O1]]].
  change (set_d_ports p2 (set_d_ports p1 s)) with (set_d_ports p2 s). destruct p2 as [i o]. unfold io_wait.
  repeat (erewrite kbind_done by apply d_outb_done).
  rewrite d_outb_done, (wrap_small 8 m1), (wrap_small 8 m2) by done. reflexivity.
Qed.

Definition expected_gate (v : Z) : option (Z * Z * Z * Z) :=
  if v <? 32 then Some (isr v, 0x08, 0xE, 0)
  else if v <? 48 then Some (irq (v - 32), 0x08, 0xE, 0)
  else if v =? 128 then Some (isr 128, 0x08, 0xE, 3)
  else None.

Definition gate (handler sel flags : Z) : idt_entry_t :=
  mk_gate (u16 (Z.land handler 0xFFFF)) sel 0 flags
    (u16 (Z.land (Z.shiftr handler 16) 0xFFFF)) (u32 (Z.land (Z.shiftr handler 32) 0xFFFFFFFF)) 0.

(** The three parts of the handler's address. *)
Lemma gate_handler h sel flags :
  0 <= h < 2 ^ 64 -> Z.testbit flags 7 = true -> read_gate (gate h sel flags) = Some (h, sel, bits_of flags 0 4, bits_of flags 5 2).
Proof.
  intros Hh Hp. unfold read_gate, gate. cbn [type_attr offset_low offset_mid offset_high selector]. rewrite Hp.
  f_equal. f_equal. f_equal. f_equal. change 0xFFFF with (Z.ones 16). change 0xFFFFFFFF with (Z.ones 32).
  rewrite !Z.land_ones, !Z.shiftr_div_pow2 by lia. unfold wrap. rewrite !Z.mod_mod by lia.
  change (2 ^ 16) with 65536. change (2 ^ 32) with 4294967296. change (2 ^ 64) with 18446744073709551616 in Hh.
  Z.div_mod_to_equations. lia.
Qed.

(** C31: after [idt_init] the processor finds, for each of the 256 vectors, the
    gate the kernel means: the exception stubs at 0 to 31 and the interrupt
    stubs at 32 to 47, for the kernel only; the system call gate at 128, open to
    user mode; no gate anywhere else.  Each handler address is recovered from
    the three parts it is split into.  The table register has the table's base
    and last byte, and both interrupt controllers get the initialisation
    sequence with vector bases 0x20 and 0x28 and their old masks. *)
Theorem idt_init_vectors s :
  length (idt s) = 256%nat -> (forall v, 0 <= isr v < 2 ^ 64) -> (forall v, 0 <= irq v < 2 ^ 64) ->
  exists s' m1 m2 p1 p2, idt_init s = Done (tt, s') /\
    (forall v, 0 <= v < 256 -> exists e, idt s' !! Z.to_nat v = Some e /\ read_gate e = expected_gate v) /\
    idtr s' = (256 * 16 - 1, idt_addr) /\ idt_loaded s' = idtr_addr /\
    inb 0x21 (d_ports s) = Done (m1, p1) /\ inb 0xA1 p1 = Done (m2, p2) /\
    sent_to 0x20 (d_ports s') = sent_to 0x20 (d_ports s) ++ [0x11] /\ sent_to 0x21 (d_ports s') = sent_to 0x21 (d_ports s) ++ [0x20; 4; 1; m1] /\
    sent_to 0xA0 (d_ports s') = sent_to 0xA0 (d_ports s) ++ [0x11] /\ sent_to 0xA1 (d_ports s') = sent_to 0xA1 (d_ports s) ++ [0x28; 2; 1; m2].
Proof.
  intros Hlen Hisr Hirq. unfold idt_init.
  destruct (gates_done (fun _ => zero_gate) 256 0 s) as (t1 & E1 & L1 & T1); [lia|lia|].
  erewrite kbind_done by exact E1. erewrite kbind_done by reflexivity. set (s1 := set_idtr _ _).
  destruct (gates_done (fun i => gate (isr i) 8 IDT_INTERRUPT_GATE) 32 0 s1) as (t2 & E2 & L2 & T2); [lia|cbn; lia|].
  erewrite kbind_done by exact E2.
  destruct (pic_remap_done (set_idt t2 s1)) as (p & m1 & m2 & p1 & p2 & E3 & I1 & I2 & O). erewrite kbind_done by exact E3.
  set (s3 := set_d_ports p _).
  destruct (gates_done (fun i => gate (irq (i - 32)) 8 IDT_INTERRUPT_GATE) 16 32 s3) as (t4 & E4 & L4 & T4);
    [lia|change (idt s3) with t2; rewrite L2; change (idt s1) with t1; lia|].
  erewrite kbind_done by exact E4.
  change (idt s3) with t2 in *. change (idt s1) with t1 in *.
  erewrite kbind_done by (apply gate_store_done; change (idt (set_idt t4 s3)) with t4; lia).
  eexists _, m1, m2, p1, p2. split; [reflexivity|]. split.
  { intros v Hv. change (idt _) with (<[Z.to_nat 128 := gate (isr 128) 8 0xEE]> t4). unfold expected_gate.
    destruct (decide (v = 128)) as [->|Hne].
    - eexists. split; [apply list_lookup_insert_eq; lia|]. by apply gate_handler.
    - rewrite list_lookup_insert_ne by lia. rewrite T4, T2, T1. rewrite Z2Nat.id by lia.
      destruct (Z.ltb_spec v 32); [|destruct (Z.ltb_spec v 48); [|rewrite (proj2 (Z.eqb_neq v 128)) by done]];
        repeat case_decide; try lia; eexists; (split; [reflexivity|]); try done; by apply gate_handler. }
  split; [reflexivity|]. split; [reflexivity|]. split; [exact I1|]. split; [exact I2|].
  match goal with |- sent_to _ (d_ports ?x) = _ /\ _ => change (d_ports x) with p end. destruct p as [i o]. cbn [port_out] in O. subst o. unfold remap_writes. cbn [app].
  change (d_ports (set_idt t2 s1)) with (d_ports s). rewrite !sent_to_cons. cbn -[sent_to].
  repeat split; by rewrite ?app_nil_r, <- ?app_assoc.
Qed.
End Tables.

(** ** Witnesses *)

Definition demo_desc_layout : DescLayout :=
  {| gdt_addr := 0xFFFFFFFF80200000; gdtr_addr := 0xFFFFFFFF80200040; tss_addr := 0xFFFFFFFF80200100; intr_stack := 0xFFFFFFFF80201000;
     idt_addr := 0xFFFFFFFF80206000; idtr_addr := 0xFFFFFFFF80207000;
     isr := fun v => 0xFFFFFFFF80100000 + 16 * (v mod 256); irq := fun v => 0xFFFFFFFF80101000 + 16 * (v mod 256) |}.
Definition demo_desc : desc_state :=
  mk_desc gdt_boot (0, 0) (0, 0) zero_tss 0 (replicate 256 zero_gate) (0, 0) 0 0 0 (mk_ports {[ 0x21 := [0xB8]; 0xA1 := [0x8E] ]} []).

Lemma gdt_init_segments_witness :
  exists s' lo hi, gdt_init (L := demo_desc_layout) demo_desc = Done (tt, s') /\
    gdt s' !! 5%nat = Some lo /\ gdt s' !! 6%nat = Some hi /\
    read_system lo hi = mk_segment 0xFFFFFFFF80200100 103 9 false 0 true false.
Proof.
  destruct (gdt_init_segments (L := demo_desc_layout) demo_desc) as (s' & lo & hi & E & _ & Hlo & Hhi & Hr & _).
  - reflexivity.
  - vm_compute. split; congruence.
  - exists s', lo, hi. split; [exact E|]. assert (tr s' = 0x28) as Et.
    { pose proof E as E'. vm_compute in E'. injection E' as <-. reflexivity. }
    rewrite Et in Hlo, Hhi. exact (conj Hlo (conj Hhi Hr)).
Defined.

Lemma idt_init_vectors_witness :
  exists s', idt_init (L := demo_desc_layout) demo_desc = Done (tt, s') /\
    exists e, idt s' !! 128%nat = Some e /\ read_gate e = Some (0xFFFFFFFF80100800, 0x08, 0xE, 3).
Proof.
  destruct (idt_init_vectors (L := demo_desc_layout) demo_desc) as (s' & m1 & m2 & p1 & p2 & E & Hv & _).
  - reflexivity.
  - intros v. cbn [isr demo_desc_layout]. pose proof (Z.mod_pos_bound v 256). lia.
  - intros v. cbn [irq demo_desc_layout]. pose proof (Z.mod_pos_bound v 256). lia.
  - exists s'. split; [exact E|]. exact (Hv 128 ltac:(lia)).
Defined.
