(* ===== verification/Pci.v ===== *)
(** * drivers/pci/pci.c: enumeration of the PCI bus

    The host bridge is a latch for the configuration address and a map from
    addresses to 32-bit registers; a register no device implements reads as all
    ones.  The scan of a bus calls the scan of a function, which calls the scan
    of the bus behind a bridge: the recursion has fuel, and the theorem shows
    how much is enough. *)

From S2P Require Import Prelude.

Definition PCI_VENDOR_ID : Z := 0x00.
Definition PCI_COMMAND : Z := 0x04.
Definition PCI_CLASS_REVISION : Z := 0x08.
Definition PCI_HEADER_TYPE : Z := 0x0E.
Definition PCI_BAR0 : Z := 0x10.
Definition PCI_INTERRUPT_LINE : Z := 0x3C.
Definition PCI_SECONDARY_BUS : Z := 0x19.
Definition PCI_CMD_IO : Z := Z.shiftl 1 0.
Definition PCI_CMD_MEM : Z := Z.shiftl 1 1.
Definition PCI_CMD_BUSMASTER : Z := Z.shiftl 1 2.
Definition PCI_HEADER_TYPE_BRIDGE : Z := 1.
Definition PCI_HEADER_TYPE_MULTIFUNC : Z := 0x80.
Definition PCI_BAR_TYPE_IO : Z := 1.
Definition PCI_BAR_TYPE_MMIO32 : Z := 0.
Definition PCI_BAR_TYPE_MMIO64 : Z := 2.
Definition MAX_PCI_DEVICES : Z := 32.

Record pci_device_t := mk_dev {
  dev_bus : Z; dev_slot : Z; dev_func : Z;
  vendor_id : Z; device_id : Z;
  class_code : Z; subclass : Z; prog_if : Z;
  header_type : Z;
  dev_irq : Z;
  bar : list Z;
  bar_type : list Z;
  bar_count : Z
}.
Definition zero_dev : pci_device_t := mk_dev 0 0 0 0 0 0 0 0 0 0 (replicate 6 0) (replicate 6 0) 0.

Record pci := mk_pci {
  pci_latch : Z;                    (* port 0xCF8 *)
  pci_cfg : gmap Z Z;               (* the registers behind port 0xCFC *)
  pci_devices : list pci_device_t;
  pci_device_count : Z
}.
Definition set_pci_latch (x : Z) (s : pci) : pci := mk_pci x (pci_cfg s) (pci_devices s) (pci_device_count s).
Definition set_pci_cfg (x : gmap Z Z) (s : pci) : pci := mk_pci (pci_latch s) x (pci_devices s) (pci_device_count s).
Definition set_pci_devices (x : list pci_device_t) (s : pci) : pci := mk_pci (pci_latch s) (pci_cfg s) x (pci_device_count s).
Definition set_pci_device_count (x : Z) (s : pci) : pci := mk_pci (pci_latch s) (pci_cfg s) (pci_devices s) x.

(** ** Configuration space *)

Definition pci_addr (bus slot func offset : Z) : Z :=
  u32 (Z.lor (Z.lor (Z.lor (Z.lor (Z.shiftl 1 31) (Z.shiftl bus 16)) (Z.shiftl slot 11)) (Z.shiftl func 8)) (Z.land offset 0xFC)).

(** The register an address selects. *)
Definition cfg_reg (cfg : gmap Z Z) (a : Z) : Z := u32 (default (Z.ones 32) (cfg !! a)).

Definition out_addr (a : Z) : M pci unit := kmod (set_pci_latch a).
Definition in_data : M pci Z := kgets (fun s => cfg_reg (pci_cfg s) (pci_latch s)).
Definition out_data (v : Z) : M pci unit := kmod (fun s => set_pci_cfg (<[pci_latch s := u32 v]> (pci_cfg s)) s).

Definition pci_read32 (bus slot func off : Z) : M pci Z :=
  out_addr (pci_addr bus slot func off);;; in_data.

Definition pci_read16 (bus slot func off : Z) : M pci Z :=
  out_addr (pci_addr bus slot func off);;;
  let* v := in_data in
  kret (u16 (Z.land (Z.shiftr v (Z.land off 2 * 8)) 0xFFFF)).

Definition pci_read8 (bus slot func off : Z) : M pci Z :=
  out_addr (pci_addr bus slot func off);;;
  let* v := in_data in
  kret (u8 (Z.land (Z.shiftr v (Z.land off 3 * 8)) 0xFF)).

Definition pci_write32 (bus slot func off val : Z) : M pci unit :=
  out_addr (pci_addr bus slot func off);;; out_data val.

Definition pci_write16 (bus slot func off val : Z) : M pci unit :=
  out_addr (pci_addr bus slot func off);;;
  let* old := in_data in
  let shift := Z.land off 2 * 8 in
  let old := Z.lor (Z.land old (cnot 32 (u32 (Z.shiftl 0xFFFF shift)))) (u32 (Z.shiftl val shift)) in
  out_data old.

Definition pci_enable_device (dev : pci_device_t) : M pci unit :=
  let* cmd := pci_read16 (dev_bus dev) (dev_slot dev) (dev_func dev) PCI_COMMAND in
  let cmd := Z.lor cmd (u16 (Z.lor (Z.lor PCI_CMD_BUSMASTER PCI_CMD_MEM) PCI_CMD_IO)) in
  pci_write16 (dev_bus dev) (dev_slot dev) (dev_func dev) PCI_COMMAND cmd.

(** ** The device table *)

(** [*out_dev] and the result 1, or the result 0. *)
Fixpoint find_dev (l : list pci_device_t) (vendor device : Z) : option pci_device_t :=
  match l with
  | [] => None
  | d :: l' => if (vendor_id d =? vendor) && (device_id d =? device) then Some d else find_dev l' vendor device
  end.
Definition pci_find_device (vendor device : Z) : M pci (option pci_device_t) :=
  kgets (fun s => find_dev (take (Z.to_nat (pci_device_count s)) (pci_devices s)) vendor device).

Definition dev_upd (i : Z) (f : pci_device_t -> pci_device_t) : M pci unit :=
  kupd (fun s =>
    match pci_devices s !! Z.to_nat i with
    | Some d => Some (set_pci_devices (<[Z.to_nat i := f d]> (pci_devices s)) s)
    | None => None
    end).
Definition dev_get {B} (i : Z) (f : pci_device_t -> B) : M pci B := kopt (fun s => f <$> pci_devices s !! Z.to_nat i).

Definition set_dev_ids (b sl fn v d : Z) (x : pci_device_t) : pci_device_t :=
  mk_dev b sl fn v d (class_code x) (subclass x) (prog_if x) (header_type x) (dev_irq x) (bar x) (bar_type x) (bar_count x).
Definition set_dev_class (c sc p : Z) (x : pci_device_t) : pci_device_t :=
  mk_dev (dev_bus x) (dev_slot x) (dev_func x) (vendor_id x) (device_id x) c sc p (header_type x) (dev_irq x) (bar x) (bar_type x) (bar_count x).
Definition set_header_type (h : Z) (x : pci_device_t) : pci_device_t :=
  mk_dev (dev_bus x) (dev_slot x) (dev_func x) (vendor_id x) (device_id x) (class_code x) (subclass x) (prog_if x) h (dev_irq x) (bar x) (bar_type x) (bar_count x).
Definition set_dev_irq (q : Z) (x : pci_device_t) : pci_device_t :=
  mk_dev (dev_bus x) (dev_slot x) (dev_func x) (vendor_id x) (device_id x) (class_code x) (subclass x) (prog_if x) (header_type x) q (bar x) (bar_type x) (bar_count x).
Definition set_bar (i : Z) (v t : Z) (x : pci_device_t) : pci_device_t :=
  mk_dev (dev_bus x) (dev_slot x) (dev_func x) (vendor_id x) (device_id x) (class_code x) (subclass x) (prog_if x) (header_type x) (dev_irq x)
    (<[Z.to_nat i := v]> (bar x)) (<[Z.to_nat i := t]> (bar_type x)) (bar_count x).

(** ** Enumeration *)

(** The loop over the base address registers from the [i]-th on, [n] bounding the
    iterations left. *)
Fixpoint decode_bars_loop (n : nat) (p bus slot func bar_limit i : Z) : M pci unit :=
  match n with
  | O => kret tt
  | S n' =>
      if bar_limit <=? i then kret tt
      else
        let reg := u8 (PCI_BAR0 + i * 4) in
        let* bar_lo := pci_read32 bus slot func reg in
        if bar_lo =? 0 then
          dev_upd p (set_bar i 0 0);;; decode_bars_loop n' p bus slot func bar_limit (i + 1)
        else if istrue (Z.land bar_lo 1) then
          dev_upd p (set_bar i (Z.land bar_lo 0xFFFFFFFC) PCI_BAR_TYPE_IO);;;
          decode_bars_loop n' p bus slot func bar_limit (i + 1)
        else
          let type := u8 (Z.land (Z.shiftr bar_lo 1) 3) in
          if type =? PCI_BAR_TYPE_MMIO32 then
            dev_upd p (set_bar i (Z.land bar_lo 0xFFFFFFF0) PCI_BAR_TYPE_MMIO32);;;
            decode_bars_loop n' p bus slot func bar_limit (i + 1)
          else if type =? PCI_BAR_TYPE_MMIO64 then
            let* bar_hi := pci_read32 bus slot func (u8 (reg + 4)) in
            dev_upd p (set_bar i (Z.lor (Z.shiftl bar_hi 32) (Z.land bar_lo 0xFFFFFFF0)) PCI_BAR_TYPE_MMIO64);;;
            decode_bars_loop n' p bus slot func bar_limit (i + 2)
          else decode_bars_loop n' p bus slot func bar_limit (i + 1)
  end.

Definition pci_decode_bars (p : Z) : M pci unit :=
  let* h := dev_get p header_type in
  let bar_limit := if Z.land h 0x7F =? PCI_HEADER_TYPE_BRIDGE then 2 else 6 in
  let* bus := dev_get p dev_bus in
  let* slot := dev_get p dev_slot in
  let* func := dev_get p dev_func in
  decode_bars_loop 6 p bus slot func bar_limit 0.

Definition pci_scan_function (scan_bus : Z -> M pci unit) (bus slot func : Z) : M pci unit :=
  let* n := kgets pci_device_count in
  if MAX_PCI_DEVICES <=? n then kret tt
  else
    let* id := pci_read32 bus slot func PCI_VENDOR_ID in
    let vid := u16 (Z.land id 0xFFFF) in
    if vid =? 0xFFFF then kret tt
    else
      let* dev := kgets pci_device_count in
      kmod (fun s => set_pci_device_count (i32 (pci_device_count s + 1)) s);;;
      dev_upd dev (fun _ => zero_dev);;;
      dev_upd dev (set_dev_ids bus slot func vid (u16 (Z.shiftr id 16)));;;
      let* class_rev := pci_read32 bus slot func PCI_CLASS_REVISION in
      dev_upd dev (set_dev_class (Z.land (Z.shiftr class_rev 24) 0xFF) (Z.land (Z.shiftr class_rev 16) 0xFF)
                     (Z.land (Z.shiftr class_rev 8) 0xFF));;;
      let* h := pci_read8 bus slot func PCI_HEADER_TYPE in
      dev_upd dev (set_header_type h);;;
      let* q := pci_read8 bus slot func PCI_INTERRUPT_LINE in
      dev_upd dev (set_dev_irq q);;;
      pci_decode_bars dev;;;
      let* c := dev_get dev class_code in
      let* sc := dev_get dev subclass in
      if (c =? 0x06) && (sc =? 0x04) then
        let* sec_bus := pci_read8 bus slot func PCI_SECONDARY_BUS in
        if negb (sec_bus =? 0) then scan_bus sec_bus else kret tt
      else kret tt.

Definition scan_slot (scan_bus : Z -> M pci unit) (bus slot : Z) : M pci unit :=
  let* id := pci_read32 bus slot 0 PCI_VENDOR_ID in
  if id =? 0xFFFFFFFF then kret tt
  else
    let* header_type := pci_read8 bus slot 0 PCI_HEADER_TYPE in
    if istrue (Z.land header_type PCI_HEADER_TYPE_MULTIFUNC) then
      kfor (seqZ 0 8) (fun func =>
        let* id := pci_read32 bus slot func PCI_VENDOR_ID in
        if negb (id =? 0xFFFFFFFF) then pci_scan_function scan_bus bus slot func else kret tt)
    else pci_scan_function scan_bus bus slot 0.

Fixpoint pci_scan_bus (fuel : nat) (bus : Z) : M pci unit :=
  match fuel with
  | O => kspin
  | S f => kfor (seqZ 0 32) (scan_slot (pci_scan_bus f) bus)
  end.

Definition pci_init (fuel : nat) : M pci unit :=
  kmod (set_pci_device_count 0);;;
  pci_scan_bus fuel 0.

(** ** What a scan finds *)

Definition cfg_id (cfg : gmap Z Z) (b sl fn : Z) : Z := cfg_reg cfg (pci_addr b sl fn PCI_VENDOR_ID).
Definition cfg_vendor (cfg : gmap Z Z) (b sl fn : Z) : Z := u16 (Z.land (cfg_id cfg b sl fn) 0xFFFF).
Definition cfg_byte (cfg : gmap Z Z) (b sl fn off : Z) : Z :=
  u8 (Z.land (Z.shiftr (cfg_reg cfg (pci_addr b sl fn off)) (Z.land off 3 * 8)) 0xFF).
Definition present (cfg : gmap Z Z) (b sl fn : Z) : Prop := cfg_vendor cfg b sl fn <> 0xFFFF.
(** Function 0, or a function of a slot that says it has several. *)
Definition scanned (cfg : gmap Z Z) (b sl fn : Z) : Prop :=
  present cfg b sl 0 /\
  (fn = 0 \/ 0 <= fn < 8 /\ istrue (Z.land (cfg_byte cfg b sl 0 PCI_HEADER_TYPE) PCI_HEADER_TYPE_MULTIFUNC) = true).

(** The table entry [d] describes a function that is there. *)
Record genuine (cfg : gmap Z Z) (d : pci_device_t) : Prop := {
  gen_present : present cfg (dev_bus d) (dev_slot d) (dev_func d);
  gen_vendor : vendor_id d = cfg_vendor cfg (dev_bus d) (dev_slot d) (dev_func d);
  gen_device : device_id d = u16 (Z.shiftr (cfg_id cfg (dev_bus d) (dev_slot d) (dev_func d)) 16);
  gen_header : header_type d = cfg_byte cfg (dev_bus d) (dev_slot d) (dev_func d) PCI_HEADER_TYPE;
  gen_irq : dev_irq d = cfg_byte cfg (dev_bus d) (dev_slot d) (dev_func d) PCI_INTERRUPT_LINE
}.

Definition table_ok (s : pci) : Prop := length (pci_devices s) = 32%nat /\ 0 <= pci_device_count s <= 32.

(** What a scan does to the state: entries are added, nothing else changes. *)
Record extends (s s' : pci) : Prop := {
  ext_cfg : pci_cfg s' = pci_cfg s;
  ext_ok : table_ok s';
  ext_count : pci_device_count s <= pci_device_count s';
  ext_old : forall i, Z.of_nat i < pci_device_count s -> pci_devices s' !! i = pci_devices s !! i;
  ext_new : forall i, pci_device_count s <= Z.of_nat i < pci_device_count s' ->
              exists d, pci_devices s' !! i = Some d /\ genuine (pci_cfg s) d
}.

(** The function is in the table, unless the table is full. *)
Definition covered (s : pci) (b sl fn : Z) : Prop :=
  present (pci_cfg s) b sl fn -> pci_device_count s < 32 ->
  exists i d, Z.of_nat i < pci_device_count s /\ pci_devices s !! i = Some d /\ dev_bus d = b /\ dev_slot d = sl /\ dev_func d = fn.

Lemma extends_refl s : table_ok s -> extends s s.
Proof. intros H. constructor; [done|done|lia|done|lia]. Qed.

Lemma extends_latch s a : table_ok s -> extends s (set_pci_latch a s).
Proof. intros H. constructor; [done|done|cbn; lia|done|cbn; lia]. Qed.

Lemma extends_trans s1 s2 s3 : extends s1 s2 -> extends s2 s3 -> extends s1 s3.
Proof.
  intros [C1 O1 N1 P1 Q1] [C2 O2 N2 P2 Q2]. constructor; [congruence|done|lia| |].
  - intros i Hi. rewrite P2 by lia. by apply P1.
  - intros i Hi. destruct (decide (Z.of_nat i < pci_device_count s2)).
    + rewrite P2 by lia. apply Q1. lia.
    + rewrite <- C1. apply Q2. lia.
Qed.

Lemma covered_extends s s' b sl fn : covered s b sl fn -> extends s s' -> covered s' b sl fn.
Proof.
  intros Hc [C O N P Q] Hp Hn. rewrite C in Hp. destruct (Hc Hp ltac:(lia)) as (i & d & Hi & Hd & Hb).
  exists i, d. rewrite P by done. split; [lia|done].
Qed.

Lemma pci_read32_done b sl fn off s :
  pci_read32 b sl fn off s = Done (cfg_reg (pci_cfg s) (pci_addr b sl fn off), set_pci_latch (pci_addr b sl fn off) s).
Proof. reflexivity. Qed.
Lemma pci_read8_done b sl fn off s :
  pci_read8 b sl fn off s = Done (cfg_byte (pci_cfg s) b sl fn off, set_pci_latch (pci_addr b sl fn off) s).
Proof. reflexivity. Qed.

Lemma dev_upd_at a cfg l d c (i : nat) f :
  l !! i = Some d -> dev_upd (Z.of_nat i) f (mk_pci a cfg l c) = Done (tt, mk_pci a cfg (<[i := f d]> l) c).
Proof. intros Hd. unfold dev_upd, kupd. rewrite Nat2Z.id. cbn [pci_devices]. by rewrite Hd. Qed.
Lemma dev_upd_done a cfg l d c (i : nat) f :
  (i < length l)%nat -> dev_upd (Z.of_nat i) f (mk_pci a cfg (<[i := d]> l) c) = Done (tt, mk_pci a cfg (<[i := f d]> l) c).
Proof.
  intros Hi. rewrite (dev_upd_at _ _ _ d) by (by apply list_lookup_insert_eq). by rewrite list_insert_insert_eq.
Qed.
Lemma dev_get_done {B} a cfg l d c (i : nat) (f : pci_device_t -> B) :
  (i < length l)%nat -> dev_get (Z.of_nat i) f (mk_pci a cfg (<[i := d]> l) c) = Done (f d, mk_pci a cfg (<[i := d]> l) c).
Proof.
  intros Hi. unfold dev_get. apply kopt_some. rewrite Nat2Z.id. cbn [pci_devices]. by rewrite list_lookup_insert_eq by done.
Qed.

(** Two entries that differ in their base addresses only. *)
Definition same_ids (d d' : pci_device_t) : Prop :=
  exists bs ts, d' = mk_dev (dev_bus d) (dev_slot d) (dev_func d) (vendor_id d) (device_id d) (class_code d) (subclass d) (prog_if d)
                       (header_type d) (dev_irq d) bs ts (bar_count d).
Lemma same_ids_bar d d' i v t : same_ids (set_bar i v t d) d' -> same_ids d d'.
Proof. intros (bs & ts & ->). by exists bs, ts. Qed.

Lemma decode_bars_loop_done n b sl fn lim i (p : nat) a cfg l d c :
  (p < length l)%nat ->
  exists a' d', decode_bars_loop n (Z.of_nat p) b sl fn lim i (mk_pci a cfg (<[p := d]> l) c) = Done (tt, mk_pci a' cfg (<[p := d']> l) c) /\ same_ids d d'.
Proof.
  intros Hp. revert i a d. induction n as [|n IH]; intros i a d; cbn [decode_bars_loop];
    [exists a, d; split; [done|]; exists (bar d), (bar_type d); by destruct d|].
  destruct (lim <=? i); [exists a, d; split; [done|]; exists (bar d), (bar_type d); by destruct d|].
  rewrite (kbind_done _ _ _ _ _ (pci_read32_done _ _ _ _ _)). unfold set_pci_latch. cbn [pci_cfg pci_devices pci_device_count].
  repeat case_match; rewrite ?(kbind_done _ _ _ _ _ (pci_read32_done _ _ _ _ _)); unfold set_pci_latch; cbn [pci_cfg pci_devices pci_device_count];
    rewrite ?(kbind_done _ _ _ _ _ (dev_upd_done _ _ _ _ _ _ _ Hp));
    match goal with |- exists a' d', decode_bars_loop _ _ _ _ _ _ ?j (mk_pci ?a _ (<[_ := ?x]> _) _) = _ /\ _ =>
      destruct (IH j a x) as (a' & d' & E & Hs) end; exists a', d'; (split; [exact E|]); eauto using same_ids_bar.
Qed.

Section Scan.
Variable scan_bus : Z -> M pci unit.

(** The scan behind a bridge is only entered with a longer table. *)
Definition behind (n : Z) : Prop :=
  forall b s1, table_ok s1 -> n < pci_device_count s1 -> safe False (scan_bus b) s1 (fun _ s2 => extends s1 s2).

Lemma scan_function_ok b sl fn s :
  table_ok s -> behind (pci_device_count s) ->
  safe False (pci_scan_function scan_bus b sl fn) s (fun _ s' => extends s s' /\ covered s' b sl fn).
Proof.
  intros Hok Hrec. pose proof Hok as [Hlen Hcnt]. unfold pci_scan_function, MAX_PCI_DEVICES.
  eapply safe_step; [reflexivity|]. destruct (Z.leb_spec 32 (pci_device_count s)) as [Hfull|Hroom].
  { split; [by apply extends_refl|]. intros _ ?. lia. }
  eapply safe_step; [apply pci_read32_done|]. fold (cfg_id (pci_cfg s) b sl fn). fold (cfg_vendor (pci_cfg s) b sl fn).
  destruct (Z.eqb_spec (cfg_vendor (pci_cfg s) b sl fn) 0xFFFF) as [Hno|Hyes].
  { split; [by apply extends_latch|]. intros Hp. by destruct Hp. }
  eapply safe_step; [reflexivity|]. eapply safe_step; [reflexivity|].
  destruct s as [a0 cfg l c]. unfold set_pci_latch, set_pci_device_count. cbn [pci_cfg pci_devices pci_device_count] in *.
  assert (i32 (c + 1) = c + 1) as -> by (unfold signed; rewrite Z.mod_small; lia).
  pose (n := Z.to_nat c). assert (c = Z.of_nat n) as Ec by lia. assert (n < length l)%nat as Hn by lia. rewrite Ec in *.
  destruct (lookup_lt_is_Some_2 l n Hn) as [d0 Hd0].
  eapply safe_step; [exact (dev_upd_at _ _ _ _ _ _ _ Hd0)|]. eapply safe_step; [by apply dev_upd_done|].
  eapply safe_step; [apply pci_read32_done|]. eapply safe_step; [by apply dev_upd_done|].
  eapply safe_step; [apply pci_read8_done|]. eapply safe_step; [by apply dev_upd_done|].
  eapply safe_step; [apply pci_read8_done|]. eapply safe_step; [by apply dev_upd_done|].
  unfold set_pci_latch. cbn [pci_cfg pci_devices pci_device_count].
  match goal with |- context [<[n := ?x]> l] => set (d1 := x) end.
  assert (exists a' d2, pci_decode_bars (Z.of_nat n) (mk_pci (pci_addr b sl fn PCI_INTERRUPT_LINE) cfg (<[n := d1]> l) (Z.of_nat n + 1))
    = Done (tt, mk_pci a' cfg (<[n := d2]> l) (Z.of_nat n + 1)) /\ same_ids d1 d2) as (a' & d2 & E & Hs).
  { unfold pci_decode_bars. do 4 (erewrite kbind_done by (by apply dev_get_done)). by apply decode_bars_loop_done. }
  eapply safe_step; [exact E|]. eapply safe_step; [by apply dev_get_done|]. eapply safe_step; [by apply dev_get_done|].
  assert (genuine cfg d2 /\ dev_bus d2 = b /\ dev_slot d2 = sl /\ dev_func d2 = fn) as (Hg & Hb).
  { destruct Hs as (bs & ts & ->). split; [|done]. constructor; [exact Hyes|reflexivity..]. }
  set (s1 := fun a => mk_pci a cfg (<[n := d2]> l) (Z.of_nat n + 1)).
  assert (forall a, extends (mk_pci a0 cfg l (Z.of_nat n)) (s1 a)) as Hext.
  { intros a. constructor; cbn [s1 pci_cfg pci_device_count pci_devices]; [done| |lia| |].
    - split; cbn; [by rewrite length_insert|lia].
    - intros i Hi. apply list_lookup_insert_ne. lia.
    - intros i Hi. assert (i = n) as -> by lia. exists d2. split; [by apply list_lookup_insert_eq|done]. }
  assert (forall a, covered (s1 a) b sl fn) as Hcov.
  { intros a _ _. exists n, d2. split; [cbn; lia|]. split; [by apply list_lookup_insert_eq|done]. }
  destruct ((class_code d2 =? 6) && (subclass d2 =? 4)).
  - eapply safe_step; [apply pci_read8_done|]. unfold set_pci_latch. cbn [pci_cfg pci_devices pci_device_count].
    match goal with |- context [mk_pci ?a _ _ _] => fold (s1 a) end.
    destruct (negb _); [|split; [apply Hext|apply Hcov]].
    eapply safe_mono; [apply Hrec; [apply Hext|cbn; lia]|done|]. intros u s2 H2.
    split; [eapply extends_trans; [apply Hext|exact H2]|eapply covered_extends; [apply Hcov|exact H2]].
  - fold (s1 a'). split; [apply Hext|apply Hcov].
Qed.
End Scan.

Section ScanBus.
Variable scan_bus : Z -> M pci unit.

Lemma scan_slot_ok b sl s :
  table_ok s -> behind scan_bus (pci_device_count s) ->
  safe False (scan_slot scan_bus b sl) s
    (fun _ s' => extends s s' /\ forall fn, scanned (pci_cfg s) b sl fn -> covered s' b sl fn).
Proof.
  intros Hok Hrec. unfold scan_slot. eapply safe_step; [apply pci_read32_done|]. fold (cfg_id (pci_cfg s) b sl 0).
  set (s1 := set_pci_latch _ s). assert (extends s s1) as He1 by by apply extends_latch.
  destruct (Z.eqb_spec (cfg_id (pci_cfg s) b sl 0) 0xFFFFFFFF) as [Hno|Hyes].
  { split; [done|]. intros fn [Hp _]. destruct Hp. unfold cfg_vendor. rewrite Hno. reflexivity. }
  eapply safe_step; [apply pci_read8_done|]. set (s2 := set_pci_latch _ s1).
  assert (extends s s2) as He2 by (eapply extends_trans; [exact He1|by apply extends_latch, He1]).
  change (pci_cfg s1) with (pci_cfg s). destruct (istrue _) eqn:Em.
  - change 8 with (Z.of_nat 8). eapply safe_mono; [apply (safe_for_seqZ False _ (fun i st =>
      extends s st /\ forall fn, 0 <= fn < i -> covered st b sl fn) 8 0)|done|].
    + split; [exact He2|lia].
    + intros i st Hi [He Hc]. eapply safe_step; [apply pci_read32_done|]. set (st1 := set_pci_latch _ st).
      assert (extends st st1) as Hst by (apply extends_latch, He). destruct (Z.eqb_spec (cfg_reg (pci_cfg st) (pci_addr b sl i PCI_VENDOR_ID)) 0xFFFFFFFF) as [Hn|Hn]; cbn [negb].
      * split; [by eapply extends_trans|]. intros fn Hfn. destruct (decide (fn = i)) as [->|].
        -- intros Hp. destruct Hp. change (pci_cfg st1) with (pci_cfg st). unfold cfg_vendor, cfg_id. by rewrite Hn.
        -- eapply covered_extends; [apply Hc; lia|done].
      * eapply safe_mono; [apply scan_function_ok; [apply Hst|]|done|].
        -- intros b1 x Hx Hlt. apply Hrec; [done|]. pose proof (ext_count _ _ He). change (pci_device_count st1) with (pci_device_count st) in Hlt. lia.
        -- intros u st2 [He3 Hc3]. split; [by do 2 (eapply extends_trans; [done|])|]. intros fn Hfn. destruct (decide (fn = i)) as [->|]; [done|].
           eapply covered_extends; [apply Hc; lia|by eapply extends_trans].
    + intros u st [He Hc]. split; [done|]. intros fn [_ [->|[Hfn _]]]; apply Hc; lia.
  - eapply safe_mono; [apply scan_function_ok; [apply He2|exact Hrec]|done|]. intros u st [He Hc].
    split; [by eapply extends_trans|]. intros fn [_ [->|[_ Hm]]]; [done|congruence].
Qed.
End ScanBus.

Lemma pci_scan_bus_ok fuel : forall b s,
  table_ok s -> 33 - pci_device_count s <= Z.of_nat fuel ->
  safe False (pci_scan_bus fuel b) s
    (fun _ s' => extends s s' /\ forall sl fn, 0 <= sl < 32 -> scanned (pci_cfg s) b sl fn -> covered s' b sl fn).
Proof.
  induction fuel as [|f IH]; intros b s Hok Hf; [destruct Hok; lia|]. cbn [pci_scan_bus].
  assert (forall n, pci_device_count s <= n -> behind (pci_scan_bus f) n) as Hrec.
  { intros n Hn b1 s1 Hs1 Hlt. eapply safe_mono; [apply IH; [done|lia]|done|]. by intros u s2 [? _]. }
  change 32 with (Z.of_nat 32) at 1. eapply safe_mono; [apply (safe_for_seqZ False _ (fun i st =>
      extends s st /\ forall sl fn, 0 <= sl < i -> scanned (pci_cfg s) b sl fn -> covered st b sl fn) 32 0)|done|].
  - split; [by apply extends_refl|lia].
  - intros i st Hi [He Hc]. eapply safe_mono; [apply scan_slot_ok; [apply He|apply Hrec, He]|done|].
    intros u st1 [He1 Hc1]. split; [by eapply extends_trans|]. intros sl fn Hsl Hsc. destruct (decide (sl = i)) as [->|].
    + apply Hc1. by rewrite (ext_cfg _ _ He).
    + eapply covered_extends; [apply Hc; [lia|done]|done].
  - intros u st [He Hc]. split; [done|]. exact Hc.
Qed.

(** C32: enumeration ends, whatever the devices answer, even when bridges lead
    back to buses already scanned: a bridge is entered only after its entry was
    added to the table of 32, so a recursion of depth 33 is enough.  The table is
    never overrun, every entry describes a function that is present, with its
    identifiers, header type and interrupt line, configuration space is only
    read, and unless the table is full every function of bus 0 has an entry. *)
Theorem pci_init_terminates fuel s :
  length (pci_devices s) = 32%nat -> (33 <= fuel)%nat ->
  exists s', pci_init fuel s = Done (tt, s') /\ 0 <= pci_device_count s' <= 32 /\ pci_cfg s' = pci_cfg s /\
    (forall i, Z.of_nat i < pci_device_count s' -> exists d, pci_devices s' !! i = Some d /\ genuine (pci_cfg s) d) /\
    (pci_device_count s' < 32 -> forall sl fn, 0 <= sl < 32 -> scanned (pci_cfg s) 0 sl fn -> present (pci_cfg s) 0 sl fn ->
       exists i d, Z.of_nat i < pci_device_count s' /\ pci_devices s' !! i = Some d /\ dev_bus d = 0 /\ dev_slot d = sl /\ dev_func d = fn).
Proof.
  intros Hlen Hf. unfold pci_init. erewrite kbind_done by reflexivity. set (s0 := set_pci_device_count 0 s).
  destruct (safe_inv _ _ _ (pci_scan_bus_ok fuel 0 s0 ltac:(split; cbn; [done|lia]) ltac:(cbn; lia))) as ([] & s' & E & [C O N P Q] & Hc).
  exists s'. split; [exact E|]. split; [apply O|]. split; [exact C|]. split.
  - intros i Hi. apply Q. cbn. lia.
  - intros Hroom sl fn Hsl Hsc Hp. apply (Hc sl fn Hsl Hsc); [by rewrite C|done].
Qed.

(** ** Witness: a network card, and a bridge on bus 0 that leads to a bridge on
    bus 1 whose secondary bus is bus 1 again *)

Definition demo_pci : pci :=
  mk_pci 0
    (list_to_map
       [(pci_addr 0 0 0 0, 0x12378086); (pci_addr 0 0 0 8, 0x06000002);
        (pci_addr 0 3 0 0, 0x100E8086); (pci_addr 0 3 0 8, 0x02000003); (pci_addr 0 3 0 0x0C, 0); (pci_addr 0 3 0 0x10, 0xFEBC0000);
        (pci_addr 0 3 0 0x3C, 0x10B);
        (pci_addr 0 4 0 0, 0x00011B36); (pci_addr 0 4 0 8, 0x06040000); (pci_addr 0 4 0 0x0C, 0x00010000); (pci_addr 0 4 0 0x18, 0x00010100);
        (pci_addr 1 0 0 0, 0x00011B36); (pci_addr 1 0 0 8, 0x06040000); (pci_addr 1 0 0 0x0C, 0x00010000); (pci_addr 1 0 0 0x18, 0x00010100)])
    (replicate 32 zero_dev) 0.

Lemma pci_init_terminates_witness :
  exists s', pci_init 33 demo_pci = Done (tt, s') /\ 0 <= pci_device_count s' <= 32.
Proof.
  destruct (pci_init_terminates 33 demo_pci) as (s' & E & Hn & _); [reflexivity|lia|]. exists s'. exact (conj E Hn).
Defined.
