(* ===== verification/Elf.v ===== *)
(** * fs/binfmt_elf.c: loading an ELF image

    The image is the list of its bytes; a read outside it is a fault.  The pages
    of a segment are allocated, mapped into the current address space and filled
    through the direct map.  fs/exec.c contains the same loop; it is the
    definition [load_segments] here. *)

From S2P Require Import Prelude Memory PgTable FrameAlloc Paging VirtMem.

Definition ELF_MAGIC : Z := 0x464C457F.
Definition PT_LOAD : Z := 1.
Definition sizeof_phdr : Z := 56.

(** [n] bytes of the image at offset [off], little endian. *)
Definition image_field (n : nat) (off : Z) (data : list Z) : option Z :=
  if (0 <=? off) && (off + Z.of_nat n <=? Z.of_nat (length data))
  then Some (le_combine (take n (drop (Z.to_nat off) data))) else None.

(** [elf64_hdr_t]: the fields the loaders use, at their offsets. *)
Definition e_magic (data : list Z) : option Z := image_field 4 0 data.
Definition e_entry (data : list Z) : option Z := image_field 8 24 data.
Definition e_phoff (data : list Z) : option Z := image_field 8 32 data.
Definition e_phnum (data : list Z) : option Z := image_field 2 56 data.

(** [elf64_phdr_t], the fields the loaders use. *)
Record elf64_phdr := mk_phdr { p_type : Z; p_offset : Z; p_vaddr : Z; p_filesz : Z; p_memsz : Z }.
Definition phdr_at (data : list Z) (off : Z) : option elf64_phdr :=
  match image_field 4 off data, image_field 8 (off + 8) data, image_field 8 (off + 16) data,
        image_field 8 (off + 32) data, image_field 8 (off + 40) data with
  | Some t, Some o, Some v, Some f, Some m => Some (mk_phdr t o v f m)
  | _, _, _, _, _ => None
  end.

(** [for (k = 0; k < copy_len; k++) dst[k] = src[k];], from the image to memory. *)
Fixpoint copy_image (n : nat) (data : list Z) (src dst : Z) : M mem unit :=
  match n with
  | O => kret tt
  | S n' =>
      match (if 0 <=? src then data !! Z.to_nat src else None) with
      | Some b => store8 dst b;;; copy_image n' data (src + 1) (dst + 1)
      | None => kfault
      end
  end.

Section Loader.
Context {A : Type} `{FrameAllocator A}.

Definition image_get (f : option Z) : M (mm_state A) Z := match f with Some v => kret v | None => kfault end.

Definition load_page (data : list Z) (ph : elf64_phdr) (j : Z) : M (mm_state A) unit :=
  let* phys := mm_alloc_page in
  arch_map_page (u64 (p_vaddr ph + j * PAGE_SIZE)) phys (Z.lor PTE_WRITABLE PTE_USER);;;
  let offset := u64 (j * PAGE_SIZE) in
  if offset <? p_filesz ph then
    let copy_len := if p_filesz ph <? u64 (offset + PAGE_SIZE) then p_filesz ph - offset else PAGE_SIZE in
    zoom mm_mem set_mm_mem (copy_image (Z.to_nat copy_len) data (p_offset ph + offset) (phys_to_virt phys))
  else kret tt.

Definition load_segment (data : list Z) (ph : elf64_phdr) : M (mm_state A) unit :=
  if p_type ph =? PT_LOAD then
    let pages := u64 (p_memsz ph + PAGE_SIZE - 1) / PAGE_SIZE in
    kfor (seqZ 0 pages) (load_page data ph)
  else kret tt.

Definition load_segments (data : list Z) (phoff phnum : Z) : M (mm_state A) unit :=
  kfor (seqZ 0 phnum) (fun i =>
    match phdr_at data (phoff + i * sizeof_phdr) with
    | Some ph => load_segment data ph
    | None => kfault
    end).

Definition load_elf (data : list Z) : M (mm_state A) Z :=
  let* magic := image_get (e_magic data) in
  if negb (magic =? ELF_MAGIC) then kret 0
  else
    let* phoff := image_get (e_phoff data) in
    let* phnum := image_get (e_phnum data) in
    load_segments data phoff phnum;;;
    image_get (e_entry data).
End Loader.

(** ** Specification *)

(** The bytes of page [j] of a segment: the part of the file that falls into it,
    then zeros. *)
Definition page_len (ph : elf64_phdr) (j : Z) : Z := Z.max 0 (Z.min 4096 (p_filesz ph - j * 4096)).
Definition file_part (data : list Z) (ph : elf64_phdr) (j : Z) : list Z :=
  take (Z.to_nat (page_len ph j)) (drop (Z.to_nat (p_offset ph + j * 4096)) data).
Definition page_bytes (data : list Z) (ph : elf64_phdr) (j : Z) : list Z :=
  file_part data ph j ++ replicate (4096 - Z.to_nat (page_len ph j)) 0.

(** The pages of an image in the order they are loaded: address and contents. *)
Definition segment_pages (data : list Z) (ph : elf64_phdr) : list (Z * list Z) :=
  if p_type ph =? PT_LOAD
  then (fun j => (p_vaddr ph + j * 4096, page_bytes data ph j)) <$> seqZ 0 ((p_memsz ph + 4095) / 4096)
  else [].
Definition image_pages (data : list Z) (phs : list elf64_phdr) : list (Z * list Z) := phs ≫= segment_pages data.

(** The program headers of the image. *)
Definition headers (data : list Z) (phoff phnum : Z) : option (list elf64_phdr) :=
  mapM (fun i => phdr_at data (phoff + i * sizeof_phdr)) (seqZ 0 phnum).

(** A loadable segment starts on a page, lies in the address space, and its part
    of the file is in the image. *)
Definition segment_ok (data : list Z) (ph : elf64_phdr) : Prop :=
  p_type ph = PT_LOAD ->
  0 <= p_vaddr ph /\ p_vaddr ph mod 4096 = 0 /\ 0 <= p_memsz ph < 2 ^ 44 /\ p_vaddr ph + p_memsz ph <= 2 ^ 48 - 4096 /\
  0 <= p_filesz ph /\ 0 <= p_offset ph /\ p_offset ph + p_filesz ph <= Z.of_nat (length data) < 2 ^ 44.

(** The virtual page number, as the tables see it. *)
Definition vpn (va : Z) : Z := (va / 4096) mod 2 ^ 36.

Lemma copy_image_done l data src dst m :
  0 <= src -> l = take (length l) (drop (Z.to_nat src) data) -> mapped m dst (Z.of_nat (length l)) ->
  copy_image (length l) data src dst m = Done (tt, write_list m dst l).
Proof.
  revert src dst m. induction l as [|b l IH]; intros src dst m Hs Hl Hm; [done|]. cbn [length copy_image] in *.
  rewrite (proj2 (Z.leb_le _ _) Hs).
  assert (data !! Z.to_nat src = Some b) as ->.
  { pose proof (f_equal (fun x => x !! 0%nat) Hl) as E. cbn in E. rewrite lookup_take_lt in E by lia.
    by rewrite lookup_drop, Nat.add_0_r in E. }
  erewrite kbind_done by (apply store8_done; specialize (Hm 0); rewrite Z.add_0_r in Hm; apply Hm; lia).
  rewrite IH; [by rewrite write_list_cons_l|lia| |].
  - destruct (drop (Z.to_nat src) data) as [|c d] eqn:E; [done|]. cbn [take] in Hl. injection Hl as -> Hl. rewrite Hl at 1. f_equal.
    replace (Z.to_nat (src + 1)) with (Z.to_nat src + 1)%nat by lia. rewrite <- drop_drop, E. done.
  - intros i Hi. rewrite lookup_insert. destruct (decide _); [by eexists|].
    replace (dst + 1 + i) with (dst + (1 + i)) by lia. apply Hm. lia.
Qed.

Lemma take_length_take n (x : list Z) : take (length (take n x)) x = take n x.
Proof.
  rewrite length_take. destruct (Nat.min_spec n (length x)) as [[_ ->]|[Hle ->]]; [done|]. by rewrite firstn_all, take_ge.
Qed.

Lemma file_part_length data ph j :
  segment_ok data ph -> p_type ph = PT_LOAD -> 0 <= j -> length (file_part data ph j) = Z.to_nat (page_len ph j).
Proof.
  intros Hok Ht Hj. destruct (Hok Ht) as (_ & _ & _ & _ & Hf & Ho & Hd & _). unfold file_part.
  rewrite length_take, length_drop. unfold page_len. lia.
Qed.

Lemma kfor_mapM {S X Y} (f : X -> option Y) (g : Y -> M S unit) l ys s :
  mapM f l = Some ys -> kfor l (fun x => match f x with Some y => g y | None => kfault end) s = kfor ys g s.
Proof.
  revert ys s. induction l as [|x l IH]; intros ys s; simpl; [by intros [= <-]|].
  destruct (f x) as [y|]; [|done]. simpl. destruct (mapM f l) as [ys'|]; [|done]. simpl. intros [= <-]. simpl.
  unfold kbind. destruct (g y s) as [[[] s']| | |]; [by apply IH|done..].
Qed.

Section Image.
Context {A : Type} `{FrameAllocatorLaws A}.
Implicit Types (s : mm_state A) (L : gmap Z tag).

Definition user_page (p : Z) : option (Z * bool) := Some (Z.lor (Z.lor p (Z.lor PTE_WRITABLE PTE_USER)) PTE_PRESENT, false).

(** The pages loaded so far, each with its frame. *)
Record image_inv s L (r : Z) (ps : list (Z * list Z * Z)) s' : Prop := {
  ii_tables : exists L', tables_ok s' L' /\ L ⊆ L' /\ L' !! r = Some (Some r, []) /\ forall p, p ∈ ps.*2 -> L' !! p = None;
  ii_regs : cr3_reg s' = cr3_reg s /\ current_pgd s' = phys_to_virt r;
  ii_nodup : NoDup ps.*2;
  ii_fresh p : p ∈ ps.*2 -> frame_ok p /\ ~ fa_used (mm_frames s) p /\ fa_used (mm_frames s') p;
  ii_used q : fa_used (mm_frames s) q -> fa_used (mm_frames s') q;
  ii_mapped va l p : (va, l, p) ∈ ps ->
    (length l <= 4096)%nat /\ translate (mm_mem s') r va = user_page p /\ bytes_at (mm_mem s') (phys_to_virt p) l;
  ii_other va : (forall x, x ∈ ps.*1.*1 -> vpn x <> vpn va) -> translate (mm_mem s') r va = translate (mm_mem s) r va;
  ii_roots r' va : L !! r' = Some (Some r', []) -> r' <> r -> (forall x, x ∈ ps.*1.*1 -> pgd_index x < 256) ->
    translate (mm_mem s') r' va = translate (mm_mem s) r' va;
  ii_avail : fa_avail (mm_frames s) - 4 * Z.of_nat (length ps) <= fa_avail (mm_frames s')
}.

Lemma image_inv_start s L r :
  tables_ok s L -> L !! r = Some (Some r, []) -> current_pgd s = phys_to_virt r -> image_inv s L r [] s.
Proof.
  intros Hok Hr Hp. constructor; cbn; try done; [|apply NoDup_nil_2|by intros ? ?%elem_of_nil|by intros ? ? ? ?%elem_of_nil|lia].
  exists L. split; [done|]. split; [done|]. split; [done|]. by intros ? ?%elem_of_nil.
Qed.

(** Filling the frame just mapped. *)
Lemma image_inv_write s L r ps va p l0 l s' :
  image_inv s L r (ps ++ [(va, l0, p)]) s' -> Forall is_byte l -> (length l <= length l0)%nat ->
  image_inv s L r (ps ++ [(va, l ++ drop (length l) l0, p)]) (set_mm_mem (write_list (mm_mem s') (phys_to_virt p) l) s').
Proof.
  intros [(L' & Hok & Hsub & Hr & Hdata) Hpgd Hnd Hfr Hus Hmp Hot Hro Hav] Hb Hl.
  assert (forall x, (ps ++ [(va, x, p)]).*2 = ps.*2 ++ [p]) as E2 by (intros; by rewrite fmap_app).
  assert (forall x, (ps ++ [(va, x, p)]).*1.*1 = ps.*1.*1 ++ [va]) as E1 by (intros; by rewrite !fmap_app).
  rewrite E2 in Hnd. setoid_rewrite E2 in Hdata. setoid_rewrite E2 in Hfr. setoid_rewrite E1 in Hot. setoid_rewrite E1 in Hro.
  assert (p ∈ ps.*2 ++ [p]) as Hpin by (apply elem_of_app; right; by apply list_elem_of_singleton).
  destruct (Hfr p Hpin) as (Hfp & Hpu & Hpu').
  destruct (Hmp va l0 p) as (Hl0 & Htr & Hby); [apply elem_of_app; right; by apply list_elem_of_singleton|].
  destruct (data_write s' L' p l Hok Hfp (Hdata p Hpin) Hb ltac:(lia)) as (Hok2 & Hm2 & Hw2). set (s2 := set_mm_mem _ s') in *.
  assert (forall v, translate (mm_mem s2) r v = translate (mm_mem s') r v) as Ht2
    by (intros v; apply (Hw2 r (Some r, [])); [done|done|apply indices_ok]).
  constructor.
  - exists L'. by setoid_rewrite E2.
  - done.
  - by rewrite E2.
  - rewrite E2. intros q Hq. destruct (Hfr q Hq) as (? & ? & ?). split; [done|]. split; [done|]. by apply fa_used_set.
  - intros q Hq. by apply fa_used_set, Hus.
  - intros v k q [Hin|[= -> -> ->]%list_elem_of_singleton]%elem_of_app.
    + destruct (Hmp v k q) as (Hk & Hv & Hkb); [apply elem_of_app; by left|]. rewrite Ht2. split; [done|]. split; [done|].
      assert (q ∈ ps.*2) as Hq by (apply list_elem_of_fmap; by exists (v, k, q)).
      apply (bytes_page (mm_mem s')); [done| |done]. intros a Ha. apply Hm2. destruct (Hfr q) as (Hfq & _); [apply elem_of_app; by left|].
      apply (page_apart q p a Hfq Hfp); [|done]. intros ->. by apply NoDup_app in Hnd as (_ & Hd & _); apply (Hd p Hq), list_elem_of_singleton.
    + rewrite length_app, length_drop. split; [lia|]. rewrite Ht2. split; [done|]. apply bytes_at_app. split.
      * unfold s2. rewrite mm_mem_set. apply write_list_bytes_at.
      * intros i b Hi. rewrite lookup_drop in Hi. unfold s2. rewrite mm_mem_set, lookup_write_list_out by lia.
        apply Hby in Hi. by replace (phys_to_virt p + length l + i) with (phys_to_virt p + (length l + i)%nat) by lia.
  - intros v Hv. rewrite Ht2. apply Hot. intros x Hx. apply Hv. by rewrite E1.
  - intros r' v Hr' Hne Hx. rewrite E1 in Hx. rewrite <- (Hro r' v Hr' Hne Hx).
    apply (Hw2 r' (Some r', [])); [by eapply lookup_weaken|done|apply indices_ok].
  - unfold s2, set_mm_mem. cbn [mm_frames set_mm_frames]. rewrite fa_avail_set. rewrite length_app in *. exact Hav.
Qed.

(** A new zeroed page, mapped for the user. *)
Lemma image_map_step {B} s L r ps va s1 (k : Z -> M (mm_state A) B) (stop : Prop) Q :
  image_inv s L r ps s1 -> (forall x, x ∈ ps.*1.*1 -> vpn x <> vpn va) -> not_huge (translate (mm_mem s) r va) ->
  (fa_avail (mm_frames s) < 4 * (Z.of_nat (length ps) + 1) -> stop) ->
  (forall p s2, image_inv s L r (ps ++ [(va, replicate 4096 0, p)]) s2 -> safe stop (k p) s2 Q) ->
  safe stop (let* phys := mm_alloc_page in arch_map_page va phys (Z.lor PTE_WRITABLE PTE_USER);;; k phys) s1 Q.
Proof.
  intros [(L1 & Hok & Hsub & Hr & Hdata) [Hcr3 Hpgd] Hnd Hfr Hus Hmp Hot Hro Hav] Hnew Hnh Hstop Hk.
  apply safe_bind, safe_alloc; [apply (tok_wf _ _ Hok)|intros; apply Hstop; lia|]. intros p s2 Hp.
  pose proof (fresh_avail _ _ _ Hp) as Hav2. pose proof (tables_ok_fresh _ _ _ _ Hok Hp) as Hok2.
  destruct (fresh_regs _ _ _ Hp) as (Hcr2 & Hpgd2 & _). pose proof (fresh_frame _ _ _ Hp) as Hfp.
  assert (forall v, translate (mm_mem s2) r v = translate (mm_mem s1) r v) as Ht2 by (intros; by eapply fresh_translate).
  assert (fa_used (mm_frames s2) p) as Hup by (apply (fresh_used _ _ _ Hp); by left).
  pose proof (fresh_not_table _ _ _ _ Hok Hp) as HpL.
  apply safe_bind. eapply safe_mono; [apply (arch_map_page_spec s2 L1 r va p (Z.lor PTE_WRITABLE PTE_USER))| |];
    [done|congruence|done|rewrite Ht2, Hot by done; exact Hnh|apply Hfp|by split|intros; apply Hstop; lia|].
  intros [] s3 (L3 & [Hg Hav3 (t3 & e0 & e1 & e2 & Hpath & K0 & K1 & K2 & _) Hw _]). apply Hk. clear Hk.
  assert (forall v, vpn v <> vpn va -> translate (mm_mem s3) r v = translate (mm_mem s1) r v) as Hkeep.
  { intros v Hne. rewrite <- Ht2. apply (Hw r (Some r, [])); [done|done|apply indices_ok|].
    apply final_slot_other. left. unfold vpn in Hne. congruence. }
  assert (forall q, q ∈ ps.*2 -> fa_used (mm_frames s2) q /\ q <> p) as Hold.
  { intros q Hq. destruct (Hfr q Hq) as (_ & Hn & Hu). split; [apply (fresh_used _ _ _ Hp); by right|].
    intros ->. by apply (fresh_unused _ _ _ Hp). }
  assert ((ps ++ [(va, replicate 4096 0, p)]).*2 = ps.*2 ++ [p]) as E2 by (by rewrite fmap_app).
  assert ((ps ++ [(va, replicate 4096 0, p)]).*1.*1 = ps.*1.*1 ++ [va]) as E1 by (by rewrite !fmap_app).
  constructor; rewrite ?E2, ?E1.
  - exists L3. split; [apply Hg|]. split; [by trans L1; [|apply Hg]|]. split; [by eapply grown_lookup|].
    intros q [Hq| ->%list_elem_of_singleton]%elem_of_app.
    + eapply grown_not_data; [exact Hg|by apply Hdata|by apply Hold].
    + by eapply grown_not_data.
  - destruct (gr_regs _ _ _ _ Hg). split; congruence.
  - apply nodup_snoc; [done|]. intros Hin. by destruct (Hold p Hin).
  - intros q [Hq| ->%list_elem_of_singleton]%elem_of_app.
    + destruct (Hfr q Hq) as (? & ? & ?). split; [done|]. split; [done|]. by apply (gr_used _ _ _ _ Hg), Hold.
    + split; [done|]. split; [intros Hu; by apply (fresh_unused _ _ _ Hp), Hus|]. by apply (gr_used _ _ _ _ Hg).
  - intros q Hq. apply (gr_used _ _ _ _ Hg), (fresh_used _ _ _ Hp). right. by apply Hus.
  - intros v l q [Hin|[[-> ->]%pair_eq ->]%list_elem_of_singleton%pair_eq]%elem_of_app.
    + destruct (Hmp v l q Hin) as (Hl & Htr & Hby).
      assert (q ∈ ps.*2) as Hq by (apply list_elem_of_fmap; by exists (v, l, q)).
      assert (v ∈ ps.*1.*1) as Hv by (apply list_elem_of_fmap; exists (v, l); split; [done|]; apply list_elem_of_fmap; by exists (v, l, q)).
      split; [done|]. rewrite Hkeep by (by apply Hnew). split; [done|].
      destruct (Hfr q Hq) as (Hfq & _ & _). destruct (Hold q Hq) as [Huq Hne].
      apply (bytes_page (mm_mem s1)); [done| |done]. intros a Ha. rewrite (grown_page _ _ _ _ q a Hg Hfq (Hdata q Hq) Huq Ha).
      rewrite (fresh_mem _ _ _ Hp). apply lookup_write_page; [apply length_zero_page|]. by apply (page_apart q p a).
    + rewrite length_replicate. split; [lia|]. split.
      * unfold leaf_entry in Hpath. rewrite frame_land_mask in Hpath by done. unfold user_page.
        eapply (path_translate _ _ (Some r, [])); [exact Hpath|done|exact K0|exact K1|exact K2|].
        rewrite present_bit, Z.lor_spec. apply orb_true_r.
      * apply (bytes_page (mm_mem s2)); [by rewrite length_replicate|intros a Ha; by apply (grown_page _ _ _ _ p a Hg)|].
        rewrite (fresh_mem _ _ _ Hp), zero_page_replicate. apply write_list_bytes_at.
  - intros v Hv. rewrite Hkeep; [apply Hot|]; [|intros E; apply (Hv va); [|done]].
    + intros x Hx. apply Hv. apply elem_of_app. by left.
    + apply elem_of_app. right. by apply list_elem_of_singleton.
  - intros r' v Hr' Hne Hlow. assert (L1 !! r' = Some (Some r', [])) as Hr1 by (by eapply lookup_weaken).
    rewrite <- (Hro r' v Hr' Hne) by (intros x Hx; apply Hlow, elem_of_app; by left).
    rewrite <- (fresh_translate s1 L1 p s2 r' v) by done.
    apply (Hw r' (Some r', [])); [done|done|apply indices_ok|]. apply final_slot_other. right. split; [congruence|].
    apply Hlow, elem_of_app. right. by apply list_elem_of_singleton.
  - rewrite length_app. simpl. lia.
Qed.

Lemma page_count ph data : segment_ok data ph -> p_type ph = PT_LOAD ->
  u64 (p_memsz ph + PAGE_SIZE - 1) / PAGE_SIZE = (p_memsz ph + 4095) / 4096.
Proof.
  intros Hok Ht. destruct (Hok Ht) as (_ & _ & Hm & _). rewrite PAGE_SIZE_eq, wrap_small by lia. f_equal. lia.
Qed.

Lemma load_page_step s L r ps data ph j s1 :
  image_inv s L r ps s1 -> segment_ok data ph -> p_type ph = PT_LOAD -> Forall is_byte data ->
  0 <= j < (p_memsz ph + 4095) / 4096 ->
  (forall x, x ∈ ps.*1.*1 -> vpn x <> vpn (p_vaddr ph + j * 4096)) -> not_huge (translate (mm_mem s) r (p_vaddr ph + j * 4096)) ->
  safe (fa_avail (mm_frames s) < 4 * (Z.of_nat (length ps) + 1)) (load_page data ph j) s1
    (fun _ s2 => exists p, image_inv s L r (ps ++ [(p_vaddr ph + j * 4096, page_bytes data ph j, p)]) s2).
Proof.
  intros Hinv Hok Ht Hb Hj Hnew Hnh. pose proof (file_part_length data ph j Hok Ht ltac:(lia)) as Hlen.
  destruct (Hok Ht) as (Hv & Hal & Hm & Hend & Hf & Ho & Hd & Hd2).
  assert (j * 4096 < p_memsz ph + 4096) as Hjm by (Z.div_mod_to_equations; lia).
  unfold load_page. rewrite PAGE_SIZE_eq, (wrap_small 64 (p_vaddr ph + j * 4096)), (wrap_small 64 (j * 4096)), (wrap_small 64 (j * 4096 + 4096)) by lia.
  eapply image_map_step; [exact Hinv|exact Hnew|exact Hnh|done|]. intros p s2 Hinv2. unfold page_bytes.
  destruct (Z.ltb_spec (j * 4096) (p_filesz ph)) as [Hlt|Hge].
  - assert (Z.to_nat (if p_filesz ph <? j * 4096 + 4096 then p_filesz ph - j * 4096 else 4096) = length (file_part data ph j)) as ->.
    { rewrite Hlen. unfold page_len. destruct (Z.ltb_spec (p_filesz ph) (j * 4096 + 4096)); lia. }
    assert (length (file_part data ph j) <= 4096)%nat as Hle by (rewrite Hlen; unfold page_len; lia).
    destruct (ii_mapped _ _ _ _ _ Hinv2 (p_vaddr ph + j * 4096) (replicate 4096 0) p) as (_ & _ & Hz);
      [apply elem_of_app; right; by apply list_elem_of_singleton|].
    eapply safe_done; [apply zoom_done, copy_image_done|].
    + lia.
    + symmetry. apply take_length_take.
    + eapply mapped_weaken; [by apply bytes_at_mapped|lia|rewrite length_replicate; lia].
    + exists p. pose proof (image_inv_write s L r ps (p_vaddr ph + j * 4096) p (replicate 4096 0) (file_part data ph j) s2 Hinv2) as Hw.
      assert (drop (length (file_part data ph j)) (replicate 4096 0) = replicate (4096 - Z.to_nat (page_len ph j)) 0) as Ed
        by (rewrite drop_replicate, Hlen; reflexivity).
      rewrite Ed in Hw. apply Hw; [by apply Forall_take, Forall_drop|rewrite length_replicate; lia].
  - exists p. assert (page_len ph j = 0) as E0 by (unfold page_len; lia). unfold file_part. rewrite E0. exact Hinv2.
Qed.

(** What a loop over pages establishes. *)
Definition loaded s L (r : Z) (pages : list (Z * list Z)) s' : Prop := exists ps, ps.*1 = pages /\ image_inv s L r ps s'.

(** The pages still to come are new, and can be mapped. *)
Definition loadable s (r : Z) (done new : list (Z * list Z)) : Prop :=
  NoDup (vpn <$> (done ++ new).*1) /\ forall va l, (va, l) ∈ new -> not_huge (translate (mm_mem s) r va).

Lemma load_segment_step s L r done data ph new s1 :
  loaded s L r done s1 -> segment_ok data ph -> Forall is_byte data -> loadable s r done (segment_pages data ph ++ new) ->
  safe (fa_avail (mm_frames s) < 4 * Z.of_nat (length (done ++ segment_pages data ph ++ new))) (load_segment data ph) s1
    (fun _ s2 => loaded s L r (done ++ segment_pages data ph) s2).
Proof.
  intros Hld Hok Hb [Hnd Hnh]. unfold load_segment, segment_pages in *. destruct (Z.eqb_spec (p_type ph) PT_LOAD) as [Ht|Ht].
  2: { eapply safe_done; [done|]. by rewrite app_nil_r. }
  rewrite (page_count ph data) by done. set (f := fun j => (p_vaddr ph + j * 4096, page_bytes data ph j)) in *.
  destruct (Hok Ht) as (_ & _ & Hm & _). assert (0 <= (p_memsz ph + 4095) / 4096) as Hn by (apply Z.div_pos; lia).
  set (n := (p_memsz ph + 4095) / 4096) in *. replace n with (Z.of_nat (Z.to_nat n)) in * by lia. set (k := Z.to_nat n) in *.
  apply (safe_for_seqZ _ _ (fun i s' => loaded s L r (done ++ (f <$> seqZ 0 i)) s')); [by rewrite app_nil_r|].
  intros i s2 Hi (ps & Eps & Hinv). rewrite Z.add_0_l in Hi.
  assert (seqZ 0 k = seqZ 0 i ++ i :: seqZ (i + 1) (k - i - 1)) as Eseq.
  { replace (Z.of_nat k) with (i + (k - i)) at 1 by lia. rewrite seqZ_app, Z.add_0_l by lia.
    rewrite (seqZ_cons i) by lia. by replace (Z.succ i) with (i + 1) by lia; replace (Z.pred (k - i)) with (k - i - 1) by lia. }
  assert (NoDup (vpn <$> (done ++ (f <$> seqZ 0 i)).*1 ++ [(f i).1])) as Hnd1.
  { assert (done ++ (f <$> seqZ 0 k) ++ new = (done ++ (f <$> seqZ 0 i)) ++ [f i] ++ (f <$> seqZ (i + 1) (k - i - 1)) ++ new) as E
      by (rewrite Eseq, fmap_app, fmap_cons, <- !app_assoc; reflexivity).
    rewrite E, (app_assoc _ [f i]), (fmap_app fst), (fmap_app vpn) in Hnd. apply NoDup_app in Hnd as [Hnd _].
    by rewrite (fmap_app fst) in Hnd. }
  assert (length ps = length (done ++ (f <$> seqZ 0 i))) as Hlps by (rewrite <- Eps; by rewrite length_fmap).
  eapply safe_mono; [apply (load_page_step s L r ps data ph i s2 Hinv Hok Ht Hb)| |].
  - lia.
  - intros x Hx E. rewrite Eps in Hx. rewrite (fmap_app vpn) in Hnd1. apply NoDup_app in Hnd1 as (_ & Hd & _). apply (Hd (vpn x)).
    + by apply list_elem_of_fmap_2.
    + apply list_elem_of_singleton. exact E.
  - apply (Hnh _ (page_bytes data ph i)). apply elem_of_app. left. rewrite Eseq, fmap_app. apply elem_of_app. right. by apply elem_of_cons; left.
  - rewrite Hlps, !length_app, !length_fmap, !length_seqZ. lia.
  - intros [] s3 (p & Hinv3). eexists. split; [|exact Hinv3]. rewrite fmap_app, Eps. cbn [fmap list_fmap fst].
    rewrite seqZ_app by lia. rewrite fmap_app. cbn. by rewrite app_assoc.
Qed.

Lemma load_segments_ok s L r data phs : forall done s1,
  loaded s L r done s1 -> Forall (segment_ok data) phs -> Forall is_byte data -> loadable s r done (image_pages data phs) ->
  safe (fa_avail (mm_frames s) < 4 * Z.of_nat (length (done ++ image_pages data phs))) (kfor phs (load_segment data)) s1
    (fun _ s2 => loaded s L r (done ++ image_pages data phs) s2).
Proof.
  induction phs as [|ph phs IH]; intros done s1 Hld Hok Hb Hl; [by unfold image_pages; simpl; rewrite app_nil_r|].
  apply Forall_cons in Hok as [Hph Hok]. unfold image_pages in *. rewrite bind_cons in *. cbn [kfor]. apply safe_bind.
  eapply safe_mono; [apply (load_segment_step s L r done data ph _ s1 Hld Hph Hb Hl)|done|]. intros [] s2 Hld2.
  rewrite app_assoc. apply IH; [done..|]. destruct Hl as [Hnd Hnh]. split; [by rewrite <- app_assoc|].
  intros va l Hin. apply (Hnh va l). apply elem_of_app. by right.
Qed.

(** C19: [load_elf] rejects an image without the ELF magic number, with the
    result 0 and no effect.  Otherwise it returns the entry point and, unless
    memory is exhausted, every page of every loadable segment is mapped for the
    user, writable, to a frame of its own that was free before and that holds the
    bytes of the file that belong there, followed by zeros; all other pages of
    the address space keep their translation, and when the segments lie in the
    user half all pages of every other address space do.  (Segments must start
    on a page and not share pages: the code copies to the start of the page.) *)
Theorem load_elf_loads s L r data :
  (forall m, e_magic data = Some m -> m <> ELF_MAGIC -> load_elf data s = Done (0, s)) /\
  forall phoff phnum phs entry,
  tables_ok s L -> L !! r = Some (Some r, []) -> current_pgd s = phys_to_virt r ->
  e_magic data = Some ELF_MAGIC -> e_phoff data = Some phoff -> e_phnum data = Some phnum -> e_entry data = Some entry ->
  headers data phoff phnum = Some phs -> Forall (segment_ok data) phs -> Forall is_byte data ->
  let pages := image_pages data phs in
  NoDup (vpn <$> pages.*1) -> (forall va l, (va, l) ∈ pages -> not_huge (translate (mm_mem s) r va)) ->
  safe (fa_avail (mm_frames s) < 4 * Z.of_nat (length pages)) (load_elf data) s (fun a s' =>
    a = entry /\
    exists frames, length frames = length pages /\ NoDup frames /\
      (forall i va l p, pages !! i = Some (va, l) -> frames !! i = Some p ->
         ~ fa_used (mm_frames s) p /\ fa_used (mm_frames s') p /\
         translate (mm_mem s') r va = user_page p /\ bytes_at (mm_mem s') (phys_to_virt p) l) /\
      (forall va, (forall x, x ∈ pages.*1 -> vpn x <> vpn va) -> translate (mm_mem s') r va = translate (mm_mem s) r va) /\
      ((forall x, x ∈ pages.*1 -> pgd_index x < 256) -> forall r' va, L !! r' = Some (Some r', []) -> r' <> r ->
         translate (mm_mem s') r' va = translate (mm_mem s) r' va)).
Proof.
  split.
  { intros m Hm Hne. unfold load_elf, image_get. rewrite Hm. erewrite kbind_done by reflexivity. by rewrite (proj2 (Z.eqb_neq _ _) Hne). }
  intros phoff phnum phs entry Hok Hr Hpgd Hmag Hoff Hnum Hent Hhd Hsegs Hb pages Hnd Hnh.
  unfold load_elf, image_get. rewrite Hmag, Hoff, Hnum, Hent. eapply safe_step; [reflexivity|].
  rewrite Z.eqb_refl. cbn [negb]. eapply safe_step; [reflexivity|]. eapply safe_step; [reflexivity|].
  apply safe_bind. eapply safe_eq; [unfold load_segments; apply kfor_mapM; exact Hhd|].
  eapply safe_mono; [apply (load_segments_ok s L r data phs [] s)|done|].
  - exists []. split; [done|]. by eapply image_inv_start.
  - done.
  - done.
  - split; [exact Hnd|exact Hnh].
  - intros [] s' (ps & Eps & [_ _ Hndf Hfr _ Hmp Hot Hro _]). eapply safe_done; [reflexivity|]. split; [done|].
    cbn [app] in Eps. fold pages in Eps. exists (ps.*2). split; [by rewrite <- Eps, !length_fmap|]. split; [done|]. split.
    + intros i va l p Hi Hp. rewrite <- Eps in Hi. apply list_lookup_fmap_Some in Hi as ([[va' l'] p'] & E & Hi).
      apply list_lookup_fmap_Some in Hp as ([[va2 l2] p2] & E2 & Hp). rewrite Hi in Hp. injection Hp as <- <- <-. cbn in E, E2.
      injection E as <- <-. subst p'. pose proof (list_elem_of_lookup_2 _ _ _ Hi) as Hin.
      destruct (Hfr p) as (_ & Hn & Hu); [apply list_elem_of_fmap; by exists (va, l, p)|].
      destruct (Hmp va l p Hin) as (_ & Ht & Hby). done.
    + split; [intros va Hva; apply Hot; by rewrite Eps|]. intros Hlow r' va Hr' Hne. apply Hro; [done|done|]. by rewrite Eps.
Qed.
End Image.
