(* ===== verification/Syscall.v ===== *)
(** * kernel/entry/syscall.c, fs/exec.c, and reading and writing files of fs/vfs.c

    System calls work on the whole kernel: the tasks and files of [KState], the
    file systems, the console and the keyboard.  A call may give up the
    processor in the middle (reading an empty keyboard or pipe, exiting):
    computations over the whole state return a [gflow], as the scheduler's
    computations return a [flow]. *)

From S2P Require Import Prelude Memory StringLib ListHead SpinLock Slab PgTable FrameAlloc PageAlloc Paging AddrSpace VirtMem KState Sched Threads Fork Signal Ipc Ports Console Keyboard Ata FileSys Elf.

(** ** The state *)

Record gstate := mk_g { g_fs : fstate; g_con : console; g_kb : keyboard }.
Definition set_g_fs (x : fstate) (s : gstate) : gstate := mk_g x (g_con s) (g_kb s).
Definition set_g_con (x : console) (s : gstate) : gstate := mk_g (g_fs s) x (g_kb s).
Definition set_g_kb (x : keyboard) (s : gstate) : gstate := mk_g (g_fs s) (g_con s) x.
Definition g_k (s : gstate) : kstate := fs_k (g_fs s).
Definition set_g_k (x : kstate) (s : gstate) : gstate := set_g_fs (set_fs_k x (g_fs s)) s.

#[warnings="-register-all"]
Inductive gflow (B : Type) :=
| GReturned (b : B)
| GSuspended (k : gstate -> outcome (gflow B * gstate)).
Arguments GReturned {B} b.
Arguments GSuspended {B} k.

(** ** Computations that may be suspended *)

Definition G (B : Type) : Type := M gstate (gflow B).
Definition gret {B} (b : B) : G B := kret (GReturned b).
Fixpoint gflow_bind {B C} (x : gflow B) (k : B -> G C) : G C :=
  match x with
  | GReturned b => k b
  | GSuspended m => kret (GSuspended (fun s =>
      match m s with
      | Done (y, s') => gflow_bind y k s'
      | Halt w => Halt w
      | Fault => Fault
      | Spin => Spin
      end))
  end.
Definition gbind {B C} (m : G B) (k : B -> G C) : G C := let* x := m in gflow_bind x k.
(** A computation on a part of the state that does not suspend. *)
Definition g_run {B} (m : M gstate B) : G B := let* b := m in gret b.
(** The scheduler's computations as computations on the whole state. *)
Fixpoint lift_flow {B} (x : flow B) : gflow B :=
  match x with
  | Returned b => GReturned b
  | Suspended k => GSuspended (fun s =>
      match k (g_k s) with
      | Done (y, ks) => Done (lift_flow y, set_g_k ks s)
      | Halt w => Halt w
      | Fault => Fault
      | Spin => Spin
      end)
  end.

Notation "'do*' x := c 'in' k" := (gbind c (fun x => k))
  (at level 10, x pattern, c at level 100, k at level 200,
   format "'[' 'do*'  x  :=  c  'in' ']' '//' k") : relis_scope.

Definition in_k {B} (m : M kstate B) : M gstate B := zoom g_k set_g_k m.
Definition in_fs {B} (m : M fstate B) : M gstate B := zoom g_fs set_g_fs m.
Definition in_con {B} (m : M console B) : M gstate B := zoom g_con set_g_con m.
Definition in_kb {B} (m : M keyboard B) : M gstate B := zoom g_kb set_g_kb m.
Definition in_sched {B} (m : M kstate (flow B)) : G B := let* x := in_k m in kret (lift_flow x).

Section Operations.
Context `{Layout}.

(** [schedule()] in the middle of a call: the rest waits until the task runs again. *)
Definition g_schedule : G unit := in_sched (reschedule (kret (Returned tt))).

(** ** Standard input and output *)

(** The loop of [stdin_read] from index [i] on; the fuel bounds the number of
    polls. *)
Fixpoint stdin_loop (fuel : nat) (buf count i : Z) : G Z :=
  match fuel with
  | O => kspin
  | S f =>
      if i <? count then
        do* c := g_run (in_kb keyboard_poll) in
        if negb (c =? 0) then
          do* _ := g_run (in_fs (copy_to_caller (buf + i) [c])) in
          stdin_loop f buf count (i + 1)
        else
          do* _ := g_schedule in
          stdin_loop f buf count i
      else gret i
  end.
Definition stdin_read (fuel : nat) (f buf count : Z) : G Z := stdin_loop fuel buf count 0.

Definition stdout_putc (fuel : nat) (buf i : Z) : M gstate unit :=
  let* c := in_fs (copy_from_caller (buf + i) 1) in
  match c with
  | [c] => in_con (terminal_putchar c);;; in_con (serial_putchar fuel c)
  | _ => kfault
  end.
Definition stdout_write (fuel : nat) (f buf count : Z) : M gstate Z :=
  kfor (seqZ 0 count) (stdout_putc fuel buf);;;
  kret count.

(** ** The tables of file operations *)

Definition fop_read (fuel : nat) (fops : file_operations) : option (Z -> Z -> Z -> G Z) :=
  match fops with
  | StdinFops => Some (stdin_read fuel)
  | PipeReadFops => Some (fun f buf count => in_sched (pipe_read fuel f buf count))
  | CpuinfoFops => Some (fun f buf count => g_run (in_fs (proc_cpuinfo_read f buf count)))
  | RelisfsFops => Some (fun f buf count => g_run (in_fs (relisfs_read f buf count)))
  | StdoutFops | PipeWriteFops => None
  end.
Definition fop_write (fuel : nat) (fops : file_operations) : option (Z -> Z -> Z -> G Z) :=
  match fops with
  | StdoutFops => Some (fun f buf count => g_run (stdout_write fuel f buf count))
  | PipeWriteFops => Some (fun f buf count => g_run (in_k (pipe_write f buf count)))
  | RelisfsFops => Some (fun f buf count => g_run (in_fs (relisfs_write f buf count)))
  | StdinFops | PipeReadFops | CpuinfoFops => None
  end.

(** [f->f_inode] and [f->f_inode->i_fop] *)
Definition file_inode (f : Z) : M gstate Z := in_k (kopt (fun s => f_inode <$> k_files s !! f)).
Definition inode_fop (i : Z) : M gstate (option file_operations) := in_k (kopt (fun s => i_fop <$> k_inodes s !! i)).

(** ** fs/vfs.c *)

Definition vfs_read (fuel : nat) (f buf count : Z) : G Z :=
  if f =? 0 then gret (-1) else
  do* i := g_run (file_inode f) in
  if i =? 0 then gret (-1) else
  do* fop := g_run (inode_fop i) in
  match fop ≫= fop_read fuel with
  | Some read => read f buf count
  | None => gret (-1)
  end.

Definition vfs_write (fuel : nat) (f buf count : Z) : G Z :=
  if f =? 0 then gret (-1) else
  do* i := g_run (file_inode f) in
  if i =? 0 then gret (-1) else
  do* fop := g_run (inode_fop i) in
  match fop ≫= fop_write fuel with
  | Some write => write f buf count
  | None => gret (-1)
  end.

(** ** fs/exec.c *)

Definition USER_STACK : Z := 0x40000000.

(** The bytes of the image at [elf_data]: the buffer of [n] bytes there. *)
Definition image_bytes (elf_data n : Z) : M gstate (list Z) := in_k (kopt (fun s => read_list (k_umem s) elf_data (Z.to_nat n))).
Definition need (x : option Z) : M gstate Z := match x with Some v => kret v | None => kfault end.

(** From the new address space to the bounds of the stack, common to both
    functions of the file. *)
Definition exec_image (data : list Z) : M gstate unit :=
  let* new_cr3 := in_k (on_paging create_new_address_space) in
  in_k (on_paging (switch_address_space new_cr3));;;
  in_k (on_paging (arch_map_page 0xB8000 0xB8000 (Z.lor PTE_WRITABLE PTE_GLOBAL)));;;
  let* phoff := need (e_phoff data) in
  let* phnum := need (e_phnum data) in
  in_k (on_paging (load_segments data phoff phnum));;;
  let* cur := in_k (kgets k_current) in
  in_k (task_upd cur (set_t_stack_start (USER_STACK - 4 * PAGE_SIZE)));;;
  in_k (task_upd cur (set_t_stack_end USER_STACK));;;
  in_k (task_upd cur (set_t_cr3 new_cr3)).

Definition exec_regs (entry : Z) (regs : registers) : registers :=
  mk_regs (r15 regs) (r14 regs) (r13 regs) (r12 regs) (r11 regs) (r10 regs) (r9 regs) (r8 regs) (rbp regs) (rdi regs)
    (rsi regs) (rdx regs) (rcx regs) (rbx regs) (rax regs) (int_no regs) (err_code regs)
    entry 0x23 0x202 (USER_STACK - 16) 0x1B.

Definition g_kfree (p : Z) : M gstate unit := in_k (on_heap (kfree p)).

(** The result and the register file. *)
Definition sys_execve (fuel : nat) (regs : registers) (path : list Z) : G (Z * registers) :=
  do* f := g_run (in_fs (vfs_open path)) in
  if f =? 0 then gret (-1, regs) else
  do* elf_data := g_run (in_fs (fs_kmalloc 4096)) in
  do* n := vfs_read fuel f elf_data 4096 in
  if n <? 0 then do* _ := g_run (g_kfree elf_data) in gret (-1, regs) else
  do* data := g_run (image_bytes elf_data 4096) in
  do* magic := g_run (need (e_magic data)) in
  if negb (magic =? ELF_MAGIC) then do* _ := g_run (g_kfree elf_data) in gret (-1, regs) else
  do* _ := g_run (exec_image data) in
  do* cur := g_run (in_k (kgets k_current)) in
  do* _ := g_run (in_k (set_task_name cur path)) in
  do* entry := g_run (need (e_entry data)) in
  do* _ := g_run (g_kfree elf_data) in
  gret (0, exec_regs entry regs).

(** [drop_to_user] does not return: the result is the stack and instruction
    pointer it is called with, [None] when the image is rejected. *)
Definition exec_user_program (data : list Z) : M gstate (option (Z * Z)) :=
  let* magic := need (e_magic data) in
  if negb (magic =? ELF_MAGIC) then kret None else
  exec_image data;;;
  let* entry := need (e_entry data) in
  kret (Some (USER_STACK - 16, entry)).

(** ** kernel/entry/syscall.c *)

Definition SYS_EXIT : Z := 0.
Definition SYS_WRITE : Z := 1.
Definition SYS_READ : Z := 2.
Definition SYS_OPEN : Z := 3.
Definition SYS_CLOSE : Z := 4.
Definition SYS_PIPE : Z := 22.
Definition SYS_SHMGET : Z := 29.
Definition SYS_SHMAT : Z := 30.
Definition SYS_FORK : Z := 57.
Definition SYS_EXECVE : Z := 59.
Definition SYS_KILL : Z := 62.
Definition SYS_SIGACTION : Z := 134.

Fixpoint alloc_fd_loop (files : list Z) (i t f : Z) : M kstate Z :=
  match files with
  | [] => kret (-1)
  | x :: rest => if x =? 0 then set_file t i f;;; kret i else alloc_fd_loop rest (i + 1) t f
  end.
Definition alloc_fd (t f : Z) : M kstate Z :=
  let* files := task_get t t_files in
  alloc_fd_loop files 0 t f.

(** The C string at an address of the caller, up to its NUL. *)
Fixpoint user_string (fuel : nat) (a : Z) : M gstate (list Z) :=
  match fuel with
  | O => kspin
  | S f =>
      let* c := in_k (kopt (fun s => k_umem s !! a)) in
      if c =? 0 then kret [] else
      let* l := user_string f (a + 1) in
      kret (c :: l)
  end.

(** [current->files[fd]], 0 when [fd] is out of range. *)
Definition fd_file (current fd : Z) : M gstate Z :=
  if (fd <? 0) || (fd >=? MAX_FDS) then kret 0
  else
    let* files := in_k (task_get current t_files) in
    match files !! Z.to_nat fd with Some f => kret f | None => kfault end.

Definition sys_rw (op : file_operations -> option (Z -> Z -> Z -> G Z)) (current : Z) (regs : registers) : G registers :=
  let fd := i32 (rdi regs) in
  do* f := g_run (fd_file current fd) in
  if f =? 0 then gret (set_rax (u64 (-1)) regs) else
  do* i := g_run (file_inode f) in
  do* fop := g_run (inode_fop i) in
  match fop ≫= op with
  | Some rw => do* r := rw f (rsi regs) (rdx regs) in gret (set_rax (u64 r) regs)
  | None => gret (set_rax (u64 (-1)) regs)
  end.

(** A call with an integer result. *)
Definition sys_ret (m : M kstate Z) (regs : registers) : G registers :=
  do* r := g_run (in_k m) in
  gret (set_rax (u64 r) regs).

Definition syscall_dispatch (fuel : nat) (regs : registers) : G registers :=
  do* current := g_run (in_k (kgets k_current)) in
  let nr := rax regs in
  if nr =? SYS_WRITE then sys_rw (fop_write fuel) current regs
  else if nr =? SYS_READ then sys_rw (fop_read fuel) current regs
  else if nr =? SYS_OPEN then
    do* path := g_run (user_string fuel (rdi regs)) in
    do* f := g_run (in_fs (vfs_open path)) in
    if f =? 0 then gret (set_rax (u64 (-1)) regs)
    else sys_ret (alloc_fd current f) regs
  else if nr =? SYS_CLOSE then
    let fd := i32 (rdi regs) in
    do* f := g_run (fd_file current fd) in
    if f =? 0 then gret (set_rax (u64 (-1)) regs)
    else
      do* _ := g_run (in_k (on_heap (kfree f);;; set_file current fd 0)) in
      gret (set_rax 0 regs)
  else if nr =? SYS_FORK then sys_ret (sys_fork regs) regs
  else if nr =? SYS_EXECVE then
    do* path := g_run (user_string fuel (rdi regs)) in
    do* (r, regs') := sys_execve fuel regs path in
    gret (set_rax (u64 r) regs')
  else if nr =? SYS_EXIT then
    do* _ := g_run (in_k (task_upd current (set_t_state TASK_ZOMBIE))) in
    do* _ := g_schedule in
    gret regs
  else if nr =? SYS_KILL then sys_ret (sys_kill fuel (u32 (rdi regs)) (i32 (rsi regs))) regs
  else if nr =? SYS_SIGACTION then sys_ret (sys_sigaction (i32 (rdi regs)) (rsi regs)) regs
  else if nr =? SYS_PIPE then sys_ret (sys_pipe (rdi regs)) regs
  else if nr =? SYS_SHMGET then sys_ret (sys_shmget (rdi regs)) regs
  else if nr =? SYS_SHMAT then sys_ret (sys_shmat (i32 (rdi regs))) regs
  else gret (set_rax (u64 (-1)) regs).
End Operations.

(** ** Rejected calls *)

Section Errors.
Context `{Layout}.

Lemma set_g_k_id g : set_g_k (g_k g) g = g.
Proof. by destruct g as [[]]. Qed.
Lemma set_g_fs_id g : set_g_fs (g_fs g) g = g.
Proof. by destruct g. Qed.

Lemma gbind_run {B C} (m : M gstate B) (k : B -> G C) g b g' : m g = Done (b, g') -> gbind (g_run m) k g = k b g'.
Proof. intros E. unfold gbind, g_run, kbind. by rewrite E. Qed.
Lemma gbind_returned {B C} (m : G B) (k : B -> G C) g b g' : m g = Done (GReturned b, g') -> gbind m k g = k b g'.
Proof. intros E. unfold gbind, kbind. by rewrite E. Qed.

(** A computation that only reads. *)
Lemma in_k_read {B} (m : M kstate B) g b : m (g_k g) = Done (b, g_k g) -> in_k m g = Done (b, g).
Proof. intros E. unfold in_k. rewrite (zoom_done _ _ _ _ _ _ E). by rewrite set_g_k_id. Qed.
Lemma in_fs_read {B} (m : M fstate B) g b : m (g_fs g) = Done (b, g_fs g) -> in_fs m g = Done (b, g).
Proof. intros E. unfold in_fs. rewrite (zoom_done _ _ _ _ _ _ E). by rewrite set_g_fs_id. Qed.

(** The task that makes the call. *)
Definition caller (g : gstate) (t : task_struct) : Prop :=
  k_tasks (g_k g) !! k_current (g_k g) = Some t /\ length (t_files t) = 32%nat.

(** A descriptor that is not open. *)
Definition bad_fd (t : task_struct) (fd : Z) : Prop := fd < 0 \/ 32 <= fd \/ t_files t !! Z.to_nat fd = Some 0.

(** The operations of the file behind a descriptor. *)
Definition fd_fops (g : gstate) (t : task_struct) (fd f : Z) (fop : option file_operations) : Prop :=
  0 <= fd < 32 /\ t_files t !! Z.to_nat fd = Some f /\ f <> 0 /\
  exists x i, k_files (g_k g) !! f = Some x /\ k_inodes (g_k g) !! f_inode x = Some i /\ i_fop i = fop.

Lemma fd_file_bad g t fd : caller g t -> bad_fd t fd -> fd_file (k_current (g_k g)) fd g = Done (0, g).
Proof.
  intros [Ht Hl] Hbad. unfold fd_file, MAX_FDS. destruct ((fd <? 0) || (fd >=? 32)) eqn:E; [done|].
  erewrite kbind_done by (apply in_k_read, kopt_some; by rewrite Ht). destruct Hbad as [?|[?| ->]]; [lia..|done].
Qed.

Lemma fd_file_open g t fd f fop : caller g t -> fd_fops g t fd f fop -> fd_file (k_current (g_k g)) fd g = Done (f, g).
Proof.
  intros [Ht Hl] (Hfd & Hf & _). unfold fd_file, MAX_FDS. destruct ((fd <? 0) || (fd >=? 32)) eqn:E; [lia|].
  erewrite kbind_done by (apply in_k_read, kopt_some; by rewrite Ht). by rewrite Hf.
Qed.

Lemma sys_rw_bad op g t regs :
  caller g t -> bad_fd t (i32 (rdi regs)) -> sys_rw op (k_current (g_k g)) regs g = Done (GReturned (set_rax (u64 (-1)) regs), g).
Proof. intros Hc Hb. unfold sys_rw. by rewrite (gbind_run _ _ _ _ _ (fd_file_bad g t _ Hc Hb)). Qed.

(** Reading or writing through an open descriptor calls the file's operation. *)
Lemma sys_rw_open op g t f fop regs :
  caller g t -> fd_fops g t (i32 (rdi regs)) f fop ->
  sys_rw op (k_current (g_k g)) regs g =
  match fop ≫= op with
  | Some rw => gbind (rw f (rsi regs) (rdx regs)) (fun r => gret (set_rax (u64 r) regs)) g
  | None => Done (GReturned (set_rax (u64 (-1)) regs), g)
  end.
Proof.
  intros Hc Hf. unfold sys_rw. rewrite (gbind_run _ _ _ _ _ (fd_file_open g t _ f fop Hc Hf)).
  destruct Hf as (_ & _ & Hne & x & i & Hx & Hi & <-). rewrite (proj2 (Z.eqb_neq f 0) Hne).
  rewrite (gbind_run (file_inode f) _ g (f_inode x) g) by (apply in_k_read, kopt_some; by rewrite Hx).
  rewrite (gbind_run (inode_fop (f_inode x)) _ g (i_fop i) g) by (apply in_k_read, kopt_some; by rewrite Hi).
  by destruct (i_fop i ≫= op).
Qed.

(** The string a system call reads from its caller. *)
Lemma user_string_done g a l fuel :
  cstr (k_umem (g_k g)) a l -> (length l < fuel)%nat -> user_string fuel a g = Done (l, g).
Proof.
  revert a fuel. induction l as [|c l IH]; intros a [|f] Hs Hf; try (simpl in Hf; lia); cbn [user_string].
  - apply cstr_nil in Hs. by erewrite kbind_done by (apply in_k_read, kopt_some; exact Hs).
  - apply cstr_cons in Hs as (Hne & Hc & Hs). erewrite kbind_done by (apply in_k_read, kopt_some; exact Hc).
    rewrite (proj2 (Z.eqb_neq c 0) Hne). erewrite kbind_done by (apply IH; [exact Hs|simpl in Hf; lia]). done.
Qed.

(** The calls that are refused before they have any effect. *)
Inductive rejected (fuel : nat) (g : gstate) (t : task_struct) (regs : registers) : Prop :=
| rej_fd : rax regs = SYS_WRITE \/ rax regs = SYS_READ \/ rax regs = SYS_CLOSE -> bad_fd t (i32 (rdi regs)) -> rejected fuel g t regs
| rej_write f fop : rax regs = SYS_WRITE -> fd_fops g t (i32 (rdi regs)) f fop ->
    fop ∈ [None; Some StdinFops; Some PipeReadFops; Some CpuinfoFops] -> rejected fuel g t regs
| rej_read f fop : rax regs = SYS_READ -> fd_fops g t (i32 (rdi regs)) f fop ->
    fop ∈ [None; Some StdoutFops; Some PipeWriteFops] -> rejected fuel g t regs
| rej_relative l : rax regs = SYS_OPEN \/ rax regs = SYS_EXECVE -> cstr (k_umem (g_k g)) (rdi regs) l -> head l <> Some 47 -> rejected fuel g t regs
| rej_missing cs p : rax regs = SYS_OPEN \/ rax regs = SYS_EXECVE -> cstr (k_umem (g_k g)) (rdi regs) (47 :: p) ->
    tree_ok (g_fs g) -> root_dentry (g_fs g) <> 0 -> is_Some (fs_dentries (g_fs g) !! root_dentry (g_fs g)) ->
    path_of cs p -> Forall (fun c => (length c < 64)%nat) cs -> resolve (g_fs g) (root_dentry (g_fs g)) cs = None -> rejected fuel g t regs
| rej_kill : rax regs = SYS_KILL -> i32 (rsi regs) < 1 \/ 32 <= i32 (rsi regs) -> rejected fuel g t regs
| rej_pid cfs rt glob : rax regs = SYS_KILL -> sched_ok (g_k g) cfs rt glob -> (length glob < fuel)%nat ->
    (forall p u, p ∈ glob -> k_tasks (g_k g) !! p = Some u -> t_pid u <> u32 (rdi regs)) -> rejected fuel g t regs
| rej_sigaction : rax regs = SYS_SIGACTION -> i32 (rdi regs) < 1 \/ 32 <= i32 (rdi regs) -> rejected fuel g t regs
| rej_shmget : rax regs = SYS_SHMGET -> 4 <= t_shm_count t -> rejected fuel g t regs
| rej_shmat : rax regs = SYS_SHMAT -> i32 (rdi regs) < 0 \/ t_shm_count t <= i32 (rdi regs) -> rejected fuel g t regs
| rej_unknown : rax regs ∉ [SYS_EXIT; SYS_WRITE; SYS_READ; SYS_OPEN; SYS_CLOSE; SYS_FORK; SYS_EXECVE; SYS_KILL; SYS_SIGACTION;
    SYS_PIPE; SYS_SHMGET; SYS_SHMAT] -> rejected fuel g t regs.

(** The path argument of the call resolves to the entry [d], and the heap has
    room for a file. *)
Record path_found (g : gstate) (regs : registers) (d : Z) : Prop := {
  pf_heap : 0 < kernel_heap_region /\ kernel_heap_region mod 16 = 0;
  pf_tree : tree_ok (g_fs g) /\ root_dentry (g_fs g) <> 0 /\ is_Some (fs_dentries (g_fs g) !! root_dentry (g_fs g));
  pf_path : exists cs p, cstr (k_umem (g_k g)) (rdi regs) (47 :: p) /\ path_of cs p /\ Forall (fun c => (length c < 64)%nat) cs /\
    resolve (g_fs g) (root_dentry (g_fs g)) cs = Some d;
  pf_room : slab_inv (k_slab (g_k g)) /\ heap_ptr (k_slab (g_k g)) + sizeof_file <= kernel_heap_size
}.

Lemma alloc_fd_full l i t f s : Forall (fun x => x <> 0) l -> alloc_fd_loop l i t f s = Done (-1, s).
Proof.
  intros Hl. revert i. induction Hl as [|x l Hx _ IH]; intros i; cbn [alloc_fd_loop]; [done|]. by rewrite (proj2 (Z.eqb_neq x 0) Hx).
Qed.

(** The number of characters of a path argument. *)
Definition path_fits (g : gstate) (regs : registers) (fuel : nat) : Prop :=
  forall l, cstr (k_umem (g_k g)) (rdi regs) l -> (length l < fuel)%nat.

Lemma execve_unopened fuel g regs path :
  vfs_open path (g_fs g) = Done (0, g_fs g) -> sys_execve fuel regs path g = Done (GReturned (-1, regs), g).
Proof. intros E. unfold sys_execve. by rewrite (gbind_run _ _ _ _ _ (in_fs_read _ _ _ E)). Qed.

Lemma syscall_rejected fuel g t regs :
  caller g t -> path_fits g regs fuel -> rejected fuel g t regs ->
  syscall_dispatch fuel regs g = Done (GReturned (set_rax (2 ^ 64 - 1) regs), g).
Proof.
  intros Hc Hfuel Hrej. unfold syscall_dispatch. rewrite (gbind_run _ _ g (k_current (g_k g)) g) by by apply in_k_read.
  pose proof Hc as [Ht _].
  destruct Hrej as [[E|[E|E]] Hfd|f fop E Hf Hop|f fop E Hf Hop|l [E|E] Hl Hh|cs p [E|E] Hl Htree Hr Hroot Hp Hlen Hres|E Hs|cfs rt glob E Hok Hf Hno|E Hs|E Hs|E Hs|Hno];
    try (rewrite E; cbn [Z.eqb Pos.eqb SYS_WRITE SYS_READ SYS_OPEN SYS_CLOSE SYS_FORK SYS_EXECVE SYS_EXIT SYS_KILL SYS_SIGACTION SYS_PIPE SYS_SHMGET SYS_SHMAT]).
  - by apply (sys_rw_bad _ g t).
  - by apply (sys_rw_bad _ g t).
  - by rewrite (gbind_run _ _ _ _ _ (fd_file_bad g t _ Hc Hfd)).
  - rewrite (sys_rw_open _ g t f fop regs Hc Hf). revert Hop. rewrite !elem_of_cons. intros [->|[->|[->|[->|Hop]]]]; try reflexivity. by apply elem_of_nil in Hop.
  - rewrite (sys_rw_open _ g t f fop regs Hc Hf). revert Hop. rewrite !elem_of_cons. intros [->|[->|[->|Hop]]]; try reflexivity. by apply elem_of_nil in Hop.
  - rewrite (gbind_run _ _ _ _ _ (user_string_done g _ l fuel Hl (Hfuel l Hl))).
    by rewrite (gbind_run _ _ _ _ _ (in_fs_read _ _ _ (vfs_open_relative _ l Hh))).
  - rewrite (gbind_run _ _ _ _ _ (user_string_done g _ l fuel Hl (Hfuel l Hl))).
    by rewrite (gbind_returned _ _ _ _ _ (execve_unopened _ _ _ _ (vfs_open_relative _ l Hh))).
  - rewrite (gbind_run _ _ _ _ _ (user_string_done g _ _ fuel Hl (Hfuel _ Hl))).
    by rewrite (gbind_run _ _ _ _ _ (in_fs_read _ _ _ (vfs_open_missing _ cs p Htree Hr Hroot Hp Hlen Hres))).
  - rewrite (gbind_run _ _ _ _ _ (user_string_done g _ _ fuel Hl (Hfuel _ Hl))).
    by rewrite (gbind_returned _ _ _ _ _ (execve_unopened _ _ _ _ (vfs_open_missing _ cs p Htree Hr Hroot Hp Hlen Hres))).
  - unfold sys_ret. rewrite (gbind_run _ _ g (-1) g); [done|]. apply in_k_read. unfold sys_kill, MAX_SIGNALS.
    destruct ((i32 (rsi regs) <? 1) || (i32 (rsi regs) >=? 32)) eqn:B; [done|lia].
  - unfold sys_ret. rewrite (gbind_run _ _ g (-1) g); [done|]. by apply in_k_read, (sys_kill_no_task _ cfs rt glob).
  - unfold sys_ret. rewrite (gbind_run _ _ g (-1) g); [done|]. apply in_k_read. unfold sys_sigaction, MAX_SIGNALS.
    destruct ((i32 (rdi regs) <? 1) || (i32 (rdi regs) >=? 32)) eqn:B; [done|lia].
  - unfold sys_ret. rewrite (gbind_run _ _ g (-1) g); [done|]. apply in_k_read. unfold sys_shmget, MAX_SHM_REGIONS.
    erewrite kbind_done by done. erewrite kbind_done by (apply kopt_some; by rewrite Ht).
    destruct (Z.geb_spec (t_shm_count t) 4); [done|lia].
  - unfold sys_ret. rewrite (gbind_run _ _ g (-1) g); [done|]. apply in_k_read. unfold sys_shmat.
    erewrite kbind_done by done. erewrite kbind_done by (apply kopt_some; by rewrite Ht).
    destruct ((i32 (rdi regs) <? 0) || (i32 (rdi regs) >=? t_shm_count t)) eqn:B; [done|lia].
  - rewrite !not_elem_of_cons in Hno. destruct Hno as (N1 & N2 & N3 & N4 & N5 & N6 & N7 & N8 & N9 & N10 & N11 & N12 & _).
    repeat (rewrite (proj2 (Z.eqb_neq _ _)) by done). reflexivity.
Qed.

End Errors.

(** ** Writing to the terminal *)

Section Output.
Context `{Layout}.

(** The serial transmitter is ready whenever it is asked. *)
Definition serial_ready (c : console) : Prop := port_in (c_ports c) !! (COM1 + 5) = None.

Lemma serial_putchar_ready fuel ch c :
  serial_ready c -> (0 < fuel)%nat -> 0 <= ch < 256 ->
  serial_putchar fuel ch c = Done (tt, set_c_ports (mk_ports (port_in (c_ports c)) ((COM1, ch) :: port_out (c_ports c))) c).
Proof.
  intros Hr Hf Hc. destruct fuel as [|f]; [lia|]. unfold serial_putchar. cbn [serial_wait].
  assert (on_ports (inb (COM1 + 5)) c = Done (255, c)) as Ein.
  { unfold on_ports, zoom, inb, port_read. rewrite Hr. by destruct c. }
  erewrite kbind_done; [|by rewrite (kbind_done _ _ _ _ _ Ein)].
  unfold on_ports, zoom. rewrite outb_done, !(wrap_small 8) by (rewrite ?wrap_small; lia). done.
Qed.

(** One character: to the screen and to the line, whatever its position. *)
Lemma stdout_putc_done fuel buf i ch g :
  k_umem (g_k g) !! (buf + i) = Some ch -> 0 <= ch < 256 -> (0 < fuel)%nat -> screen_ok (view (g_con g)) -> serial_ready (g_con g) ->
  exists c', stdout_putc fuel buf i g = Done (tt, set_g_con c' g) /\ view c' = show_char ch (view (g_con g)) /\
    sent_to COM1 (c_ports c') = sent_to COM1 (c_ports (g_con g)) ++ [ch] /\ serial_ready c'.
Proof.
  intros Hch Hb Hf Hok Hr. unfold stdout_putc.
  assert (in_fs (copy_from_caller (buf + i) 1) g = Done ([ch], g)) as Ein.
  { apply in_fs_read. unfold copy_from_caller, on_k. erewrite zoom_done.
    2: { apply kopt_some. change (Z.to_nat 1) with 1%nat. cbn [read_list]. change (fs_k (g_fs g)) with (g_k g). rewrite Hch. reflexivity. }
    by rewrite set_fs_k_id. }
  erewrite kbind_done by exact Ein.
  destruct (terminal_putchar_spec ch (g_con g) Hok) as (c1 & E1 & Hv & _ & Hp).
  erewrite kbind_done by (apply zoom_done; exact E1).
  assert (serial_ready c1) as Hr1 by (unfold serial_ready; by rewrite Hp).
  exists (set_c_ports (mk_ports (port_in (c_ports c1)) ((COM1, ch) :: port_out (c_ports c1))) c1).
  split; [exact (zoom_done _ _ _ (set_g_con c1 g) _ _ (serial_putchar_ready fuel ch c1 Hr1 Hf Hb))|]. split; [exact Hv|]. split; [|exact Hr1].
  cbn [c_ports set_c_ports]. rewrite sent_to_cons, decide_True by done. f_equal. rewrite Hp. unfold cursor_writes. cbn [app port_out].
  rewrite !sent_to_cons. cbn -[sent_to]. by rewrite !app_nil_r.
Qed.

Lemma stdout_loop_done fuel buf data : forall i g,
  bytes_at (k_umem (g_k g)) (buf + i) data -> Forall is_byte data -> (0 < fuel)%nat ->
  screen_ok (view (g_con g)) -> serial_ready (g_con g) ->
  exists c', kfor (seqZ i (Z.of_nat (length data))) (stdout_putc fuel buf) g = Done (tt, set_g_con c' g) /\
    view c' = foldl (fun t ch => show_char ch t) (view (g_con g)) data /\
    sent_to COM1 (c_ports c') = sent_to COM1 (c_ports (g_con g)) ++ data /\ serial_ready c'.
Proof.
  induction data as [|ch data IH]; intros i g Hb Hbytes Hf Hok Hr.
  - exists (g_con g). split; [by destruct g|]. by rewrite app_nil_r.
  - cbn [length]. rewrite seqZ_cons by lia. cbn [kfor]. apply Forall_cons in Hbytes as [Hch Hbytes].
    apply bytes_at_cons in Hb as [H0 Hb].
    destruct (stdout_putc_done fuel buf i ch g H0 Hch Hf Hok Hr) as (c1 & E1 & Hv1 & Hs1 & Hr1).
    erewrite kbind_done by exact E1. replace (Z.pred (Z.of_nat (S (length data)))) with (Z.of_nat (length data)) by lia.
    destruct (IH (Z.succ i) (set_g_con c1 g)) as (c2 & E2 & Hv2 & Hs2 & Hr2); cbn [g_con set_g_con g_k g_fs].
    + by replace (buf + Z.succ i) with (buf + i + 1) by lia.
    + done.
    + done.
    + rewrite Hv1. by apply show_char_ok.
    + done.
    + exists c2. split; [exact E2|]. cbn [g_con set_g_con] in *. rewrite Hv2, Hs2, Hv1, Hs1. split; [done|]. split; [by rewrite <- app_assoc|done].
Qed.

(** C25: the write system call on a terminal, from the trap to the devices: every
    byte of the caller's buffer goes, in order, to the screen, which changes as
    the 80 by 25 terminal does, and to the serial line; the call returns the
    count, and the tasks, files, memory and keyboard are as before.  (The
    transmitter of the serial line is ready.) *)
Theorem sys_write_terminal fuel g t f regs data :
  caller g t -> rax regs = SYS_WRITE -> fd_fops g t (i32 (rdi regs)) f (Some StdoutFops) ->
  bytes_at (k_umem (g_k g)) (rsi regs) data -> Forall is_byte data -> rdx regs = Z.of_nat (length data) -> rdx regs < 2 ^ 64 ->
  (0 < fuel)%nat -> screen_ok (view (g_con g)) -> serial_ready (g_con g) ->
  exists g', syscall_dispatch fuel regs g = Done (GReturned (set_rax (Z.of_nat (length data)) regs), g') /\
    g_fs g' = g_fs g /\ g_kb g' = g_kb g /\
    view (g_con g') = foldl (fun scr ch => show_char ch scr) (view (g_con g)) data /\
    sent_to COM1 (c_ports (g_con g')) = sent_to COM1 (c_ports (g_con g)) ++ data.
Proof.
  intros Hc E Hf Hb Hbytes Hn Hn64 Hfuel Hok Hr. unfold syscall_dispatch.
  rewrite (gbind_run _ _ g (k_current (g_k g)) g) by by apply in_k_read. rewrite E. cbn [Z.eqb Pos.eqb SYS_WRITE].
  rewrite (sys_rw_open _ g t f _ regs Hc Hf). cbn [mbind option_bind fop_write].
  destruct (stdout_loop_done fuel (rsi regs) data 0 g) as (c' & E' & Hv & Hs & _); [by rewrite Z.add_0_r|done..|].
  rewrite Hn in *. erewrite gbind_run by (unfold stdout_write; erewrite kbind_done by exact E'; reflexivity).
  rewrite wrap_small by lia. by exists (set_g_con c' g).
Qed.
End Output.
