(* ===== verification/Exec.v ===== *)
(** * fs/exec.c: starting a program

    [exec_user_program] as a whole: a new address space, the VGA page, the pages
    of the image, the bounds of the stack, and the registers with which user mode
    is entered. *)

From S2P Require Import Prelude Memory StringLib ListHead SpinLock Slab PgTable FrameAlloc PageAlloc Paging AddrSpace VirtMem KState Sched Threads Fork Signal Ipc Ports Console Keyboard Ata FileSys Elf Syscall.

(** ** The address space of a program *)

Section Space.
Context {A : Type} `{FrameAllocatorLaws A}.
Implicit Types (s : mm_state A) (L : gmap Z tag).

Definition vga_flags : Z := Z.lor PTE_WRITABLE PTE_GLOBAL.
(** The VGA page: present and writable, not for the user. *)
Definition vga_page : option (Z * bool) := Some (leaf_entry 0xB8000 vga_flags, false).

(** The address space [root] runs the program with the given pages, in the given
    frames; [s] and [r] are the state and the address space before. *)
Record program_space s L (r : Z) (pages : list (Z * list Z)) (root : Z) (frames : list Z) s' : Prop := {
  ps_root : ~ fa_used (mm_frames s) root;
  ps_regs : cr3_reg s' = root /\ current_pgd s' = phys_to_virt root;
  ps_frames : length frames = length pages /\ NoDup frames;
  ps_pages i va l p : pages !! i = Some (va, l) -> frames !! i = Some p ->
    ~ fa_used (mm_frames s) p /\ translate (mm_mem s') root va = user_page p /\ bytes_at (mm_mem s') (phys_to_virt p) l;
  ps_vga : translate (mm_mem s') root 0xB8000 = vga_page;
  ps_rest va : pgd_index va < 256 -> vpn va <> vpn 0xB8000 -> (forall x, x ∈ pages.*1 -> vpn x <> vpn va) ->
    translate (mm_mem s') root va = None;
  ps_kernel va : 256 <= pgd_index va -> translate (mm_mem s') root va = translate (mm_mem s) r va;
  ps_others r' va : L !! r' = Some (Some r', []) -> translate (mm_mem s') r' va = translate (mm_mem s) r' va
}.

(** Pages of the two halves have different numbers. *)
Lemma vpn_half va va' : pgd_index va < 256 -> 256 <= pgd_index va' -> vpn va <> vpn va'.
Proof.
  intros Hlo Hhi E. assert (forall x, pgd_index x = vpn x / 2 ^ 27 mod 512) as Hd.
  { intros x. unfold pgd_index, vpn. rewrite Z.shiftr_div_pow2 by lia. change 0x1FF with (Z.ones 9). rewrite Z.land_ones by lia.
    change (2 ^ 39) with (4096 * 2 ^ 27). rewrite <- Z.div_div by lia. generalize (x / 4096) as y. intros y.
    change (2 ^ 36) with (2 ^ 27 * 2 ^ 9). rewrite Z.rem_mul_r by lia.
    rewrite (Z.mul_comm (2 ^ 27)), Z.div_add, (Z.div_small (y mod 2 ^ 27)) by (lia || apply Z.mod_pos_bound; lia).
    rewrite Z.add_0_l. change 512 with (2 ^ 9). by rewrite Z.mod_mod by lia. }
  rewrite !Hd, E in *. lia.
Qed.

(** The new address space with the VGA page, before the image is loaded. *)
Record space_with_vga s L (r root : Z) s' : Prop := {
  sv_root : ~ fa_used (mm_frames s) root;
  sv_tables : exists L', tables_ok s' L' /\ L ⊆ L' /\ L' !! root = Some (Some root, []);
  sv_regs : cr3_reg s' = root /\ current_pgd s' = phys_to_virt root;
  sv_vga : translate (mm_mem s') root 0xB8000 = vga_page;
  sv_user va : pgd_index va < 256 -> vpn va <> vpn 0xB8000 -> translate (mm_mem s') root va = None;
  sv_kernel va : 256 <= pgd_index va -> translate (mm_mem s') root va = translate (mm_mem s) r va;
  sv_others r' va : L !! r' = Some (Some r', []) -> translate (mm_mem s') r' va = translate (mm_mem s) r' va;
  sv_used q : fa_used (mm_frames s) q -> fa_used (mm_frames s') q;
  sv_avail : fa_avail (mm_frames s) - 4 <= fa_avail (mm_frames s')
}.

Lemma old_root_differs s L r' p : tables_ok s L -> L !! r' = Some (Some r', []) -> ~ fa_used (mm_frames s) p -> p <> r'.
Proof. intros Hok Hr' Hp ->. destruct (tok_frame _ _ Hok _ _ Hr') as (_ & Hu & _). done. Qed.

Lemma switched_space s L root :
  tables_ok s L -> frame_ok root -> exists s1, switch_address_space root s = Done (tt, s1) /\
    mm_mem s1 = mm_mem s /\ mm_frames s1 = mm_frames s /\ cr3_reg s1 = root /\ current_pgd s1 = phys_to_virt root /\ tables_ok s1 L.
Proof.
  intros Hok Hf. eexists. split; [reflexivity|]. split; [done|]. split; [done|]. split; [done|].
  split; [cbn; by rewrite frame_land_mask|]. destruct Hok. by constructor.
Qed.

Lemma vga_space_spec s L r root s1 :
  tables_ok s L -> space_created s L r root s1 ->
  exists s2, switch_address_space root s1 = Done (tt, s2) /\
    safe (fa_avail (mm_frames s) < 4) (arch_map_page 0xB8000 0xB8000 vga_flags) s2 (fun _ s3 => space_with_vga s L r root s3).
Proof.
  intros Hok [(L1 & Hok1 & Hsub & Hroot) [Hfr Hnu] _ Huser Hker Hroots Hused Hav].
  destruct (switched_space s1 L1 root Hok1 Hfr) as (s2 & E & Em & Ef & Ec & Ep & Hok2). exists s2. split; [done|].
  assert (pgd_index 0xB8000 < 256) as Hlow by (vm_compute; reflexivity).
  eapply safe_mono; [apply (arch_map_page_spec s2 L1 root 0xB8000 0xB8000 vga_flags)|rewrite Ef; lia|];
    [done|done|done|rewrite Em, Huser by done; by intros ? [=]|lia|by split|].
  intros [] s3 (L3 & [Hg Hav3 (t3 & e0 & e1 & e2 & Hpath & K0 & K1 & K2 & _) Hw _]).
  assert (forall r' va, L1 !! r' = Some (Some r', []) -> vpn 0xB8000 <> vpn va \/ (root <> r' /\ pgd_index 0xB8000 < 256) ->
    translate (mm_mem s3) r' va = translate (mm_mem s1) r' va) as Hkeep.
  { intros r' va Hr' Hne. rewrite <- Em. apply (Hw r' (Some r', [])); [done|done|apply indices_ok|]. by apply final_slot_other. }
  constructor.
  - done.
  - exists L3. split; [apply Hg|]. split; [by trans L1; [|apply Hg]|by eapply grown_lookup].
  - destruct (gr_regs _ _ _ _ Hg). split; congruence.
  - eapply (path_translate _ _ (Some root, [])); [exact Hpath|done|exact K0|exact K1|exact K2|]. vm_compute. reflexivity.
  - intros va Hva Hne. rewrite Hkeep by (done || left; congruence). by apply Huser.
  - intros va Hva. rewrite Hkeep by (done || left; by apply vpn_half). by apply Hker.
  - intros r' va Hr'. rewrite Hkeep; [by apply Hroots|by eapply lookup_weaken|]. right. split; [exact (old_root_differs s L r' root Hok Hr' Hnu)|done].
  - intros q Hq. apply (gr_used _ _ _ _ Hg). rewrite Ef. by apply Hused.
  - rewrite Ef in Hav3. lia.
Qed.

Lemma program_space_spec s L r root s1 data phoff phnum phs :
  tables_ok s L -> space_with_vga s L r root s1 -> headers data phoff phnum = Some phs ->
  Forall (segment_ok data) phs -> Forall is_byte data ->
  let pages := image_pages data phs in
  NoDup (vpn <$> 0xB8000 :: pages.*1) -> (forall x, x ∈ pages.*1 -> pgd_index x < 256) ->
  safe (fa_avail (mm_frames s) < 4 * (1 + Z.of_nat (length pages))) (load_segments data phoff phnum) s1
    (fun _ s2 => exists frames, program_space s L r pages root frames s2).
Proof.
  intros Hok [Hroot (L1 & Hok1 & Hsub & Hr1) [Hc Hp] Hvga Huser Hker Hoth Hus Hav] Hhd Hsegs Hb pages Hnd Hlow.
  rewrite fmap_cons in Hnd. apply NoDup_cons in Hnd as [Hnv Hnd].
  assert (forall x, x ∈ pages.*1 -> vpn x <> vpn 0xB8000) as Hne by (intros x Hx E; apply Hnv, list_elem_of_fmap; by exists x).
  eapply safe_eq; [unfold load_segments; apply kfor_mapM; exact Hhd|].
  eapply safe_mono; [apply (load_segments_ok s1 L1 root data phs [] s1)|simpl app; fold pages; lia|].
  - exists []. split; [done|]. by apply image_inv_start.
  - done.
  - done.
  - split; [exact Hnd|]. intros va l Hin. assert (va ∈ pages.*1) as Hva by (apply list_elem_of_fmap; by exists (va, l)).
    rewrite Huser by auto. by intros ? [=].
  - intros [] s2 (ps & Eps & [_ [Hc2 Hp2] Hndf Hfr _ Hmp Hot Hro _]). cbn [app] in Eps. fold pages in Eps.
    exists (ps.*2). constructor.
    + done.
    + split; congruence.
    + split; [by rewrite <- Eps, !length_fmap|done].
    + intros i va l p Hi Hpi. rewrite <- Eps in Hi. apply list_lookup_fmap_Some in Hi as ([[va' l'] p'] & E & Hi).
      apply list_lookup_fmap_Some in Hpi as ([[va2 l2] p2] & E2 & Hpi). rewrite Hi in Hpi. injection Hpi as <- <- <-. cbn in E, E2.
      injection E as <- <-. subst p'. pose proof (list_elem_of_lookup_2 _ _ _ Hi) as Hin.
      destruct (Hfr p) as (_ & Hn & _); [apply list_elem_of_fmap; by exists (va, l, p)|].
      destruct (Hmp va l p Hin) as (_ & Ht & Hby). split; [intros Hu; by apply Hn, Hus|done].
    + rewrite Hot by (by rewrite Eps). done.
    + intros va Hva Hv Hx. rewrite Hot by (by rewrite Eps). by apply Huser.
    + intros va Hva. rewrite Hot by (rewrite Eps; intros x Hx; apply vpn_half; auto). by apply Hker.
    + intros r' va Hr'. rewrite Hro; [by apply Hoth|by eapply lookup_weaken| |by rewrite Eps].
      intros ->. by apply (old_root_differs s L root root).
Qed.
End Space.

(** ** The program *)

Section Exec.
Context `{Layout}.

(** The task that runs the program: its address space and the bounds of its stack. *)
Definition exec_task (root : Z) (t : task_struct) : task_struct :=
  set_t_cr3 root (set_t_stack_end 0x40000000 (set_t_stack_start 0x3FFFC000 t)).

(** C9: [exec_user_program] rejects an image without the ELF magic number without
    effect.  Otherwise, unless memory is exhausted, it enters user mode at the
    entry point of the image with the stack pointer 16 bytes below 1 GiB, in a new
    address space whose user half has exactly the pages of the image, each in a
    frame of its own with the bytes of the file followed by zeros, and the VGA
    page, for the kernel only; its kernel half is that of the address space
    before; the current task has the address space and a stack of four pages; no other
    address space and no other task changes. *)
Theorem exec_user_program_starts g data L r :
  (forall m, e_magic data = Some m -> m <> ELF_MAGIC -> exec_user_program data g = Done (None, g)) /\
  forall t phoff phnum phs entry,
  let s := k_mm (g_k g) in
  tables_ok s L -> Z.land (cr3_reg s) PTE_ADDR_MASK = r -> L !! r = Some (Some r, []) ->
  k_tasks (g_k g) !! k_current (g_k g) = Some t ->
  e_magic data = Some ELF_MAGIC -> e_phoff data = Some phoff -> e_phnum data = Some phnum -> e_entry data = Some entry ->
  headers data phoff phnum = Some phs -> Forall (segment_ok data) phs -> Forall is_byte data ->
  let pages := image_pages data phs in
  NoDup (vpn <$> 0xB8000 :: pages.*1) -> (forall x, x ∈ pages.*1 -> pgd_index x < 256) ->
  safe (fa_avail (mm_frames s) < 4 * (1 + Z.of_nat (length pages))) (exec_user_program data) g (fun res g' =>
    res = Some (0x3FFFFFF0, entry) /\
    exists root frames, program_space s L r pages root frames (k_mm (g_k g')) /\
      g' = set_g_k (set_k_tasks (<[k_current (g_k g) := exec_task root t]> (k_tasks (g_k g)))
             (set_k_mm (k_mm (g_k g')) (g_k g))) g).
Proof.
  split.
  { intros m Hm Hne. unfold exec_user_program, need. rewrite Hm. erewrite kbind_done by reflexivity. by rewrite (proj2 (Z.eqb_neq _ _) Hne). }
  intros t phoff phnum phs entry s Hok Hcr3 Hr Ht Hmag Hoff Hnum Hent Hhd Hsegs Hb pages Hnd Hlow.
  unfold exec_user_program, exec_image, need. rewrite Hmag, Hoff, Hnum, Hent. eapply safe_step; [reflexivity|].
  rewrite Z.eqb_refl. cbn [negb]. apply safe_bind.
  apply safe_bind, safe_zoom, safe_zoom. eapply safe_mono; [by apply (create_new_address_space_spec s L r)|unfold s; lia|].
  intros root s1 Hnew. destruct (vga_space_spec s L r root s1 Hok Hnew) as (s2 & E2 & Hvga).
  eapply safe_step; [apply zoom_done, zoom_done; exact E2|].
  apply safe_bind, safe_zoom, safe_zoom. eapply safe_mono; [exact Hvga|unfold s; lia|]. intros [] s3 Hv3.
  eapply safe_step; [reflexivity|]. eapply safe_step; [reflexivity|].
  apply safe_bind, safe_zoom, safe_zoom.
  eapply safe_mono; [by apply (program_space_spec s L r root s3 data phoff phnum phs)|done|]. intros [] s4 (frames & Hps).
  set (g4 := set_g_k _ _).
  assert (g4 = set_g_k (set_k_mm s4 (g_k g)) g) as E4 by reflexivity.
  assert (k_tasks (g_k g4) !! k_current (g_k g4) = Some t) as Ht4 by exact Ht. clearbody g4.
  eapply safe_step; [reflexivity|]. eapply safe_step; [apply zoom_done, task_upd_done; exact Ht4|].
  eapply safe_step; [apply zoom_done, task_upd_done; apply lookup_insert_eq|].
  eapply safe_done; [apply zoom_done, task_upd_done; apply lookup_insert_eq|].
  eapply safe_step; [reflexivity|]. eapply safe_done; [reflexivity|]. split; [done|]. exists root, frames.
  subst g4. split; [exact Hps|]. set (t1 := set_t_stack_start 0x3FFFC000 t). set (t2 := set_t_stack_end 0x40000000 t1). set (c := k_current (g_k g)).
  trans (set_g_k (set_k_tasks (<[c := set_t_cr3 root t2]> (<[c := t2]> (<[c := t1]> (k_tasks (g_k g))))) (set_k_mm s4 (g_k g))) g);
    [reflexivity|]. by rewrite !insert_insert_eq.
Qed.
End Exec.
