(* ===== verification/PipeCall.v ===== *)
(** * Pipes through system calls

    A program that asks for a pipe, writes to one descriptor and reads from the
    other: [sys_pipe] of kernel/ipc.c, the descriptor table of the task, and the
    file operations behind the dispatcher of kernel/entry/syscall.c together. *)

From S2P Require Import Prelude Memory StringLib ListHead SpinLock Slab PgTable FrameAlloc PageAlloc Paging AddrSpace VirtMem KState Sched Threads Fork Signal Ipc Ports Console Keyboard Ata FileSys Elf Syscall.

Section PipeCall.
Context `{Layout}.
Hypothesis heap_base : 0 < kernel_heap_region /\ kernel_heap_region mod 16 = 0.

(** The table of a task whose first two free descriptors are [r] and [w]. *)
Record two_free (files : list Z) (r w : nat) : Prop := {
  tf_order : (r < w < length files)%nat;
  tf_read : files !! r = Some 0;
  tf_write : files !! w = Some 0;
  tf_others i f : (i < w)%nat -> i <> r -> files !! i = Some f -> f <> 0
}.

Definition with_ends (r w : nat) (re we : Z) (t : task_struct) : task_struct :=
  set_t_files (<[w := we]> (<[r := re]> (t_files t))) t.

(** The search goes past descriptors in use. *)
Lemma install_ends_skip l rest i rfd re we s :
  Forall (fun f => f <> 0) l -> install_ends (l ++ rest) i rfd re we s = install_ends rest (i + Z.of_nat (length l)) rfd re we s.
Proof.
  intros Hl. revert i. induction Hl as [|x l Hx _ IH]; intros i; cbn [app install_ends length]; [by rewrite Z.add_0_r|].
  rewrite (proj2 (Z.eqb_neq x 0) Hx), IH. f_equal. lia.
Qed.

Lemma two_free_split files r w :
  two_free files r w -> exists l1 l2 l3, files = l1 ++ 0 :: l2 ++ 0 :: l3 /\ length l1 = r /\ (r + 1 + length l2 = w)%nat /\
    Forall (fun f => f <> 0) l1 /\ Forall (fun f => f <> 0) l2.
Proof.
  intros [Ho Hr Hw Hothers]. exists (take r files), (take (w - r - 1) (drop (S r) files)), (drop (S w) files).
  assert (length (take r files) = r) as L1 by (rewrite length_take; lia).
  assert (length (take (w - r - 1) (drop (S r) files)) = w - r - 1)%nat as L2 by (rewrite length_take, length_drop; lia).
  split; [|split; [exact L1|split; [rewrite L2; lia|split]]].
  - rewrite <- (take_drop_middle files r 0 Hr) at 1. do 2 f_equal.
    rewrite <- (take_drop_middle (drop (S r) files) (w - r - 1) 0) at 1.
    + f_equal. f_equal. rewrite drop_drop. f_equal. lia.
    + rewrite lookup_drop. rewrite <- Hw. f_equal. lia.
  - apply Forall_lookup. intros i f Hi. apply lookup_take_Some in Hi as [Hi Hlt]. apply (Hothers i f); [lia|lia|done].
  - apply Forall_lookup. intros i f Hi. apply lookup_take_Some in Hi as [Hi Hlt]. rewrite lookup_drop in Hi.
    apply (Hothers (S r + i)%nat f); [lia|lia|done].
Qed.

Lemma install_ends_done s t r w re we :
  k_tasks s !! k_current s = Some t -> two_free (t_files t) r w ->
  install_ends (t_files t) 0 (-1) re we s =
    Done ((Z.of_nat r, Z.of_nat w), set_k_tasks (<[k_current s := with_ends r w re we t]> (k_tasks s)) s).
Proof.
  intros Ht Hf. destruct (two_free_split _ _ _ Hf) as (l1 & l2 & l3 & -> & <- & <- & H1 & H2).
  rewrite install_ends_skip by done. cbn [install_ends]. rewrite Z.eqb_refl. erewrite kbind_done by done. rewrite Z.eqb_refl.
  rewrite Z.add_0_l. erewrite kbind_done by (unfold set_file; apply task_upd_done; exact Ht).
  rewrite install_ends_skip by done. cbn [install_ends]. rewrite Z.eqb_refl. erewrite kbind_done by done.
  rewrite (proj2 (Z.eqb_neq (Z.of_nat (length l1)) (-1))) by lia.
  erewrite kbind_done by (unfold set_file; apply task_upd_done; apply lookup_insert_eq).
  cbn [k_tasks set_k_tasks k_current]. rewrite insert_insert_eq. unfold with_ends, kret.
  replace (Z.of_nat (length l1) + 1 + Z.of_nat (length l2)) with (Z.of_nat (length l1 + 1 + length l2)) by lia. rewrite !Nat2Z.id. done.
Qed.

(** What a new pipe leaves: its two ends behind the first two free descriptors,
    whose numbers are in the caller's array. *)
Record pipe_made (s : kstate) (t : task_struct) (r w : nat) (fds : Z) (s' : kstate) (re we p : Z) : Prop := {
  pm_rep : pipe_rep s' re we p [] 4096;
  pm_ops : open_as s' re PipeReadFops /\ open_as s' we PipeWriteFops /\ re <> 0 /\ we <> 0;
  pm_task : k_current s' = k_current s /\ k_tasks s' = <[k_current s := with_ends r w re we t]> (k_tasks s);
  pm_fds : peekn 4 (k_umem s') fds = Some (Z.of_nat r) /\ peekn 4 (k_umem s') (fds + 4) = Some (Z.of_nat w);
  pm_umem a : a < fds \/ fds + 8 <= a -> k_umem s' !! a = k_umem s !! a
}.

Lemma new_file_umem fops priv : keeps k_umem (new_file fops priv).
Proof.
  unfold new_file. apply keeps_bind; [by apply keeps_zoom|intros f]. apply keeps_bind; [by apply keeps_zoom|intros i].
  unfold store_file, store_inode. apply keeps_bind; [apply keeps_if; [apply keeps_fault|by apply keeps_mod]|intros _].
  apply keeps_bind; [apply keeps_if; [apply keeps_fault|by apply keeps_mod]|intros _]. apply keeps_ret.
Qed.

Lemma store_int_done a v s : mapped (k_umem s) a 4 -> store_int a v s = Done (tt, set_k_umem (poken 4 (k_umem s) a (u32 v)) s).
Proof. intros Hm. apply zoom_done. by apply storen_done. Qed.

Lemma sys_pipe_spec s t r w fds :
  k_tasks s !! k_current s = Some t -> two_free (t_files t) r w -> (w < 32)%nat -> mapped (k_umem s) fds 8 ->
  slab_inv (k_slab s) -> heap_ptr (k_slab s) + 4400 <= kernel_heap_size ->
  exists re we p s', sys_pipe fds s = Done (0, s') /\ pipe_made s t r w fds s' re we p.
Proof using heap_base.
  intros Ht Hf Hw Hm Hslab Hroom. pose proof (tf_order _ _ _ Hf) as Ho. pose proof Hslab as (_ & Hhp & _). unfold sys_pipe.
  destruct (kmalloc_room heap_base s sizeof_pipe Hslab) as (sl & E0 & I0 & P0); [done|unfold sizeof_pipe; lia|].
  erewrite kbind_done by exact E0. set (p := kernel_heap_region + _) in *. assert (p <> 0) as Hp0 by (unfold p; lia).
  rewrite (proj2 (Z.eqb_neq p 0) Hp0). erewrite kbind_done by done. set (s1 := set_k_pipes _ _). unfold sizeof_pipe in P0.
  destruct (new_file_spec heap_base s1 PipeReadFops p) as (re & i1 & s2 & E1 & S1 & I1 & Hre & Hi1 & Hh1 & T1 & F1 & N1 & Pi1);
    [exact I0|change (k_slab s1) with sl; lia|]. pose proof (new_file_umem _ _ _ _ _ E1) as U1. erewrite kbind_done by exact E1.
  change (k_slab s1) with sl in *.
  destruct (new_file_spec heap_base s2 PipeWriteFops p) as (we & i2 & s3 & E2 & S2 & I2 & Hwe & Hi2 & Hh2 & T2 & F2 & N2 & Pi2);
    [exact I1|lia|]. pose proof (new_file_umem _ _ _ _ _ E2) as U2. erewrite kbind_done by exact E2.
  assert (k_current s3 = k_current s) as Hcur by (rewrite (ss_current _ _ S2), (ss_current _ _ S1); done).
  assert (k_tasks s3 = k_tasks s) as Htasks by (by rewrite T2, T1).
  erewrite kbind_done by done. rewrite Hcur. erewrite kbind_done by (apply task_get_done; rewrite Htasks; exact Ht).
  erewrite kbind_done by (apply (install_ends_done s3 t r w); [by rewrite Hcur, Htasks|exact Hf]). rewrite Hcur.
  rewrite !(proj2 (Z.eqb_neq (Z.of_nat _) (-1))) by lia. cbn [orb].
  set (s4 := set_k_tasks _ s3). assert (k_umem s4 = k_umem s) as U4 by (change (k_umem s4) with (k_umem s3); by rewrite U2, U1).
  erewrite kbind_done by (apply store_int_done; rewrite U4; apply (mapped_weaken _ _ 8 _ _ Hm); lia).
  erewrite kbind_done by (apply store_int_done; cbn [k_umem set_k_umem]; apply poken_mapped; rewrite U4; apply (mapped_weaken _ _ 8 _ _ Hm); lia).
  rewrite !(wrap_small 32) by lia. cbn [k_umem set_k_umem]. rewrite U4.
  exists re, we, p. eexists. split; [reflexivity|].
  assert (k_files s3 !! re = Some (mk_file 0 i1 0)) as Fre by (rewrite F2, F1, lookup_insert_ne, lookup_insert_eq by lia; done).
  assert (k_files s3 !! we = Some (mk_file 0 i2 0)) as Fwe by (rewrite F2, lookup_insert_eq; done).
  assert (k_inodes s3 !! i1 = Some (mk_inode 0 0 0 p (Some PipeReadFops))) as Nre by (rewrite N2, N1, lookup_insert_ne, lookup_insert_eq by lia; done).
  assert (k_inodes s3 !! i2 = Some (mk_inode 0 0 0 p (Some PipeWriteFops))) as Nwe by (rewrite N2, lookup_insert_eq; done).
  assert (k_pipes s3 !! p = Some (mk_pipe (replicate 4096 0) 0 0 0)) as Hpipe by (rewrite Pi2, Pi1; apply lookup_insert_eq).
  constructor.
  - constructor; [by exists (mk_file 0 i1 0), (mk_inode 0 0 0 p (Some PipeReadFops))|by exists (mk_file 0 i2 0), (mk_inode 0 0 0 p (Some PipeWriteFops))|].
    exists (replicate 4096 0), 0, 0. split; [exact Hpipe|]. split; [apply length_replicate|]. done.
  - split; [by exists (mk_file 0 i1 0), (mk_inode 0 0 0 p (Some PipeReadFops))|].
    split; [by exists (mk_file 0 i2 0), (mk_inode 0 0 0 p (Some PipeWriteFops))|]. lia.
  - split; [exact Hcur|]. change (<[k_current s := with_ends r w re we t]> (k_tasks s3) = <[k_current s := with_ends r w re we t]> (k_tasks s)).
    by rewrite Htasks.
  - cbn [k_umem set_k_umem]. rewrite peekn_poken_ne by lia.
    rewrite !peekn_poken_eq by (try apply poken_mapped; apply (mapped_weaken _ _ 8 _ _ Hm); lia). rewrite !Z.mod_small by (cbn; lia). done.
  - intros a Ha. cbn [k_umem set_k_umem]. rewrite !lookup_poken_out by lia. done.
Qed.

(** ** The three calls *)

(** The caller's memory between two calls is the program's. *)
Definition user_memory (m : mem) (g : gstate) : gstate := set_g_k (set_k_umem m (g_k g)) g.

Lemma dispatch_write fuel g t f fop regs op :
  caller g t -> rax regs = SYS_WRITE -> fd_fops g t (i32 (rdi regs)) f (Some fop) -> fop_write fuel fop = Some op ->
  syscall_dispatch fuel regs g = gbind (op f (rsi regs) (rdx regs)) (fun r => gret (set_rax (u64 r) regs)) g.
Proof.
  intros Hc E Hf Hop. unfold syscall_dispatch. rewrite (gbind_run _ _ g (k_current (g_k g)) g) by by apply in_k_read.
  rewrite E. cbn [Z.eqb Pos.eqb SYS_WRITE]. rewrite (sys_rw_open _ g t f (Some fop) regs Hc Hf). cbn. by rewrite Hop.
Qed.
Lemma dispatch_read fuel g t f fop regs op :
  caller g t -> rax regs = SYS_READ -> fd_fops g t (i32 (rdi regs)) f (Some fop) -> fop_read fuel fop = Some op ->
  syscall_dispatch fuel regs g = gbind (op f (rsi regs) (rdx regs)) (fun r => gret (set_rax (u64 r) regs)) g.
Proof.
  intros Hc E Hf Hop. unfold syscall_dispatch. rewrite (gbind_run _ _ g (k_current (g_k g)) g) by by apply in_k_read.
  rewrite E. cbn [Z.eqb Pos.eqb SYS_READ SYS_WRITE]. rewrite (sys_rw_open _ g t f (Some fop) regs Hc Hf). cbn. by rewrite Hop.
Qed.

(** The arguments of a read or a write. *)
Definition rw_call (nr : Z) (fd : nat) (buf n : Z) (regs : registers) : Prop :=
  rax regs = nr /\ i32 (rdi regs) = Z.of_nat fd /\ rsi regs = buf /\ rdx regs = n.

(** A task whose two ends are open: it survives what a pipe call leaves alone. *)
Lemma ends_open g t r w re we :
  caller g (with_ends r w re we t) -> (r < w < 32)%nat -> length (t_files t) = 32%nat -> re <> 0 -> we <> 0 ->
  open_as (g_k g) re PipeReadFops -> open_as (g_k g) we PipeWriteFops ->
  fd_fops g (with_ends r w re we t) (Z.of_nat r) re (Some PipeReadFops) /\
  fd_fops g (with_ends r w re we t) (Z.of_nat w) we (Some PipeWriteFops).
Proof.
  intros Hc Hrw Hl Hre Hwe Hr Hw. unfold fd_fops, with_ends. cbn [t_files set_t_files]. rewrite !Nat2Z.id.
  rewrite list_lookup_insert_ne by lia. rewrite !list_lookup_insert_eq by (rewrite ?length_insert; lia).
  split; (split; [lia|]; split; [done|]; split; [done|]).
  - exact Hr.
  - exact Hw.
Qed.
Lemma pipe_rep_umem s rf wf p q room m : pipe_rep s rf wf p q room -> pipe_rep (set_k_umem m s) rf wf p q room.
Proof. intros []. by constructor. Qed.

Lemma in_k_done {B} (m : M kstate B) g b s : m (g_k g) = Done (b, s) -> in_k m g = Done (b, set_g_k s g).
Proof. apply zoom_done. Qed.

(** Writing and reading back through the two descriptors. *)
Lemma pipe_write_read fuel g t r w re we p buf buf2 data wregs rregs :
  let n := Z.of_nat (length data) in
  caller g (with_ends r w re we t) -> (r < w < 32)%nat -> length (t_files t) = 32%nat -> re <> 0 -> we <> 0 ->
  open_as (g_k g) re PipeReadFops -> open_as (g_k g) we PipeWriteFops -> pipe_rep (g_k g) re we p [] 4096 ->
  0 < n <= 4096 -> read_list (k_umem (g_k g)) buf (length data) = Some data -> mapped (k_umem (g_k g)) buf2 n ->
  rw_call SYS_WRITE w buf n wregs -> rw_call SYS_READ r buf2 n rregs ->
  exists g2 g3, syscall_dispatch (S fuel) wregs g = Done (GReturned (set_rax n wregs), g2) /\
    syscall_dispatch (S fuel) rregs g2 = Done (GReturned (set_rax n rregs), g3) /\ bytes_at (k_umem (g_k g3)) buf2 data.
Proof.
  intros n Hc Hrw Hl Hre Hwe Or Ow Hrep Hn Hdata Hm (W1 & W2 & W3 & W4) (R1 & R2 & R3 & R4).
  destruct (ends_open g t r w re we Hc Hrw Hl Hre Hwe Or Ow) as [_ Fw].
  rewrite (dispatch_write _ g _ we PipeWriteFops wregs _ Hc W1 ltac:(rewrite W2; exact Fw) eq_refl). rewrite W3, W4.
  destruct (pipe_write_spec (g_k g) re we p [] 4096 buf data Hrep Hdata ltac:(lia)) as (s2 & E2 & Hrep2 & Hsame & U2).
  fold n in E2, Hrep2. rewrite Z.min_l in E2, Hrep2 by lia. rewrite firstn_all2 in Hrep2 by lia.
  rewrite (gbind_run _ _ _ _ _ (in_k_done _ _ _ _ E2)). rewrite (wrap_small 64 n) by lia.
  destruct Hsame as (_ & Ht2 & Hf2 & Hi2 & Hc2 & _). set (g2 := set_g_k s2 g).
  assert (caller g2 (with_ends r w re we t)) as Hcg2.
  { destruct Hc as [Hc Hlen]. split; [|exact Hlen]. change (g_k g2) with s2. by rewrite Ht2, Hc2. }
  assert (open_as s2 re PipeReadFops) as Or2 by (unfold open_as; by rewrite Hf2, Hi2).
  assert (open_as s2 we PipeWriteFops) as Ow2 by (unfold open_as; by rewrite Hf2, Hi2).
  destruct (ends_open g2 t r w re we Hcg2 Hrw Hl Hre Hwe Or2 Ow2) as [Fr _].
  destruct (pipe_read_spec s2 re we p data (4096 - n) buf2 n fuel) as (s3 & E3 & _ & _ & U3);
    [exact Hrep2|intros Hd; apply (f_equal length) in Hd; cbn in Hd; lia|lia|by rewrite U2|].
  rewrite (firstn_all2 data) in E3, U3 by lia. exists g2, (set_g_k s3 g2). split; [done|]. split.
  - rewrite (dispatch_read _ g2 _ re PipeReadFops rregs _ Hcg2 R1 ltac:(rewrite R2; exact Fr) eq_refl). rewrite R3, R4.
    unfold gbind, in_sched. rewrite kbind_assoc. erewrite kbind_done by (apply in_k_done; exact E3).
    erewrite kbind_done by done. cbn [lift_flow gflow_bind]. fold n. by rewrite (wrap_small 64 n) by lia.
  - change (g_k (set_g_k s3 g2)) with s3. rewrite U3. apply write_list_bytes_at.
Qed.

(** C12: a program's pipe works: the call returns 0, puts the numbers of the first
    two free descriptors into the caller's array, and from then on bytes written
    to the second come out of the first: with any memory the program has made in
    between, writing up to 4096 bytes and reading as many both return their
    number, and the reader's buffer holds the writer's bytes. *)
Theorem pipe_syscalls fuel g t r w regs :
  caller g t -> two_free (t_files t) r w -> rax regs = SYS_PIPE -> mapped (k_umem (g_k g)) (rdi regs) 8 ->
  slab_inv (k_slab (g_k g)) -> heap_ptr (k_slab (g_k g)) + 4400 <= kernel_heap_size ->
  exists g1, syscall_dispatch fuel regs g = Done (GReturned (set_rax 0 regs), g1) /\
    peekn 4 (k_umem (g_k g1)) (rdi regs) = Some (Z.of_nat r) /\ peekn 4 (k_umem (g_k g1)) (rdi regs + 4) = Some (Z.of_nat w) /\
    (forall a, a < rdi regs \/ rdi regs + 8 <= a -> k_umem (g_k g1) !! a = k_umem (g_k g) !! a) /\
    forall fuel' m buf buf2 data wregs rregs, let n := Z.of_nat (length data) in
      0 < n <= 4096 -> read_list m buf (length data) = Some data -> mapped m buf2 n ->
      rw_call SYS_WRITE w buf n wregs -> rw_call SYS_READ r buf2 n rregs ->
      exists g2 g3, syscall_dispatch (S fuel') wregs (user_memory m g1) = Done (GReturned (set_rax n wregs), g2) /\
        syscall_dispatch (S fuel') rregs g2 = Done (GReturned (set_rax n rregs), g3) /\ bytes_at (k_umem (g_k g3)) buf2 data.
Proof using heap_base.
  intros Hc Hf Hnr Hm Hslab Hroom. destruct Hc as [Ht Hl]. pose proof (tf_order _ _ _ Hf) as Ho. rewrite Hl in Ho.
  destruct (sys_pipe_spec (g_k g) t r w (rdi regs) Ht Hf ltac:(lia) Hm Hslab Hroom) as (re & we & p & s1 & E & [Hrep (Or & Ow & Hre & Hwe) [Hcur Htk] [P1 P2] Hu]).
  exists (set_g_k s1 g). split; [|split; [exact P1|split; [exact P2|split; [exact Hu|]]]].
  - unfold syscall_dispatch. rewrite (gbind_run _ _ g (k_current (g_k g)) g) by by apply in_k_read. rewrite Hnr.
    cbn [Z.eqb Pos.eqb SYS_WRITE SYS_READ SYS_OPEN SYS_CLOSE SYS_FORK SYS_EXECVE SYS_EXIT SYS_KILL SYS_SIGACTION SYS_PIPE].
    unfold sys_ret. by rewrite (gbind_run _ _ _ _ _ (in_k_done _ _ _ _ E)).
  - intros fuel' m buf buf2 data wregs rregs n Hn Hdata Hm2 HW HR.
    apply (pipe_write_read fuel' _ t r w re we p buf buf2); try done; [|by apply pipe_rep_umem].
    split; [|cbn; by rewrite !length_insert]. change (k_tasks s1 !! k_current s1 = Some (with_ends r w re we t)).
    rewrite Hcur, Htk. apply lookup_insert_eq.
Qed.
End PipeCall.
