(* ===== verification/TypeMem.v ===== *)
(** * The invariant of the memory subsystems

    Memory cells hold bytes, the heap is aligned and its lock free, the bitmap,
    the count and the hint of the page allocator agree, and the root table of the
    current address space is a frame.  This file states it and shows that the
    operations of memory, the heap, the page allocator and the page tables keep
    it; [Typing] does the rest of the kernel.  It also has the rule for code that
    takes a lock and gives it back, [moves]. *)

From S2P Require Import Prelude Memory StringLib SpinLock Slab PgTable FrameAlloc PageAlloc Paging VirtMem Elf.

(** ** Integers, arrays and bytes *)

Definition uint (w x : Z) : Prop := 0 <= x < 2 ^ w.
Definition array (n : nat) (T : Z -> Prop) (l : list Z) : Prop := length l = n /\ Forall T l.

Lemma uint_wrap w x : 0 <= w -> uint w (wrap w x).
Proof. intros Hw. by apply wrap_range. Qed.
Lemma uint_lor w x y : 0 <= w -> uint w x -> uint w y -> uint w (Z.lor x y).
Proof. apply lor_bound. Qed.
Lemma uint_land w x y : 0 <= w -> uint w x -> uint w (Z.land x y).
Proof. apply land_bound. Qed.
Lemma uint_bit w i : 0 <= i < w -> uint w (bit i).
Proof. intros Hi. unfold uint, bit. rewrite Z.shiftl_1_l. split; [lia|]. apply Z.pow_lt_mono_r; lia. Qed.
Lemma uint_weaken w w' x : 0 <= w <= w' -> uint w x -> uint w' x.
Proof. intros Hw [Hx Hx']. split; [done|]. eapply Z.lt_le_trans; [exact Hx'|]. apply Z.pow_le_mono_r; lia. Qed.

Lemma array_insert n T l i x : array n T l -> T x -> array n T (<[i := x]> l).
Proof. intros [Hl Hf] Hx. split; [by rewrite length_insert|by apply Forall_insert]. Qed.
Lemma array_lookup n T l i x : array n T l -> l !! i = Some x -> T x.
Proof. intros [_ Hf] Hx. by eapply Forall_lookup_1. Qed.
Lemma array_replicate n (T : Z -> Prop) x : T x -> array n T (replicate n x).
Proof. intros Hx. split; [apply length_replicate|by apply Forall_replicate]. Qed.

#[export] Hint Resolve uint_wrap uint_lor uint_land uint_bit array_insert array_replicate : typing.
#[export] Hint Extern 1 (0 <= _) => lia : typing.
#[export] Hint Extern 1 (0 <= ?x) => match goal with H : uint _ x |- _ => apply H end : typing.
#[export] Hint Extern 1 (Forall ?T ?l) => match goal with H : array _ T l |- _ => apply H end : typing.
#[export] Hint Extern 1 (0 <= _ < _) => lia : typing.

(** ** Memory *)

Lemma mem_wf_insert m a b : mem_wf m -> is_byte b -> mem_wf (<[a := b]> m).
Proof. intros Hm Hb. by apply map_Forall_insert_2. Qed.
Lemma read_list_bytes m a n l : mem_wf m -> read_list m a n = Some l -> array n is_byte l.
Proof.
  intros Hm. revert a l. induction n as [|n IH]; intros a l; cbn [read_list]; [intros [= <-]; by split|].
  destruct (m !! a) as [b|] eqn:Eb; [|done]. destruct (read_list m (a + 1) n) as [l'|] eqn:El; [|done]. intros [= <-].
  destruct (IH _ _ El). split; [simpl; lia|]. constructor; [by apply (Hm a)|done].
Qed.
Lemma le_combine_uint l : Forall is_byte l -> uint (8 * Z.of_nat (length l)) (le_combine l).
Proof. apply le_combine_range. Qed.
#[export] Hint Resolve write_list_wf le_split_bytes : typing.

Lemma load8_typed a : ensures mem_wf (load8 a) is_byte.
Proof. eapply ensures_mono; [apply ensures_opt|]. intros b (m & Hm & Hb). by apply (Hm a). Qed.
Lemma store8_typed a b : is_byte b -> ensures mem_wf (store8 a b) (fun _ => True).
Proof. intros Hb. apply ensures_upd. intros m m' Hm. destruct (m !! a); [|done]. intros [= <-]. by apply mem_wf_insert. Qed.
#[export] Hint Resolve load8_typed store8_typed : typing.

Lemma u8_byte c : is_byte (u8 c).
Proof. apply (wrap_range 8). lia. Qed.
#[export] Hint Resolve u8_byte : typing.

Lemma kmemset_typed p c n : ensures mem_wf (kmemset p c n) (fun _ => True).
Proof.
  unfold kmemset. ens. revert p. induction (Z.to_nat n) as [|k IH]; intros p; cbn [kmemset_loop]; ens.
Qed.
Lemma kmemcpy_typed d s n : ensures mem_wf (kmemcpy d s n) (fun _ => True).
Proof.
  unfold kmemcpy. ens. revert d s. induction (Z.to_nat n) as [|k IH]; intros d s; cbn [copy_fwd]; ens.
Qed.
Lemma copy_image_typed n data src dst : Forall is_byte data -> ensures mem_wf (copy_image n data src dst) (fun _ => True).
Proof.
  intros Hd. revert src dst. induction n as [|n IH]; intros src dst; cbn [copy_image]; ens.
  destruct (0 <=? src); [|done]. apply store8_typed. by eapply Forall_lookup_1.
Qed.
Lemma writel_typed a v : ensures mem_wf (writel a v) (fun _ => True).
Proof.
  apply ensures_upd. intros m m' Hm. destruct (read_list m a 4); [|done]. intros E. apply (inj Some) in E as <-.
  apply write_list_wf; [done|apply le_split_bytes].
Qed.
#[export] Hint Resolve kmemset_typed kmemcpy_typed copy_image_typed writel_typed : typing.

(** ** The heap and the locks *)

(** A computation that starts in states of [P] and ends in states of [P'], with a
    result of [Q]: [ensures P m Q] is [moves P m P Q]. *)
Definition moves {S A} (P : S -> Prop) (m : M S A) (P' : S -> Prop) (Q : A -> Prop) : Prop :=
  forall s a s', P s -> m s = Done (a, s') -> P' s' /\ Q a.
Lemma moves_bind {S A B} (P P1 P2 : S -> Prop) (Q : A -> Prop) (R : B -> Prop) (m : M S A) (k : A -> M S B) :
  moves P m P1 Q -> (forall a, Q a -> moves P1 (k a) P2 R) -> moves P (kbind m k) P2 R.
Proof. intros Hm Hk s b s' Hs E. apply kbind_inv in E as (a & s1 & E1 & E2). destruct (Hm s a s1 Hs E1) as [H1 Ha]. by apply (Hk a Ha s1). Qed.
Lemma moves_keep {S A B} (P P' : S -> Prop) (Q : A -> Prop) (R : B -> Prop) (m : M S A) (k : A -> M S B) :
  ensures P m Q -> (forall a, Q a -> moves P (k a) P' R) -> moves P (kbind m k) P' R.
Proof. apply moves_bind. Qed.
Lemma moves_choice {S A} (P P' : S -> Prop) (b : bool) (m1 m2 : M S A) Q : moves P m1 P' Q -> moves P m2 P' Q -> moves P (if b then m1 else m2) P' Q.
Proof. by destruct b. Qed.

(** An address [kmalloc] answers: null, or an aligned address inside the heap. *)
Definition heap_ref (base x : Z) : Prop := x = 0 \/ (base <= x < base + kernel_heap_size /\ x mod 16 = 0).
Lemma heap_ref_null base : heap_ref base 0.
Proof. by left. Qed.
#[export] Hint Resolve heap_ref_null : typing.

Record slab_typed (s : slab_state) : Prop := {
  ty_heap : slab_inv s;
  ty_heap_mem : mem_wf (heap_mem s)
}.
Lemma kmalloc_typed base size :
  0 < base -> base mod 16 = 0 -> 0 < size -> size_ok size -> ensures slab_typed (kmalloc base size) (heap_ref base).
Proof.
  intros Hb Hb16 H0 Hsz s a s' [Hi Hm] E. pose proof Hi as (_ & Hp & _).
  destruct (kmalloc_spec base s size Hi Hsz Hb Hb16) as [[_ E']|(s1 & E' & Hi' & Hm' & Ha & Hn & Hle)]; rewrite E' in E; injection E as <- <-.
  - split; [done|by left].
  - split; [split; [done|by rewrite Hm']|]. right. split; [lia|done].
Qed.
Lemma kfree_typed p : ensures slab_typed (kfree p) (fun _ => True).
Proof. by apply ensures_ret. Qed.
#[export] Hint Resolve kfree_typed : typing.

(** ** The page allocator *)

(** The books of the page allocator: the bitmap, the number of free frames and the
    hint below which nothing is free agree. *)
Record pmm_typed (s : pmm_state) : Prop := {
  ty_bitmap : array 1024 (uint 64) (pmm_bitmap s);
  ty_total : 0 <= pmm_pages_total s <= MAX_PHYS_PAGES;
  ty_next : 0 <= next_free_page s <= pmm_pages_total s;
  ty_hint i : 0 <= i < next_free_page s -> page_used (pmm_bitmap s) i = true;
  ty_free : pmm_pages_free s = count_free (pmm_bitmap s) (pmm_pages_total s);
  ty_ram : mem_wf (pmm_mem s)
}.

(** The same books over memory that backs every frame. *)
Lemma pmm_books s : pmm_typed s -> exists m, pmm_inv (set_pmm_mem m s).
Proof.
  intros [[Hl _] Ht Hn Hh Hc _]. exists (ram_pages (Z.to_nat (pmm_pages_total s))). constructor; cbn; try done.
  rewrite <- (Z2Nat.id (pmm_pages_total s)) at 2 by lia. apply ram_pages_ok.
Qed.
Lemma pmm_inv_books s m : pmm_inv (set_pmm_mem m s) -> Forall (uint 64) (pmm_bitmap s) -> mem_wf (pmm_mem s) -> pmm_typed s.
Proof. intros [Hl Ht Hn Hh Hc _] Hw Hm. by constructor. Qed.

(** A frame of the allocator. *)
Definition frame_ref (a : Z) : Prop := exists k, 0 <= k < MAX_PHYS_PAGES /\ a = k * PAGE_SIZE.
Lemma frame_ref_null : frame_ref 0.
Proof. exists 0. unfold MAX_PHYS_PAGES. lia. Qed.
Lemma frame_ref_uint a : frame_ref a -> uint 64 a.
Proof. intros (k & Hk & ->). unfold uint, MAX_PHYS_PAGES in *. rewrite PAGE_SIZE_eq. lia. Qed.
#[export] Hint Resolve frame_ref_null frame_ref_uint : typing.

Lemma uint_bit_word i : uint 64 (bit (i mod 64)).
Proof. apply uint_bit. apply Z.mod_pos_bound. lia. Qed.
#[export] Hint Resolve uint_bit_word : typing.

(** The scan, when it finds a frame: the first one that is free. *)
Lemma alloc_scan_found n i s a s' :
  mem_wf (pmm_mem s) -> 0 <= i -> alloc_scan n i s = Done (a, s') ->
  exists k w m, i <= k < i + Z.of_nat n /\ page_used (pmm_bitmap s) k = false /\
    (forall j, i <= j < k -> page_used (pmm_bitmap s) j = true) /\ pmm_bitmap s !! Z.to_nat (k / 64) = Some w /\
    a = u64 (k * PAGE_SIZE) /\ mem_wf m /\ s' = mk_pmm (<[Z.to_nat (k / 64) := Z.lor w (bit (k mod 64))]> (pmm_bitmap s))
      (pmm_pages_total s) (u32 (pmm_pages_free s - 1)) (u32 (k + 1)) m.
Proof.
  intros Hm. revert i. induction n as [|n IH]; intros i Hi; [done|]. cbn [alloc_scan]. cbv zeta. unfold BITS_PER_WORD.
  intros (w & s1 & E1 & E)%kbind_inv. unfold bitmap_get in E1. apply kopt_inv in E1 as [Hw ->].
  rewrite (page_used_word _ _ _ Hw) in E. destruct (page_used (pmm_bitmap s) i) eqn:Hu.
  - destruct (IH (i + 1)) as (k & w' & m & Hk & Huk & Hbel & Hrest); [lia|done|]. exists k, w', m. split; [lia|]. split; [done|]. split; [|done].
    intros j Hj. destruct (decide (j = i)) as [->|]; [done|apply Hbel; lia].
  - erewrite kbind_done in E by (by apply bitmap_get_done). erewrite kbind_done in E by (apply bitmap_put_done; by eapply lookup_lt_Some).
    do 2 erewrite kbind_done in E by reflexivity. apply kbind_inv in E as (r & s2 & E2 & E). apply zoom_inv in E2 as (m & E2 & ->).
    injection E as <- <-. exists i, w, m. split; [lia|]. split; [done|]. split; [lia|]. split; [done|]. split; [done|]. split; [|done].
    by apply (kmemset_typed _ _ _ _ _ _ Hm E2).
Qed.
Lemma alloc_page_typed : ensures pmm_typed alloc_page frame_ref.
Proof.
  intros s a s' Hs E. unfold alloc_page in E. erewrite kbind_done in E by reflexivity. pose proof Hs as [[_ Hw64] Ht Hn Hh _ Hm].
  apply alloc_scan_found in E as (k & w & m & Hk & Hu & Hbel & Hw & -> & Hm' & ->); [|done|lia].
  assert (0 <= k < pmm_pages_total s) as Hk' by lia. destruct (phys_of_frame k) as [-> _]; [lia|]. split; [|exists k; split; [lia|done]].
  destruct (pmm_books s Hs) as [m0 Hinv].
  assert (pmm_inv (take_frame k w (set_pmm_mem m0 s))) as Hinv'.
  { apply take_frame_inv; [done|done|done| |done]. intros j Hj. cbn. destruct (decide (j < next_free_page s)); [apply Hh; lia|apply Hbel; lia]. }
  eapply pmm_inv_books; cbn [pmm_bitmap pmm_mem]; [|apply Forall_insert; [done|]|done].
  - replace (u32 (k + 1)) with (k + 1) by (symmetry; apply wrap_small; unfold MAX_PHYS_PAGES in *; lia). exact Hinv'.
  - apply uint_lor; [lia| |apply uint_bit_word]. by eapply Forall_lookup_1.
Qed.

(** ** Page tables *)

(** The register holds a frame, and the pointer the kernel keeps of the root table
    points to it. *)
Record mm_typed (s : mm_state pmm_state) : Prop := {
  ty_frames : pmm_typed (mm_frames s);
  ty_cr3 : frame_ref (cr3_reg s);
  ty_pgd : current_pgd s = phys_to_virt (Z.land (cr3_reg s) PTE_ADDR_MASK)
}.

Lemma uint_phys_to_virt p : uint 64 (phys_to_virt p).
Proof. by apply uint_wrap. Qed.
#[export] Hint Resolve uint_phys_to_virt : typing.

Lemma mm_mem_typed s : mm_typed s -> mem_wf (mm_mem s).
Proof. by intros [[] _ _]. Qed.
Lemma set_mm_mem_typed s m : mm_typed s -> mem_wf m -> mm_typed (set_mm_mem m s).
Proof. intros [[] ? ?] Hm. by constructor; [constructor|..]. Qed.

Lemma ld64_typed a : ensures mm_typed (ld64 a) (uint 64).
Proof. eapply ensures_mono; [apply ensures_opt|]. intros v (s & Hs & Hv). by eapply (peekn_range 8), Hv; apply mm_mem_typed. Qed.
Lemma st64_typed a v : ensures mm_typed (st64 a v) (fun _ => True).
Proof.
  apply ensures_upd. intros s s' Hs. destruct (read_list _ _ _); [|done]. intros E. apply (inj Some) in E as <-.
  apply set_mm_mem_typed; [done|]. by apply poken_wf, mm_mem_typed.
Qed.
Lemma mm_alloc_page_typed : ensures mm_typed mm_alloc_page frame_ref.
Proof. apply (ensures_zoom _ pmm_typed); [by intros s []| |apply alloc_page_typed]. intros s t Hs Ht. by destruct Hs. Qed.
Lemma invlpg_typed v : ensures mm_typed (invlpg v) (fun _ => True).
Proof. apply ensures_mod. by intros s []. Qed.
Lemma get_cr3_typed : ensures mm_typed get_cr3 frame_ref.
Proof. eapply ensures_mono; [apply ensures_gets|]. intros c (s & Hs & ->). apply Hs. Qed.
Lemma on_frames_typed {B} (m : M mem B) Q : ensures mem_wf m Q -> ensures mm_typed (zoom mm_mem set_mm_mem m) Q.
Proof. apply ensures_zoom; [apply mm_mem_typed|apply set_mm_mem_typed]. Qed.
#[export] Hint Resolve ld64_typed st64_typed mm_alloc_page_typed invlpg_typed get_cr3_typed on_frames_typed : typing.

Lemma switch_address_space_typed c : frame_ref c -> ensures mm_typed (switch_address_space c) (fun _ => True).
Proof. intros Hc s a s' [] E. injection E as _ <-. split; [by constructor|done]. Qed.
Lemma map_level_typed slot u : ensures mm_typed (map_level slot u) (uint 64).
Proof. unfold map_level. ens; auto with typing. Qed.
#[export] Hint Resolve switch_address_space_typed map_level_typed : typing.
Lemma arch_map_page_typed v p f : ensures mm_typed (arch_map_page v p f) (fun _ => True).
Proof. unfold arch_map_page. ens. Qed.
Lemma copy_kernel_half_typed o n : ensures mm_typed (copy_kernel_half o n) (fun _ => True).
Proof. unfold copy_kernel_half. ens. Qed.
#[export] Hint Resolve arch_map_page_typed copy_kernel_half_typed : typing.
Lemma create_new_address_space_typed : ensures mm_typed create_new_address_space frame_ref.
Proof. unfold create_new_address_space. ens. Qed.

Lemma clone_subtree_typed child o n i :
  (forall o n, ensures mm_typed (child o n) (fun _ => True)) -> ensures mm_typed (clone_subtree child o n i) (fun _ => True).
Proof. intros Hc. unfold clone_subtree. ens. Qed.
Lemma clone_pt_typed o n : ensures mm_typed (clone_pt o n) (fun _ => True).
Proof. unfold clone_pt. ens. Qed.
#[local] Hint Resolve clone_subtree_typed clone_pt_typed : typing.
Lemma clone_pd_typed o n : ensures mm_typed (clone_pd o n) (fun _ => True).
Proof. unfold clone_pd. ens. Qed.
#[local] Hint Resolve clone_pd_typed : typing.
Lemma clone_pdpt_typed o n : ensures mm_typed (clone_pdpt o n) (fun _ => True).
Proof. unfold clone_pdpt. ens. Qed.
#[local] Hint Resolve clone_pdpt_typed : typing.
Lemma clone_address_space_typed : ensures mm_typed clone_address_space frame_ref.
Proof. unfold clone_address_space. ens. Qed.
#[export] Hint Resolve create_new_address_space_typed clone_address_space_typed : typing.

Lemma walk_page_table_typed v : ensures mm_typed (walk_page_table v) (fun _ => True).
Proof. unfold walk_page_table. ens. Qed.
#[export] Hint Resolve walk_page_table_typed : typing.
Lemma handle_page_fault_typed stack a err : ensures mm_typed (handle_page_fault stack a err) (fun _ => True).
Proof. unfold handle_page_fault, cow_fault, fault_panic. ens. Qed.

Lemma load_segments_typed data phoff phnum :
  Forall is_byte data -> ensures mm_typed (load_segments data phoff phnum) (fun _ => True).
Proof.
  intros Hd. unfold load_segments, load_segment, load_page. ens. 
Qed.
#[export] Hint Resolve load_segments_typed : typing.

Lemma image_field_typed n off data v :
  Forall is_byte data -> image_field n off data = Some v -> uint (8 * Z.of_nat n) v.
Proof.
  intros Hd. unfold image_field. destruct (_ && _) eqn:E; [|done]. intros [= <-].
  assert (length (take n (drop (Z.to_nat off) data)) = n) as Hl by (rewrite length_take, length_drop; lia).
  rewrite <- Hl at 1. apply le_combine_uint. by apply Forall_take, Forall_drop.
Qed.
