(* ===== verification/Typing.v ===== *)
(** * The invariant of the whole kernel

    What every entry into the kernel leaves behind, whatever the caller passes and
    however calls that give up the processor are interleaved: every lock is free,
    the books of the page allocator and of the heap agree, a task has a state, a
    class with its parameters, descriptors and shared pages the kernel handed out,
    a pipe's positions are in order within its buffer, the cursor is on the screen,
    the indices of the keyboard ring are inside it, the tables and buffers have
    their sizes and memory, buffers and the disk hold bytes. *)

From S2P Require Import Prelude Memory StringLib ListHead SpinLock Slab PgTable FrameAlloc PageAlloc Paging AddrSpace VirtMem KState Sched Threads Fork Signal Ipc Ports Console Keyboard Ata FileSys Elf Syscall TypeMem.

(** The addresses the linker chose: code fits the machine word, and the array of
    the kernel heap is aligned. *)
Class LayoutTyped `{Layout} : Prop := {
  ty_isr_return : uint 64 isr_common_return;
  ty_trampoline : uint 64 thread_trampoline;
  ty_heap_base : 0 < kernel_heap_region /\ kernel_heap_region mod 16 = 0
}.

(** ** Tasks, files and pipes *)

(** Nothing in the kernel sleeps: a task can run or has ended. *)
Definition state_ok (x : Z) : Prop := x = TASK_RUNNING \/ x = TASK_ZOMBIE.
Definition flags_ok (x : Z) : Prop := x = 0 \/ x = TIF_NEED_RESCHED.
(** The class a task is in has the policy and the parameters it works with; the
    weight is a divisor in the tick. *)
Definition class_ok (c : option sched_class_id) (policy prio rt_prio weight : Z) : Prop :=
  match c with
  | Some Fair => is_rt policy = false /\ prio = DEFAULT_PRIO /\ weight = 1024
  | Some Rt => is_rt policy = true /\ prio = 50 /\ rt_prio = 50
  | _ => True
  end.

Section State.
Context `{Layout}.
Abbreviation href := (heap_ref kernel_heap_region).

Record task_typed (t : task_struct) : Prop := {
  ty_pids : uint 32 (t_pid t) /\ uint 32 (t_ppid t);
  ty_name : (length (t_name t) < 32)%nat /\ Forall is_byte (t_name t);
  ty_state : state_ok (t_state t) /\ flags_ok (t_flags t);
  ty_class : class_ok (t_sched_class t) (t_policy t) (t_prio t) (t_rt_prio t) (t_weight t);
  ty_space : frame_ref (t_cr3 t) /\ uint 64 (t_stack_start t) /\ uint 64 (t_stack_end t);
  ty_entity : uint 64 (t_exec_start t) /\ uint 64 (t_sum_exec_runtime t) /\ uint 64 (t_vruntime t);
  ty_kernel_stack : array 2048 (uint 64) (t_kernel_stack t);
  ty_fds : array 32 href (t_files t);
  ty_signals : uint 32 (t_pending_signals t) /\ array 32 (uint 64) (t_signal_handlers t);
  ty_shm : array 4 frame_ref (t_shm_pages t) /\ 0 <= t_shm_count t <= 4
}.

(** A pipe whose lock is [l]. *)
Record pipe_typed (l : Z) (p : relis_pipe) : Prop := {
  ty_buffer : array 4096 is_byte (p_buffer p);
  ty_positions : 0 <= p_read_pos p /\ p_read_pos p <= p_write_pos p /\ p_write_pos p <= 4096;
  ty_pipe_lock : p_lock p = l
}.
Definition file_typed (f : file) : Prop := uint 32 (f_pos f) /\ href (f_inode f).
Definition inode_typed (i : inode) : Prop := uint 32 (i_ino i) /\ uint 32 (i_mode i) /\ uint 32 (i_size i) /\ href (i_private i).

(** The state while the lock of the scheduler is [sl] and the lock of the pipe
    [pl], if any, is held. *)
Record k_inv (sl : Z) (pl : option Z) (s : kstate) : Prop := {
  ty_mm : mm_typed (k_mm s);
  ty_slab : slab_typed (k_slab s);
  ty_tasks : map_Forall (fun _ => task_typed) (k_tasks s);
  ty_files : map_Forall (fun _ => file_typed) (k_files s);
  ty_inodes : map_Forall (fun _ => inode_typed) (k_inodes s);
  ty_pipes : map_Forall (fun p => pipe_typed (if decide (pl = Some p) then 1 else 0)) (k_pipes s);
  ty_umem : mem_wf (k_umem s);
  ty_counts : uint 64 (k_nr_running s) /\ uint 64 (k_clock s) /\ uint 32 (k_next_pid s);
  ty_sched_lock : k_sched_lock s = sl
}.
End State.
(** Between calls every lock is free. *)
Abbreviation k_typed := (k_inv 0 None).

(** ** The operations of the kernel state *)

Section Kernel.
Context `{Layout} (sl : Z) (pl : option Z).
Abbreviation k_ok := (k_inv sl pl).

Lemma on_list_typed {B} (m : M nodes B) : ensures k_ok (on_list m) (fun _ => True).
Proof. apply (ensures_zoom _ (fun _ => True)); [done| |by intros s a s']. intros s t [] _. by constructor. Qed.
Lemma on_heap_typed {B} (m : M slab_state B) Q : ensures slab_typed m Q -> ensures k_ok (on_heap m) Q.
Proof. apply ensures_zoom; [by intros s []|]. intros s t [] Ht. by constructor. Qed.
Lemma on_paging_typed {B} (m : M (mm_state pmm_state) B) Q : ensures mm_typed m Q -> ensures k_ok (on_paging m) Q.
Proof. apply ensures_zoom; [by intros s []|]. intros s t [] Ht. by constructor. Qed.
Lemma task_get_typed {B} p (f : task_struct -> B) : ensures k_ok (task_get p f) (fun a => exists t, task_typed t /\ a = f t).
Proof.
  eapply ensures_mono; [apply ensures_opt|]. intros a (s & Hs & Ha). apply fmap_Some in Ha as (t & Ht & ->).
  exists t. split; [|done]. by apply (ty_tasks _ _ s Hs p).
Qed.
Lemma put_node_typed p n : ensures k_ok (put_node p n) (fun _ => True).
Proof. apply ensures_mod. intros s []. by constructor. Qed.
Lemma k_typed_tasks p t s : task_typed t -> k_ok s -> k_ok (set_k_tasks (<[p := t]> (k_tasks s)) s).
Proof. intros Ht []. constructor; cbn; try done. by apply map_Forall_insert_2. Qed.
Lemma task_upd_typed p f : (forall t, task_typed t -> task_typed (f t)) -> ensures k_ok (task_upd p f) (fun _ => True).
Proof.
  intros Hf. apply ensures_upd. intros s s' Hs. destruct (k_tasks s !! p) as [t|] eqn:Et; [|done]. intros E. apply (inj Some) in E as <-.
  apply k_typed_tasks; [|done]. by apply Hf, (ty_tasks _ _ s Hs p).
Qed.
Lemma k_typed_files p f s : file_typed f -> k_ok s -> k_ok (set_k_files (<[p := f]> (k_files s)) s).
Proof. intros Ht []. constructor; cbn; try done. by apply map_Forall_insert_2. Qed.
Lemma k_typed_inodes p i s : inode_typed i -> k_ok s -> k_ok (set_k_inodes (<[p := i]> (k_inodes s)) s).
Proof. intros Ht []. constructor; cbn; try done. by apply map_Forall_insert_2. Qed.
Lemma k_typed_umem m s : mem_wf m -> k_ok s -> k_ok (set_k_umem m s).
Proof. intros Hm []. by constructor. Qed.
Lemma k_typed_mm m s : mm_typed m -> k_ok s -> k_ok (set_k_mm m s).
Proof. intros Hm []. by constructor. Qed.
Lemma k_typed_current p s : k_ok s -> k_ok (set_k_current p s).
Proof. intros []. by constructor. Qed.
Lemma k_typed_tss p s : k_ok s -> k_ok (set_k_tss_rsp0 p s).
Proof. intros []. by constructor. Qed.
Lemma k_typed_next_pid p s : uint 32 p -> k_ok s -> k_ok (set_k_next_pid p s).
Proof. intros Hp []. destruct_and?. by constructor. Qed.
End Kernel.
#[export] Hint Resolve on_list_typed on_heap_typed on_paging_typed task_get_typed put_node_typed k_typed_tasks k_typed_files
  k_typed_inodes k_typed_umem k_typed_current k_typed_tss k_typed_next_pid : typing.

(** A task that differs from a well-formed one in a field. *)
Ltac retask := intros ? []; destruct_and?; constructor; cbn; split_and?; auto with typing.

Lemma uint_const w n : bool_decide (0 <= n < 2 ^ w) = true -> uint w n.
Proof. apply bool_decide_eq_true_1. Qed.
Lemma state_running : state_ok TASK_RUNNING.
Proof. by left. Qed.
Lemma state_zombie : state_ok TASK_ZOMBIE.
Proof. by right. Qed.
Lemma flags_set x : flags_ok x -> flags_ok (Z.lor x TIF_NEED_RESCHED).
Proof. intros [->| ->]; by right. Qed.
Lemma flags_clear x : flags_ok x -> flags_ok (Z.land x (cnot 32 TIF_NEED_RESCHED)).
Proof. intros [->| ->]; by left. Qed.
#[export] Hint Resolve state_running state_zombie flags_set flags_clear : typing.
#[export] Hint Extern 2 (uint _ _) => (apply uint_const; reflexivity) : typing.
#[export] Hint Extern 3 (ensures (k_inv _ _) (task_upd _ _) _) => (apply task_upd_typed; retask) : typing.

(** An allocation from the kernel heap. *)
Lemma heap_typed `{LayoutTyped} sl pl size :
  bool_decide (0 < size < 2 ^ 32) = true -> ensures (k_inv sl pl) (on_heap (kmalloc kernel_heap_region size)) (heap_ref kernel_heap_region).
Proof.
  intros Hs%bool_decide_eq_true_1. destruct ty_heap_base. apply on_heap_typed, kmalloc_typed; [done|done|lia|].
  unfold size_ok, kernel_heap_size. lia.
Qed.
#[export] Hint Extern 1 (ensures (k_inv _ _) (on_heap (kmalloc _ _)) _) => (apply heap_typed; reflexivity) : typing.

(** A step inside a locked region. *)
Ltac inside := eapply moves_bind; [|intros ? ?; cbv beta in *].

Section Scheduler.
Context `{LayoutTyped}.

Lemma nr_running_add_typed sl pl d : ensures (k_inv sl pl) (nr_running_add d) (fun _ => True).
Proof. apply ensures_mod. intros s []. destruct_and?. constructor; cbn; split_and?; auto with typing. Qed.

(** The lock of the scheduler is taken and released. *)
Lemma sched_lock_typed pl : moves (k_inv 0 pl) sched_spin_lock (k_inv 1 pl) (fun _ => True).
Proof.
  intros s a s' []. unfold sched_spin_lock, spin_lock. destruct (k_sched_lock s =? 0); [|done]. intros E. injection E as _ <-.
  split; [by constructor|done].
Qed.
Lemma sched_unlock_typed pl : moves (k_inv 1 pl) sched_spin_unlock (k_inv 0 pl) (fun _ => True).
Proof. intros s a s' [] E. injection E as _ <-. split; [by constructor|done]. Qed.
#[local] Hint Resolve nr_running_add_typed : typing.

Lemma task_class_typed sl pl p : ensures (k_inv sl pl) (task_class p) (fun c => exists id, c = class_ops id).
Proof. unfold task_class. ens. by eexists. Qed.
#[local] Hint Resolve task_class_typed : typing.
Lemma class_enqueue_typed sl pl p : ensures (k_inv sl pl) (class_enqueue p) (fun _ => True).
Proof.
  unfold class_enqueue. eapply ensures_bind; [apply task_class_typed|]. intros c [id ->]; destruct id; cbn [enqueue_task class_ops];
    unfold enqueue_task_fair, enqueue_task_rt; ens.
Qed.
Lemma pick_next_task_typed sl pl id : ensures (k_inv sl pl) (pick_next_task (class_ops id)) (fun _ => True).
Proof.
  destruct id; cbn [pick_next_task class_ops]; unfold pick_next_task_fair, pick_next_task_rt, pick_next_task_idle; ens.
Qed.
#[local] Hint Resolve class_enqueue_typed pick_next_task_typed : typing.

Lemma switch_to_typed sl pl p n : ensures (k_inv sl pl) (switch_to p n) (fun _ => True).
Proof. apply ensures_mod. intros s []. by constructor. Qed.

Lemma ensures_choice {S A} (P : S -> Prop) (b : bool) (m1 m2 : M S A) Q : ensures P m1 Q -> ensures P m2 Q -> ensures P (if b then m1 else m2) Q.
Proof. by destruct b. Qed.

Lemma schedule_typed : ensures k_typed schedule (fun _ => True).
Proof.
  unfold schedule, __schedule. inside; [apply sched_lock_typed|]. inside; [ens_call|]. inside; [apply pick_next_task_typed|].
  inside; [apply (ensures_choice _ _ _ _ (fun _ => True)); [apply pick_next_task_typed|by apply ensures_ret]|].
  inside; [apply (ensures_choice _ _ _ _ (fun _ => True)); [apply pick_next_task_typed|by apply ensures_ret]|]. apply moves_choice.
  - inside; [ens_call|]. inside; [ens_call|]. apply sched_unlock_typed.
  - inside; [apply (ensures_mod (k_inv 1 None)); auto with typing|]. inside; [ens_call|].
    inside; [apply (ensures_mod (k_inv 1 None)); auto with typing|]. inside; [ens_call|]. inside; [ens_call|].
    destruct select (exists _, task_typed _ /\ _ = t_cr3 _) as (t & Ht & ->).
    inside; [apply (ensures_choice _ _ _ _ (fun _ => True)); [by apply ensures_ret|apply on_paging_typed, switch_address_space_typed, (ty_space t Ht)]|].
    inside; [apply sched_unlock_typed|]. apply switch_to_typed.
Qed.
#[local] Hint Resolve schedule_typed : typing.

(** *** Code that may give up the processor *)

Inductive flow_typed {B} (Q : B -> Prop) : flow B -> Prop :=
| ft_returned b : Q b -> flow_typed Q (Returned b)
| ft_suspended k :
    (forall s y s', k_typed s -> k s = Done (y, s') -> k_typed s') ->
    (forall s y s', k_typed s -> k s = Done (y, s') -> flow_typed Q y) -> flow_typed Q (Suspended k).

Lemma suspended_typed {B} (Q : B -> Prop) (k : M kstate (flow B)) : ensures k_typed k (flow_typed Q) -> flow_typed Q (Suspended k).
Proof. intros Hk. constructor; intros s y s' Hs E; by apply (Hk s y s'). Qed.
Lemma reschedule_typed {B} (Q : B -> Prop) (k : M kstate (flow B)) :
  ensures k_typed k (flow_typed Q) -> ensures k_typed (reschedule k) (flow_typed Q).
Proof. intros Hk. unfold reschedule. ens_step. ens_step; [apply schedule_typed|]. ens_step. ens_step; [done|]. by apply ensures_ret, suspended_typed. Qed.

Lemma scheduler_tick_typed : ensures k_typed scheduler_tick (fun _ => True).
Proof.
  unfold scheduler_tick. ens_step; [ens_step; destruct select (k_typed _); destruct_and?; constructor; cbn; split_and?; auto with typing|].
  ens_step. eapply ensures_bind; [apply task_class_typed|]. intros c [id ->]; destruct id; cbn [task_tick class_ops];
    unfold task_tick_fair, task_tick_rt, task_tick_idle; ens.
Qed.
Lemma wake_up_process_typed p : ensures k_typed (wake_up_process p) (fun _ => True).
Proof.
  unfold wake_up_process. inside; [apply sched_lock_typed|]. apply (moves_keep _ _ (fun _ => True)); [ens|]. intros _ _. apply sched_unlock_typed.
Qed.
End Scheduler.
#[export] Hint Resolve class_enqueue_typed schedule_typed wake_up_process_typed : typing.

(** ** fork, signals, pipes and shared pages *)

Definition regs_typed (r : registers) : Prop := Forall (uint 64) (reg_words r).

Lemma set_rax_typed x r : uint 64 x -> regs_typed r -> regs_typed (set_rax x r).
Proof. intros Hx. unfold regs_typed, reg_words. rewrite !Forall_cons. cbn. tauto. Qed.
Lemma set_rip_typed x r : uint 64 x -> regs_typed r -> regs_typed (set_rip x r).
Proof. intros Hx. unfold regs_typed, reg_words. rewrite !Forall_cons. cbn. tauto. Qed.
Lemma exec_regs_typed e r : uint 64 e -> regs_typed r -> regs_typed (exec_regs e r).
Proof.
  intros He. unfold regs_typed, reg_words. rewrite !Forall_cons. cbn. intros. destruct_and?. split_and?; auto with typing.
Qed.
Lemma array_inserts n T l i x : array n T l -> Forall T x -> array n T (list_inserts i x l).
Proof.
  intros Hl Hx. revert i. induction Hx as [|b x Hb _ IH]; intros i; cbn [list_inserts]; [done|]. by apply array_insert.
Qed.
Lemma reg_words_typed r : regs_typed r -> Forall (uint 64) (reg_words r).
Proof. done. Qed.
#[export] Hint Resolve reg_words_typed set_rax_typed set_rip_typed exec_regs_typed array_inserts : typing.

Section Ipc.
Context `{LayoutTyped}.
#[local] Hint Resolve ty_isr_return ty_trampoline : typing.

Lemma task_stack_typed ks t : array 2048 (uint 64) ks -> task_typed t -> task_typed (set_t_kernel_stack ks t).
Proof. intros Hk. revert t. retask. Qed.
Lemma push_word_typed sl pl p stack v : uint 64 v -> ensures (k_inv sl pl) (push_word p stack v) (fun _ => True).
Proof. intros Hv. unfold push_word. ens. Qed.
Lemma push_words_typed sl pl p stack vs : Forall (uint 64) vs -> ensures (k_inv sl pl) (push_words p stack vs) (fun _ => True).
Proof.
  intros Hv. revert stack. induction Hv as [|v vs Hv _ IH]; intros stack; cbn [push_words]; [by apply ensures_ret|].
  eapply ensures_bind; [by apply push_word_typed|]. intros st _. apply IH.
Qed.

Lemma copy_task_typed sl pl c p : ensures (k_inv sl pl) (copy_task c p) (fun _ => True).
Proof. unfold copy_task. ens. destruct select (exists _, task_typed _ /\ _) as (t & Ht & ->). auto with typing. Qed.
Lemma fork_stack_typed sl pl c regs : regs_typed regs -> ensures (k_inv sl pl) (fork_stack c regs) (fun _ => True).
Proof.
  intros Hr. unfold fork_stack. cbv zeta. ens_step; [ens|].
  ens_step; [apply task_upd_typed; intros t Ht; apply task_stack_typed; [apply array_inserts; [apply Ht|done]|done]|]. ens_step; [ens|].
  eapply ensures_bind; [apply push_words_typed; repeat (apply List.Forall_cons || apply List.Forall_nil); auto with typing|]. intros st _. ens.
Qed.
#[local] Hint Resolve copy_task_typed fork_stack_typed : typing.

Lemma sys_fork_typed regs : regs_typed regs -> ensures k_typed (sys_fork regs) (fun _ => True).
Proof.
  intros Hr. unfold sys_fork. ens.
  - destruct select (exists _, k_typed _ /\ _ = k_next_pid _) as (s & Hs & ->). destruct (ty_counts _ _ s Hs) as (_ & _ & Hp). auto with typing.
  - destruct select (exists _, task_typed _ /\ _) as (t & Ht & ->). destruct (ty_pids t Ht). auto with typing.
Qed.

(** *** Signals *)

Lemma find_task_typed fuel pos pid : ensures k_typed (find_task fuel pos pid) (fun _ => True).
Proof. revert pos. induction fuel as [|f IH]; intros pos; cbn [find_task]; ens; apply IH. Qed.
#[local] Hint Resolve find_task_typed : typing.
Lemma sys_kill_typed fuel pid sig : ensures k_typed (sys_kill fuel pid sig) (fun _ => True).
Proof. unfold sys_kill, MAX_SIGNALS. ens. Qed.
Lemma sys_sigaction_typed sig handler : uint 64 handler -> ensures k_typed (sys_sigaction sig handler) (fun _ => True).
Proof. intros Hh. unfold sys_sigaction. ens. Qed.

Lemma terminate_typed {B} (Q : B -> Prop) k : ensures k_typed k (flow_typed Q) -> ensures k_typed (terminate k) (flow_typed Q).
Proof. intros Hk. unfold terminate. ens_step. ens_step; [ens|]. by apply reschedule_typed. Qed.
Lemma signal_action_typed sig regs next :
  regs_typed regs -> ensures k_typed next (flow_typed regs_typed) -> ensures k_typed (signal_action sig regs next) (flow_typed regs_typed).
Proof.
  intros Hr Hn. unfold signal_action. ens_step. ens_step. destruct select (exists _, task_typed _ /\ _) as (t & Ht & ->).
  destruct (t_signal_handlers t !! Z.to_nat sig) as [h|] eqn:Eh; [|apply ensures_fault].
  apply ensures_choice; [apply ensures_choice; [by apply terminate_typed|done]|]. apply ensures_ret. constructor.
  destruct (ty_signals t Ht) as [_ Ha]. apply set_rip_typed; [|done]. by eapply array_lookup.
Qed.
Lemma deliver_loop_typed sigs regs : regs_typed regs -> ensures k_typed (deliver_loop sigs regs) (flow_typed regs_typed).
Proof.
  intros Hr. induction sigs as [|sig sigs IH]; cbn [deliver_loop]; [by apply ensures_ret; constructor|].
  ens_step. ens_step. apply ensures_choice; [|done]. ens_step; [ens|].
  apply ensures_choice; [apply terminate_typed|]; by apply signal_action_typed.
Qed.
Lemma deliver_signals_typed regs : regs_typed regs -> ensures k_typed (deliver_signals regs) (flow_typed regs_typed).
Proof.
  intros Hr. unfold deliver_signals. ens_step. ens_step. apply ensures_choice; [by apply ensures_ret; constructor|by apply deliver_loop_typed].
Qed.

(** *** Pipes and shared pages *)

(** The pipe [p] while its lock is held. *)
Lemma k_typed_pipe sl p x s :
  k_inv sl (Some p) s -> k_pipes s !! p = Some x -> pipe_typed 1 x.
Proof. intros Hs Hx. pose proof (ty_pipes _ _ s Hs p x Hx) as Ht. cbv beta in Ht. by rewrite decide_True in Ht. Qed.
Lemma pipe_get_typed {B} sl p (f : relis_pipe -> B) :
  ensures (k_inv sl (Some p)) (pipe_get p f) (fun a => exists x, pipe_typed 1 x /\ a = f x).
Proof.
  eapply ensures_mono; [apply ensures_opt|]. intros a (s & Hs & Ha). apply fmap_Some in Ha as (x & Hx & ->).
  exists x. split; [|done]. by eapply k_typed_pipe.
Qed.
Lemma k_typed_set_pipe sl p x s :
  k_inv sl (Some p) s -> pipe_typed 1 x -> k_inv sl (Some p) (set_k_pipes (<[p := x]> (k_pipes s)) s).
Proof. intros [] Hx. constructor; cbn; try done. apply map_Forall_insert_2; [|done]. by rewrite decide_True. Qed.

Lemma k_typed_new_pipe p x s : pipe_typed 0 x -> k_typed s -> k_typed (set_k_pipes (<[p := x]> (k_pipes s)) s).
Proof. intros Hx []. constructor; cbn; try done. apply map_Forall_insert_2; [|done]. by rewrite decide_False. Qed.

Lemma pipe_lock_typed sl p : moves (k_inv sl None) (pipe_lock p) (k_inv sl (Some p)) (fun _ => True).
Proof.
  intros s a s' Hs. unfold pipe_lock, pipe_get. intros (l & s1 & [El ->]%kopt_inv & E)%kbind_inv. destruct (l =? 0); [|done].
  unfold pipe_upd, kupd in E. destruct (k_pipes s !! p) as [x|] eqn:Ex; [|done]. injection E as _ <-. split; [|done].
  pose proof (ty_pipes _ _ s Hs p x Ex) as Hx. destruct Hs as [? ? ? ? ? Hp ? ? ?]. constructor; cbn; try done.
  intros q y Hq. apply lookup_insert_Some in Hq as [[-> <-]|[Hne Hq]].
  - rewrite decide_True by done. by destruct Hx.
  - rewrite decide_False by congruence. specialize (Hp q y Hq). cbv beta in Hp. by rewrite decide_False in Hp by done.
Qed.
Lemma pipe_unlock_typed sl p : moves (k_inv sl (Some p)) (pipe_unlock p) (k_inv sl None) (fun _ => True).
Proof.
  intros s a s' Hs E. unfold pipe_unlock, pipe_upd, kupd in E. destruct (k_pipes s !! p) as [x|] eqn:Ex; [|done]. injection E as _ <-.
  split; [|done]. pose proof (k_typed_pipe sl p x s Hs Ex) as Hx. destruct Hs as [? ? ? ? ? Hp ? ? ?]. constructor; cbn; try done.
  intros q y Hq. apply lookup_insert_Some in Hq as [[-> <-]|[Hne Hq]].
  - by destruct Hx.
  - specialize (Hp q y Hq). cbv beta in Hp. by rewrite decide_False in Hp by congruence.
Qed.
Lemma file_pipe_typed sl pl f : ensures (k_inv sl pl) (file_pipe f) (fun _ => True).
Proof. unfold file_pipe. ens. Qed.
#[local] Hint Resolve file_pipe_typed : typing.

(** Bytes copied into the caller's buffer. *)
Lemma user_write_typed sl pl buf n bytes : Forall is_byte bytes ->
  ensures (k_inv sl pl) (kupd (fun s => match read_list (k_umem s) buf n with
    | Some _ => Some (set_k_umem (write_list (k_umem s) buf bytes) s) | None => None end)) (fun _ => True).
Proof.
  intros Hb. apply ensures_upd. intros s s' Hs. destruct (read_list _ _ _); [|done]. intros E. apply (inj Some) in E as <-.
  apply k_typed_umem; [|done]. apply write_list_wf; [apply (ty_umem _ _ s Hs)|done].
Qed.
Lemma user_read_typed sl pl buf n : ensures (k_inv sl pl) (kopt (fun s => read_list (k_umem s) buf n)) (array n is_byte).
Proof. eapply ensures_mono; [apply ensures_opt|]. intros l (s & Hs & Hl). eapply read_list_bytes; [apply (ty_umem _ _ s Hs)|exact Hl]. Qed.

(** Inside the locked region of a pipe: its positions and buffer in a given state. *)
Definition pipe_is (sl p r w : Z) (s : kstate) : Prop :=
  k_inv sl (Some p) s /\ exists x, k_pipes s !! p = Some x /\ p_read_pos x = r /\ p_write_pos x = w.
Lemma pipe_is_range sl p r w s : pipe_is sl p r w s -> 0 <= r /\ r <= w /\ w <= 4096.
Proof. intros (Hs & x & Hx & <- & <-). by destruct (k_typed_pipe sl p x s Hs Hx). Qed.
Lemma pipe_write_pos_typed {B} sl p (k : Z -> M kstate B) P' Q :
  (forall r w, 0 <= r /\ r <= w /\ w <= 4096 -> moves (pipe_is sl p r w) (k w) P' Q) ->
  moves (k_inv sl (Some p)) (let* w := pipe_get p p_write_pos in k w) P' Q.
Proof.
  intros Hk s b s' Hs E. unfold pipe_get in E. apply kbind_inv in E as (w & s1 & E1 & E). apply kopt_inv in E1 as [Ew ->].
  apply fmap_Some in Ew as (x & Hx & ->). assert (pipe_is sl p (p_read_pos x) (p_write_pos x) s) as Hp by (split; [done|by exists x]).
  by apply (Hk _ _ (pipe_is_range _ _ _ _ _ Hp) s).
Qed.
Lemma pipe_positions_typed {B} sl p (k : Z -> Z -> M kstate B) P' Q :
  (forall r w, 0 <= r /\ r <= w /\ w <= 4096 -> moves (pipe_is sl p r w) (k r w) P' Q) ->
  moves (k_inv sl (Some p)) (let* r := pipe_get p p_read_pos in let* w := pipe_get p p_write_pos in k r w) P' Q.
Proof.
  intros Hk s b s' Hs E. unfold pipe_get in E. apply kbind_inv in E as (r & s1 & E1 & E). apply kopt_inv in E1 as [Er ->].
  apply kbind_inv in E as (w & s2 & E2 & E). apply kopt_inv in E2 as [Ew ->].
  apply fmap_Some in Er as (x & Hx & ->). rewrite Hx in Ew. injection Ew as <-.
  assert (pipe_is sl p (p_read_pos x) (p_write_pos x) s) as Hp by (split; [done|by exists x]).
  by apply (Hk _ _ (pipe_is_range _ _ _ _ _ Hp) s).
Qed.

Lemma copy_out_typed sl p r w off n buf : ensures (pipe_is sl p r w) (copy_out p off n buf) (fun _ => True).
Proof.
  intros s a s' [Hs Hx] E. unfold copy_out, pipe_get in E. apply kbind_inv in E as (l & s1 & E1 & E). apply kopt_inv in E1 as [El ->].
  apply fmap_Some in El as (y & Hy & ->). destruct (_ <=? _); [|done].
  pose proof (k_typed_pipe sl p y s Hs Hy) as [[_ Hb] _ _].
  destruct (user_write_typed sl (Some p) buf (Z.to_nat n) (take (Z.to_nat n) (drop (Z.to_nat off) (p_buffer y)))) with s a s' as [Hs' _];
    [by apply Forall_take, Forall_drop|done|exact E|]. split; [|done]. split; [done|].
  unfold kupd in E. destruct (read_list _ _ _); [|done]. injection E as _ <-. exact Hx.
Qed.
Lemma copy_in_typed sl p r w n buf : 0 <= n -> ensures (pipe_is sl p r w) (copy_in p w n buf) (fun _ => True).
Proof.
  intros Hn s a s' [Hs (x & Hx & Hr & Hw)] E. unfold copy_in, pipe_get in E. apply kbind_inv in E as (l & s1 & E1 & E). apply kopt_inv in E1 as [El ->].
  apply fmap_Some in El as (y & Hy & ->). rewrite Hx in Hy. injection Hy as <-. pose proof (k_typed_pipe sl p x s Hs Hx) as [[Hl Hb] Hpos Hlk].
  destruct (Z.leb_spec (w + n) (Z.of_nat (length (p_buffer x)))); [|done]. apply kbind_inv in E as (bytes & s1 & E1 & E).
  destruct (user_read_typed sl (Some p) buf (Z.to_nat n) s bytes s1 Hs E1) as [_ [Hlb Hbb]]. apply kopt_inv in E1 as [_ ->].
  unfold pipe_upd, kupd in E. rewrite Hx in E. injection E as _ <-. split; [|done]. split.
  - apply k_typed_set_pipe; [done|]. constructor; cbn; try done. split.
    + rewrite !length_app, length_take, length_drop. lia.
    + rewrite !Forall_app. split_and!; [by apply Forall_take|done|by apply Forall_drop].
  - eexists. split; [apply lookup_insert_eq|]. done.
Qed.
Lemma set_read_pos_typed sl p r w r' :
  0 <= r' <= w -> moves (pipe_is sl p r w) (pipe_upd p (set_p_read_pos r')) (k_inv sl (Some p)) (fun _ => True).
Proof.
  intros Hr s a s' [Hs (x & Hx & _ & Hw)] E. unfold pipe_upd, kupd in E. rewrite Hx in E. injection E as _ <-. split; [|done].
  apply k_typed_set_pipe; [done|]. destruct (k_typed_pipe sl p x s Hs Hx) as [? (? & ? & ?) ?]. constructor; cbn; [done|split_and!; lia|done].
Qed.
Lemma set_write_pos_typed sl p r w w' :
  w <= w' <= 4096 -> moves (pipe_is sl p r w) (pipe_upd p (set_p_write_pos w')) (k_inv sl (Some p)) (fun _ => True).
Proof.
  intros Hr s a s' [Hs (x & Hx & _ & Hw)] E. unfold pipe_upd, kupd in E. rewrite Hx in E. injection E as _ <-. split; [|done].
  apply k_typed_set_pipe; [done|]. destruct (k_typed_pipe sl p x s Hs Hx) as [? (? & ? & ?) ?]. constructor; cbn; [done|split_and!; lia|done].
Qed.
Lemma pipe_is_forget {B} sl p r w (m : M kstate B) P' Q : moves (k_inv sl (Some p)) m P' Q -> moves (pipe_is sl p r w) m P' Q.
Proof. intros Hm s a s' [Hs _]. by apply Hm. Qed.

Lemma pipe_read_typed fuel f buf count : uint 64 count -> ensures k_typed (pipe_read fuel f buf count) (flow_typed (fun _ => True)).
Proof.
  intros [Hc _]. unfold pipe_read. ens_step. generalize a as p. induction fuel as [|n IH]; intros p; cbn [pipe_read_loop]; [apply ensures_spin|].
  inside; [apply pipe_lock_typed|]. apply pipe_positions_typed. intros r w Hrw. apply moves_choice.
  - cbv zeta. rewrite (wrap_small 32 (w - r)) by lia. set (c := if w - r >? count then count else w - r).
    assert (0 <= c <= w - r) as Hcr by (unfold c; destruct (Z.gtb_spec (w - r) count); lia).
    inside; [apply copy_out_typed|]. rewrite wrap_small by lia. inside; [apply set_read_pos_typed; lia|].
    inside; [apply pipe_unlock_typed|]. apply ensures_ret. by constructor.
  - apply pipe_is_forget. inside; [apply pipe_unlock_typed|]. apply reschedule_typed, IH.
Qed.
Lemma pipe_write_typed f buf count : uint 64 count -> ensures k_typed (pipe_write f buf count) (fun _ => True).
Proof.
  intros [Hc _]. unfold pipe_write. inside; [ens_call|]. rename a into p. inside; [apply (pipe_lock_typed 0)|].
  apply pipe_write_pos_typed. intros r w Hrw. cbv zeta. rewrite (wrap_small 32 (4096 - w)) by lia.
  set (c := if count <? 4096 - w then count else 4096 - w).
  assert (0 <= c <= 4096 - w) as Hcr by (unfold c; destruct (Z.ltb_spec count (4096 - w)); lia).
  inside; [apply copy_in_typed; lia|]. rewrite wrap_small by lia. inside; [apply set_write_pos_typed; lia|].
  inside; [apply pipe_unlock_typed|]. by apply ensures_ret.
Qed.

Lemma set_file_typed sl pl t fd f : heap_ref kernel_heap_region f -> ensures (k_inv sl pl) (set_file t fd f) (fun _ => True).
Proof. intros Hf. apply task_upd_typed. intros x []. constructor; cbn; try done. by apply array_insert. Qed.
#[local] Hint Resolve set_file_typed : typing.
Lemma install_ends_typed files i rfd r w :
  heap_ref kernel_heap_region r -> heap_ref kernel_heap_region w -> ensures k_typed (install_ends files i rfd r w) (fun _ => True).
Proof. intros Hr Hw. revert i rfd. induction files as [|x files IH]; intros i rfd; cbn [install_ends]; ens. Qed.
Lemma store_int_typed a v : ensures k_typed (store_int a v) (fun _ => True).
Proof. apply (ensures_zoom _ mem_wf); [by intros s []| |apply writel_typed]. intros s m Hs Hm. by apply k_typed_umem. Qed.
Lemma new_file_typed sl pl fops priv :
  heap_ref kernel_heap_region priv -> ensures (k_inv sl pl) (new_file fops priv) (heap_ref kernel_heap_region).
Proof.
  intros Hp. unfold new_file, store_file, store_inode. ens; [apply k_typed_files|apply k_typed_inodes]; try done; unfold file_typed, inode_typed; cbn;
    split_and?; auto with typing.
Qed.
#[local] Hint Resolve store_int_typed new_file_typed : typing.

(** *** Threads *)

Lemma set_task_name_typed sl pl p name : Forall is_byte name -> ensures (k_inv sl pl) (set_task_name p name) (fun _ => True).
Proof.
  intros Hn. unfold set_task_name. destruct (Nat.ltb_spec (length name) 32); [|apply ensures_fault].
  apply task_upd_typed. intros t []. by constructor.
Qed.
Lemma zero_task_typed : task_typed zero_task.
Proof.
  constructor; cbn [t_pid t_ppid t_name t_state t_flags t_cr3 t_stack_start t_stack_end t_exec_start t_sum_exec_runtime t_vruntime t_weight t_policy
    t_prio t_rt_prio t_sched_class t_kernel_stack t_files t_pending_signals t_signal_handlers t_shm_pages t_shm_count zero_task class_ok];
    split_and?; auto with typing; try lia; [simpl; lia|by left|by left| ].
  by apply (array_replicate 2048 (uint 64) 0).
Qed.
Lemma put_task_typed sl pl p t : task_typed t -> ensures (k_inv sl pl) (put_task p t) (fun _ => True).
Proof. intros Ht. unfold put_task. ens. Qed.
Lemma task_setup_stdio_typed sl pl t : ensures (k_inv sl pl) (task_setup_stdio t) (fun _ => True).
Proof. unfold task_setup_stdio. ens. Qed.
#[local] Hint Resolve set_task_name_typed put_task_typed zero_task_typed task_setup_stdio_typed : typing.

(** The record of a new thread. *)
Lemma thread_task_typed p pid name fn arg policy cr3 :
  uint 32 pid -> (length name < 32)%nat -> Forall is_byte name -> frame_ref cr3 -> task_typed (thread_task p pid name fn arg policy cr3).
Proof.
  intros Hpid Hl Hn Hc. unfold thread_task. constructor; cbn [t_pid t_ppid t_name t_state t_flags t_cr3 t_stack_start t_stack_end t_exec_start
    t_sum_exec_runtime t_vruntime t_weight t_policy t_prio t_rt_prio t_sched_class t_kernel_stack t_files t_pending_signals t_signal_handlers
    t_shm_pages t_shm_count]; split_and?; auto with typing; try lia; [by left|by destruct (is_rt policy) eqn:E|].
  unfold thread_stack. repeat (apply array_insert; [|auto with typing]). by apply (array_replicate 2048 (uint 64) 0).
Qed.
Lemma init_thread_name s p name fn arg policy u s' : init_thread p name fn arg policy s = Done (u, s') -> (length name < 32)%nat.
Proof.
  unfold init_thread, set_task_name. intros E. do 3 apply kbind_inv in E as (? & ? & _ & E). apply kbind_inv in E as (? & ? & E & _).
  by destruct (Nat.ltb_spec (length name) 32).
Qed.
Lemma thread_record_typed {B} sl pl p name fn arg policy (rest : M kstate B) P' Q :
  Forall is_byte name -> moves (k_inv sl pl) rest P' Q ->
  moves (k_inv sl pl) (put_task p zero_task;;; init_thread p name fn arg policy;;; rest) P' Q.
Proof.
  intros Hn Hrest s b s' Hs E. destruct (put_task_typed sl pl p zero_task zero_task_typed s tt _ Hs (put_task_done p zero_task s)) as [Hs1 _].
  erewrite kbind_done in E by apply put_task_done. apply kbind_inv in E as ([] & s2 & E2 & E). pose proof (init_thread_name _ _ _ _ _ _ _ _ E2) as Hl.
  set (h := add_task_nodes _ _ _ _ _) in *. change (set_k_nodes h (set_k_tasks ?x s)) with (set_k_tasks x (set_k_nodes h s)) in E2.
  change (k_tasks s) with (k_tasks (set_k_nodes h s)) in E2. rewrite init_thread_spec in E2 by done. injection E2 as <-.
  eapply Hrest; [|exact E]. destruct (ty_counts _ _ s Hs) as (_ & _ & Hpid). apply k_typed_next_pid; [auto with typing|].
  apply (k_typed_tasks sl pl p _ (set_k_nodes h s)); [apply thread_task_typed; [done|done|done|apply (ty_mm _ _ s Hs)]|]. destruct Hs. by constructor.
Qed.
Lemma kernel_thread_typed name fn arg policy : Forall is_byte name -> ensures k_typed (kernel_thread name fn arg policy) (fun _ => True).
Proof.
  intros Hn. unfold kernel_thread. inside; [apply sched_lock_typed|]. inside; [by apply heap_typed|]. apply moves_choice.
  - inside; [apply sched_unlock_typed|]. by apply ensures_ret.
  - apply thread_record_typed; [done|]. inside; [apply task_setup_stdio_typed|]. inside; [apply class_enqueue_typed|].
    inside; [apply on_list_typed|]. inside; [apply sched_unlock_typed|]. ens_call.
Qed.
Lemma sched_init_typed : ensures k_typed sched_init (fun _ => True).
Proof.
  assert (Forall is_byte swapper_name) as Hn by (repeat (apply List.Forall_cons; [unfold is_byte; lia|]); apply List.Forall_nil).
  unfold sched_init. ens; destruct select (k_typed _); destruct_and?; constructor; cbn; split_and?; auto with typing.
Qed.

Lemma sys_pipe_typed fds : ensures k_typed (sys_pipe fds) (fun _ => True).
Proof.
  unfold sys_pipe. ens_step. ens_step.
  - ens. apply k_typed_new_pipe; [|done]. constructor; cbn [p_buffer p_read_pos p_write_pos p_lock]; [by apply array_replicate|lia|done].
  - ens_step. ens_step. ens_step. ens_step. eapply ensures_bind; [by apply install_ends_typed|]. intros [rfd wfd] _. ens.
Qed.
Lemma sys_shmget_typed size : ensures k_typed (sys_shmget size) (fun _ => True).
Proof.
  unfold sys_shmget, MAX_SHM_REGIONS. ens_step. ens_step. destruct select (exists _, task_typed _ /\ _) as (t & Ht & ->).
  destruct (Z.geb_spec (t_shm_count t) 4); [by apply ensures_ret|]. destruct (ty_shm t Ht) as [_ Hc]. ens.
  apply task_upd_typed. intros x []. destruct_and?. constructor; cbn; split_and?; auto with typing. lia.
Qed.
Lemma sys_shmat_typed id : ensures k_typed (sys_shmat id) (fun _ => True).
Proof. unfold sys_shmat. ens. Qed.
End Ipc.
#[export] Hint Resolve sys_fork_typed sys_kill_typed sys_sigaction_typed sys_pipe_typed sys_shmget_typed sys_shmat_typed
  pipe_write_typed set_file_typed user_write_typed user_read_typed : typing.

(** ** The disk and the file systems *)

Definition ata_typed (d : ata) : Prop := map_Forall (fun _ => array 512 is_byte) (ata_disk d).
Record rinode_typed (r : relisfs_inode) : Prop := {
  ty_ri : uint 32 (ri_used r) /\ uint 32 (ri_size r) /\ uint 32 (ri_direct r);
  ty_ri_name : array 64 is_byte (ri_name r)
}.
Definition dentry_typed `{Layout} (d : dentry) : Prop :=
  (length (d_name d) < 64)%nat /\ Forall is_byte (d_name d) /\ (length (d_children d) <= 32)%nat /\ heap_ref kernel_heap_region (d_inode d).
Record fs_typed `{Layout} (s : fstate) : Prop := {
  ty_k : k_typed (fs_k s);
  ty_ata : ata_typed (fs_ata s);
  ty_block : array 512 is_byte (block_buf s);
  ty_rinodes : map_Forall (fun _ => rinode_typed) (fs_rinodes s);
  ty_dentries : map_Forall (fun _ => dentry_typed) (fs_dentries s)
}.

Lemma sector_typed d lba : ata_typed d -> array 512 is_byte (sector d lba).
Proof.
  intros Hd. unfold sector. destruct (ata_disk d !! lba) as [l|] eqn:E; [by apply (Hd lba)|]. by apply array_replicate.
Qed.
Lemma ata_outb_typed p v : ensures ata_typed (ata_outb p v) (fun _ => True).
Proof. by apply ensures_mod. Qed.
Lemma ata_inb_typed : ensures ata_typed ata_inb_status (fun _ => True).
Proof. intros d a d' Hd. unfold ata_inb_status. destruct (ata_status d); by intros [= <- <-]. Qed.
#[export] Hint Resolve ata_outb_typed ata_inb_typed : typing.
Lemma bsy_loop_typed t : ensures ata_typed (bsy_loop t) (fun _ => True).
Proof. induction t as [|t IH]; cbn [bsy_loop]; ens. Qed.
Lemma drq_loop_typed t : ensures ata_typed (drq_loop t) (fun _ => True).
Proof. induction t as [|t IH]; cbn [drq_loop]; ens. Qed.
Lemma ata_command_typed lba cmd : ensures ata_typed (ata_command lba cmd) (fun _ => True).
Proof. unfold ata_command. ens. Qed.
Lemma ata_wait_bsy_typed : ensures ata_typed ata_wait_bsy (fun _ => True).
Proof. apply bsy_loop_typed. Qed.
Lemma ata_wait_drq_typed : ensures ata_typed ata_wait_drq (fun _ => True).
Proof. apply drq_loop_typed. Qed.
#[export] Hint Resolve ata_command_typed ata_wait_bsy_typed ata_wait_drq_typed : typing.

Lemma ata_read_block_typed lba :
  ensures ata_typed (ata_read_block lba) (fun r => match r with Some l => array 512 is_byte l | None => True end).
Proof.
  unfold ata_read_block, ata_insw. ens. destruct select (exists _, ata_typed _ /\ _) as (d & Hd & ->). by apply sector_typed.
Qed.
Lemma ata_write_block_typed lba buf : array 512 is_byte buf -> ensures ata_typed (ata_write_block lba buf) (fun _ => True).
Proof. intros Hb. unfold ata_write_block, ata_outsw. ens. by apply map_Forall_insert_2. Qed.

Section FileSystems.
Context `{LayoutTyped}.

Lemma on_k_typed {B} (m : M kstate B) Q : ensures k_typed m Q -> ensures fs_typed (on_k m) Q.
Proof. apply ensures_zoom; [by intros s []|]. intros s t [] Ht. by constructor. Qed.
Lemma on_ata_typed {B} (m : M ata B) Q : ensures ata_typed m Q -> ensures fs_typed (on_ata m) Q.
Proof. apply ensures_zoom; [by intros s []|]. intros s t [] Ht. by constructor. Qed.
Lemma fs_kmalloc_typed n : bool_decide (0 < n < 2 ^ 32) = true -> ensures fs_typed (fs_kmalloc n) (heap_ref kernel_heap_region).
Proof. intros Hn. by apply on_k_typed, heap_typed. Qed.
#[local] Hint Resolve on_k_typed on_ata_typed : typing.

Lemma set_block_typed l s : array 512 is_byte l -> fs_typed s -> fs_typed (set_block_buf l s).
Proof. intros Hl []. by constructor. Qed.
#[local] Hint Resolve set_block_typed : typing.
Lemma read_block_typed lba : ensures fs_typed (read_block lba) (fun _ => True).
Proof.
  unfold read_block. eapply ensures_bind; [apply on_ata_typed, ata_read_block_typed|]. intros [l|] Hl; ens.
Qed.
Lemma write_block_typed lba : ensures fs_typed (write_block lba) (fun _ => True).
Proof.
  unfold write_block. ens_step. destruct select (exists _, fs_typed _ /\ _) as (s & Hs & ->).
  apply on_ata_typed, ata_write_block_typed. apply Hs.
Qed.
Lemma block_put_typed off bytes : 0 <= off -> Forall is_byte bytes -> ensures fs_typed (block_put off bytes) (fun _ => True).
Proof.
  intros Ho Hb. apply ensures_upd. intros s s' Hs. destruct (Z.leb_spec (off + Z.of_nat (length bytes)) (Z.of_nat (length (block_buf s)))); [|done].
  intros E. apply (inj Some) in E as <-. apply set_block_typed; [|done]. destruct (ty_block s Hs) as [Hl Hf]. split.
  - rewrite !length_app, length_take, length_drop. lia.
  - rewrite !Forall_app. split_and!; [by apply Forall_take|done|by apply Forall_drop].
Qed.
Lemma block_get_typed off n : ensures fs_typed (block_get off n) (Forall is_byte).
Proof.
  eapply ensures_mono; [apply ensures_opt|]. intros l (s & Hs & Hl). destruct (_ <=? _); [|done]. injection Hl as <-.
  apply Forall_take, Forall_drop. apply (ty_block s Hs).
Qed.
Lemma file_get_typed f : ensures fs_typed (file_get f f_pos) (uint 32).
Proof.
  eapply ensures_mono; [apply ensures_opt|]. intros a (s & Hs & Ha). apply fmap_Some in Ha as (x & Hx & ->).
  by apply (ty_files _ _ _ (ty_k s Hs) f).
Qed.
Lemma set_f_pos_typed f pos : uint 32 pos -> ensures fs_typed (set_f_pos f pos) (fun _ => True).
Proof.
  intros Hp. apply on_k_typed, ensures_upd. intros s s' Hs. destruct (k_files s !! f) as [x|] eqn:Ex; [|done]. intros E. apply (inj Some) in E as <-.
  apply k_typed_files; [|done]. split; [done|]. apply (ty_files _ _ s Hs f x Ex).
Qed.
Lemma copy_to_caller_typed buf bytes : Forall is_byte bytes -> ensures fs_typed (copy_to_caller buf bytes) (fun _ => True).
Proof. intros Hb. by apply on_k_typed, user_write_typed. Qed.
Lemma copy_from_caller_typed buf n : ensures fs_typed (copy_from_caller buf n) (array (Z.to_nat n) is_byte).
Proof. apply on_k_typed, user_read_typed. Qed.
Lemma file_rinode_typed f : ensures fs_typed (file_rinode f) (fun _ => True).
Proof. unfold file_rinode, file_get. ens. Qed.
Lemma rinode_get_typed {B} p (g : relisfs_inode -> B) : ensures fs_typed (rinode_get p g) (fun a => exists r, rinode_typed r /\ a = g r).
Proof.
  eapply ensures_mono; [apply ensures_opt|]. intros a (s & Hs & Ha). apply fmap_Some in Ha as (r & Hr & ->).
  exists r. split; [|done]. by apply (ty_rinodes s Hs p).
Qed.
Lemma dentry_get_typed {B} p (g : dentry -> B) : ensures fs_typed (dentry_get p g) (fun a => exists d, dentry_typed d /\ a = g d).
Proof.
  eapply ensures_mono; [apply ensures_opt|]. intros a (s & Hs & Ha). apply fmap_Some in Ha as (d & Hd & ->).
  exists d. split; [|done]. by apply (ty_dentries s Hs p).
Qed.
End FileSystems.
#[export] Hint Extern 1 (ensures fs_typed (fs_kmalloc _) _) => (apply fs_kmalloc_typed; reflexivity) : typing.
#[export] Hint Resolve on_k_typed set_block_typed read_block_typed write_block_typed block_put_typed block_get_typed
  file_get_typed set_f_pos_typed copy_to_caller_typed copy_from_caller_typed file_rinode_typed rinode_get_typed dentry_get_typed : typing.

Section FileOperations.
Context `{LayoutTyped}.

Lemma rinode_bytes_typed r : rinode_typed r -> Forall is_byte (rinode_bytes r).
Proof. intros [_ [_ Hn]]. unfold rinode_bytes. rewrite !Forall_app. split_and!; auto with typing. Qed.

Lemma proc_cpuinfo_read_typed f buf count : ensures fs_typed (proc_cpuinfo_read f buf count) (fun _ => True).
Proof.
  assert (Forall is_byte cpuinfo_text) as Ht by (unfold cpuinfo_text; repeat (apply List.Forall_cons; [unfold is_byte; lia|]); apply List.Forall_nil).
  unfold proc_cpuinfo_read. cbv zeta. ens_step. apply ensures_choice; [by apply ensures_ret|].
  ens_step; [by apply copy_to_caller_typed, Forall_take, Forall_drop|]. ens.
Qed.
Lemma relisfs_read_typed f buf count : ensures fs_typed (relisfs_read f buf count) (fun _ => True).
Proof. unfold relisfs_read. cbv zeta. ens. Qed.

Lemma store_size_typed p pos s r :
  fs_typed s -> uint 32 pos -> fs_rinodes s !! p = Some r ->
  fs_typed (set_fs_rinodes (<[p := mk_rinode (ri_used r) pos (ri_direct r) (ri_name r)]> (fs_rinodes s)) s).
Proof.
  intros Hs Hp Er. pose proof (ty_rinodes s Hs p r Er) as [(Hu & _ & Hd) Hn]. destruct Hs.
  constructor; cbn; try done. by apply map_Forall_insert_2.
Qed.
Lemma relisfs_write_typed f buf count : ensures fs_typed (relisfs_write f buf count) (fun _ => True).
Proof.
  unfold relisfs_write. ens.
  - match goal with H : match fs_rinodes ?s !! ?p with _ => _ end = _ |- _ => destruct (fs_rinodes s !! p) as [r|] eqn:Er; [|done]; apply (inj Some) in H as <- end.
    by apply store_size_typed.
  - destruct select (exists _, rinode_typed _ /\ _ = rinode_bytes _) as (r & Hr & ->). apply block_put_typed; [done|by apply rinode_bytes_typed].
Qed.

Lemma find_child_typed l name : ensures fs_typed (find_child l name) (fun _ => True).
Proof. induction l as [|c l IH]; cbn [find_child]; ens. Qed.
Lemma enter_typed name d : ensures fs_typed (enter name d) (fun _ => True).
Proof. unfold enter. destruct name; ens. apply find_child_typed. Qed.
Lemma walk_path_typed path name d : ensures fs_typed (walk_path path name d) (fun _ => True).
Proof.
  revert name d. induction path as [|c path IH]; intros name d; cbn [walk_path].
  - apply ensures_choice; [apply enter_typed|apply ensures_fault].
  - apply ensures_choice; (apply ensures_choice; [|apply ensures_fault]); [|apply IH].
    eapply ensures_bind; [apply enter_typed|]. intros [n|] _; [apply IH|by apply ensures_ret].
Qed.
Lemma vfs_open_typed path : ensures fs_typed (vfs_open path) (heap_ref kernel_heap_region).
Proof.
  unfold vfs_open. ens_step. destruct path as [|c path]; [apply ensures_ret; by left|]. apply ensures_choice; [apply ensures_ret; by left|].
  eapply ensures_bind; [apply walk_path_typed|]. intros [d|] _; [|apply ensures_ret; by left]. unfold store_file. ens.
  apply on_k_typed. ens. destruct select (exists _, dentry_typed _ /\ _) as (x & (_ & _ & _ & Hx) & ->).
  apply k_typed_files; [|done]. split; [by apply uint_const|done].
Qed.
End FileOperations.
#[export] Hint Resolve proc_cpuinfo_read_typed relisfs_read_typed relisfs_write_typed vfs_open_typed : typing.

(** ** Console and keyboard *)

Record cells_typed (s : console) : Prop := { ty_vga : Forall (uint 16) (c_vga s); ty_color : uint 8 (c_color s) }.
(** The screen has its 2000 cells and the cursor is on it. *)
Record console_typed (s : console) : Prop := {
  ty_cells : cells_typed s;
  ty_screen : screen_ok (view s);
  ty_con_lock : c_lock s = 0
}.
(** The keyboard while its lock is [l]. *)
Record kb_inv (l : Z) (s : keyboard) : Prop := {
  ty_kb_buf : array 256 is_byte (kb_buf s);
  ty_kb_pos : 0 <= rp s < KB_BUF_SIZE /\ 0 <= wp s < KB_BUF_SIZE;
  ty_kb_lock : kb_lock s = l
}.
Abbreviation kb_typed := (kb_inv 0).

Lemma on_ports_typed {B} (m : M ports B) : ensures console_typed (on_ports m) (fun _ => True).
Proof. apply (ensures_zoom _ (fun _ => True)); [done| |by intros s a s']. intros s t [[] ? ?] _. by constructor. Qed.
Lemma on_ports_cells {B} (m : M ports B) : ensures cells_typed (on_ports m) (fun _ => True).
Proof. apply (ensures_zoom _ (fun _ => True)); [done| |by intros s a s']. by intros s t [] _. Qed.
Lemma vga_load_cells i : ensures cells_typed (vga_load i) (uint 16).
Proof.
  eapply ensures_mono; [apply ensures_opt|]. intros v (s & Hs & Hv). destruct (0 <=? i); [|done]. eapply Forall_lookup_1; [apply Hs|exact Hv].
Qed.
Lemma vga_store_cells i v : uint 16 v -> ensures cells_typed (vga_store i v) (fun _ => True).
Proof.
  intros Hv. apply ensures_upd. intros s s' []. destruct (_ && _); [|done]. intros E. apply (inj Some) in E as <-.
  constructor; [by apply Forall_insert|done].
Qed.
Lemma set_row_cells x s : cells_typed s -> cells_typed (set_c_row x s).
Proof. by intros []. Qed.
Lemma set_col_cells x s : cells_typed s -> cells_typed (set_c_col x s).
Proof. by intros []. Qed.
Lemma mkentry_typed c col : uint 16 (mkentry c col).
Proof. by apply uint_wrap. Qed.
#[export] Hint Resolve on_ports_typed on_ports_cells vga_load_cells vga_store_cells set_row_cells set_col_cells mkentry_typed : typing.

Lemma update_cursor_cells : ensures cells_typed update_cursor (fun _ => True).
Proof. unfold update_cursor. ens. Qed.
Lemma vga_scroll_cells : ensures cells_typed vga_scroll (fun _ => True).
Proof. unfold vga_scroll. ens. Qed.
#[export] Hint Resolve update_cursor_cells vga_scroll_cells : typing.
Lemma next_row_cells : ensures cells_typed next_row (fun _ => True).
Proof. unfold next_row. ens. Qed.
#[export] Hint Resolve next_row_cells : typing.
Lemma terminal_putchar_cells c : ensures cells_typed (terminal_putchar c) (fun _ => True).
Proof. unfold terminal_putchar, fbterm_active, fbterm_putchar. ens. Qed.
Lemma terminal_putchar_typed c : ensures console_typed (terminal_putchar c) (fun _ => True).
Proof.
  intros s a s' [Hc Hs Hl] E. split; [|done]. destruct (terminal_putchar_cells c s a s' Hc E) as [Hc' _].
  destruct (terminal_putchar_spec c s Hs) as (s1 & E1 & Hv & Hl1 & _). rewrite E1 in E. injection E as _ <-.
  constructor; [done|rewrite Hv; by apply show_char_ok|congruence].
Qed.
Lemma serial_putchar_typed fuel c : ensures console_typed (serial_putchar fuel c) (fun _ => True).
Proof. unfold serial_putchar. ens. induction fuel as [|n IH]; cbn [serial_wait]; ens. Qed.

Lemma kb_port_typed {B} (m : M ports B) : ensures kb_typed (kb_port m) (fun _ => True).
Proof. apply (ensures_zoom _ (fun _ => True)); [done| |by intros s a s']. intros s t [] _. by constructor. Qed.
Lemma mods_typed f : ensures kb_typed (mods f) (fun _ => True).
Proof. apply ensures_mod. intros s []. by constructor. Qed.
Lemma set_rp_typed l x s : 0 <= x < KB_BUF_SIZE -> kb_inv l s -> kb_inv l (set_rp x s).
Proof. intros Hx []. destruct_and?. by constructor. Qed.
Lemma set_wp_typed l x s : 0 <= x < KB_BUF_SIZE -> kb_inv l s -> kb_inv l (set_wp x s).
Proof. intros Hx []. destruct_and?. by constructor. Qed.
Lemma ring_typed x : 0 <= u32 x mod KB_BUF_SIZE < KB_BUF_SIZE.
Proof. by apply Z.mod_pos_bound. Qed.
#[export] Hint Resolve kb_port_typed mods_typed set_rp_typed set_wp_typed ring_typed : typing.

Lemma kb_lock_typed : moves (kb_inv 0) (spin_lock kb_lock set_kb_lock) (kb_inv 1) (fun _ => True).
Proof. intros s a s' []. unfold spin_lock. destruct (kb_lock s =? 0); [|done]. intros E. injection E as _ <-. split; [by constructor|done]. Qed.
Lemma kb_unlock_typed : moves (kb_inv 1) (spin_unlock set_kb_lock) (kb_inv 0) (fun _ => True).
Proof. intros s a s' [] E. injection E as _ <-. split; [by constructor|done]. Qed.
Lemma keyboard_poll_typed : ensures kb_typed keyboard_poll is_byte.
Proof.
  unfold keyboard_poll. inside; [apply kb_lock_typed|]. inside; [ens_call|]. inside; [ens_call|]. apply (moves_keep _ _ is_byte).
  - apply ensures_choice; [|by apply ensures_ret]. ens_step. ens.
    destruct select (exists _, kb_inv 1 _ /\ _ = Some _) as (s & Hs & Hc). eapply array_lookup; [apply Hs|exact Hc].
  - intros c Hc. inside; [apply kb_unlock_typed|]. by apply ensures_ret.
Qed.

Lemma push_typed c : is_byte c -> ensures kb_typed (push c) (fun _ => True).
Proof.
  intros Hc. unfold push. cbv zeta. ens. destruct (_ <? _); [|done]. select (Some _ = Some _) (fun H => apply (inj Some) in H as <-).
  destruct select (kb_typed _). constructor; cbn; auto with typing.
Qed.
#[export] Hint Resolve push_typed : typing.
Lemma update_leds_typed : ensures kb_typed update_leds (fun _ => True).
Proof.
  assert (forall t, ensures kb_typed (kb_wait t) (fun _ => True)) as Hw by (induction t as [|t IH]; cbn [kb_wait]; ens).
  unfold update_leds. ens.
Qed.
#[export] Hint Resolve update_leds_typed : typing.
#[export] Hint Extern 2 (is_byte _) => (unfold is_byte; lia) : typing.

Lemma kb_inb_typed p : ensures kb_typed (kb_port (inb p)) is_byte.
Proof.
  intros s a s' Hs E. destruct (kb_port_typed (inb p) s a s' Hs E) as [Hs' _]. split; [done|].
  apply zoom_inv in E as (t & Et & _). unfold inb, port_read in Et.
  destruct (port_in _ !! p) as [[|v l]|]; injection Et as <- _; [done|apply u8_byte|done].
Qed.
Lemma key_tables_typed : Forall is_byte normal /\ Forall is_byte shifted.
Proof.
  assert (forallb (fun c => (0 <=? c) && (c <? 256)) (normal ++ shifted) = true) as Hb by reflexivity.
  apply Is_true_true, forallb_True, Forall_app in Hb as [H1 H2].
  split; (eapply Forall_impl; [eassumption|]); intros c Hc; apply Is_true_true in Hc; unfold is_byte; lia.
Qed.
Lemma key_char_typed sc : ensures kb_typed (key_char sc) (fun _ => True).
Proof.
  unfold key_char. ens_step; [by apply ensures_ret|]. ens_step. destruct key_tables_typed as [Hn Hs].
  destruct (_ !! Z.to_nat sc) as [c|] eqn:Ec; [|apply ensures_fault].
  assert (is_byte c) as Hc by (destruct (istrue _); eapply Forall_lookup_1; [exact Hs|exact Ec|exact Hn|exact Ec]).
  apply ensures_choice; [by apply ensures_ret|]. apply push_typed. unfold is_byte in *.
  repeat match goal with |- context [if ?b then _ else _] => destruct b eqn:? end; lia.
Qed.
#[export] Hint Resolve key_char_typed : typing.
Lemma kb_irq_typed : ensures kb_typed kb_irq (fun _ => True).
Proof. unfold kb_irq. cbv zeta. eapply ensures_bind; [apply kb_inb_typed|]. intros sc Hsc. ens. Qed.

(** ** The whole kernel *)

Record g_typed `{Layout} (g : gstate) : Prop := {
  ty_fs : fs_typed (g_fs g);
  ty_con : console_typed (g_con g);
  ty_kb : kb_typed (g_kb g)
}.

Lemma in_k_typed `{Layout} {B} (m : M kstate B) Q : ensures k_typed m Q -> ensures g_typed (in_k m) Q.
Proof. apply ensures_zoom; [by intros g [[] _ _]|]. intros g t [[] ? ?] Ht. by constructor; [constructor|..]. Qed.
Lemma in_fs_typed `{Layout} {B} (m : M fstate B) Q : ensures fs_typed m Q -> ensures g_typed (in_fs m) Q.
Proof. apply ensures_zoom; [by intros g []|]. intros g t [] Ht. by constructor. Qed.
Lemma in_con_typed `{Layout} {B} (m : M console B) Q : ensures console_typed m Q -> ensures g_typed (in_con m) Q.
Proof. apply ensures_zoom; [by intros g []|]. intros g t [] Ht. by constructor. Qed.
Lemma in_kb_typed `{Layout} {B} (m : M keyboard B) Q : ensures kb_typed m Q -> ensures g_typed (in_kb m) Q.
Proof. apply ensures_zoom; [by intros g []|]. intros g t [] Ht. by constructor. Qed.
#[export] Hint Resolve in_k_typed in_fs_typed in_con_typed in_kb_typed terminal_putchar_typed serial_putchar_typed keyboard_poll_typed : typing.

(** *** Calls that may be suspended *)

Inductive gflow_typed `{Layout} {B} (Q : B -> Prop) : gflow B -> Prop :=
| gt_returned b : Q b -> gflow_typed Q (GReturned b)
| gt_suspended k :
    (forall g y g', g_typed g -> k g = Done (y, g') -> g_typed g') ->
    (forall g y g', g_typed g -> k g = Done (y, g') -> gflow_typed Q y) -> gflow_typed Q (GSuspended k).
Definition gensures `{Layout} {B} (m : G B) (Q : B -> Prop) : Prop := ensures g_typed m (gflow_typed Q).

Lemma gensures_ret `{Layout} {B} (b : B) (Q : B -> Prop) : Q b -> gensures (gret b) Q.
Proof. intros Hb. by apply ensures_ret; constructor. Qed.
Lemma gflow_bind_typed `{Layout} {B C} (Q : B -> Prop) (R : C -> Prop) x (k : B -> G C) :
  gflow_typed Q x -> (forall b, Q b -> gensures (k b) R) -> gensures (gflow_bind x k) R.
Proof.
  intros Hx Hk. induction Hx as [b Hb|m H1 H2 IH]; cbn [gflow_bind]; [by apply Hk|]. apply ensures_ret.
  constructor; intros g z g' Hg; destruct (m g) as [[y g1]| | |] eqn:E; try done; intros Ez;
    by destruct (IH g y g1 Hg E g1 z g' (H1 g y g1 Hg E) Ez).
Qed.
Lemma gensures_bind `{Layout} {B C} (Q : B -> Prop) (R : C -> Prop) (m : G B) (k : B -> G C) :
  gensures m Q -> (forall b, Q b -> gensures (k b) R) -> gensures (gbind m k) R.
Proof. intros Hm Hk. eapply ensures_bind; [exact Hm|]. intros x Hx. by eapply gflow_bind_typed. Qed.
Lemma gensures_run `{Layout} {B} (m : M gstate B) Q : ensures g_typed m Q -> gensures (g_run m) Q.
Proof. intros Hm. eapply ensures_bind; [exact Hm|]. intros b Hb. by apply gensures_ret. Qed.
Lemma lift_flow_typed `{Layout} {B} (Q : B -> Prop) x : flow_typed Q x -> gflow_typed Q (lift_flow x).
Proof.
  intros Hx. induction Hx as [b Hb|k H1 H2 IH]; cbn [lift_flow]; [by constructor|].
  assert (forall g y g', g_typed g -> match k (g_k g) with
     | Done (y0, ks) => Done (lift_flow y0, set_g_k ks g) | Halt w => Halt w | Fault => Fault | Spin => Spin end = Done (y, g') ->
     g_typed g' /\ gflow_typed Q y) as Hk.
  { intros g y g' Hg. assert (k_typed (g_k g)) as Hkt by (by destruct Hg as [[] _ _]).
    destruct (k (g_k g)) as [[y0 ks]| | |] eqn:E; try done. intros E'. injection E' as <- <-.
    split; [|by eapply IH]. pose proof (H1 _ _ _ Hkt E). destruct Hg as [[] ? ?]. by constructor; [constructor|..]. }
  constructor; intros g y g' Hg E; by destruct (Hk g y g' Hg E).
Qed.
Lemma in_sched_typed `{Layout} {B} (m : M kstate (flow B)) Q : ensures k_typed m (flow_typed Q) -> gensures (in_sched m) Q.
Proof. intros Hm. eapply ensures_bind; [by apply in_k_typed|]. intros x Hx. by apply ensures_ret, lift_flow_typed. Qed.
Lemma gensures_mono `{Layout} {B} (m : G B) (Q Q' : B -> Prop) : gensures m Q -> (forall b, Q b -> Q' b) -> gensures m Q'.
Proof.
  intros Hm HQ. eapply ensures_mono; [exact Hm|]. intros x Hx. induction Hx as [b Hb|k H1 H2 IH]; constructor; [by apply HQ|exact H1|exact IH].
Qed.

Section Syscalls.
Context `{LayoutTyped}.

(** A step [do* b := m in ...] with what is known of the result. *)
Ltac gstep Q := apply (gensures_bind Q).
Ltac grun := eapply gensures_bind; [apply gensures_run; ens_call|]; intros ? ?; cbv beta in *.

Lemma g_schedule_typed : gensures g_schedule (fun _ => True).
Proof. apply in_sched_typed, reschedule_typed. by apply ensures_ret; constructor. Qed.

Lemma stdin_read_typed fuel f buf count : gensures (stdin_read fuel f buf count) (fun _ => True).
Proof.
  unfold stdin_read. generalize 0 as i. induction fuel as [|n IH]; intros i; cbn [stdin_loop]; [apply ensures_spin|].
  apply ensures_choice; [|by apply gensures_ret]. grun. apply ensures_choice.
  - gstep (fun _ : unit => True); [|intros _ _; apply IH]. apply gensures_run, in_fs_typed, copy_to_caller_typed. by constructor.
  - gstep (fun _ : unit => True); [apply g_schedule_typed|intros _ _; apply IH].
Qed.
Lemma stdout_write_typed fuel f buf count : ensures g_typed (stdout_write fuel f buf count) (fun _ => True).
Proof. unfold stdout_write, stdout_putc. ens. Qed.

Lemma fop_read_typed fuel fops op f buf count :
  fop_read fuel fops = Some op -> uint 64 count -> gensures (op f buf count) (fun _ => True).
Proof.
  intros E Hc. destruct fops; try done; injection E as <-.
  - apply stdin_read_typed.
  - by apply in_sched_typed, pipe_read_typed.
  - apply gensures_run. ens.
  - apply gensures_run. ens.
Qed.
Lemma fop_write_typed fuel fops op f buf count :
  fop_write fuel fops = Some op -> uint 64 count -> gensures (op f buf count) (fun _ => True).
Proof.
  intros E Hc. destruct fops; try done; injection E as <-; apply gensures_run; [apply stdout_write_typed|ens|ens].
Qed.

Lemma file_inode_typed f : ensures g_typed (file_inode f) (fun _ => True).
Proof. unfold file_inode. ens. Qed.
Lemma inode_fop_typed i : ensures g_typed (inode_fop i) (fun _ => True).
Proof. unfold inode_fop. ens. Qed.
Lemma fd_file_typed c fd : ensures g_typed (fd_file c fd) (fun _ => True).
Proof. unfold fd_file. ens. Qed.
#[local] Hint Resolve file_inode_typed inode_fop_typed fd_file_typed : typing.

Lemma vfs_read_typed fuel f buf count : uint 64 count -> gensures (vfs_read fuel f buf count) (fun _ => True).
Proof.
  intros Hc. unfold vfs_read. apply ensures_choice; [by apply gensures_ret|]. grun. apply ensures_choice; [by apply gensures_ret|]. grun.
  destruct (_ ≫= fop_read fuel) as [op|] eqn:E; [|by apply gensures_ret].
  apply bind_Some in E as (fops & _ & E). by eapply fop_read_typed.
Qed.

Lemma sys_rw_typed op c regs :
  (forall fops rw f buf count, op fops = Some rw -> uint 64 count -> gensures (rw f buf count) (fun _ => True)) ->
  regs_typed regs -> gensures (sys_rw op c regs) regs_typed.
Proof.
  intros Hop Hr. unfold sys_rw. cbv zeta. grun. apply ensures_choice; [apply gensures_ret; auto with typing|]. grun. grun.
  destruct (_ ≫= op) as [rw|] eqn:E; [|apply gensures_ret; auto with typing]. apply bind_Some in E as (fops & _ & E).
  assert (uint 64 (rdx regs)) as Hd by (by apply (Forall_lookup_1 (uint 64) (reg_words regs) 11)).
  eapply gensures_bind; [by apply (Hop fops)|]. intros r _. apply gensures_ret. auto with typing.
Qed.
Lemma sys_ret_typed m regs : ensures k_typed m (fun _ => True) -> regs_typed regs -> gensures (sys_ret m regs) regs_typed.
Proof. intros Hm Hr. unfold sys_ret. eapply gensures_bind; [by apply gensures_run, in_k_typed|]. intros r _. apply gensures_ret. auto with typing. Qed.

Lemma user_string_typed fuel a : ensures g_typed (user_string fuel a) (Forall is_byte).
Proof.
  revert a. induction fuel as [|n IH]; intros a; cbn [user_string]; [apply ensures_spin|].
  eapply (ensures_bind _ is_byte).
  - apply in_k_typed. eapply ensures_mono; [apply ensures_opt|]. intros c (s & Hs & Hc). by apply (ty_umem _ _ s Hs a).
  - intros c Hc. apply ensures_choice; [by apply ensures_ret|]. eapply ensures_bind; [apply IH|]. intros l Hl. apply ensures_ret. by constructor.
Qed.
#[local] Hint Resolve user_string_typed : typing.

Lemma alloc_fd_typed t f : heap_ref kernel_heap_region f -> ensures k_typed (alloc_fd t f) (fun _ => True).
Proof.
  intros Hf.
  assert (forall l i, ensures k_typed (alloc_fd_loop l i t f) (fun _ => True)) as Hl; [|unfold alloc_fd; ens_step; apply Hl].
  induction l as [|x l IH]; intros i; cbn [alloc_fd_loop]; ens.
Qed.

(** *** Program execution *)

Lemma need_typed n off data : Forall is_byte data ->
  ensures g_typed (need (image_field n off data)) (uint (8 * Z.of_nat n)).
Proof.
  intros Hd. unfold need. destruct (image_field n off data) as [v|] eqn:E; [|apply ensures_fault].
  apply ensures_ret. by eapply image_field_typed.
Qed.
Lemma image_bytes_typed a n : ensures g_typed (image_bytes a n) (Forall is_byte).
Proof. apply in_k_typed. eapply ensures_mono; [apply user_read_typed|]. by intros l []. Qed.
Lemma exec_image_typed data : Forall is_byte data -> ensures g_typed (exec_image data) (fun _ => True).
Proof.
  intros Hd. unfold exec_image, e_phoff, e_phnum. ens_step. ens_step; [ens|]. ens_step; [ens|].
  eapply ensures_bind; [by apply need_typed|]. intros phoff _. eapply ensures_bind; [by apply need_typed|]. intros phnum _. ens.
Qed.
Lemma exec_user_program_typed data : Forall is_byte data -> ensures g_typed (exec_user_program data) (fun _ => True).
Proof.
  intros Hd. unfold exec_user_program, e_magic, e_entry. eapply ensures_bind; [by apply need_typed|]. intros magic _.
  apply ensures_choice; [by apply ensures_ret|]. ens_step; [by apply exec_image_typed|].
  eapply ensures_bind; [by apply need_typed|]. intros entry _. by apply ensures_ret.
Qed.
Lemma g_kfree_typed p : ensures g_typed (g_kfree p) (fun _ => True).
Proof. unfold g_kfree. ens. Qed.
#[local] Hint Resolve exec_image_typed set_task_name_typed g_kfree_typed image_bytes_typed alloc_fd_typed : typing.

Lemma sys_execve_typed fuel regs path :
  regs_typed regs -> Forall is_byte path -> gensures (sys_execve fuel regs path) (fun r => regs_typed r.2).
Proof.
  intros Hr Hp. unfold sys_execve, e_magic, e_entry. grun. apply ensures_choice; [by apply gensures_ret|]. grun.
  gstep (fun _ : Z => True); [apply vfs_read_typed; auto with typing|]. intros n _.
  apply ensures_choice; [grun; by apply gensures_ret|]. grun.
  eapply gensures_bind; [by apply gensures_run, need_typed|]. intros magic _.
  apply ensures_choice; [grun; by apply gensures_ret|]. grun. grun. grun.
  eapply gensures_bind; [by apply gensures_run, need_typed|]. intros entry He. grun. apply gensures_ret.
  by apply exec_regs_typed.
Qed.

Lemma syscall_dispatch_typed fuel regs : regs_typed regs -> gensures (syscall_dispatch fuel regs) regs_typed.
Proof.
  intros Hr. assert (forall i v, reg_words regs !! i = Some v -> uint 64 v) as Hw by (intros i v; by apply Forall_lookup_1).
  unfold syscall_dispatch. cbv zeta. grun.
  apply ensures_choice; [by apply sys_rw_typed; [apply fop_write_typed|]|].
  apply ensures_choice; [by apply sys_rw_typed; [apply fop_read_typed|]|].
  apply ensures_choice; [grun; grun; apply ensures_choice; [apply gensures_ret; auto with typing|apply sys_ret_typed; [ens|done]]|].
  apply ensures_choice; [grun; apply ensures_choice; [apply gensures_ret; auto with typing|]|].
  { gstep (fun _ : unit => True); [apply gensures_run, in_k_typed; ens|]. intros _ _. apply gensures_ret. auto with typing. }
  apply ensures_choice; [apply sys_ret_typed; [ens|done]|].
  apply ensures_choice; [grun; eapply gensures_bind; [by apply sys_execve_typed|]; intros [r regs'] Hr'; apply gensures_ret; auto with typing|].
  apply ensures_choice; [grun; gstep (fun _ : unit => True); [apply g_schedule_typed|]; intros _ _; by apply gensures_ret|].
  apply ensures_choice; [apply sys_ret_typed; [ens|done]|].
  apply ensures_choice; [apply sys_ret_typed; [apply sys_sigaction_typed; by apply (Hw 10%nat)|done]|].
  do 3 (apply ensures_choice; [apply sys_ret_typed; [ens|done]|]).
  apply gensures_ret. auto with typing.
Qed.
End Syscalls.

(** ** Runs

    The kernel's state with the calls in progress: those that have given up the
    processor and those that have returned their registers.  A step is an entry
    into the kernel - a system call, a signal delivery, a timer tick, a key, a page
    fault, a preemption, the start of a thread or of a program -, the continuation of a call, or a user
    program that changes its memory. *)

Section Runs.
Context `{LayoutTyped}.

Abbreviation calls := (list (gflow registers)).
Inductive kernel_step : gstate * calls -> gstate * calls -> Prop :=
| ks_syscall fuel regs g g' x cs :
    regs_typed regs -> syscall_dispatch fuel regs g = Done (x, g') -> kernel_step (g, cs) (g', x :: cs)
| ks_signals regs g g' x cs :
    regs_typed regs -> in_sched (deliver_signals regs) g = Done (x, g') -> kernel_step (g, cs) (g', x :: cs)
| ks_resume k g g' x cs1 cs2 :
    k g = Done (x, g') -> kernel_step (g, cs1 ++ GSuspended k :: cs2) (g', cs1 ++ x :: cs2)
| ks_tick g g' u cs : in_k scheduler_tick g = Done (u, g') -> kernel_step (g, cs) (g', cs)
| ks_key g g' u cs : in_kb kb_irq g = Done (u, g') -> kernel_step (g, cs) (g', cs)
| ks_fault stack a err g g' u cs : in_k (on_paging (handle_page_fault stack a err)) g = Done (u, g') -> kernel_step (g, cs) (g', cs)
| ks_exec data g g' u cs : Forall is_byte data -> exec_user_program data g = Done (u, g') -> kernel_step (g, cs) (g', cs)
| ks_yield g g' u cs : in_k schedule g = Done (u, g') -> kernel_step (g, cs) (g', cs)
| ks_thread name fn arg policy g g' pid cs :
    Forall is_byte name -> in_k (kernel_thread name fn arg policy) g = Done (pid, g') -> kernel_step (g, cs) (g', cs)
| ks_user g m cs : mem_wf m -> kernel_step (g, cs) (set_g_k (set_k_umem m (g_k g)) g, cs).

Definition run_typed (c : gstate * calls) : Prop := g_typed c.1 /\ Forall (gflow_typed regs_typed) c.2.

Lemma run_typed_entry g g' x cs (m : G registers) :
  gensures m regs_typed -> m g = Done (x, g') -> run_typed (g, cs) -> run_typed (g', x :: cs).
Proof. intros Hm E [Hg Hc]. destruct (Hm g x g' Hg E). split; [done|by constructor]. Qed.
Lemma run_typed_quiet {B} g g' (b : B) cs (m : M gstate B) :
  ensures g_typed m (fun _ => True) -> m g = Done (b, g') -> run_typed (g, cs) -> run_typed (g', cs).
Proof. intros Hm E [Hg Hc]. by destruct (Hm g b g' Hg E). Qed.

Lemma kernel_step_typed c c' : kernel_step c c' -> run_typed c -> run_typed c'.
Proof.
  intros Hs. destruct Hs as [fuel regs g g' x cs Hr E|regs g g' x cs Hr E|k g g' x cs1 cs2 E|g g' u cs E|g g' u cs E|stack a err g g' u cs E|data g g' u cs Hd E|g g' u cs E
    |name fn arg policy g g' pid cs Hn E|g m cs Hm].
  - by apply (run_typed_entry g g' x cs _ (syscall_dispatch_typed fuel regs Hr)).
  - by apply (run_typed_entry g g' x cs _ (in_sched_typed _ _ (deliver_signals_typed regs Hr))).
  - intros [Hg Hc]. cbn in Hg, Hc. rewrite Forall_app, Forall_cons in Hc. destruct Hc as (H1 & Hk & H2).
    inversion Hk as [|? Hk1 Hk2]; subst. split; [by apply (Hk1 g x g')|]. cbn. rewrite Forall_app, Forall_cons. split_and!; [done| |done].
    by apply (Hk2 g x g').
  - by apply (run_typed_quiet g g' u cs _ (in_k_typed _ _ scheduler_tick_typed)).
  - by apply (run_typed_quiet g g' u cs _ (in_kb_typed _ _ kb_irq_typed)).
  - by apply (run_typed_quiet g g' u cs _ (in_k_typed _ _ (on_paging_typed _ _ _ _ (handle_page_fault_typed stack a err)))).
  - by apply (run_typed_quiet g g' u cs _ (exec_user_program_typed data Hd)).
  - by apply (run_typed_quiet g g' u cs _ (in_k_typed _ _ schedule_typed)).
  - by apply (run_typed_quiet g g' pid cs _ (in_k_typed _ _ (kernel_thread_typed name fn arg policy Hn))).
  - intros [Hg Hc]. split; [|done]. cbn in *. destruct Hg as [[Hk ? ? ? ?] ? ?].
    constructor; [constructor|..]; try done. by apply k_typed_umem.
Qed.

(** C10: the invariant of the whole kernel.  In every state that system calls,
    signal deliveries, ticks, keys, page faults, preemptions, new threads, the
    start of a program and user programs reach from a state with the invariant, in
    any order and with any calls suspended and continued in between:
    - every lock is free: the scheduler's, the heap's, every pipe's, the keyboard's
      and the console's, on every path and across every suspension;
    - the page allocator's bitmap, free count and hint agree, and the heap pointer
      is aligned and inside the heap;
    - the processor's page-table register holds a frame of the allocator and the
      kernel's pointer to the root table points to it;
    - every task can run or is a zombie, has no flag but the request to reschedule,
      and a task of the fair class has weight 1024 (so no tick divides by zero), a
      real-time task its policy and priorities; its 32 descriptors are null or
      aligned addresses of the kernel heap, its root table and up to four shared
      pages are frames, and only 32 signals can be pending;
    - every pipe's read position is at most its write position, which is within the
      4096 bytes of the buffer;
    - files and directory entries refer to their inode, and inodes to their private
      data, by null or by aligned addresses of the kernel heap; disk blocks, tables
      and buffers have their sizes, and memory, buffers and the disk hold bytes;
    - the cursor is on the 80 x 25 screen and the indices of the keyboard ring are
      inside it;
    and every call that has returned has given back 64-bit registers. *)
Theorem kernel_invariant g0 g cs :
  g_typed g0 -> rtc kernel_step (g0, []) (g, cs) -> g_typed g /\ forall regs, GReturned regs ∈ cs -> regs_typed regs.
Proof.
  intros Hg0 Hrun. assert (run_typed (g, cs)) as [Hg Hc]; [|split; [exact Hg|]; intros regs Hin; rewrite Forall_forall in Hc; specialize (Hc _ Hin); by inversion Hc].
  assert (run_typed (g0, [])) as Hi by (by split). revert Hi. induction Hrun as [|a b c Hab _ IH]; [done|].
  intros Ha. by apply IH, (kernel_step_typed a).
Qed.
End Runs.
