(* ===== verification/SyscallInst.v ===== *)
(** * System calls and program loading on a booted kernel

    The theorems of [Elf] and [Syscall] applied to the machine of [PagingInst] and
    to the kernel of [SchedInst], whose current task has its three standard
    files. *)

From S2P Require Import Prelude Memory StringLib ListHead SpinLock Slab PgTable FrameAlloc PageAlloc Paging AddrSpace VirtMem PagingInst KState Sched Threads Fork Signal Ipc SchedInst Ports Console Keyboard Ata FileSys FsInst Elf Syscall PipeCall TypeMem Typing.

#[local] Existing Instance demo_layout.

(** ** An image with one segment of three bytes at 0x401000 *)

Definition demo_elf : list Z :=
  le_split 4 ELF_MAGIC ++ replicate 20 0 ++ le_split 8 0x401000 ++ le_split 8 64 ++ replicate 16 0 ++ le_split 2 1 ++ replicate 6 0 ++
  le_split 4 1 ++ le_split 4 5 ++ le_split 8 120 ++ le_split 8 0x401000 ++ le_split 8 0 ++ le_split 8 3 ++ le_split 8 10 ++ le_split 8 0x1000 ++
  [0xF3; 0x90; 0xEB].
Definition demo_phdr : elf64_phdr := mk_phdr 1 120 0x401000 3 10.

Lemma demo_pages : image_pages demo_elf [demo_phdr] = [(0x401000, page_bytes demo_elf demo_phdr 0)].
Proof. reflexivity. Qed.

Lemma load_elf_loads_witness :
  safe False (load_elf demo_elf) demo_space (fun a s' =>
    a = 0x401000 /\ exists p, ~ frame_used demo_frames p /\ translate (mm_mem s') 0 0x401000 = user_page p /\
      bytes_at (mm_mem s') (phys_to_virt p) (page_bytes demo_elf demo_phdr 0)).
Proof.
  eapply safe_mono; [apply (proj2 (load_elf_loads demo_space demo_tables 0 demo_elf) 64 1 [demo_phdr] 0x401000)| |].
  - apply demo_tables_ok.
  - apply demo_root.
  - reflexivity.
  - vm_compute. reflexivity.
  - vm_compute. reflexivity.
  - vm_compute. reflexivity.
  - vm_compute. reflexivity.
  - vm_compute. reflexivity.
  - apply Forall_singleton. intros _. vm_compute. repeat split; congruence.
  - apply Forall_forall. intros x Hx. assert (forallb (fun b => (0 <=? b) && (b <? 256)) demo_elf = true) as Hall by (vm_compute; reflexivity).
    rewrite forallb_forall in Hall. specialize (Hall x ltac:(by apply list_elem_of_In)). unfold is_byte. lia.
  - rewrite demo_pages. apply NoDup_singleton.
  - rewrite demo_pages. intros va l [-> _]%list_elem_of_singleton%pair_eq. exact demo_not_huge.
  - rewrite demo_pages. intros Hstop. vm_compute in Hstop. discriminate.
  - rewrite demo_pages. intros a s' (-> & frames & Hlen & _ & Hmap & _). split; [reflexivity|].
    destruct frames as [|p frames]; [discriminate|]. destruct (Hmap 0%nat _ _ p eq_refl eq_refl) as (Hn & _ & Ht & Hb).
    exists p. split; [exact Hn|]. split; [exact Ht|exact Hb].
Defined.

(** ** System calls of the current thread *)

Definition demo_regs (nr fd buf n : Z) : registers := mk_regs 0 0 0 0 0 0 0 0 0 fd buf n 0 0 nr 128 0 0x401000 0x23 0x202 0x3FFFFFF0 0x1B.
Definition demo_g : gstate :=
  mk_g (mk_fstate (set_k_umem (write_list ∅ 900 [72; 105; 10]) demo_kernel) ∅ 0 (mk_ata ∅ [] ∅) (replicate 512 0) ∅) demo_console demo_keyboard.
Definition demo_task : task_struct := default zero_task (k_tasks demo_kernel !! k_current demo_kernel).

Lemma demo_caller : caller demo_g demo_task.
Proof. split; vm_compute; reflexivity. Qed.


(** "Hi" and a line feed to descriptor 1. *)
Lemma sys_write_terminal_witness :
  exists g', syscall_dispatch 1 (demo_regs SYS_WRITE 1 900 3) demo_g = Done (GReturned (set_rax 3 (demo_regs SYS_WRITE 1 900 3)), g') /\
    sent_to COM1 (c_ports (g_con g')) = [72; 105; 10].
Proof.
  pose (f := default 0 (t_files demo_task !! 1%nat)).
  destruct (sys_write_terminal 1 demo_g demo_task f (demo_regs SYS_WRITE 1 900 3) [72; 105; 10]) as (g' & E & _ & _ & _ & Hs).
  - exact demo_caller.
  - reflexivity.
  - split; [vm_compute; split; congruence|]. split; [vm_compute; reflexivity|]. split; [vm_compute; discriminate|].
    pose (x := default (mk_file 0 0 0) (k_files (g_k demo_g) !! f)).
    exists x, (default (mk_inode 0 0 0 0 None) (k_inodes (g_k demo_g) !! f_inode x)).
    split; [vm_compute; reflexivity|]. split; [vm_compute; reflexivity|vm_compute; reflexivity].
  - apply bytes_at_read. vm_compute. reflexivity.
  - solve_bytes.
  - reflexivity.
  - vm_compute. reflexivity.
  - lia.
  - exact demo_screen_ok.
  - vm_compute. reflexivity.
  - exists g'. split; [exact E|exact Hs].
Defined.

(** ** A pipe: descriptors 3 and 4 *)

Definition demo_pipe_g : gstate := user_memory (write_list ∅ 900 (replicate 64 0)) demo_g.

Lemma two_free_check (files : list Z) (r : nat) :
  forallb (fun f => negb (f =? 0)) (take r files) = true -> files !! r = Some 0 -> files !! S r = Some 0 -> two_free files r (S r).
Proof.
  intros Hb Hr Hw. pose proof (lookup_lt_Some _ _ _ Hw). constructor; [lia|done|done|]. intros i f Hlt Hne E.
  rewrite forallb_forall in Hb. specialize (Hb f). rewrite negb_true_iff, Z.eqb_neq in Hb. apply Hb.
  apply list_elem_of_In, list_elem_of_lookup. exists i. rewrite lookup_take_lt by lia. exact E.
Qed.
Lemma demo_two_free : two_free (t_files demo_task) 3 4.
Proof. apply two_free_check; vm_compute; reflexivity. Qed.

Lemma pipe_syscalls_witness :
  exists g1 g2 g3, syscall_dispatch 1 (demo_regs SYS_PIPE 900 0 0) demo_pipe_g = Done (GReturned (set_rax 0 (demo_regs SYS_PIPE 900 0 0)), g1) /\
    peekn 4 (k_umem (g_k g1)) 900 = Some 3 /\ peekn 4 (k_umem (g_k g1)) 904 = Some 4 /\
    syscall_dispatch 1 (demo_regs SYS_WRITE 4 910 3) (user_memory (write_list ∅ 910 [7; 8; 9; 0; 0; 0]) g1) =
      Done (GReturned (set_rax 3 (demo_regs SYS_WRITE 4 910 3)), g2) /\
    syscall_dispatch 1 (demo_regs SYS_READ 3 913 3) g2 = Done (GReturned (set_rax 3 (demo_regs SYS_READ 3 913 3)), g3) /\
    bytes_at (k_umem (g_k g3)) 913 [7; 8; 9].
Proof.
  destruct (pipe_syscalls demo_heap_base 1 demo_pipe_g demo_task 3 4 (demo_regs SYS_PIPE 900 0 0)) as (g1 & E & P1 & P2 & _ & Hrw).
  - split; vm_compute; reflexivity.
  - exact demo_two_free.
  - reflexivity.
  - apply mapped_read; [lia|]. vm_compute. reflexivity.
  - by vm_compute.
  - vm_compute. discriminate.
  - destruct (Hrw 0%nat (write_list ∅ 910 [7; 8; 9; 0; 0; 0]) 910 913 [7; 8; 9] (demo_regs SYS_WRITE 4 910 3) (demo_regs SYS_READ 3 913 3))
      as (g2 & g3 & E2 & E3 & Hb).
    + simpl. lia.
    + vm_compute. reflexivity.
    + apply mapped_read; [simpl; lia|]. vm_compute. reflexivity.
    + repeat split.
    + repeat split.
    + exists g1, g2, g3. split; [exact E|]. split; [exact P1|]. split; [exact P2|]. split; [exact E2|]. split; [exact E3|exact Hb].
Defined.

(** ** A run of the kernel keeps the invariant *)

#[local] Instance demo_layout_typed : LayoutTyped.
Proof. split; [by vm_compute|by vm_compute|exact demo_heap_base]. Qed.

Lemma demo_frames_typed : pmm_typed demo_frames.
Proof.
  destruct demo_frames_inv as [_ ? ? ? ? [? _]]. constructor; try done.
  split; [reflexivity|]. apply List.Forall_cons; [by apply uint_const|]. by apply Forall_replicate, uint_const.
Qed.
Lemma demo_space_typed : mm_typed demo_space.
Proof. constructor; [exact demo_frames_typed|exact frame_ref_null|reflexivity]. Qed.
Lemma demo_boot_typed : k_typed demo_boot.
Proof.
  constructor; cbn [demo_boot k_mm k_slab k_vm vm_mm vm_slab k_tasks k_files k_inodes k_pipes k_umem k_nr_running k_clock k_next_pid k_sched_lock];
    [exact demo_space_typed| |apply map_Forall_empty..|split_and!; by apply uint_const|reflexivity].
  constructor; [by vm_compute|apply map_Forall_empty].
Qed.
Lemma demo_start_typed : ensures k_typed demo_start (fun _ => True).
Proof.
  unfold demo_start. eapply ensures_bind; [apply sched_init_typed|]. intros _ _.
  eapply ensures_bind; [apply kernel_thread_typed; by apply Forall_singleton|]. intros _ _.
  eapply ensures_bind; [apply kernel_thread_typed; by apply Forall_singleton|]. intros _ _. apply schedule_typed.
Qed.
Lemma demo_kernel_typed : k_typed demo_kernel.
Proof.
  unfold demo_kernel. apply k_typed_mm; [exact demo_space_typed|]. destruct (demo_start demo_boot) as [[u s]| | |] eqn:E; try exact demo_boot_typed.
  exact (proj1 (demo_start_typed demo_boot u s demo_boot_typed E)).
Qed.
Lemma demo_g_typed : g_typed demo_g.
Proof.
  constructor; [constructor|..]; cbn [demo_g g_fs g_con g_kb fs_k fs_ata block_buf fs_rinodes fs_dentries].
  - apply k_typed_umem; [|exact demo_kernel_typed]. apply write_list_wf; [apply map_Forall_empty|].
    repeat (apply List.Forall_cons; [unfold is_byte; lia|]). apply List.Forall_nil.
  - apply map_Forall_empty.
  - by apply array_replicate.
  - apply map_Forall_empty.
  - apply map_Forall_empty.
  - constructor; [|exact demo_screen_ok|reflexivity]. constructor; [by apply Forall_replicate, uint_const|by apply uint_const].
  - constructor; cbn [demo_keyboard kb_buf rp wp kb_lock]; [by apply array_replicate|by vm_compute|reflexivity].
Qed.

Definition is_done {B} (o : outcome B) : bool := match o with Done _ => true | _ => false end.

Lemma is_done_inv {B C} (o : outcome (B * C)) : is_done o = true -> exists b c, o = Done (b, c).
Proof. destruct o as [[b c]| | |]; [by exists b, c|done..]. Qed.

(** The current thread asks for a shared page, and the program changes its memory. *)
Lemma kernel_invariant_witness :
  exists g x, rtc kernel_step (demo_g, []) (g, [x]) /\ g_typed g /\ forall regs, GReturned regs ∈ [x] -> regs_typed regs.
Proof.
  destruct (is_done_inv (syscall_dispatch 1 (demo_regs SYS_SHMGET 4096 0 0) demo_g)) as (x & g1 & E); [vm_compute; reflexivity|].
  assert (rtc kernel_step (demo_g, []) (set_g_k (set_k_umem ∅ (g_k g1)) g1, [x])) as Hrun.
  { eapply rtc_l; [eapply ks_syscall; [|exact E]|].
    - unfold regs_typed, reg_words, demo_regs. repeat (apply List.Forall_cons; [by apply uint_const|]). apply List.Forall_nil.
    - eapply rtc_l; [apply ks_user, map_Forall_empty|apply rtc_refl]. }
  eexists _, x. split; [exact Hrun|]. exact (kernel_invariant demo_g _ [x] demo_g_typed Hrun).
Defined.
