(* ===== verification/Apic.v ===== *)
(** * include/asm/apic.h and arch/smp/apic.c: interrupt controllers

    Device registers are reached through the page tables: a store to a virtual
    address goes to the physical address the MMU gives for it, and from there to
    the bus.  The bus keeps the last value of every register, which a read
    returns, and the log of writes, latest first; a register nobody wrote reads
    as the device initialised it, or as all ones. *)

From S2P Require Import Prelude Memory PgTable FrameAlloc Paging VirtMem Ports.

(** ** Memory-mapped registers *)

Record bus := mk_bus { bus_regs : gmap Z Z; bus_log : list (Z * Z) }.
Definition bus_write (pa v : Z) (b : bus) : bus := mk_bus (<[pa := v]> (bus_regs b)) ((pa, v) :: bus_log b).
Definition bus_read (pa : Z) (b : bus) : Z := default (Z.ones 32) (bus_regs b !! pa).

Record mio (A : Type) := mk_mio {
  io_mm : mm_state A;
  io_bus : bus;
  io_ports : ports;
  apic_base_msr : Z * Z             (* IA32_APIC_BASE, low and high word *)
}.
Arguments mk_mio {A}.
Arguments io_mm {A}.
Arguments io_bus {A}.
Arguments io_ports {A}.
Arguments apic_base_msr {A}.

(** The physical address of [va]: the walk of [translate], with the offset into a
    page of 4 KiB, or of 2 MiB or 1 GiB where the walk ends early. *)
Fixpoint phys_from (m : mem) (t : Z) (idx : list Z) (va : Z) : option Z :=
  match idx with
  | [] => None
  | i :: rest =>
      match entry m t i with
      | Some e =>
          let size := 2 ^ (12 + 9 * Z.of_nat (length rest)) in
          if negb (present e) then None else
          match rest with
          | [] => Some (frame_of e + va mod size)
          | _ :: _ => if (length rest <=? 2)%nat && huge e then Some (frame_of e / size * size + va mod size)
                      else phys_from m (frame_of e) rest va
          end
      | None => None
      end
  end.
Definition mmu_phys (m : mem) (root va : Z) : option Z := phys_from m root (indices va) va.

Definition LAPIC_ID : Z := 0x020.
Definition LAPIC_EOI : Z := 0x0B0.
Definition LAPIC_SVR : Z := 0x0F0.
Definition LAPIC_ERROR : Z := 0x280.
Definition LAPIC_ICR_HI : Z := 0x310.
Definition LAPIC_ICR_LO : Z := 0x300.
Definition LAPIC_ENABLE : Z := 0x100.

Section Operations.
Context {A : Type} `{FrameAllocator A}.

Definition set_io_mm (x : mm_state A) (s : mio A) : mio A := mk_mio x (io_bus s) (io_ports s) (apic_base_msr s).
Definition set_io_bus (x : bus) (s : mio A) : mio A := mk_mio (io_mm s) x (io_ports s) (apic_base_msr s).
Definition set_io_ports (x : ports) (s : mio A) : mio A := mk_mio (io_mm s) (io_bus s) x (apic_base_msr s).
Definition set_apic_base_msr (x : Z * Z) (s : mio A) : mio A := mk_mio (io_mm s) (io_bus s) (io_ports s) x.

Definition io_port {B} (m : M ports B) : M (mio A) B := zoom io_ports set_io_ports m.
Definition io_root (s : mio A) : Z := Z.land (cr3_reg (io_mm s)) PTE_ADDR_MASK.
Definition io_phys (va : Z) (s : mio A) : option Z := mmu_phys (mm_mem (io_mm s)) (io_root s) va.

(** A 32-bit access to a device; an address that is not mapped faults. *)
Definition io_write32 (va v : Z) : M (mio A) unit :=
  let* pa := kopt (io_phys va) in
  kmod (fun s => set_io_bus (bus_write pa (u32 v) (io_bus s)) s).
Definition io_read32 (va : Z) : M (mio A) Z :=
  let* pa := kopt (io_phys va) in
  kgets (fun s => bus_read pa (io_bus s)).

(** ** apic.h *)

Definition lapic_write (offset val : Z) : M (mio A) unit := io_write32 (LAPIC_VADDR + 4 * (offset / 4)) val.
Definition lapic_read (offset : Z) : M (mio A) Z := io_read32 (LAPIC_VADDR + 4 * (offset / 4)).
Definition ioapic_write (offset val : Z) : M (mio A) unit :=
  io_write32 IOAPIC_VADDR (u8 offset);;;
  io_write32 (IOAPIC_VADDR + 4 * 4) val.
Definition ioapic_read (offset : Z) : M (mio A) Z :=
  io_write32 IOAPIC_VADDR (u8 offset);;;
  io_read32 (IOAPIC_VADDR + 4 * 4).

(** ** apic.c

    The delay loops have no effect. *)

Definition lapic_eoi : M (mio A) unit := lapic_write LAPIC_EOI 0.
Definition lapic_get_id : M (mio A) Z :=
  let* v := lapic_read LAPIC_ID in
  kret (Z.shiftr v 24).

Definition send_apic_init (apic_id : Z) : M (mio A) unit :=
  lapic_write LAPIC_ICR_HI (u32 (Z.shiftl apic_id 24));;;
  lapic_write LAPIC_ICR_LO 0x4500.
Definition send_apic_startup (apic_id vector : Z) : M (mio A) unit :=
  lapic_write LAPIC_ICR_HI (u32 (Z.shiftl apic_id 24));;;
  lapic_write LAPIC_ICR_LO (Z.lor 0x4600 (Z.land vector 0xFF)).

Definition remap_pic : M (mio A) unit :=
  io_port (outb 0x21 0xFF);;;
  io_port (outb 0xA1 0xFF).

Definition ioapic_line (i : Z) : M (mio A) unit :=
  let low := 32 + i in
  let low := Z.lor low (Z.shiftl 0 8) in
  let low := Z.lor low (Z.shiftl 0 11) in
  let low := Z.lor low (Z.shiftl 0 16) in
  let high := 0 in
  ioapic_write (0x10 + i * 2) low;;;
  ioapic_write (0x11 + i * 2) high.
Definition ioapic_init : M (mio A) unit := kfor (seqZ 0 16) ioapic_line.

(** [rdmsr], the three changes of the low word, [wrmsr]. *)
Definition enable_apic_base : M (mio A) unit :=
  let* (lo, hi) := kgets apic_base_msr in
  let lo := Z.lor (Z.land lo (cnot 32 (u32 (Z.shiftl 0xFFFFF 12)))) 0xFEE00000 in
  let lo := Z.lor lo (Z.shiftl 1 11) in
  let lo := Z.land lo (cnot 32 (Z.shiftl 1 10)) in
  kmod (set_apic_base_msr (lo, hi)).

Definition apic_init : M (mio A) unit :=
  remap_pic;;;
  enable_apic_base;;;
  lapic_write 0xE0 0xFFFFFFFF;;;
  lapic_write LAPIC_SVR (Z.lor LAPIC_ENABLE 0xFF);;;
  lapic_write LAPIC_ERROR 0;;;
  ioapic_init;;;
  let* _ := lapic_get_id in
  kret tt.

(** What [ap_main] does before its halt loop, without the shared counter. *)
Definition ap_lapic_setup : M (mio A) unit :=
  io_port (outb 0x3F8 65);;;
  remap_pic;;;
  lapic_write 0xE0 0xFFFFFFFF;;;
  lapic_write LAPIC_SVR (Z.lor LAPIC_ENABLE 0xFF);;;
  lapic_write LAPIC_ERROR 0;;;
  io_port (outb 0x3F8 80).
End Operations.

(** ** What the controllers see

    An I/O APIC has an index register and a data window: a write to the window
    goes to the register the index selects. *)
Definition ioapic_sees (base : Z) (w : Z * Z) (st : Z * gmap Z Z) : Z * gmap Z Z :=
  if w.1 =? base then (u8 w.2, st.2)
  else if w.1 =? base + 0x10 then (st.1, <[st.1 := w.2]> st.2)
  else st.
Definition ioapic_regs (base : Z) (log : list (Z * Z)) : gmap Z Z := (foldr (ioapic_sees base) (0, ∅) log).2.

(** The redirection entry of a line: vector, delivery mode, mask bit and
    destination. *)
Definition redirection (regs : gmap Z Z) (i : Z) : option (Z * Z * bool * Z) :=
  match regs !! (0x10 + 2 * i), regs !! (0x11 + 2 * i) with
  | Some lo, Some hi => Some (Z.land lo 0xFF, Z.land (Z.shiftr lo 8) 7, Z.testbit lo 16, Z.shiftr hi 24)
  | _, _ => None
  end.

(** ** Lemmas *)

Lemma phys_from_small m va idx t e :
  lookup_from m t idx = Some (e, false) -> phys_from m t idx va = Some (frame_of e + va mod 4096).
Proof.
  revert t. induction idx as [|i rest IH]; intros t Hl; [done|]. cbn [lookup_from phys_from] in *.
  destruct (entry m t i) as [e0|]; [|done]. destruct (present e0); [|done]. simpl negb in *. cbv iota in *.
  destruct rest as [|j rest]; [by injection Hl as ->|].
  destruct ((length (j :: rest) <=? 2)%nat && huge e0); [done|by apply IH].
Qed.

Section Access.
Context {A : Type} `{FrameAllocator A}.
Implicit Types s : mio A.

(** The page at virtual address [v] is the one at physical address [p]. *)
Definition device_page s (v p : Z) : Prop :=
  v mod 4096 = 0 /\ exists e, translate (mm_mem (io_mm s)) (io_root s) v = Some (e, false) /\ frame_of e = p.

Lemma device_phys s v p off : device_page s v p -> 0 <= off < 4096 -> io_phys (v + off) s = Some (p + off).
Proof.
  intros (Hv & e & Ht & <-) Hoff. apply Z.div_exact in Hv; [|lia].
  assert ((v + off) / 4096 = v / 4096 /\ (v + off) mod 4096 = off) as [Hd Hm].
  { rewrite Hv, Z.mul_comm, Z.add_comm, Z.div_add, Z.mod_add, Z.div_mul by lia.
    rewrite Z.div_small, Z.mod_small by lia. lia. }
  unfold io_phys, mmu_phys. erewrite phys_from_small; [by rewrite Hm|].
  change (translate (mm_mem (io_mm s)) (io_root s) (v + off) = Some (e, false)).
  rewrite <- Ht. apply translate_same_page. by rewrite Hd.
Qed.

(** A store to a device, and what it keeps. *)
Definition wrote s pa v : mio A := set_io_bus (bus_write pa v (io_bus s)) s.
Lemma io_write32_done s v p off x :
  device_page s v p -> 0 <= off < 4096 -> io_write32 (v + off) x s = Done (tt, wrote s (p + off) (u32 x)).
Proof. intros Hd Hoff. unfold io_write32. by rewrite (kbind_done _ _ _ _ _ (kopt_some _ _ _ (device_phys _ _ _ _ Hd Hoff))). Qed.
Lemma io_read32_done s v p off :
  device_page s v p -> 0 <= off < 4096 -> io_read32 (v + off) s = Done (bus_read (p + off) (io_bus s), s).
Proof. intros Hd Hoff. unfold io_read32. by rewrite (kbind_done _ _ _ _ _ (kopt_some _ _ _ (device_phys _ _ _ _ Hd Hoff))). Qed.
Lemma device_page_wrote s pa x v p : device_page s v p -> device_page (wrote s pa x) v p.
Proof. done. Qed.

(** A store to the window of the local APIC goes wherever that page is mapped. *)
Lemma lapic_write_at p s off x :
  device_page s LAPIC_VADDR p -> 0 <= off < 4096 -> off mod 4 = 0 ->
  lapic_write off x s = Done (tt, wrote s (p + off) (u32 x)).
Proof.
  intros Hd Hoff Hal. unfold lapic_write. replace (4 * (off / 4)) with off by (Z.div_mod_to_equations; lia).
  by apply io_write32_done.
Qed.
Lemma lapic_write_done s off x :
  device_page s LAPIC_VADDR LAPIC_BASE_PHYS -> 0 <= off < 4096 -> off mod 4 = 0 ->
  lapic_write off x s = Done (tt, wrote s (LAPIC_BASE_PHYS + off) (u32 x)).
Proof. apply lapic_write_at. Qed.

Lemma ioapic_write_done s off x :
  device_page s IOAPIC_VADDR IOAPIC_BASE_PHYS ->
  ioapic_write off x s = Done (tt, wrote (wrote s IOAPIC_BASE_PHYS (u8 off)) (IOAPIC_BASE_PHYS + 0x10) (u32 x)).
Proof.
  intros Hd. unfold ioapic_write.
  assert (io_write32 IOAPIC_VADDR (u8 off) s = Done (tt, wrote s IOAPIC_BASE_PHYS (u8 off))) as E.
  { pose proof (io_write32_done s IOAPIC_VADDR IOAPIC_BASE_PHYS 0 (u8 off) Hd ltac:(lia)) as E.
    rewrite !Z.add_0_r in E. rewrite E. do 3 f_equal. apply wrap_small. pose proof (wrap_range 8 off). lia. }
  rewrite (kbind_done _ _ _ _ _ E). by apply (io_write32_done (wrote s IOAPIC_BASE_PHYS (u8 off))).
Qed.

(** The state after the writes [ws], latest first. *)
Definition wrote_all (ws : list (Z * Z)) s : mio A := foldr (fun w s => wrote s w.1 w.2) s ws.
Lemma wrote_all_log ws s : bus_log (io_bus (wrote_all ws s)) = ws ++ bus_log (io_bus s).
Proof. induction ws as [|[pa v] ws IH]; [done|]. simpl. by rewrite <- IH. Qed.
Lemma wrote_all_mm ws s :
  io_mm (wrote_all ws s) = io_mm s /\ io_ports (wrote_all ws s) = io_ports s /\
  apic_base_msr (wrote_all ws s) = apic_base_msr s.
Proof. by induction ws as [|[pa v] ws IH]. Qed.
Lemma wrote_all_regs ws s pa :
  forallb (fun w => negb (w.1 =? pa)) ws = true -> bus_read pa (io_bus (wrote_all ws s)) = bus_read pa (io_bus s).
Proof.
  induction ws as [|[a v] ws IH]; [done|]. cbn [forallb wrote_all foldr fst snd]. intros [Ha Hws]%andb_true_iff.
  apply negb_true_iff, Z.eqb_neq in Ha. unfold bus_read in *. cbn [io_bus wrote set_io_bus bus_write bus_regs].
  rewrite lookup_insert_ne by done. by apply IH.
Qed.
Lemma device_page_all ws s v p : device_page s v p -> device_page (wrote_all ws s) v p.
Proof. intros Hd. unfold device_page, io_root. by rewrite !(proj1 (wrote_all_mm ws s)). Qed.

(** The writes that program one line, and the first [n] lines. *)
Definition line_writes (i : Z) : list (Z * Z) :=
  [(IOAPIC_BASE_PHYS + 0x10, 0); (IOAPIC_BASE_PHYS, 0x11 + 2 * i);
   (IOAPIC_BASE_PHYS + 0x10, 32 + i); (IOAPIC_BASE_PHYS, 0x10 + 2 * i)].
Fixpoint lines_writes (n : nat) : list (Z * Z) :=
  match n with O => [] | S k => line_writes (Z.of_nat k) ++ lines_writes k end.

Lemma wrote_all_app ws1 ws2 s : wrote_all (ws1 ++ ws2) s = wrote_all ws1 (wrote_all ws2 s).
Proof. apply foldr_app. Qed.

Lemma ioapic_line_done s i :
  device_page s IOAPIC_VADDR IOAPIC_BASE_PHYS -> 0 <= i < 16 -> ioapic_line i s = Done (tt, wrote_all (line_writes i) s).
Proof.
  intros Hd Hi. unfold ioapic_line. change (Z.shiftl 0 8) with 0. change (Z.shiftl 0 11) with 0. change (Z.shiftl 0 16) with 0.
  rewrite !Z.lor_0_r. rewrite (kbind_done _ _ _ _ _ (ioapic_write_done _ _ _ Hd)).
  rewrite ioapic_write_done by done. rewrite !wrap_small by lia.
  rewrite (Z.mul_comm i 2). reflexivity.
Qed.

Lemma ioapic_init_done s :
  device_page s IOAPIC_VADDR IOAPIC_BASE_PHYS -> ioapic_init s = Done (tt, wrote_all (lines_writes 16) s).
Proof.
  intros Hd. assert (safe False ioapic_init s (fun _ s' => s' = wrote_all (lines_writes (Z.to_nat (0 + Z.of_nat 16))) s)) as Hs.
  { apply (safe_for_seqZ False ioapic_line (fun i s' => s' = wrote_all (lines_writes (Z.to_nat i)) s) 16 0 s).
    - done.
    - intros i s1 Hi ->. eapply safe_done; [apply ioapic_line_done; [by apply device_page_all|lia]|].
      rewrite <- wrote_all_app. replace (Z.to_nat (i + 1)) with (S (Z.to_nat i)) by lia. simpl. by rewrite Z2Nat.id by lia. }
  destruct (safe_inv _ _ _ Hs) as ([] & s' & E & ->). exact E.
Qed.

Lemma lapic_get_id_done s :
  device_page s LAPIC_VADDR LAPIC_BASE_PHYS ->
  lapic_get_id s = Done (Z.shiftr (bus_read (LAPIC_BASE_PHYS + LAPIC_ID) (io_bus s)) 24, s).
Proof.
  intros Hd. unfold lapic_get_id, lapic_read.
  by rewrite (kbind_done _ _ _ _ _ (io_read32_done s LAPIC_VADDR LAPIC_BASE_PHYS (4 * (LAPIC_ID / 4)) Hd ltac:(by split))).
Qed.

(** The writes that enable the local APIC. *)
Definition lapic_setup : list (Z * Z) :=
  [(LAPIC_BASE_PHYS + LAPIC_ERROR, 0); (LAPIC_BASE_PHYS + LAPIC_SVR, 0x1FF); (LAPIC_BASE_PHYS + 0xE0, 0xFFFFFFFF)].
Definition pic_masked s : mio A :=
  set_io_ports (mk_ports (port_in (io_ports s)) ((0xA1, 0xFF) :: (0x21, 0xFF) :: port_out (io_ports s))) s.
Definition msr_value (lo : Z) : Z := Z.land (Z.lor (Z.lor (Z.land lo 0xFFF) 0xFEE00000) 0x800) (cnot 32 0x400).

Lemma apic_init_done s :
  device_page s LAPIC_VADDR LAPIC_BASE_PHYS -> device_page s IOAPIC_VADDR IOAPIC_BASE_PHYS ->
  apic_init s = Done (tt, wrote_all (lines_writes 16 ++ lapic_setup)
                            (set_apic_base_msr (msr_value (apic_base_msr s).1, (apic_base_msr s).2) (pic_masked s))).
Proof.
  intros Hl Hio. unfold apic_init.
  assert (remap_pic s = Done (tt, pic_masked s)) as E by reflexivity. rewrite (kbind_done _ _ _ _ _ E).
  set (s1 := set_apic_base_msr (msr_value (apic_base_msr s).1, (apic_base_msr s).2) (pic_masked s)).
  assert (enable_apic_base (pic_masked s) = Done (tt, s1)) as E1
    by (unfold s1; clear; destruct s as [? ? ? [lo hi]]; reflexivity).
  rewrite (kbind_done _ _ _ _ _ E1).
  assert (device_page s1 LAPIC_VADDR LAPIC_BASE_PHYS /\ device_page s1 IOAPIC_VADDR IOAPIC_BASE_PHYS) as [Hl1 Hio1] by done.
  do 3 (erewrite kbind_done by (apply lapic_write_done; [done|by split|done])).
  change (wrote (wrote (wrote s1 _ _) _ _) _ _) with (wrote_all lapic_setup s1).
  erewrite kbind_done by (apply ioapic_init_done; by apply device_page_all).
  erewrite kbind_done by (apply lapic_get_id_done; by do 2 apply device_page_all).
  by rewrite wrote_all_app.
Qed.

(** What the I/O APIC holds after the writes of [ioapic_init]. *)
Lemma ioapic_regs_lines n log i :
  (n <= 16)%nat -> 0 <= i < Z.of_nat n ->
  redirection (ioapic_regs IOAPIC_BASE_PHYS (lines_writes n ++ log)) i = Some (32 + i, 0, false, 0).
Proof.
  intros Hn Hi. unfold ioapic_regs. rewrite foldr_app. generalize (foldr (ioapic_sees IOAPIC_BASE_PHYS) (0, ∅) log). intros st0.
  set (st := fun n => foldr (ioapic_sees IOAPIC_BASE_PHYS) st0 (lines_writes n)). change (redirection (st n).2 i = Some (32 + i, 0, false, 0)).
  assert (forall k, (k <= 16)%nat -> (st (S k)).2 = <[0x11 + 2 * Z.of_nat k := 0]> (<[0x10 + 2 * Z.of_nat k := 32 + Z.of_nat k]> (st k).2)
    \/ (16 <= k)%nat) as Hst.
  { intros k Hk. destruct (decide (16 <= k)%nat) as [|Hk16]; [by right|left].
    unfold st. cbn [lines_writes line_writes app foldr]. fold (st k).
    unfold ioapic_sees. cbn [fst snd]. rewrite !(wrap_small 8) by lia. reflexivity. }
  induction n as [|n IH]; [lia|]. destruct (Hst n ltac:(lia)) as [E|]; [|lia]. rewrite E. unfold redirection in *.
  destruct (decide (i = Z.of_nat n)) as [->|Hne].
  - rewrite (lookup_insert_ne _ (0x11 + 2 * Z.of_nat n) (0x10 + 2 * Z.of_nat n)), !lookup_insert_eq by lia.
    change 0xFF with (Z.ones 8). change 7 with (Z.ones 3). rewrite !Z.land_ones, Z.shiftr_div_pow2 by lia.
    rewrite (Z.mod_small _ (2 ^ 8)), (Z.div_small _ (2 ^ 8)) by lia.
    rewrite (testbit_range_high _ 8) by lia. done.
  - rewrite !lookup_insert_ne by lia. apply IH; lia.
Qed.
End Access.

(** ** Properties *)

Section Properties.
Context {A : Type} `{FrameAllocator A}.
Implicit Types s : mio A.

(** The page [off] of the register windows is what [arch_paging_init] maps. *)
Definition apic_pages s : Prop :=
  device_page s LAPIC_VADDR LAPIC_BASE_PHYS /\ device_page s IOAPIC_VADDR IOAPIC_BASE_PHYS.

(** C30: with the two register pages mapped, [apic_init] returns without touching
    memory or page tables; the I/O APIC then sends each of the sixteen lines,
    unmasked and in fixed mode, to processor 0 as vector 32 + line, the local
    APIC is enabled with spurious vector 255, both legacy controllers have every
    line masked, and the base register keeps its flags with the enable bit set
    and the x2APIC bit clear. *)
Theorem apic_init_routes s :
  apic_pages s ->
  exists s', apic_init s = Done (tt, s') /\ io_mm s' = io_mm s /\
    (forall i, 0 <= i < 16 ->
       redirection (ioapic_regs IOAPIC_BASE_PHYS (bus_log (io_bus s'))) i = Some (32 + i, 0, false, 0)) /\
    bus_read (LAPIC_BASE_PHYS + LAPIC_SVR) (io_bus s') = 0x1FF /\
    sent_to 0x21 (io_ports s') = sent_to 0x21 (io_ports s) ++ [0xFF] /\
    sent_to 0xA1 (io_ports s') = sent_to 0xA1 (io_ports s) ++ [0xFF] /\
    (let lo := (apic_base_msr s').1 in
     Z.testbit lo 11 = true /\ Z.testbit lo 10 = false /\ Z.shiftr lo 12 = 0xFEE00 /\
     forall k, 0 <= k < 10 -> Z.testbit lo k = Z.testbit (apic_base_msr s).1 k).
Proof.
  intros [Hl Hio]. eexists. split; [by apply apic_init_done|].
  set (s1 := set_apic_base_msr (msr_value (apic_base_msr s).1, (apic_base_msr s).2) (pic_masked s)).
  destruct (wrote_all_mm (lines_writes 16 ++ lapic_setup) s1) as (-> & -> & ->). split; [done|]. split; [|split; [|split; [|split]]].
  - intros i Hi. rewrite wrote_all_log, <- app_assoc. by apply ioapic_regs_lines.
  - rewrite wrote_all_app, wrote_all_regs by reflexivity. unfold bus_read.
    cbn [io_bus wrote_all lapic_setup foldr wrote set_io_bus bus_write bus_regs fst snd].
    by rewrite lookup_insert_ne, lookup_insert_eq by done.
  - cbn [s1 io_ports set_apic_base_msr pic_masked set_io_ports]. rewrite !sent_to_cons. by rewrite !app_nil_r.
  - cbn [s1 io_ports set_apic_base_msr pic_masked set_io_ports]. rewrite !sent_to_cons. by rewrite app_nil_r.
  - cbn [s1 apic_base_msr set_apic_base_msr fst]. unfold msr_value. destruct (apic_base_msr s) as [lo hi]. cbn [fst].
    change 0xFFF with (Z.ones 12).
    assert (forall k, 0 <= k -> Z.testbit (Z.land (Z.lor (Z.lor (Z.land lo (Z.ones 12)) 0xFEE00000) 0x800) (cnot 32 0x400)) k =
      ((bool_decide (k < 12) && Z.testbit lo k) || Z.testbit 0xFEE00000 k || (k =? 11)) && bool_decide (k < 32) && negb (k =? 10)) as Hb.
    { intros k Hk. rewrite Z.land_spec, !Z.lor_spec, Z.land_spec, Z.testbit_ones, testbit_cnot by lia.
      change 0x800 with (bit 11). change 0x400 with (bit 10). rewrite !testbit_bit by lia.
      rewrite (proj2 (Z.leb_le 0 k)) by lia. generalize (Z.testbit 0xFEE00000 k). intros b.
      destruct (Z.eqb_spec k 11), (Z.eqb_spec k 10), (Z.ltb_spec k 12); repeat case_bool_decide;
        destruct (Z.testbit lo k), b; simpl; done || lia. }
    split; [|split; [|split]].
    + rewrite Hb by lia. rewrite Z.eqb_refl, orb_true_r. done.
    + rewrite Hb by lia. by rewrite andb_false_r.
    + apply Z.bits_inj'. intros k Hk. rewrite Z.shiftr_spec, Hb by lia. rewrite bool_decide_false by lia.
      rewrite (proj2 (Z.eqb_neq (k + 12) 11)), (proj2 (Z.eqb_neq (k + 12) 10)) by lia. simpl. rewrite orb_false_r, andb_true_r.
      change 0xFEE00000 with (Z.shiftl 0xFEE00 12). rewrite Z.shiftl_spec by lia. replace (k + 12 - 12) with k by lia.
      destruct (decide (k < 20)); [by rewrite bool_decide_true, andb_true_r by lia|].
      rewrite bool_decide_false, andb_false_r by lia. symmetry. apply (testbit_range_high _ 20); lia.
    + intros k Hk. rewrite Hb by lia. rewrite !bool_decide_true by lia.
      rewrite (proj2 (Z.eqb_neq k 11)), (proj2 (Z.eqb_neq k 10)) by lia. simpl. rewrite orb_false_r, !andb_true_r.
      change 0xFEE00000 with (Z.shiftl 0xFEE00 12). rewrite Z.shiftl_spec_low by lia. by rewrite orb_false_r.
Qed.
End Properties.
