(* ===== verification/Nic.v ===== *)
(** * drivers/net/ethernet/intel/relis_nic: the network card

    [nic_hw.c] and [nic_netdev.c]; [nic_main.c] is in [Machine].  The registers of the card
    are reached through the page tables ([Apic]), the receive descriptors lie in
    memory the card shares.  The card itself appears only in the statement of
    the properties: it fills the descriptor at its head when its head is not the
    tail. *)

From S2P Require Import Prelude Memory StringLib PgTable FrameAlloc Paging VirtMem Ports Apic.

Definition E1000_VENDOR_ID : Z := 0x8086.
Definition E1000_DEVICE_ID : Z := 0x100E.
Definition E1000_NUM_RX_DESC : Z := 32.
Definition E1000_CTRL : Z := 0x0000.
Definition E1000_ICR : Z := 0x00C0.
Definition E1000_IMS : Z := 0x00D0.
Definition E1000_RCTL : Z := 0x0100.
Definition E1000_RDBAL : Z := 0x2800.
Definition E1000_RDBAH : Z := 0x2804.
Definition E1000_RDLEN : Z := 0x2808.
Definition E1000_RDH : Z := 0x2810.
Definition E1000_RDT : Z := 0x2818.

(** [struct e1000_rx_desc]: offsets of the fields the driver uses. *)
Definition sizeof_rx_desc : Z := 16.
Definition rx_buffer_addr_off : Z := 0.
Definition rx_length_off : Z := 8.
Definition rx_status_off : Z := 12.

Definition MMIO_VIRT_BASE : Z := 0xFFFFC90000000000.

Record nic (A : Type) := mk_nic {
  nic_io : mio A;
  nic_mmio_base : Z;              (* uint8_t * *)
  rx_descs : Z;                   (* struct e1000_rx_desc * *)
  rx_buffers : list Z             (* void *[32] *)
}.
Arguments mk_nic {A}.
Arguments nic_io {A}.
Arguments nic_mmio_base {A}.
Arguments rx_descs {A}.
Arguments rx_buffers {A}.

Section Operations.
Context {A : Type} `{FrameAllocator A}.

Definition set_nic_io (x : mio A) (s : nic A) : nic A := mk_nic x (nic_mmio_base s) (rx_descs s) (rx_buffers s).
Definition set_nic_mmio_base (x : Z) (s : nic A) : nic A := mk_nic (nic_io s) x (rx_descs s) (rx_buffers s).
Definition set_rx_descs (x : Z) (s : nic A) : nic A := mk_nic (nic_io s) (nic_mmio_base s) x (rx_buffers s).
Definition set_rx_buffers (x : list Z) (s : nic A) : nic A := mk_nic (nic_io s) (nic_mmio_base s) (rx_descs s) x.

Definition nic_mm (s : nic A) : mm_state A := io_mm (nic_io s).
Definition set_nic_mm (x : mm_state A) (s : nic A) : nic A := set_nic_io (set_io_mm x (nic_io s)) s.
Definition in_io {B} (m : M (mio A) B) : M (nic A) B := zoom nic_io set_nic_io m.
Definition in_mm {B} (m : M (mm_state A) B) : M (nic A) B := zoom nic_mm set_nic_mm m.
(** Kernel memory, where the descriptors are. *)
Definition in_ram {B} (m : M mem B) : M (nic A) B := in_mm (zoom mm_mem set_mm_mem m).

(** ** nic_hw.c *)

Definition nic_write_reg (offset value : Z) : M (nic A) unit :=
  let* base := kgets nic_mmio_base in
  in_io (io_write32 (base + offset) value).
Definition nic_read_reg (offset : Z) : M (nic A) Z :=
  let* base := kgets nic_mmio_base in
  in_io (io_read32 (base + offset)).

Definition nic_map_page (phys_bar0 i : Z) : M (mm_state A) unit :=
  arch_map_page (u64 (MMIO_VIRT_BASE + i * PAGE_SIZE)) (u64 (phys_bar0 + i * PAGE_SIZE))
    (Z.lor (Z.lor PTE_WRITABLE PTE_PCD) PTE_PWT).

Definition nic_hw_init (phys_bar0 : Z) : M (nic A) Z :=
  in_mm (kfor (seqZ 0 3) (nic_map_page phys_bar0));;;
  kmod (set_nic_mmio_base MMIO_VIRT_BASE);;;
  nic_write_reg E1000_CTRL (Z.shiftl 1 26);;;
  nic_write_reg E1000_IMS 0;;;
  kret 0.

(** ** nic_netdev.c *)

(** [rx_buffers[i] = p] *)
Definition put_rx_buffer (i p : Z) : M (nic A) unit :=
  kupd (fun s => if (0 <=? i) && (i <? Z.of_nat (length (rx_buffers s)))
                 then Some (set_rx_buffers (<[Z.to_nat i := p]> (rx_buffers s)) s) else None).
Definition rx_desc (i : Z) : M (nic A) Z := kgets (fun s => rx_descs s + sizeof_rx_desc * i).

Definition rx_init_desc (i : Z) : M (nic A) unit :=
  let* buf_phys := in_mm mm_alloc_page in
  put_rx_buffer i (phys_to_virt buf_phys);;;
  let* d := rx_desc i in
  in_ram (writeq (d + rx_buffer_addr_off) buf_phys);;;
  in_ram (writeb (d + rx_status_off) 0).

Definition nic_rx_init : M (nic A) unit :=
  let* phys_descs := in_mm mm_alloc_page in
  kmod (set_rx_descs (phys_to_virt phys_descs));;;
  kfor (seqZ 0 E1000_NUM_RX_DESC) rx_init_desc;;;
  nic_write_reg E1000_RDBAL (u32 phys_descs);;;
  nic_write_reg E1000_RDBAH (u32 (Z.shiftr phys_descs 32));;;
  nic_write_reg E1000_RDLEN (E1000_NUM_RX_DESC * sizeof_rx_desc);;;
  nic_write_reg E1000_RDH 0;;;
  nic_write_reg E1000_RDT (E1000_NUM_RX_DESC - 1);;;
  nic_write_reg E1000_RCTL (Z.lor (Z.shiftl 1 1) (Z.shiftl 1 4)).

(** The result is the length the function prints, [None] when it prints nothing. *)
Definition nic_rx_poll : M (nic A) (option Z) :=
  let* tail := nic_read_reg E1000_RDT in
  let next_tail := u32 (tail + 1) mod E1000_NUM_RX_DESC in
  let* d := rx_desc next_tail in
  let* status := in_ram (readb (d + rx_status_off)) in
  if istrue (Z.land status 0x01) then
    let* len := in_ram (readw (d + rx_length_off)) in
    in_ram (writeb (d + rx_status_off) 0);;;
    nic_write_reg E1000_RDT next_tail;;;
    kret (Some len)
  else kret None.

(** ** The card

    A packet of length [len] arrives at the card whose registers are at the
    physical address [bar]: the card drops it when its head has reached the
    tail, else it fills the descriptor at the head, sets the done bit, and moves
    the head. *)
Definition card_reg (bar off : Z) : M (nic A) Z := kgets (fun s => bus_read (bar + off) (io_bus (nic_io s))).
Definition card_set (bar off v : Z) : M (nic A) unit :=
  kmod (fun s => let b := io_bus (nic_io s) in
    set_nic_io (set_io_bus (mk_bus (<[bar + off := v]> (bus_regs b)) (bus_log b)) (nic_io s)) s).
Definition card_receive (bar len : Z) : M (nic A) unit :=
  let* head := card_reg bar E1000_RDH in
  let* tail := card_reg bar E1000_RDT in
  if head =? tail then kret tt else
  let* lo := card_reg bar E1000_RDBAL in
  let* hi := card_reg bar E1000_RDBAH in
  let* n := card_reg bar E1000_RDLEN in
  let d := phys_to_virt (hi * 2 ^ 32 + lo) + sizeof_rx_desc * head in
  in_ram (writew (d + rx_length_off) len);;;
  in_ram (writeb (d + rx_status_off) 1);;;
  card_set bar E1000_RDH ((head + 1) mod (n / sizeof_rx_desc)).

(** Packets arriving and polls of the driver, with the lengths the driver reports. *)
Inductive nic_event := Arrives (len : Z) | Polled.
Fixpoint nic_run (bar : Z) (evs : list nic_event) : M (nic A) (list Z) :=
  match evs with
  | [] => kret []
  | Arrives len :: rest => card_receive bar len;;; nic_run bar rest
  | Polled :: rest =>
      let* r := nic_rx_poll in
      let* out := nic_run bar rest in
      kret (option_list r ++ out)
  end.
End Operations.

(** The specification: a queue of 31 packets. *)
Fixpoint queue_run (evs : list nic_event) (q : list Z) : list Z :=
  match evs with
  | [] => []
  | Arrives len :: rest => queue_run rest (if (length q <? 31)%nat then q ++ [u16 len] else q)
  | Polled :: rest => match q with [] => queue_run rest [] | len :: q' => len :: queue_run rest q' end
  end.

(** ** The receive ring *)

(** The slot of the [k]-th descriptor after the tail. *)
Definition ring_index (tail k : Z) : Z := (tail + 1 + k) mod 32.
Lemma ring_index_range tail k : 0 <= ring_index tail k < 32.
Proof. apply Z.mod_pos_bound. lia. Qed.
Lemma ring_index_inj tail k k' : 0 <= k < 32 -> 0 <= k' < 32 -> ring_index tail k = ring_index tail k' -> k = k'.
Proof. unfold ring_index. intros. Z.div_mod_to_equations. lia. Qed.
Lemma ring_index_next tail k : ring_index (ring_index tail 0) k = ring_index tail (k + 1).
Proof. unfold ring_index. rewrite <- Zplus_assoc, Zplus_mod_idemp_l. f_equal. lia. Qed.
Lemma ring_index_wrap tail : ring_index tail 32 = ring_index tail 0.
Proof. unfold ring_index. replace (tail + 1 + 32) with (tail + 1 + 0 + 1 * 32) by lia. by rewrite Z.mod_add by lia. Qed.
Lemma ring_index_last tail k : 0 <= tail < 32 -> 0 <= k < 32 -> (ring_index tail k =? tail) = (k =? 31).
Proof.
  intros Ht Hk. unfold ring_index. destruct (Z.eqb_spec k 31) as [->|Hne].
  - apply Z.eqb_eq. replace (tail + 1 + 31) with (tail + 1 * 32) by lia. rewrite Z.mod_add by lia. by apply Z.mod_small.
  - apply Z.eqb_neq. intros E. Z.div_mod_to_equations. lia.
Qed.

Section Ring.
Context {A : Type} `{FrameAllocatorLaws A}.
Implicit Types (s : nic A) (L : gmap Z tag).

Definition nic_mem s : mem := mm_mem (nic_mm s).
Definition nic_root s : Z := io_root (nic_io s).
Definition slot (p tail k : Z) : Z := phys_to_virt p + sizeof_rx_desc * ring_index tail k.
Definition card s (bar off : Z) : Z := bus_read (bar + off) (io_bus (nic_io s)).

(** The frame [p] holds the ring, it is memory the page tables do not use, and the
    first and third page of the registers are mapped. *)
Record ring_place (bar : Z) s L (p : Z) : Prop := {
  rp_tables : tables_ok (nic_mm s) L;
  rp_root : L !! nic_root s = Some (Some (nic_root s), []);
  rp_frame : frame_ok p;
  rp_data : L !! p = None;
  rp_mapped : mapped (nic_mem s) (phys_to_virt p) 4096;
  rp_descs : rx_descs s = phys_to_virt p;
  rp_base : nic_mmio_base s = MMIO_VIRT_BASE;
  rp_pages i : i = 0 \/ i = 2 -> device_page (nic_io s) (MMIO_VIRT_BASE + i * 4096) (bar + i * 4096)
}.

(** The packets [q] wait in the descriptors after the tail; the others are the
    card's. *)
Record ring_ok (bar : Z) s L (p tail : Z) (q : list Z) : Prop := {
  ro_place : ring_place bar s L p;
  ro_tail : 0 <= tail < 32;
  ro_len : (length q <= 31)%nat;
  ro_rdt : card s bar E1000_RDT = tail;
  ro_rdh : card s bar E1000_RDH = ring_index tail (Z.of_nat (length q));
  ro_rdba : card s bar E1000_RDBAH * 2 ^ 32 + card s bar E1000_RDBAL = p;
  ro_rdlen : card s bar E1000_RDLEN = 512;
  ro_full (k : nat) len : q !! k = Some len ->
    peekn 1 (nic_mem s) (slot p tail k + rx_status_off) = Some 1 /\
    peekn 2 (nic_mem s) (slot p tail k + rx_length_off) = Some len;
  ro_free k : Z.of_nat (length q) <= k < 32 -> peekn 1 (nic_mem s) (slot p tail k + rx_status_off) = Some 0
}.

(** A store into the ring. *)
Definition poked s n a v : nic A := set_nic_mm (set_mm_mem (poken n (nic_mem s) a v) (nic_mm s)) s.

Lemma poked_mem s n a v : nic_mem (poked s n a v) = poken n (nic_mem s) a v.
Proof. apply mm_mem_set. Qed.

Lemma ring_store bar s L p n off v :
  ring_place bar s L p -> 0 <= off -> off + Z.of_nat n <= 4096 ->
  in_ram (storen n (phys_to_virt p + off) v) s = Done (tt, poked s n (phys_to_virt p + off) v) /\
  ring_place bar (poked s n (phys_to_virt p + off) v) L p.
Proof.
  intros [Htab Hroot Hf Hd Hm Hds Hb Hpg] Hoff Hend.
  assert (mapped (nic_mem s) (phys_to_virt p + off) (Z.of_nat n)) as Hmn.
  { intros i Hi. rewrite <- Z.add_assoc. apply Hm. lia. }
  destruct (data_write_at (nic_mm s) L p off (le_split n v) Htab Hf Hd (le_split_bytes _ _) Hoff
    ltac:(rewrite length_le_split; lia)) as (Htab' & _ & Hw). split.
  - unfold in_ram, in_mm. erewrite zoom_done; [done|]. erewrite zoom_done; [done|]. by apply storen_done.
  - constructor; [exact Htab'|exact Hroot|done|done| |done|done|].
    + rewrite poked_mem. by apply poken_mapped.
    + intros i Hi. destruct (Hpg i Hi) as (Hp1 & e & Ht & He). split; [done|]. exists e. split; [|done]. rewrite <- Ht.
      apply (Hw (nic_root s) (Some (nic_root s), [])); [done|done|apply indices_ok].
Qed.

(** Access to a register of these pages. *)
Definition reg_ok (off : Z) : Prop := 0 <= off /\ (off / 4096 = 0 \/ off / 4096 = 2).
Definition told s pa v : nic A := set_nic_io (wrote (nic_io s) pa v) s.
Lemma rdt_ok : reg_ok E1000_RDT.
Proof. split; [done|by right]. Qed.
Lemma ring_read bar s L p off :
  ring_place bar s L p -> reg_ok off -> nic_read_reg off s = Done (card s bar off, s).
Proof.
  intros [_ _ _ _ _ _ Hb Hpg] [Hnn Hoff]. unfold nic_read_reg. erewrite kbind_done by reflexivity. rewrite Hb. unfold in_io.
  pose proof (Z.div_mod off 4096 ltac:(lia)) as Hdm. pose proof (Z.mod_pos_bound off 4096 ltac:(lia)) as Hmb.
  replace (MMIO_VIRT_BASE + off) with (MMIO_VIRT_BASE + off / 4096 * 4096 + off mod 4096) by lia.
  erewrite zoom_done by (apply (io_read32_done _ _ _ _ (Hpg _ Hoff)); lia).
  replace (bar + off / 4096 * 4096 + off mod 4096) with (bar + off) by lia. by destruct s.
Qed.
Lemma ring_write bar s L p off v :
  ring_place bar s L p -> reg_ok off -> 0 <= v < 2 ^ 32 ->
  nic_write_reg off v s = Done (tt, told s (bar + off) v) /\ ring_place bar (told s (bar + off) v) L p.
Proof.
  intros Hr Hoff Hv. split; [|by destruct Hr].
  destruct Hr as [_ _ _ _ _ _ Hb Hpg], Hoff as [Hnn Hoff]. unfold nic_write_reg. erewrite kbind_done by reflexivity. rewrite Hb.
  unfold in_io. pose proof (Z.div_mod off 4096 ltac:(lia)) as Hdm. pose proof (Z.mod_pos_bound off 4096 ltac:(lia)) as Hmb.
  replace (MMIO_VIRT_BASE + off) with (MMIO_VIRT_BASE + off / 4096 * 4096 + off mod 4096) by lia.
  erewrite zoom_done by (apply (io_write32_done _ _ _ _ _ (Hpg _ Hoff)); lia).
  replace (bar + off / 4096 * 4096 + off mod 4096) with (bar + off) by lia. by rewrite wrap_small by lia.
Qed.

Lemma card_told s bar off off' v : card (told s (bar + off) v) bar off' = if decide (off = off') then v else card s bar off'.
Proof.
  unfold card, told, bus_read. cbn [nic_io set_nic_io wrote set_io_bus io_bus bus_write bus_regs]. rewrite lookup_insert.
  destruct (decide (off = off')) as [->|Hne]; [by rewrite decide_True|]. by rewrite decide_False by lia.
Qed.
Lemma card_poked s n a v bar off : card (poked s n a v) bar off = card s bar off.
Proof. done. Qed.

Lemma peekn_poken_apart n n' m a v b :
  b + Z.of_nat n' <= a \/ a + Z.of_nat n <= b -> peekn n' (poken n m a v) b = peekn n' m b.
Proof. intros Hab. apply peekn_eq. intros x Hx. apply lookup_poken_out. lia. Qed.

(** Stores into one descriptor do not show in another. *)
Lemma slot_poke_ne p tail k k' n n' o o' v m :
  0 <= k < 32 -> 0 <= k' < 32 -> k <> k' -> 0 <= o -> o + Z.of_nat n <= 16 -> 0 <= o' -> o' + Z.of_nat n' <= 16 ->
  peekn n' (poken n m (slot p tail k + o) v) (slot p tail k' + o') = peekn n' m (slot p tail k' + o').
Proof.
  intros Hk Hk' Hne Ho Hon Ho' Hon'. apply peekn_poken_apart.
  assert (ring_index tail k <> ring_index tail k') by (intros E; by apply Hne, (ring_index_inj tail)).
  unfold slot, sizeof_rx_desc in *. lia.
Qed.

Lemma slot_off p tail k o : slot p tail k + o = phys_to_virt p + (sizeof_rx_desc * ring_index tail k + o).
Proof. unfold slot. lia. Qed.

(** Loads from the ring. *)
Lemma ring_load s n a v : peekn n (nic_mem s) a = Some v -> in_ram (loadn n a) s = Done (v, s).
Proof.
  intros Hv. unfold in_ram, in_mm. erewrite zoom_done; [|erewrite zoom_done; [done|by apply loadn_done]].
  replace (set_mm_mem (mm_mem (nic_mm s)) (nic_mm s)) with (nic_mm s); [by destruct s as [[]]|].
  unfold set_mm_mem, mm_mem. rewrite fa_set_mem_same. by destruct (nic_mm s).
Qed.

Lemma slot_store bar s L p tail k n o v :
  ring_place bar s L p -> 0 <= o -> o + Z.of_nat n <= 16 ->
  in_ram (storen n (slot p tail k + o) v) s = Done (tt, poked s n (slot p tail k + o) v) /\
  ring_place bar (poked s n (slot p tail k + o) v) L p.
Proof.
  intros Hp Ho Hn. pose proof (ring_index_range tail k). rewrite slot_off. apply ring_store; [done|..]; unfold sizeof_rx_desc; lia.
Qed.

(** Changes of the registers of the card only. *)
Lemma ring_ok_place bar s L p tail q s' :
  ring_ok bar s L p tail q -> ring_place bar s' L p -> nic_mem s' = nic_mem s ->
  (forall off, card s' bar off = card s bar off) -> ring_ok bar s' L p tail q.
Proof.
  intros [? ? ? ? ? ? ? Hfull Hfree] Hp Hm Hc. constructor; rewrite ?Hc; try done; intros ? **; rewrite Hm; by auto.
Qed.

(** Polling takes the oldest packet, if there is one. *)
Lemma nic_rx_poll_empty bar s L p tail :
  ring_ok bar s L p tail [] -> nic_rx_poll s = Done (None, s).
Proof.
  intros Hr. pose proof (ro_tail _ _ _ _ _ _ Hr) as Ht. pose proof (ro_place _ _ _ _ _ _ Hr) as Hp. unfold nic_rx_poll.
  erewrite kbind_done by (eapply (ring_read bar); [done|apply rdt_ok]). rewrite (ro_rdt _ _ _ _ _ _ Hr), wrap_small by lia.
  erewrite kbind_done by reflexivity. rewrite (rp_descs _ _ _ _ Hp).
  replace ((tail + 1) mod E1000_NUM_RX_DESC) with (ring_index tail 0) by (unfold ring_index; by rewrite Z.add_0_r).
  fold (slot p tail 0). erewrite kbind_done by (apply ring_load, (ro_free _ _ _ _ _ _ Hr); by split). done.
Qed.

Lemma nic_rx_poll_cons bar s L p tail len q :
  ring_ok bar s L p tail (len :: q) ->
  exists s', nic_rx_poll s = Done (Some len, s') /\ ring_ok bar s' L p (ring_index tail 0) q.
Proof.
  intros Hr. pose proof (ro_tail _ _ _ _ _ _ Hr) as Ht. pose proof (ro_place _ _ _ _ _ _ Hr) as Hp.
  pose proof (ring_index_range tail 0) as Hi. pose proof (ro_len _ _ _ _ _ _ Hr) as Hlen. simpl in Hlen. unfold nic_rx_poll.
  erewrite kbind_done by (eapply (ring_read bar); [done|apply rdt_ok]). rewrite (ro_rdt _ _ _ _ _ _ Hr), wrap_small by lia.
  erewrite kbind_done by reflexivity. rewrite (rp_descs _ _ _ _ Hp).
  replace ((tail + 1) mod E1000_NUM_RX_DESC) with (ring_index tail 0) by (unfold ring_index; by rewrite Z.add_0_r).
  fold (slot p tail 0). destruct (ro_full _ _ _ _ _ _ Hr 0%nat len eq_refl) as [Hst Hl].
  erewrite kbind_done by (apply ring_load, Hst). change (istrue (Z.land 1 1)) with true. cbv iota.
  erewrite kbind_done by (apply ring_load, Hl).
  destruct (slot_store bar s L p tail 0 1 rx_status_off 0 Hp ltac:(by vm_compute) ltac:(by vm_compute)) as [E1 Hp1].
  rewrite (kbind_done _ _ _ _ _ E1). set (s1 := poked s 1 _ 0) in *.
  destruct (ring_write bar s1 L p E1000_RDT (ring_index tail 0) Hp1 rdt_ok ltac:(lia)) as [E2 Hp2].
  rewrite (kbind_done _ _ _ _ _ E2). set (s2 := told s1 _ _) in *. exists s2. split; [done|].
  assert (forall k k' : Z, k' = k + 1 -> slot p (ring_index tail 0) k = slot p tail k') as Hslot
    by (intros k k' ->; unfold slot; by rewrite ring_index_next).
  assert (nic_mem s2 = poken 1 (nic_mem s) (slot p tail 0 + rx_status_off) 0) as Hmem by apply poked_mem.
  constructor; [done|done|lia|..].
  - unfold s2. by rewrite card_told, decide_True.
  - unfold s2. rewrite card_told, decide_False by done. rewrite ring_index_next. unfold s1. rewrite card_poked.
    rewrite (ro_rdh _ _ _ _ _ _ Hr). f_equal. cbn [length]. lia.
  - unfold s2. rewrite !card_told, !decide_False by done. apply (ro_rdba _ _ _ _ _ _ Hr).
  - unfold s2. rewrite !card_told, !decide_False by done. apply (ro_rdlen _ _ _ _ _ _ Hr).
  - intros k l Hk. pose proof (lookup_lt_Some _ _ _ Hk). rewrite (Hslot k (Z.of_nat (S k))) by lia. rewrite Hmem.
    rewrite !slot_poke_ne by (lia || by vm_compute). by apply (ro_full _ _ _ _ _ _ Hr (S k)).
  - intros k Hk. rewrite (Hslot k (k + 1)) by lia. rewrite Hmem. destruct (decide (k = 31)) as [->|Hne].
    + assert (slot p tail (31 + 1) = slot p tail 0) as -> by (unfold slot; f_equal; f_equal; apply ring_index_wrap).
      rewrite peekn_poken_eq; [done|]. intros i Hi'. rewrite slot_off, <- Z.add_assoc. apply (rp_mapped _ _ _ _ Hp).
      unfold sizeof_rx_desc, rx_status_off. lia.
    + rewrite slot_poke_ne by (lia || by vm_compute). apply (ro_free _ _ _ _ _ _ Hr). cbn [length]. lia.
Qed.
(** A packet arrives. *)
Definition moved s pa v : nic A :=
  set_nic_io (set_io_bus (mk_bus (<[pa := v]> (bus_regs (io_bus (nic_io s)))) (bus_log (io_bus (nic_io s)))) (nic_io s)) s.
Lemma card_moved s bar off off' v : card (moved s (bar + off) v) bar off' = if decide (off = off') then v else card s bar off'.
Proof.
  unfold card, moved, bus_read. cbn [nic_io set_nic_io set_io_bus io_bus bus_regs]. rewrite lookup_insert.
  destruct (decide (off = off')) as [->|Hne]; [by rewrite decide_True|]. by rewrite decide_False by lia.
Qed.

Lemma card_receive_full bar s L p tail q len :
  ring_ok bar s L p tail q -> length q = 31%nat -> card_receive bar len s = Done (tt, s).
Proof.
  intros Hr Hq. unfold card_receive. do 2 erewrite kbind_done by reflexivity. fold (card s bar E1000_RDH) (card s bar E1000_RDT).
  rewrite (ro_rdh _ _ _ _ _ _ Hr), (ro_rdt _ _ _ _ _ _ Hr), ring_index_last, Hq by (lia || apply (ro_tail _ _ _ _ _ _ Hr)).
  done.
Qed.

Lemma card_receive_room bar s L p tail q len :
  ring_ok bar s L p tail q -> (length q < 31)%nat ->
  exists s', card_receive bar len s = Done (tt, s') /\ ring_ok bar s' L p tail (q ++ [u16 len]).
Proof.
  intros Hr Hq. pose proof (ro_tail _ _ _ _ _ _ Hr) as Ht. pose proof (ro_place _ _ _ _ _ _ Hr) as Hp.
  set (n := Z.of_nat (length q)). pose proof (ring_index_range tail n) as Hi. unfold card_receive.
  do 2 erewrite kbind_done by reflexivity. fold (card s bar E1000_RDH) (card s bar E1000_RDT).
  rewrite (ro_rdh _ _ _ _ _ _ Hr), (ro_rdt _ _ _ _ _ _ Hr), ring_index_last by lia. rewrite (proj2 (Z.eqb_neq _ 31)) by lia.
  do 3 erewrite kbind_done by reflexivity. fold (card s bar E1000_RDBAL) (card s bar E1000_RDBAH) (card s bar E1000_RDLEN).
  rewrite (ro_rdba _ _ _ _ _ _ Hr), (ro_rdlen _ _ _ _ _ _ Hr). fold n. fold (slot p tail n).
  destruct (slot_store bar s L p tail n 2 rx_length_off len Hp ltac:(by vm_compute) ltac:(by vm_compute)) as [E1 Hp1].
  rewrite (kbind_done _ _ _ _ _ E1). set (s1 := poked s 2 _ len) in *.
  destruct (slot_store bar s1 L p tail n 1 rx_status_off 1 Hp1 ltac:(by vm_compute) ltac:(by vm_compute)) as [E2 Hp2].
  rewrite (kbind_done _ _ _ _ _ E2). set (s2 := poked s1 1 _ 1) in *.
  exists (moved s2 (bar + E1000_RDH) ((ring_index tail n + 1) mod (512 / sizeof_rx_desc))). split; [done|].
  assert (forall a k, mapped (nic_mem s) (slot p tail n + a) (Z.of_nat k) \/ ~ (0 <= a /\ a + Z.of_nat k <= 16)) as Hmap.
  { intros a k. destruct (decide (0 <= a /\ a + Z.of_nat k <= 16)); [left|by right]. intros i Hi'.
    rewrite slot_off, <- Z.add_assoc. apply (rp_mapped _ _ _ _ Hp). unfold sizeof_rx_desc. lia. }
  set (s3 := moved s2 _ _). assert (nic_mem s3 = poken 1 (poken 2 (nic_mem s) (slot p tail n + rx_length_off) len) (slot p tail n + rx_status_off) 1) as Hmem.
  { change (nic_mem s2 = poken 1 (poken 2 (nic_mem s) (slot p tail n + rx_length_off) len) (slot p tail n + rx_status_off) 1).
    unfold s2. rewrite poked_mem. unfold s1. by rewrite poked_mem. }
  constructor; rewrite ?length_app; cbn [length].
  - by destruct Hp2.
  - done.
  - lia.
  - unfold s3. rewrite card_moved, decide_False by done. apply (ro_rdt _ _ _ _ _ _ Hr).
  - unfold s3. rewrite card_moved, decide_True by done. unfold ring_index. change (512 / sizeof_rx_desc) with 32.
    rewrite Zplus_mod_idemp_l. f_equal. lia.
  - unfold s3. rewrite !card_moved, !decide_False by done. apply (ro_rdba _ _ _ _ _ _ Hr).
  - unfold s3. rewrite !card_moved, !decide_False by done. apply (ro_rdlen _ _ _ _ _ _ Hr).
  - intros k l Hk. rewrite Hmem. apply lookup_app_Some in Hk as [Hk|[Hge [Hk0 <-]%list_lookup_singleton_Some]].
    + pose proof (lookup_lt_Some _ _ _ Hk). rewrite !slot_poke_ne by (lia || by vm_compute).
      by apply (ro_full _ _ _ _ _ _ Hr k).
    + replace (Z.of_nat k) with n by lia. split.
      * rewrite peekn_poken_eq; [done|]. apply poken_mapped. destruct (Hmap rx_status_off 1%nat) as [|Hx]; [done|]. exfalso. apply Hx. by vm_compute.
      * rewrite peekn_poken_apart by (unfold rx_length_off, rx_status_off; lia).
        rewrite peekn_poken_eq; [done|]. destruct (Hmap rx_length_off 2%nat) as [|Hx]; [done|]. exfalso. apply Hx. by vm_compute.
  - intros k Hk. rewrite Hmem, !slot_poke_ne by (lia || by vm_compute). apply (ro_free _ _ _ _ _ _ Hr). lia.
Qed.

(** Any sequence of arrivals and polls. *)
Lemma nic_run_refines bar evs : forall s L p tail q,
  ring_ok bar s L p tail q -> exists s', nic_run bar evs s = Done (queue_run evs q, s').
Proof.
  induction evs as [|[len|] evs IH]; intros s L p tail q Hr; cbn [nic_run queue_run].
  - by exists s.
  - destruct (Nat.ltb_spec (length q) 31) as [Hlt|Hge].
    + destruct (card_receive_room bar s L p tail q len Hr Hlt) as (s1 & E & Hr1).
      rewrite (kbind_done _ _ _ _ _ E). by apply (IH s1 L p tail).
    + pose proof (ro_len _ _ _ _ _ _ Hr). rewrite (kbind_done _ _ _ _ _ (card_receive_full _ _ _ _ _ _ len Hr ltac:(lia))).
      by apply (IH s L p tail).
  - destruct q as [|len q].
    + rewrite (kbind_done _ _ _ _ _ (nic_rx_poll_empty _ _ _ _ _ Hr)). destruct (IH _ _ _ _ _ Hr) as (s' & E).
      exists s'. by rewrite (kbind_done _ _ _ _ _ E).
    + destruct (nic_rx_poll_cons _ _ _ _ _ _ _ Hr) as (s1 & E1 & Hr1). rewrite (kbind_done _ _ _ _ _ E1).
      destruct (IH _ _ _ _ _ Hr1) as (s' & E). exists s'. by rewrite (kbind_done _ _ _ _ _ E).
Qed.
End Ring.

(** ** Setting the ring up *)

Section Setup.
Context {A : Type} `{FrameAllocatorLaws A}.
Implicit Types (s : nic A) (L : gmap Z tag).

(** The driver is attached to the card at [bar]. *)
Record nic_attached (bar : Z) s L : Prop := {
  na_tables : tables_ok (nic_mm s) L;
  na_root : L !! nic_root s = Some (Some (nic_root s), []);
  na_base : nic_mmio_base s = MMIO_VIRT_BASE;
  na_pages i : i = 0 \/ i = 2 -> device_page (nic_io s) (MMIO_VIRT_BASE + i * 4096) (bar + i * 4096);
  na_buffers : length (rx_buffers s) = 32%nat
}.

(** The state after [set_nic_mm]. *)
Lemma attached_fresh bar s L p m :
  nic_attached bar s L -> fresh (nic_mm s) p m -> nic_attached bar (set_nic_mm m s) L /\ L !! p = None.
Proof.
  intros [Htab Hroot Hb Hpg Hbuf] Hp. destruct (fresh_regs _ _ _ Hp) as (Hcr & _).
  assert (nic_root (set_nic_mm m s) = nic_root s) as Hrt
    by (unfold nic_root, io_root; cbn [set_nic_mm set_nic_io set_io_mm nic_io io_mm]; by rewrite Hcr).
  split.
  - constructor; [by eapply tables_ok_fresh|by rewrite Hrt|done| |done].
    intros i Hi. destruct (Hpg i Hi) as (Ha & e & Ht & He). split; [done|]. exists e. split; [|done].
    change (translate (mm_mem m) (nic_root (set_nic_mm m s)) (MMIO_VIRT_BASE + i * 4096) = Some (e, false)).
    rewrite Hrt. by erewrite fresh_translate.
  - destruct (L !! p) as [g|] eqn:E; [|done]. destruct (tok_frame _ _ Htab _ _ E) as (_ & Hu & _).
    by destruct (fresh_unused _ _ _ Hp).
Qed.

Lemma fresh_other s p m q a : fresh (nic_mm s) p m -> frame_ok q -> q <> p -> page_addr q a -> mm_mem m !! a = nic_mem s !! a.
Proof.
  intros Hp Hq Hne Ha. rewrite (fresh_mem _ _ _ Hp). apply lookup_write_list_out. rewrite length_zero_page.
  pose proof (page_apart q p a Hq (fresh_frame _ _ _ Hp) Hne Ha) as Hno. unfold page_addr in Hno. rewrite PAGE_SIZE_eq in *. lia.
Qed.

(** A frame that is not a table, with the attachment, is a place for the ring. *)
Lemma attached_place bar s L p :
  nic_attached bar s L -> frame_ok p -> L !! p = None -> mapped (nic_mem s) (phys_to_virt p) 4096 ->
  rx_descs s = phys_to_virt p -> ring_place bar s L p.
Proof. intros [] **. by constructor. Qed.
Lemma place_attached bar s L p : ring_place bar s L p -> length (rx_buffers s) = 32%nat -> nic_attached bar s L.
Proof. intros [] **. by constructor. Qed.

(** After [i] descriptors: their buffers are distinct frames that were free in
    [s0], and no descriptor is done. *)
Record filling (bar : Z) (s0 : nic A) L (p i : Z) (bs : list Z) s : Prop := {
  fl_place : ring_place bar s L p;
  fl_buffers : length (rx_buffers s) = 32%nat;
  fl_len : Z.of_nat (length bs) = i;
  fl_fresh b : b ∈ p :: bs -> ~ fa_used (mm_frames (nic_mm s0)) b /\ fa_used (mm_frames (nic_mm s)) b;
  fl_used b : fa_used (mm_frames (nic_mm s0)) b -> fa_used (mm_frames (nic_mm s)) b;
  fl_nodup : NoDup (p :: bs);
  fl_avail : fa_avail (mm_frames (nic_mm s)) = fa_avail (mm_frames (nic_mm s0)) - 1 - i;
  fl_addr (j : nat) b : bs !! j = Some b -> peek64 (nic_mem s) (slot p 31 j + rx_buffer_addr_off) = Some b;
  fl_free k : 0 <= k < 32 -> peekn 1 (nic_mem s) (slot p 31 k + rx_status_off) = Some 0
}.

Lemma slot_first p k : 0 <= k < 32 -> slot p 31 k = phys_to_virt p + sizeof_rx_desc * k.
Proof.
  intros Hk. unfold slot, ring_index. replace (31 + 1 + k) with (k + 1 * 32) by lia. by rewrite Z.mod_add, Z.mod_small by lia.
Qed.

Lemma frame_word p : frame_ok p -> 0 <= p < 2 ^ 64.
Proof. unfold frame_ok. lia. Qed.

(** The page of the ring is not touched when a buffer is allocated. *)
Lemma filling_alloc bar s0 L p i bs s b m :
  filling bar s0 L p i bs s -> fresh (nic_mm s) b m ->
  ring_place bar (set_nic_mm m s) L p /\ (b ∉ p :: bs) /\
  forall k o n, 0 <= k < 32 -> 0 <= o -> o + Z.of_nat n <= 16 ->
    peekn n (mm_mem m) (slot p 31 k + o) = peekn n (nic_mem s) (slot p 31 k + o).
Proof.
  intros Hf Hb. pose proof (fl_place _ _ _ _ _ _ _ Hf) as Hp.
  destruct (attached_fresh bar s L b m (place_attached _ _ _ _ Hp (fl_buffers _ _ _ _ _ _ _ Hf)) Hb) as [Hat _].
  assert (b ∉ p :: bs) as Hnew by (intros Hin; by apply (fresh_unused _ _ _ Hb), (fl_fresh _ _ _ _ _ _ _ Hf)).
  split; [|split; [done|]].
  - apply attached_place; [done|apply Hp|apply Hp| |apply Hp].
    change (mapped (mm_mem m) (phys_to_virt p) 4096). rewrite (fresh_mem _ _ _ Hb). apply write_list_mapped, Hp.
  - intros k o n Hk Ho Hon. apply peekn_eq. intros x Hx.
    apply (fresh_other s b m p); [done|apply Hp|intros ->; apply Hnew; left|].
    rewrite slot_first in Hx by done. unfold page_addr, sizeof_rx_desc in *. rewrite PAGE_SIZE_eq. lia.
Qed.

Lemma rx_init_desc_step bar s0 L p i bs s :
  filling bar s0 L p i bs s -> 0 <= i < 32 ->
  safe (fa_avail (mm_frames (nic_mm s0)) < 33) (rx_init_desc i) s (fun _ s' => exists b, filling bar s0 L p (i + 1) (bs ++ [b]) s').
Proof.
  intros Hf Hi. pose proof (fl_place _ _ _ _ _ _ _ Hf) as Hp. pose proof (fl_avail _ _ _ _ _ _ _ Hf) as Hav.
  unfold rx_init_desc. apply safe_bind, safe_zoom, safe_alloc; [apply (tok_wf _ _ (rp_tables _ _ _ _ Hp))|lia|]. intros b m Hb.
  destruct (filling_alloc _ _ _ _ _ _ _ _ _ Hf Hb) as (Hp1 & Hnew & Hpk). set (s1 := set_nic_mm m s) in *.
  set (s2 := set_rx_buffers (<[Z.to_nat i := phys_to_virt b]> (rx_buffers s1)) s1).
  assert (put_rx_buffer i (phys_to_virt b) s1 = Done (tt, s2)) as E2.
  { apply kupd_some. change (rx_buffers s1) with (rx_buffers s). rewrite (fl_buffers _ _ _ _ _ _ _ Hf).
    by rewrite (proj2 (Z.leb_le 0 i)), (proj2 (Z.ltb_lt i _)) by lia. }
  apply (safe_step _ _ _ _ _ _ _ E2). assert (ring_place bar s2 L p) as Hp2 by (by destruct Hp1).
  eapply safe_step; [reflexivity|]. rewrite (rp_descs _ _ _ _ Hp2), <- (slot_first p i) by done.
  destruct (slot_store bar s2 L p 31 i 8 rx_buffer_addr_off b Hp2 ltac:(by vm_compute) ltac:(by vm_compute)) as [E3 Hp3].
  apply (safe_step _ _ _ _ _ _ _ E3). set (s3 := poked s2 8 _ b) in *.
  destruct (slot_store bar s3 L p 31 i 1 rx_status_off 0 Hp3 ltac:(by vm_compute) ltac:(by vm_compute)) as [E4 Hp4].
  eapply safe_done; [exact E4|]. set (s4 := poked s3 1 _ 0) in *. exists b.
  assert (nic_mem s4 = poken 1 (poken 8 (mm_mem m) (slot p 31 i + rx_buffer_addr_off) b) (slot p 31 i + rx_status_off) 0) as Hmem
    by (unfold s4; rewrite poked_mem; unfold s3; by rewrite poked_mem).
  assert (forall x, fa_used (mm_frames (nic_mm s4)) x <-> x = b \/ fa_used (mm_frames (nic_mm s)) x) as Hus.
  { intros x. unfold s4, s3, poked. cbn [nic_mm set_nic_mm set_nic_io set_io_mm nic_io io_mm set_mm_mem set_mm_frames mm_frames].
    rewrite !fa_used_set. apply (fresh_used _ _ _ Hb). }
  constructor.
  - done.
  - change (length (<[Z.to_nat i := phys_to_virt b]> (rx_buffers s)) = 32%nat). rewrite length_insert. apply Hf.
  - rewrite length_app. cbn [length]. pose proof (fl_len _ _ _ _ _ _ _ Hf). lia.
  - intros x Hx. rewrite Hus. assert (x = b \/ x ∈ p :: bs) as [->|Hin] by set_solver.
    + split; [|by left]. intros Hu. by apply (fresh_unused _ _ _ Hb), (fl_used _ _ _ _ _ _ _ Hf).
    + destruct (fl_fresh _ _ _ _ _ _ _ Hf x Hin). by auto.
  - intros x Hx. rewrite Hus. right. by apply (fl_used _ _ _ _ _ _ _ Hf).
  - apply (nodup_snoc (p :: bs) b); [apply Hf|done].
  - unfold s4, s3, poked. cbn [nic_mm set_nic_mm set_nic_io set_io_mm nic_io io_mm set_mm_mem set_mm_frames mm_frames].
    rewrite !fa_avail_set. change (fa_avail (mm_frames m) = fa_avail (mm_frames (nic_mm s0)) - 1 - (i + 1)).
    rewrite (fresh_avail _ _ _ Hb). lia.
  - intros j x Hj. rewrite Hmem. pose proof (fl_len _ _ _ _ _ _ _ Hf) as Hlen.
    apply lookup_app_Some in Hj as [Hj|[Hge [Hj0 <-]%list_lookup_singleton_Some]].
    + pose proof (lookup_lt_Some _ _ _ Hj). rewrite !slot_poke_ne by (lia || by vm_compute). rewrite Hpk by (lia || by vm_compute).
      by apply (fl_addr _ _ _ _ _ _ _ Hf).
    + replace (Z.of_nat j) with i by lia. rewrite peekn_poken_apart by (unfold rx_buffer_addr_off, rx_status_off; lia).
      rewrite peekn_poken_eq; [f_equal; apply Z.mod_small, frame_word, (fresh_frame _ _ _ Hb)|].
      intros x Hx. unfold rx_buffer_addr_off. rewrite Z.add_0_r.
      change (is_Some (nic_mem s2 !! (slot p 31 i + x))). rewrite slot_first, <- Z.add_assoc by done.
      apply (rp_mapped _ _ _ _ Hp2). unfold sizeof_rx_desc. lia.
  - intros k Hk. rewrite Hmem. destruct (decide (k = i)) as [->|Hne].
    + rewrite peekn_poken_eq; [done|]. intros x Hx. apply poken_mapped with (k := 1); [|lia]. intros y Hy.
      change (is_Some (nic_mem s2 !! (slot p 31 i + rx_status_off + y))). rewrite slot_first, <- !Z.add_assoc by done.
      apply (rp_mapped _ _ _ _ Hp2). unfold sizeof_rx_desc, rx_status_off. lia.
    + rewrite !slot_poke_ne by (lia || by vm_compute). rewrite Hpk by (lia || by vm_compute). by apply (fl_free _ _ _ _ _ _ _ Hf).
Qed.
(** The first allocation gives the page of the descriptors. *)
Lemma filling_start bar s L p m :
  nic_attached bar s L -> fresh (nic_mm s) p m ->
  filling bar s L p 0 [] (set_rx_descs (phys_to_virt p) (set_nic_mm m s)).
Proof.
  intros Hat Hp. destruct (attached_fresh _ _ _ _ _ Hat Hp) as [Hat1 HL].
  assert (mapped (mm_mem m) (phys_to_virt p) 4096) as Hm.
  { rewrite (fresh_mem _ _ _ Hp). apply write_list_mapped. rewrite <- PAGE_SIZE_eq. apply Hp. }
  constructor.
  - apply attached_place; [by destruct Hat1|apply Hp|done|exact Hm|done].
  - apply (na_buffers _ _ _ Hat).
  - done.
  - intros b ->%list_elem_of_singleton. split; [apply Hp|]. apply (fresh_used _ _ _ Hp). by left.
  - intros b Hb. apply (fresh_used _ _ _ Hp). by right.
  - apply NoDup_singleton.
  - change (fa_avail (mm_frames m) = fa_avail (mm_frames (nic_mm s)) - 1 - 0). rewrite (fresh_avail _ _ _ Hp). lia.
  - done.
  - intros k Hk. apply peekn_zeros. rewrite slot_first by done. intros i b Hb. apply lookup_replicate in Hb as [-> Hi].
    change (mm_mem m !! (phys_to_virt p + sizeof_rx_desc * k + rx_status_off + Z.of_nat i) = Some 0).
    rewrite (fresh_mem _ _ _ Hp), lookup_write_list, length_zero_page, PAGE_SIZE_eq. unfold sizeof_rx_desc, rx_status_off.
    rewrite decide_True by lia. rewrite zero_page_replicate. apply lookup_replicate. rewrite PAGE_SIZE_eq. lia.
Qed.

(** The registers, once the descriptors are ready. *)
Definition ring_started s bar p : nic A :=
  told (told (told (told (told (told s (bar + E1000_RDBAL) (u32 p)) (bar + E1000_RDBAH) (u32 (Z.shiftr p 32)))
    (bar + E1000_RDLEN) 512) (bar + E1000_RDH) 0) (bar + E1000_RDT) 31) (bar + E1000_RCTL) 18.
Lemma filled_ring bar s0 L p bs s :
  filling bar s0 L p 32 bs s -> ring_ok bar (ring_started s bar p) L p 31 [].
Proof.
  intros Hf. pose proof (fl_place _ _ _ _ _ _ _ Hf) as Hp. pose proof (frame_word p (rp_frame _ _ _ _ Hp)) as Hw.
  constructor; unfold ring_started; rewrite ?card_told.
  - by destruct Hp.
  - done.
  - simpl. lia.
  - done.
  - done.
  - repeat (rewrite decide_False by done || rewrite decide_True by done). rewrite Z.shiftr_div_pow2 by lia.
    rewrite (wrap_small 32 (p / 2 ^ 32)) by (split; [apply Z.div_pos; lia|apply Z.div_lt_upper_bound; lia]).
    unfold wrap. rewrite Z.mul_comm. symmetry. apply Z.div_mod. lia.
  - done.
  - done.
  - intros k Hk. apply (fl_free _ _ _ _ _ _ _ Hf). simpl in Hk. lia.
Qed.

Lemma nic_rx_init_spec bar s L :
  nic_attached bar s L ->
  safe (fa_avail (mm_frames (nic_mm s)) < 33) nic_rx_init s (fun _ s' =>
    exists p bs s1, filling bar s L p 32 bs s1 /\ s' = ring_started s1 bar p).
Proof.
  intros Hat. unfold nic_rx_init. apply safe_bind, safe_zoom, safe_alloc; [apply (tok_wf _ _ (na_tables _ _ _ Hat))|lia|].
  intros p m Hp. eapply safe_step; [reflexivity|]. apply safe_bind.
  eapply safe_mono;
    [apply (safe_for_seqZ _ _ (fun i s' => exists bs, filling bar s L p i bs s') 32 0);
       [exists []; by apply filling_start|]|done|].
  - intros i s1 Hi (bs & Hf). eapply safe_mono; [by apply rx_init_desc_step|done|]. intros _ s2 (b & Hf2). by eexists.
  - intros _ s1 (bs & Hf). change (0 + Z.of_nat 32) with 32 in Hf.
    pose proof (fl_place _ _ _ _ _ _ _ Hf) as Hp1. pose proof (wrap_range 32 p ltac:(lia)). pose proof (wrap_range 32 (Z.shiftr p 32) ltac:(lia)).
    do 5 (match goal with |- safe _ (kbind (nic_write_reg ?o ?v) _) ?x _ =>
      destruct (ring_write bar x L p o v Hp1) as [E Hp2]; [split; [done|by right]|assumption || by split|];
      apply (safe_step _ _ _ _ _ _ _ E); clear E Hp1; rename Hp2 into Hp1 end).
    match goal with |- safe _ (nic_write_reg ?o ?v) ?x _ =>
      destruct (ring_write bar x L p o v Hp1) as [E _]; [split; [done|by left]|by split|] end.
    eapply safe_done; [exact E|]. by exists p, bs, s1.
Qed.

(** C15: [nic_rx_init], with the registers of the card mapped and 33 frames free,
    gives the card a ring of 32 descriptors whose buffers are distinct frames
    that were free; from then on, whatever packets arrive and whenever the
    driver polls, [nic_rx_poll] reports the packets in the order of arrival, each
    once, and a packet is lost only when 31 others wait: driver and card behave
    as a queue of 31 packets. *)
Theorem nic_receive_queue bar s L :
  nic_attached bar s L ->
  safe (fa_avail (mm_frames (nic_mm s)) < 33) nic_rx_init s (fun _ s' =>
    (forall evs, exists s2, nic_run bar evs s' = Done (queue_run evs [], s2)) /\
    exists bs, length bs = 32%nat /\ NoDup bs /\
      forall (i : nat) b, bs !! i = Some b ->
        peek64 (nic_mem s') (rx_descs s' + sizeof_rx_desc * Z.of_nat i) = Some b /\
        ~ fa_used (mm_frames (nic_mm s)) b /\ fa_used (mm_frames (nic_mm s')) b).
Proof.
  intros Hat. eapply safe_mono; [by apply nic_rx_init_spec|done|]. intros _ s' (p & bs & s1 & Hf & ->).
  pose proof (fl_len _ _ _ _ _ _ _ Hf) as Hlen. split.
  - intros evs. eapply nic_run_refines. by eapply filled_ring.
  - exists bs. split; [lia|]. pose proof (fl_nodup _ _ _ _ _ _ _ Hf) as [_ Hnd]%NoDup_cons. split; [done|].
    intros i b Hb. pose proof (lookup_lt_Some _ _ _ Hb). split.
    + change (peek64 (nic_mem s1) (rx_descs s1 + sizeof_rx_desc * Z.of_nat i) = Some b).
      rewrite (rp_descs _ _ _ _ (fl_place _ _ _ _ _ _ _ Hf)), <- (slot_first p i) by lia.
      rewrite <- (fl_addr _ _ _ _ _ _ _ Hf i b Hb). f_equal. unfold rx_buffer_addr_off. lia.
    + apply (fl_fresh _ _ _ _ _ _ _ Hf b). right. by eapply list_elem_of_lookup_2.
Qed.
End Setup.

(** ** Mapping the registers *)

Section Attach.
Context {A : Type} `{FrameAllocatorLaws A}.
Implicit Types (s : nic A) (m : mm_state A) (L : gmap Z tag).

Definition mmio_flags : Z := Z.lor (Z.lor PTE_WRITABLE PTE_PCD) PTE_PWT.

(** The first [i] pages of the window are mapped to the card. *)
Record window (m0 : mm_state A) (r bar i : Z) m : Prop := {
  wd_tables : exists L, tables_ok m L /\ L !! r = Some (Some r, []);
  wd_regs : cr3_reg m = cr3_reg m0 /\ current_pgd m = current_pgd m0;
  wd_avail : fa_avail (mm_frames m0) - 3 * i <= fa_avail (mm_frames m);
  wd_mapped j : 0 <= j < i ->
    translate (mm_mem m) r (MMIO_VIRT_BASE + j * 4096) = Some (leaf_entry (bar + j * 4096) mmio_flags, false);
  wd_rest j : i <= j < 3 ->
    translate (mm_mem m) r (MMIO_VIRT_BASE + j * 4096) = translate (mm_mem m0) r (MMIO_VIRT_BASE + j * 4096)
}.

Lemma window_page_ne i j : 0 <= i < 3 -> 0 <= j < 3 -> i <> j ->
  ((MMIO_VIRT_BASE + i * 4096) / 4096) mod 2 ^ 36 <> ((MMIO_VIRT_BASE + j * 4096) / 4096) mod 2 ^ 36.
Proof.
  intros Hi Hj Hne. unfold MMIO_VIRT_BASE. change 0xFFFFC90000000000 with (0xFFFFC90000000 * 4096).
  rewrite <- !Z.mul_add_distr_r, !Z.div_mul by lia. intros E. Z.div_mod_to_equations. lia.
Qed.

Lemma nic_map_page_step m0 r bar i m :
  window m0 r bar i m -> current_pgd m0 = phys_to_virt r -> 0 <= i < 3 -> 0 <= bar < 2 ^ 52 - 12288 ->
  not_huge (translate (mm_mem m0) r (MMIO_VIRT_BASE + i * 4096)) ->
  safe (fa_avail (mm_frames m0) < 9) (nic_map_page bar i) m (fun _ m' => window m0 r bar (i + 1) m').
Proof.
  intros [(L & Hok & Hr) [Hcr Hpgd] Hav Hmp Hrest] Hp0 Hi Hbar Hnh. unfold nic_map_page. rewrite PAGE_SIZE_eq.
  rewrite !wrap_small by (unfold MMIO_VIRT_BASE; lia).
  eapply safe_mono; [apply (arch_map_page_spec m L r)| |]; [done|congruence|done|by rewrite Hrest by lia|lia|by split|lia|].
  intros _ m' (L' & [Hg Hav' (t3 & e0 & e1 & e2 & Hpath & K0 & K1 & K2 & _) Hw _]).
  assert (forall j, 0 <= j < 3 -> i <> j ->
    translate (mm_mem m') r (MMIO_VIRT_BASE + j * 4096) = translate (mm_mem m) r (MMIO_VIRT_BASE + j * 4096)) as Hkeep.
  { intros j Hj Hne. apply (Hw r (Some r, [])); [done|done|apply indices_ok|]. apply final_slot_other. left.
    by apply window_page_ne. }
  destruct (gr_regs _ _ _ _ Hg). constructor.
  - exists L'. split; [apply Hg|by eapply grown_lookup].
  - split; congruence.
  - lia.
  - intros j Hj. destruct (decide (i = j)) as [<-|Hne]; [|rewrite Hkeep by lia; apply Hmp; lia].
    eapply (path_translate _ _ (Some r, [])); [exact Hpath|done|exact K0|exact K1|exact K2|].
    unfold leaf_entry. rewrite present_bit, Z.lor_spec. apply orb_true_r.
  - intros j Hj. rewrite Hkeep by lia. apply Hrest. lia.
Qed.

Lemma window_frame bar j : 0 <= bar < 2 ^ 47 - 12288 -> bar mod 4096 = 0 -> 0 <= j < 3 ->
  frame_of (leaf_entry (bar + j * 4096) mmio_flags) = bar + j * 4096.
Proof.
  intros Hbar Hal Hj. destruct (leaf_entry_facts (bar + j * 4096) mmio_flags ltac:(lia) ltac:(by split)) as (_ & _ & _ & Hfr).
  rewrite Hfr by reflexivity. apply frame_land_mask. split; [lia|]. by rewrite Z.mod_add by lia.
Qed.

Lemma nic_map_window m L r bar :
  tables_ok m L -> L !! r = Some (Some r, []) -> current_pgd m = phys_to_virt r -> 0 <= bar < 2 ^ 47 - 12288 ->
  (forall i, 0 <= i < 3 -> not_huge (translate (mm_mem m) r (MMIO_VIRT_BASE + i * 4096))) ->
  safe (fa_avail (mm_frames m) < 9) (kfor (seqZ 0 3) (nic_map_page bar)) m (fun _ m' => window m r bar 3 m').
Proof.
  intros Hok Hr Hpgd Hbar Hnh. apply (safe_for_seqZ _ _ (fun i m' => window m r bar i m') 3 0).
  - constructor; [by exists L|done|lia|intros; lia|done].
  - intros i m1 Hi Hw. apply nic_map_page_step; [done|done|lia|lia|]. apply Hnh. lia.
Qed.

(** C40: [nic_hw_init] maps the three pages of the card's registers and resets the
    card, unless memory is exhausted, and leaves the driver attached to it.  Its
    window [MMIO_VIRT_BASE] is the address of the local APIC's registers: from
    then on [lapic_eoi] stores into the card's register 0xB0, and the I/O APIC's
    window shows the card's second page. *)
Theorem nic_hw_init_attaches s L bar :
  tables_ok (nic_mm s) L -> L !! nic_root s = Some (Some (nic_root s), []) ->
  current_pgd (nic_mm s) = phys_to_virt (nic_root s) -> 0 <= bar < 2 ^ 47 - 12288 -> bar mod 4096 = 0 ->
  (forall i, 0 <= i < 3 -> not_huge (translate (nic_mem s) (nic_root s) (MMIO_VIRT_BASE + i * 4096))) ->
  length (rx_buffers s) = 32%nat ->
  safe (fa_avail (mm_frames (nic_mm s)) < 9) (nic_hw_init bar) s (fun ret s' =>
    ret = 0 /\ (exists L', nic_attached bar s' L') /\
    bus_log (io_bus (nic_io s')) = (bar + E1000_IMS, 0) :: (bar + E1000_CTRL, 2 ^ 26) :: bus_log (io_bus (nic_io s)) /\
    lapic_eoi (nic_io s') = Done (tt, wrote (nic_io s') (bar + LAPIC_EOI) 0) /\
    device_page (nic_io s') IOAPIC_VADDR (bar + 4096)).
Proof.
  intros Hok Hr Hpgd Hbar Hal Hnh Hbuf. unfold nic_hw_init. apply safe_bind, safe_zoom.
  eapply safe_mono; [by apply (nic_map_window _ L (nic_root s) bar)|done|]. intros [] m Hw. cbv beta in Hw.
  set (s1 := set_nic_mmio_base MMIO_VIRT_BASE (set_nic_mm m s)). apply (safe_step _ _ _ _ tt s1); [reflexivity|].
  destruct Hw as [(L1 & Hok1 & Hr1) [Hcr Hpgd1] _ Hmp _].
  assert (nic_root s1 = nic_root s) as Hrt
    by (unfold nic_root, io_root; cbn [s1 set_nic_mmio_base set_nic_mm set_nic_io set_io_mm nic_io io_mm]; by rewrite Hcr).
  assert (forall j, 0 <= j < 3 -> device_page (nic_io s1) (MMIO_VIRT_BASE + j * 4096) (bar + j * 4096)) as Hpg.
  { intros j Hj. split; [rewrite Z.mod_add by lia; done|]. eexists. split; [|by apply window_frame].
    change (translate (mm_mem m) (nic_root s1) (MMIO_VIRT_BASE + j * 4096) = Some (leaf_entry (bar + j * 4096) mmio_flags, false)).
    rewrite Hrt. by apply Hmp. }
  assert (device_page (nic_io s1) MMIO_VIRT_BASE bar) as Hpg0.
  { pose proof (Hpg 0 ltac:(lia)) as Hpg0. by rewrite !Z.add_0_r in Hpg0. }
  assert (forall off v, 0 <= off < 4096 -> 0 <= v < 2 ^ 32 -> forall x, nic_io x = nic_io s1 \/ (exists ws, nic_io x = wrote_all ws (nic_io s1)) ->
    nic_mmio_base x = MMIO_VIRT_BASE -> nic_write_reg off v x = Done (tt, told x (bar + off) v)) as Hwr.
  { intros off v Hoff Hv x Hx Hb. unfold nic_write_reg. erewrite kbind_done by reflexivity. rewrite Hb. unfold in_io.
    erewrite zoom_done; [|apply (io_write32_done _ _ bar); [|done]]; [by rewrite wrap_small by lia|].
    destruct Hx as [->|[ws ->]]; [|apply device_page_all]; exact Hpg0. }
  eapply safe_step; [apply Hwr; [by split|by vm_compute|by left|done]|].
  eapply safe_step; [apply Hwr; [by split|by vm_compute|right; by exists [(bar + E1000_CTRL, Z.shiftl 1 26)]|done]|].
  eapply safe_done; [reflexivity|]. split; [done|]. split; [|split; [done|split]].
  - exists L1. constructor; [done| |done| |done].
    + change (L1 !! nic_root s1 = Some (Some (nic_root s1), [])). by rewrite Hrt.
    + intros i Hi. apply Hpg. lia.
  - apply (lapic_write_at bar); [|by split|done]. exact Hpg0.
  - exact (Hpg 1 ltac:(lia)).
Qed.
End Attach.
