(* ===== verification/Machine.v ===== *)
(** * Interrupts, timer, processors and the network card on the whole machine

    [kernel/irq/manage.c], [kernel/drivers/timer.c], [kernel/smp/percpu.c],
    [arch/smp/ap_boot.c], [arch/smp/smp_boot.c] and [nic_main.c].  The machine is
    the kernel of [Syscall] with the descriptor tables, the PCI bus, the devices
    behind the page tables, the interrupt handlers and the per-processor data.
    The components see their part of it: the network card and the interrupt
    controllers share the page tables with the kernel, the network code shares
    the kernel heap. *)

From S2P Require Import Prelude Memory StringLib ListHead SpinLock Slab PgTable FrameAlloc PageAlloc Paging AddrSpace VirtMem KState Sched Threads Fork Signal Ipc Ports Console Keyboard Ata FileSys Elf Syscall Net Descriptors Pci Apic Nic.

(** ** The state *)

(** The functions given to [request_irq]. *)
Inductive irq_handler := TimerCallback | KbIrq | NicIrqHandler.

Definition MAX_CPUS : Z := 4.
Record cpu_info := mk_cpu { cpu_id : Z; apic_id : Z; cpu_flags : Z; cpu_current : Z; cpu_idle : Z }.
Definition zero_cpu : cpu_info := mk_cpu 0 0 0 0 0.

(** What the driver of the card and the interrupt controllers keep. *)
Record devices := mk_devices {
  d_bus : bus;
  d_io : ports;
  d_msr : Z * Z;
  d_nic_base : Z;
  d_rx_descs : Z;
  d_rx_buffers : list Z
}.

Record machine := mk_machine {
  m_g : gstate;
  m_dev : devices;
  m_desc : desc_state;
  m_pci : pci;
  m_net : net_state;
  irq_handlers : list (option irq_handler);     (* [IDT_ENTRIES] *)
  jiffies : Z;
  tick_ns : Z;
  cpus : list cpu_info;                         (* [MAX_CPUS] *)
  num_cpus : Z;
  m_if : bool                                   (* the interrupt flag *)
}.

Definition set_m_g (x : gstate) (s : machine) : machine :=
  mk_machine x (m_dev s) (m_desc s) (m_pci s) (m_net s) (irq_handlers s) (jiffies s) (tick_ns s) (cpus s) (num_cpus s) (m_if s).
Definition set_m_dev (x : devices) (s : machine) : machine :=
  mk_machine (m_g s) x (m_desc s) (m_pci s) (m_net s) (irq_handlers s) (jiffies s) (tick_ns s) (cpus s) (num_cpus s) (m_if s).
Definition set_m_desc (x : desc_state) (s : machine) : machine :=
  mk_machine (m_g s) (m_dev s) x (m_pci s) (m_net s) (irq_handlers s) (jiffies s) (tick_ns s) (cpus s) (num_cpus s) (m_if s).
Definition set_m_pci (x : pci) (s : machine) : machine :=
  mk_machine (m_g s) (m_dev s) (m_desc s) x (m_net s) (irq_handlers s) (jiffies s) (tick_ns s) (cpus s) (num_cpus s) (m_if s).
Definition set_m_net (x : net_state) (s : machine) : machine :=
  mk_machine (m_g s) (m_dev s) (m_desc s) (m_pci s) x (irq_handlers s) (jiffies s) (tick_ns s) (cpus s) (num_cpus s) (m_if s).
Definition set_irq_handlers (x : list (option irq_handler)) (s : machine) : machine :=
  mk_machine (m_g s) (m_dev s) (m_desc s) (m_pci s) (m_net s) x (jiffies s) (tick_ns s) (cpus s) (num_cpus s) (m_if s).
Definition set_jiffies (x : Z) (s : machine) : machine :=
  mk_machine (m_g s) (m_dev s) (m_desc s) (m_pci s) (m_net s) (irq_handlers s) x (tick_ns s) (cpus s) (num_cpus s) (m_if s).
Definition set_tick_ns (x : Z) (s : machine) : machine :=
  mk_machine (m_g s) (m_dev s) (m_desc s) (m_pci s) (m_net s) (irq_handlers s) (jiffies s) x (cpus s) (num_cpus s) (m_if s).
Definition set_cpus (x : list cpu_info) (s : machine) : machine :=
  mk_machine (m_g s) (m_dev s) (m_desc s) (m_pci s) (m_net s) (irq_handlers s) (jiffies s) (tick_ns s) x (num_cpus s) (m_if s).
Definition set_num_cpus (x : Z) (s : machine) : machine :=
  mk_machine (m_g s) (m_dev s) (m_desc s) (m_pci s) (m_net s) (irq_handlers s) (jiffies s) (tick_ns s) (cpus s) x (m_if s).
Definition set_m_if (x : bool) (s : machine) : machine :=
  mk_machine (m_g s) (m_dev s) (m_desc s) (m_pci s) (m_net s) (irq_handlers s) (jiffies s) (tick_ns s) (cpus s) (num_cpus s) x.

(** ** The components' views *)

Definition m_k (s : machine) : kstate := g_k (m_g s).
Definition set_m_k (x : kstate) (s : machine) : machine := set_m_g (set_g_k x (m_g s)) s.
Definition m_nic (s : machine) : nic pmm_state :=
  let d := m_dev s in
  mk_nic (mk_mio (k_mm (m_k s)) (d_bus d) (d_io d) (d_msr d)) (d_nic_base d) (d_rx_descs d) (d_rx_buffers d).
Definition set_m_nic (x : nic pmm_state) (s : machine) : machine :=
  let io := nic_io x in
  set_m_dev (mk_devices (io_bus io) (io_ports io) (apic_base_msr io) (nic_mmio_base x) (rx_descs x) (rx_buffers x))
    (set_m_k (set_k_mm (io_mm io) (m_k s)) s).
Definition m_mio (s : machine) : mio pmm_state := nic_io (m_nic s).
Definition set_m_mio (x : mio pmm_state) (s : machine) : machine := set_m_nic (set_nic_io x (m_nic s)) s.
Definition m_netview (s : machine) : net_state := set_n_slab (k_slab (m_k s)) (m_net s).
Definition set_m_netview (x : net_state) (s : machine) : machine :=
  set_m_net x (set_m_k (set_k_slab (n_slab x) (m_k s)) s).

Definition at_g {B} (m : M gstate B) : M machine B := zoom m_g set_m_g m.
Definition at_k {B} (m : M kstate B) : M machine B := zoom m_k set_m_k m.
Definition at_nic {B} (m : M (nic pmm_state) B) : M machine B := zoom m_nic set_m_nic m.
Definition at_mio {B} (m : M (mio pmm_state) B) : M machine B := zoom m_mio set_m_mio m.
Definition at_desc {B} (m : M desc_state B) : M machine B := zoom m_desc set_m_desc m.
Definition at_pci {B} (m : M pci B) : M machine B := zoom m_pci set_m_pci m.
Definition at_net {B} (m : M net_state B) : M machine B := zoom m_netview set_m_netview m.

(** The instructions [cli] and [sti]. *)
Definition cli : M machine unit := kmod (set_m_if false).
Definition sti : M machine unit := kmod (set_m_if true).

Section Operations.
Context `{Layout} {DL : DescLayout}.

(** ** nic_main.c: the interrupt handler *)

Definition nic_irq_handler : M machine unit :=
  let* icr := at_nic (nic_read_reg E1000_ICR) in
  if istrue icr then let* _ := at_nic nic_rx_poll in kret tt else kret tt.

(** ** timer.c: the interrupt handler *)

Definition timer_callback : M machine unit :=
  kmod (fun s => set_jiffies (u64 (jiffies s + 1)) s);;;
  at_k scheduler_tick.

(** ** manage.c *)

(** An interrupt handler is called with the registers, which none of them uses. *)
Definition call_handler (h : irq_handler) : M machine unit :=
  match h with
  | TimerCallback => timer_callback
  | KbIrq => at_g (in_kb kb_irq)
  | NicIrqHandler => nic_irq_handler
  end.

Definition request_irq (irq : Z) (handler : irq_handler) : M machine unit :=
  if irq <? IDT_ENTRIES then
    kupd (fun s => if (Z.to_nat irq <? length (irq_handlers s))%nat
                   then Some (set_irq_handlers (<[Z.to_nat irq := Some handler]> (irq_handlers s)) s) else None)
  else kret tt.

Definition ack_irq (irq : Z) : M machine unit := at_mio lapic_eoi.

Definition dispatch_irq (regs : registers) : M machine unit :=
  let irq := u32 (int_no regs) in
  ack_irq irq;;;
  if irq <? IDT_ENTRIES then
    let* h := kopt (fun s => irq_handlers s !! Z.to_nat irq) in
    match h with Some h => call_handler h | None => kret tt end
  else kret tt.

(** An exception with [cr2] in the register of the faulting address.  A system
    call may suspend its task, see [Syscall]. *)
Definition dispatch_isr (fuel : nat) (cr2 : Z) (regs : registers) : M machine (gflow registers) :=
  if int_no regs =? 14 then
    let* cur := at_k (kgets k_current) in
    let* bounds := (if cur =? 0 then kret None
                    else let* a := at_k (task_get cur t_stack_start) in
                         let* b := at_k (task_get cur t_stack_end) in kret (Some (a, b))) in
    at_k (on_paging (handle_page_fault bounds cr2 (err_code regs)));;;
    kret (GReturned regs)
  else if int_no regs =? 128 then at_g (syscall_dispatch fuel regs)
  else khalt "KERNEL PANIC: Exception".

Definition irq_init : M machine unit := at_desc idt_init.

(** ** timer.c *)

(** A division by zero faults. *)
Definition timer_init (freq : Z) : M machine unit :=
  request_irq 32 TimerCallback;;;
  if freq =? 0 then kfault else
  kmod (set_tick_ns (1000000000 / freq));;;
  let divisor := 1193180 / freq in
  at_mio (io_port (outb 0x43 0x36));;;
  at_mio (io_port (outb 0x40 (u8 (Z.land divisor 0xFF))));;;
  at_mio (io_port (outb 0x80 0));;;
  at_mio (io_port (outb 0x40 (u8 (Z.land (Z.shiftr divisor 8) 0xFF)))).

(** ** percpu.c

    A pointer to an entry of [cpus] is its index, a null pointer [None]. *)

Definition get_cpu (id : Z) : option Z := if id >=? MAX_CPUS then None else Some id.
Definition get_current_cpu : Z := 0.

Definition smp_init : M machine unit :=
  kmod (set_cpus (replicate (Z.to_nat MAX_CPUS) zero_cpu));;;
  let* id := at_mio lapic_get_id in
  let* cur := at_k (kgets k_current) in
  kmod (fun s => set_cpus (<[0%nat := mk_cpu 0 (u8 id) 1 cur 0]> (cpus s)) s).

(** ** ap_boot.c

    Runs on another processor, up to its halt loop. *)
Definition ap_main : M machine unit :=
  at_mio ap_lapic_setup;;;
  kmod (fun s => set_num_cpus (i32 (num_cpus s + 1)) s);;;
  let* _ := at_mio lapic_get_id in
  kret tt.

(** ** smp_boot.c *)

Definition TRAMP_CR3_OFF : Z := 0x08.
Definition TRAMP_STACK_OFF : Z := 0x10.
Definition TRAMP_ENTRY_OFF : Z := 0x18.
Definition TRAMP_GDT_OFF : Z := 0x20.
Definition TRAMP_DEST : Z := 0x8000.

(** A store of [n] bytes to a virtual address that holds memory. *)
Definition vstore (n : nat) (va v : Z) : M (mm_state pmm_state) unit :=
  let* pa := kopt (fun s => mmu_phys (mm_mem s) (Z.land (cr3_reg s) PTE_ADDR_MASK) va) in
  zoom mm_mem set_mm_mem (storen n (phys_to_virt pa) v).
Definition at_mm {B} (m : M (mm_state pmm_state) B) : M machine B := at_k (on_paging m).

Definition copy_trampoline (bin : list Z) : M (mm_state pmm_state) unit :=
  kfor (seqZ 0 (Z.of_nat (length bin))) (fun i =>
    match bin !! Z.to_nat i with Some b => vstore 1 (TRAMP_DEST + i) b | None => kfault end).

(** The addresses of [ap_main] and [ap_stacks] are parameters; the delays have no
    effect. *)
Definition wake_ap (ap_stacks i : Z) : M machine unit :=
  at_mm (vstore 8 (TRAMP_DEST + TRAMP_STACK_OFF) (ap_stacks + 16384 * i + 16384));;;
  at_mio (send_apic_init i);;;
  at_mio (send_apic_startup i 0x08);;;
  at_mio (send_apic_startup i 0x08).

Definition smp_boot_apus (trampoline_bin : list Z) (ap_main_addr ap_stacks : Z) : M machine unit :=
  at_mm (arch_map_page 0x8000 0x8000 0x03);;;
  at_mm (copy_trampoline trampoline_bin);;;
  let* (gdtr_limit, gdtr_base) := at_desc (kgets gdtr_exported) in
  let gdt_phys := u64 (gdtr_base - 0xFFFFFFFF80000000) in
  let* cr3 := at_mm get_cr3 in
  at_mm (vstore 8 (TRAMP_DEST + TRAMP_CR3_OFF) cr3);;;
  at_mm (vstore 8 (TRAMP_DEST + TRAMP_ENTRY_OFF) ap_main_addr);;;
  at_mm (vstore 2 (TRAMP_DEST + TRAMP_GDT_OFF) gdtr_limit);;;
  at_mm (vstore 4 (TRAMP_DEST + TRAMP_GDT_OFF + 2) (u32 gdt_phys));;;
  cli;;;
  kfor (seqZ 1 3) (wake_ap ap_stacks);;;
  sti.

(** ** nic_main.c *)

Definition relis_nic_init : M machine Z :=
  let* found := at_pci (pci_find_device E1000_VENDOR_ID E1000_DEVICE_ID) in
  match found with
  | None => kret (-1)
  | Some dev =>
      at_pci (pci_enable_device dev);;;
      let* phys_mmio := (match bar dev !! 0%nat with Some a => kret a | None => kfault end) in
      let* _ := at_nic (nic_hw_init phys_mmio) in
      at_nic nic_rx_init;;;
      let irq_vector := if negb (dev_irq dev =? 0) then dev_irq dev + 32 else 43 in
      request_irq irq_vector NicIrqHandler;;;
      at_nic (nic_write_reg E1000_IMS (Z.shiftl 1 0));;;
      kret 0
  end.
End Operations.

(** ** Interrupts *)

Section Interrupts.
Context `{Layout}.
Implicit Types s : machine.

Lemma set_k_mm_id (k : kstate) : set_k_mm (k_mm k) k = k.
Proof. by destruct k as [[]]. Qed.
Lemma set_m_k_id s : set_m_k (m_k s) s = s.
Proof. by destruct s as [[[]]]. Qed.

(** The machine with one more write on the bus. *)
Definition bus_wrote (pa v : Z) s : machine :=
  let d := m_dev s in
  set_m_dev (mk_devices (bus_write pa v (d_bus d)) (d_io d) (d_msr d) (d_nic_base d) (d_rx_descs d) (d_rx_buffers d)) s.

Lemma at_mio_wrote s pa v (m : M (mio pmm_state) unit) :
  m (m_mio s) = Done (tt, wrote (m_mio s) pa v) -> at_mio m s = Done (tt, bus_wrote pa v s).
Proof.
  intros E. unfold at_mio. erewrite zoom_done by exact E. unfold set_m_mio, set_m_nic.
  cbn [nic_io set_nic_io wrote set_io_bus io_mm io_bus io_ports apic_base_msr nic_mmio_base rx_descs rx_buffers m_mio m_nic].
  by rewrite set_k_mm_id, set_m_k_id.
Qed.

Lemma ack_irq_done s irq :
  device_page (m_mio s) LAPIC_VADDR LAPIC_BASE_PHYS ->
  ack_irq irq s = Done (tt, bus_wrote (LAPIC_BASE_PHYS + LAPIC_EOI) 0 s).
Proof. intros Hd. apply at_mio_wrote. by apply lapic_write_done. Qed.

(** What a tick does to the current task. *)
Definition need_resched (t : task_struct) : task_struct := set_t_flags (Z.lor (t_flags t) TIF_NEED_RESCHED) t.
Definition ticked (c : sched_class_id) (t : task_struct) : task_struct :=
  match c with
  | Fair => need_resched (set_t_vruntime (u64 (t_vruntime t + 1024 / t_weight t))
              (set_t_sum_exec_runtime (u64 (t_sum_exec_runtime t + 1)) t))
  | Rt => if t_policy t =? SCHED_RR then need_resched t else t
  | Idle => need_resched t
  end.

Lemma scheduler_tick_done (k : kstate) t c :
  k_tasks k !! k_current k = Some t -> t_sched_class t = Some c -> (c = Fair -> t_weight t <> 0) ->
  scheduler_tick k = Done (tt, set_k_tasks (<[k_current k := ticked c t]> (k_tasks k)) (set_k_clock (u64 (k_clock k + 1)) k)).
Proof.
  intros Ht Hc Hw. unfold scheduler_tick. erewrite kbind_done by reflexivity. set (k1 := set_k_clock _ k).
  erewrite kbind_done by reflexivity. assert (k_tasks k1 !! k_current k1 = Some t) as Ht1 by exact Ht.
  unfold task_class. erewrite kbind_done by (erewrite kbind_done by (by apply task_get_done); rewrite Hc; reflexivity).
  change (k_current k) with (k_current k1). change (k_tasks k) with (k_tasks k1).
  destruct c; cbn [class_ops task_tick ticked].
  - unfold task_tick_fair. erewrite kbind_done by (by apply task_upd_done).
    erewrite kbind_done by (apply task_get_done; cbn [k_tasks set_k_tasks]; apply lookup_insert_eq).
    cbn [t_weight set_t_sum_exec_runtime]. rewrite (proj2 (Z.eqb_neq _ 0)) by auto.
    erewrite kbind_done by (apply task_upd_done; cbn [k_tasks set_k_tasks]; apply lookup_insert_eq).
    erewrite task_upd_done by (cbn [k_tasks set_k_tasks]; apply lookup_insert_eq).
    cbn [k_tasks set_k_tasks]. by rewrite !insert_insert_eq.
  - unfold task_tick_rt. erewrite kbind_done by (by apply task_get_done).
    destruct (t_policy t =? SCHED_RR); [by erewrite task_upd_done|]. rewrite insert_id by done. by destruct k1.
  - unfold task_tick_idle. by erewrite task_upd_done.
Qed.

(** C29: the timer interrupt, with the local APIC mapped and the handler
    registered, returns: it acknowledges the interrupt with exactly one write to
    the end-of-interrupt register, counts the tick in [jiffies] and in the clock
    of the run queue, charges it to the current task as its class does, marks
    that task for rescheduling (a real-time task only under SCHED_RR), and
    touches no other task, queue or page table. *)
Theorem timer_interrupt s regs t c cfs rt glob :
  device_page (m_mio s) LAPIC_VADDR LAPIC_BASE_PHYS ->
  irq_handlers s !! 32%nat = Some (Some TimerCallback) -> int_no regs = 32 ->
  sched_ok (m_k s) cfs rt glob -> k_tasks (m_k s) !! k_current (m_k s) = Some t ->
  t_sched_class t = Some c -> (c = Fair -> t_weight t <> 0) ->
  exists s', dispatch_irq regs s = Done (tt, s') /\
    bus_log (d_bus (m_dev s')) = (LAPIC_BASE_PHYS + LAPIC_EOI, 0) :: bus_log (d_bus (m_dev s)) /\
    jiffies s' = u64 (jiffies s + 1) /\ k_clock (m_k s') = u64 (k_clock (m_k s) + 1) /\
    k_tasks (m_k s') = <[k_current (m_k s) := ticked c t]> (k_tasks (m_k s)) /\
    k_current (m_k s') = k_current (m_k s) /\ k_mm (m_k s') = k_mm (m_k s) /\
    sched_ok (m_k s') cfs rt glob.
Proof.
  intros Hd Hh Hn [Hinv Hlock] Ht Hc Hw. unfold dispatch_irq. rewrite Hn.
  change (u32 32) with 32. erewrite kbind_done by (by apply ack_irq_done). change (32 <? IDT_ENTRIES) with true. cbv iota.
  erewrite kbind_done by (by apply kopt_some). cbn [call_handler]. unfold timer_callback.
  erewrite kbind_done by reflexivity. set (s1 := set_jiffies _ _). unfold at_k.
  erewrite zoom_done by (apply (scheduler_tick_done (m_k s1) t c); [exact Ht|done|done]).
  eexists. split; [reflexivity|]. do 6 (split; [reflexivity|]). split; [|exact Hlock].
  apply (sched_inv_ext (m_k s)); [done|done| |done|].
  - intros p Hp. change (is_Some (<[k_current (m_k s) := ticked c t]> (k_tasks (m_k s)) !! p)).
    rewrite lookup_insert. by destruct (decide _); [eexists|].
  - change (is_Some (<[k_current (m_k s) := ticked c t]> (k_tasks (m_k s)) !! k_current (m_k s))).
    rewrite lookup_insert_eq. by eexists.
Qed.
End Interrupts.
