(* ===== verification/Boot.v ===== *)
(** * init/main.c: the start of the kernel

    [start_kernel] in the order of the source, up to the call of [schedule] that
    leaves the boot task; what follows is the idle loop.  The messages printed on
    the way are not modelled. *)

From S2P Require Import Prelude Memory StringLib ListHead SpinLock Slab PgTable FrameAlloc PageAlloc Paging AddrSpace VirtMem KState Sched Threads Fork Signal Ipc Ports Console Keyboard Ata FileSys Elf Syscall Net Descriptors Pci Apic Nic Machine.

(** What the linker and the boot code provide: the end of the kernel image, the
    addresses of the two thread functions, the trampoline of the other
    processors with the entry point and the stacks they use. *)
Class BootLayout := {
  kernel_end : Z;
  init_task_addr : Z;
  heartbeat_task_addr : Z;
  trampoline_bin : list Z;
  ap_main_addr : Z;
  ap_stacks : Z
}.

Section Operations.
Context `{Layout} {DL : DescLayout} {BL : BootLayout}.

(** "init" and "kworker" *)
Definition init_name : list Z := [105; 110; 105; 116].
Definition kworker_name : list Z := [107; 119; 111; 114; 107; 101; 114].

(** The body of the thread "init": the program linked into the kernel.  It goes
    to user mode and does not come back. *)
Definition init_task (prog : list Z) : M machine (option (Z * Z)) := at_g (exec_user_program prog).

(** One turn of the loop of "kworker", after the processor wakes from [hlt]. *)
Definition heartbeat_turn : M machine unit := at_k schedule.

(** [gdt_init] stores the stack of the interrupts in the task-state segment, which
    the scheduler changes later. *)
Definition boot_gdt : M machine unit :=
  at_desc gdt_init;;;
  let* rsp := at_desc (kgets tss_rsp0) in
  at_k (kmod (set_k_tss_rsp0 rsp)).

Definition boot_pmm : M machine unit := at_mm (zoom mm_frames set_mm_frames (pmm_init kernel_end 262144 0)).

(** [keyboard_init] with its call of [request_irq]. *)
Definition boot_keyboard : M machine unit :=
  at_g (in_kb keyboard_init);;;
  request_irq 33 KbIrq.

(** Both file systems; the name of the second root is set and the root gets it as
    its next child. *)
Definition boot_mounts : M fstate unit :=
  let* root := vfs_kern_mount (Some relisfs_mount) in
  let* proc_root := proc_mount in
  if negb (root =? 0) && negb (proc_root =? 0) then
    let* d := kopt (fun s => fs_dentries s !! proc_root) in
    put_dentry proc_root (mk_dentry proc_name (d_inode d) (d_parent d) (d_children d));;;
    let* r := kopt (fun s => fs_dentries s !! root) in
    if (length (d_children r) <? 32)%nat then
      put_dentry root (mk_dentry (d_name r) (d_inode r) (d_parent r) (d_children r ++ [proc_root]))
    else kfault
  else kret tt.

Definition boot_threads : M kstate unit :=
  let* _ := kernel_thread init_name init_task_addr 0 SCHED_NORMAL in
  let* _ := kernel_thread kworker_name heartbeat_task_addr 0 SCHED_NORMAL in
  kret tt.

(** The fuel bounds the depth of the scan of the PCI buses.  [syscall_init],
    [vfs_init] and [ata_init] only print. *)
Definition start_kernel (fuel : nat) : M machine unit :=
  at_g (in_con console_init);;;
  boot_gdt;;;
  boot_pmm;;;
  irq_init;;;
  at_k sched_init;;;
  at_mm paging_init;;;
  at_mio apic_init;;;
  smp_init;;;
  timer_init 100;;;
  boot_keyboard;;;
  at_g (in_fs boot_mounts);;;
  at_net net_init;;;
  at_pci (pci_init fuel);;;
  let* _ := relis_nic_init in
  sti;;;
  at_k boot_threads;;;
  smp_boot_apus trampoline_bin ap_main_addr ap_stacks;;;
  at_k schedule.

(** One turn of the idle loop, after the processor wakes from [hlt]. *)
Definition idle_turn : M machine unit :=
  let* cur := at_k (kgets k_current) in
  let* flags := at_k (task_get cur t_flags) in
  if istrue (Z.land flags TIF_NEED_RESCHED) then at_k schedule else kret tt.
End Operations.

(** ** From [sched_init] to the first thread *)

Section FirstThread.
Context `{Layout} {BL : BootLayout}.
Hypothesis heap_base : 0 < kernel_heap_region /\ kernel_heap_region mod 16 = 0.

(** The heads of the three lists are three statics outside the kernel heap. *)
Definition heads : list Z := [cfs_queue; rt_queue; global_tasks].
Definition heads_ok : Prop :=
  NoDup heads /\ forall x, x ∈ heads -> x < kernel_heap_region \/ kernel_heap_region + kernel_heap_size <= x.

Abbreviation zero_link := (mk_list_head 0 0).

(** The nodes before the three calls of [INIT_LIST_HEAD], and after them. *)
Definition zero_heads (h : nodes) : nodes :=
  <[global_tasks := mk_list_head 0 0]> (<[rt_queue := mk_list_head 0 0]> (<[cfs_queue := mk_list_head 0 0]> h)).

Lemma init_heads_done h :
  NoDup heads -> exists h1 h2 h3,
    INIT_LIST_HEAD cfs_queue (zero_heads h) = Done (tt, h1) /\ INIT_LIST_HEAD rt_queue h1 = Done (tt, h2) /\
    INIT_LIST_HEAD global_tasks h2 = Done (tt, h3) /\
    dll h3 cfs_queue [] /\ dll h3 rt_queue [] /\ dll h3 global_tasks [].
Proof.
  intros Hnd. assert (cfs_queue <> rt_queue /\ cfs_queue <> global_tasks /\ rt_queue <> global_tasks) as (N1 & N2 & N3).
  { unfold heads in Hnd. apply NoDup_cons in Hnd as [Hc [Hr _]%NoDup_cons]. set_solver. }
  destruct (INIT_LIST_HEAD_spec (zero_heads h) cfs_queue) as (h1 & E1 & D1 & F1).
  { unfold zero_heads. rewrite !lookup_insert_ne, lookup_insert_eq by done. by eexists. }
  destruct (INIT_LIST_HEAD_spec h1 rt_queue) as (h2 & E2 & D2 & F2).
  { rewrite F1 by done. unfold zero_heads. rewrite lookup_insert_ne, lookup_insert_eq by done. by eexists. }
  destruct (INIT_LIST_HEAD_spec h2 global_tasks) as (h3 & E3 & D3 & F3).
  { rewrite F2, F1 by done. unfold zero_heads. rewrite lookup_insert_eq by done. by eexists. }
  exists h1, h2, h3. split; [done|]. split; [done|]. split; [done|]. split; [|split; [|done]].
  - apply (dll_frame h1); [|done]. intros x ->%list_elem_of_singleton. by rewrite F3, F2 by done.
  - apply (dll_frame h2); [|done]. intros x ->%list_elem_of_singleton. by rewrite F3 by done.
Qed.

(** The boot task. *)
Definition swapper (cr3 : Z) : task_struct :=
  set_t_cr3 cr3 (set_t_kernel_stack_top stack_top (set_t_sched_class (Some Idle)
    (set_t_state TASK_RUNNING (set_t_name swapper_name (set_t_pid 0 zero_task))))).

(** The state before the boot task is put on the list. *)
Lemma swapper_done p s :
  (put_task p zero_task;;; task_upd p (set_t_pid 0);;; set_task_name p swapper_name;;; task_upd p (set_t_state TASK_RUNNING);;;
   task_upd p (set_t_sched_class (Some Idle));;; task_upd p (set_t_kernel_stack_top stack_top);;;
   let* c := on_paging get_cr3 in task_upd p (set_t_cr3 c);;; on_list (list_add (p + tasks_off) global_tasks)) s =
  on_list (list_add (p + tasks_off) global_tasks)
    (set_k_nodes (add_task_nodes p zero_link zero_link zero_link (k_nodes s))
       (set_k_tasks (<[p := swapper (cr3_reg (k_mm s))]> (k_tasks s)) s)).
Proof.
  erewrite kbind_done by apply put_task_done. set (s1 := set_k_nodes (add_task_nodes p zero_link zero_link zero_link (k_nodes s)) s).
  change (set_k_nodes _ (set_k_tasks ?x s)) with (set_k_tasks x s1). change (k_tasks s) with (k_tasks s1).
  change (cr3_reg (k_mm s)) with (cr3_reg (k_mm s1)). unfold set_task_name. change (length swapper_name <? 32)%nat with true. cbv iota.
  do 5 erewrite kbind_done by apply task_upd_again. erewrite kbind_done by apply get_cr3_done.
  erewrite kbind_done by apply task_upd_again. reflexivity.
Qed.

Lemma sched_init_spec k :
  slab_inv (k_slab k) -> heads_ok -> k_sched_lock k = 0 -> heap_ptr (k_slab k) + sizeof_task <= kernel_heap_size ->
  let p := kernel_heap_region + heap_ptr (k_slab k) in
  exists k', sched_init k = Done (tt, k') /\ sched_ok k' [] [] [p] /\ k_current k' = p /\
    k_tasks k' = <[p := swapper (cr3_reg (k_mm k))]> (k_tasks k) /\ slab_inv (k_slab k') /\
    heap_ptr (k_slab k) + sizeof_task <= heap_ptr (k_slab k') < heap_ptr (k_slab k) + sizeof_task + 16 /\
    k_mm k' = k_mm k /\ k_next_pid k' = k_next_pid k /\ k_switches k' = k_switches k.
Proof using heap_base.
  intros Hslab [Hnd Hout] Hl Hroom p. pose proof Hslab as (_ & Hhp & _). destruct heap_base as [Hb _]. unfold sched_init.
  destruct (init_heads_done (k_nodes k) Hnd) as (h1 & h2 & h3 & E1 & E2 & E3 & D1 & D2 & D3).
  do 3 erewrite kbind_done by reflexivity.
  erewrite kbind_done by (apply on_list_done; exact E1). erewrite kbind_done by (apply on_list_done; exact E2).
  erewrite kbind_done by (apply on_list_done; exact E3). do 2 erewrite kbind_done by reflexivity.
  set (s1 := set_k_clock 0 _). assert (k_slab s1 = k_slab k) as Hs1 by done.
  destruct (kmalloc_room heap_base s1 sizeof_task) as (sl & E & Hsl & Hp); [by rewrite Hs1|by split|by rewrite Hs1|].
  rewrite Hs1 in *. erewrite kbind_done by exact E. fold p. erewrite kbind_done by reflexivity.
  rewrite (proj2 (Z.eqb_neq p 0)) by (unfold p; lia). rewrite swapper_done. set (s2 := set_k_current p (set_k_slab sl s1)).
  set (s3 := set_k_nodes _ _).
  assert (forall x, x ∈ all_nodes [] [] [] -> x < p \/ p + sizeof_task <= x) as Hap.
  { intros x Hx. destruct (Hout x) as [Hx'|Hx']; [unfold all_nodes, heads in *; set_solver|unfold p; lia|]. right. unfold p, sizeof_task in *. lia. }
  assert (sched_inv s3 [] [] []) as Hinv.
  { assert (forall x, x ∈ heads -> k_nodes s3 !! x = h3 !! x) as Hf.
    { intros x Hx. destruct (Hap x) as [?|?]; [unfold all_nodes, heads in *; set_solver|..];
        change (add_task_nodes p zero_link zero_link zero_link h3 !! x = h3 !! x);
        unfold add_task_nodes, se_run_node_off, rt_run_node_off, tasks_off, sizeof_task in *; by rewrite !lookup_insert_ne by lia. }
    constructor.
    - apply (dll_frame h3); [|done]. intros x ->%list_elem_of_singleton. apply Hf. left.
    - apply (dll_frame h3); [|done]. intros x ->%list_elem_of_singleton. apply Hf. right. left.
    - apply (dll_frame h3); [|done]. intros x ->%list_elem_of_singleton. apply Hf. right. right. left.
    - exact Hnd.
    - by intros x ?%elem_of_nil.
    - by intros x ?%elem_of_nil.
    - done.
    - change (is_Some (<[p := swapper (cr3_reg (k_mm k))]> (k_tasks k) !! p)). rewrite lookup_insert_eq. by eexists. }
  destruct (register_task s3 [] [] [] p Hinv) as (h' & E' & Hinv').
  - intros Hx. specialize (Hap _ Hx). unfold tasks_off, sizeof_task in Hap. lia.
  - apply (add_task_nodes_some p zero_link zero_link zero_link h3).
  - change (is_Some (<[p := swapper (cr3_reg (k_mm k))]> (k_tasks k) !! p)). rewrite lookup_insert_eq. by eexists.
  - rewrite E'. eexists. split; [reflexivity|]. split; [by split|]. do 2 (split; [reflexivity|]).
    split; [exact Hsl|]. split; [exact Hp|]. done.
Qed.

(** Every node of the lists lies in the heap below [b], or outside the heap. *)
Definition nodes_below (b : Z) (cfs rt glob : list Z) : Prop :=
  forall x, x ∈ all_nodes cfs rt glob -> x < b \/ kernel_heap_region + kernel_heap_size <= x.

Lemma nodes_below_thread policy b b' p cfs rt glob :
  nodes_below b cfs rt glob -> b <= b' -> p + sizeof_task <= b' ->
  nodes_below b' (if is_rt policy then cfs else cfs ++ [p]) (if is_rt policy then p :: rt else rt) (p :: glob).
Proof.
  intros Hbel Hb Hp x Hx.
  assert (x = p + se_run_node_off \/ x = p + rt_run_node_off \/ x = p + tasks_off \/ x ∈ all_nodes cfs rt glob) as Hin.
  { unfold all_nodes in *. change (task_nodes (p :: glob)) with (p + tasks_off :: task_nodes glob) in Hx.
    destruct (is_rt policy); [change (rt_nodes (p :: rt)) with (p + rt_run_node_off :: rt_nodes rt) in Hx|rewrite se_nodes_snoc in Hx]; set_solver. }
  unfold se_run_node_off, rt_run_node_off, tasks_off, sizeof_task in *.
  destruct Hin as [->|[->|[->|Hin]]]; [lia..|]. destruct (Hbel x Hin); [left; lia|by right].
Qed.

(** One call of [kernel_thread] while the kernel boots. *)
Lemma boot_thread_step s cfs glob name fn arg :
  let p := kernel_heap_region + heap_ptr (k_slab s) in
  sched_ok s cfs [] glob -> slab_inv (k_slab s) -> (length name < 32)%nat -> nodes_below p cfs [] glob ->
  Z.of_nat (length cfs) + 1 < 2 ^ 64 -> heap_ptr (k_slab s) + sizeof_task + 304 <= kernel_heap_size ->
  exists s' t, kernel_thread name fn arg SCHED_NORMAL s = Done (i32 (k_next_pid s), s') /\
    sched_ok s' (cfs ++ [p]) [] (p :: glob) /\ new_thread s p name fn s' t /\
    nodes_below (kernel_heap_region + heap_ptr (k_slab s')) (cfs ++ [p]) [] (p :: glob).
Proof using heap_base.
  intros p Hok Hslab Hname Hbel Hlen Hroom.
  destruct (kernel_thread_room heap_base s cfs [] glob name fn arg SCHED_NORMAL Hok Hslab Hname) as (s' & t & E & Hok' & Hn).
  - intros x Hx. destruct (Hbel x Hx) as [?|?]; [by left|right]. fold p. unfold p, sizeof_task in *. lia.
  - simpl. lia.
  - done.
  - exists s', t. split; [done|]. split; [exact Hok'|]. split; [done|]. pose proof (nt_heap _ _ _ _ _ _ Hn).
    apply (nodes_below_thread SCHED_NORMAL p); [done|unfold p, sizeof_task in *; lia..].
Qed.
End FirstThread.
