(* ===== verification/BootRun.v ===== *)
(** * init/main.c: the kernel boots into its first thread

    [start_kernel] as a whole.  Its steps are those of the scheduler and those of
    the devices, the descriptor tables, the page tables and the file systems.  The
    latter leave the lists, the tasks and the lock of the scheduler alone and take
    a bounded amount of the kernel heap, [bumps]; so the first thread runs whatever
    the devices do, as long as their drivers return. *)

From S2P Require Import Prelude Memory StringLib ListHead SpinLock Slab PgTable FrameAlloc PageAlloc Paging AddrSpace VirtMem KState Sched Threads Fork Signal Ipc Ports Console Keyboard Ata FileSys Elf Syscall Net Descriptors Pci Apic Nic Machine Boot.

(** ** Steps that leave the scheduler alone *)

(** What the scheduler keeps. *)
Definition sched_part (k : kstate) : nodes * gmap Z task_struct * Z * Z * Z * Z * list (Z * Z) :=
  (k_nodes k, k_tasks k, k_current k, k_nr_running k, k_sched_lock k, k_next_pid k, k_switches k).

(** From [k] to [k'] nothing of it changes and the heap grows by at most [n]. *)
Definition bumped (n : Z) (k k' : kstate) : Prop :=
  sched_part k' = sched_part k /\ slab_inv (k_slab k') /\
  heap_ptr (k_slab k) <= heap_ptr (k_slab k') <= heap_ptr (k_slab k) + n.

Lemma bumped_refl k : slab_inv (k_slab k) -> bumped 0 k k.
Proof. intros Hs. split; [done|]. split; [done|lia]. Qed.
Lemma bumped_trans n1 n2 k1 k2 k3 : bumped n1 k1 k2 -> bumped n2 k2 k3 -> bumped (n1 + n2) k1 k3.
Proof. intros (P1 & S1 & L1) (P2 & S2 & L2). split; [congruence|]. split; [done|lia]. Qed.

Section Bumps.
Context {S : Type} (view : S -> kstate).

Definition bumps {A} (n : Z) (m : M S A) : Prop :=
  forall s a s', slab_inv (k_slab (view s)) -> m s = Done (a, s') -> bumped n (view s) (view s').

Lemma bumps_ret {A} (a : A) : bumps 0 (kret a).
Proof. intros s b s' Hs E. injection E as _ <-. by apply bumped_refl. Qed.
Lemma bumps_gets {A} (f : S -> A) : bumps 0 (kgets f).
Proof. intros s b s' Hs E. injection E as _ <-. by apply bumped_refl. Qed.
Lemma bumps_opt {A} (f : S -> option A) : bumps 0 (kopt f).
Proof. intros s b s' Hs. unfold kopt. destruct (f s); [|done]. intros E. injection E as _ <-. by apply bumped_refl. Qed.
Lemma bumps_fault {A} : bumps (A := A) 0 kfault.
Proof. by intros s a s'. Qed.
Lemma bumps_bind {A B} n1 n2 (m : M S A) (k : A -> M S B) : bumps n1 m -> (forall a, bumps n2 (k a)) -> bumps (n1 + n2) (kbind m k).
Proof.
  intros Hm Hk s b s' Hs E. apply kbind_inv in E as (a & s1 & E1 & E2). pose proof (Hm s a s1 Hs E1) as H1.
  eapply bumped_trans; [exact H1|]. apply (Hk a s1 b s'); [apply H1|done].
Qed.
Lemma bumps_mono {A} n n' (m : M S A) : bumps n m -> n <= n' -> bumps n' m.
Proof. intros Hm Hn s a s' Hs E. destruct (Hm s a s' Hs E) as (? & ? & ?). split; [done|]. split; [done|lia]. Qed.
Lemma bumps_for {A} (f : A -> M S unit) l : (forall x, bumps 0 (f x)) -> bumps 0 (kfor l f).
Proof. intros Hf. induction l as [|x l IH]; cbn [kfor]; [apply bumps_ret|]. by apply (bumps_bind 0 0). Qed.

(** The step touches a part of the state outside the scheduler and the heap. *)
Lemma bumps_mod f : (forall s, sched_part (view (f s)) = sched_part (view s) /\ k_slab (view (f s)) = k_slab (view s)) -> bumps 0 (kmod f).
Proof. intros Hf s a s' Hs E. injection E as _ <-. destruct (Hf s) as [Hp Hl]. split; [done|]. rewrite Hl. split; [done|lia]. Qed.
Lemma bumps_upd f :
  (forall s s', f s = Some s' -> sched_part (view s') = sched_part (view s) /\ k_slab (view s') = k_slab (view s)) -> bumps 0 (kupd f).
Proof.
  intros Hf s a s' Hs. unfold kupd. destruct (f s) as [s1|] eqn:E1; [|done]. intros E. injection E as _ <-.
  destruct (Hf s s1 E1) as [Hp Hl]. split; [done|]. rewrite Hl. split; [done|lia].
Qed.
Lemma bumps_zoom {T A} (get : S -> T) (put : T -> S -> S) (m : M T A) :
  (forall s t, sched_part (view (put t s)) = sched_part (view s) /\ k_slab (view (put t s)) = k_slab (view s)) -> bumps 0 (zoom get put m).
Proof.
  intros Hf s a s' Hs E. apply zoom_inv in E as (t & _ & ->). destruct (Hf s t) as [Hp Hl]. split; [done|]. rewrite Hl. split; [done|lia].
Qed.
(** The step runs on a part of the state that holds the kernel. *)
Lemma bumps_within {T A} (get : S -> T) (put : T -> S -> S) (inner : T -> kstate) n (m : M T A) :
  (forall s, view s = inner (get s)) -> (forall s t, view (put t s) = inner t) ->
  (forall t a t', slab_inv (k_slab (inner t)) -> m t = Done (a, t') -> bumped n (inner t) (inner t')) -> bumps n (zoom get put m).
Proof. intros Hg Hp Hm s a s' Hs E. apply zoom_inv in E as (t & Et & ->). rewrite Hp, Hg in *. by eapply Hm. Qed.
End Bumps.

Create HintDb boot.
#[export] Hint Resolve bumps_ret bumps_gets bumps_opt bumps_fault : boot.

(** One step of a computation that takes nothing of the heap. *)
Ltac quiet :=
  repeat lazymatch goal with
  | |- bumps _ 0 (kbind _ _) => apply (bumps_bind _ 0 0); [|intros ?]
  | |- bumps _ 0 (if ?b then _ else _) => destruct b
  | |- bumps _ 0 (match ?x with _ => _ end) => destruct x
  | |- bumps _ 0 (kfor _ _) => apply bumps_for; intros ?
  | |- bumps _ 0 (kmod _) => apply bumps_mod; intros ?; split; reflexivity
  | |- bumps _ 0 _ => solve [eauto with boot]
  end.

(** ** The file systems *)

Section Mounts.
Context `{Layout}.
Hypothesis heap_base : 0 < kernel_heap_region /\ kernel_heap_region mod 16 = 0.

Lemma on_ata_bumps {A} (m : M ata A) : bumps fs_k 0 (on_ata m).
Proof. apply bumps_zoom. done. Qed.
Lemma put_dentry_bumps p d : bumps fs_k 0 (put_dentry p d).
Proof. unfold put_dentry. quiet. Qed.
Lemma store_inode_bumps p i : bumps fs_k 0 (on_k (store_inode p i)).
Proof.
  apply (bumps_within _ _ _ id); [done..|]. change (bumps id 0 (store_inode p i)). unfold store_inode. quiet.
Qed.
Lemma block_put_bumps off l : bumps fs_k 0 (block_put off l).
Proof. apply bumps_upd. intros s s'. destruct (_ <=? _); [|done]. intros E. injection E as <-. done. Qed.
#[local] Hint Resolve on_ata_bumps put_dentry_bumps store_inode_bumps block_put_bumps : boot.
Lemma read_block_bumps lba : bumps fs_k 0 (read_block lba).
Proof. unfold read_block. quiet. Qed.
Lemma write_block_bumps lba : bumps fs_k 0 (write_block lba).
Proof. unfold write_block. quiet. Qed.
#[local] Hint Resolve read_block_bumps write_block_bumps : boot.
Lemma relisfs_format_bumps : bumps fs_k 0 relisfs_format.
Proof. unfold relisfs_format. cbv zeta. quiet. Qed.
#[local] Hint Resolve relisfs_format_bumps : boot.

Lemma fs_kmalloc_bumps size : size_ok size -> bumps fs_k (size + 15) (fs_kmalloc size).
Proof using heap_base.
  intros Hsz. apply (bumps_within _ _ _ id); [done..|]. intros k a k' Hs E. apply zoom_inv in E as (sl & E & ->). cbn in *.
  destruct heap_base as [Hb Hb16]. destruct (kmalloc_spec kernel_heap_region (k_slab k) size Hs Hsz Hb Hb16)
    as [[_ E']|(s' & E' & Hi & _ & _ & Hn & _)]; rewrite E' in E; injection E as _ <-.
  - split; [done|]. split; [done|]. destruct Hsz. cbn. lia.
  - split; [done|]. split; [done|]. cbn. destruct Hsz. lia.
Qed.

(** The next allocation, then the rest. *)
Lemma bumps_kmalloc {A} size n (k : Z -> M fstate A) :
  size_ok size -> (forall p, bumps fs_k n (k p)) -> bumps fs_k (size + 15 + n) (let* p := fs_kmalloc size in k p).
Proof using heap_base. intros Hs Hk. apply bumps_bind; [by apply fs_kmalloc_bumps|done]. Qed.
Lemma bumps_quiet_bind {S A B} view n (m : M S A) (k : A -> M S B) :
  bumps view 0 m -> (forall a, bumps view n (k a)) -> bumps view n (kbind m k).
Proof. intros Hm Hk. by apply (bumps_bind _ 0 n). Qed.

Definition relisfs_mount_bytes : Z := sizeof_dentry + 15 + (sizeof_inode + 15 + (sizeof_relisfs_inode + 15 + 0)).
Definition proc_mount_bytes : Z := sizeof_dentry + 15 + (sizeof_dentry + 15 + (sizeof_inode + 15 + 0)).
Definition mount_bytes : Z := relisfs_mount_bytes + (proc_mount_bytes + 0).

Lemma relisfs_mount_bumps : bumps fs_k relisfs_mount_bytes relisfs_mount.
Proof using heap_base.
  unfold relisfs_mount. apply bumps_quiet_bind; [quiet|]. intros r. destruct (r <? 0); [by apply (bumps_mono _ 0); [apply bumps_ret|]|].
  do 2 (apply bumps_quiet_bind; [quiet|intros ?]). unfold relisfs_mount_bytes.
  apply bumps_kmalloc; [done|]. intros root. apply bumps_quiet_bind; [quiet|intros _].
  apply bumps_kmalloc; [done|]. intros i. do 3 (apply bumps_quiet_bind; [quiet|intros _]).
  apply bumps_kmalloc; [done|]. intros d. quiet.
Qed.
Lemma proc_mount_bumps : bumps fs_k proc_mount_bytes proc_mount.
Proof using heap_base.
  unfold proc_mount, proc_mount_bytes. do 2 (apply bumps_kmalloc; [done|]; intros ?; apply bumps_quiet_bind; [quiet|intros _]).
  apply bumps_kmalloc; [done|]. intros i. quiet.
Qed.
Lemma boot_mounts_bumps : bumps fs_k mount_bytes boot_mounts.
Proof using heap_base.
  unfold boot_mounts, mount_bytes. apply bumps_bind.
  - cbn [vfs_kern_mount]. apply (bumps_bind _ relisfs_mount_bytes 0); [apply relisfs_mount_bumps|intros root]. quiet.
  - intros root. apply bumps_bind; [apply proc_mount_bumps|]. intros proc_root. quiet.
Qed.
End Mounts.

(** ** The devices *)

Section Devices.
Context `{Layout} {DL : DescLayout} {BL : BootLayout}.
Hypothesis heap_base : 0 < kernel_heap_region /\ kernel_heap_region mod 16 = 0.

Lemma at_mm_bumps {A} (m : M (mm_state pmm_state) A) : bumps m_k 0 (at_mm m).
Proof. apply (bumps_within _ _ _ id); [done..|]. by apply (bumps_zoom id). Qed.
Lemma at_mio_bumps {A} (m : M (mio pmm_state) A) : bumps m_k 0 (at_mio m).
Proof. by apply bumps_zoom. Qed.
Lemma at_nic_bumps {A} (m : M (nic pmm_state) A) : bumps m_k 0 (at_nic m).
Proof. by apply bumps_zoom. Qed.
Lemma at_desc_bumps {A} (m : M desc_state A) : bumps m_k 0 (at_desc m).
Proof. by apply bumps_zoom. Qed.
Lemma at_pci_bumps {A} (m : M pci A) : bumps m_k 0 (at_pci m).
Proof. by apply bumps_zoom. Qed.
Lemma in_con_bumps {A} (m : M console A) : bumps m_k 0 (at_g (in_con m)).
Proof. apply (bumps_within _ _ _ g_k); [done..|]. by apply (bumps_zoom g_k). Qed.
Lemma in_kb_bumps {A} (m : M keyboard A) : bumps m_k 0 (at_g (in_kb m)).
Proof. apply (bumps_within _ _ _ g_k); [done..|]. by apply (bumps_zoom g_k). Qed.
Lemma in_fs_bumps {A} n (m : M fstate A) : bumps fs_k n m -> bumps m_k n (at_g (in_fs m)).
Proof. intros Hm. apply (bumps_within _ _ _ g_k); [done..|]. by apply (bumps_within g_k _ _ fs_k). Qed.
Lemma net_init_bumps : bumps m_k 0 (at_net net_init).
Proof. intros s a s' Hs E. injection E as _ <-. split; [done|]. split; [done|cbn; lia]. Qed.
Lemma request_irq_bumps irq h : bumps m_k 0 (request_irq irq h).
Proof.
  unfold request_irq. destruct (irq <? _); [|apply bumps_ret]. apply bumps_upd. intros s s'. destruct (_ <? _)%nat; [|done].
  intros E. injection E as <-. done.
Qed.
#[local] Hint Resolve at_mm_bumps at_mio_bumps at_nic_bumps at_desc_bumps at_pci_bumps in_con_bumps in_kb_bumps net_init_bumps
  request_irq_bumps : boot.

Lemma at_k_gets_bumps {A} (f : kstate -> A) : bumps m_k 0 (at_k (kgets f)).
Proof. apply (bumps_within _ _ _ id); [done..|]. apply (bumps_gets id). Qed.
Lemma boot_gdt_bumps : bumps m_k 0 boot_gdt.
Proof.
  unfold boot_gdt. quiet. apply (bumps_within _ _ _ id); [done..|]. apply (bumps_mod id). done.
Qed.
#[local] Hint Resolve at_k_gets_bumps boot_gdt_bumps : boot.
Lemma smp_init_bumps : bumps m_k 0 smp_init.
Proof. unfold smp_init. quiet. Qed.
Lemma timer_init_bumps freq : bumps m_k 0 (timer_init freq).
Proof. unfold timer_init. cbv zeta. quiet. Qed.
Lemma relis_nic_init_bumps : bumps m_k 0 relis_nic_init.
Proof. unfold relis_nic_init. cbv zeta. quiet. Qed.
Lemma smp_boot_apus_bumps bin entry stacks : bumps m_k 0 (smp_boot_apus bin entry stacks).
Proof. unfold smp_boot_apus, wake_ap, cli, sti. cbv zeta. quiet. Qed.
#[local] Hint Resolve smp_init_bumps timer_init_bumps relis_nic_init_bumps : boot.

(** [start_kernel] before and after [sched_init], up to the threads. *)
Definition early_boot : M machine unit := at_g (in_con console_init);;; boot_gdt;;; boot_pmm;;; irq_init.
Definition boot_drivers (fuel : nat) : M machine unit :=
  at_mm paging_init;;; at_mio apic_init;;; smp_init;;; timer_init 100;;; boot_keyboard;;; at_g (in_fs boot_mounts);;;
  at_net net_init;;; at_pci (pci_init fuel);;; let* _ := relis_nic_init in sti.

Lemma early_boot_bumps : bumps m_k 0 early_boot.
Proof. unfold early_boot, boot_pmm, irq_init. quiet. Qed.
Lemma boot_drivers_bumps fuel : bumps m_k mount_bytes (boot_drivers fuel).
Proof using heap_base.
  unfold boot_drivers. do 5 (apply bumps_quiet_bind; [unfold boot_keyboard; quiet|intros _]).
  apply (bumps_bind _ mount_bytes 0); [by apply in_fs_bumps, boot_mounts_bumps|]. intros _. unfold sti. quiet.
Qed.

Lemma start_kernel_split fuel m :
  start_kernel fuel m =
  (early_boot;;; at_k sched_init;;; boot_drivers fuel;;; at_k boot_threads;;; smp_boot_apus trampoline_bin ap_main_addr ap_stacks;;; at_k schedule) m.
Proof.
  unfold start_kernel, early_boot, boot_drivers, kbind.
  repeat (match goal with |- match ?x with _ => _ end = _ => destruct x as [[? ?]| | |]; [|reflexivity..] end); reflexivity.
Qed.
End Devices.

(** ** The first thread *)

Section FirstThread.
Context `{Layout} {DL : DescLayout} {BL : BootLayout}.
Hypothesis heap_base : 0 < kernel_heap_region /\ kernel_heap_region mod 16 = 0.

Lemma sched_ok_part k k' cfs rt glob : sched_part k' = sched_part k -> sched_ok k cfs rt glob -> sched_ok k' cfs rt glob.
Proof.
  unfold sched_part. intros E [Hinv Hl]. injection E as En Et Ec Er El Ep Es. split; [|congruence].
  eapply sched_inv_ext; [exact Hinv|done|by rewrite Et|done|]. rewrite Et, Ec. apply (si_current _ _ _ _ Hinv).
Qed.

(** What a thread is right after it was made. *)
Record made (k : kstate) (p pid fn : Z) (name : list Z) (t : task_struct) : Prop := {
  md_task : k_tasks k !! p = Some t;
  md_pid : t_pid t = pid;
  md_name : t_name t = name;
  md_state : t_state t = TASK_RUNNING;
  md_fn : t_fn t = fn;
  md_frame : t_kernel_stack t !! 2047%nat = Some thread_trampoline
}.

(** The kernel after the first switch, from [k] before [sched_init]. *)
Definition runs_init (k k' : kstate) : Prop :=
  exists boot init kworker ti tw,
    k_switches k' = (boot, init) :: k_switches k /\ k_current k' = init /\
    sched_ok k' [kworker; init] [] [kworker; init; boot] /\
    made k' init 1 init_task_addr init_name ti /\ made k' kworker 2 heartbeat_task_addr kworker_name tw /\
    cr3_reg (k_mm k') = t_cr3 ti /\ k_tss_rsp0 k' = t_kernel_stack_top ti.

(** The two threads of [start_kernel]. *)
Lemma boot_threads_spec k boot :
  let init := kernel_heap_region + heap_ptr (k_slab k) in
  sched_ok k [] [] [boot] -> slab_inv (k_slab k) -> nodes_below init [] [] [boot] -> k_current k = boot -> boot < init -> k_next_pid k = 1 ->
  heap_ptr (k_slab k) + 2 * (sizeof_task + 304) <= kernel_heap_size ->
  exists k' kworker ti tw, boot_threads k = Done (tt, k') /\ sched_ok k' [init; kworker] [] [kworker; init; boot] /\ k_current k' = boot /\
    k_switches k' = k_switches k /\ made k' init 1 init_task_addr init_name ti /\ made k' kworker 2 heartbeat_task_addr kworker_name tw /\
    slab_inv (k_slab k') /\ k_mm k' = k_mm k /\ t_cr3 ti = cr3_reg (k_mm k).
Proof using heap_base.
  intros init Hok Hslab Hbel Hc Hlt Hpid Hroom. unfold sizeof_task in Hroom.
  destruct (boot_thread_step heap_base k [] [boot] init_name init_task_addr 0 Hok Hslab) as (k2 & ti & E2 & Hok2 & Hn2 & Hb2);
    [simpl; lia|done|simpl; lia|unfold sizeof_task; lia|].
  pose proof (nt_heap _ _ _ _ _ _ Hn2) as Hh2. unfold sizeof_task in Hh2. fold init in Hok2, Hn2, Hb2.
  destruct (boot_thread_step heap_base k2 [init] [init; boot] kworker_name heartbeat_task_addr 0 Hok2 (nt_slab _ _ _ _ _ _ Hn2))
    as (k3 & tw & E3 & Hok3 & Hn3 & _); [simpl; lia|done|simpl; lia|unfold sizeof_task; lia|].
  set (kworker := kernel_heap_region + heap_ptr (k_slab k2)) in *.
  assert (kworker <> init) as Hwi by (unfold init, kworker; lia).
  destruct (nt_same _ _ _ _ _ _ Hn2) as (Hm2 & Hc2 & Hsw2). destruct (nt_same _ _ _ _ _ _ Hn3) as (Hm3 & Hc3 & Hsw3).
  exists k3, kworker, ti, tw. split; [unfold boot_threads; erewrite kbind_done by exact E2; by erewrite kbind_done by exact E3|].
  split; [exact Hok3|]. split; [congruence|]. split; [congruence|].
  split; [|split; [|split; [apply Hn3|split; [congruence|apply Hn2]]]].
  - rewrite <- Hpid. split; [|apply Hn2..]. by rewrite (nt_tasks _ _ _ _ _ _ Hn3), lookup_insert_ne, (nt_tasks _ _ _ _ _ _ Hn2), lookup_insert_eq by done.
  - split; [|rewrite (nt_pid _ _ _ _ _ _ Hn3), (nt_next_pid _ _ _ _ _ _ Hn2), Hpid; reflexivity|apply Hn3..].
    by rewrite (nt_tasks _ _ _ _ _ _ Hn3), lookup_insert_eq.
Qed.

(** The first [schedule]. *)
Lemma first_switch k0 k boot init kworker ti tw :
  sched_ok k [init; kworker] [] [kworker; init; boot] -> k_current k = boot -> boot < init -> k_switches k = k_switches k0 ->
  made k init 1 init_task_addr init_name ti -> made k kworker 2 heartbeat_task_addr kworker_name tw ->
  exists k', schedule k = Done (tt, k') /\ runs_init k0 k' /\ cr3_reg (k_mm k') = t_cr3 ti.
Proof.
  intros Hok Hc Hlt Hsw Hi Hw. destruct (schedule_spec k [init; kworker] [] [kworker; init; boot] Hok) as (k' & E & Hok' & Hc' & _ & Hdiff).
  cbn [sched_next] in *. destruct Hdiff as [Hsw' Hregs Htasks]; [lia|]. exists k'. split; [exact E|].
  destruct (Hregs ti (md_task _ _ _ _ _ _ Hi)) as [Hrsp Hcr].
  split; [|done]. exists boot, init, kworker, ti, tw. split_and!; [congruence|done|exact Hok'|..|done|done].
  - destruct Hi. split; congruence.
  - destruct Hw. split; congruence.
Qed.

(** After [sched_init] nothing of the lists lies above the heap pointer. *)
Lemma boot_nodes_below k k1 :
  heads_ok -> 0 <= heap_ptr (k_slab k) -> heap_ptr (k_slab k) + sizeof_task <= heap_ptr (k_slab k1) ->
  nodes_below (kernel_heap_region + heap_ptr (k_slab k1)) [] [] [kernel_heap_region + heap_ptr (k_slab k)].
Proof.
  intros Hheads H0 Hle x Hx. unfold sizeof_task in *.
  assert (x = kernel_heap_region + heap_ptr (k_slab k) + tasks_off \/ x ∈ heads) as [->|Hin] by (unfold all_nodes, heads in *; set_solver).
  - left. unfold tasks_off. lia.
  - destruct (proj2 Hheads x Hin); [left; lia|by right].
Qed.

Lemma sched_part_fields k k' : sched_part k' = sched_part k ->
  k_tasks k' = k_tasks k /\ k_current k' = k_current k /\ k_sched_lock k' = k_sched_lock k /\ k_next_pid k' = k_next_pid k /\ k_switches k' = k_switches k.
Proof. unfold sched_part. intros E. injection E as ? ? ? ? ? ? ?. done. Qed.
Lemma made_part k k' p pid fn name t : sched_part k' = sched_part k -> made k p pid fn name t -> made k' p pid fn name t.
Proof. intros (Et & _)%sched_part_fields []. split; congruence. Qed.
Lemma smp_boot_apus_if bin entry stacks s s' : smp_boot_apus bin entry stacks s = Done (tt, s') -> m_if s' = true.
Proof.
  unfold smp_boot_apus. intros E. do 2 apply kbind_inv in E as (? & ? & _ & E). apply kbind_inv in E as ([] & ? & _ & E).
  do 7 apply kbind_inv in E as (? & ? & _ & E). injection E as <-. done.
Qed.
Lemma at_k_done {A} (m : M kstate A) s a k : m (m_k s) = Done (a, k) -> at_k m s = Done (a, set_m_k k s).
Proof. apply zoom_done. Qed.

Definition boot_ready (m : machine) : Prop :=
  slab_inv (k_slab (m_k m)) /\ heads_ok /\ k_sched_lock (m_k m) = 0 /\ k_next_pid (m_k m) = 1 /\
  heap_ptr (k_slab (m_k m)) + 3 * (sizeof_task + 304) + 16 + mount_bytes <= kernel_heap_size.

(** [sched_init] after the early steps: the boot task alone. *)
Definition swapper_runs (m m2 : machine) : Prop :=
  let boot := kernel_heap_region + heap_ptr (k_slab (m_k m)) in
  sched_ok (m_k m2) [] [] [boot] /\ k_current (m_k m2) = boot /\ slab_inv (k_slab (m_k m2)) /\
  heap_ptr (k_slab (m_k m)) + sizeof_task <= heap_ptr (k_slab (m_k m2)) < heap_ptr (k_slab (m_k m)) + sizeof_task + 16 /\
  k_next_pid (m_k m2) = 1 /\ k_switches (m_k m2) = k_switches (m_k m).
Lemma boot_swapper m m1 :
  boot_ready m -> early_boot m = Done (tt, m1) -> exists m2, at_k sched_init m1 = Done (tt, m2) /\ swapper_runs m m2.
Proof using heap_base.
  intros (Hslab & Hheads & Hl & Hpid & Hroom) E1. destruct (early_boot_bumps m tt m1 Hslab E1) as (Hp1 & Hs1 & Hh1).
  apply sched_part_fields in Hp1 as (_ & _ & Hl1 & Hn1 & Hw1). unfold sizeof_task, mount_bytes, relisfs_mount_bytes, proc_mount_bytes,
    sizeof_dentry, sizeof_inode, sizeof_relisfs_inode in Hroom.
  destruct (sched_init_spec heap_base (m_k m1) Hs1 Hheads) as (k2 & E2 & Hok & Hc & _ & Hs2 & Hh2 & _ & Hn2 & Hw2); [congruence|unfold sizeof_task; lia|].
  exists (set_m_k k2 m1). split; [by apply at_k_done|]. unfold swapper_runs. change (m_k (set_m_k k2 m1)) with k2.
  replace (heap_ptr (k_slab (m_k m))) with (heap_ptr (k_slab (m_k m1))) by lia. split_and!; [done|done|done|apply Hh2|apply Hh2|congruence|congruence].
Qed.

(** The threads after the drivers. *)
Definition threads_made (m m4 : machine) : Prop :=
  exists boot init kworker ti tw, sched_ok (m_k m4) [init; kworker] [] [kworker; init; boot] /\ k_current (m_k m4) = boot /\ boot < init /\
    k_switches (m_k m4) = k_switches (m_k m) /\ made (m_k m4) init 1 init_task_addr init_name ti /\
    made (m_k m4) kworker 2 heartbeat_task_addr kworker_name tw /\ slab_inv (k_slab (m_k m4)).
Lemma boot_makes_threads fuel m m2 m3 :
  boot_ready m -> swapper_runs m m2 -> boot_drivers fuel m2 = Done (tt, m3) ->
  exists m4, at_k boot_threads m3 = Done (tt, m4) /\ threads_made m m4.
Proof using heap_base.
  intros (Hslab & Hheads & _ & _ & Hroom) (Hok & Hc & Hs2 & Hh2 & Hn2 & Hw2) E3. pose proof Hslab as (_ & Hhp & _).
  destruct (boot_drivers_bumps heap_base fuel m2 tt m3 Hs2 E3) as (Hp3 & Hs3 & Hh3).
  pose proof Hp3 as (_ & Hc3 & _ & Hn3 & Hw3)%sched_part_fields. unfold sizeof_task in *.
  destruct (boot_threads_spec (m_k m3) (kernel_heap_region + heap_ptr (k_slab (m_k m)))) as (k4 & kworker & ti & tw & E4 & Hok4 & Hc4 & Hw4 & Hi & Hk & Hs4 & _).
  - by eapply sched_ok_part.
  - done.
  - apply boot_nodes_below; [done|lia|unfold sizeof_task; lia].
  - congruence.
  - lia.
  - congruence.
  - unfold sizeof_task. lia.
  - exists (set_m_k k4 m3). split; [by apply at_k_done|].
    exists (kernel_heap_region + heap_ptr (k_slab (m_k m))), (kernel_heap_region + heap_ptr (k_slab (m_k m3))), kworker, ti, tw.
    change (m_k (set_m_k k4 m3)) with k4. split_and!; [done|done|lia|congruence|done|done|done].
Qed.

Lemma boot_switches m m4 m5 :
  threads_made m m4 -> smp_boot_apus trampoline_bin ap_main_addr ap_stacks m4 = Done (tt, m5) ->
  exists m', at_k schedule m5 = Done (tt, m') /\ runs_init (m_k m) (m_k m') /\ m_if m' = true.
Proof.
  intros (boot & init & kworker & ti & tw & Hok & Hc & Hlt & Hw & Hi & Hk & Hs) E5.
  destruct (smp_boot_apus_bumps _ _ _ m4 tt m5 Hs E5) as (Hp & _). pose proof Hp as (_ & Hc5 & _ & _ & Hw5)%sched_part_fields.
  destruct (first_switch (m_k m) (m_k m5) boot init kworker ti tw) as (k' & E & Hr & _).
  - by eapply sched_ok_part.
  - congruence.
  - done.
  - congruence.
  - by eapply made_part.
  - by eapply made_part.
  - exists (set_m_k k' m5). split; [by apply at_k_done|]. split; [done|]. exact (smp_boot_apus_if _ _ _ _ _ E5).
Qed.

(** C8: [start_kernel], from a free heap with room for three tasks, six files and
    the mounts, with the lock free and 1 as the next pid.  When it reaches its
    idle loop, the thread "init", pid 1, is on the processor: the boot task has
    been switched out and nothing else has run, "init" waits with its own stack
    whose first return goes to the trampoline and with the entry point of
    [init_task], the processor has its address space and interrupt stack,
    "kworker", pid 2, is next in the queue, the lock is free, all three tasks are
    on the list of tasks and interrupts are on.  And it gets there unless a device
    stops it: when the steps before [sched_init] return, so does [sched_init];
    when the drivers and mounts then return, so do both [kernel_thread]; and when
    the start of the other processors returns, so does [start_kernel].  (An
    interrupt taken on the way is not part of the run.) *)
Theorem start_kernel_runs_init fuel m :
  boot_ready m ->
  (forall m', start_kernel fuel m = Done (tt, m') -> runs_init (m_k m) (m_k m') /\ m_if m' = true) /\
  (forall m1, early_boot m = Done (tt, m1) ->
   exists m2, at_k sched_init m1 = Done (tt, m2) /\
   forall m3, boot_drivers fuel m2 = Done (tt, m3) ->
   exists m4, at_k boot_threads m3 = Done (tt, m4) /\
   forall m5, smp_boot_apus trampoline_bin ap_main_addr ap_stacks m4 = Done (tt, m5) ->
   exists m', start_kernel fuel m = Done (tt, m')).
Proof using heap_base.
  intros Hm. split.
  - intros m'. rewrite start_kernel_split. intros ([] & m1 & E1 & E)%kbind_inv. destruct (boot_swapper m m1 Hm E1) as (m2 & E2 & H2).
    erewrite kbind_done in E by exact E2. apply kbind_inv in E as ([] & m3 & E3 & E).
    destruct (boot_makes_threads fuel m m2 m3 Hm H2 E3) as (m4 & E4 & H4). erewrite kbind_done in E by exact E4.
    apply kbind_inv in E as ([] & m5 & E5 & E). destruct (boot_switches m m4 m5 H4 E5) as (m6 & E6 & H6). rewrite E6 in E. by injection E as <-.
  - intros m1 E1. destruct (boot_swapper m m1 Hm E1) as (m2 & E2 & H2). exists m2. split; [done|]. intros m3 E3.
    destruct (boot_makes_threads fuel m m2 m3 Hm H2 E3) as (m4 & E4 & H4). exists m4. split; [done|]. intros m5 E5.
    destruct (boot_switches m m4 m5 H4 E5) as (m6 & E6 & _). exists m6. rewrite start_kernel_split.
    erewrite kbind_done by exact E1. erewrite kbind_done by exact E2. erewrite kbind_done by exact E3. erewrite kbind_done by exact E4.
    by erewrite kbind_done by exact E5.
Qed.
End FirstThread.
