(* ===== verification/SchedRun.v ===== *)
(** * The scheduler under any sequence of events

    The operations of [Sched], [Threads] and [Signal] composed: from [sched_init],
    threads are created, the timer ticks, tasks yield, exit, send signals and set
    handlers, in any order.  The pointer structure of the kernel behaves as a
    scheduler on lists of pids, and no operation ever fails. *)

From S2P Require Import Prelude Memory StringLib ListHead SpinLock Slab PgTable FrameAlloc PageAlloc Paging AddrSpace VirtMem KState Sched Threads Fork Signal Ipc Ports Console Keyboard Ata FileSys Elf Syscall Net Descriptors Pci Apic Nic Machine Boot.

(** ** The events *)

Inductive kevent :=
  | EvThread (name : list Z) (fn arg policy : Z)
  | EvTick
  | EvYield
  | EvExit
  | EvKill (pid sig : Z)
  | EvSigaction (sig handler : Z).

Section Events.
Context `{Layout}.

(** [case SYS_EXIT] of [syscall_dispatch]. *)
Definition exit_current : M kstate unit :=
  let* cur := kgets k_current in
  task_upd cur (set_t_state TASK_ZOMBIE);;;
  schedule.

(** The fuel bounds the walk of the list of tasks in [sys_kill]. *)
Definition kernel_event (fuel : nat) (e : kevent) : M kstate Z :=
  match e with
  | EvThread name fn arg policy => kernel_thread name fn arg policy
  | EvTick => scheduler_tick;;; kret 0
  | EvYield => sys_sched_yield;;; kret 0
  | EvExit => exit_current;;; kret 0
  | EvKill pid sig => sys_kill fuel pid sig
  | EvSigaction sig handler => sys_sigaction sig handler
  end.

Fixpoint kernel_run (fuel : nat) (evs : list kevent) : M kstate (list Z) :=
  match evs with
  | [] => kret []
  | e :: rest =>
      let* r := kernel_event fuel e in
      let* rs := kernel_run fuel rest in
      kret (r :: rs)
  end.
End Events.

(** ** The specification: a scheduler on pids

    The fair queue, the real-time queue, all tasks latest first, and the running
    task.  A pid is the number of tasks created before. *)
Record asched := mk_asched { a_fair : list Z; a_rt : list Z; a_all : list Z; a_current : Z }.
Definition asched_boot : asched := mk_asched [] [] [0] 0.

Definition a_pick (a : asched) : asched :=
  match a_rt a, a_fair a with
  | p :: _, _ => mk_asched (a_fair a) (a_rt a) (a_all a) p
  | [], p :: q => mk_asched (q ++ [p]) [] (a_all a) p
  | [], [] => a
  end.
Definition sig_ok (sig : Z) : bool := (1 <=? sig) && (sig <? 32).
Definition a_event (e : kevent) (a : asched) : Z * asched :=
  match e with
  | EvThread _ _ _ policy =>
      let pid := Z.of_nat (length (a_all a)) in
      (pid, if is_rt policy then mk_asched (a_fair a) (pid :: a_rt a) (pid :: a_all a) (a_current a)
            else mk_asched (a_fair a ++ [pid]) (a_rt a) (pid :: a_all a) (a_current a))
  | EvTick => (0, a)
  | EvYield | EvExit => (0, a_pick a)
  | EvKill pid sig => (if sig_ok sig && bool_decide (pid ∈ a_all a) then 0 else -1, a)
  | EvSigaction sig _ => (if sig_ok sig then 0 else -1, a)
  end.
Fixpoint a_run (evs : list kevent) (a : asched) : list Z * asched :=
  match evs with
  | [] => ([], a)
  | e :: rest =>
      let '(r, a1) := a_event e a in
      let '(rs, a2) := a_run rest a1 in (r :: rs, a2)
  end.

(** The threads a sequence of events creates; names fit in their field. *)
Fixpoint threads_of (evs : list kevent) : nat :=
  match evs with [] => 0 | EvThread _ _ _ _ :: rest => S (threads_of rest) | _ :: rest => threads_of rest end.
Definition kevent_ok (e : kevent) : Prop :=
  match e with EvThread name _ _ _ => (length name < 32)%nat | _ => True end.

(** ** The relation *)

Section Simulation.
Context `{Layout} {BL : BootLayout}.
Implicit Types (s : kstate) (a : asched).

Definition pid_of s (p : Z) : Z := match k_tasks s !! p with Some t => t_pid t | None => -1 end.

(** What the operations need of a task: it does not sleep, it has a class, and a
    fair task has a weight. *)
Definition runnable (t : task_struct) : Prop :=
  t_state t <> TASK_INTERRUPTIBLE /\ exists c, t_sched_class t = Some c /\ (c = Fair -> t_weight t <> 0).

(** [n] threads can still be created. *)
Record sim (n : nat) s a (cfs rt glob : list Z) : Prop := {
  sm_ok : sched_ok s cfs rt glob;
  sm_slab : slab_inv (k_slab s);
  sm_below : nodes_below (kernel_heap_region + heap_ptr (k_slab s)) cfs rt glob;
  sm_fair : pid_of s <$> cfs = a_fair a;
  sm_rt : pid_of s <$> rt = a_rt a;
  sm_all : pid_of s <$> glob = a_all a;
  sm_current : pid_of s (k_current s) = a_current a;
  sm_in : k_current s ∈ glob /\ cfs ⊆ glob /\ rt ⊆ glob;
  sm_heap p : p ∈ glob -> kernel_heap_region <= p < kernel_heap_region + heap_ptr (k_slab s);
  sm_task p t : p ∈ glob -> k_tasks s !! p = Some t -> runnable t;
  sm_next : k_next_pid s = Z.of_nat (length glob);
  sm_len : (length cfs + length rt < length glob)%nat;
  sm_room : Z.of_nat (length glob) * sizeof_task <= heap_ptr (k_slab s);
  sm_budget : heap_ptr (k_slab s) + Z.of_nat n * (sizeof_task + 304) <= kernel_heap_size
}.

(** A task record changes, its pid and its place in the lists do not. *)
Record same_but_task s s' (p : Z) (t' : task_struct) : Prop := {
  sb_tasks : k_tasks s' = <[p := t']> (k_tasks s);
  sb_nodes : k_nodes s' = k_nodes s;
  sb_slab : k_slab s' = k_slab s;
  sb_running : k_nr_running s' = k_nr_running s;
  sb_current : k_current s' = k_current s;
  sb_next : k_next_pid s' = k_next_pid s;
  sb_lock : k_sched_lock s' = k_sched_lock s
}.

Lemma pid_of_insert s s' p t t' :
  k_tasks s !! p = Some t -> t_pid t' = t_pid t -> k_tasks s' = <[p := t']> (k_tasks s) -> forall q, pid_of s' q = pid_of s q.
Proof.
  intros Ht Hp E q. unfold pid_of. rewrite E. destruct (decide (q = p)) as [-> |];
    [by rewrite lookup_insert_eq, Ht|by rewrite lookup_insert_ne].
Qed.

Lemma sim_update n s s' a cfs rt glob p t t' :
  sim n s a cfs rt glob -> k_tasks s !! p = Some t -> same_but_task s s' p t' ->
  t_pid t' = t_pid t -> (runnable t -> runnable t') -> sim n s' a cfs rt glob.
Proof.
  intros [[Hinv Hl] Hs Hb Hf Hr Ha Hc Hin Hh Ht Hn Hlen Hroom Hbud] Hp [Et En Es Er Ec Ex El] Hpid Hrun.
  pose proof (pid_of_insert s s' p t t' Hp Hpid Et) as Hsame.
  constructor; rewrite ?Es, ?Ec, ?Ex; try done.
  - split; [|congruence]. eapply sched_inv_ext; [exact Hinv|done| |done|]; rewrite Et, ?Ec; intros; apply insert_task_some;
      [done|exact (si_current _ _ _ _ Hinv)].
  - rewrite <- Hf. by apply list_fmap_ext.
  - rewrite <- Hr. by apply list_fmap_ext.
  - rewrite <- Ha. by apply list_fmap_ext.
  - by rewrite Hsame.
  - intros q u Hq. rewrite Et. destruct (decide (q = p)) as [-> |].
    + rewrite lookup_insert_eq. intros [= <-]. apply Hrun. by apply (Ht p).
    + rewrite lookup_insert_ne by done. by apply Ht.
Qed.

(** A task of the list. *)
Lemma sim_task n s a cfs rt glob p : sim n s a cfs rt glob -> p ∈ glob -> exists t, k_tasks s !! p = Some t.
Proof. intros Hsim Hp. apply (si_tasks _ _ _ _ (proj1 (sm_ok _ _ _ _ _ _ Hsim))). set_solver. Qed.

(** ** [schedule] *)

Lemma schedule_keeps : keeps (fun s => (k_slab s, k_next_pid s)) schedule.
Proof.
  unfold schedule, __schedule, sched_spin_lock, sched_spin_unlock, spin_lock, spin_unlock, switch_to, task_get, task_upd, on_paging, on_list.
  cbn [class_ops pick_next_task]. unfold pick_next_task_rt, pick_next_task_fair, pick_next_task_idle, on_list.
  repeat first [apply keeps_bind; [|intros ?] | apply keeps_if | apply keeps_gets | apply keeps_ret | apply keeps_opt | apply keeps_spin
    | apply keeps_mod; intros [[]]; reflexivity | apply keeps_zoom; intros ? [[]]; reflexivity
    | apply keeps_upd; intros ? ?; case_match; [intros [= <-]; reflexivity|done] ].
  intros [[]] b s'. simpl. case_match; [intros [= _ <-]; reflexivity|done].
Qed.

Lemma rotate_perm cfs rt : rotate cfs rt ≡ₚ cfs.
Proof. destruct rt, cfs; simpl; [done|by rewrite Permutation_app_comm|done|done]. Qed.

(** The tasks of the lists keep their pids and stay runnable. *)
Lemma sim_requeue n s s' a a' cfs cfs' rt glob :
  sim n s a cfs rt glob -> sched_ok s' cfs' rt glob -> cfs' ≡ₚ cfs ->
  k_slab s' = k_slab s -> k_next_pid s' = k_next_pid s ->
  (forall q, pid_of s' q = pid_of s q) -> (forall q u, q ∈ glob -> k_tasks s' !! q = Some u -> runnable u) ->
  k_current s' ∈ glob -> a_all a' = a_all a -> a_rt a' = a_rt a ->
  pid_of s <$> cfs' = a_fair a' -> pid_of s (k_current s') = a_current a' -> sim n s' a' cfs' rt glob.
Proof.
  intros [_ Hs Hb Hf Hr Ha _ (_ & Hcg & Hrg) Hh _ Hn Hlen Hroom Hbud] Hok Hp Es Ex Hpid Hrun Hcur Ea Er Ef Ec.
  constructor; rewrite ?Es, ?Ex, ?Ea, ?Er; try done.
  - intros x Hx. apply Hb. unfold all_nodes, se_nodes in *. by rewrite Hp in Hx.
  - rewrite <- Ef. by apply list_fmap_ext.
  - rewrite <- Hr. by apply list_fmap_ext.
  - rewrite <- Ha. by apply list_fmap_ext.
  - by rewrite Hpid.
  - split; [done|]. split; [|done]. intros x. rewrite Hp. apply Hcg.
  - by rewrite Hp.
Qed.

Lemma sim_schedule n s a cfs rt glob :
  sim n s a cfs rt glob -> exists s', schedule s = Done (tt, s') /\ sim n s' (a_pick a) (rotate cfs rt) rt glob.
Proof.
  intros Hsim. pose proof Hsim as [Hok _ _ Hf Hr _ Hc (Hcg & Hcf & Hrt) _ Htask _ _ _ _].
  destruct (schedule_spec s cfs rt glob Hok) as (s' & E & Hok' & Hcur & Hsame & Hdiff).
  exists s'. split; [done|]. pose proof (schedule_keeps _ _ _ E) as [= Es Ex].
  set (next := sched_next cfs rt (k_current s)) in *.
  assert (next ∈ glob) as Hng by (unfold next, sched_next; destruct rt as [|r ?]; [destruct cfs as [|r ?]|]; set_solver).
  assert ((forall q, pid_of s' q = pid_of s q) /\ (forall q u, q ∈ glob -> k_tasks s' !! q = Some u -> runnable u)) as [Hpid Hrun].
  { destruct (decide (next = k_current s)) as [Heq|Hne].
    - destruct (Hsame Heq) as (_ & t & Ht & Et). split; [eapply pid_of_insert; [exact Ht| |exact Et]; reflexivity|].
      intros q u Hq. rewrite Et. destruct (decide (q = next)) as [-> |]; [rewrite lookup_insert_eq|rewrite lookup_insert_ne by done; by apply Htask].
      intros [= <-]. exact (Htask next t Hq Ht).
    - destruct (Hdiff Hne) as [_ _ Et]. split; [intros q; unfold pid_of; by rewrite Et|]. rewrite Et. exact Htask. }
  apply (sim_requeue n s s' a _ cfs); try done; [apply rotate_perm|by rewrite Hcur|..];
    unfold a_pick; rewrite ?Hcur; unfold next, sched_next, rotate; rewrite <- Hf, <- Hr;
    destruct rt as [|r rt], cfs as [|c cfs]; simpl; try done.
  by rewrite fmap_app.
Qed.

Lemma sim_exit n s a cfs rt glob :
  sim n s a cfs rt glob -> exists s', exit_current s = Done (tt, s') /\ sim n s' (a_pick a) (rotate cfs rt) rt glob.
Proof.
  intros Hsim. destruct (sim_task n s a cfs rt glob (k_current s) Hsim (proj1 (sm_in _ _ _ _ _ _ Hsim))) as [t Ht].
  assert (exit_current s = schedule (set_k_tasks (<[k_current s := set_t_state TASK_ZOMBIE t]> (k_tasks s)) s)) as ->.
  { unfold exit_current. erewrite kbind_done by reflexivity. by erewrite kbind_done by (by apply task_upd_done). }
  apply sim_schedule. apply (sim_update n s _ a cfs rt glob (k_current s) t (set_t_state TASK_ZOMBIE t)); try done.
  intros [_ Hc]. split; [done|exact Hc].
Qed.

(** ** The other events *)

Lemma ticked_runnable c t : runnable t -> runnable (ticked c t).
Proof. intros Hr. destruct c; [exact Hr| |exact Hr]. simpl. by case_match. Qed.

Lemma sim_tick n s a cfs rt glob :
  sim n s a cfs rt glob -> exists s', scheduler_tick s = Done (tt, s') /\ sim n s' a cfs rt glob.
Proof.
  intros Hsim. destruct (sm_in _ _ _ _ _ _ Hsim) as [Hcur _]. destruct (sim_task n s a cfs rt glob (k_current s) Hsim Hcur) as [t Ht].
  destruct (sm_task _ _ _ _ _ _ Hsim _ t Hcur Ht) as (_ & c & Hc & Hw).
  eexists. split; [by apply (scheduler_tick_done s t c)|].
  apply (sim_update n s _ a cfs rt glob (k_current s) t (ticked c t)); [done|done|done| |apply ticked_runnable].
  destruct c; [done| |done]. simpl. by case_match.
Qed.

Lemma sim_sigaction n s a cfs rt glob sig handler :
  sim n s a cfs rt glob ->
  exists s', sys_sigaction sig handler s = Done (if sig_ok sig then 0 else -1, s') /\ sim n s' a cfs rt glob.
Proof.
  intros Hsim. unfold sys_sigaction, sig_ok, MAX_SIGNALS.
  assert ((1 <=? sig) && (sig <? 32) = negb ((sig <? 1) || (sig >=? 32))) as -> by lia.
  destruct ((sig <? 1) || (sig >=? 32)); [by exists s|].
  destruct (sim_task n s a cfs rt glob (k_current s) Hsim (proj1 (sm_in _ _ _ _ _ _ Hsim))) as [t Ht].
  eexists. split; [erewrite kbind_done by reflexivity; by erewrite kbind_done by (by apply task_upd_done)|].
  by eapply sim_update.
Qed.

(** A signal to a task that does not sleep. *)
Lemma sys_kill_awake s cfs rt glob fuel pid sig :
  sched_ok s cfs rt glob -> (length glob < fuel)%nat -> (forall p, p ∈ glob -> p <> 0) ->
  (forall p t, p ∈ glob -> k_tasks s !! p = Some t -> t_state t <> TASK_INTERRUPTIBLE) ->
  sig_ok sig = true ->
  sys_kill fuel pid sig s = Done (-1, s) /\ (forall p t, p ∈ glob -> k_tasks s !! p = Some t -> t_pid t <> pid) \/
  exists p t, p ∈ glob /\ k_tasks s !! p = Some t /\ t_pid t = pid /\
    sys_kill fuel pid sig s =
      Done (0, set_k_tasks (<[p := set_t_pending_signals (Z.lor (t_pending_signals t) (bit sig)) t]> (k_tasks s)) s).
Proof.
  intros [Hinv _] Hf Hnz Hst Hsig. unfold sig_ok in Hsig. unfold sys_kill, MAX_SIGNALS.
  assert ((sig <? 1) || (sig >=? 32) = false) as -> by lia.
  pose proof (si_glob _ _ _ _ Hinv) as [Hnd Hch]. apply NoDup_cons in Hnd as [Hni _].
  assert (forall p, p ∈ glob -> is_Some (k_tasks s !! p)) as Hts by (intros p Hp; apply (si_tasks _ _ _ _ Hinv); set_solver).
  rewrite <- kbind_assoc. erewrite kbind_done by (by apply (find_task_spec s pid glob global_tasks fuel)).
  unfold task_by_pid. destruct (list_find (pid_is s pid) glob) as [[i p]|] eqn:El; simpl.
  - right. apply list_find_Some in El as (Hi & Hp & _). apply list_elem_of_lookup_2 in Hi. unfold pid_is in Hp.
    destruct (Hts p Hi) as [t Ht]. rewrite Ht in Hp. apply Is_true_true, Z.eqb_eq in Hp. exists p, t.
    rewrite (proj2 (Z.eqb_neq p 0)) by auto. erewrite kbind_done by (by apply task_upd_done).
    erewrite kbind_done by (apply task_get_done; apply lookup_insert_eq). cbn [t_state set_t_pending_signals].
    rewrite (proj2 (Z.eqb_neq _ _) (Hst p t Hi Ht)). done.
  - left. split; [done|]. intros p t Hp Ht Hpid. rewrite list_find_None in El.
    assert (~ Is_true (pid_is s pid p)) as Hno by (eapply Forall_forall in El; [exact El|done]).
    apply Hno. unfold pid_is. rewrite Ht. apply Is_true_true. lia.
Qed.

Hypothesis heap_base : 0 < kernel_heap_region /\ kernel_heap_region mod 16 = 0.

Lemma sim_kill n s a cfs rt glob fuel pid sig :
  sim n s a cfs rt glob -> (length glob < fuel)%nat ->
  exists s', sys_kill fuel pid sig s = Done (if sig_ok sig && bool_decide (pid ∈ a_all a) then 0 else -1, s') /\ sim n s' a cfs rt glob.
Proof using heap_base.
  intros Hsim Hf. destruct (sig_ok sig) eqn:Hsig.
  2: { exists s. split; [|done]. unfold sys_kill, sig_ok, MAX_SIGNALS in *. assert ((sig <? 1) || (sig >=? 32) = true) as -> by lia. done. }
  pose proof Hsim as [Hok _ _ _ _ Ha _ _ Hh Ht _ _ _ _].
  assert (forall p, p ∈ glob -> p <> 0) as Hnz by (intros p Hp; specialize (Hh p Hp); lia).
  destruct (sys_kill_awake s cfs rt glob fuel pid sig Hok Hf Hnz) as [[E Hno]|(p & t & Hp & Hpt & Hpid & E)];
    [intros p t Hp Hpt; apply (Ht p t Hp Hpt)|done|..]; rewrite E, <- Ha.
  - rewrite bool_decide_false; [by exists s|]. intros (p & Hpp & Hp)%list_elem_of_fmap.
    destruct (sim_task n s a cfs rt glob p Hsim Hp) as [t Hpt]. apply (Hno p t Hp Hpt). rewrite Hpp. unfold pid_of. by rewrite Hpt.
  - rewrite bool_decide_true by (apply list_elem_of_fmap; exists p; split; [unfold pid_of; by rewrite Hpt|done]).
    eexists. split; [reflexivity|]. by eapply sim_update.
Qed.

(** A new thread: its address is new, so the pids of the others are unchanged. *)
Lemma sim_thread n s a cfs rt glob name fn arg policy :
  let p := kernel_heap_region + heap_ptr (k_slab s) in
  sim (S n) s a cfs rt glob -> (length name < 32)%nat ->
  exists s' cfs' rt', kernel_thread name fn arg policy s = Done (Z.of_nat (length (a_all a)), s') /\
    sim n s' (a_event (EvThread name fn arg policy) a).2 cfs' rt' (p :: glob).
Proof using heap_base.
  intros p [Hok Hs Hb Hf Hr Ha Hc (Hcg & Hcf & Hrt) Hh Ht Hn Hlen Hroom Hbud] Hname.
  pose proof Hs as (_ & Hhp & _). unfold kernel_heap_size in Hhp.
  destruct (kernel_thread_room heap_base s cfs rt glob name fn arg policy Hok Hs Hname) as (s' & t & E & Hok' & Hnt).
  - intros x Hx. destruct (Hb x Hx) as [?|?]; [by left|right]. unfold p, sizeof_task in *. lia.
  - unfold sizeof_task in Hroom. lia.
  - unfold sizeof_task in *. lia.
  - fold p in Hok', Hnt. destruct Hnt as [Et Ex Ep _ Est _ _ _ _ _ _ Hs' Hh' (_ & Ec & _) Hcl].
    assert (length (a_all a) = length glob) as La by (by rewrite <- Ha, length_fmap).
    assert (forall q, q ∈ glob -> pid_of s' q = pid_of s q) as Hold.
    { intros q Hq. specialize (Hh q Hq). unfold pid_of. rewrite Et, lookup_insert_ne by (unfold p; lia). done. }
    assert (pid_of s' p = Z.of_nat (length (a_all a))) as Hnew by (unfold pid_of; rewrite Et, lookup_insert_eq, La, <- Hn; exact Ep).
    assert (forall l, l ⊆ glob -> pid_of s' <$> l = pid_of s <$> l) as Hmap.
    { intros l Hl. apply Forall_fmap_ext, Forall_forall. intros q Hq. apply Hold, Hl, Hq. }
    assert (i32 (k_next_pid s) = k_next_pid s) as Hi by (apply signed_small; unfold sizeof_task in *; lia).
    exists s'. eexists _, _. rewrite La, <- Hn. split; [by rewrite <- Hi at 1|].
    constructor; [exact Hok'|exact Hs'| | | | | | | | | | | |].
    + apply (nodes_below_thread heap_base policy p); [exact Hb|unfold p, sizeof_task in *; lia..].
    + simpl. destruct (is_rt policy); simpl; [by rewrite Hmap|]. by rewrite fmap_app, Hmap, Hf, <- Hnew.
    + simpl. destruct (is_rt policy); simpl; [|by rewrite Hmap]. by rewrite Hmap, Hr, <- Hnew.
    + simpl. assert (a_all (if is_rt policy then mk_asched (a_fair a) (Z.of_nat (length (a_all a)) :: a_rt a) (Z.of_nat (length (a_all a)) :: a_all a) (a_current a)
        else mk_asched (a_fair a ++ [Z.of_nat (length (a_all a))]) (a_rt a) (Z.of_nat (length (a_all a)) :: a_all a) (a_current a))
        = Z.of_nat (length (a_all a)) :: a_all a) as -> by (by destruct (is_rt policy)). by rewrite Hmap, Ha, Hnew.
    + simpl. rewrite Ec, Hold by done. by destruct (is_rt policy).
    + rewrite Ec. destruct (is_rt policy); set_solver.
    + intros q [->|Hq]%elem_of_cons; [unfold p, sizeof_task in *; lia|]. specialize (Hh q Hq). unfold sizeof_task in *. lia.
    + intros q u Hq. rewrite Et. destruct (decide (q = p)) as [-> |]; [rewrite lookup_insert_eq|rewrite lookup_insert_ne by done].
      * intros [= <-]. split; [by rewrite Est|]. destruct Hcl as [Hcl|[Hcl Hw]]; [by exists Rt|exists Fair; rewrite Hw; done].
      * apply Ht. set_solver.
    + rewrite Ex, Hn. unfold sizeof_task in Hroom. rewrite wrap_small by lia. simpl. lia.
    + destruct (is_rt policy); rewrite ?length_app; simpl; lia.
    + unfold sizeof_task in *. cbn [length]. lia.
    + unfold sizeof_task in *. lia.
Qed.

(** ** Sequences of events *)

Lemma sim_event n s a cfs rt glob fuel e :
  sim (threads_of [e] + n) s a cfs rt glob -> kevent_ok e -> (length glob < fuel)%nat ->
  exists s' cfs' rt' glob', kernel_event fuel e s = Done ((a_event e a).1, s') /\ sim n s' (a_event e a).2 cfs' rt' glob' /\
    length glob' = (threads_of [e] + length glob)%nat.
Proof using heap_base.
  intros Hsim Hok Hf. destruct e as [name fn arg policy| | | |pid sig|sig handler]; cbn [threads_of Nat.add] in *.
  - destruct (sim_thread n s a cfs rt glob name fn arg policy Hsim Hok) as (s' & cfs' & rt' & E & Hsim').
    by exists s', cfs', rt', (kernel_heap_region + heap_ptr (k_slab s) :: glob).
  - destruct (sim_tick n s a cfs rt glob Hsim) as (s' & E & Hsim'). exists s', cfs, rt, glob.
    split; [cbn; by erewrite kbind_done by exact E|done].
  - destruct (sim_schedule n s a cfs rt glob Hsim) as (s' & E & Hsim'). exists s', (rotate cfs rt), rt, glob.
    split; [cbn; unfold sys_sched_yield; by erewrite kbind_done by exact E|done].
  - destruct (sim_exit n s a cfs rt glob Hsim) as (s' & E & Hsim'). exists s', (rotate cfs rt), rt, glob.
    split; [cbn; by erewrite kbind_done by exact E|done].
  - destruct (sim_kill n s a cfs rt glob fuel pid sig Hsim Hf) as (s' & E & Hsim'). by exists s', cfs, rt, glob.
  - destruct (sim_sigaction n s a cfs rt glob sig handler Hsim) as (s' & E & Hsim'). by exists s', cfs, rt, glob.
Qed.

Lemma threads_of_cons e rest : threads_of (e :: rest) = (threads_of [e] + threads_of rest)%nat.
Proof. by destruct e. Qed.

Lemma sim_run s a cfs rt glob fuel evs :
  sim (threads_of evs) s a cfs rt glob -> Forall kevent_ok evs -> (length glob + threads_of evs < fuel)%nat ->
  exists s' cfs' rt' glob', kernel_run fuel evs s = Done ((a_run evs a).1, s') /\ sim 0 s' (a_run evs a).2 cfs' rt' glob'.
Proof using heap_base.
  revert s a cfs rt glob. induction evs as [|e rest IH]; intros s a cfs rt glob Hsim Hok Hf; [by exists s, cfs, rt, glob|].
  apply Forall_cons in Hok as [He Hok]. rewrite threads_of_cons in *.
  destruct (sim_event (threads_of rest) s a cfs rt glob fuel e Hsim He) as (s1 & cfs1 & rt1 & glob1 & E1 & Hsim1 & Hl); [lia|].
  destruct (IH s1 _ cfs1 rt1 glob1 Hsim1 Hok) as (s2 & cfs2 & rt2 & glob2 & E2 & Hsim2); [lia|].
  exists s2, cfs2, rt2, glob2. cbn [kernel_run a_run]. destruct (a_event e a) as [r a1]. cbn [fst snd] in *.
  destruct (a_run rest a1) as [rs a2]. cbn [fst snd] in *. split; [|done].
  erewrite kbind_done by exact E1. by erewrite kbind_done by exact E2.
Qed.

(** The pids of the specification are 0, 1, 2, ... in the order of creation. *)
Lemma a_pick_all a : a_all (a_pick a) = a_all a.
Proof. unfold a_pick. by destruct (a_rt a), (a_fair a). Qed.

Lemma a_run_all evs a m :
  a_all a = reverse (seqZ 0 (Z.of_nat m)) -> a_all (a_run evs a).2 = reverse (seqZ 0 (Z.of_nat (m + threads_of evs))).
Proof.
  revert a m. induction evs as [|e rest IH]; intros a m Ha; [by rewrite Nat.add_0_r|].
  assert (a_all (a_event e a).2 = reverse (seqZ 0 (Z.of_nat (m + threads_of [e])))) as H1.
  { destruct e as [name fn arg policy| | | |pid sig|sig handler]; cbn [a_event snd threads_of]; rewrite ?a_pick_all, ?Nat.add_0_r; try done.
    rewrite Nat.add_1_r, seqZ_S, reverse_app. simpl.
    rewrite Ha, length_reverse, length_seqZ, Nat2Z.id. destruct (is_rt policy); done. }
  cbn [a_run]. destruct (a_event e a) as [r a1]. cbn [snd] in H1. specialize (IH a1 _ H1).
  destruct (a_run rest a1) as [rs a2]. cbn [snd] in *. rewrite threads_of_cons, IH. by rewrite Nat.add_assoc.
Qed.

(** ** From the boot *)

Lemma sim_boot n k :
  slab_inv (k_slab k) -> heads_ok -> k_sched_lock k = 0 -> k_next_pid k = 1 ->
  heap_ptr (k_slab k) + sizeof_task + 16 + Z.of_nat n * (sizeof_task + 304) <= kernel_heap_size ->
  exists k' p, sched_init k = Done (tt, k') /\ sim n k' asched_boot [] [] [p].
Proof using heap_base.
  intros Hs Hheads Hl Hpid Hroom. pose proof Hs as (_ & Hhp & _).
  destruct (sched_init_spec heap_base k Hs Hheads Hl) as (k1 & E & Hok & Hc & Ht & Hs1 & Hh & _ & Hp & _); [unfold sizeof_task in *; lia|].
  set (p := kernel_heap_region + heap_ptr (k_slab k)) in *. exists k1, p. split; [done|].
  assert (k_tasks k1 !! p = Some (swapper (cr3_reg (k_mm k)))) as Htp by (rewrite Ht; apply lookup_insert_eq).
  assert (pid_of k1 p = 0) as Hp0 by (unfold pid_of; by rewrite Htp).
  constructor; [exact Hok|exact Hs1| |done|done|by cbn; rewrite Hp0|by rewrite Hc, Hp0|rewrite Hc; set_solver| | | |simpl; lia| |].
  - intros x Hx. assert (x = p + tasks_off \/ x ∈ heads) as [->|Hin] by (unfold all_nodes, heads in *; set_solver).
    + left. unfold p, tasks_off, sizeof_task in *. lia.
    + destruct (proj2 Hheads x Hin); [left; unfold sizeof_task in *; lia|by right].
  - intros q ->%list_elem_of_singleton. unfold p, sizeof_task in *. lia.
  - intros q t ->%list_elem_of_singleton. rewrite Htp. intros [= <-]. split; [done|]. by exists Idle.
  - by rewrite Hp, Hpid.
  - unfold sizeof_task in *. simpl. lia.
  - unfold sizeof_task in *. lia.
Qed.
End Simulation.

Section Refinement.
Context `{Layout} {BL : BootLayout}.
Hypothesis heap_base : 0 < kernel_heap_region /\ kernel_heap_region mod 16 = 0.

(** C5: the scheduler refines a scheduler on pids: from the boot, any sequence of
    thread creations, ticks, yields, exits, signals and handlers, with room in
    the heap for the threads, runs to its end with the results of the
    specification, and then the lists of the kernel are well formed, the lock is
    free, and the fair queue, the real-time queue, the list of all tasks and the
    running task are those of the specification, read as pids; every task has
    a pid of its own, and no task sleeps. *)
Theorem scheduler_refines evs fuel k :
  slab_inv (k_slab k) -> heads_ok -> k_sched_lock k = 0 -> k_next_pid k = 1 ->
  Forall kevent_ok evs -> (S (threads_of evs) < fuel)%nat ->
  heap_ptr (k_slab k) + sizeof_task + 16 + Z.of_nat (threads_of evs) * (sizeof_task + 304) <= kernel_heap_size ->
  exists k' cfs rt glob, (sched_init;;; kernel_run fuel evs) k = Done ((a_run evs asched_boot).1, k') /\
    sched_ok k' cfs rt glob /\
    let a := (a_run evs asched_boot).2 in
    pid_of k' <$> cfs = a_fair a /\ pid_of k' <$> rt = a_rt a /\ pid_of k' <$> glob = a_all a /\
    pid_of k' (k_current k') = a_current a /\ k_current k' ∈ glob /\
    a_all a = reverse (seqZ 0 (Z.of_nat (S (threads_of evs)))) /\
    (forall p t, p ∈ glob -> k_tasks k' !! p = Some t -> t_state t <> TASK_INTERRUPTIBLE).
Proof.
  intros Hs Hheads Hl Hpid Hevs Hf Hroom.
  destruct (sim_boot heap_base _ k Hs Hheads Hl Hpid Hroom) as (k1 & p & E1 & Hsim1).
  destruct (sim_run heap_base k1 asched_boot [] [] [p] fuel evs Hsim1 Hevs) as (k2 & cfs & rt & glob & E2 & Hsim2); [simpl; lia|].
  exists k2, cfs, rt, glob. split; [by erewrite kbind_done by exact E1|].
  destruct Hsim2 as [Hok _ _ Hfa Hr Ha Hc [Hin _] _ Ht _ _ _ _].
  split; [done|]. do 5 (split; [done|]). split; [by apply (a_run_all evs asched_boot 1)|].
  intros q t Hq Hqt. apply (Ht q t Hq Hqt).
Qed.
End Refinement.
