(* ===== verification/MachineInst.v ===== *)
(** * A machine with interrupt controllers and a network card

    The theorems of [Exec], [Apic], [Nic], [Machine], [Boot] and [SchedRun] applied to a machine
    whose tables map the register pages.  The eight frames with tables are
    evaluated; the frames above them are ordinary memory. *)

From S2P Require Import Prelude Memory StringLib ListHead SpinLock Slab PgTable FrameAlloc PageAlloc Paging AddrSpace VirtMem PagingInst KState Sched Threads Fork Signal Ipc SchedInst Ports Console Keyboard Ata FileSys FsInst Elf Syscall Exec SyscallInst Net Descriptors Pci Apic Nic Machine Boot BootRun SchedRun.

#[local] Existing Instance demo_layout.

(** Membership in a list of constants. *)
Ltac in_list := repeat first [apply list_elem_of_here | apply list_elem_of_further].

(** ** The tables

    The first 48 frames: the eight low ones are in use, and the tables from the
    root through 0x5000, 0x6000 and 0x7000 map three pages at [LAPIC_VADDR] to
    [a], [b] and [c]. *)
Definition device_ram (a b c : Z) : mem :=
  poke64 (poke64 (poke64 (poke64 (poke64 (poke64 (ram_pages 8)
    (phys_to_virt 0x0000 + 8 * 402) (0x5000 + 3))
    (phys_to_virt 0x5000) (0x6000 + 3))
    (phys_to_virt 0x6000) (0x7000 + 3))
    (phys_to_virt 0x7000) (a + 3))
    (phys_to_virt 0x7000 + 8) (b + 3))
    (phys_to_virt 0x7000 + 16) (c + 3).
Definition machine_ram (a b c : Z) : mem :=
  write_list (device_ram a b c) (phys_to_virt 0x8000) (replicate (40 * 4096) 0).
Definition machine_frames (a b c : Z) : pmm_state := mk_pmm (255 :: replicate 1023 0) 48 40 0 (machine_ram a b c).
Definition machine_space (a b c : Z) : mm_state pmm_state := mk_mm (machine_frames a b c) 0 (phys_to_virt 0) [].
(** The same with the memory of the tables only. *)
Definition small_space (a b c : Z) : mm_state pmm_state := set_mm_mem (device_ram a b c) (machine_space a b c).
Definition machine_tables : gmap Z tag :=
  {[ 0 := (Some 0, []); 0x5000 := (None, [402]); 0x6000 := (None, [402; 0]); 0x7000 := (None, [402; 0; 0]) ]}.

Lemma machine_frames_inv a b c : pmm_inv (machine_frames a b c).
Proof.
  constructor; cbn [machine_frames pmm_bitmap pmm_pages_total pmm_pages_free next_free_page pmm_mem].
  - reflexivity.
  - by split.
  - by split.
  - lia.
  - vm_compute. reflexivity.
  - unfold machine_ram, device_ram. destruct (ram_pages_ok 8) as [Hwf Hm]. split.
    + apply write_list_wf; [do 6 apply poken_wf; exact Hwf|]. apply Forall_replicate. unfold is_byte. lia.
    + intros i Hi. destruct (decide (i < 8 * 4096)) as [Hlt|Hge].
      * apply write_list_mapped with (n := 8 * 4096); [|lia]. do 6 apply poken_mapped. rewrite PAGE_SIZE_eq in Hm. exact Hm.
      * rewrite lookup_write_list, length_replicate. rewrite !phys_to_virt_eq by by split. rewrite PAGE_SIZE_eq in Hi.
        rewrite decide_True by lia. apply lookup_lt_is_Some. rewrite length_replicate. lia.
Qed.

(** The frames above the tables do not matter to the tables. *)
Lemma small_lookup a b c x : x < phys_to_virt 0x8000 -> machine_ram a b c !! x = device_ram a b c !! x.
Proof. intros Hx. apply lookup_write_list_out. lia. Qed.
Lemma small_mem a b c : mm_mem (small_space a b c) = device_ram a b c /\ mm_mem (machine_space a b c) = machine_ram a b c.
Proof. split; [apply mm_mem_set|reflexivity]. Qed.
Lemma small_entry a b c t i :
  t ∈ [0; 0x5000; 0x6000; 0x7000] -> 0 <= i < 512 ->
  entry (mm_mem (machine_space a b c)) t i = entry (mm_mem (small_space a b c)) t i.
Proof.
  intros Ht Hi. destruct (small_mem a b c) as [-> ->]. apply peekn_eq. intros x Hx. apply small_lookup.
  assert (phys_to_virt t <= phys_to_virt 0x7000) by (rewrite !phys_to_virt_eq by (set_unfold; unfold phys_ok; lia); set_unfold; lia).
  rewrite (phys_to_virt_eq 0x8000) by by split. rewrite (phys_to_virt_eq 0x7000) in * by by split. lia.
Qed.
Lemma table_okb_mem (s : mm_state pmm_state) m L t g :
  forallb (link_okb (mm_mem s) L t g) (seqZ 0 512) = forallb (link_okb m L t g) (seqZ 0 512) ->
  table_okb (set_mm_mem m s) L t g = table_okb s L t g.
Proof. intros E. unfold table_okb. rewrite E, mm_mem_set. reflexivity. Qed.
Lemma links_okb_ext m m' L t g l :
  (forall i, i ∈ l -> entry m t i = entry m' t i) -> forallb (link_okb m L t g) l = forallb (link_okb m' L t g) l.
Proof.
  induction l as [|i l IH]; intros Hl; [done|]. cbn [forallb]. unfold link_okb at 1 3. rewrite (Hl i) by left.
  f_equal. apply IH. intros j Hj. apply Hl. by right.
Qed.
Lemma small_table a b c t g :
  t ∈ [0; 0x5000; 0x6000; 0x7000] ->
  table_okb (small_space a b c) machine_tables t g = true -> table_okb (machine_space a b c) machine_tables t g = true.
Proof.
  intros Ht Hb. rewrite <- Hb. symmetry. apply table_okb_mem. destruct (small_mem a b c) as [<- _].
  apply links_okb_ext. intros i Hi%elem_of_seqZ. apply small_entry; [done|lia].
Qed.

Lemma machine_tables_ok a b c :
  bool_decide (map_Forall (fun t g => table_okb (small_space a b c) machine_tables t g = true) machine_tables) = true ->
  tables_ok (machine_space a b c) machine_tables.
Proof.
  intros Hb%bool_decide_eq_true. apply tables_okb_spec; [apply machine_frames_inv|]. intros t g Ht.
  apply small_table; [|by apply Hb].
  unfold machine_tables in Ht. repeat (apply lookup_insert_Some in Ht as [[<- _]|[_ Ht]]; [set_solver|]).
  apply lookup_singleton_Some in Ht as [<- _]. set_solver.
Qed.
Lemma machine_root : machine_tables !! 0 = Some (Some 0, []).
Proof. vm_compute. reflexivity. Qed.

(** Where the three pages lead. *)
Lemma walk_three m e j :
  entry m 0 402 = Some 0x5003 -> entry m 0x5000 0 = Some 0x6003 -> entry m 0x6000 0 = Some 0x7003 ->
  entry m 0x7000 j = Some e -> Paging.present e = true -> lookup_from m 0 [402; 0; 0; j] = Some (e, false).
Proof.
  intros H0 H1 H2 He Hp. cbn [lookup_from length]. rewrite H0. change (lookup_from m 0x5000 [0; 0; j] = Some (e, false)).
  cbn [lookup_from length]. rewrite H1. change (lookup_from m 0x6000 [0; j] = Some (e, false)).
  cbn [lookup_from length]. rewrite H2. change (lookup_from m 0x7000 [j] = Some (e, false)).
  cbn [lookup_from length]. by rewrite He, Hp.
Qed.
Lemma machine_translate a b c j e :
  j ∈ [0; 1; 2] -> entry (mm_mem (small_space a b c)) 0x7000 j = Some e -> Paging.present e = true ->
  entry (mm_mem (small_space a b c)) 0 402 = Some 0x5003 -> entry (mm_mem (small_space a b c)) 0x5000 0 = Some 0x6003 ->
  entry (mm_mem (small_space a b c)) 0x6000 0 = Some 0x7003 ->
  translate (mm_mem (machine_space a b c)) 0 (LAPIC_VADDR + j * 4096) = Some (e, false).
Proof.
  pose proof (small_entry a b c) as Hs. revert Hs. generalize (mm_mem (machine_space a b c)) (mm_mem (small_space a b c)).
  intros m m' Hs Hj He Hp H0 H1 H2.
  assert (indices (LAPIC_VADDR + j * 4096) = [402; 0; 0; j]) as Hidx
    by (set_unfold in Hj; destruct Hj as [->|[->|[->|[]]]]; reflexivity).
  assert (0 <= j < 512) by (set_unfold in Hj; lia).
  unfold translate. rewrite Hidx. apply walk_three; [..|exact Hp]; (rewrite Hs; [assumption|in_list|lia]).
Qed.

(** ** The interrupt controllers *)

Definition demo_bus : bus := mk_bus {[ LAPIC_BASE_PHYS + LAPIC_ID := 0 ]} [].
Definition demo_mio (a b c : Z) : mio pmm_state := mk_mio (machine_space a b c) demo_bus (mk_ports ∅ []) (0xFEE00900, 0).

(** The three pages, checked together. *)
Definition entry_is (m : mem) (t i e : Z) : bool := match entry m t i with Some x => x =? e | None => false end.
Definition pages_okb (m : mem) (a b c : Z) : bool :=
  entry_is m 0 402 0x5003 && entry_is m 0x5000 0 0x6003 && entry_is m 0x6000 0 0x7003 &&
  entry_is m 0x7000 0 (a + 3) && entry_is m 0x7000 1 (b + 3) && entry_is m 0x7000 2 (c + 3).

Lemma entry_is_true m t i e : entry_is m t i e = true -> entry m t i = Some e.
Proof. unfold entry_is. destruct (entry m t i); [|done]. by intros ->%Z.eqb_eq. Qed.

Lemma pages_okb_spec m a b c :
  pages_okb m a b c = true -> entry m 0 402 = Some 0x5003 /\ entry m 0x5000 0 = Some 0x6003 /\ entry m 0x6000 0 = Some 0x7003 /\
    entry m 0x7000 0 = Some (a + 3) /\ entry m 0x7000 1 = Some (b + 3) /\ entry m 0x7000 2 = Some (c + 3).
Proof.
  unfold pages_okb. rewrite !andb_true_iff. intros (((((H0 & H1) & H2) & H3) & H4) & H5).
  apply entry_is_true in H0, H1, H2, H3, H4, H5. done.
Qed.

Lemma demo_device_page a b c j p :
  pages_okb (device_ram a b c) a b c = true -> (j = 0 /\ p = a) \/ (j = 1 /\ p = b) \/ (j = 2 /\ p = c) ->
  Paging.present (p + 3) = true -> frame_of (p + 3) = p ->
  device_page (demo_mio a b c) (LAPIC_VADDR + j * 4096) p.
Proof.
  intros Hb Hj Hp Hf. destruct (small_mem a b c) as [Hm _]. rewrite <- Hm in Hb.
  destruct (pages_okb_spec _ _ _ _ Hb) as (H0 & H1 & H2 & H3 & H4 & H5).
  split; [by rewrite Z.mod_add by lia|]. exists (p + 3). split; [|done].
  destruct Hj as [[-> ->]|[[-> ->]|[-> ->]]]; (apply machine_translate; [in_list|exact H3 || exact H4 || exact H5|exact Hp|exact H0|exact H1|exact H2]).
Qed.

Abbreviation apic_mio := (demo_mio LAPIC_BASE_PHYS IOAPIC_BASE_PHYS 0x9000).
Lemma demo_apic_pages : apic_pages apic_mio.
Proof.
  assert (pages_okb (device_ram LAPIC_BASE_PHYS IOAPIC_BASE_PHYS 0x9000) LAPIC_BASE_PHYS IOAPIC_BASE_PHYS 0x9000 = true) as Hb by (vm_compute; reflexivity).
  split.
  - exact (demo_device_page _ _ _ 0 _ Hb (or_introl (conj eq_refl eq_refl)) eq_refl eq_refl).
  - exact (demo_device_page _ _ _ 1 _ Hb (or_intror (or_introl (conj eq_refl eq_refl))) eq_refl eq_refl).
Qed.

(** Line 1, the keyboard, arrives as vector 33. *)
Lemma apic_init_routes_witness :
  exists s', apic_init apic_mio = Done (tt, s') /\
    redirection (ioapic_regs IOAPIC_BASE_PHYS (bus_log (io_bus s'))) 1 = Some (33, 0, false, 0).
Proof.
  destruct (apic_init_routes apic_mio demo_apic_pages) as (s' & E & _ & Hr & _). exists s'. split; [exact E|].
  apply Hr. lia.
Defined.

(** ** The network card *)

Definition demo_bar : Z := 0xFEB00000.
Definition demo_nic (a b c : Z) : nic pmm_state := mk_nic (demo_mio a b c) MMIO_VIRT_BASE 0 (replicate 32 0).
Abbreviation card_nic := (demo_nic demo_bar (demo_bar + 0x1000) (demo_bar + 0x2000)).
Abbreviation apic_nic := (demo_nic LAPIC_BASE_PHYS IOAPIC_BASE_PHYS 0x9000).

Lemma demo_attached : nic_attached demo_bar card_nic machine_tables.
Proof.
  constructor; [apply machine_tables_ok; vm_compute; reflexivity|exact machine_root|done| |done].
  assert (pages_okb (device_ram demo_bar (demo_bar + 0x1000) (demo_bar + 0x2000)) demo_bar (demo_bar + 0x1000) (demo_bar + 0x2000) = true) as Hb by (vm_compute; reflexivity).
  intros i [->| ->].
  - exact (demo_device_page _ _ _ 0 _ Hb (or_introl (conj eq_refl eq_refl)) eq_refl eq_refl).
  - exact (demo_device_page _ _ _ 2 _ Hb (or_intror (or_intror (conj eq_refl eq_refl))) eq_refl eq_refl).
Qed.

(** Two packets arrive, and three polls report them. *)
Lemma nic_receive_queue_witness :
  safe False nic_rx_init card_nic (fun _ s' =>
    exists s2, nic_run demo_bar [Arrives 60; Arrives 1500; Polled; Polled; Polled] s' = Done ([60; 1500], s2)).
Proof.
  eapply safe_mono; [apply (nic_receive_queue demo_bar card_nic machine_tables demo_attached)| |].
  - intros Hlt. exfalso. change (40 < 33) in Hlt. lia.
  - intros _ s' [Hrun _]. destruct (Hrun [Arrives 60; Arrives 1500; Polled; Polled; Polled]) as (s2 & E). exists s2. exact E.
Defined.

Lemma apic_tables : tables_ok (nic_mm apic_nic) machine_tables.
Proof. apply machine_tables_ok. vm_compute. reflexivity. Qed.

Lemma apic_window i :
  0 <= i < 3 -> exists e, translate (nic_mem apic_nic) (nic_root apic_nic) (MMIO_VIRT_BASE + i * 4096) = Some (e, false).
Proof.
  intros Hi. assert (pages_okb (device_ram LAPIC_BASE_PHYS IOAPIC_BASE_PHYS 0x9000) LAPIC_BASE_PHYS IOAPIC_BASE_PHYS 0x9000 = true) as Hb
    by (vm_compute; reflexivity).
  assert (forall j p, (j = 0 /\ p = LAPIC_BASE_PHYS) \/ (j = 1 /\ p = IOAPIC_BASE_PHYS) \/ (j = 2 /\ p = 0x9000) ->
    Paging.present (p + 3) = true -> frame_of (p + 3) = p ->
    exists e, translate (nic_mem apic_nic) (nic_root apic_nic) (MMIO_VIRT_BASE + j * 4096) = Some (e, false)) as Hp.
  { intros j p Hj Hpr Hf. destruct (demo_device_page _ _ _ j p Hb Hj Hpr Hf) as (_ & e & Ht & _). exists e. exact Ht. }
  clear Hb. assert (i = 0 \/ i = 1 \/ i = 2) as [->|[->| ->]] by lia.
  - exact (Hp 0 LAPIC_BASE_PHYS (or_introl (conj eq_refl eq_refl)) eq_refl eq_refl).
  - exact (Hp 1 IOAPIC_BASE_PHYS (or_intror (or_introl (conj eq_refl eq_refl))) eq_refl eq_refl).
  - exact (Hp 2 0x9000 (or_intror (or_intror (conj eq_refl eq_refl))) eq_refl eq_refl).
Qed.

(** After the card is attached, the end of an interrupt is written to the card. *)
Lemma nic_hw_init_attaches_witness :
  safe False (nic_hw_init demo_bar) apic_nic (fun ret s' =>
    ret = 0 /\ lapic_eoi (nic_io s') = Done (tt, wrote (nic_io s') 0xFEB000B0 0)).
Proof.
  eapply safe_mono; [apply (nic_hw_init_attaches apic_nic machine_tables demo_bar)| |].
  - exact apic_tables.
  - exact machine_root.
  - reflexivity.
  - by split.
  - reflexivity.
  - intros i Hi e. destruct (apic_window i Hi) as (e' & ->). congruence.
  - reflexivity.
  - intros Hlt. exfalso. change (40 < 9) in Hlt. lia.
  - intros ret s' (Hr & _ & _ & He & _). split; [exact Hr|exact He].
Defined.

(** ** Interrupts *)

Definition clocked_kernel : kstate := set_k_mm (machine_space LAPIC_BASE_PHYS IOAPIC_BASE_PHYS 0x9000) demo_kernel.
Definition demo_machine : machine :=
  mk_machine (set_g_k clocked_kernel demo_g) (mk_devices demo_bus (mk_ports ∅ []) (0, 0) 0 0 (replicate 32 0))
    (mk_desc gdt_boot (0, 0) (0, 0) zero_tss 0 (replicate 256 zero_gate) (0, 0) 0 0 0 (mk_ports ∅ []))
    (mk_pci 0 ∅ (replicate 32 zero_dev) 0) (mk_net (slab_boot ∅) 0 0 0 0 (replicate 8 0) 0)
    (<[32%nat := Some TimerCallback]> (replicate 256 None)) 41 0 (replicate 4 zero_cpu) 1 true.
Definition tick_regs : registers := mk_regs 0 0 0 0 0 0 0 0 0 0 0 0 0 0 0 32 0 0x401000 0x23 0x202 0x3FFFFFF0 0x1B.

Lemma demo_machine_k : m_k demo_machine = clocked_kernel.
Proof. reflexivity. Qed.

(** The scheduler does not look at the page tables. *)
Lemma sched_ok_mm k x cfs rt glob : sched_ok k cfs rt glob -> sched_ok (set_k_mm x k) cfs rt glob.
Proof.
  intros [Hinv Hl]. split; [|exact Hl].
  apply (sched_inv_ext k); [exact Hinv|reflexivity|by intros|reflexivity|exact (si_current _ _ _ _ Hinv)].
Qed.
Lemma tasks_mm k x t : k_tasks k !! k_current k = Some t -> k_tasks (set_k_mm x k) !! k_current (set_k_mm x k) = Some t.
Proof. done. Qed.
Lemma demo_running : k_tasks demo_kernel !! k_current demo_kernel = Some demo_task.
Proof.
  unfold demo_task. destruct (k_tasks demo_kernel !! k_current demo_kernel) eqn:E; [reflexivity|]. vm_compute in E. discriminate.
Qed.

(** The tick is counted and the running thread is marked. *)
Lemma timer_interrupt_witness :
  exists s' t', dispatch_irq tick_regs demo_machine = Done (tt, s') /\ jiffies s' = 42 /\
    k_tasks (m_k s') !! k_current (m_k demo_machine) = Some t' /\ Z.testbit (t_flags t') 0 = true.
Proof.
  destruct (timer_interrupt demo_machine tick_regs demo_task Fair [task_b; task_a] [] demo_glob)
    as (s' & E & _ & Hj & _ & Ht & _).
  - exact (proj1 demo_apic_pages).
  - reflexivity.
  - reflexivity.
  - rewrite demo_machine_k. apply sched_ok_mm, demo_kernel_ok.
  - rewrite demo_machine_k. apply tasks_mm, demo_running.
  - vm_compute. reflexivity.
  - intros _. vm_compute. discriminate.
  - exists s', (ticked Fair demo_task). split; [exact E|]. split; [exact Hj|]. split.
    + rewrite Ht. apply lookup_insert_eq.
    + unfold ticked, need_resched. cbn [t_flags set_t_flags]. rewrite Z.lor_spec. apply orb_true_r.
Defined.

(** ** The program of "init" *)

Lemma demo_elf_bytes : Forall is_byte demo_elf.
Proof.
  apply Forall_forall. intros x Hx. assert (forallb (fun b => (0 <=? b) && (b <? 256)) demo_elf = true) as Hall by (vm_compute; reflexivity).
  rewrite forallb_forall in Hall. specialize (Hall x ltac:(by apply list_elem_of_In)). unfold is_byte. lia.
Qed.
Lemma set_g_k_mm g k x : k_mm (g_k (set_g_k (set_k_mm x k) g)) = x.
Proof. reflexivity. Qed.
Lemma set_g_k_running g k x t :
  k_tasks k !! k_current k = Some t ->
  k_tasks (g_k (set_g_k (set_k_mm x k) g)) !! k_current (g_k (set_g_k (set_k_mm x k) g)) = Some t.
Proof. done. Qed.

(** The image of three bytes runs at 0x401000. *)
Lemma exec_user_program_starts_witness :
  safe False (exec_user_program demo_elf) (m_g demo_machine) (fun res g' =>
    res = Some (0x3FFFFFF0, 0x401000) /\ exists p, let s' := k_mm (g_k g') in
      translate (mm_mem s') (cr3_reg s') 0x401000 = user_page p /\
      bytes_at (mm_mem s') (phys_to_virt p) (page_bytes demo_elf demo_phdr 0) /\
      translate (mm_mem s') (cr3_reg s') 0x3FFFF000 = None).
Proof.
  change (m_g demo_machine) with (set_g_k clocked_kernel demo_g).
  pose proof (set_g_k_mm demo_g demo_kernel (machine_space LAPIC_BASE_PHYS IOAPIC_BASE_PHYS 0x9000)) as Emm.
  fold clocked_kernel in Emm.
  eapply safe_mono; [apply (proj2 (exec_user_program_starts (set_g_k clocked_kernel demo_g) demo_elf machine_tables 0)
    demo_task 64 1 [demo_phdr] 0x401000)| |]; rewrite ?Emm, ?demo_pages.
  - apply apic_tables.
  - reflexivity.
  - exact machine_root.
  - apply set_g_k_running, demo_running.
  - vm_compute. reflexivity.
  - vm_compute. reflexivity.
  - vm_compute. reflexivity.
  - vm_compute. reflexivity.
  - vm_compute. reflexivity.
  - apply Forall_singleton. intros _. vm_compute. repeat split; congruence.
  - exact demo_elf_bytes.
  - apply (bool_decide_eq_true_1 (NoDup (vpn <$> [0xB8000; 0x401000]))). vm_compute. reflexivity.
  - intros x ->%list_elem_of_singleton. vm_compute. reflexivity.
  - intros Hlt. exfalso. change (40 < 8) in Hlt. lia.
  - intros res g' (-> & root & frames & [_ [Hc _] [Hlen _] Hpg _ Hrest _ _] & _). split; [reflexivity|].
    destruct frames as [|p frames]; [discriminate|]. destruct (Hpg 0%nat _ _ p eq_refl eq_refl) as (_ & Ht & Hb).
    exists p. cbv zeta. rewrite Hc. split; [exact Ht|]. split; [exact Hb|]. apply Hrest.
    + vm_compute. reflexivity.
    + vm_compute. discriminate.
    + intros x ->%list_elem_of_singleton. vm_compute. discriminate.
Defined.

(** ** The boot sequence *)

#[local] Existing Instance demo_desc_layout.
#[local] Instance demo_boot_layout : BootLayout := Build_BootLayout 0xFFFFFFFF80004000 0x100300 0x100400 [0xFA; 0xF4] 0x100700 0x200000.

Lemma demo_heads : heads_ok.
Proof.
  split.
  - apply (bool_decide_eq_true_1 (NoDup heads)). vm_compute. reflexivity.
  - intros x Hx. left. assert (forallb (fun x => x <? 0x1000000) heads = true) as Hall by (vm_compute; reflexivity).
    rewrite forallb_forall in Hall. apply Z.ltb_lt, Hall. by apply list_elem_of_In.
Qed.

(** The machine the boot loader leaves: nine pages of memory with the boot page
    tables, which map the first 2 MB. *)
Definition boot_ram : mem :=
  poke64 (poke64 (poke64 (ram_pages 9) (phys_to_virt 0x1000) 0x2003) (phys_to_virt 0x2000) 0x3003) (phys_to_virt 0x3000) 0x83.
Definition boot_machine : machine := set_m_k (set_k_mm (mk_mm (mk_pmm [] 0 0 0 boot_ram) 0x1000 0 []) demo_boot) demo_machine.

Definition finished {B} (x : outcome (B * machine)) : bool := match x with Done _ => true | _ => false end.
Lemma finished_done (x : outcome (unit * machine)) : finished x = true -> exists m', x = Done (tt, m').
Proof. destruct x as [[[] m']| | |]; try discriminate. by exists m'. Qed.

Lemma start_kernel_runs_init_witness :
  exists m' ti, start_kernel 3 boot_machine = Done (tt, m') /\ k_tasks (m_k m') !! k_current (m_k m') = Some ti /\
    t_pid ti = 1 /\ t_name ti = init_name /\ m_if m' = true.
Proof.
  destruct (start_kernel_runs_init demo_heap_base 3 boot_machine) as [Hdone _].
  - split; [by vm_compute|]. split; [exact demo_heads|]. split; [reflexivity|]. split; [reflexivity|]. vm_compute. discriminate.
  - destruct (finished_done (start_kernel 3 boot_machine)) as [m' E]; [vm_compute; reflexivity|].
    destruct (Hdone m' E) as [(boot & init & kworker & ti & tw & _ & Hc & _ & Hi & _) Hif].
    exists m', ti. rewrite Hc. destruct Hi as [Ht Hp Hn _ _ _]. exact (conj E (conj Ht (conj Hp (conj Hn Hif)))).
Defined.

(** Three threads, the last of them real time; a signal to a task that exists and
    to one that does not. *)
Definition demo_events : list kevent :=
  [EvThread init_name 0x100300 0 SCHED_NORMAL; EvYield; EvThread kworker_name 0x100400 0 SCHED_NORMAL; EvTick; EvYield; EvYield; EvKill 2 9;
   EvKill 7 9; EvThread kworker_name 0x100500 0 SCHED_FIFO; EvExit; EvSigaction 2 0x400000; EvTick].

Lemma scheduler_refines_witness :
  exists k' cfs rt glob, (sched_init;;; kernel_run 10 demo_events) demo_boot = Done ([1; 0; 2; 0; 0; 0; 0; -1; 3; 0; 0; 0], k') /\
    sched_ok k' cfs rt glob /\ pid_of k' <$> cfs = [1; 2] /\ pid_of k' <$> rt = [3] /\ pid_of k' <$> glob = [3; 2; 1; 0] /\
    pid_of k' (k_current k') = 3.
Proof.
  destruct (scheduler_refines demo_heap_base demo_events 10 demo_boot) as (k' & cfs & rt & glob & E & Hok & Hf & Hr & Ha & Hc & _).
  - by vm_compute.
  - exact demo_heads.
  - reflexivity.
  - reflexivity.
  - repeat constructor; simpl; lia.
  - simpl. lia.
  - vm_compute. discriminate.
  - exists k', cfs, rt, glob. split; [exact E|]. split; [exact Hok|]. split; [exact Hf|]. split; [exact Hr|]. split; [exact Ha|exact Hc].
Defined.
